(* ===== verification/_CoqProject ===== *)
-Q . S2P
Prelude.v
Disk.v
Libc.v
Effects.v
Superblock.v
Bitmap.v
Inode.v
Directory.v
Fs.v
File.v
Format.v
Spec.v
Consistency.v
Room.v
Namespace.v
Mount.v
Nodes.v
Refinement.v
Sessions.v
Typing.v
Main.v
Crash.v
Halt.v
Tear.v
