(* ===== verification/Prelude.v ===== *)
(** * SimpleFS: a verification development for a user-space block file system

    [src/src] is a FUSE file system in Rust.  It keeps an image of 10 MB in blocks of 512
    bytes: a superblock (block 0), a bitmap of the blocks in use (1 to 5), a table of
    inodes (6 to 30) and data blocks (from 31 on).  Files have at most 20 blocks of 510
    bytes, ten of them named in the inode and the others in an indirect block;
    directories have at most ten blocks of 15 entries.

    ** Parts of the program and of the development

    - [Prelude]: notations for the Rust integer types (a value is a [Z] within the bounds
      of its type, casts are written out), slices of byte lists, searches in lists, the
      tactics [dlia], [Z_true], [Z_false] and the hint database [simplefs].
    - [Disk] ([disk.rs]): programs are trees of effects ([prog]): block accesses, the size
      of the image, truncation, readings of the clock, panics.  [run] gives them their
      meaning on an image, [wp] is total correctness, [loop] and [for_in] are the loops.
    - [Libc] ([disk.rs]): the bodies of the methods of [Disk], over the system calls, which
      are a parameter with the documented behaviour of POSIX as hypothesis; [exec_refines]
      says that [run] describes what they do.
    - [Effects]: the writes of an execution ([trace]), the images a crash can leave
      ([crash_image]), a type-and-effect judgement for programs ([has_type]) with its
      soundness, on an image and on any operating system, and rules for crash safety.
    - [Superblock] ([superblock.rs]), [Bitmap] ([bitmap.rs]), [Inode] ([inode.rs]),
      [Directory] ([directory.rs]): the data structures on the disk and their operations,
      every one translated under its own name.
    - [Fs] ([fs.rs]): the FUSE handlers ([getattr], [lookup], [readdir], [open], [read],
      [write], [create], [mkdir], [unlink], [rmdir], [setattr]), [format_new_fs] and
      [mount].  A handler takes the superblock of the [SimpleFS] structure and gives the
      reply and the new superblock.  The loops of the handlers are definitions of their
      own ([read_loop], [find_free_inode], [grow], [write_loop], [free_blocks]).
    - [File]: what [read] and [write] do to the contents of a file.
    - [Format]: what [format_new_fs] and [mount] do to an image.
    - [Spec]: the file system as a tree, a finite map from inode numbers to files (bytes)
      and directories (maps from names to numbers), with an operation per handler.
    - [Consistency]: the invariant of a mounted file system ([consistent]: the blocks of
      every node, the free-space map, the types of the entries), the tree it stores
      ([abs]), and the lemma [change_consistent] about operations that change one inode.
    - [Room]: the free blocks, what an operation takes of them ([spent]), and the number of
      blocks a tree needs ([space]).
    - [Namespace], [Mount], [Nodes]: [create], [mkdir], [unlink], [rmdir]; [mount]; and
      [getattr], [lookup], [setattr], [read], [write], [readdir], [open], each in terms of
      the tree.
    - [Refinement]: the handlers implement [Spec], one by one.
    - [Sessions]: a mount and any number of operations after it, and restarts.
    - [Typing]: the type and effect of every function of the program.
    - [Main] ([main.rs]): the process, its lines and exit codes, the mount and the session;
      [fuser] is a parameter.
    - [Crash], [Halt], [Tear]: what the next mount finds when the machine stops inside
      [create] or [mkdir]; inside [setattr], [unlink], [rmdir] or the first mount; and
      inside [write].

    ** What is proved

    - Refinement: each of the eleven handlers, for a request of the kernel ([kernel]) within
      the limits of the program ([within]), on a mounted file system with enough free
      blocks ([room]), ends normally, replies what [Spec] promises and leaves a mounted
      file system with the tree of [Spec] ([handlers_implement_spec]); from a blank image
      every sequence of such operations, of any length, whose tree always fits on the
      disk ([fits]) runs to its end ([sessions_complete]).  The bitmap is the
      abstract allocator ([allocate_block_refines], [mark_free_refines]); the system calls
      implement the block operations ([exec_refines]).  The tree survives a restart
      ([sessions_persist]), and so it does from one process to the next ([main_persists]).
    - Types: on any image, well-formed or not, and over an operating system that fails at
      any time, a session ends with typed replies or a panic, never in an endless loop
      ([sessions_type_sound], [sessions_survive_io_errors]).
    - Crashes: [create] and [mkdir] leave the old tree or the new one, perhaps with a node
      under no name ([create_crash_safe], [mkdir_crash_safe]); [setattr] is atomic
      ([setattr_crash_atomic]); [write], [unlink] and [rmdir] leave every other node alone
      ([write_crash_isolated], [unlink_crash_isolated], [rmdir_crash_isolated]).  What
      [unlink] does to the free-space map and what a format leaves are defects.
    - Invariants: no block is lost or used twice ([blocks_owned_once]); a format
      establishes the invariant of the map ([format_map_establishes]); a mount always ends
      ([mount_total]).
    - Functional behaviour: [write_contents], [read_contents], [dir_add_entry_correct],
      [dir_remove_entry_correct], [readdir_lists], [path_resolve_walks],
      [dir_find_first_match], [is_allocated_correct], [check_permission_any_class].
    - Round trips: inodes, superblock, directory entries, block pointers, partial writes,
      allocation and release, [create] and [unlink], [write] and [read], [mount].
    - Isolation and errors: [write_isolated], [readers_silent], [namespace_refusals],
      [write_refused], [dir_add_entry_errors], [read_superblock_magic],
      [open_checks_write], [main_usage], [main_ignores_options].
    - Defects of the program, proved as they are: [growth_destroys_inodes] (the inodes of
      [create] and [mkdir] lie in the data area), [inode_slots], [write_no_space_leaks],
      [write_wraps_around], [long_name_not_found], [unlink_crash_exposes],
      [format_crash_unnoticed].

    ** The limits of the theorems

    The kernel does not keep to what the program can do.  [ready] has two parts: [kernel]
    is what the kernel guarantees of a request as long as no file is removed that is still
    open (the handlers free the blocks of a file when its name is removed, and go on
    writing to them through a handle), [within] what the program needs besides: a new name
    of at most 28 bytes of UTF-8 in a directory of fewer than 150 entries, and a write
    that ends before its blocks exceed 32 bits.  Requests to look a name
    up or to remove it have no limits.  [Spec] describes what the handlers do: [setattr]
    ignores the size, and [open] looks at the write bits of all classes.  It leaves open
    the order of a listing; [readdir_lists] says that it is that of the disk.

    The program gives files the inode numbers 1000 to 2000 and directories 500 to 900,
    but its inode table holds 150 inodes.  The other inodes are in the blocks 89 to 339,
    which the bitmap has as free.  [consistent] therefore asks that no block of this area
    is marked, and the theorems on handlers ask for [room]: enough free blocks before
    block 89, so that the allocator, which takes the lowest free block, does not reach the
    area.  A fresh disk has 57 of them.  [space] counts the blocks a tree needs: those of
    the files, and of each directory as many as it needed when it was largest, since
    [dir_remove_entry] gives no block back; a session [fits] when that number and what the
    next operation takes never exceed 58.  [cost_fits] bounds it by the sum of what the
    operations take.  The old inodes on an image that is formatted
    again are not cleared; the theorems on fresh disks ask for an image without them
    ([no_stale_inodes]).  The defects outside of these limits are [long_name_not_found],
    [write_wraps_around], [growth_destroys_inodes] and [write_no_space_leaks].

    ** Bounds, fuel and parameters

    - A [while] loop takes fuel; a loop whose fuel runs out is [Stuck], which [run] maps to
      [NoMeaning].  The fuel is the number of bytes left ([read_loop], [write_loop]), the
      number of candidates ([find_free_inode]) or of blocks ([grow]) plus one.  It is
      enough on any image: [sessions_type_sound] excludes [NoMeaning], and the theorems
      on the behaviour of a handler say that the result is [Done].
    - [Build] chooses between overflow checks (debug) and wrap-around (release) of Rust's
      arithmetic; the theorems hold for both.
    - [Clock] is the system clock; [clock_ok] says that it shows a time after 1970 that fits
      in 63 bits.
    - [DirBuffer] is the reply buffer of [fuser], [Fuser] the rest of it that [main] uses.

    ** What is not modelled

    [simplefs.c] (the C program the Rust one replaces), the build files, [fuser] (the
    protocol of the kernel, the attributes it caches), the request arguments the handlers
    ignore, the text of panics and of the message of a mount that finds a damaged image,
    and a closed standard output.  A handler runs to its end before the next one starts:
    the methods of [fuser::Filesystem] take [&mut self].  In [Crash], [Halt] and [Tear] a block is
    written at once or not at all, and it is on the disk when [Disk::write_block] returns, which
    calls [fsync]; crashes inside a second format of an image are only covered by
    [sessions_type_sound]. *)
From stdpp Require Export base tactics option list list_numbers numbers gmap strings.
From Stdlib Require Export Lia ZArith.

Open Scope Z_scope.

(** ** Machine integers

    An unsigned [w]-bit integer is a [Z] in [[0, 2^w)]; the abbreviations name the
    Rust type a [Z] stands for.  Casts ([as]) are written with the functions below. *)
Abbreviation u8 := Z (only parsing).
Abbreviation u16 := Z (only parsing).
Abbreviation u32 := Z (only parsing).
Abbreviation u64 := Z (only parsing).
Abbreviation i32 := Z (only parsing).
Abbreviation i64 := Z (only parsing).
Abbreviation usize := Z (only parsing).

(** A Rust [&str], [&[u8]], [Vec<u8>] or byte array is the list of its bytes. *)
Abbreviation bytes := (list Z) (only parsing).

Definition as_u8 (x : Z) : u8 := x mod 256.
Definition as_u16 (x : Z) : u16 := x mod 65536.
Definition as_u32 (x : Z) : u32 := x mod 4294967296.
Definition as_u64 (x : Z) : u64 := x mod 18446744073709551616.
(** The targets the code is built for have 64-bit pointers. *)
Definition as_usize (x : Z) : usize := as_u64 x.
Definition as_i64 (x : Z) : i64 :=
  (x + 9223372036854775808) mod 18446744073709551616 - 9223372036854775808.

Definition is_u8 (x : Z) : Prop := 0 ≤ x < 256.
Definition is_u16 (x : Z) : Prop := 0 ≤ x < 65536.
Definition is_u32 (x : Z) : Prop := 0 ≤ x < 4294967296.
Definition is_i64 (x : Z) : Prop := -9223372036854775808 ≤ x < 9223372036854775808.

#[export] Instance is_u8_dec x : Decision (is_u8 x).
Proof. unfold is_u8. apply _. Defined.
#[export] Instance is_u16_dec x : Decision (is_u16 x).
Proof. unfold is_u16. apply _. Defined.
#[export] Instance is_u32_dec x : Decision (is_u32 x).
Proof. unfold is_u32. apply _. Defined.
#[export] Instance is_i64_dec x : Decision (is_i64 x).
Proof. unfold is_i64. apply _. Defined.

(** Length and indices of byte lists are compared as [Z]. *)
Definition zlen {A} (l : list A) : Z := Z.of_nat (length l).

(** ** Slices, with Rust's range checks

    [None] is the panic of an out-of-range index or of a length mismatch. *)
Section slices.
Context {A : Type}.
Implicit Types (l src : list A) (a b i : Z).

(** [l[i]] *)
Definition index (i : Z) (l : list A) : option A :=
  if (0 <=? i) then l !! Z.to_nat i else None.

(** [l[i] = x] *)
Definition set_index (i : Z) (x : A) (l : list A) : option (list A) :=
  if (0 <=? i) && (i <? zlen l) then Some (<[Z.to_nat i := x]> l) else None.

(** [&l[a..b]] *)
Definition slice (a b : Z) (l : list A) : option (list A) :=
  if (0 <=? a) && (a <=? b) && (b <=? zlen l)
  then Some (take (Z.to_nat (b - a)) (drop (Z.to_nat a) l)) else None.

(** Overwriting [l] with [src] from position [a], without a check. *)
Definition splice (a : Z) (src l : list A) : list A :=
  take (Z.to_nat a) l ++ src ++ drop (Z.to_nat a + length src) l.

(** [l[a..b].copy_from_slice(src)] *)
Definition copy_from_slice (a b : Z) (src l : list A) : option (list A) :=
  if (0 <=? a) && (a <=? b) && (b <=? zlen l) && (zlen src =? b - a)
  then Some (splice a src l) else None.
End slices.

(** [vec![0u8; n]] *)
Definition zeros (n : Z) : bytes := replicate (Z.to_nat n) 0.

(** The bytes of a Rust string literal. *)
Definition str (s : string) : bytes :=
  (λ c, Z.of_nat (Ascii.nat_of_ascii c)) <$> String.list_ascii_of_string s.

(** ** Little-endian byte strings: [to_le_bytes] and [from_le_bytes] *)
Fixpoint to_le (n : nat) (x : Z) : bytes :=
  match n with
  | O => []
  | S n => x mod 256 :: to_le n (x / 256)
  end.

Fixpoint from_le (l : bytes) : Z :=
  match l with
  | [] => 0
  | b :: l => b + 256 * from_le l
  end.

(** [uN::from_le_bytes([data[off], .., data[off + n - 1]])] *)
Definition read_le (n : Z) (data : bytes) (off : Z) : option Z :=
  from_le <$> slice off (off + n) data.

(** ** Lemmas *)

Create HintDb simplefs.
Create Rewrite HintDb simplefs.

(** [destruct] the first [if]/[match] on a comparison of integers. *)
Ltac case_Z :=
  match goal with
  | |- context [?a =? ?b] => destruct (Z.eqb_spec a b)
  | |- context [?a <? ?b] => destruct (Z.ltb_spec a b)
  | |- context [?a <=? ?b] => destruct (Z.leb_spec a b)
  end.

(** [lia] with quotients and remainders. *)
Ltac dlia := Z.to_euclidean_division_equations; lia.

(** Decide a boolean comparison by [lia] and rewrite with it. *)
Ltac Z_true c := replace c with true by (symmetry; rewrite ?andb_true_iff, ?negb_true_iff; first [lia | dlia]).
Ltac Z_false c := replace c with false by (symmetry; rewrite ?andb_false_iff, ?negb_false_iff; first [lia | dlia]).

Section casts.
Lemma as_u8_id x : is_u8 x → as_u8 x = x.
Proof. apply Z.mod_small. Qed.
Lemma as_u16_id x : is_u16 x → as_u16 x = x.
Proof. apply Z.mod_small. Qed.
Lemma as_u32_id x : is_u32 x → as_u32 x = x.
Proof. apply Z.mod_small. Qed.
Lemma as_u64_id x : 0 ≤ x < 18446744073709551616 → as_u64 x = x.
Proof. apply Z.mod_small. Qed.
Lemma as_usize_id x : 0 ≤ x < 18446744073709551616 → as_usize x = x.
Proof. apply Z.mod_small. Qed.
Lemma as_i64_id x : is_i64 x → as_i64 x = x.
Proof. unfold is_i64, as_i64. intros. rewrite Z.mod_small; lia. Qed.
Lemma as_u16_range x : is_u16 (as_u16 x).
Proof. apply Z.mod_pos_bound. lia. Qed.
Lemma as_u32_range x : is_u32 (as_u32 x).
Proof. apply Z.mod_pos_bound. lia. Qed.
Lemma as_i64_mod x : as_i64 (x mod 18446744073709551616) = as_i64 x.
Proof. unfold as_i64. rewrite Zplus_mod_idemp_l. done. Qed.
End casts.

Section slice_lemmas.
Context {A : Type}.
Implicit Types (l src : list A) (a b i : Z).

Lemma length_splice a src l :
  0 ≤ a → a + zlen src ≤ zlen l → length (splice a src l) = length l.
Proof.
  unfold splice, zlen. intros. rewrite !length_app, length_take, length_drop. lia.
Qed.

Lemma zlen_splice a src l :
  0 ≤ a → a + zlen src ≤ zlen l → zlen (splice a src l) = zlen l.
Proof. intros. unfold zlen. f_equal. by apply length_splice. Qed.

Lemma lookup_splice a src l (i : nat) :
  0 ≤ a → a + zlen src ≤ zlen l →
  splice a src l !! i =
    if decide (a ≤ Z.of_nat i < a + zlen src) then src !! (i - Z.to_nat a)%nat else l !! i.
Proof.
  unfold splice, zlen. intros.
  destruct (decide (Z.of_nat i < a)).
  - rewrite decide_False by lia. rewrite lookup_app_l by (rewrite length_take; lia).
    apply lookup_take_lt. lia.
  - rewrite lookup_app_r by (rewrite length_take; lia). rewrite length_take.
    case_decide.
    + rewrite lookup_app_l by lia. f_equal. lia.
    + rewrite lookup_app_r by lia. rewrite lookup_drop. f_equal. lia.
Qed.

Lemma slice_Some a b l :
  0 ≤ a ≤ b → b ≤ zlen l →
  slice a b l = Some (take (Z.to_nat (b - a)) (drop (Z.to_nat a) l)).
Proof. intros. unfold slice. Z_true ((0 <=? a) && (a <=? b) && (b <=? zlen l)). done. Qed.

Lemma copy_from_slice_Some a b src l :
  0 ≤ a → b ≤ zlen l → zlen src = b - a →
  copy_from_slice a b src l = Some (splice a src l).
Proof.
  intros. unfold copy_from_slice, zlen in *.
  Z_true ((0 <=? a) && (a <=? b) && (b <=? Z.of_nat (length l)) && (Z.of_nat (length src) =? b - a)).
  done.
Qed.

Lemma index_lookup i l : 0 ≤ i → index i l = l !! Z.to_nat i.
Proof. intros. unfold index. Z_true (0 <=? i). done. Qed.

Lemma index_Some `{Inhabited A} i l : 0 ≤ i < zlen l → index i l = Some (l !!! Z.to_nat i).
Proof.
  unfold zlen. intros. rewrite index_lookup by lia. apply list_lookup_lookup_total_lt. lia.
Qed.

Lemma set_index_Some i x l :
  0 ≤ i < zlen l → set_index i x l = Some (<[Z.to_nat i := x]> l).
Proof. intros. unfold set_index. Z_true ((0 <=? i) && (i <? zlen l)). done. Qed.

Lemma zlen_insert (i : nat) x l : zlen (<[i := x]> l) = zlen l.
Proof. unfold zlen. by rewrite length_insert. Qed.

(** The part of a spliced list that was written, and a part that was not. *)
Lemma slice_splice_same a b src l :
  0 ≤ a → a + zlen src ≤ zlen l → b = a + zlen src → slice a b (splice a src l) = Some src.
Proof.
  intros ? ? ->. rewrite slice_Some by (rewrite ?zlen_splice; unfold zlen in *; lia).
  f_equal. unfold splice, zlen in *.
  rewrite drop_app_length' by (rewrite length_take; lia).
  replace (Z.to_nat _) with (length src) by lia. by rewrite take_app_length.
Qed.

Lemma slice_splice_other a b c src l :
  0 ≤ c → c + zlen src ≤ zlen l → 0 ≤ a ≤ b → b ≤ zlen l →
  b ≤ c ∨ c + zlen src ≤ a →
  slice a b (splice c src l) = slice a b l.
Proof.
  intros. rewrite !slice_Some by (rewrite ?zlen_splice; lia). f_equal.
  apply list_eq. intros i.
  destruct (decide (i < Z.to_nat (b - a)))%nat.
  - rewrite !lookup_take_lt, !lookup_drop by done.
    rewrite lookup_splice by lia. rewrite decide_False by lia. done.
  - rewrite !lookup_take_ge by lia. done.
Qed.

Lemma slice_all l : slice 0 (zlen l) l = Some l.
Proof.
  rewrite slice_Some by (unfold zlen; lia). f_equal. unfold zlen.
  rewrite drop_0, take_ge; [done|lia].
Qed.

Lemma slice_length a b l l' : slice a b l = Some l' → zlen l' = b - a.
Proof.
  unfold slice, zlen. destruct (_ && _) eqn:E; [|done]. intros [= <-].
  rewrite length_take, length_drop. lia.
Qed.
Lemma splice_ext a src l l' :
  0 ≤ a → a + zlen src ≤ zlen l → length l' = length l →
  (∀ i : nat, l' !! i = if decide (a ≤ Z.of_nat i < a + zlen src)
                        then src !! (i - Z.to_nat a)%nat else l !! i) →
  l' = splice a src l.
Proof. intros. apply list_eq. intros i. by rewrite lookup_splice. Qed.

(** Two adjacent writes are one. *)
Lemma splice_splice a b s1 s2 l :
  0 ≤ a → a + zlen s1 = b → b + zlen s2 ≤ zlen l →
  splice b s2 (splice a s1 l) = splice a (s1 ++ s2) l.
Proof.
  intros Ha Hb Hl. assert (0 ≤ zlen s1 ∧ 0 ≤ zlen s2) as [] by (unfold zlen; lia).
  assert (zlen (s1 ++ s2) = zlen s1 + zlen s2) as Hz by (unfold zlen; rewrite length_app; lia).
  apply splice_ext; [lia|lia|rewrite !length_splice; rewrite ?zlen_splice; lia|].
  intros i. rewrite lookup_splice by (rewrite ?zlen_splice; lia).
  rewrite lookup_splice by lia. rewrite Hz.
  destruct (decide (b ≤ Z.of_nat i < b + zlen s2)).
  - rewrite decide_True by lia. rewrite lookup_app_r by (unfold zlen in *; lia).
    f_equal. unfold zlen in *. lia.
  - destruct (decide (a ≤ Z.of_nat i < a + zlen s1)).
    + rewrite decide_True by lia. rewrite lookup_app_l by (unfold zlen in *; lia). done.
    + by rewrite decide_False by lia.
Qed.

Lemma splice_nil a l : splice a [] l = l.
Proof. unfold splice. simpl. rewrite Nat.add_0_r. apply take_drop. Qed.
Lemma splice_app_l a src l l' :
  0 ≤ a → a + zlen src ≤ zlen l → splice a src (l ++ l') = splice a src l ++ l'.
Proof.
  unfold splice, zlen. intros. rewrite take_app_le by lia.
  rewrite drop_app_le by lia. by rewrite <-!app_assoc.
Qed.
End slice_lemmas.

Section bytes_lemmas.
Lemma zlen_zeros n : 0 ≤ n → zlen (zeros n) = n.
Proof. unfold zlen, zeros. rewrite length_replicate. lia. Qed.

Lemma Forall_zeros n : Forall is_u8 (zeros n).
Proof. apply Forall_replicate. unfold is_u8. lia. Qed.

Lemma lookup_zeros n (i : nat) : Z.of_nat i < n → zeros n !! i = Some 0.
Proof. intros. apply lookup_replicate_2. lia. Qed.

Lemma Forall_splice (P : Z → Prop) a src l :
  Forall P src → Forall P l → Forall P (splice a src l).
Proof.
  intros. unfold splice. rewrite !Forall_app. split_and!; auto using Forall_take, Forall_drop.
Qed.

Lemma length_to_le n x : length (to_le n x) = n.
Proof. revert x. induction n; simpl; auto. Qed.

Lemma zlen_to_le n x : zlen (to_le n x) = Z.of_nat n.
Proof. unfold zlen. by rewrite length_to_le. Qed.

Lemma Forall_to_le n x : Forall is_u8 (to_le n x).
Proof.
  revert x. induction n; simpl; constructor; auto. apply Z.mod_pos_bound. lia.
Qed.

Lemma from_to_le n x : from_le (to_le n x) = x mod 256 ^ Z.of_nat n.
Proof.
  revert x. induction n as [|n IH]; intros x; [by rewrite Z.mod_1_r|].
  cbn [to_le from_le]. rewrite IH.
  rewrite Nat2Z.inj_succ, Z.pow_succ_r by lia.
  rewrite Z.rem_mul_r by lia. done.
Qed.


Lemma from_le_range l : Forall is_u8 l → 0 ≤ from_le l < 256 ^ zlen l.
Proof.
  unfold zlen. induction 1 as [|b l Hb _ IH]; [done|].
  cbn [from_le length]. rewrite Nat2Z.inj_succ, Z.pow_succ_r by lia.
  unfold is_u8 in Hb. lia.
Qed.


(** [read_le] of what was just written, and of what a write elsewhere left alone. *)
Lemma read_le_splice_same n x off l :
  0 ≤ off → off + Z.of_nat n ≤ zlen l →
  read_le (Z.of_nat n) (splice off (to_le n x) l) off = Some (x mod 256 ^ Z.of_nat n).
Proof.
  intros. unfold read_le. rewrite slice_splice_same by (rewrite ?zlen_to_le; lia).
  simpl. by rewrite from_to_le.
Qed.

Lemma read_le_splice_other n off c src l :
  0 ≤ n → 0 ≤ c → c + zlen src ≤ zlen l → 0 ≤ off → off + n ≤ zlen l →
  off + n ≤ c ∨ c + zlen src ≤ off →
  read_le n (splice c src l) off = read_le n l off.
Proof. intros. unfold read_le. by rewrite slice_splice_other by lia. Qed.
End bytes_lemmas.

(** The element of a range at which a loop stands is the number of iterations done. *)
Lemma seqZ_split n pre x post :
  seqZ 0 n = pre ++ x :: post → x = zlen pre ∧ 0 ≤ x < n.
Proof.
  intros Hs. assert (seqZ 0 n !! length pre = Some x) as Hl%lookup_seqZ.
  { rewrite Hs. by apply list_lookup_middle. }
  unfold zlen. lia.
Qed.

Section filter_lemmas.
Context {A : Type} (P Q : A → Prop) `{!∀ x, Decision (P x)} `{!∀ x, Decision (Q x)}.

Lemma list_filter_ext_in l : Forall (λ x, P x ↔ Q x) l → filter P l = filter Q l.
Proof.
  induction 1 as [|x l Hx _ IH]; [done|]. rewrite !filter_cons, IH.
  repeat case_decide; tauto.
Qed.
End filter_lemmas.

Section filter_flip.
Context {A : Type} (P Q : A → Prop) `{!∀ x, Decision (P x)} `{!∀ x, Decision (Q x)}.

(** Two predicates that differ at one element of a duplicate-free list. *)
Lemma filter_flip l n :
  NoDup l → n ∈ l → P n → ¬ Q n → (∀ m, m ≠ n → (P m ↔ Q m)) →
  zlen (filter P l) = zlen (filter Q l) + 1.
Proof.
  intros Hnd Hin HP HQ Hother.
  apply list_elem_of_split in Hin as (l1 & l2 & ->).
  apply NoDup_app in Hnd as (_ & H1 & [H2 _]%NoDup_cons).
  rewrite !filter_app, !filter_cons, decide_True, decide_False by done.
  assert (filter P l1 = filter Q l1) as ->.
  { apply list_filter_ext_in. apply Forall_forall. intros m Hm. apply Hother.
    intros ->. apply (H1 n Hm). set_solver. }
  assert (filter P l2 = filter Q l2) as ->.
  { apply list_filter_ext_in. apply Forall_forall. intros m Hm. apply Hother.
    intros ->. done. }
  unfold zlen. rewrite !length_app. simpl. lia.
Qed.

End filter_flip.

(** ** The first result of a search *)
Section first_some.
Context {X Y : Type}.
Implicit Types (f g : X → option Y) (l : list X).

Fixpoint first_some (f : X → option Y) (l : list X) : option Y :=
  match l with
  | [] => None
  | x :: l => match f x with Some y => Some y | None => first_some f l end
  end.

Lemma first_some_ext f g l : (∀ x, x ∈ l → f x = g x) → first_some f l = first_some g l.
Proof.
  induction l as [|x l IH]; [done|]. intros Hfg. simpl. rewrite Hfg by set_solver.
  destruct (g x); [done|]. apply IH. set_solver.
Qed.

Lemma first_some_app f l l' :
  first_some f (l ++ l') =
    match first_some f l with Some y => Some y | None => first_some f l' end.
Proof. induction l as [|x l IH]; [done|]. simpl. by destruct (f x). Qed.

Lemma first_some_None f l : first_some f l = None ↔ ∀ x, x ∈ l → f x = None.
Proof.
  induction l as [|x l IH]; simpl; [by split; [set_solver|]|].
  destruct (f x) eqn:E.
  - split; [done|]. intros H. specialize (H x). rewrite E in H. set_solver.
  - rewrite IH. set_solver.
Qed.

Lemma first_some_elem f l y : first_some f l = Some y → ∃ x, x ∈ l ∧ f x = Some y.
Proof.
  induction l as [|x l IH]; simpl; [done|]. destruct (f x) eqn:E; [set_solver|].
  intros (x' & ? & ?)%IH. set_solver.
Qed.

Lemma first_some_unique f l x y :
  x ∈ l → f x = Some y → (∀ z, z ∈ l → f z = None ∨ f z = Some y) →
  first_some f l = Some y.
Proof.
  intros Hx Hf Hall. destruct (first_some f l) as [y'|] eqn:E.
  - apply first_some_elem in E as (x' & Hx' & Hf'). destruct (Hall x' Hx'); congruence.
  - rewrite first_some_None in E. specialize (E x Hx). congruence.
Qed.

End first_some.

Section first_some_map.
Context {W X Y : Type}.

Lemma first_some_fmap (h : W → X) (f : X → option Y) (l : list W) :
  first_some f (h <$> l) = first_some (f ∘ h) l.
Proof.
  induction l as [|x l IH]; [done|]. cbn [fmap list_fmap first_some].
  change (f (h x)) with ((f ∘ h) x). destruct ((f ∘ h) x); [done|]. apply IH.
Qed.

Lemma first_some_bind (h : W → list X) (f : X → option Y) (l : list W) :
  first_some f (l ≫= h) = first_some (λ x, first_some f (h x)) l.
Proof.
  induction l as [|x l IH]; [done|]. cbn [mbind list_bind first_some].
  rewrite first_some_app. destruct (first_some f (h x)); [done|]. apply IH.
Qed.
End first_some_map.

(** A loop that appends to a list. *)
Section collect.
Context {X Y : Type}.

Lemma foldl_collect (g : X → list Y) (acc : list Y) (l : list X) :
  foldl (λ acc x, acc ++ g x) acc l = acc ++ (l ≫= g).
Proof.
  revert acc. induction l as [|x l IH]; intros acc; [by rewrite app_nil_r|].
  cbn [foldl mbind list_bind]. by rewrite IH, <-app_assoc.
Qed.

Lemma filter_bind (P : Y → Prop) `{!∀ y, Decision (P y)} (g : X → list Y) (l : list X) :
  filter P (l ≫= g) = l ≫= (λ x, filter P (g x)).
Proof.
  induction l as [|x l IH]; [done|]. cbn [mbind list_bind]. by rewrite filter_app, IH.
Qed.

Lemma bind_fmap {W} (g : X → list Y) (h : W → X) (l : list W) : (h <$> l) ≫= g = l ≫= (g ∘ h).
Proof. induction l as [|x l IH]; [done|]. cbn [fmap list_fmap mbind list_bind]. by rewrite IH. Qed.
End collect.

Section layout.
(** Filling a zeroed buffer from left to right, and reading a record back field by
    field. *)
Lemma zlen_app {A} (l1 l2 : list A) : zlen (l1 ++ l2) = zlen l1 + zlen l2.
Proof. unfold zlen. rewrite length_app. lia. Qed.

Lemma zeros_app n m : 0 ≤ n → 0 ≤ m → zeros (n + m) = zeros n ++ zeros m.
Proof. intros. unfold zeros. rewrite Z2Nat.inj_add by lia. apply replicate_add. Qed.

Lemma splice_app {A} a (src pre post : list A) :
  zlen pre = a → splice a src (pre ++ post) = pre ++ src ++ drop (length src) post.
Proof.
  unfold zlen, splice. intros <-. rewrite Nat2Z.id, take_app_length.
  by rewrite drop_app_add.
Qed.

Lemma splice_next a (src pre : bytes) n :
  zlen pre = a → zlen src ≤ n →
  splice a src (pre ++ zeros n) = (pre ++ src) ++ zeros (n - zlen src).
Proof.
  intros Hpre Hn. rewrite splice_app by done. rewrite <-app_assoc. do 2 f_equal.
  unfold zeros, zlen in *. rewrite drop_replicate. f_equal. lia.
Qed.

Lemma splice_first (src : bytes) n :
  zlen src ≤ n → splice 0 src (zeros n) = src ++ zeros (n - zlen src).
Proof. intros. by apply (splice_next 0 src []). Qed.

Lemma slice_app_skip {A} a b (l1 l2 : list A) :
  zlen l1 ≤ a → slice a b (l1 ++ l2) = slice (a - zlen l1) (b - zlen l1) l2.
Proof.
  intros Ha. unfold slice. rewrite zlen_app.
  replace ((0 <=? a) && (a <=? b) && (b <=? zlen l1 + zlen l2)) with
    ((0 <=? a - zlen l1) && (a - zlen l1 <=? b - zlen l1) && (b - zlen l1 <=? zlen l2))
    by (unfold zlen in *; lia).
  destruct (_ && _); [|done]. f_equal. f_equal; [lia|].
  unfold zlen in *. rewrite drop_app_ge by lia. f_equal. lia.
Qed.

Lemma slice_app_here {A} b (l1 l2 : list A) : zlen l1 = b → slice 0 b (l1 ++ l2) = Some l1.
Proof.
  intros <-. rewrite slice_Some by (rewrite ?zlen_app; unfold zlen; lia).
  rewrite drop_0. unfold zlen. rewrite Z.sub_0_r, Nat2Z.id. by rewrite take_app_length.
Qed.

Lemma read_le_app_skip n (l1 l2 : bytes) off :
  zlen l1 ≤ off → read_le n (l1 ++ l2) off = read_le n l2 (off - zlen l1).
Proof. intros. unfold read_le. rewrite slice_app_skip by lia. do 2 f_equal. lia. Qed.

Lemma read_le_app_here n x (l2 : bytes) :
  read_le (Z.of_nat n) (to_le n x ++ l2) 0 = Some (x mod 256 ^ Z.of_nat n).
Proof.
  unfold read_le. rewrite slice_app_here by (rewrite zlen_to_le; lia).
  simpl. by rewrite from_to_le.
Qed.

Lemma read_le_2_here x (l2 : bytes) : is_u16 x → read_le 2 (to_le 2 x ++ l2) 0 = Some x.
Proof. intros. rewrite (read_le_app_here 2). f_equal. by apply Z.mod_small. Qed.
Lemma read_le_4_here x (l2 : bytes) : is_u32 x → read_le 4 (to_le 4 x ++ l2) 0 = Some x.
Proof. intros. rewrite (read_le_app_here 4). f_equal. by apply Z.mod_small. Qed.
Lemma read_le_8_here x (l2 : bytes) :
  is_i64 x → as_i64 <$> read_le 8 (to_le 8 x ++ l2) 0 = Some x.
Proof.
  intros. rewrite (read_le_app_here 8). simpl. f_equal.
  rewrite as_i64_mod. by apply as_i64_id.
Qed.
End layout.

(** Lengths of buffers made of known fields. *)
Ltac zlen_tac :=
  repeat first [ rewrite zlen_app | rewrite zlen_to_le
               | rewrite zlen_zeros by zlen_tac ];
  repeat match goal with H : zlen _ = _ |- _ => rewrite H end;
  first [ done | lia ].

(** Turn a chain of [splice]s into a zeroed buffer into the concatenation of the
    fields. *)
Ltac layout_tac :=
  rewrite splice_first by zlen_tac;
  repeat rewrite splice_next by zlen_tac.

(** Read the next field of a concatenation of fields. *)
Ltac read_field :=
  repeat first [ rewrite read_le_app_skip by zlen_tac | rewrite slice_app_skip by zlen_tac ];
  repeat match goal with
         | |- context [read_le ?n ?l ?off] => progress replace off with 0 by zlen_tac
         end;
  first [ rewrite read_le_4_here by done | rewrite read_le_2_here by done
        | rewrite read_le_8_here by done | rewrite slice_app_here by zlen_tac ];
  cbn [mbind option_bind].

#[export] Hint Resolve Forall_zeros Forall_splice Forall_to_le : simplefs.
