(* ===== verification/Disk.v ===== *)
(** * Disk: [src/disk.rs], the block device every other component uses

    - the constants of the device;
    - [prog], the effects of the program as a tree: the disk accesses
      ([read_block], [write_block], [size], [truncate]), the readings of the system
      clock, and panics.  Every stateful function of the program is a [prog];
    - [run], what a [prog] does to a disk image;
    - [wp], the total-correctness reading of [run]: the program ends normally, in a
      state that satisfies the postcondition.

    [Libc] interprets the same trees through the system calls of [src/disk.rs] and
    proves that [run] describes the result. *)
From S2P Require Import Prelude.

(** Disk size: 10 MB. *)
Definition DISK_SIZE : u64 := 10 * 1024 * 1024.
Definition BLOCK_SIZE : usize := 512.
(** The code reserves [size_of::<u16>()] bytes at the end of every block. *)
Definition PAGE_SIZE : usize := BLOCK_SIZE - 2.
Definition MAX_BLOCKS : u32 := as_u32 DISK_SIZE / as_u32 BLOCK_SIZE.

(** ** Programs *)

(** [Panic]: a Rust panic.  [Stuck]: an execution the model does not give a meaning
    to, either a fuel that ran out or a buffer shorter than a block behind a raw
    pointer (undefined behaviour); the theorems show that it does not happen.  The
    continuation of a disk access gets [None] when the access panicked. *)
Inductive prog (A : Type) : Type :=
| Ret (a : A)
| Panic
| Stuck
| ReadBlock (b : u32) (k : option bytes → prog A)
| WriteBlock (b : u32) (data : bytes) (k : option () → prog A)
| Size (k : option u64 → prog A)
| Truncate (size : u64) (k : option () → prog A)
| Now (k : Z → prog A).
Arguments Ret {A} _.
Arguments Panic {A}.
Arguments Stuck {A}.
Arguments ReadBlock {A} _ _.
Arguments WriteBlock {A} _ _ _.
Arguments Size {A} _.
Arguments Truncate {A} _ _.
Arguments Now {A} _.

#[export] Instance prog_ret : MRet prog := @Ret.

#[export] Instance prog_bind : MBind prog := λ A B f,
  fix bind (p : prog A) : prog B :=
    match p with
    | Ret a => f a
    | Panic => Panic
    | Stuck => Stuck
    | ReadBlock b k => ReadBlock b (λ x, bind (k x))
    | WriteBlock b d k => WriteBlock b d (λ x, bind (k x))
    | Size k => Size (λ x, bind (k x))
    | Truncate n k => Truncate n (λ x, bind (k x))
    | Now k => Now (λ t, bind (k t))
    end.

(** [Option::unwrap] and [expect], and the panics of slices and indices. *)
Definition unwrap {A} (o : option A) : prog A :=
  match o with Some a => Ret a | None => Panic end.

(** [std::panic::catch_unwind(p)]: [None] for a panic.  What [p] did before it
    panicked stays done. *)
Fixpoint catch_unwind {A} (p : prog A) : prog (option A) :=
  match p with
  | Ret a => Ret (Some a)
  | Panic => Ret None
  | Stuck => Stuck
  | ReadBlock b k => ReadBlock b (λ x, catch_unwind (k x))
  | WriteBlock b d k => WriteBlock b d (λ x, catch_unwind (k x))
  | Size k => Size (λ x, catch_unwind (k x))
  | Truncate n k => Truncate n (λ x, catch_unwind (k x))
  | Now k => Now (λ t, catch_unwind (k t))
  end.

(** ** Loops *)

(** The outcome of a loop body: go on ([continue], end of the body), or leave the
    loop ([break], [return]) with a result. *)
Inductive flow (S R : Type) : Type :=
| Continue (s : S)
| Break (r : R).
Arguments Continue {S R} _.
Arguments Break {S R} _.

(** [for x in l { body }] on a loop state. *)
Fixpoint for_in {X S R} (l : list X) (s : S) (body : X → S → prog (flow S R))
  : prog (flow S R) :=
  match l with
  | [] => Ret (Continue s)
  | x :: l =>
      r ← body x s;
      match r with
      | Continue s => for_in l s body
      | Break r => Ret (Break r)
      end
  end.

(** [for x in l { body }] whose body never leaves the loop. *)
Fixpoint for_each {X S} (l : list X) (s : S) (body : X → S → prog S) : prog S :=
  match l with
  | [] => Ret s
  | x :: l => s ← body x s; for_each l s body
  end.

(** [while c { .. }] and [loop { .. }], whose body decides when to leave, with at
    most [fuel] iterations. *)
Fixpoint loop {S R} (fuel : nat) (s : S) (body : S → prog (flow S R)) : prog R :=
  match fuel with
  | O => Stuck
  | S n =>
      r ← body s;
      match r with
      | Continue s => loop n s body
      | Break r => Ret r
      end
  end.

(** ** Integer overflow

    Rust's [+] and [-] panic on overflow in a build with overflow checks (the debug
    profile) and wrap around in one without (the release profile). *)
Class Build := overflow_checks : bool.

Section arith.
Context `{Build}.

Definition arith_u (bound : Z) (x : Z) : prog Z :=
  if (0 <=? x) && (x <? bound) then Ret x
  else if overflow_checks then Panic else Ret (x mod bound).
Definition arith_u16 := arith_u 65536.
Definition arith_u32 := arith_u 4294967296.
Definition arith_usize := arith_u 18446744073709551616.
Definition arith_i64 (x : Z) : prog Z :=
  if (-9223372036854775808 <=? x) && (x <? 9223372036854775808) then Ret x
  else if overflow_checks then Panic else Ret (as_i64 x).
End arith.

(** ** Disk images *)

(** The contents of the image file: its size and its blocks; a block that is not in
    the map is a hole, which reads as zeros, and so does the part of a block beyond
    the end of the file. *)
Record image := Image { img_size : u64; img_blocks : gmap Z bytes }.

Definition img_read (b : u32) (i : image) : bytes :=
  default (zeros BLOCK_SIZE) (img_blocks i !! b).

Definition img_write (b : u32) (d : bytes) (i : image) : image :=
  Image (Z.max (img_size i) ((b + 1) * BLOCK_SIZE)) (<[b := d]> (img_blocks i)).

(** Block numbers have type [u32]. *)
Definition u32_ok (b : Z) : bool := (0 <=? b) && (b <? 4294967296).


(** The whole block is inside the file. *)
Definition img_has (b : u32) (i : image) : bool :=
  u32_ok b && ((b + 1) * BLOCK_SIZE <=? img_size i).

(** [ftruncate]: what is beyond the new end is lost. *)
Definition img_truncate (n : u64) (i : image) : image :=
  Image n (map_imap (λ b d,
    let keep := Z.max 0 (n - b * BLOCK_SIZE) in
    Some (if BLOCK_SIZE <=? keep then d
          else take (Z.to_nat keep) d ++ zeros (BLOCK_SIZE - keep))) (img_blocks i)).

(** The state of an execution: the image and the number of clock readings so far. *)
Record world := World { w_img : image; w_ticks : nat }.

(** The readings of the system clock, in seconds since the Unix epoch. *)
Class Clock := clock_at : nat → Z.

Inductive outcome (A : Type) : Type :=
| Done (a : A) (w : world)
| Panicked (w : world)
| NoMeaning.
Arguments Done {A} _ _.
Arguments Panicked {A} _.
Arguments NoMeaning {A}.

Definition w_read (w : world) (b : u32) : bytes := img_read b (w_img w).
Definition w_has (w : world) (b : u32) : bool := img_has b (w_img w).
Definition w_write (b : u32) (d : bytes) (w : world) : world :=
  World (img_write b d (w_img w)) (w_ticks w).
Definition w_tick (w : world) : world := World (w_img w) (S (w_ticks w)).

Fixpoint run `{Clock} {A} (p : prog A) (w : world) : outcome A :=
  match p with
  | Ret a => Done a w
  | Panic => Panicked w
  | Stuck => NoMeaning
  | ReadBlock b k =>
      if u32_ok b then run (k (if w_has w b then Some (w_read w b) else None)) w
      else NoMeaning
  | WriteBlock b d k =>
      if (zlen d =? BLOCK_SIZE) && u32_ok b then run (k (Some ())) (w_write b d w)
      else NoMeaning
  | Size k => run (k (Some (img_size (w_img w)))) w
  | Truncate n k =>
      if (0 <=? n) && (n <? 9223372036854775808)
      then run (k (Some ())) (World (img_truncate n (w_img w)) (w_ticks w))
      else NoMeaning
  | Now k => run (k (clock_at (w_ticks w))) (w_tick w)
  end.

(** ** The operations of [Disk]

    Their bodies are system calls; [Libc] models them. *)

(** [Disk::read_block(block_num, &mut buf)] on a buffer of [BLOCK_SIZE] bytes, which
    is what every caller passes: the new contents of the buffer.  The block has to be
    inside the file, or [read] returns a short count and the code panics. *)
Definition read_block (block_num : u32) : prog bytes := ReadBlock block_num unwrap.

(** [Disk::write_block(block_num, &buf)] *)
Definition write_block (block_num : u32) (buf : bytes) : prog () :=
  WriteBlock block_num buf unwrap.

(** [Disk::size] *)
Definition size : prog u64 := Size unwrap.

(** [Disk::truncate] *)
Definition truncate (n : u64) : prog () := Truncate n unwrap.

(** [Disk::read_partial(block_num, offset, len, &mut buf)]: the new contents of
    [buf]. *)
Definition read_partial `{Build} (block_num : u32) (offset len : usize) (buf : bytes)
  : prog bytes :=
  block_buf ← read_block block_num;
  sum ← arith_usize (offset + len);
  let end_ := Z.min sum BLOCK_SIZE in
  n ← arith_usize (end_ - offset);
  src ← unwrap (slice offset end_ block_buf);
  unwrap (copy_from_slice 0 n src buf).

(** [Disk::write_partial(block_num, offset, data)] *)
Definition write_partial `{Build} (block_num : u32) (offset : usize) (data : bytes)
  : prog () :=
  block_buf ← read_block block_num;
  sum ← arith_usize (offset + zlen data);
  let end_ := Z.min sum PAGE_SIZE in
  n ← arith_usize (end_ - offset);
  src ← unwrap (slice 0 n data);
  block_buf ← unwrap (copy_from_slice offset end_ src block_buf);
  write_block block_num block_buf.

(** ** Reasoning about programs *)

(** Replace the constants of the device by their values. *)
Ltac consts :=
  change MAX_BLOCKS with 20480 in *; change BLOCK_SIZE with 512 in *;
  change PAGE_SIZE with 510 in *; change DISK_SIZE with 10485760 in *;
  change (as_u32 510) with 510 in *; change (as_u32 512) with 512 in *.

Section run.
Context `{Clock}.

Lemma run_bind {A B} (p : prog A) (f : A → prog B) w :
  run (p ≫= f) w =
    match run p w with
    | Done a w' => run (f a) w'
    | Panicked w' => Panicked w'
    | NoMeaning => NoMeaning
    end.
Proof.
  revert w. induction p as [| | |b k IH|b d k IH|k IH|n k IH|k IH]; intros w; simpl; auto.
  - destruct (u32_ok b); [apply IH|done].
  - destruct (_ && _); [apply IH|done].
  - destruct (_ && _); [apply IH|done].
Qed.

Lemma run_bind_Done {A B} (p : prog A) (f : A → prog B) w a w' :
  run p w = Done a w' → run (p ≫= f) w = run (f a) w'.
Proof. rewrite run_bind. by intros ->. Qed.

Lemma run_ret {A} (a : A) w : run (mret a) w = Done a w.
Proof. done. Qed.

Lemma run_unwrap {A} (o : option A) a w : o = Some a → run (unwrap o) w = Done a w.
Proof. by intros ->. Qed.

Lemma run_read_block b w : w_has w b = true → run (read_block b) w = Done (w_read w b) w.
Proof.
  unfold read_block. simpl. intros Hh. rewrite Hh.
  unfold w_has, img_has in Hh. apply andb_true_iff in Hh as [-> _]. done.
Qed.

Lemma run_write_block b d w :
  zlen d = BLOCK_SIZE → is_u32 b → run (write_block b d) w = Done () (w_write b d w).
Proof.
  unfold is_u32. intros Hd Hb. unfold write_block. cbn [run].
  assert ((zlen d =? BLOCK_SIZE) && u32_ok b = true) as ->; [|done].
  unfold u32_ok. rewrite !andb_true_iff. lia.
Qed.

Lemma run_catch {A} (p : prog A) w :
  run (catch_unwind p) w =
    match run p w with
    | Done a w' => Done (Some a) w'
    | Panicked w' => Done None w'
    | NoMeaning => NoMeaning
    end.
Proof.
  revert w. induction p as [| | |b k IH|b d k IH|k IH|n k IH|k IH]; intros w; simpl; auto.
  - destruct (u32_ok b); [apply IH|done].
  - destruct (_ && _); [apply IH|done].
  - destruct (_ && _); [apply IH|done].
Qed.

Lemma run_arith_u `{Build} bound x w :
  0 ≤ x < bound → run (arith_u bound x) w = Done x w.
Proof. intros. unfold arith_u. by Z_true ((0 <=? x) && (x <? bound)). Qed.

Lemma run_arith_i64 `{Build} x w : is_i64 x → run (arith_i64 x) w = Done x w.
Proof.
  intros. unfold arith_i64, is_i64 in *.
  by Z_true ((-9223372036854775808 <=? x) && (x <? 9223372036854775808)).
Qed.
(** A loop that looks for the first element with a property, and one that only
    computes. *)
Lemma run_for_in_first {X R} (hit : X → option (R * world)) (l : list X)
    (body : X → () → prog (flow () R)) w :
  (∀ x, x ∈ l → run (body x ()) w =
     match hit x with None => Done (Continue ()) w | Some (r, w') => Done (Break r) w' end) →
  run (for_in l () body) w =
    match first_some hit l with
    | None => Done (Continue ()) w
    | Some (r, w') => Done (Break r) w'
    end.
Proof.
  induction l as [|x l IH]; intros Hbody; [done|]. cbn [for_in first_some].
  rewrite run_bind, Hbody by set_solver.
  destruct (hit x) as [[r w']|]; [done|]. apply IH. set_solver.
Qed.

Lemma run_for_each_pure {X S} (f : S → X → S) (l : list X) (s : S) (body : X → S → prog S) w :
  (∀ x s, x ∈ l → run (body x s) w = Done (f s x) w) →
  run (for_each l s body) w = Done (foldl f s l) w.
Proof.
  revert s. induction l as [|x l IH]; intros s Hbody; [done|]. cbn [for_each foldl].
  rewrite run_bind, Hbody by set_solver. apply IH. set_solver.
Qed.
End run.

(** ** Total correctness *)

Definition wp `{Clock} {A} (p : prog A) (Q : A → world → Prop) (w : world) : Prop :=
  match run p w with Done a w' => Q a w' | _ => False end.

Section wp.
Context `{Clock}.

Lemma wp_Done {A} (p : prog A) Q w :
  wp p Q w ↔ ∃ a w', run p w = Done a w' ∧ Q a w'.
Proof.
  unfold wp. destruct (run p w).
  - split; [by eauto|]. intros (?&?&[= -> ->]&?). done.
  - split; [done|]. by intros (?&?&?&?).
  - split; [done|]. by intros (?&?&?&?).
Qed.

Lemma wp_inv {A} (p : prog A) Q w : wp p Q w → ∃ a w', run p w = Done a w' ∧ Q a w'.
Proof. intros Hwp. by apply wp_Done. Qed.

Lemma wp_intro {A} (p : prog A) (Q : A → world → Prop) w a w' :
  run p w = Done a w' → Q a w' → wp p Q w.
Proof. intros Hr HQ. unfold wp. by rewrite Hr. Qed.

Lemma wp_ret {A} (a : A) (Q : A → world → Prop) w : Q a w → wp (mret a) Q w.
Proof. done. Qed.

Lemma wp_bind {A B} (p : prog A) (f : A → prog B) Q w :
  wp p (λ a, wp (f a) Q) w → wp (p ≫= f) Q w.
Proof. unfold wp. rewrite run_bind. destruct (run p w); done. Qed.

Lemma wp_mono {A} (p : prog A) (Q Q' : A → world → Prop) w :
  wp p Q w → (∀ a w', Q a w' → Q' a w') → wp p Q' w.
Proof. unfold wp. destruct (run p w); auto. Qed.

(** A program whose run is known, in front of a continuation. *)
Lemma wp_bind_run {A B} (p : prog A) (f : A → prog B) Q w a w' :
  run p w = Done a w' → wp (f a) Q w' → wp (p ≫= f) Q w.
Proof. intros Hr. unfold wp. by rewrite (run_bind_Done _ _ _ _ _ Hr). Qed.

(** Loops.  [I done s] holds after the elements [done] with the loop state [s]. *)
Lemma wp_for_each {X S} (I : list X → S → world → Prop) (l : list X) (s : S)
    (body : X → S → prog S) w :
  I [] s w →
  (∀ pre x post s w, l = pre ++ x :: post → I pre s w → wp (body x s) (I (pre ++ [x])) w) →
  wp (for_each l s body) (I l) w.
Proof.
  intros HI Hbody.
  assert (∀ pre l' s w, l = pre ++ l' → I pre s w → wp (for_each l' s body) (I l) w)
    as Hgen; [|by apply (Hgen [])].
  intros pre l'. revert pre. induction l' as [|x l' IH]; intros pre s' w' Hl HI'.
  - apply wp_ret. rewrite app_nil_r in Hl. by subst.
  - simpl. apply wp_bind. eapply wp_mono; [by eapply Hbody|].
    intros s'' w'' HI''. apply (IH (pre ++ [x])); [|done]. by rewrite <-app_assoc.
Qed.

Lemma wp_for_in {X S R} (I : list X → S → world → Prop) (Q : R → world → Prop)
    (l : list X) (s : S) (body : X → S → prog (flow S R)) w :
  I [] s w →
  (∀ pre x post s w, l = pre ++ x :: post → I pre s w →
     wp (body x s) (λ r w', match r with
                            | Continue s' => I (pre ++ [x]) s' w'
                            | Break r => Q r w'
                            end) w) →
  wp (for_in l s body)
    (λ r w', match r with Continue s' => I l s' w' | Break r => Q r w' end) w.
Proof.
  intros HI Hbody.
  assert (∀ pre l' s w, l = pre ++ l' → I pre s w →
    wp (for_in l' s body)
      (λ r w', match r with Continue s' => I l s' w' | Break r => Q r w' end) w)
    as Hgen; [|by apply (Hgen [])].
  intros pre l'. revert pre. induction l' as [|x l' IH]; intros pre s' w' Hl HI'.
  - apply wp_ret. rewrite app_nil_r in Hl. by subst.
  - simpl. apply wp_bind. eapply wp_mono; [by eapply Hbody|].
    intros [s''|r] w'' HI''; [|by apply wp_ret].
    apply (IH (pre ++ [x])); [|done]. by rewrite <-app_assoc.
Qed.

(** A [while] loop with an invariant and a measure that bounds the fuel. *)
Lemma wp_loop {S R} (I : S → world → Prop) (measure : S → nat) (Q : R → world → Prop)
    (fuel : nat) (s : S) (body : S → prog (flow S R)) w :
  (measure s < fuel)%nat →
  I s w →
  (∀ s w, I s w →
     wp (body s) (λ r w', match r with
                          | Continue s' => I s' w' ∧ (measure s' < measure s)%nat
                          | Break r => Q r w'
                          end) w) →
  wp (loop fuel s body) Q w.
Proof.
  intros Hm HI Hbody. revert s w Hm HI.
  induction fuel as [|fuel IH]; intros s w Hm HI; [lia|].
  simpl. apply wp_bind. eapply wp_mono; [by apply Hbody|].
  intros [s'|r] w' HQ; [|by apply wp_ret].
  destruct HQ as [HI' Hlt]. apply IH; [lia|done].
Qed.
End wp.

(** ** Images and worlds *)

(** The image has at least the size of a formatted disk, and its blocks are blocks. *)
Definition disk_ok (w : world) : Prop :=
  DISK_SIZE ≤ img_size (w_img w) ∧
  map_Forall (λ _ d, zlen d = BLOCK_SIZE ∧ Forall is_u8 d) (img_blocks (w_img w)).

#[export] Instance disk_ok_dec w : Decision (disk_ok w).
Proof. unfold disk_ok. apply _. Defined.

Section world.
Implicit Types (w : world) (b : u32) (d : bytes).

Lemma w_read_write b b' d w :
  w_read (w_write b d w) b' = if decide (b = b') then d else w_read w b'.
Proof.
  unfold w_read, w_write, img_read, img_write. simpl. rewrite lookup_insert.
  by case_decide.
Qed.
Lemma w_read_write_eq b d w : w_read (w_write b d w) b = d.
Proof. rewrite w_read_write. by rewrite decide_True. Qed.
Lemma w_read_write_ne b b' d w : b ≠ b' → w_read (w_write b d w) b' = w_read w b'.
Proof. intros. rewrite w_read_write. by rewrite decide_False. Qed.
Lemma w_read_tick w b : w_read (w_tick w) b = w_read w b.
Proof. done. Qed.

Lemma disk_ok_has w b : disk_ok w → 0 ≤ b < MAX_BLOCKS → w_has w b = true.
Proof.
  intros [Hs _] Hb. unfold w_has, img_has, u32_ok. consts.
  rewrite !andb_true_iff. lia.
Qed.

Lemma disk_ok_block w b : disk_ok w → zlen (w_read w b) = BLOCK_SIZE ∧ Forall is_u8 (w_read w b).
Proof.
  intros [_ Hb]. unfold w_read, img_read.
  destruct (img_blocks (w_img w) !! b) as [d|] eqn:E; simpl.
  - by apply (Hb b d E).
  - split; [by apply zlen_zeros|apply Forall_zeros].
Qed.
Lemma disk_ok_zlen w b : disk_ok w → zlen (w_read w b) = BLOCK_SIZE.
Proof. intros. by apply disk_ok_block. Qed.
Lemma disk_ok_u8 w b : disk_ok w → Forall is_u8 (w_read w b).
Proof. intros. by apply disk_ok_block. Qed.

Lemma disk_ok_write w b d :
  disk_ok w → zlen d = BLOCK_SIZE → Forall is_u8 d → disk_ok (w_write b d w).
Proof.
  intros [Hs Hb] Hl Hu. split; simpl; [lia|]. by apply map_Forall_insert_2.
Qed.
Lemma disk_ok_tick w : disk_ok w → disk_ok (w_tick w).
Proof. done. Qed.
End world.

#[export] Hint Resolve disk_ok_zlen disk_ok_u8 disk_ok_write disk_ok_tick : simplefs.
#[export] Hint Rewrite w_read_write_eq w_read_tick : simplefs.

(** Run the first step of a bind whose result is the lemma [H], leaving its side
    conditions to [tac]. *)
Tactic Notation "run_step" uconstr(H) := erewrite run_bind_Done; [|eapply H].
Tactic Notation "run_step" uconstr(H) "by" tactic3(tac) :=
  erewrite run_bind_Done; [|eapply H; tac].
Tactic Notation "wp_step" uconstr(H) := eapply wp_bind_run; [eapply H|].
Tactic Notation "wp_step" uconstr(H) "by" tactic3(tac) :=
  eapply wp_bind_run; [eapply H; tac|].

(** ** Partial accesses *)
Section partial.
Context `{Clock} `{Build}.
Implicit Types (w : world) (b : u32) (offset len : usize) (data buf : bytes).


Lemma run_write_partial b offset data w :
  disk_ok w → 0 ≤ b < MAX_BLOCKS → 0 ≤ offset ≤ PAGE_SIZE →
  offset + zlen data < 18446744073709551616 →
  run (write_partial b offset data) w =
    Done () (w_write b (splice offset (take (Z.to_nat (PAGE_SIZE - offset)) data) (w_read w b)) w).
Proof.
  intros Hok Hb Ho Hd. consts. pose proof (disk_ok_zlen w b Hok) as Hz. consts.
  assert (0 ≤ zlen data) by (unfold zlen; lia).
  unfold write_partial. consts.
  run_step run_read_block by (by apply disk_ok_has).
  run_step run_arith_u by lia.
  run_step run_arith_u by lia.
  run_step run_unwrap by (apply slice_Some; lia).
  rewrite drop_0, Z.sub_0_r.
  assert (take (Z.to_nat (Z.min (offset + zlen data) 510 - offset)) data =
          take (Z.to_nat (510 - offset)) data) as ->.
  { unfold zlen in *. destruct (decide (offset + Z.of_nat (length data) ≤ 510)).
    - rewrite !take_ge by lia. done.
    - f_equal. lia. }
  assert (zlen (take (Z.to_nat (510 - offset)) data) = Z.min (offset + zlen data) 510 - offset)
    as Hzt by (unfold zlen in *; rewrite length_take; lia).
  run_step run_unwrap by (apply copy_from_slice_Some; lia).
  apply run_write_block; [|unfold is_u32; lia].
  rewrite zlen_splice by lia. done.
Qed.

(** [write_partial] inside the page of a block is undone by [read_partial]: the
    bytes come back, and nothing else changes, neither in the block (in particular
    not its two last bytes, kept for a block pointer) nor on the disk. *)
Theorem write_partial_read_partial b offset data buf w :
  disk_ok w → 0 ≤ b < MAX_BLOCKS → 0 ≤ offset → offset + zlen data ≤ PAGE_SIZE →
  zlen buf = zlen data →
  ∃ w', run (write_partial b offset data;; read_partial b offset (zlen data) buf) w = Done data w' ∧
    (∀ b', b' ≠ b → w_read w' b' = w_read w b') ∧
    (∀ i : nat, ¬ offset ≤ Z.of_nat i < offset + zlen data →
                w_read w' b !! i = w_read w b !! i).
Proof.
  intros Hok Hb Ho Hd Hbuf. consts. pose proof (disk_ok_zlen w b Hok) as Hz. consts.
  assert (0 ≤ zlen data) by (unfold zlen; lia).
  run_step run_write_partial by (consts; done || lia). consts.
  rewrite take_ge by (unfold zlen in *; lia).
  set (w' := w_write b (splice offset data (w_read w b)) w).
  assert (w_has w' b = true) as Hhas.
  { pose proof (disk_ok_has w b Hok Hb) as Hh. unfold w', w_has, img_has in *. simpl.
    apply andb_true_iff in Hh as [-> Hh]. simpl. consts. lia. }
  exists w'. split_and!.
  - unfold read_partial. consts. run_step run_read_block by exact Hhas.
    run_step run_arith_u by lia. rewrite Z.min_l by lia. run_step run_arith_u by lia.
    run_step run_unwrap by
      (unfold w'; rewrite w_read_write_eq; apply slice_splice_same; lia).
    apply run_unwrap. rewrite copy_from_slice_Some by lia. f_equal.
    unfold splice. simpl. rewrite drop_ge by (unfold zlen in *; lia). apply app_nil_r.
  - intros b' Hne. by apply w_read_write_ne.
  - intros i Hi. unfold w'. rewrite w_read_write_eq, lookup_splice by lia.
    by rewrite decide_False.
Qed.

(** A [write_partial] that starts beyond the page panics before it writes
    anything, with and without overflow checks. *)
Theorem write_partial_beyond_page b offset data w :
  disk_ok w → 0 ≤ b < MAX_BLOCKS → PAGE_SIZE < offset →
  offset + zlen data < 18446744073709551616 → zlen data < 9223372036854775808 →
  run (write_partial b offset data) w = Panicked w.
Proof.
  intros Hok Hb Ho Hd Hd'. consts. assert (0 ≤ zlen data) by (unfold zlen; lia).
  unfold write_partial. consts.
  run_step run_read_block by (by apply disk_ok_has).
  run_step run_arith_u by lia. rewrite Z.min_r by lia.
  rewrite run_bind. unfold arith_usize, arith_u.
  replace ((0 <=? 510 - offset) && (510 - offset <? 18446744073709551616)) with false by lia.
  destruct overflow_checks; [done|]. cbn [run].
  rewrite run_bind. unfold slice at 1.
  destruct (_ && _) eqn:E; [|done]. cbn [unwrap run].
  rewrite run_bind. unfold copy_from_slice.
  replace ((0 <=? offset) && (offset <=? 510) &&
           (510 <=? zlen (w_read w b))) with false by lia.
  done.
Qed.
End partial.

(** ** Witnesses *)
Definition blank_world : world := World (Image DISK_SIZE ∅) 0.

Lemma blank_disk_ok : disk_ok blank_world.
Proof. split; [done|]. apply map_Forall_empty. Qed.

Lemma write_partial_read_partial_witness :
  ∃ w', run (H := λ _, 0) (write_partial (H := true) 40 500 [1; 2; 3];;
                 read_partial (H := true) 40 500 3 (zeros 3)) blank_world = Done [1; 2; 3] w' ∧
    (∀ b', b' ≠ 40 → w_read w' b' = w_read blank_world b') ∧
    (∀ i : nat, ¬ 500 ≤ Z.of_nat i < 500 + 3 → w_read w' 40 !! i = w_read blank_world 40 !! i).
Proof.
  apply (write_partial_read_partial (H := λ _, 0) (H0 := true) 40 500 [1; 2; 3] (zeros 3)
           blank_world blank_disk_ok); done.
Defined.

Lemma write_partial_beyond_page_witness :
  run (H := λ _, 0) (write_partial (H := false) 40 511 [7]) blank_world = Panicked blank_world.
Proof.
  apply (write_partial_beyond_page (H := λ _, 0) (H0 := false) 40 511 [7] blank_world
           blank_disk_ok); done.
Defined.
