(* ===== verification/Libc.v ===== *)
(** * Libc: the system calls behind [src/disk.rs]

    The C library is a parameter, the class [Libc]; [Posix] states the documented
    behaviour of the calls on the regular file behind a descriptor, for the accesses
    the program makes (whole blocks at block offsets).  The methods of [Disk] are
    written over it, [exec] runs a program with them, and [exec_refines] proves that
    [run] (of the file [Disk]) describes what happens to the file. *)
From S2P Require Import Prelude Disk.

Definition SEEK_SET : Z := 0.
Definition O_RDWR : Z := 2.
Definition O_CREAT : Z := 64.

(** The calls; [os] is the state of the operating system.  Every call returns its
    result and the new state; [sys_read] also returns the bytes it stores in the
    buffer, [sys_fstat] the field [st_size]. *)
Class Libc := {
  os : Type;
  sys_open : bytes → Z → Z → os → Z * os;
  sys_lseek : Z → i64 → Z → os → i64 * os;
  sys_read : Z → usize → os → i64 * bytes * os;
  sys_write : Z → bytes → usize → os → i64 * os;
  sys_fsync : Z → os → Z * os;
  sys_fstat : Z → os → Z * i64 * os;
  sys_ftruncate : Z → i64 → os → Z * os;
  sys_close : Z → os → Z * os;
}.

(** [libc::lseek(fd, off, SEEK_SET)] etc., as documented in POSIX: [contents s fd i]
    says that [fd] is open for reading and writing on a regular file with the
    contents [i], [position s fd] is its file offset. *)
Class Posix (L : Libc) := {
  contents : os → Z → image → Prop;
  position : os → Z → Z;
  lseek_law s fd i off :
    contents s fd i → 0 ≤ off < 9223372036854775808 →
    ∃ s', sys_lseek fd off SEEK_SET s = (off, s') ∧ contents s' fd i ∧ position s' fd = off;
  read_law s fd i b :
    contents s fd i → is_u32 b → position s fd = b * BLOCK_SIZE →
    ∃ n buf s', sys_read fd BLOCK_SIZE s = (n, buf, s') ∧ contents s' fd i ∧
      (if img_has b i then n = BLOCK_SIZE ∧ buf = img_read b i else n ≠ BLOCK_SIZE);
  write_law s fd i b d :
    contents s fd i → is_u32 b → position s fd = b * BLOCK_SIZE → zlen d = BLOCK_SIZE →
    ∃ s', sys_write fd d BLOCK_SIZE s = (BLOCK_SIZE, s') ∧ contents s' fd (img_write b d i);
  fsync_law s fd i :
    contents s fd i → contents (snd (sys_fsync fd s)) fd i;
  fstat_law s fd i :
    contents s fd i →
    0 ≤ img_size i < 18446744073709551616 ∧
    ∃ s', sys_fstat fd s = (0, img_size i, s') ∧ contents s' fd i;
  ftruncate_law s fd i n :
    contents s fd i → 0 ≤ n < 9223372036854775808 →
    ∃ s', sys_ftruncate fd n s = (0, s') ∧ contents s' fd (img_truncate n i);
}.

(** ** The methods of [Disk]

    A method returns [None] when it panics. *)
Section methods.
Context `{L : Libc}.

(** [Disk::open]: [CString::new] refuses a path with a zero byte. *)
Definition Disk_open (path : bytes) (s : os) : option Z * os :=
  if bool_decide (0 ∈ path) then (None, s)
  else
    let '(fd, s) := sys_open path (Z.lor O_RDWR O_CREAT) 438 (* 0o666 *) s in
    if fd <? 0 then (None, s) else (Some fd, s).

(** [Disk::size] *)
Definition Disk_size (fd : Z) (s : os) : option u64 * os :=
  let '(ret, st_size, s) := sys_fstat fd s in
  if ret <? 0 then (None, s) else (Some (as_u64 st_size), s).

(** [Disk::truncate] *)
Definition Disk_truncate (fd : Z) (size : u64) (s : os) : option () * os :=
  let '(ret, s) := sys_ftruncate fd (as_i64 size) s in
  if ret <? 0 then (None, s) else (Some (), s).

(** [Disk::read_block]: the new contents of the buffer. *)
Definition Disk_read_block (fd : Z) (block_num : u32) (s : os) : option bytes * os :=
  let offset := as_u64 block_num * as_u64 BLOCK_SIZE in
  let '(ret, s) := sys_lseek fd (as_i64 offset) SEEK_SET s in
  if ret <? 0 then (None, s)
  else
    let '(n, buf, s) := sys_read fd BLOCK_SIZE s in
    if negb (n =? BLOCK_SIZE) then (None, s) else (Some buf, s).

(** [Disk::write_block]; the result of [fsync] is ignored. *)
Definition Disk_write_block (fd : Z) (block_num : u32) (buf : bytes) (s : os)
  : option () * os :=
  let offset := as_u64 block_num * as_u64 BLOCK_SIZE in
  let '(ret, s) := sys_lseek fd (as_i64 offset) SEEK_SET s in
  if ret <? 0 then (None, s)
  else
    let '(n, s) := sys_write fd buf BLOCK_SIZE s in
    if negb (n =? BLOCK_SIZE) then (None, s)
    else
      let '(_, s) := sys_fsync fd s in
      (Some (), s).

(** [Drop for Disk] *)
Definition Disk_drop (fd : Z) (s : os) : os := snd (sys_close fd s).

(** ** Running a program on the operating system *)
Inductive os_outcome (A : Type) : Type :=
| ODone (a : A) (s : os) (ticks : nat)
| OPanicked (s : os) (ticks : nat)
| ONoMeaning.
Arguments ODone {A} _ _ _.
Arguments OPanicked {A} _ _.
Arguments ONoMeaning {A}.

(** [exec fd p s t]: the program [p] on the disk of descriptor [fd], after [t] readings
    of the clock.  A buffer shorter than a block would be read out of bounds. *)
Fixpoint exec `{Clock} {A} (fd : Z) (p : prog A) (s : os) (t : nat) : os_outcome A :=
  match p with
  | Ret a => ODone a s t
  | Panic => OPanicked s t
  | Stuck => ONoMeaning
  | ReadBlock b k =>
      if u32_ok b then
        let '(r, s) := Disk_read_block fd b s in exec fd (k r) s t
      else ONoMeaning
  | WriteBlock b d k =>
      if (zlen d =? BLOCK_SIZE) && u32_ok b then
        let '(r, s) := Disk_write_block fd b d s in exec fd (k r) s t
      else ONoMeaning
  | Size k => let '(r, s) := Disk_size fd s in exec fd (k r) s t
  | Truncate n k =>
      if (0 <=? n) && (n <? 9223372036854775808) then
        let '(r, s) := Disk_truncate fd n s in exec fd (k r) s t
      else ONoMeaning
  | Now k => exec fd (k (clock_at t)) s (S t)
  end.
End methods.
Arguments ODone {_ A} _ _ _.
Arguments OPanicked {_ A} _ _.
Arguments ONoMeaning {_ A}.

(** ** The methods on a file with known contents *)
Section refinement.
Context `{L : Libc} `{P : !Posix L} `{Clock}.
Implicit Types (s : os) (fd : Z) (i : image) (b : u32).

Lemma block_offset b :
  is_u32 b → as_i64 (as_u64 b * as_u64 BLOCK_SIZE) = b * BLOCK_SIZE.
Proof.
  unfold is_u32. intros. consts. rewrite !as_u64_id by lia.
  apply as_i64_id. unfold is_i64. lia.
Qed.

Lemma Disk_read_block_spec s fd i b :
  contents s fd i → is_u32 b →
  ∃ s', Disk_read_block fd b s =
          (if img_has b i then Some (img_read b i) else None, s') ∧ contents s' fd i.
Proof.
  intros Hc Hb. unfold Disk_read_block. rewrite block_offset by done.
  assert (0 ≤ b * BLOCK_SIZE < 9223372036854775808) as Hoff
    by (unfold is_u32 in Hb; consts; lia).
  destruct (lseek_law s fd i _ Hc Hoff) as (s1 & -> & Hc1 & Hp). Z_false (b * BLOCK_SIZE <? 0).
  destruct (read_law s1 fd i b Hc1 Hb Hp) as (n & buf & s2 & -> & Hc2 & Hn).
  exists s2. split; [|done]. destruct (img_has b i).
  - destruct Hn as [-> ->]. done.
  - apply Z.eqb_neq in Hn. by rewrite Hn.
Qed.

Lemma Disk_write_block_spec s fd i b d :
  contents s fd i → is_u32 b → zlen d = BLOCK_SIZE →
  ∃ s', Disk_write_block fd b d s = (Some (), s') ∧ contents s' fd (img_write b d i).
Proof.
  intros Hc Hb Hd. unfold Disk_write_block. rewrite block_offset by done.
  assert (0 ≤ b * BLOCK_SIZE < 9223372036854775808) as Hoff
    by (unfold is_u32 in Hb; consts; lia).
  destruct (lseek_law s fd i _ Hc Hoff) as (s1 & -> & Hc1 & Hp). Z_false (b * BLOCK_SIZE <? 0).
  destruct (write_law s1 fd i b d Hc1 Hb Hp Hd) as (s2 & -> & Hc2).
  pose proof (fsync_law s2 fd _ Hc2) as Hc3.
  destruct (sys_fsync fd s2) as [r s3]. simpl. exists s3. by split.
Qed.

(** The states after a run on the file and on its contents. *)
Definition related {A} (fd : Z) (o : os_outcome A) (o' : outcome A) : Prop :=
  match o, o' with
  | ODone a s t, Done a' w => a = a' ∧ contents s fd (w_img w) ∧ t = w_ticks w
  | OPanicked s t, Panicked w => contents s fd (w_img w) ∧ t = w_ticks w
  | ONoMeaning, NoMeaning => True
  | _, _ => False
  end.

Lemma exec_related {A} fd (p : prog A) s w :
  contents s fd (w_img w) → related fd (exec fd p s (w_ticks w)) (run p w).
Proof.
  revert s w. induction p as [| | |b k IH|b d k IH|k IH|n k IH|k IH]; intros s w Hc;
    cbn [exec run]; try done.
  - destruct (u32_ok b) eqn:Hb; [|done].
    assert (is_u32 b) as Hu by (unfold u32_ok, is_u32 in *; lia).
    destruct (Disk_read_block_spec s fd _ b Hc Hu) as (s' & -> & Hc'). by apply IH.
  - destruct (_ && _) eqn:Hb; [|done]. apply andb_true_iff in Hb as [Hd%Z.eqb_eq Hb].
    assert (is_u32 b) as Hu by (unfold u32_ok, is_u32 in *; lia).
    destruct (Disk_write_block_spec s fd _ b d Hc Hu Hd) as (s' & -> & Hc').
    by apply (IH _ s' (w_write b d w)).
  - destruct (fstat_law s fd _ Hc) as (Hsz & s' & Hs & Hc'). unfold Disk_size. rewrite Hs.
    simpl. rewrite as_u64_id by done. by apply IH.
  - destruct (_ && _) eqn:Hn; [|done].
    assert (0 ≤ n < 9223372036854775808) as Hr by lia.
    unfold Disk_truncate. rewrite as_i64_id by (unfold is_i64; lia).
    destruct (ftruncate_law s fd _ n Hc Hr) as (s' & -> & Hc'). simpl.
    by apply (IH _ s' (World (img_truncate n (w_img w)) (w_ticks w))).
  - by apply (IH _ s (w_tick w)).
Qed.
End refinement.

(** ** A file system with one file

    Descriptor 3, block-aligned accesses only, as for a file opened with [O_DIRECT]. *)
Record one_file := OneFile { of_image : image; of_pos : Z }.

#[export] Instance one_file_libc : Libc := {|
  os := one_file;
  sys_open _ _ _ s := (3, s);
  sys_lseek fd off whence s :=
    if (fd =? 3) && (0 <=? off) && (whence =? SEEK_SET)
    then (off, OneFile (of_image s) off) else (-1, s);
  sys_read fd n s :=
    let b := of_pos s / BLOCK_SIZE in
    if (fd =? 3) && (n =? BLOCK_SIZE) && (of_pos s mod BLOCK_SIZE =? 0) then
      if img_has b (of_image s)
      then (BLOCK_SIZE, img_read b (of_image s), OneFile (of_image s) (of_pos s + BLOCK_SIZE))
      else (0, [], s)
    else (-1, [], s);
  sys_write fd d n s :=
    let b := of_pos s / BLOCK_SIZE in
    if (fd =? 3) && (n =? BLOCK_SIZE) && (of_pos s mod BLOCK_SIZE =? 0)
    then (BLOCK_SIZE, OneFile (img_write b d (of_image s)) (of_pos s + BLOCK_SIZE))
    else (-1, s);
  sys_fsync _ s := (0, s);
  sys_fstat fd s := if fd =? 3 then (0, img_size (of_image s), s) else (-1, 0, s);
  sys_ftruncate fd n s :=
    if (fd =? 3) && (0 <=? n) then (0, OneFile (img_truncate n (of_image s)) (of_pos s))
    else (-1, s);
  sys_close _ s := (0, s);
|}.

Definition one_file_contents (s : one_file) (fd : Z) (i : image) : Prop :=
  fd = 3 ∧ of_image s = i ∧ 0 ≤ img_size i < 18446744073709551616.

#[export, program] Instance one_file_posix : Posix one_file_libc := {|
  contents := one_file_contents;
  position s _ := of_pos s;
|}.
Next Obligation.
  intros s fd i off (-> & <- & Hs) Hoff. simpl. Z_true (0 <=? off). simpl. by eexists.
Qed.
Next Obligation.
  intros s fd i b (-> & <- & Hs) Hb Hp. simpl in *. rewrite Hp.
  rewrite Z.mod_mul, Z.div_mul by done. simpl.
  destruct (img_has b (of_image s)) eqn:E; do 3 eexists; split_and!; done.
Qed.
Next Obligation.
  intros s fd i b d (-> & <- & Hs) Hb Hp Hd. simpl in *. rewrite Hp.
  rewrite Z.mod_mul, Z.div_mul by done. simpl. eexists. split; [done|].
  unfold is_u32 in Hb. split_and!; simpl; consts; lia || done.
Qed.
Next Obligation. done. Qed.
Next Obligation. intros s fd i (-> & <- & Hs). split; [done|]. by eexists. Qed.
Next Obligation.
  intros s fd i n (-> & <- & Hs) Hn. simpl. Z_true (0 <=? n). simpl. eexists.
  split; [done|]. split_and!; simpl; lia || done.
Qed.

(** ** Properties *)
Section properties.
Context `{L : Libc} `{P : !Posix L} `{Clock}.

(** C27: on any C library that behaves as documented, a program of the file system run
    through [lseek], [read], [write], [fsync], [fstat] and [ftruncate] gives the
    result [run] computes, panics exactly when [run] says so, and leaves the image
    file with exactly the contents [run] computes. *)
Theorem exec_refines {A} fd (p : prog A) s w :
  contents s fd (w_img w) →
  match run p w with
  | Done a w' =>
      ∃ s', exec fd p s (w_ticks w) = ODone a s' (w_ticks w') ∧ contents s' fd (w_img w')
  | Panicked w' =>
      ∃ s', exec fd p s (w_ticks w) = OPanicked s' (w_ticks w') ∧ contents s' fd (w_img w')
  | NoMeaning => exec fd p s (w_ticks w) = ONoMeaning
  end.
Proof.
  intros Hc. pose proof (exec_related fd p s w Hc) as Hr.
  destruct (exec fd p s (w_ticks w)) as [a s' t|s' t|], (run p w) as [a' w'|w'|];
    simpl in Hr; try done.
  - destruct Hr as (-> & Hc' & ->). by exists s'.
  - destruct Hr as (Hc' & ->). by exists s'.
Qed.
End properties.

(** ** Witness *)
Lemma exec_refines_witness :
  let i := Image DISK_SIZE ∅ in
  let p := write_block 7 (zeros 512);; read_block 7 in
  let w' := w_write 7 (zeros 512) (World i 0) in
  ∃ s', exec (L := one_file_libc) (H := λ _, 0) 3 p (OneFile i 0) 0 = ODone (zeros 512) s' 0 ∧
        contents (L := one_file_libc) s' 3 (w_img w').
Proof.
  intros i p w'.
  apply (exec_refines (L := one_file_libc) (H := λ _, 0) 3 p (OneFile i 0) (World i 0)).
  by split_and!.
Defined.
