(* ===== verification/Effects.v ===== *)
(** * Effects: the events of an execution, and a type and effect system for [prog]

    - [trace]: the writes and truncations an execution makes, in order; the image at the
      end of a run is the image at its start with these events applied ([run_trace]), and
      a crash leaves the image after the first few of them ([crash_image]);
    - [has_type E T p]: whatever the disk answers, the program [p] returns a value in [T]
      or panics, is never stuck, gives the system calls buffers of a whole block and block
      numbers of 32 bits, and makes only events in [E].  The judgement has a rule per
      constructor of [prog] and derived rules for binds and loops;
    - [run_typed], [exec_typed]: what the judgement says of an execution on an image, and
      of one on an operating system of which nothing is known. *)
From S2P Require Import Prelude Disk Libc.

(** ** Events *)

Inductive event : Type :=
| EvWrite (b : u32) (d : bytes)
| EvTruncate (n : u64).

Definition apply_event (i : image) (e : event) : image :=
  match e with
  | EvWrite b d => img_write b d i
  | EvTruncate n => img_truncate n i
  end.

Definition apply_events (i : image) (l : list event) : image := foldl apply_event i l.

Section trace.
Context `{Clock}.
Implicit Types (w : world) (i : image).

Fixpoint trace {A} (p : prog A) (w : world) : list event :=
  match p with
  | Ret _ | Panic | Stuck => []
  | ReadBlock b k => trace (k (if w_has w b then Some (w_read w b) else None)) w
  | WriteBlock b d k => EvWrite b d :: trace (k (Some ())) (w_write b d w)
  | Size k => trace (k (Some (img_size (w_img w)))) w
  | Truncate n k =>
      EvTruncate n :: trace (k (Some ())) (World (img_truncate n (w_img w)) (w_ticks w))
  | Now k => trace (k (clock_at (w_ticks w))) (w_tick w)
  end.

(** The image a crash can leave: every block is on the disk when the call that wrote it
    returns ([Disk::write_block] ends with an [fsync]), and a write of a block of 512
    bytes is not cut in two. *)
Definition crash_image {A} (p : prog A) (w : world) (i : image) : Prop :=
  ∃ k, i = apply_events (w_img w) (take k (trace p w)).

Definition outcome_world {A} (o : outcome A) : option world :=
  match o with Done _ w | Panicked w => Some w | NoMeaning => None end.

(** The image after a run. *)
Lemma run_trace {A} (p : prog A) w w' :
  outcome_world (run p w) = Some w' → w_img w' = apply_events (w_img w) (trace p w).
Proof.
  revert w. induction p as [| | |b k IH|b d k IH|k IH|n k IH|k IH]; intros w Hr;
    simpl in *; try (by simplify_eq); try (by apply (IH _) in Hr).
  - destruct (u32_ok b); [by apply IH in Hr|done].
  - destruct (_ && _); [by apply IH in Hr|done].
  - destruct (_ && _); [by apply IH in Hr|done].
Qed.

Lemma trace_bind {A B} (p : prog A) (f : A → prog B) w a w' :
  run p w = Done a w' → trace (p ≫= f) w = trace p w ++ trace (f a) w'.
Proof.
  revert w. induction p as [| | |b k IH|b d k IH|k IH|n k IH|k IH]; intros w Hr;
    simpl in *; simplify_eq; try done; try (by apply IH).
  - destruct (u32_ok b); [by apply IH|done].
  - destruct (_ && _); [|done]. f_equal. by apply IH.
  - destruct (_ && _); [|done]. f_equal. by apply IH.
Qed.

Lemma trace_bind_prefix {A B} (p : prog A) (f : A → prog B) w :
  ∃ l, trace (p ≫= f) w = trace p w ++ l.
Proof.
  revert w. induction p as [| | |b k IH|b d k IH|k IH|n k IH|k IH]; intros w; simpl;
    try (by eexists); try apply IH.
  - destruct (IH (Some ()) (w_write b d w)) as [l Hl]. exists l. simpl. f_equal. exact Hl.
  - destruct (IH (Some ()) (World (img_truncate n (w_img w)) (w_ticks w))) as [l Hl].
    exists l. simpl. f_equal. exact Hl.
Qed.

(** Crashes in the parts of a sequence. *)
Lemma crash_bind_first {A B} (p : prog A) (f : A → prog B) w i :
  crash_image p w i → crash_image (p ≫= f) w i.
Proof.
  intros [k ->]. destruct (trace_bind_prefix p f w) as [l Hl].
  exists (k `min` length (trace p w))%nat. rewrite Hl, take_app_le by lia.
  f_equal. destruct (decide (k ≤ length (trace p w))%nat).
  - by rewrite Nat.min_l by lia.
  - by rewrite Nat.min_r, !take_ge by lia.
Qed.

Lemma crash_bind_then {A B} (p : prog A) (f : A → prog B) w a w' i :
  run p w = Done a w' → crash_image (f a) w' i → crash_image (p ≫= f) w i.
Proof.
  intros Hrun [k ->]. exists (length (trace p w) + k)%nat.
  rewrite (trace_bind _ _ _ _ _ Hrun), take_app_add. unfold apply_events. rewrite foldl_app. f_equal.
  apply run_trace. by rewrite Hrun.
Qed.


Lemma crash_end {A} (p : prog A) w w' :
  outcome_world (run p w) = Some w' → crash_image p w (w_img w').
Proof.
  intros Hr. exists (length (trace p w)). rewrite (run_trace _ _ _ Hr). by rewrite take_ge.
Qed.
End trace.

(** ** The judgement *)

Definition is_block (d : bytes) : Prop := zlen d = BLOCK_SIZE ∧ Forall is_u8 d.
Definition is_u64 (n : Z) : Prop := 0 ≤ n < 18446744073709551616.

Inductive has_type {A} (E : event → Prop) (T : A → Prop) : prog A → Prop :=
| ty_Ret a : T a → has_type E T (Ret a)
| ty_Panic : has_type E T Panic
| ty_ReadBlock b k :
    is_u32 b → has_type E T (k None) → (∀ d, is_block d → has_type E T (k (Some d))) →
    has_type E T (ReadBlock b k)
| ty_WriteBlock b d k :
    is_u32 b → is_block d → E (EvWrite b d) →
    has_type E T (k None) → has_type E T (k (Some ())) →
    has_type E T (WriteBlock b d k)
| ty_Size k :
    has_type E T (k None) → (∀ n, is_u64 n → has_type E T (k (Some n))) →
    has_type E T (Size k)
| ty_Truncate n k :
    0 ≤ n < 9223372036854775808 → E (EvTruncate n) →
    has_type E T (k None) → has_type E T (k (Some ())) →
    has_type E T (Truncate n k)
| ty_Now k :
    (∀ t, has_type E T (k t)) → has_type E T (Now k).

(** No event, and any event. *)
Definition no_event (_ : event) : Prop := False.
Definition any_event (_ : event) : Prop := True.

Section rules.
Context (E : event → Prop).

Lemma ty_ret {A} (T : A → Prop) a : T a → has_type E T (mret a).
Proof. apply ty_Ret. Qed.

Lemma ty_bind {A B} (U : A → Prop) (T : B → Prop) (p : prog A) (f : A → prog B) :
  has_type E U p → (∀ a, U a → has_type E T (f a)) → has_type E T (p ≫= f).
Proof. intros Hp Hf. induction Hp; simpl; [by apply Hf|by constructor; eauto..]. Qed.

Lemma ty_mono {A} (E' : event → Prop) (T T' : A → Prop) (p : prog A) :
  has_type E' T p → (∀ e, E' e → E e) → (∀ a, T a → T' a) → has_type E T' p.
Proof. intros Hp HE HT. induction Hp; constructor; eauto. Qed.

Lemma ty_weaken {A} (T T' : A → Prop) (p : prog A) :
  has_type E T p → (∀ a, T a → T' a) → has_type E T' p.
Proof. intros Hp. apply (ty_mono E); auto. Qed.


Lemma ty_catch {A} (T : A → Prop) (p : prog A) :
  has_type E T p → has_type E (λ o, ∀ a, o = Some a → T a) (catch_unwind p).
Proof.
  induction 1; simpl; constructor; eauto; [by intros ? [= <-]|done].
Qed.

Lemma ty_unwrap {A} (T : A → Prop) (o : option A) :
  (∀ a, o = Some a → T a) → has_type E T (unwrap o).
Proof. destruct o; simpl; [intros HT; apply ty_Ret; by apply HT|intros _; apply ty_Panic]. Qed.

Lemma ty_for_each {X S} (T : S → Prop) (l : list X) (s : S) (body : X → S → prog S) :
  T s → (∀ x s, x ∈ l → T s → has_type E T (body x s)) → has_type E T (for_each l s body).
Proof.
  intros Hs Hb. revert s Hs. induction l as [|x l IH]; intros s Hs; [by apply ty_ret|].
  simpl. eapply ty_bind; [apply Hb; [set_solver|done]|]. apply IH. set_solver.
Qed.

Definition flow_type {S R} (T : S → Prop) (U : R → Prop) (r : flow S R) : Prop :=
  match r with Continue s => T s | Break r => U r end.

Lemma ty_for_in {X S R} (T : S → Prop) (U : R → Prop) (l : list X) (s : S)
    (body : X → S → prog (flow S R)) :
  T s → (∀ x s, x ∈ l → T s → has_type E (flow_type T U) (body x s)) →
  has_type E (flow_type T U) (for_in l s body).
Proof.
  intros Hs Hb. revert s Hs. induction l as [|x l IH]; intros s Hs; [by apply ty_ret|].
  simpl. eapply ty_bind; [apply Hb; [set_solver|done]|].
  intros [s'|r] Hr; [apply IH; [set_solver|done]|by apply ty_ret].
Qed.

(** A loop has a type when a measure below its fuel decreases: the fuel is enough. *)
Lemma ty_loop {S R} (T : S → Prop) (U : R → Prop) (measure : S → nat) (fuel : nat) (s : S)
    (body : S → prog (flow S R)) :
  T s → (measure s < fuel)%nat →
  (∀ s, T s → has_type E (flow_type (λ s', T s' ∧ (measure s' < measure s)%nat) U) (body s)) →
  has_type E U (loop fuel s body).
Proof.
  intros Hs Hm Hb. revert s Hs Hm. induction fuel as [|fuel IH]; intros s Hs Hm; [lia|].
  simpl. eapply ty_bind; [by apply Hb|].
  intros [s'|r] Hr; [|by apply ty_ret]. destruct Hr as [Hs' Hlt]. apply IH; [done|lia].
Qed.
End rules.

(** ** Soundness *)

(** An image of which only the format is known: blocks of 512 bytes, a size of 64 bits. *)
Definition image_typed (i : image) : Prop :=
  is_u64 (img_size i) ∧ map_Forall (λ _ d, is_block d) (img_blocks i).

Section soundness.
Context `{Clock}.
Implicit Types (w : world) (i : image).

Lemma image_typed_read i b : image_typed i → is_block (img_read b i).
Proof.
  intros [_ Hb]. unfold img_read. destruct (img_blocks i !! b) as [d|] eqn:Hd; simpl.
  - by apply (Hb b d).
  - split; [by apply zlen_zeros|apply Forall_zeros].
Qed.

Lemma image_typed_write i b d :
  image_typed i → is_u32 b → is_block d → image_typed (img_write b d i).
Proof.
  unfold is_u32, is_u64. intros [Hs Hb] Hu Hd. split; [unfold is_u64 in *; simpl; consts; lia|].
  by apply map_Forall_insert_2.
Qed.

Lemma image_typed_truncate i n :
  image_typed i → 0 ≤ n < 9223372036854775808 → image_typed (img_truncate n i).
Proof.
  intros [_ Hb] Hn. split; [unfold is_u64; simpl; lia|]. intros b d Hd. simpl in Hd.
  rewrite map_lookup_imap in Hd. destruct (img_blocks i !! b) as [d'|] eqn:Hd'; [|done].
  destruct (Hb b d' Hd') as [Hl Hu]. simpl in Hd.
  destruct (BLOCK_SIZE <=? _) eqn:Hk; simplify_eq; [done|]. consts.
  set (k := Z.max 0 (n - b * 512)) in *. assert (0 ≤ k < 512) by lia. split.
  - rewrite zlen_app, zlen_zeros by lia. unfold zlen in *. rewrite length_take. consts. lia.
  - apply Forall_app. split; [by apply Forall_take|apply Forall_zeros].
Qed.

(** A crash in a program that starts with an event. *)
Lemma crash_cons {A} (p q : prog A) w w' e i :
  trace p w = e :: trace q w' → w_img w' = apply_event (w_img w) e →
  crash_image p w i → i = w_img w ∨ crash_image q w' i.
Proof.
  intros Ht Hw [[|k] ->]; [by left|right]. exists k. rewrite Ht. simpl. by rewrite Hw.
Qed.

Lemma crash_same {A} (p q : prog A) w w' i :
  trace p w = trace q w' → w_img w' = w_img w → crash_image p w i → crash_image q w' i.
Proof. intros Ht Hw [k ->]. exists k. by rewrite Ht, Hw. Qed.

(** What a typed program does to an image: it ends with a value of its type or panics, and
    makes the events its type allows. *)
Lemma run_typed {A} E (T : A → Prop) (p : prog A) w :
  has_type E T p → image_typed (w_img w) →
  Forall E (trace p w) ∧
  match run p w with
  | Done a w' => T a ∧ image_typed (w_img w')
  | Panicked w' => image_typed (w_img w')
  | NoMeaning => False
  end.
Proof.
  intros Hp. revert w. induction Hp as [a Ha| |b k Hb _ IHn _ IH|b d k Hb Hd He _ IHn _ IH
    |k _ IHn _ IH|n k Hn He _ IHn _ IH|k _ IH]; intros w Hw; cbn [run trace].
  - done.
  - done.
  - assert (u32_ok b = true) as -> by (unfold u32_ok, is_u32 in *; lia).
    destruct (w_has w b); [|by apply IHn]. apply IH; [|done]. by apply image_typed_read.
  - destruct (IH (w_write b d w)) as [Hf Hr]; [by apply image_typed_write|].
    destruct Hd as [Hl Hu].
    assert ((zlen d =? BLOCK_SIZE) && u32_ok b = true) as ->
      by (rewrite Hl, Z.eqb_refl; unfold u32_ok, is_u32 in *; lia).
    split; [by constructor|done].
  - apply IH; [|done]. apply Hw.
  - destruct (IH (World (img_truncate n (w_img w)) (w_ticks w))) as [Hf Hr];
      [by apply image_typed_truncate|].
    assert ((0 <=? n) && (n <? 9223372036854775808) = true) as -> by lia.
    split; [by constructor|done].
  - by apply IH.
Qed.

(** An image stays an image when the machine stops in the middle. *)
Lemma crash_typed {A} E (T : A → Prop) (p : prog A) w i :
  has_type E T p → image_typed (w_img w) → crash_image p w i → image_typed i.
Proof.
  intros Hp. revert w. induction Hp as [a Ha| |b k Hb _ IHn _ IH|b d k Hb Hd He _ IHn _ IH
    |k _ IHn _ IH|n k Hn He _ IHn _ IH|k _ IH]; intros w Hw Hc.
  - destruct Hc as [j ->]. simpl. by rewrite take_nil.
  - destruct Hc as [j ->]. simpl. by rewrite take_nil.
  - destruct (w_has w b) eqn:Hh.
    + apply (IH (w_read w b) (image_typed_read _ b Hw) w Hw). revert Hc. apply crash_same; [|done].
      simpl. by rewrite Hh.
    + apply (IHn w Hw). revert Hc. apply crash_same; [|done]. simpl. by rewrite Hh.
  - apply (crash_cons _ (k (Some ())) _ (w_write b d w) (EvWrite b d)) in Hc as [->|Hc]; try done.
    apply (IH (w_write b d w)); [by apply image_typed_write|done].
  - by apply (IH (img_size (w_img w)) (proj1 Hw) w Hw).
  - apply (crash_cons _ (k (Some ())) _ (World (img_truncate n (w_img w)) (w_ticks w))
             (EvTruncate n)) in Hc as [->|Hc]; try done.
    apply (IH (World (img_truncate n (w_img w)) (w_ticks w))); [by apply image_typed_truncate|done].
  - by apply (IH (clock_at (w_ticks w)) (w_tick w) Hw).
Qed.

(** A program without events leaves the image as it is, however it ends. *)
Lemma typed_no_event {A} (T : A → Prop) (p : prog A) w :
  has_type no_event T p → image_typed (w_img w) → trace p w = [].
Proof.
  intros Hp Hw. destruct (run_typed _ _ _ _ Hp Hw) as [Hf _].
  destruct (trace p w); [done|]. by apply Forall_cons in Hf as [[] _].
Qed.
End soundness.

(** ** Crash safety

    [crash_safe C p w]: wherever the machine stops while [p] runs from [w], the image
    satisfies [C].  The rules follow the program; a part that makes no event, or only
    events that keep [C], needs no more than its type. *)
Definition crash_safe `{Clock} {A} (C : image → Prop) (p : prog A) (w : world) : Prop :=
  ∀ i, crash_image p w i → C i.

Section crash.
Context `{Clock} (C : image → Prop).
Implicit Types (w : world) (i : image).

Lemma safe_bind {A B} (p : prog A) (f : A → prog B) w a w' :
  run p w = Done a w' → crash_safe C p w → crash_safe C (f a) w' → crash_safe C (p ≫= f) w.
Proof.
  intros Hrun Hp Hf i [k ->]. rewrite (trace_bind _ _ _ _ _ Hrun), take_app.
  destruct (decide (k ≤ length (trace p w))%nat) as [Hk|Hk].
  - replace (k - length (trace p w))%nat with 0%nat by lia. rewrite take_0, app_nil_r.
    apply Hp. by exists k.
  - rewrite take_ge by lia. unfold apply_events. rewrite foldl_app.
    apply Hf. exists (k - length (trace p w))%nat.
    rewrite (run_trace p w w') by (by rewrite Hrun). done.
Qed.

(** What a crash may leave, the end may leave. *)
Lemma safe_done {A} (p : prog A) w a w' : crash_safe C p w → run p w = Done a w' → C (w_img w').
Proof. intros Hp Hrun. apply Hp, crash_end. by rewrite Hrun. Qed.

Lemma safe_mono {A} (C' : image → Prop) (p : prog A) w :
  crash_safe C' p w → (∀ i, C' i → C i) → crash_safe C p w.
Proof. intros Hp HC i Hi. by apply HC, Hp. Qed.

Lemma safe_nil {A} (p : prog A) w : trace p w = [] → C (w_img w) → crash_safe C p w.
Proof. intros Ht HC i [k ->]. by rewrite Ht, take_nil. Qed.

Lemma safe_ret {A} (a : A) w : C (w_img w) → crash_safe C (mret a) w.
Proof. by apply safe_nil. Qed.

Lemma safe_unwrap {A} (o : option A) w : C (w_img w) → crash_safe C (unwrap o) w.
Proof. intros HC. apply safe_nil; [by destruct o|done]. Qed.

Lemma safe_silent {A} (T : A → Prop) (p : prog A) w :
  has_type no_event T p → image_typed (w_img w) → C (w_img w) → crash_safe C p w.
Proof. intros Hp Hw. apply safe_nil. by eapply typed_no_event. Qed.

(** A part of which the state after it is known, in front of the rest. *)
Lemma safe_bind_silent {A B} (T : A → Prop) (p : prog A) (f : A → prog B) w a w' :
  run p w = Done a w' → has_type no_event T p → image_typed (w_img w) → C (w_img w) →
  crash_safe C (f a) w' → crash_safe C (p ≫= f) w.
Proof. intros Hrun Hp Hw HC. eapply safe_bind; [exact Hrun|]. by eapply safe_silent. Qed.

Lemma safe_bind_unwrap {A B} (o : option A) (f : A → prog B) w a :
  o = Some a → C (w_img w) → crash_safe C (f a) w → crash_safe C (unwrap o ≫= f) w.
Proof. intros -> HC. eapply safe_bind; [done|]. by apply safe_unwrap. Qed.

Lemma safe_write b d w :
  C (w_img w) → C (w_img (w_write b d w)) → crash_safe C (write_block b d) w.
Proof.
  intros H0 H1 i [k ->]. destruct k as [|k]; [done|]. simpl. by rewrite take_nil.
Qed.

(** Events that keep [C]. *)
Lemma safe_typed {A} E (T : A → Prop) (p : prog A) w :
  has_type E T p → image_typed (w_img w) → C (w_img w) →
  (∀ i e, C i → E e → C (apply_event i e)) → crash_safe C p w.
Proof.
  intros Hp Hw HC Hstep i [k ->]. destruct (run_typed _ _ _ _ Hp Hw) as [Hf _].
  apply (Forall_take _ k) in Hf. revert HC. generalize (w_img w).
  induction Hf as [|e l He _ IH]; intros j HC; [done|]. simpl. apply IH. by apply Hstep.
Qed.

(** A loop that stops at the first element with a property: every element up to there
    has to be safe, and the ones before it to change nothing. *)
Lemma safe_for_in_first {X R} (hit : X → option (R * world)) (l : list X)
    (body : X → () → prog (flow () R)) w :
  C (w_img w) →
  (∀ x, x ∈ l → run (body x ()) w =
     match hit x with None => Done (Continue ()) w | Some (r, w') => Done (Break r) w' end) →
  (∀ pre x post, l = pre ++ x :: post → (∀ y, y ∈ pre → hit y = None) → crash_safe C (body x ()) w) →
  crash_safe C (for_in l () body) w.
Proof.
  intros HC. induction l as [|x l IH]; intros Hrun Hsafe; [by apply safe_ret|]. cbn [for_in].
  pose proof (Hsafe [] x l eq_refl ltac:(set_solver)) as Hx.
  pose proof (Hrun x ltac:(set_solver)) as Hr. destruct (hit x) as [[r w']|] eqn:Hh.
  - eapply safe_bind; [exact Hr|exact Hx|]. apply safe_ret.
    apply Hx. apply (crash_end _ _ w'). by rewrite Hr.
  - eapply safe_bind; [exact Hr|exact Hx|]. cbv beta iota. apply IH; [set_solver|].
    intros pre y post -> Hpre. apply (Hsafe (x :: pre) y post); [done|].
    intros z [-> |Hz]%elem_of_cons; [done|by apply Hpre].
Qed.

(** A [for] loop with an invariant. *)
Lemma safe_for_each {X S} (I : list X → S → world → Prop) (l : list X) (s : S) (body : X → S → prog S) w :
  I [] s w → (∀ pre s w, I pre s w → C (w_img w)) →
  (∀ pre x post s w, l = pre ++ x :: post → I pre s w →
     crash_safe C (body x s) w ∧ wp (body x s) (I (pre ++ [x])) w) →
  crash_safe C (for_each l s body) w.
Proof.
  intros HI HC Hbody.
  assert (∀ pre l' s w, l = pre ++ l' → I pre s w → crash_safe C (for_each l' s body) w)
    as Hgen; [|by apply (Hgen [])].
  intros pre l'. revert pre. induction l' as [|x l' IH]; intros pre s' w' Hl HI'; [by eapply safe_ret, HC|].
  cbn [for_each]. destruct (Hbody pre x l' s' w' Hl HI') as [Hsafe (s2 & w2 & Hrun & HI2)%wp_inv].
  eapply safe_bind; [exact Hrun|exact Hsafe|]. apply (IH (pre ++ [x])); [|done]. by rewrite <-app_assoc.
Qed.

(** A [while] loop with an invariant; the fuel does not matter. *)
Lemma safe_loop {S R} (I : S → world → Prop) (fuel : nat) (s : S) (body : S → prog (flow S R)) w :
  I s w →
  (∀ s w, I s w → C (w_img w) ∧ crash_safe C (body s) w ∧
     wp (body s) (λ r w', match r with Continue s' => I s' w' | Break _ => True end) w) →
  crash_safe C (loop fuel s body) w.
Proof.
  revert s w. induction fuel as [|fuel IH]; intros s w HI Hbody;
    destruct (Hbody s w HI) as (HC & Hsafe & Hwp); [by apply safe_nil|]. cbn [loop].
  apply wp_inv in Hwp as (r & w' & Hrun & Hr).
  eapply safe_bind; [exact Hrun|exact Hsafe|].
  destruct r as [s'|r]; [by apply IH|]. by eapply safe_ret, safe_done.
Qed.
End crash.

(** ** On any operating system

    Nothing is known of the system calls but what the types of the C library say: a call
    of [read] that reports a whole block has filled the buffer with bytes.  Calls may fail
    at any time. *)
Section any_os.
Context `{L : Libc} `{Clock}.
Hypothesis read_fills : ∀ fd s n buf s',
  sys_read fd BLOCK_SIZE s = (n, buf, s') → n = BLOCK_SIZE → is_block buf.

Lemma exec_typed {A} E (T : A → Prop) (p : prog A) fd s t :
  has_type E T p →
  match exec fd p s t with ODone a _ _ => T a | OPanicked _ _ => True | ONoMeaning => False end.
Proof.
  intros Hp. revert s t. induction Hp as [a Ha| |b k Hb _ IHn _ IH|b d k Hb [Hl Hu] He _ IHn _ IH
    |k _ IHn _ IH|n k Hn He _ IHn _ IH|k _ IH]; intros s t; cbn [exec].
  - done.
  - done.
  - assert (u32_ok b = true) as -> by (unfold u32_ok, is_u32 in *; lia).
    unfold Disk_read_block. destruct (sys_lseek _ _ _ s) as [ret s1].
    destruct (ret <? 0); [apply IHn|]. destruct (sys_read _ _ s1) as [[n buf] s2] eqn:Hread.
    destruct (n =? BLOCK_SIZE) eqn:Hn; [|apply IHn]. apply IH.
    apply Z.eqb_eq in Hn. by eapply read_fills.
  - assert ((zlen d =? BLOCK_SIZE) && u32_ok b = true) as ->
      by (rewrite Hl, Z.eqb_refl; unfold u32_ok, is_u32 in *; lia).
    destruct (Disk_write_block fd b d s) as [[[]|] s']; [apply IH|apply IHn].
  - unfold Disk_size. destruct (sys_fstat fd s) as [[ret n] s'].
    destruct (ret <? 0); [apply IHn|]. apply IH. apply Z.mod_pos_bound. lia.
  - assert ((0 <=? n) && (n <? 9223372036854775808) = true) as -> by lia.
    destruct (Disk_truncate fd n s) as [[[]|] s']; [apply IH|apply IHn].
  - apply IH.
Qed.
End any_os.
