(* ===== verification/Superblock.v ===== *)
(** * Superblock: [src/superblock.rs], the metadata of the file system in block 0 *)
From S2P Require Import Prelude Disk.

(** [b"SIMPLEFS-RUST\0\0\0"] *)
Definition MAGIC : bytes := str "SIMPLEFS-RUST" ++ [0; 0; 0].

Record SuperBlock := {
  sb_magic : bytes;
  sb_total_blocks : u32;
  sb_free_blocks : u32;
  sb_bitmap_blocks : u32;
  sb_inode_table_start : u32;
  sb_inode_table_blocks : u32;
  sb_data_start : u32;
  sb_root_inode : u32;
}.

(** [sb.free_blocks = n] and [SuperBlock { root_inode: n, ..sb }] *)
Definition with_free_blocks (n : u32) (sb : SuperBlock) : SuperBlock :=
  {| sb_magic := sb_magic sb;
     sb_total_blocks := sb_total_blocks sb;
     sb_free_blocks := n;
     sb_bitmap_blocks := sb_bitmap_blocks sb;
     sb_inode_table_start := sb_inode_table_start sb;
     sb_inode_table_blocks := sb_inode_table_blocks sb;
     sb_data_start := sb_data_start sb;
     sb_root_inode := sb_root_inode sb |}.
Definition with_root_inode (n : u32) (sb : SuperBlock) : SuperBlock :=
  {| sb_magic := sb_magic sb;
     sb_total_blocks := sb_total_blocks sb;
     sb_free_blocks := sb_free_blocks sb;
     sb_bitmap_blocks := sb_bitmap_blocks sb;
     sb_inode_table_start := sb_inode_table_start sb;
     sb_inode_table_blocks := sb_inode_table_blocks sb;
     sb_data_start := sb_data_start sb;
     sb_root_inode := n |}.

Definition SuperBlock_SIZE : usize := 16 + 4 + 4 + 4 + 4 + 4 + 4 + 4.

(** [SuperBlock::from_bytes]; [None] is the panic on a slice that is too short. *)
Definition SuperBlock_from_bytes (data : bytes) : option SuperBlock :=
  magic ← slice 0 16 data;
  total_blocks ← read_le 4 data 16;
  free_blocks ← read_le 4 data 20;
  bitmap_blocks ← read_le 4 data 24;
  inode_table_start ← read_le 4 data 28;
  inode_table_blocks ← read_le 4 data 32;
  data_start ← read_le 4 data 36;
  root_inode ← read_le 4 data 40;
  Some {| sb_magic := magic;
          sb_total_blocks := total_blocks;
          sb_free_blocks := free_blocks;
          sb_bitmap_blocks := bitmap_blocks;
          sb_inode_table_start := inode_table_start;
          sb_inode_table_blocks := inode_table_blocks;
          sb_data_start := data_start;
          sb_root_inode := root_inode |}.

(** [SuperBlock::to_bytes]; the ranges are constants inside the 44-byte array. *)
Definition SuperBlock_to_bytes (sb : SuperBlock) : bytes :=
  let buf := zeros SuperBlock_SIZE in
  let buf := splice 0 (sb_magic sb) buf in
  let buf := splice 16 (to_le 4 (sb_total_blocks sb)) buf in
  let buf := splice 20 (to_le 4 (sb_free_blocks sb)) buf in
  let buf := splice 24 (to_le 4 (sb_bitmap_blocks sb)) buf in
  let buf := splice 28 (to_le 4 (sb_inode_table_start sb)) buf in
  let buf := splice 32 (to_le 4 (sb_inode_table_blocks sb)) buf in
  let buf := splice 36 (to_le 4 (sb_data_start sb)) buf in
  splice 40 (to_le 4 (sb_root_inode sb)) buf.

(** [SuperBlock::is_valid] *)
Definition SuperBlock_is_valid (sb : SuperBlock) : bool :=
  bool_decide (take 13 (sb_magic sb) = str "SIMPLEFS-RUST").

(** [SuperBlock::calc_bitmap_blocks] *)
Definition calc_bitmap_blocks : u32 :=
  (MAX_BLOCKS + as_u32 BLOCK_SIZE * 8 - 1) / (as_u32 BLOCK_SIZE * 8).

(** Block 0 with the serialised superblock, as [init_superblock] and
    [write_superblock] build it. *)
Definition superblock_block (sb : SuperBlock) : bytes :=
  splice 0 (SuperBlock_to_bytes sb) (zeros BLOCK_SIZE).

(** The superblock of an empty file system, which [init_superblock] writes; the sums
    are of small constants. *)
Definition initial_superblock : SuperBlock :=
  let bitmap_blocks := calc_bitmap_blocks in
  let inode_table_start := 1 + bitmap_blocks in
  let inode_table_blocks := 25 in
  let data_start := inode_table_start + inode_table_blocks in
  {| sb_magic := MAGIC;
     sb_total_blocks := MAX_BLOCKS;
     sb_free_blocks := MAX_BLOCKS - data_start;
     sb_bitmap_blocks := bitmap_blocks;
     sb_inode_table_start := inode_table_start;
     sb_inode_table_blocks := inode_table_blocks;
     sb_data_start := data_start;
     sb_root_inode := 0 |}.

Definition init_superblock : prog SuperBlock :=
  let sb := initial_superblock in
  write_block 0 (superblock_block sb);;
  mret sb.

Definition read_superblock : prog SuperBlock :=
  block_buf ← read_block 0;
  sb ← unwrap (SuperBlock_from_bytes block_buf);
  if SuperBlock_is_valid sb then mret sb else Panic.

Definition write_superblock (sb : SuperBlock) : prog () :=
  write_block 0 (superblock_block sb).

(** ** Well-formedness *)

(** The values a Rust [SuperBlock] can have. *)
Definition superblock_wf (sb : SuperBlock) : Prop :=
  zlen (sb_magic sb) = 16 ∧ Forall is_u8 (sb_magic sb) ∧
  is_u32 (sb_total_blocks sb) ∧ is_u32 (sb_free_blocks sb) ∧
  is_u32 (sb_bitmap_blocks sb) ∧ is_u32 (sb_inode_table_start sb) ∧
  is_u32 (sb_inode_table_blocks sb) ∧ is_u32 (sb_data_start sb) ∧
  is_u32 (sb_root_inode sb).

#[export] Instance superblock_wf_dec sb : Decision (superblock_wf sb).
Proof. unfold superblock_wf. apply _. Defined.

#[export] Instance SuperBlock_eq_dec : EqDecision SuperBlock.
Proof. solve_decision. Defined.

(** The on-disk layout: the fields in order. *)
Lemma SuperBlock_to_bytes_layout sb :
  zlen (sb_magic sb) = 16 →
  SuperBlock_to_bytes sb =
    sb_magic sb ++ to_le 4 (sb_total_blocks sb) ++ to_le 4 (sb_free_blocks sb) ++
    to_le 4 (sb_bitmap_blocks sb) ++ to_le 4 (sb_inode_table_start sb) ++
    to_le 4 (sb_inode_table_blocks sb) ++ to_le 4 (sb_data_start sb) ++
    to_le 4 (sb_root_inode sb).
Proof.
  intros Hm. unfold SuperBlock_to_bytes. change SuperBlock_SIZE with 44.
  layout_tac. rewrite !zlen_to_le, Hm. simpl. rewrite app_nil_r.
  by rewrite <-!app_assoc.
Qed.

Lemma zlen_SuperBlock_to_bytes sb :
  zlen (sb_magic sb) = 16 → zlen (SuperBlock_to_bytes sb) = SuperBlock_SIZE.
Proof. intros Hm. rewrite SuperBlock_to_bytes_layout by done. zlen_tac. Qed.

Lemma SuperBlock_from_to_bytes sb rest :
  superblock_wf sb → SuperBlock_from_bytes (SuperBlock_to_bytes sb ++ rest) = Some sb.
Proof.
  intros (Hm & _ & ? & ? & ? & ? & ? & ? & ?).
  rewrite SuperBlock_to_bytes_layout by done. rewrite <-!app_assoc.
  unfold SuperBlock_from_bytes.
  rewrite slice_app_here by done. cbn [mbind option_bind].
  do 7 read_field. by destruct sb.
Qed.

Lemma superblock_block_app sb :
  zlen (sb_magic sb) = 16 →
  superblock_block sb = SuperBlock_to_bytes sb ++ zeros (BLOCK_SIZE - SuperBlock_SIZE).
Proof.
  intros Hm. unfold superblock_block.
  rewrite splice_first by (rewrite zlen_SuperBlock_to_bytes; done).
  by rewrite zlen_SuperBlock_to_bytes.
Qed.

Lemma zlen_superblock_block sb :
  zlen (sb_magic sb) = 16 → zlen (superblock_block sb) = BLOCK_SIZE.
Proof.
  intros Hm. rewrite superblock_block_app, zlen_app, zlen_SuperBlock_to_bytes by done.
  by rewrite zlen_zeros.
Qed.

Lemma superblock_block_u8 sb :
  superblock_wf sb → Forall is_u8 (superblock_block sb).
Proof.
  intros (Hm & Hu & _). rewrite superblock_block_app, SuperBlock_to_bytes_layout by done.
  repeat (apply Forall_app; split); auto with simplefs.
Qed.

Lemma superblock_wf_magic sb : superblock_wf sb → zlen (sb_magic sb) = 16.
Proof. by intros []. Qed.
#[export] Hint Resolve superblock_wf_magic zlen_superblock_block superblock_block_u8 : simplefs.

Lemma superblock_wf_with_free_blocks n sb :
  superblock_wf sb → is_u32 n → superblock_wf (with_free_blocks n sb).
Proof. unfold superblock_wf. simpl. tauto. Qed.
Lemma superblock_wf_with_root_inode n sb :
  superblock_wf sb → is_u32 n → superblock_wf (with_root_inode n sb).
Proof. unfold superblock_wf. simpl. tauto. Qed.
#[export] Hint Resolve superblock_wf_with_free_blocks superblock_wf_with_root_inode : simplefs.

Section run.
Context `{Clock}.

Lemma run_write_superblock sb w :
  zlen (sb_magic sb) = 16 →
  run (write_superblock sb) w = Done () (w_write 0 (superblock_block sb) w).
Proof. intros. by apply run_write_block; auto with simplefs. Qed.

(** The superblock that the bytes of block 0 stand for. *)
Definition disk_superblock (w : world) : option SuperBlock :=
  sb ← SuperBlock_from_bytes (w_read w 0);
  if SuperBlock_is_valid sb then Some sb else None.

Lemma run_read_superblock sb w :
  w_has w 0 = true → disk_superblock w = Some sb → run read_superblock w = Done sb w.
Proof.
  intros H0 Hd. unfold read_superblock. run_step run_read_block by done.
  unfold disk_superblock in Hd. destruct (SuperBlock_from_bytes _) as [sb'|] eqn:E; [|done].
  simpl in *. by destruct (SuperBlock_is_valid sb'); simplify_eq.
Qed.

Lemma disk_superblock_write sb w :
  superblock_wf sb → SuperBlock_is_valid sb = true →
  disk_superblock (w_write 0 (superblock_block sb) w) = Some sb.
Proof.
  intros Hwf Hv. unfold disk_superblock. rewrite w_read_write_eq.
  rewrite superblock_block_app by auto with simplefs.
  rewrite SuperBlock_from_to_bytes by done. simpl. by rewrite Hv.
Qed.

Lemma disk_superblock_write_ne b d w :
  b ≠ 0 → disk_superblock (w_write b d w) = disk_superblock w.
Proof. intros. unfold disk_superblock. by rewrite w_read_write_ne. Qed.

(** What [disk_superblock] returns is a superblock. *)
Lemma disk_superblock_wf w sb :
  disk_ok w → disk_superblock w = Some sb → superblock_wf sb ∧ SuperBlock_is_valid sb = true.
Proof.
  intros Hok Hd. unfold disk_superblock in Hd.
  destruct (disk_ok_block w 0 Hok) as [Hl Hu]. consts. revert Hl Hu Hd.
  generalize (w_read w 0). intros d Hl Hu Hd.
  destruct (SuperBlock_from_bytes d) as [sb'|] eqn:E; [|done]. simpl in Hd.
  destruct (SuperBlock_is_valid sb') eqn:Ev; [|done]. simplify_eq. split; [|done].
  assert (∀ off x, read_le 4 d off = Some x → is_u32 x) as Hr.
  { intros off x Hx. unfold read_le in Hx.
    destruct (slice off (off + 4) d) as [l|] eqn:El; [|done]. simplify_eq/=.
    pose proof (slice_length _ _ _ _ El) as Hll.
    assert (Forall is_u8 l) as Hlu.
    { unfold slice in El. case_match; [|done]. simplify_eq. auto using Forall_take, Forall_drop. }
    pose proof (from_le_range l Hlu) as Hfr. rewrite Hll in Hfr.
    replace (off + 4 - off) with 4 in Hfr by lia. exact Hfr. }
  unfold SuperBlock_from_bytes in E.
  destruct (slice 0 16 d) as [m|] eqn:Em; [|done]. simpl in E.
  pose proof (slice_length _ _ _ _ Em) as Hml.
  assert (Forall is_u8 m).
  { unfold slice in Em. case_match; [|done]. simplify_eq. auto using Forall_take, Forall_drop. }
  repeat (match type of E with
          | context [read_le 4 d ?o] =>
              destruct (read_le 4 d o) eqn:?; [simpl in E|done]
          end).
  simplify_eq. unfold superblock_wf. simpl. split_and!; eauto.
Qed.
End run.

Lemma initial_superblock_wf : superblock_wf initial_superblock.
Proof. apply (bool_decide_unpack _). vm_compute. done. Qed.

(** The magic bytes of the superblock in block 0 are the first bytes of the block. *)
Lemma SuperBlock_from_bytes_magic d :
  zlen d = 512 → ∃ sb, SuperBlock_from_bytes d = Some sb ∧ sb_magic sb = take 16 d.
Proof.
  intros Hl. unfold SuperBlock_from_bytes, read_le.
  rewrite !slice_Some by lia. simpl. eexists. split; [done|]. done.
Qed.

(** ** Properties *)
Section properties.
Context `{Clock}.
Implicit Types (sb : SuperBlock) (w : world).

(** A superblock written to the disk is read back unchanged, and only block 0
    is written. *)
Theorem write_read_superblock sb w :
  disk_ok w → superblock_wf sb → SuperBlock_is_valid sb = true →
  ∃ w', run (write_superblock sb;; read_superblock) w = Done sb w' ∧
    ∀ b, b ≠ 0 → w_read w' b = w_read w b.
Proof.
  intros Hok Hwf Hv. exists (w_write 0 (superblock_block sb) w). split.
  - run_step run_write_superblock by auto with simplefs.
    apply run_read_superblock; [|by apply disk_superblock_write].
    pose proof (disk_ok_has w 0 Hok) as Hh. unfold w_has, img_has in *. simpl.
    consts. rewrite andb_true_iff in *. destruct Hh; lia.
  - intros b Hb. by apply w_read_write_ne.
Qed.

(** On a disk of full size [read_superblock] returns a well-formed superblock
    when block 0 starts with the 13 characters of the magic, and panics otherwise;
    it never changes the disk. *)
Theorem read_superblock_magic w :
  disk_ok w →
  if bool_decide (take 13 (w_read w 0) = str "SIMPLEFS-RUST")
  then ∃ sb, run read_superblock w = Done sb w ∧ superblock_wf sb ∧
             take 13 (sb_magic sb) = str "SIMPLEFS-RUST"
  else run read_superblock w = Panicked w.
Proof.
  intros Hok. pose proof (disk_ok_zlen w 0 Hok) as Hl. consts.
  destruct (SuperBlock_from_bytes_magic (w_read w 0) Hl) as (sb & Hsb & Hm).
  assert (take 13 (sb_magic sb) = take 13 (w_read w 0)) as Hm' by (by rewrite Hm, take_take).
  assert (w_has w 0 = true) as Hh by (apply disk_ok_has; [done|consts; lia]).
  case_bool_decide as Hd.
  - exists sb. assert (disk_superblock w = Some sb) as Hds.
    { unfold disk_superblock. rewrite Hsb. simpl. unfold SuperBlock_is_valid.
      by rewrite Hm', bool_decide_true. }
    split_and!; [by apply run_read_superblock|by eapply disk_superblock_wf|congruence].
  - unfold read_superblock. run_step run_read_block by done.
    run_step run_unwrap by done. unfold SuperBlock_is_valid.
    rewrite Hm', bool_decide_false by done. done.
Qed.
End properties.

(** ** Witnesses *)
Lemma write_read_superblock_witness :
  ∃ w', run (H := λ _, 0) (write_superblock initial_superblock;; read_superblock) blank_world
          = Done initial_superblock w' ∧
    ∀ b, b ≠ 0 → w_read w' b = w_read blank_world b.
Proof.
  apply (write_read_superblock (H := λ _, 0) initial_superblock blank_world blank_disk_ok
           initial_superblock_wf). vm_compute. done.
Defined.

Lemma read_superblock_magic_witness :
  if bool_decide (take 13 (w_read blank_world 0) = str "SIMPLEFS-RUST")
  then ∃ sb, run (H := λ _, 0) read_superblock blank_world = Done sb blank_world ∧
         superblock_wf sb ∧ take 13 (sb_magic sb) = str "SIMPLEFS-RUST"
  else run (H := λ _, 0) read_superblock blank_world = Panicked blank_world.
Proof. apply (read_superblock_magic (H := λ _, 0) blank_world blank_disk_ok). Defined.
