(* ===== verification/Bitmap.v ===== *)
(** * Bitmap: [src/bitmap.rs], the free-space map in the blocks after block 0 *)
From S2P Require Import Prelude Disk Superblock.

(** [Bitmap::locate]: the byte of the map that holds the bit of a block, and the
    mask of the bit. *)
Definition locate (block_num : u32) : usize * u8 :=
  let byte_idx := as_usize (block_num / 8) in
  let bit_idx := as_u8 (block_num mod 8) in
  (byte_idx, as_u8 (Z.shiftl 1 bit_idx)).

(** [Bitmap::is_allocated] *)
Definition is_allocated (block_num : u32) : prog bool :=
  if MAX_BLOCKS <=? block_num then mret true
  else
    let '(byte_idx, mask) := locate block_num in
    let bitmap_block_offset := byte_idx / BLOCK_SIZE in
    let byte_offset_in_block := byte_idx mod BLOCK_SIZE in
    let block_to_read := 1 + as_u32 bitmap_block_offset in
    block_buf ← read_block block_to_read;
    byte ← unwrap (index byte_offset_in_block block_buf);
    mret (negb (Z.land byte mask =? 0)).

Section with_build.
Context `{Build}.

(** [Bitmap::mark_allocated]; the superblock is a mutable reference, its new value
    is returned. *)
Definition mark_allocated (sb : SuperBlock) (block_num : u32) : prog SuperBlock :=
  let '(byte_idx, mask) := locate block_num in
  let bitmap_block_offset := byte_idx / BLOCK_SIZE in
  let byte_offset_in_block := byte_idx mod BLOCK_SIZE in
  let block_to_write := 1 + as_u32 bitmap_block_offset in
  block_buf ← read_block block_to_write;
  byte ← unwrap (index byte_offset_in_block block_buf);
  block_buf ← unwrap (set_index byte_offset_in_block (Z.lor byte mask) block_buf);
  write_block block_to_write block_buf;;
  free_blocks ← arith_u32 (sb_free_blocks sb - 1);
  let sb := with_free_blocks free_blocks sb in
  write_superblock sb;;
  mret sb.

(** [Bitmap::mark_free]; [!mask] is the complement in eight bits. *)
Definition mark_free (sb : SuperBlock) (block_num : u32) : prog SuperBlock :=
  let '(byte_idx, mask) := locate block_num in
  let bitmap_block_offset := byte_idx / BLOCK_SIZE in
  let byte_offset_in_block := byte_idx mod BLOCK_SIZE in
  let block_to_write := 1 + as_u32 bitmap_block_offset in
  block_buf ← read_block block_to_write;
  byte ← unwrap (index byte_offset_in_block block_buf);
  block_buf ← unwrap (set_index byte_offset_in_block
                        (Z.land byte (Z.lxor 255 mask)) block_buf);
  write_block block_to_write block_buf;;
  free_blocks ← arith_u32 (sb_free_blocks sb + 1);
  let sb := with_free_blocks free_blocks sb in
  write_superblock sb;;
  mret sb.

(** The loop over the bits of one byte: the first bit that is 0. *)
Definition first_zero_bit (byte_val : u8) : option Z :=
  snd <$> list_find (λ bit, Z.land byte_val (as_u8 (Z.shiftl 1 bit)) = 0) (seqZ 0 8).

(** The loop over the bytes of one block of the map, skipping the full ones: the
    offset of the byte and the bit, for the first bit that is 0. *)
Fixpoint scan_bytes (byte_offset : usize) (block_buf : bytes) : option (usize * Z) :=
  match block_buf with
  | [] => None
  | byte_val :: block_buf =>
      if byte_val =? 255 then scan_bytes (byte_offset + 1) block_buf
      else match first_zero_bit byte_val with
           | Some bit => Some (byte_offset, bit)
           | None => scan_bytes (byte_offset + 1) block_buf
           end
  end.

(** [Bitmap::allocate_block] *)
Definition allocate_block (sb : SuperBlock) : prog (option u32 * SuperBlock) :=
  if sb_free_blocks sb =? 0 then mret (None, sb)
  else
    sb_local ← read_superblock;
    let bitmap_blocks := as_usize (sb_bitmap_blocks sb_local) in
    r ← for_in (seqZ 0 bitmap_blocks) () (λ bitmap_idx _,
          let block_num := 1 + as_u32 bitmap_idx in
          block_buf ← read_block block_num;
          match scan_bytes 0 block_buf with
          | None => mret (Continue ())
          | Some (byte_offset, bit) =>
              let free_block := as_u32 ((bitmap_idx * BLOCK_SIZE + byte_offset) * 8 + bit) in
              if MAX_BLOCKS <=? free_block then mret (Break (None, sb))
              else
                sb ← mark_allocated sb free_block;
                mret (Break (Some free_block, sb))
          end);
    match r with
    | Break r => mret r
    | Continue _ => mret (None, sb)
    end.

(** [Bitmap::init_bitmap] *)
Definition init_bitmap (sb : SuperBlock) : prog () :=
  let bitmap_blocks := as_usize (sb_bitmap_blocks sb) in
  let total_bytes := bitmap_blocks * BLOCK_SIZE in
  let bitmap := zeros total_bytes in
  bitmap ← for_each (seqZ 0 (sb_data_start sb)) bitmap (λ block_num bitmap,
    let '(byte_idx, mask) := locate block_num in
    if byte_idx <? total_bytes then
      byte ← unwrap (index byte_idx bitmap);
      unwrap (set_index byte_idx (Z.lor byte mask) bitmap)
    else mret bitmap);
  for_each (seqZ 0 bitmap_blocks) () (λ i _,
    let block_num := 1 + as_u32 i in
    let start := i * BLOCK_SIZE in
    let end_ := start + BLOCK_SIZE in
    src ← unwrap (slice start end_ bitmap);
    block_buf ← unwrap (copy_from_slice 0 BLOCK_SIZE src (zeros BLOCK_SIZE));
    write_block block_num block_buf).
End with_build.

(** ** The abstract free-space map

    [bit w n] is the bit of block [n] in the image: true for an allocated block.
    Bit [n] lives in block [1 + n / 4096], byte [n / 8 mod 512]. *)
Definition bit (w : world) (n : u32) : bool :=
  Z.testbit (w_read w (1 + n / 4096) !!! Z.to_nat (n / 8 mod 512)) (n mod 8).

Definition update_byte (f : u8 → u8) (n : u32) (w : world) : world :=
  let b := 1 + n / 4096 in
  let i := Z.to_nat (n / 8 mod 512) in
  w_write b (<[i := f (w_read w b !!! i)]> (w_read w b)) w.
Definition set_bit (n : u32) : world → world :=
  update_byte (λ v, Z.lor v (2 ^ (n mod 8))) n.
Definition clear_bit (n : u32) : world → world :=
  update_byte (λ v, Z.land v (Z.lxor 255 (2 ^ (n mod 8)))) n.

(** The lowest free block, the number of free blocks below a block and in all. *)
Definition least_free (w : world) : option u32 :=
  snd <$> list_find (λ n, bit w n = false) (seqZ 0 MAX_BLOCKS).
Definition free_below (b : u32) (w : world) : Z :=
  zlen (filter (λ n, bit w n = false) (seqZ 0 b)).
Definition free_count (w : world) : Z := free_below MAX_BLOCKS w.

Section byte_bits.
Implicit Types (v : u8) (i j : Z).

Lemma u8_high v i : is_u8 v → 8 ≤ i → Z.testbit v i = false.
Proof.
  intros Hv Hi. destruct (decide (v = 0)) as [->|]; [apply Z.bits_0|].
  apply Z.bits_above_log2; unfold is_u8 in *; [lia|].
  apply Z.log2_lt_pow2; [lia|]. apply (Z.lt_le_trans _ (2 ^ 8)); [lia|].
  apply Z.pow_le_mono_r; lia.
Qed.

Lemma u8_of_bits v : 0 ≤ v → (∀ i, 8 ≤ i → Z.testbit v i = false) → is_u8 v.
Proof.
  intros Hv Hb. unfold is_u8. split; [done|].
  assert (v = v mod 2 ^ 8) as ->; [|apply Z.mod_pos_bound; lia].
  rewrite <-Z.land_ones by lia. apply Z.bits_inj'. intros n Hn.
  rewrite Z.land_spec.
  destruct (decide (n < 8)).
  - rewrite Z.ones_spec_low by lia. by rewrite andb_true_r.
  - rewrite Hb by lia. done.
Qed.

Lemma testbit_pow2 i j : 0 ≤ i → Z.testbit (2 ^ i) j = bool_decide (i = j).
Proof. intros. rewrite Z.pow2_bits_eqb by done. by case_bool_decide; case_Z. Qed.

Lemma land_pow2_zero v i : 0 ≤ i → Z.land v (2 ^ i) = 0 ↔ Z.testbit v i = false.
Proof.
  intros Hi. split.
  - intros H%(f_equal (λ x, Z.testbit x i)). rewrite Z.land_spec, Z.bits_0 in H.
    rewrite testbit_pow2, bool_decide_true, andb_true_r in H by done. done.
  - intros H. apply Z.bits_inj'. intros n Hn. rewrite Z.land_spec, Z.bits_0, testbit_pow2 by done.
    case_bool_decide; [subst; by rewrite H|by rewrite andb_false_r].
Qed.

Lemma testbit_set v i j : 0 ≤ i → Z.testbit (Z.lor v (2 ^ i)) j = bool_decide (i = j) || Z.testbit v j.
Proof. intros. rewrite Z.lor_spec, testbit_pow2 by done. apply orb_comm. Qed.

Lemma testbit_clear v i j :
  0 ≤ i < 8 → 0 ≤ j < 8 →
  Z.testbit (Z.land v (Z.lxor 255 (2 ^ i))) j = negb (bool_decide (i = j)) && Z.testbit v j.
Proof.
  intros. rewrite Z.land_spec, Z.lxor_spec, testbit_pow2 by lia.
  change 255 with (Z.ones 8). rewrite Z.ones_spec_low by lia.
  rewrite xorb_true_l. apply andb_comm.
Qed.

Lemma is_u8_set v i : is_u8 v → 0 ≤ i < 8 → is_u8 (Z.lor v (2 ^ i)).
Proof.
  intros Hv Hi. apply u8_of_bits.
  - apply Z.lor_nonneg. split; [apply Hv|apply Z.pow_nonneg; lia].
  - intros j Hj. rewrite testbit_set, u8_high by (done || lia).
    by rewrite bool_decide_false by lia.
Qed.

Lemma is_u8_clear v m : is_u8 v → is_u8 (Z.land v m).
Proof.
  intros Hv. apply u8_of_bits.
  - apply Z.land_nonneg. left. apply Hv.
  - intros j Hj. rewrite Z.land_spec, u8_high by done. done.
Qed.

Lemma u8_full v : is_u8 v → (∀ i, 0 ≤ i < 8 → Z.testbit v i = true) → v = 255.
Proof.
  intros Hv Hb. change 255 with (Z.ones 8). apply Z.bits_inj'. intros n Hn.
  destruct (decide (n < 8)).
  - rewrite Z.ones_spec_low, Hb by lia. done.
  - rewrite Z.ones_spec_high, u8_high by (done || lia). done.
Qed.

Lemma testbit_255 i : 0 ≤ i < 8 → Z.testbit 255 i = true.
Proof. intros. change 255 with (Z.ones 8). apply Z.ones_spec_low. lia. Qed.
End byte_bits.

(** Where the bit of a block is. *)
Section position.
Context (n : u32) (Hn : 0 ≤ n < MAX_BLOCKS).

Lemma locate_spec : locate n = (n / 8, 2 ^ (n mod 8)).
Proof.
  unfold locate. consts.
  assert (0 ≤ n mod 8 < 8) by (apply Z.mod_pos_bound; lia).
  rewrite as_usize_id by dlia. rewrite (as_u8_id (n mod 8)) by (unfold is_u8; lia).
  rewrite Z.shiftl_1_l. rewrite as_u8_id; [done|]. unfold is_u8.
  split; [apply Z.pow_nonneg; lia|].
  apply (Z.le_lt_trans _ (2 ^ 7)); [apply Z.pow_le_mono_r; lia|lia].
Qed.

Lemma bitmap_block_eq : 1 + as_u32 (n / 8 / BLOCK_SIZE) = 1 + n / 4096.
Proof.
  consts. rewrite Z.div_div by lia. change (8 * 512) with 4096.
  rewrite as_u32_id; [done|]. unfold is_u32. dlia.
Qed.

Lemma bitmap_block_range : 1 ≤ 1 + n / 4096 ≤ 5.
Proof. consts. dlia. Qed.

Lemma bitmap_byte_range : 0 ≤ n / 8 mod 512 < 512.
Proof. apply Z.mod_pos_bound. lia. Qed.

End position.

(** Two blocks with the same position of their bits are the same block. *)
Lemma position_inj n m :
  n / 4096 = m / 4096 → n / 8 mod 512 = m / 8 mod 512 → n mod 8 = m mod 8 → n = m.
Proof. dlia. Qed.

Section update.
Implicit Types (w : world) (n m : u32).

Lemma bitmap_lookup w n :
  disk_ok w →
  w_read w (1 + n / 4096) !! Z.to_nat (n / 8 mod 512) =
    Some (w_read w (1 + n / 4096) !!! Z.to_nat (n / 8 mod 512)).
Proof.
  intros Hok. apply list_lookup_lookup_total_lt.
  pose proof (disk_ok_zlen w (1 + n / 4096) Hok) as Hl. unfold zlen in Hl. consts.
  pose proof (Z.mod_pos_bound (n / 8) 512). lia.
Qed.

Lemma bitmap_byte_u8 w n :
  disk_ok w → is_u8 (w_read w (1 + n / 4096) !!! Z.to_nat (n / 8 mod 512)).
Proof.
  intros Hok. eapply Forall_lookup_1; [by apply (disk_ok_u8 w (1 + n / 4096))|].
  by apply bitmap_lookup.
Qed.

Lemma disk_ok_update_byte f n w :
  disk_ok w → (∀ v, is_u8 v → is_u8 (f v)) → disk_ok (update_byte f n w).
Proof.
  intros Hok Hf. unfold update_byte. apply disk_ok_write; [done| |].
  - rewrite zlen_insert. by apply disk_ok_zlen.
  - apply Forall_insert; [by apply disk_ok_u8|]. apply Hf. by apply bitmap_byte_u8.
Qed.

Lemma disk_ok_set_bit n w : disk_ok w → disk_ok (set_bit n w).
Proof.
  intros. apply disk_ok_update_byte; [done|]. intros. apply is_u8_set; [done|].
  apply Z.mod_pos_bound. lia.
Qed.
Lemma disk_ok_clear_bit n w : disk_ok w → disk_ok (clear_bit n w).
Proof. intros. apply disk_ok_update_byte; [done|]. intros. by apply is_u8_clear. Qed.

Lemma update_byte_read_ne f n w b :
  b ≠ 1 + n / 4096 → w_read (update_byte f n w) b = w_read w b.
Proof. intros. unfold update_byte. by rewrite w_read_write_ne. Qed.

(** The effect of an update on the map. *)
Lemma bit_update_byte f g n w m :
  disk_ok w → 0 ≤ n < MAX_BLOCKS → 0 ≤ m < MAX_BLOCKS →
  (∀ v i, 0 ≤ i < 8 → Z.testbit (f v) i = g (bool_decide (n mod 8 = i)) (Z.testbit v i)) →
  (∀ b, g false b = b) →
  bit (update_byte f n w) m = g (bool_decide (n = m)) (bit w m).
Proof.
  intros Hok Hn Hm Hf Hg. unfold bit, update_byte. rewrite w_read_write.
  pose proof (bitmap_lookup w n Hok) as Hl.
  pose proof (bitmap_byte_range n). pose proof (bitmap_byte_range m).
  case_decide as Hb; [|rewrite bool_decide_false by naive_solver; by rewrite Hg].
  rewrite <-Hb. destruct (decide (n / 8 mod 512 = m / 8 mod 512)) as [Hi|Hi].
  - rewrite <-Hi, list_lookup_total_insert_eq by eauto using lookup_lt_Some.
    rewrite Hf by (apply Z.mod_pos_bound; lia). f_equal. apply bool_decide_ext.
    split; [intros; apply position_inj; lia|naive_solver].
  - rewrite list_lookup_total_insert_ne by lia.
    by rewrite bool_decide_false, Hg by naive_solver.
Qed.

Lemma bit_set_bit w n m :
  disk_ok w → 0 ≤ n < MAX_BLOCKS → 0 ≤ m < MAX_BLOCKS →
  bit (set_bit n w) m = bool_decide (n = m) || bit w m.
Proof.
  intros. unfold set_bit. apply (bit_update_byte _ orb); try done.
  intros. apply testbit_set. apply Z.mod_pos_bound. lia.
Qed.

Lemma bit_clear_bit w n m :
  disk_ok w → 0 ≤ n < MAX_BLOCKS → 0 ≤ m < MAX_BLOCKS →
  bit (clear_bit n w) m = negb (bool_decide (n = m)) && bit w m.
Proof.
  intros. unfold clear_bit. apply (bit_update_byte _ (λ x y, negb x && y)); try done.
  intros. apply testbit_clear; [|done]. apply Z.mod_pos_bound. lia.
Qed.

(** Writes outside of the map leave it alone. *)
Lemma bit_write_ne w b d m :
  0 ≤ m < MAX_BLOCKS → ¬ 1 ≤ b ≤ 5 → bit (w_write b d w) m = bit w m.
Proof.
  intros Hm Hb. unfold bit. rewrite w_read_write_ne; [done|].
  pose proof (bitmap_block_range m Hm). lia.
Qed.

Lemma bit_ext w w' m :
  0 ≤ m < MAX_BLOCKS → (∀ b, 1 ≤ b ≤ 5 → w_read w' b = w_read w b) → bit w' m = bit w m.
Proof. intros Hm Hb. unfold bit. rewrite Hb; [done|]. by apply bitmap_block_range. Qed.
End update.

#[export] Hint Resolve disk_ok_set_bit disk_ok_clear_bit : simplefs.

(** ** Counting *)
Section count.
Implicit Types (w : world) (n m : u32).

Lemma in_seqZ_max m : m ∈ seqZ 0 MAX_BLOCKS ↔ 0 ≤ m < MAX_BLOCKS.
Proof. rewrite elem_of_seqZ. lia. Qed.

Lemma free_count_ext w w' :
  (∀ m, 0 ≤ m < MAX_BLOCKS → bit w' m = bit w m) → free_count w' = free_count w.
Proof.
  intros Hb. unfold free_count, free_below. f_equal. apply list_filter_ext_in.
  apply Forall_forall. intros m Hm%in_seqZ_max. by rewrite Hb.
Qed.

Lemma free_count_set_bit w n :
  disk_ok w → 0 ≤ n < MAX_BLOCKS → bit w n = false →
  free_count (set_bit n w) = free_count w - 1.
Proof.
  intros Hok Hn Hb. unfold free_count, free_below.
  rewrite (list_filter_ext_in (λ m, bit (set_bit n w) m = false) (λ m, m ≠ n ∧ bit w m = false)).
  - erewrite (filter_flip (λ m, bit w m = false) (λ m, m ≠ n ∧ bit w m = false) _ n); [lia|..];
      try done.
    + apply NoDup_seqZ.
    + by apply in_seqZ_max.
    + naive_solver.
    + naive_solver.
  - apply Forall_forall. intros m Hm%in_seqZ_max. rewrite bit_set_bit by done.
    case_bool_decide; simpl; naive_solver.
Qed.

Lemma free_count_clear_bit w n :
  disk_ok w → 0 ≤ n < MAX_BLOCKS → bit w n = true →
  free_count (clear_bit n w) = free_count w + 1.
Proof.
  intros Hok Hn Hb. unfold free_count, free_below.
  rewrite (list_filter_ext_in (λ m, bit (clear_bit n w) m = false) (λ m, m = n ∨ bit w m = false)).
  - erewrite (filter_flip (λ m, m = n ∨ bit w m = false) (λ m, bit w m = false) _ n); [lia|..];
      try done.
    + apply NoDup_seqZ.
    + by apply in_seqZ_max.
    + naive_solver.
    + by rewrite Hb.
    + naive_solver.
  - apply Forall_forall. intros m Hm%in_seqZ_max. rewrite bit_clear_bit by done.
    case_bool_decide; simpl; naive_solver.
Qed.

Lemma free_count_range w : 0 ≤ free_count w ≤ MAX_BLOCKS.
Proof.
  unfold free_count, free_below, zlen. split; [lia|].
  assert (length (seqZ 0 MAX_BLOCKS) = Z.to_nat MAX_BLOCKS) as Hl by apply length_seqZ.
  pose proof (length_filter (λ n, bit w n = false) (seqZ 0 MAX_BLOCKS)). consts. lia.
Qed.

Lemma free_count_pos w n :
  0 ≤ n < MAX_BLOCKS → bit w n = false → 0 < free_count w.
Proof.
  intros Hn Hb. unfold free_count, free_below, zlen.
  assert (n ∈ filter (λ n, bit w n = false) (seqZ 0 MAX_BLOCKS)) as Hin.
  { apply list_elem_of_filter. split; [done|]. by apply in_seqZ_max. }
  destruct (filter _ _); [by apply not_elem_of_nil in Hin|]. simpl. lia.
Qed.

Lemma least_free_Some w n :
  least_free w = Some n ↔
    0 ≤ n < MAX_BLOCKS ∧ bit w n = false ∧ ∀ m, 0 ≤ m < n → bit w m = true.
Proof.
  unfold least_free. rewrite fmap_Some. split.
  - intros ([i m] & (Hi & Hb & Hlt)%list_find_Some & ->). simpl.
    apply lookup_seqZ in Hi as [-> Hi]. split_and!; [lia|lia|done|].
    intros m Hm. specialize (Hlt (Z.to_nat m) m).
    apply not_false_iff_true, Hlt; [|lia]. apply lookup_seqZ. lia.
  - intros (Hn & Hb & Hlt). exists (Z.to_nat n, n). split; [|done].
    apply list_find_Some. split_and!; [apply lookup_seqZ; lia|done|].
    intros j m [-> Hj]%lookup_seqZ Hjn. rewrite Hlt by lia. done.
Qed.

Lemma least_free_None w :
  least_free w = None ↔ ∀ m, 0 ≤ m < MAX_BLOCKS → bit w m = true.
Proof.
  unfold least_free. rewrite fmap_None, list_find_None, Forall_forall. split.
  - intros Hf m Hm. apply not_false_iff_true, Hf. by apply in_seqZ_max.
  - intros Ht m Hm%in_seqZ_max. by rewrite Ht.
Qed.
End count.

(** ** What the operations do *)
Section run.
Context `{Clock} `{Build}.

Lemma run_is_allocated n w :
  disk_ok w → 0 ≤ n → run (is_allocated n) w = Done ((MAX_BLOCKS <=? n) || bit w n) w.
Proof.
  intros Hok Hn. unfold is_allocated. case_Z; [done|].
  rewrite locate_spec by lia. cbv zeta beta iota.
  rewrite bitmap_block_eq by lia.
  pose proof (bitmap_block_range n ltac:(lia)).
  run_step run_read_block by (apply disk_ok_has; [done|consts; lia]).
  consts.
  run_step run_unwrap by
    (rewrite index_lookup by (apply Z.mod_pos_bound; lia); by apply bitmap_lookup).
  rewrite run_ret. f_equal. unfold bit.
  pose proof (land_pow2_zero (w_read w (1 + n / 4096) !!! Z.to_nat (n / 8 mod 512)) (n mod 8)
    ltac:(apply Z.mod_pos_bound; lia)).
  destruct (Z.testbit _ _); case_Z; naive_solver.
Qed.

(** The superblock [mark_allocated] and [mark_free] leave, and the image: the map
    has changed in one bit and block 0 holds the new superblock. *)
Definition record_superblock (sb : SuperBlock) (w : world) : world :=
  w_write 0 (superblock_block sb) w.

Lemma run_mark_allocated sb n w :
  disk_ok w → zlen (sb_magic sb) = 16 → 0 ≤ n < MAX_BLOCKS →
  1 ≤ sb_free_blocks sb < 4294967296 →
  let sb' := with_free_blocks (sb_free_blocks sb - 1) sb in
  run (mark_allocated sb n) w = Done sb' (record_superblock sb' (set_bit n w)).
Proof.
  intros Hok Hm Hn Hf sb'. unfold mark_allocated.
  rewrite locate_spec by lia. cbv zeta beta iota. rewrite bitmap_block_eq by lia.
  pose proof (bitmap_block_range n ltac:(lia)). consts.
  run_step run_read_block by (apply disk_ok_has; [done|consts; lia]).
  run_step run_unwrap by
    (rewrite index_lookup by (apply Z.mod_pos_bound; lia); by apply bitmap_lookup).
  run_step run_unwrap by
    (apply set_index_Some; rewrite disk_ok_zlen by done; apply Z.mod_pos_bound; done).
  run_step run_write_block by (rewrite ?zlen_insert; try apply disk_ok_zlen; (done || unfold is_u32; lia)).
  run_step run_arith_u by lia.
  by run_step run_write_superblock by done.
Qed.

Lemma run_mark_free sb n w :
  disk_ok w → zlen (sb_magic sb) = 16 → 0 ≤ n < MAX_BLOCKS →
  0 ≤ sb_free_blocks sb < 4294967295 →
  let sb' := with_free_blocks (sb_free_blocks sb + 1) sb in
  run (mark_free sb n) w = Done sb' (record_superblock sb' (clear_bit n w)).
Proof.
  intros Hok Hm Hn Hf sb'. unfold mark_free.
  rewrite locate_spec by lia. cbv zeta beta iota. rewrite bitmap_block_eq by lia.
  pose proof (bitmap_block_range n ltac:(lia)). consts.
  run_step run_read_block by (apply disk_ok_has; [done|consts; lia]).
  run_step run_unwrap by
    (rewrite index_lookup by (apply Z.mod_pos_bound; lia); by apply bitmap_lookup).
  run_step run_unwrap by
    (apply set_index_Some; rewrite disk_ok_zlen by done; apply Z.mod_pos_bound; done).
  run_step run_write_block by (rewrite ?zlen_insert; try apply disk_ok_zlen; (done || unfold is_u32; lia)).
  run_step run_arith_u by lia.
  by run_step run_write_superblock by done.
Qed.
End run.

(** ** The scan of [allocate_block] *)
Section scan.
Lemma first_zero_bit_spec v :
  is_u8 v → v ≠ 255 →
  ∃ b, first_zero_bit v = Some b ∧ 0 ≤ b < 8 ∧ Z.testbit v b = false ∧
       ∀ j, 0 ≤ j < b → Z.testbit v j = true.
Proof.
  intros Hv H255. unfold first_zero_bit.
  assert (∀ j, 0 ≤ j < 8 → Z.land v (as_u8 (Z.shiftl 1 j)) = 0 ↔ Z.testbit v j = false) as Hl.
  { intros j Hj. rewrite Z.shiftl_1_l. rewrite as_u8_id; [apply land_pow2_zero; lia|].
    unfold is_u8. split; [apply Z.pow_nonneg; lia|].
    apply (Z.le_lt_trans _ (2 ^ 7)); [apply Z.pow_le_mono_r; lia|lia]. }
  destruct (list_find _ _) as [[i b]|] eqn:E.
  - apply list_find_Some in E as ([-> Hi]%lookup_seqZ & Hb & Hlt).
    exists (0 + Z.of_nat i). split_and!; [done|lia|lia|rewrite <-Hl by lia; exact Hb|].
    intros j Hj. apply not_false_iff_true. rewrite <-Hl by lia.
    apply (Hlt (Z.to_nat j)); [|lia]. apply lookup_seqZ. lia.
  - exfalso. apply H255, u8_full; [done|]. intros j Hj.
    apply not_false_iff_true. rewrite <-Hl by done.
    apply list_find_None in E. rewrite Forall_forall in E. apply E.
    apply elem_of_seqZ. lia.
Qed.

(** The first zero bit of a block of the map, and that there is none before it. *)
Lemma scan_bytes_spec buf off :
  Forall is_u8 buf →
  match scan_bytes off buf with
  | None => ∀ i : nat, (i < length buf)%nat → buf !!! i = 255
  | Some (o, b) =>
      off ≤ o < off + zlen buf ∧ 0 ≤ b < 8 ∧
      Z.testbit (buf !!! Z.to_nat (o - off)) b = false ∧
      (∀ j, 0 ≤ j < b → Z.testbit (buf !!! Z.to_nat (o - off)) j = true) ∧
      (∀ i : nat, Z.of_nat i < o - off → buf !!! i = 255)
  end.
Proof.
  intros Hu. revert off. induction Hu as [|v buf Hv _ IH]; intros off.
  { simpl. intros i Hi. lia. }
  simpl. destruct (Z.eqb_spec v 255) as [->|Hne].
  - specialize (IH (off + 1)). destruct (scan_bytes (off + 1) buf) as [[o b]|].
    + destruct IH as (Ho & Hb & Hz & Hlow & Hprev).
      replace (Z.to_nat (o - off)) with (S (Z.to_nat (o - (off + 1)))) by lia.
      simpl. split_and!; try done; try (unfold zlen in *; simpl; lia).
      intros [|i] Hi; [done|]. apply Hprev. lia.
    + intros [|i] Hi; [done|]. apply IH. lia.
  - destruct (first_zero_bit_spec v Hv Hne) as (b & -> & Hb & Hz & Hlow).
    rewrite Z.sub_diag. simpl. split_and!; try done; try (unfold zlen; simpl; lia).
Qed.

Lemma bit_in_block w k m :
  0 ≤ k → 4096 * k ≤ m < 4096 * (k + 1) →
  bit w m = Z.testbit (w_read w (1 + k) !!! Z.to_nat (m / 8 mod 512)) (m mod 8).
Proof. intros. unfold bit. by replace (m / 4096) with k by dlia. Qed.

Lemma scan_block_None w k :
  disk_ok w → 0 ≤ k → scan_bytes 0 (w_read w (1 + k)) = None →
  ∀ m, 4096 * k ≤ m < 4096 * (k + 1) → bit w m = true.
Proof.
  intros Hok Hk Hs m Hm. rewrite (bit_in_block w k) by done.
  pose proof (scan_bytes_spec (w_read w (1 + k)) 0 (disk_ok_u8 _ _ Hok)) as Hspec.
  rewrite Hs in Hspec. pose proof (disk_ok_zlen w (1 + k) Hok) as Hl. unfold zlen in Hl.
  consts. rewrite Hspec by (pose proof (Z.mod_pos_bound (m / 8) 512); lia).
  apply testbit_255. apply Z.mod_pos_bound. lia.
Qed.

Lemma scan_block_Some w k o b :
  disk_ok w → 0 ≤ k → scan_bytes 0 (w_read w (1 + k)) = Some (o, b) →
  let n := (k * BLOCK_SIZE + o) * 8 + b in
  4096 * k ≤ n < 4096 * (k + 1) ∧ bit w n = false ∧
  ∀ m, 4096 * k ≤ m < n → bit w m = true.
Proof.
  intros Hok Hk Hs n.
  pose proof (scan_bytes_spec (w_read w (1 + k)) 0 (disk_ok_u8 _ _ Hok)) as Hspec.
  rewrite Hs, disk_ok_zlen in Hspec by done. consts.
  destruct Hspec as (Ho & Hb & Hz & Hlow & Hprev).
  assert (4096 * k ≤ n < 4096 * (k + 1)) as Hn by (unfold n; lia).
  replace (Z.to_nat (o - 0)) with (Z.to_nat (n / 8 mod 512)) in Hz, Hlow by (unfold n; dlia).
  split_and!; [lia|lia|..].
  - rewrite (bit_in_block w k) by done. by replace (n mod 8) with b by (unfold n; dlia).
  - intros m Hm. rewrite (bit_in_block w k) by lia.
    assert (0 ≤ m mod 8 < 8) by (apply Z.mod_pos_bound; lia).
    destruct (decide (m / 8 mod 512 = o)) as [Heq|Hne].
    + replace (m / 8 mod 512) with (n / 8 mod 512) by (unfold n; dlia).
      apply Hlow. unfold n in *. dlia.
    + rewrite Hprev; [by apply testbit_255|]. unfold n in *. dlia.
Qed.
End scan.

(** ** The state of the allocator

    The superblock in memory is the one in block 0, it has the geometry of a formatted
    disk, its counter is the number of zero bits of the map, and the system area
    (superblock, map, inode table) is marked as allocated. *)
Record bitmap_inv (sb : SuperBlock) (w : world) : Prop := {
  bi_disk : disk_ok w;
  bi_on_disk : disk_superblock w = Some sb;
  bi_bitmap_blocks : sb_bitmap_blocks sb = 5;
  bi_table : sb_inode_table_start sb = 6;
  bi_data : sb_data_start sb = 31;
  bi_count : sb_free_blocks sb = free_count w;
  bi_system : ∀ n, 0 ≤ n < 31 → bit w n = true;
}.
#[export] Hint Resolve bi_disk : simplefs.

Lemma bitmap_inv_wf sb w :
  bitmap_inv sb w → superblock_wf sb ∧ SuperBlock_is_valid sb = true.
Proof. intros Hi. eapply disk_superblock_wf; [apply Hi|apply Hi]. Qed.

Lemma bitmap_inv_magic sb w : bitmap_inv sb w → zlen (sb_magic sb) = 16.
Proof. intros Hi. apply superblock_wf_magic. by eapply bitmap_inv_wf. Qed.
#[export] Hint Resolve bitmap_inv_magic : simplefs.

(** A write to the inode table or to the data area is none of the allocator's
    business. *)
Lemma bitmap_inv_write sb w b d :
  bitmap_inv sb w → 6 ≤ b → zlen d = BLOCK_SIZE → Forall is_u8 d → bitmap_inv sb (w_write b d w).
Proof.
  intros [] Hb Hd Hu. constructor; try done.
  - by apply disk_ok_write.
  - by rewrite disk_superblock_write_ne by lia.
  - rewrite (free_count_ext w); [done|]. intros. apply bit_write_ne; [done|lia].
  - intros. rewrite bit_write_ne by (consts; lia). auto.
Qed.

Lemma bitmap_inv_tick sb w : bitmap_inv sb w → bitmap_inv sb (w_tick w).
Proof.
  intros []. constructor; [done|done|done|done|done| |done].
  by rewrite (free_count_ext w).
Qed.
#[export] Hint Resolve bitmap_inv_tick : simplefs.

Lemma bit_record sb w m :
  0 ≤ m < MAX_BLOCKS → bit (record_superblock sb w) m = bit w m.
Proof. intros. by apply bit_write_ne; [|lia]. Qed.


(** Allocating a free block and freeing an allocated one keep the invariant. *)
Lemma bitmap_inv_set sb w n :
  bitmap_inv sb w → 0 ≤ n < MAX_BLOCKS → bit w n = false →
  let sb' := with_free_blocks (sb_free_blocks sb - 1) sb in
  bitmap_inv sb' (record_superblock sb' (set_bit n w)).
Proof.
  intros Hi Hn Hb sb'. destruct (bitmap_inv_wf _ _ Hi) as [Hwf Hv]. destruct Hi.
  pose proof (free_count_pos w n Hn Hb). pose proof (free_count_range w). consts.
  assert (superblock_wf sb').
  { apply superblock_wf_with_free_blocks; [done|]. unfold is_u32. lia. }
  constructor; try done.
  - apply disk_ok_write; auto with simplefs.
  - by apply disk_superblock_write.
  - rewrite (free_count_ext (set_bit n w)) by (intros; by apply bit_record).
    rewrite free_count_set_bit by done. simpl. lia.
  - intros m Hm. rewrite bit_record, bit_set_bit by (done || consts; lia).
    rewrite bi_system0 by done. apply orb_true_r.
Qed.

Lemma bitmap_inv_clear sb w n :
  bitmap_inv sb w → 31 ≤ n < MAX_BLOCKS → bit w n = true →
  let sb' := with_free_blocks (sb_free_blocks sb + 1) sb in
  bitmap_inv sb' (record_superblock sb' (clear_bit n w)).
Proof.
  intros Hi Hn Hb sb'. destruct (bitmap_inv_wf _ _ Hi) as [Hwf Hv]. destruct Hi.
  pose proof (free_count_range w). consts.
  assert (superblock_wf sb').
  { apply superblock_wf_with_free_blocks; [done|]. unfold is_u32. lia. }
  constructor; try done.
  - apply disk_ok_write; auto with simplefs.
  - by apply disk_superblock_write.
  - rewrite (free_count_ext (clear_bit n w)) by (intros; by apply bit_record).
    rewrite free_count_clear_bit by (done || consts; lia). simpl. lia.
  - intros m Hm. rewrite bit_record, bit_clear_bit by (done || consts; lia).
    rewrite bool_decide_false, bi_system0 by lia. done.
Qed.

Section allocate.
Context `{Clock} `{Build}.

Lemma run_allocate_block sb w :
  disk_ok w → superblock_wf sb →
  (∃ sb', disk_superblock w = Some sb' ∧ sb_bitmap_blocks sb' = 5) →
  run (allocate_block sb) w =
    if sb_free_blocks sb =? 0 then Done (None, sb) w
    else match least_free w with
         | None => Done (None, sb) w
         | Some n =>
             let sb' := with_free_blocks (sb_free_blocks sb - 1) sb in
             Done (Some n, sb') (record_superblock sb' (set_bit n w))
         end.
Proof.
  intros Hok Hwf (sbd & Hsb & H5). unfold allocate_block.
  destruct (Z.eqb_spec (sb_free_blocks sb) 0) as [|Hpos]; [done|].
  run_step run_read_superblock by (try apply disk_ok_has; done).
  rewrite H5. change (as_usize 5) with 5.
  set (result := match least_free w with Some _ => _ | None => _ end).
  match goal with |- run (for_in ?l ?s ?body ≫= ?k) w = _ =>
    assert (wp (for_in l s body) (λ r w', match r with
      | Continue _ => w' = w ∧ ∀ m, 0 ≤ m < MAX_BLOCKS → bit w m = true
      | Break r => result = Done r w'
      end) w) as Hwp end.
  - eapply wp_mono; [apply (wp_for_in
      (λ pre _ w', w' = w ∧ ∀ m, 0 ≤ m < 4096 * zlen pre → bit w m = true)
      (λ r w', result = Done r w')); [|]|].
    + split; [done|]. unfold zlen. simpl. intros. lia.
    + intros pre x post [] w' [-> Hx]%seqZ_split [-> Hpre].
      rewrite as_u32_id by (unfold is_u32; lia).
      wp_step run_read_block by (apply disk_ok_has; [done|consts; lia]).
      destruct (scan_bytes 0 (w_read w (1 + zlen pre))) as [[o b]|] eqn:E.
      * destruct (scan_block_Some w (zlen pre) o b Hok ltac:(lia) E) as (Hn & Hb & Hlow).
        rewrite as_u32_id by (unfold is_u32; lia).
        set (n := (zlen pre * BLOCK_SIZE + o) * 8 + b) in *.
        assert (0 ≤ n < MAX_BLOCKS) by (consts; lia).
        Z_false (MAX_BLOCKS <=? n).
        destruct Hwf as (Hm & _ & _ & Hfree & _). unfold is_u32 in Hfree.
        wp_step run_mark_allocated by (done || lia). apply wp_ret. unfold result.
        rewrite (proj2 (least_free_Some w n)); [done|]. split_and!; [lia|lia|done|].
        intros m Hm'. destruct (decide (m < 4096 * zlen pre)); [apply Hpre; lia|apply Hlow; lia].
      * apply wp_ret. split; [done|]. intros m Hm. rewrite zlen_app in Hm.
        change (zlen [zlen pre]) with 1 in Hm.
        destruct (decide (m < 4096 * zlen pre)); [apply Hpre; lia|].
        eapply scan_block_None; [done| |done|]; lia.
    + intros [[]|r] w'; [|done]. intros [-> Hall]. split; [done|]. exact Hall.
  - apply wp_inv in Hwp as ([[]|r] & w' & Hrun & HQ); rewrite run_bind, Hrun.
    + destruct HQ as [-> Hall]. unfold result.
      by rewrite (proj2 (least_free_None w)).
    + by rewrite HQ.
Qed.

(** With the invariant the counter decides nothing: an allocation fails exactly when
    every block is allocated. *)
Lemma run_allocate_block_inv sb w :
  bitmap_inv sb w →
  run (allocate_block sb) w =
    match least_free w with
    | None => Done (None, sb) w
    | Some n =>
        let sb' := with_free_blocks (sb_free_blocks sb - 1) sb in
        Done (Some n, sb') (record_superblock sb' (set_bit n w))
    end.
Proof.
  intros Hi. destruct (bitmap_inv_wf _ _ Hi) as [Hwf _].
  rewrite run_allocate_block; [|apply Hi|done|eexists; split; [apply Hi|apply Hi]].
  case_Z; [|done]. destruct (least_free w) as [n|] eqn:E; [|done].
  apply least_free_Some in E as (Hn & Hb & _).
  pose proof (free_count_pos w n Hn Hb). pose proof (bi_count _ _ Hi). lia.
Qed.
End allocate.

(** ** Formatting the map *)
Section init.
Context `{Clock}.

(** The bytes of the map that has exactly the first [k] bits set. *)
Definition map_prefix (k : Z) (bm : bytes) : Prop :=
  zlen bm = 2560 ∧ Forall is_u8 bm ∧
  ∀ m, 0 ≤ m < MAX_BLOCKS →
    Z.testbit (bm !!! Z.to_nat (m / 8)) (m mod 8) = bool_decide (m < k).

Lemma map_prefix_zeros : map_prefix 0 (zeros 2560).
Proof.
  split_and!; [done|apply Forall_zeros|]. intros m Hm. consts.
  rewrite (list_lookup_total_correct _ _ 0) by (apply lookup_zeros; dlia).
  rewrite Z.bits_0, bool_decide_false by lia. done.
Qed.

Lemma map_prefix_step k bm :
  0 ≤ k < MAX_BLOCKS → map_prefix k bm →
  map_prefix (k + 1)
    (<[Z.to_nat (k / 8) := Z.lor (bm !!! Z.to_nat (k / 8)) (2 ^ (k mod 8))]> bm).
Proof.
  intros Hk (Hl & Hu & Hb). consts.
  assert (Z.to_nat (k / 8) < length bm)%nat as Hlt by (unfold zlen in Hl; dlia).
  assert (0 ≤ k mod 8 < 8) by (apply Z.mod_pos_bound; lia).
  assert (is_u8 (bm !!! Z.to_nat (k / 8))) as Hku.
  { eapply Forall_lookup_1; [done|]. by apply list_lookup_lookup_total_lt. }
  split_and!.
  - by rewrite zlen_insert.
  - apply Forall_insert; [done|]. by apply is_u8_set.
  - intros m Hm. destruct (decide (k / 8 = m / 8)) as [He|He].
    + rewrite <-He, list_lookup_total_insert_eq, testbit_set by (done || lia).
      rewrite He, (Hb m) by done. repeat case_bool_decide; simpl; dlia || done.
    + rewrite list_lookup_total_insert_ne, Hb by (done || dlia).
      repeat case_bool_decide; dlia || done.
Qed.

(** A block of the map, cut out of its bytes. *)
Lemma map_slice (bm : bytes) i :
  zlen bm = 2560 → 0 ≤ i < 5 →
  slice (i * 512) (i * 512 + 512) bm = Some (take 512 (drop (Z.to_nat (i * 512)) bm)).
Proof. intros Hl Hi. rewrite slice_Some by lia. do 2 f_equal. lia. Qed.

Lemma wp_init_bitmap sb w :
  disk_ok w → sb_bitmap_blocks sb = 5 → 0 ≤ sb_data_start sb ≤ MAX_BLOCKS →
  wp (init_bitmap sb) (λ _ w',
    disk_ok w' ∧ w_ticks w' = w_ticks w ∧
    (∀ m, 0 ≤ m < MAX_BLOCKS → bit w' m = bool_decide (m < sb_data_start sb)) ∧
    (∀ b, ¬ 1 ≤ b ≤ 5 → w_read w' b = w_read w b)) w.
Proof.
  intros Hok H5 Hds. unfold init_bitmap. rewrite H5. change (as_usize 5) with 5.
  cbv zeta. apply wp_bind. consts. change (5 * 512) with 2560.
  eapply wp_mono.
  { apply (wp_for_each (λ pre bm w', w' = w ∧ map_prefix (zlen pre) bm)).
    { split; [done|apply map_prefix_zeros]. }
    intros pre x post bm w' [-> Hx]%seqZ_split [-> Hbm].
    rewrite locate_spec by (consts; lia). cbv beta iota.
    Z_true (zlen pre / 8 <? 2560).
    pose proof Hbm as (Hl & _ & _).
    wp_step run_unwrap by (apply index_Some; dlia).
    eapply wp_intro; [apply run_unwrap, set_index_Some; dlia|]. split; [done|].
    rewrite zlen_app. apply map_prefix_step; [consts; lia|done]. }
  intros bm w' [-> Hbm].
  assert (zlen (seqZ 0 (sb_data_start sb)) = sb_data_start sb) as Hlen.
  { unfold zlen. rewrite length_seqZ. lia. }
  rewrite Hlen in Hbm. destruct Hbm as (Hl & Hu & Hb).
  eapply wp_mono.
  { apply (wp_for_each (λ pre _ w',
      disk_ok w' ∧ w_ticks w' = w_ticks w ∧
      ∀ b, w_read w' b = if decide (1 ≤ b ≤ zlen pre)
                         then take 512 (drop (Z.to_nat ((b - 1) * 512)) bm) else w_read w b)).
    { split_and!; [done|done|]. intros b. rewrite decide_False; [done|].
      unfold zlen. simpl. lia. }
    intros pre x post [] w' [-> Hx]%seqZ_split (Hok' & Ht & Hr).
    wp_step run_unwrap by (by apply map_slice).
    assert (zlen (take 512 (drop (Z.to_nat (zlen pre * 512)) bm)) = 512) as Hzl.
    { unfold zlen in *. rewrite length_take, length_drop. lia. }
    wp_step run_unwrap by (apply copy_from_slice_Some; [lia|done|rewrite Hzl; lia]).
    rewrite as_u32_id by (unfold is_u32; lia).
    assert (splice 0 (take 512 (drop (Z.to_nat (zlen pre * 512)) bm)) (zeros 512) =
            take 512 (drop (Z.to_nat (zlen pre * 512)) bm)) as ->.
    { rewrite splice_first by (rewrite Hzl; lia). rewrite Hzl. apply app_nil_r. }
    eapply wp_intro; [apply run_write_block; [done|unfold is_u32; lia]|]. split_and!; [|done|].
    - apply disk_ok_write; auto using Forall_take, Forall_drop.
    - intros b. rewrite w_read_write, Hr, zlen_app. change (zlen [zlen pre]) with 1.
      case_decide as Hb'; [subst b; rewrite decide_True by lia; do 3 f_equal; lia|].
      destruct (decide (1 ≤ b ≤ zlen pre)); [by rewrite decide_True by lia|].
      by rewrite decide_False by lia. }
  intros [] w' (Hok' & Ht & Hr). change (zlen (seqZ 0 5)) with 5 in Hr.
  split_and!; [done|done|..].
  - intros m Hm. rewrite <-Hb by done. unfold bit. consts.
    rewrite Hr, decide_True by dlia. f_equal.
    rewrite lookup_total_take_lt by dlia. rewrite lookup_total_drop. f_equal. dlia.
  - intros b Hbb. by rewrite Hr, decide_False.
Qed.
End init.

(** ** The contract of the allocator

    Abstractly the free-space map is the set of allocated blocks; an allocation takes
    the lowest block outside of the set. *)
Module FreeMap.
Definition alloc (used : gset Z) : option u32 * gset Z :=
  match list_find (λ n, n ∉ used) (seqZ 0 MAX_BLOCKS) with
  | Some (_, n) => (Some n, {[n]} ∪ used)
  | None => (None, used)
  end.

Definition free (n : u32) (used : gset Z) : gset Z := used ∖ {[n]}.
End FreeMap.

(** The set of allocated blocks of an image. *)
Definition used (w : world) : gset Z :=
  list_to_set (filter (λ n, bit w n = true) (seqZ 0 MAX_BLOCKS)).

Lemma elem_of_used w n : n ∈ used w ↔ 0 ≤ n < MAX_BLOCKS ∧ bit w n = true.
Proof.
  unfold used. rewrite elem_of_list_to_set, list_elem_of_filter, in_seqZ_max. tauto.
Qed.

Lemma used_set_bit sb n w :
  disk_ok w → 0 ≤ n < MAX_BLOCKS →
  used (record_superblock sb (set_bit n w)) = {[n]} ∪ used w.
Proof.
  intros Hok Hn. apply set_eq. intros m. rewrite elem_of_union, elem_of_singleton, !elem_of_used.
  split.
  - intros [Hm Hb]. rewrite bit_record, bit_set_bit in Hb by done.
    case_bool_decide; [by left|by right].
  - intros [->|[Hm Hb]]; (split; [done|]); rewrite bit_record, bit_set_bit by done.
    + by rewrite bool_decide_true.
    + rewrite Hb. apply orb_true_r.
Qed.

Lemma used_clear_bit sb n w :
  disk_ok w → 0 ≤ n < MAX_BLOCKS →
  used (record_superblock sb (clear_bit n w)) = used w ∖ {[n]}.
Proof.
  intros Hok Hn. apply set_eq. intros m. rewrite elem_of_difference, elem_of_singleton, !elem_of_used.
  split.
  - intros [Hm Hb]. rewrite bit_record, bit_clear_bit in Hb by done.
    case_bool_decide; [done|]. by split.
  - intros [[Hm Hb] Hne]. split; [done|]. rewrite bit_record, bit_clear_bit, Hb by done.
    by rewrite bool_decide_false.
Qed.

Lemma FreeMap_alloc_least w :
  FreeMap.alloc (used w) =
    match least_free w with
    | Some n => (Some n, {[n]} ∪ used w)
    | None => (None, used w)
    end.
Proof.
  unfold FreeMap.alloc.
  destruct (list_find _ _) as [[i n]|] eqn:E.
  - apply list_find_Some in E as ([-> Hi]%lookup_seqZ & Hn & Hlt).
    rewrite (proj2 (least_free_Some w (0 + Z.of_nat i))); [done|]. consts.
    split_and!; [lia|lia|..].
    + apply not_true_iff_false. intros Hb. apply Hn, elem_of_used. consts. auto with lia.
    + intros m Hm. destruct (bit w m) eqn:Hb; [done|]. exfalso.
      apply (Hlt (Z.to_nat m) m); [apply lookup_seqZ; consts; lia|lia|].
      rewrite elem_of_used, Hb. by intros [].
  - rewrite (proj2 (least_free_None w)); [done|]. intros m Hm.
    apply list_find_None in E. rewrite Forall_forall in E.
    destruct (bit w m) eqn:Hb; [done|]. exfalso.
    apply (E m); [by apply in_seqZ_max|]. rewrite elem_of_used, Hb. by intros [].
Qed.

(** What an operation of the allocator may change: blocks 0 to 5. *)
Definition frame_above (b : u32) (w w' : world) : Prop :=
  w_ticks w' = w_ticks w ∧ ∀ b', b < b' → w_read w' b' = w_read w b'.

Lemma frame_set sb n w f : 0 ≤ n < MAX_BLOCKS → frame_above 5 w (record_superblock sb (update_byte f n w)).
Proof.
  intros Hn. split; [done|]. intros b Hb. unfold record_superblock.
  rewrite w_read_write_ne by lia. apply update_byte_read_ne.
  pose proof (bitmap_block_range n Hn). lia.
Qed.

(** ** Promises for a sequence of allocations

    [budget b n w]: there are [n] free blocks, and the next [n] allocations do not
    return the block [b], because its bit is set or because [n] free blocks come before
    it.  A component that has to keep a block out of the allocator's hands (the block of
    an inode outside the inode table) asks for this. *)
Definition budget (b : u32) (n : Z) (w : world) : Prop :=
  0 ≤ b < MAX_BLOCKS ∧ n ≤ free_count w ∧ (bit w b = true ∨ n ≤ free_below b w).

(** The state after the block [a] was allocated. *)
Record allocated (sb : SuperBlock) (w : world) (a : u32) (sb' : SuperBlock) (w' : world) : Prop := {
  al_range : 31 ≤ a < MAX_BLOCKS;
  al_free : bit w a = false;
  al_bits : ∀ m, 0 ≤ m < MAX_BLOCKS → bit w' m = bool_decide (a = m) || bit w m;
  al_inv : bitmap_inv sb' w';
  al_sb : sb_inode_table_start sb' = sb_inode_table_start sb;
  al_frame : frame_above 5 w w';
}.

Section budget.
Context `{Clock} `{Build}.
Implicit Types (sb : SuperBlock) (w : world).


(** Counting after one allocation, in the whole map or in a prefix of it. *)
Lemma free_below_step b a w w' :
  b ≤ MAX_BLOCKS → bit w a = false → 0 ≤ a →
  (∀ m, 0 ≤ m < MAX_BLOCKS → bit w' m = bool_decide (a = m) || bit w m) →
  free_below b w - 1 ≤ free_below b w'.
Proof.
  intros Hb Ha Ha0 Hbits. unfold free_below.
  rewrite (list_filter_ext_in (λ m, bit w' m = false) (λ m, m ≠ a ∧ bit w m = false)).
  - destruct (decide (a < b)) as [Hlt|Hge].
    + erewrite (filter_flip (λ m, bit w m = false) (λ m, m ≠ a ∧ bit w m = false) _ a); [lia|..];
        try done; [apply NoDup_seqZ|apply elem_of_seqZ; lia|naive_solver|naive_solver].
    + rewrite (list_filter_ext_in (λ m, m ≠ a ∧ bit w m = false) (λ m, bit w m = false)); [lia|].
      apply Forall_forall. intros m Hm%elem_of_seqZ. naive_solver lia.
  - apply Forall_forall. intros m Hm%elem_of_seqZ. rewrite Hbits by lia.
    case_bool_decide; simpl; naive_solver.
Qed.

Lemma free_below_pos b w : 0 < free_below b w → ∃ m, 0 ≤ m < b ∧ bit w m = false.
Proof.
  unfold free_below. destruct (filter _ _) as [|m l] eqn:E; [done|]. intros _.
  assert (m ∈ filter (λ n, bit w n = false) (seqZ 0 b)) as Hm by (rewrite E; set_solver).
  apply list_elem_of_filter in Hm as [Hm Hin%elem_of_seqZ]. exists m. split; [lia|done].
Qed.

Lemma free_count_none w : least_free w = None → free_count w = 0.
Proof.
  intros Hall. assert (¬ 0 < free_count w) as Hn; [|pose proof (free_count_range w); lia].
  intros (m & Hm & Hf)%free_below_pos. rewrite (proj1 (least_free_None w) Hall m Hm) in Hf. done.
Qed.

Lemma bitmap_inv_free sb w a : bitmap_inv sb w → 0 ≤ a → bit w a = false → 31 ≤ a.
Proof.
  intros Hi Ha Hb. destruct (Z.le_gt_cases 31 a); [done|].
  rewrite (bi_system _ _ Hi) in Hb by lia. done.
Qed.

Lemma least_free_allocated sb w a :
  bitmap_inv sb w → least_free w = Some a →
  let sb' := with_free_blocks (sb_free_blocks sb - 1) sb in
  allocated sb w a sb' (record_superblock sb' (set_bit a w)).
Proof.
  intros Hi (Ha & Hb & _)%least_free_Some sb'. constructor; try done.
  - pose proof (bitmap_inv_free sb w a Hi ltac:(lia) Hb). lia.
  - intros m Hm. rewrite bit_record, bit_set_bit by (done || apply Hi). done.
  - by apply bitmap_inv_set.
  - by apply frame_set.
Qed.

Lemma allocated_budget b n sb w a sb' w' :
  allocated sb w a sb' w' → budget b n w → least_free w = Some a → 0 < n →
  a ≠ b ∧ budget b (n - 1) w'.
Proof.
  intros [] (Hb & Hn & Hor) Hleast Hpos. apply least_free_Some in Hleast as (al_pos & _ & Hlow).
  assert (a ≠ b) as Hne.
  { intros ->. destruct Hor as [Hset|Hbelow]; [congruence|].
    destruct (free_below_pos b w) as (m & Hm & Hmf); [lia|]. rewrite Hlow in Hmf; done. }
  split; [done|]. split; [done|]. split.
  - assert (free_count w - 1 ≤ free_count w') as Hf
      by exact (free_below_step MAX_BLOCKS a w w' (Z.le_refl _) al_free0 (proj1 al_pos) al_bits0).
    lia.
  - destruct Hor as [Hset|Hbelow].
    + left. rewrite al_bits0, Hset by done. apply orb_true_r.
    + right. pose proof (free_below_step b a w w' ltac:(lia) al_free0 (proj1 al_pos) al_bits0). lia.
Qed.

Lemma run_allocate_budget n sb w :
  bitmap_inv sb w → 0 < n ≤ free_count w →
  ∃ a sb' w', run (allocate_block sb) w = Done (Some a, sb') w' ∧
    allocated sb w a sb' w' ∧ ∀ b, budget b n w → a ≠ b ∧ budget b (n - 1) w'.
Proof.
  intros Hi [Hn Hc]. rewrite run_allocate_block_inv by done.
  destruct (least_free w) as [a|] eqn:E.
  - do 3 eexists. split; [done|]. pose proof (least_free_allocated sb w a Hi E) as Ha.
    split; [done|]. intros b Hb. by eapply allocated_budget.
  - apply free_count_none in E. lia.
Qed.
End budget.

(** A map with the first [k] bits set has [MAX_BLOCKS - k] free blocks. *)
Lemma free_count_prefix w k :
  0 ≤ k ≤ MAX_BLOCKS →
  (∀ m, 0 ≤ m < MAX_BLOCKS → bit w m = bool_decide (m < k)) →
  free_count w = MAX_BLOCKS - k.
Proof.
  intros Hk Hb. unfold free_count, free_below.
  replace (seqZ 0 MAX_BLOCKS) with (seqZ 0 k ++ seqZ (0 + k) (MAX_BLOCKS - k))
    by (rewrite <-seqZ_app by lia; f_equal; lia).
  rewrite filter_app, zlen_app.
  rewrite (list_filter_ext_in _ (λ _, False)).
  2:{ apply Forall_forall. intros m Hm%elem_of_seqZ. rewrite Hb by lia.
      rewrite bool_decide_true by lia. done. }
  rewrite (list_filter_ext_in (λ n, bit w n = false) (λ _, True)).
  2:{ apply Forall_forall. intros m Hm%elem_of_seqZ. rewrite Hb by lia.
      rewrite bool_decide_false by lia. done. }
  assert (∀ l : list Z, filter (λ _, False) l = []) as -> by (intros l; induction l; done).
  assert (∀ l : list Z, filter (λ _, True) l = l) as ->.
  { intros l. induction l as [|x l IH]; [done|]. by rewrite filter_cons, IH, decide_True. }
  unfold zlen. rewrite length_seqZ. simpl. lia.
Qed.

(** ** A formatted map, for the witnesses *)

Definition done_world `{Clock} {A} (p : prog A) (w : world) : world :=
  match run p w with Done _ w' => w' | Panicked w' => w' | NoMeaning => w end.

#[local] Instance zero_clock : Clock := λ _, 0.
#[local] Instance checked_build : Build := true.

Definition formatted_map : world :=
  done_world (sb ← init_superblock; init_bitmap sb) blank_world.

(** The first [k] blocks are marked and the others are free. *)
Definition first_marked (k : Z) (w : world) : Prop :=
  ∀ m, 0 ≤ m < MAX_BLOCKS → bit w m = bool_decide (m < k).

Lemma first_marked_least k w :
  0 ≤ k < MAX_BLOCKS → first_marked k w → least_free w = Some k.
Proof.
  intros Hk Hb. apply least_free_Some. split_and!; [lia|lia| |].
  - rewrite Hb by lia. apply bool_decide_false. lia.
  - intros m Hm. rewrite Hb by lia. apply bool_decide_true. lia.
Qed.

Lemma wp_format_map `{Clock} w :
  disk_ok w →
  wp (sb ← init_superblock; init_bitmap sb)
    (λ _ w', bitmap_inv initial_superblock w' ∧
             (∀ m, 0 ≤ m < MAX_BLOCKS → bit w' m = bool_decide (m < 31)) ∧
             (∀ b, ¬ 0 ≤ b ≤ 5 → w_read w' b = w_read w b) ∧ w_ticks w' = w_ticks w) w.
Proof.
  intros Hok. pose proof initial_superblock_wf as Hwf.
  apply wp_bind. unfold init_superblock.
  wp_step run_write_block by (auto with simplefs; done). apply wp_ret.
  eapply wp_mono; [apply wp_init_bitmap; [auto with simplefs|done|done]|].
  change (sb_data_start initial_superblock) with 31.
  intros _ w' (Hok' & Ht & Hb & Hr). split_and!; [|done| |done].
  - constructor; try done.
    + unfold disk_superblock. rewrite Hr by lia. by apply disk_superblock_write.
    + rewrite (free_count_prefix w' 31) by done. done.
    + intros n Hn. rewrite Hb by (consts; lia). apply bool_decide_true. lia.
  - intros b Hbb. rewrite Hr by lia. apply w_read_write_ne. lia.
Qed.

Lemma formatted_map_inv :
  bitmap_inv initial_superblock formatted_map ∧
  ∀ m, 0 ≤ m < MAX_BLOCKS → bit formatted_map m = bool_decide (m < 31).
Proof.
  pose proof (wp_format_map blank_world blank_disk_ok) as Hwp.
  apply wp_inv in Hwp as ([] & w' & Hrun & Hi & Hb & _).
  unfold formatted_map, done_world. rewrite Hrun. exact (conj Hi Hb).
Qed.

(** ** Properties *)
Section properties.
Context `{Clock} `{Build}.

(** C16: [allocate_block] implements the abstract allocator: on a state that satisfies
    the invariant it never panics, returns the lowest free block (or [None] exactly
    when there is none), marks that block and no other, keeps the invariant (so the
    counter in memory and on disk stays exact and the system area stays reserved),
    changes no field of the superblock but the counter, and touches no block beyond
    the map. *)
Theorem allocate_block_refines sb w :
  bitmap_inv sb w →
  ∃ r sb' w', run (allocate_block sb) w = Done (r, sb') w' ∧
    FreeMap.alloc (used w) = (r, used w') ∧
    bitmap_inv sb' w' ∧
    sb' = with_free_blocks (free_count w') sb ∧
    frame_above 5 w w'.
Proof.
  intros Hi. rewrite run_allocate_block_inv, FreeMap_alloc_least by done.
  destruct (least_free w) as [n|] eqn:E; cbv zeta.
  - apply least_free_Some in E as (Hn & Hb & _).
    do 3 eexists. split; [done|].
    pose proof (bitmap_inv_set sb w n Hi Hn Hb) as Hi'. cbv zeta in Hi'.
    split_and!; [by rewrite used_set_bit by (apply Hi || done)|done| |by apply frame_set].
    by rewrite <-(bi_count _ _ Hi').
  - do 3 eexists. split_and!; [done|done|done| |done].
    rewrite <-(bi_count _ _ Hi). by destruct sb.
Qed.

(** C29: [mark_free] of an allocated data block implements the abstract deallocation:
    it removes exactly that block from the set, keeps the invariant, and touches
    no block beyond the map. *)
Theorem mark_free_refines sb w n :
  bitmap_inv sb w → 31 ≤ n → n ∈ used w →
  ∃ sb' w', run (mark_free sb n) w = Done sb' w' ∧
    used w' = FreeMap.free n (used w) ∧
    bitmap_inv sb' w' ∧
    sb' = with_free_blocks (free_count w') sb ∧
    frame_above 5 w w'.
Proof.
  intros Hi Hn31 Hn. apply elem_of_used in Hn as [Hn Hb].
  pose proof (bi_count _ _ Hi). pose proof (free_count_range w). consts.
  do 2 eexists. split.
  { apply run_mark_free; [apply Hi|eauto with simplefs|done|lia]. }
  pose proof (bitmap_inv_clear sb w n Hi ltac:(consts; lia) Hb) as Hi'. cbv zeta in Hi'.
  split_and!; [by apply used_clear_bit; [apply Hi|]|done| |by apply frame_set].
  by rewrite <-(bi_count _ _ Hi').
Qed.

(** A block that was allocated can be freed again, and the two operations cancel
    out: the map, the counter and every block of the image but the superblock's are
    back as they were. *)
Theorem allocate_free_cancel sb w n sb1 w1 :
  bitmap_inv sb w → run (allocate_block sb) w = Done (Some n, sb1) w1 →
  ∃ w2, run (mark_free sb1 n) w1 = Done sb w2 ∧
    used w2 = used w ∧ ∀ b, b ≠ 0 → w_read w2 b = w_read w b.
Proof.
  intros Hi Hrun. rewrite run_allocate_block_inv in Hrun by done.
  destruct (least_free w) as [m|] eqn:E; cbv zeta in Hrun; [|done].
  apply least_free_Some in E as (Hn & Hb & _). simplify_eq.
  pose proof (bitmap_inv_set sb w n Hi Hn Hb) as Hi'. cbv zeta in Hi'.
  set (sb1 := with_free_blocks (sb_free_blocks sb - 1) sb) in *.
  set (w1 := record_superblock sb1 (set_bit n w)) in *.
  pose proof (free_count_pos w n Hn Hb). pose proof (free_count_range w).
  pose proof (bi_count _ _ Hi). consts.
  assert (with_free_blocks (sb_free_blocks sb1 + 1) sb1 = sb) as Hsb.
  { destruct sb. unfold sb1, with_free_blocks. simpl. f_equal. lia. }
  eexists. split.
  { rewrite run_mark_free; [|apply Hi'|by apply (bitmap_inv_magic _ _ Hi')|done|unfold sb1; simpl; lia]. by rewrite Hsb. }
  split.
  - rewrite used_clear_bit by (done || apply Hi'). unfold w1.
    rewrite used_set_bit by (done || apply Hi).
    apply set_eq. intros m. rewrite elem_of_difference, elem_of_union, !elem_of_singleton.
    rewrite elem_of_used. destruct (decide (m = n)) as [->|Hne].
    + rewrite Hb. split; by intros [].
    + clear -Hne. tauto.
  - intros b Hb0. unfold record_superblock at 1. rewrite w_read_write_ne by done.
    unfold clear_bit, w1, record_superblock, set_bit, update_byte.
    set (B := 1 + n / 4096). assert (B ≠ 0) by (pose proof (bitmap_block_range n Hn); lia).
    rewrite w_read_write. rewrite (w_read_write_ne 0 B), (w_read_write_ne 0 b), w_read_write_eq by done.
    rewrite w_read_write. destruct (decide (B = b)) as [<-|]; [|done].
    pose proof (bitmap_lookup w n (bi_disk _ _ Hi)) as Hl. fold B in Hl.
    rewrite list_lookup_total_insert_eq by eauto using lookup_lt_Some.
    rewrite list_insert_insert_eq.
    rewrite list_insert_id; [done|]. rewrite Hl. f_equal.
    pose proof (bitmap_byte_u8 w n (bi_disk _ _ Hi)) as Hu. fold B in Hu.
    change (Z.testbit (w_read w B !!! Z.to_nat (n / 8 mod 512)) (n mod 8) = false) in Hb.
    pose proof (Z.mod_pos_bound n 8 ltac:(lia)).
    apply Z.bits_inj'. intros i Hi0. destruct (decide (i < 8)).
    + rewrite testbit_clear, testbit_set by lia. case_bool_decide; simpl; [|done].
      subst i. exact Hb.
    + rewrite (u8_high (_ !!! _)) by (done || lia).
      rewrite Z.land_spec, testbit_set, u8_high by (done || lia).
      by rewrite bool_decide_false by lia.
Qed.

(** [is_allocated] answers membership in the set of allocated blocks without
    changing anything, and treats every block number beyond the disk as allocated. *)
Theorem is_allocated_correct w n :
  disk_ok w → 0 ≤ n →
  ∃ b, run (is_allocated n) w = Done b w ∧ (b = true ↔ n ∈ used w ∨ MAX_BLOCKS ≤ n).
Proof.
  intros Hok Hn. rewrite run_is_allocated by done. eexists. split; [done|].
  rewrite elem_of_used, orb_true_iff, Z.leb_le.
  destruct (decide (MAX_BLOCKS ≤ n)); intuition lia.
Qed.

(** C33: formatting the superblock and the map establishes the invariant of the
    allocator: exactly the system area (blocks 0 to 30) is allocated, 20449 blocks
    are free, and nothing beyond the map is written. *)
Theorem format_map_establishes w :
  disk_ok w →
  ∃ w', run (sb ← init_superblock; init_bitmap sb) w = Done () w' ∧
    bitmap_inv initial_superblock w' ∧
    (∀ n, n ∈ used w' ↔ 0 ≤ n < 31) ∧ free_count w' = 20449 ∧
    frame_above 5 w w'.
Proof.
  intros Hok. pose proof (wp_format_map w Hok) as Hwp.
  apply wp_inv in Hwp as ([] & w' & Hrun & Hi & Hb & Hr & Ht).
  exists w'. split_and!; [done|done|..].
  - intros n. rewrite elem_of_used. split.
    + intros [Hn Hbit]. rewrite Hb in Hbit by done. apply bool_decide_eq_true in Hbit. lia.
    + intros Hn. split; [consts; lia|]. rewrite Hb by (consts; lia).
      apply bool_decide_true. lia.
  - rewrite <-(bi_count _ _ Hi). done.
  - split; [done|]. intros b Hbb. apply Hr. lia.
Qed.
End properties.

(** ** Witnesses *)

Lemma formatted_map_least : least_free formatted_map = Some 31.
Proof.
  destruct formatted_map_inv as [_ Hb]. apply least_free_Some.
  split_and!; [done|done|by rewrite Hb|].
  intros m Hm. rewrite Hb by (consts; lia). apply bool_decide_true. lia.
Qed.

Lemma formatted_map_bi : bitmap_inv initial_superblock formatted_map.
Proof. apply formatted_map_inv. Qed.

(** The first allocation on a formatted map, and the state after it. *)
Definition sb_one : SuperBlock := with_free_blocks 20448 initial_superblock.
Definition map_one : world := record_superblock sb_one (set_bit 31 formatted_map).

Lemma run_allocate_first :
  run (allocate_block initial_superblock) formatted_map = Done (Some 31, sb_one) map_one.
Proof.
  rewrite (run_allocate_block_inv _ _ formatted_map_bi), formatted_map_least. reflexivity.
Qed.

Lemma map_one_inv : bitmap_inv sb_one map_one.
Proof.
  apply (bitmap_inv_set initial_superblock formatted_map 31 formatted_map_bi); [done|].
  by apply least_free_Some, formatted_map_least.
Qed.

Lemma map_one_31 : 31 ∈ used map_one.
Proof.
  unfold map_one. rewrite used_set_bit; [|apply formatted_map_bi|done].
  rewrite elem_of_union, elem_of_singleton. by left.
Qed.

Lemma allocate_block_refines_witness :
  ∃ r sb' w', run (allocate_block initial_superblock) formatted_map = Done (r, sb') w' ∧
    FreeMap.alloc (used formatted_map) = (r, used w') ∧
    bitmap_inv sb' w' ∧
    sb' = with_free_blocks (free_count w') initial_superblock ∧
    frame_above 5 formatted_map w'.
Proof. apply (allocate_block_refines initial_superblock formatted_map formatted_map_bi). Defined.

Lemma mark_free_refines_witness :
  ∃ sb' w', run (mark_free sb_one 31) map_one = Done sb' w' ∧
    used w' = FreeMap.free 31 (used map_one) ∧
    bitmap_inv sb' w' ∧
    sb' = with_free_blocks (free_count w') sb_one ∧
    frame_above 5 map_one w'.
Proof. apply (mark_free_refines sb_one map_one 31 map_one_inv); [done|apply map_one_31]. Defined.

Lemma allocate_free_cancel_witness :
  ∃ w2, run (mark_free sb_one 31) map_one = Done initial_superblock w2 ∧
    used w2 = used formatted_map ∧ ∀ b, b ≠ 0 → w_read w2 b = w_read formatted_map b.
Proof.
  exact (allocate_free_cancel initial_superblock formatted_map 31 sb_one map_one
           formatted_map_bi run_allocate_first).
Defined.

Lemma is_allocated_correct_witness :
  ∃ b, run (is_allocated 31) map_one = Done b map_one ∧
       (b = true ↔ 31 ∈ used map_one ∨ MAX_BLOCKS ≤ 31).
Proof. apply (is_allocated_correct map_one 31); [apply map_one_inv|done]. Defined.

Lemma format_map_establishes_witness :
  disk_ok blank_world ∧
  ∃ w', run (sb ← init_superblock; init_bitmap sb) blank_world = Done () w' ∧
    bitmap_inv initial_superblock w' ∧
    (∀ n, n ∈ used w' ↔ 0 ≤ n < 31) ∧ free_count w' = 20449 ∧
    frame_above 5 blank_world w'.
Proof.
  split; [apply blank_disk_ok|].
  apply (format_map_establishes blank_world), blank_disk_ok.
Defined.
