(* ===== verification/Inode.v ===== *)
(** * Inode: [src/inode.rs], file metadata and block pointers *)
From S2P Require Import Prelude Disk Superblock Bitmap.

Definition DIRECT_BLOCKS : usize := 10.
Definition INODE_SIZE : usize := 84.

(** File-type bits of the Linux ABI, as documented in inode(7). *)
Definition S_IFDIR : Z := 16384.
Definition S_IFREG : Z := 32768.

Record Inode := {
  i_inode_no : u32;
  i_mode : u16;
  i_uid : u16;
  i_gid : u16;
  i_size : u32;
  i_nlink : u16;
  i_block_count : u16;
  i_mtime : i64;
  i_atime : i64;
  i_ctime : i64;
  i_direct_blocks : list u32;
  i_indirect_block : u32;
}.

(** Assignments to the fields of a mutable inode. *)
Section setters.
Variable i : Inode.

Definition set_mode (x : u16) : Inode :=
  {| i_inode_no := i_inode_no i; i_mode := x; i_uid := i_uid i; i_gid := i_gid i;
     i_size := i_size i; i_nlink := i_nlink i; i_block_count := i_block_count i;
     i_mtime := i_mtime i; i_atime := i_atime i; i_ctime := i_ctime i;
     i_direct_blocks := i_direct_blocks i; i_indirect_block := i_indirect_block i |}.
Definition set_size (x : u32) : Inode :=
  {| i_inode_no := i_inode_no i; i_mode := i_mode i; i_uid := i_uid i; i_gid := i_gid i;
     i_size := x; i_nlink := i_nlink i; i_block_count := i_block_count i;
     i_mtime := i_mtime i; i_atime := i_atime i; i_ctime := i_ctime i;
     i_direct_blocks := i_direct_blocks i; i_indirect_block := i_indirect_block i |}.
Definition set_nlink (x : u16) : Inode :=
  {| i_inode_no := i_inode_no i; i_mode := i_mode i; i_uid := i_uid i; i_gid := i_gid i;
     i_size := i_size i; i_nlink := x; i_block_count := i_block_count i;
     i_mtime := i_mtime i; i_atime := i_atime i; i_ctime := i_ctime i;
     i_direct_blocks := i_direct_blocks i; i_indirect_block := i_indirect_block i |}.
Definition set_block_count (x : u16) : Inode :=
  {| i_inode_no := i_inode_no i; i_mode := i_mode i; i_uid := i_uid i; i_gid := i_gid i;
     i_size := i_size i; i_nlink := i_nlink i; i_block_count := x;
     i_mtime := i_mtime i; i_atime := i_atime i; i_ctime := i_ctime i;
     i_direct_blocks := i_direct_blocks i; i_indirect_block := i_indirect_block i |}.
Definition set_mtime (x : i64) : Inode :=
  {| i_inode_no := i_inode_no i; i_mode := i_mode i; i_uid := i_uid i; i_gid := i_gid i;
     i_size := i_size i; i_nlink := i_nlink i; i_block_count := i_block_count i;
     i_mtime := x; i_atime := i_atime i; i_ctime := i_ctime i;
     i_direct_blocks := i_direct_blocks i; i_indirect_block := i_indirect_block i |}.
Definition set_atime (x : i64) : Inode :=
  {| i_inode_no := i_inode_no i; i_mode := i_mode i; i_uid := i_uid i; i_gid := i_gid i;
     i_size := i_size i; i_nlink := i_nlink i; i_block_count := i_block_count i;
     i_mtime := i_mtime i; i_atime := x; i_ctime := i_ctime i;
     i_direct_blocks := i_direct_blocks i; i_indirect_block := i_indirect_block i |}.
Definition set_direct_blocks (x : list u32) : Inode :=
  {| i_inode_no := i_inode_no i; i_mode := i_mode i; i_uid := i_uid i; i_gid := i_gid i;
     i_size := i_size i; i_nlink := i_nlink i; i_block_count := i_block_count i;
     i_mtime := i_mtime i; i_atime := i_atime i; i_ctime := i_ctime i;
     i_direct_blocks := x; i_indirect_block := i_indirect_block i |}.
Definition set_indirect_block (x : u32) : Inode :=
  {| i_inode_no := i_inode_no i; i_mode := i_mode i; i_uid := i_uid i; i_gid := i_gid i;
     i_size := i_size i; i_nlink := i_nlink i; i_block_count := i_block_count i;
     i_mtime := i_mtime i; i_atime := i_atime i; i_ctime := i_ctime i;
     i_direct_blocks := i_direct_blocks i; i_indirect_block := x |}.
End setters.

(** [current_timestamp]: [duration_since(UNIX_EPOCH).unwrap()] panics for a clock
    before the epoch; [as_secs() as i64]. *)
Definition current_timestamp : prog i64 :=
  Now (λ t, if t <? 0 then Panic else mret (as_i64 (as_u64 t))).

(** [Inode::new_file] *)
Definition new_file (inode_no : u32) : prog Inode :=
  now ← current_timestamp;
  mret {| i_inode_no := inode_no;
          i_mode := Z.lor (as_u16 S_IFREG) 420 (* 0o644 *);
          i_uid := 1000;
          i_gid := 1000;
          i_size := 0;
          i_nlink := 1;
          i_block_count := 0;
          i_mtime := now;
          i_atime := now;
          i_ctime := now;
          i_direct_blocks := replicate (Z.to_nat DIRECT_BLOCKS) 0;
          i_indirect_block := 0 |}.

(** [Inode::new_dir] *)
Definition new_dir (inode_no : u32) : prog Inode :=
  now ← current_timestamp;
  mret {| i_inode_no := inode_no;
          i_mode := Z.lor (as_u16 S_IFDIR) 493 (* 0o755 *);
          i_uid := 1000;
          i_gid := 1000;
          i_size := 0;
          i_nlink := 2;
          i_block_count := 0;
          i_mtime := now;
          i_atime := now;
          i_ctime := now;
          i_direct_blocks := replicate (Z.to_nat DIRECT_BLOCKS) 0;
          i_indirect_block := 0 |}.

(** [Inode::from_bytes] *)
Definition Inode_from_bytes (inode_no : u32) (data : bytes) : option Inode :=
  direct_blocks ← mapM (λ i, read_le 4 data (38 + i * 4)) (seqZ 0 DIRECT_BLOCKS);
  mode ← read_le 2 data 0;
  uid ← read_le 2 data 2;
  gid ← read_le 2 data 4;
  size ← read_le 4 data 6;
  nlink ← read_le 2 data 10;
  block_count ← read_le 2 data 12;
  mtime ← as_i64 <$> read_le 8 data 14;
  atime ← as_i64 <$> read_le 8 data 22;
  ctime ← as_i64 <$> read_le 8 data 30;
  indirect_block ← read_le 4 data (38 + DIRECT_BLOCKS * 4);
  Some {| i_inode_no := inode_no;
          i_mode := mode;
          i_uid := uid;
          i_gid := gid;
          i_size := size;
          i_nlink := nlink;
          i_block_count := block_count;
          i_mtime := mtime;
          i_atime := atime;
          i_ctime := ctime;
          i_direct_blocks := direct_blocks;
          i_indirect_block := indirect_block |}.

(** [Inode::to_bytes]; the ranges are constants inside the 84-byte array. *)
Definition Inode_to_bytes (self : Inode) : bytes :=
  let buf := zeros INODE_SIZE in
  let buf := splice 0 (to_le 2 (i_mode self)) buf in
  let buf := splice 2 (to_le 2 (i_uid self)) buf in
  let buf := splice 4 (to_le 2 (i_gid self)) buf in
  let buf := splice 6 (to_le 4 (i_size self)) buf in
  let buf := splice 10 (to_le 2 (i_nlink self)) buf in
  let buf := splice 12 (to_le 2 (i_block_count self)) buf in
  let buf := splice 14 (to_le 8 (i_mtime self)) buf in
  let buf := splice 22 (to_le 8 (i_atime self)) buf in
  let buf := splice 30 (to_le 8 (i_ctime self)) buf in
  let buf := foldl (λ buf i, splice (38 + i * 4)
                               (to_le 4 (i_direct_blocks self !!! Z.to_nat i)) buf)
               buf (seqZ 0 DIRECT_BLOCKS) in
  let indirect_offset := 38 + DIRECT_BLOCKS * 4 in
  splice indirect_offset (to_le 4 (i_indirect_block self)) buf.

(** [Inode::check_permission] *)
Definition check_permission (self : Inode) (want_write : bool) (_uid _gid : u32) : bool :=
  let perm := Z.land (i_mode self) 511 (* 0o777 *) in
  if want_write then negb (Z.land perm 146 (* 0o222 *) =? 0)
  else negb (Z.land perm 292 (* 0o444 *) =? 0).

(** [Inode::get_block] *)
Definition get_block (self : Inode) (index_ : u32) : prog (option u32) :=
  if index_ <? as_u32 DIRECT_BLOCKS then
    block ← unwrap (index index_ (i_direct_blocks self));
    mret (if block =? 0 then None else Some block)
  else if negb (i_indirect_block self =? 0) then
    let indirect_idx := index_ - as_u32 DIRECT_BLOCKS in
    indirect_buf ← read_block (i_indirect_block self);
    let offset := as_usize indirect_idx * 2 in
    if PAGE_SIZE <? offset + 2 then mret None
    else
      block ← unwrap (read_le 2 indirect_buf offset);
      mret (if block =? 0 then None else Some block)
  else mret None.

(** [Inode::set_block]; the inode is a mutable reference, its new value is returned. *)
Definition set_block (self : Inode) (index_ block_num : u32) : prog Inode :=
  if index_ <? as_u32 DIRECT_BLOCKS then
    direct_blocks ← unwrap (set_index index_ block_num (i_direct_blocks self));
    mret (set_direct_blocks self direct_blocks)
  else
    let indirect_idx := index_ - as_u32 DIRECT_BLOCKS in
    indirect_buf ← read_block (i_indirect_block self);
    let offset := as_usize indirect_idx * 2 in
    indirect_buf ← unwrap (copy_from_slice offset (offset + 2)
                             (to_le 2 (as_u16 block_num)) indirect_buf);
    write_block (i_indirect_block self) indirect_buf;;
    mret self.

Section with_build.
Context `{Build}.

(** [inode_block_location] *)
Definition inode_block_location (sb : SuperBlock) (inode_no : u32) : prog (u32 * usize) :=
  let inodes_per_block := BLOCK_SIZE / INODE_SIZE in
  let block_offset := as_usize inode_no / inodes_per_block in
  let byte_offset := (as_usize inode_no mod inodes_per_block) * INODE_SIZE in
  block ← arith_u32 (sb_inode_table_start sb + as_u32 block_offset);
  mret (block, byte_offset).

(** [read_inode] *)
Definition read_inode (sb : SuperBlock) (inode_no : u32) : prog Inode :=
  '(block_num, offset) ← inode_block_location sb inode_no;
  block_buf ← read_block block_num;
  data ← unwrap (slice offset (offset + INODE_SIZE) block_buf);
  unwrap (Inode_from_bytes inode_no data).

(** [write_inode] *)
Definition write_inode (sb : SuperBlock) (inode : Inode) : prog () :=
  '(block_num, offset) ← inode_block_location sb (i_inode_no inode);
  block_buf ← read_block block_num;
  let data := Inode_to_bytes inode in
  block_buf ← unwrap (copy_from_slice offset (offset + INODE_SIZE) data block_buf);
  write_block block_num block_buf.
End with_build.

(** ** Well-formedness and layout *)

(** The values a Rust [Inode] can have. *)
Definition inode_wf (i : Inode) : Prop :=
  is_u32 (i_inode_no i) ∧ is_u16 (i_mode i) ∧ is_u16 (i_uid i) ∧ is_u16 (i_gid i) ∧
  is_u32 (i_size i) ∧ is_u16 (i_nlink i) ∧ is_u16 (i_block_count i) ∧
  is_i64 (i_mtime i) ∧ is_i64 (i_atime i) ∧ is_i64 (i_ctime i) ∧
  zlen (i_direct_blocks i) = 10 ∧ Forall is_u32 (i_direct_blocks i) ∧
  is_u32 (i_indirect_block i).

#[export] Instance inode_wf_dec i : Decision (inode_wf i).
Proof. unfold inode_wf. apply _. Defined.

#[export] Instance Inode_eq_dec : EqDecision Inode.
Proof. solve_decision. Defined.

(** Open a list of ten pointers. *)
Ltac ten_pointers l H :=
  do 10 (let a := fresh "a" in destruct l as [|a l]; [done|]);
  destruct l; [|exfalso; unfold zlen in H; simpl in H; lia].

Lemma zlen_pointers l : zlen (l ≫= to_le 4) = 4 * zlen l.
Proof.
  induction l as [|x l IH]; [done|].
  change ((x :: l) ≫= to_le 4) with (to_le 4 x ++ (l ≫= to_le 4)).
  rewrite zlen_app, zlen_to_le, IH. unfold zlen. simpl length. lia.
Qed.

(** The on-disk layout: the fields in order, and two bytes of padding. *)
Lemma Inode_to_bytes_layout i :
  zlen (i_direct_blocks i) = 10 →
  Inode_to_bytes i =
    to_le 2 (i_mode i) ++ to_le 2 (i_uid i) ++ to_le 2 (i_gid i) ++ to_le 4 (i_size i) ++
    to_le 2 (i_nlink i) ++ to_le 2 (i_block_count i) ++ to_le 8 (i_mtime i) ++
    to_le 8 (i_atime i) ++ to_le 8 (i_ctime i) ++ (i_direct_blocks i ≫= to_le 4) ++
    to_le 4 (i_indirect_block i) ++ zeros 2.
Proof.
  intros Hd. unfold Inode_to_bytes. change INODE_SIZE with 84. change DIRECT_BLOCKS with 10.
  change (seqZ 0 10) with [0; 1; 2; 3; 4; 5; 6; 7; 8; 9]. cbn [foldl].
  destruct i as [no mode uid gid size nlink bc mt at_ ct l ind]. cbn [i_direct_blocks] in Hd.
  cbn [i_inode_no i_mode i_uid i_gid i_size i_nlink i_block_count i_mtime i_atime i_ctime
       i_direct_blocks i_indirect_block].
  ten_pointers l Hd.
  layout_tac. rewrite !zlen_to_le.
  cbn [lookup_total list_lookup_total Z.to_nat Pos.to_nat Pos.iter_op Nat.add mbind list_bind].
  rewrite <-!app_assoc. simpl app at 1. reflexivity.
Qed.

Lemma zlen_Inode_to_bytes i :
  zlen (i_direct_blocks i) = 10 → zlen (Inode_to_bytes i) = INODE_SIZE.
Proof.
  intros Hd. rewrite Inode_to_bytes_layout by done.
  rewrite !zlen_app, !zlen_to_le, zlen_pointers, Hd. done.
Qed.

Lemma Inode_to_bytes_u8 i :
  zlen (i_direct_blocks i) = 10 → Forall is_u8 (Inode_to_bytes i).
Proof.
  intros Hd. rewrite Inode_to_bytes_layout by done.
  repeat (apply Forall_app; split); auto with simplefs.
  generalize (i_direct_blocks i). intros l. induction l as [|x l IH]; [constructor|].
  change ((x :: l) ≫= to_le 4) with (to_le 4 x ++ (l ≫= to_le 4)).
  apply Forall_app; auto with simplefs.
Qed.

(** The pointers, one by one. *)
Lemma mapM_pointers l pre rest :
  zlen l = 10 → Forall is_u32 l → zlen pre = 38 →
  mapM (λ i, read_le 4 (pre ++ (l ≫= to_le 4) ++ rest) (38 + i * 4)) (seqZ 0 10) = Some l.
Proof.
  intros Hl Hu Hpre. change (seqZ 0 10) with [0; 1; 2; 3; 4; 5; 6; 7; 8; 9].
  ten_pointers l Hl. repeat (apply Forall_cons in Hu as [? Hu]).
  cbn [mbind list_bind]. rewrite <-!app_assoc.
  cbn [mapM]. do 10 read_field. done.
Qed.

Lemma Inode_from_to_bytes i :
  inode_wf i → Inode_from_bytes (i_inode_no i) (Inode_to_bytes i) = Some i.
Proof.
  intros (_ & ? & ? & ? & ? & ? & ? & ? & ? & ? & Hd & Hu & ?).
  rewrite Inode_to_bytes_layout by done. unfold Inode_from_bytes.
  change DIRECT_BLOCKS with 10.
  set (mid := i_direct_blocks i ≫= to_le 4).
  assert (zlen mid = 40) as Hmid by (unfold mid; rewrite zlen_pointers, Hd; done).
  assert (∀ rest, mapM (λ j, read_le 4
    (to_le 2 (i_mode i) ++ to_le 2 (i_uid i) ++ to_le 2 (i_gid i) ++ to_le 4 (i_size i) ++
     to_le 2 (i_nlink i) ++ to_le 2 (i_block_count i) ++ to_le 8 (i_mtime i) ++
     to_le 8 (i_atime i) ++ to_le 8 (i_ctime i) ++ mid ++ rest) (38 + j * 4)) (seqZ 0 10)
    = Some (i_direct_blocks i)) as ->.
  { intros rest. rewrite !(app_assoc (to_le 2 (i_mode i))), !(app_assoc (_ ++ _)).
    rewrite <-(app_assoc (_ ++ _) mid). apply mapM_pointers; [done|done|zlen_tac]. }
  cbn [mbind option_bind].
  do 10 read_field. by destruct i.
Qed.

(** Whatever the bytes, [from_bytes] gives a Rust value. *)
Lemma read_le_range (n : nat) d off x :
  Forall is_u8 d → read_le (Z.of_nat n) d off = Some x → 0 ≤ x < 256 ^ Z.of_nat n.
Proof.
  intros Hd Hx. unfold read_le in Hx.
  destruct (slice off (off + Z.of_nat n) d) as [l|] eqn:El; [|done]. simplify_eq/=.
  pose proof (slice_length _ _ _ _ El) as Hl.
  assert (Forall is_u8 l) as Hlu.
  { unfold slice in El. case_match; [|done]. simplify_eq. auto using Forall_take, Forall_drop. }
  pose proof (from_le_range l Hlu) as Hr. rewrite Hl in Hr.
  by replace (off + Z.of_nat n - off) with (Z.of_nat n) in Hr by lia.
Qed.

Lemma as_i64_range x : is_i64 (as_i64 x).
Proof.
  unfold is_i64, as_i64.
  pose proof (Z.mod_pos_bound (x + 9223372036854775808) 18446744073709551616). lia.
Qed.

Lemma read_le_Some n d off : 0 ≤ off → 0 ≤ n → off + n ≤ zlen d → is_Some (read_le n d off).
Proof. intros. unfold read_le. rewrite slice_Some by lia. by eexists. Qed.

Lemma mapM_read_le d l :
  Forall is_u8 d → Forall (λ i, 0 ≤ i ∧ 38 + i * 4 + 4 ≤ zlen d) l →
  ∃ r, mapM (λ i, read_le 4 d (38 + i * 4)) l = Some r ∧ Forall is_u32 r ∧ zlen r = zlen l.
Proof.
  intros Hd. induction 1 as [|i l [Hi Hib] _ IH]; [by exists []|].
  destruct (read_le_Some 4 d (38 + i * 4)) as [x Hx]; [lia|lia|lia|].
  destruct IH as (r & Hr & Hu & Hl). exists (x :: r). cbn [mapM]. rewrite Hx. simpl. rewrite Hr.
  split_and!; [done| |unfold zlen in *; simpl; lia].
  constructor; [|done]. by apply (read_le_range 4) in Hx.
Qed.

Lemma Inode_from_bytes_wf n d :
  is_u32 n → Forall is_u8 d → zlen d = 84 →
  ∃ i, Inode_from_bytes n d = Some i ∧ inode_wf i ∧ i_inode_no i = n.
Proof.
  intros Hn Hd Hl. unfold Inode_from_bytes. change DIRECT_BLOCKS with 10.
  destruct (mapM_read_le d (seqZ 0 10)) as (dir & -> & Hdir & Hdl); [done| |].
  { apply Forall_forall. intros i Hi%elem_of_seqZ. lia. }
  simpl.
  do 10 (match goal with
         | |- context [read_le ?k d ?off] =>
             let x := fresh "x" in let Hx := fresh "Hx" in
             destruct (read_le_Some k d off) as [x Hx]; [lia|lia|lia|rewrite Hx; simpl]
         end).
  eexists. split; [done|]. split; [|done].
  unfold inode_wf. simpl.
  split_and!; try done; try apply as_i64_range;
    first [ by eapply (read_le_range 2) | by eapply (read_le_range 4) ].
Qed.

(** ** Inodes on the disk *)

(** The block and the offset of an inode. *)
Definition inode_block (sb : SuperBlock) (n : u32) : u32 := sb_inode_table_start sb + n / 6.
Definition inode_offset (n : u32) : usize := (n mod 6) * 84.

Definition disk_inode (sb : SuperBlock) (w : world) (n : u32) : option Inode :=
  data ← slice (inode_offset n) (inode_offset n + INODE_SIZE) (w_read w (inode_block sb n));
  Inode_from_bytes n data.

Definition put_inode (sb : SuperBlock) (i : Inode) (w : world) : world :=
  let b := inode_block sb (i_inode_no i) in
  w_write b (splice (inode_offset (i_inode_no i)) (Inode_to_bytes i) (w_read w b)) w.

(** The inode number can be used: its block is on the disk, after the map. *)
Definition inode_ok (sb : SuperBlock) (n : u32) : Prop :=
  0 ≤ n ∧ 6 ≤ sb_inode_table_start sb ∧ inode_block sb n < MAX_BLOCKS.

Lemma inode_offset_range n : 0 ≤ inode_offset n ∧ inode_offset n + 84 ≤ 512.
Proof. unfold inode_offset. dlia. Qed.

Lemma inode_ok_u32 sb n : inode_ok sb n → is_u32 n.
Proof. unfold inode_ok, inode_block, is_u32. consts. dlia. Qed.

Lemma inode_ok_block sb n : inode_ok sb n → 6 ≤ inode_block sb n < MAX_BLOCKS.
Proof. unfold inode_ok, inode_block. dlia. Qed.
#[export] Hint Resolve inode_ok_u32 : simplefs.

Section disk.
Context `{Clock} `{Build}.
Implicit Types (sb : SuperBlock) (w : world) (i : Inode) (n : u32).

Lemma run_inode_block_location sb n w :
  inode_ok sb n →
  run (inode_block_location sb n) w = Done (inode_block sb n, inode_offset n) w.
Proof.
  intros Hn. pose proof (inode_ok_u32 _ _ Hn) as Hu. pose proof (inode_ok_block _ _ Hn).
  unfold inode_block_location. change (BLOCK_SIZE / INODE_SIZE) with 6.
  unfold is_u32 in Hu. rewrite as_usize_id by lia.
  rewrite as_u32_id by (unfold is_u32; dlia).
  run_step run_arith_u by (unfold inode_block in *; consts; lia). done.
Qed.

Lemma disk_inode_Some sb w n :
  disk_ok w → inode_ok sb n →
  ∃ i, disk_inode sb w n = Some i ∧ inode_wf i ∧ i_inode_no i = n.
Proof.
  intros Hok Hn. unfold disk_inode. change INODE_SIZE with 84.
  pose proof (inode_offset_range n). pose proof (disk_ok_zlen w (inode_block sb n) Hok) as Hl.
  consts. rewrite slice_Some by lia. simpl. apply Inode_from_bytes_wf.
  - by eapply inode_ok_u32.
  - apply Forall_take, Forall_drop. by apply disk_ok_u8.
  - unfold zlen in *. rewrite length_take, length_drop. lia.
Qed.

Lemma disk_inode_wf sb w n i :
  disk_ok w → inode_ok sb n → disk_inode sb w n = Some i → inode_wf i ∧ i_inode_no i = n.
Proof.
  intros Hok Hn Hi. destruct (disk_inode_Some sb w n Hok Hn) as (i' & Hi' & ?).
  by simplify_eq.
Qed.

Lemma run_read_inode sb n i w :
  disk_ok w → inode_ok sb n → disk_inode sb w n = Some i →
  run (read_inode sb n) w = Done i w.
Proof.
  intros Hok Hn Hi. unfold read_inode.
  run_step run_inode_block_location by done. cbv beta iota.
  pose proof (inode_ok_block _ _ Hn).
  run_step run_read_block by (apply disk_ok_has; [done|lia]).
  unfold disk_inode in Hi. destruct (slice _ _ _) as [d|] eqn:E; [|done].
  run_step run_unwrap by done. by apply run_unwrap.
Qed.

Lemma run_write_inode sb i w :
  disk_ok w → inode_ok sb (i_inode_no i) → zlen (i_direct_blocks i) = 10 →
  run (write_inode sb i) w = Done () (put_inode sb i w).
Proof.
  intros Hok Hn Hd. unfold write_inode.
  run_step run_inode_block_location by done. cbv beta iota.
  pose proof (inode_ok_block _ _ Hn). pose proof (inode_offset_range (i_inode_no i)).
  pose proof (zlen_Inode_to_bytes i Hd) as Hb. change INODE_SIZE with 84 in *.
  pose proof (disk_ok_zlen w (inode_block sb (i_inode_no i)) Hok) as Hl. consts.
  run_step run_read_block by (apply disk_ok_has; [done|consts; lia]). cbv zeta.
  run_step run_unwrap by (apply copy_from_slice_Some; change INODE_SIZE with 84; lia).
  apply run_write_block; consts; [rewrite zlen_splice by lia; lia|unfold is_u32; lia].
Qed.

Lemma disk_ok_put sb i w :
  disk_ok w → zlen (i_direct_blocks i) = 10 → disk_ok (put_inode sb i w).
Proof.
  intros Hok Hd. unfold put_inode. pose proof (inode_offset_range (i_inode_no i)).
  pose proof (zlen_Inode_to_bytes i Hd) as Hb. change INODE_SIZE with 84 in *.
  pose proof (disk_ok_block w (inode_block sb (i_inode_no i)) Hok) as [Hl Hu]. consts.
  apply disk_ok_write; [done|consts; rewrite zlen_splice; lia|].
  apply Forall_splice; [by apply Inode_to_bytes_u8|done].
Qed.

Lemma bitmap_inv_put sb sb' i w :
  bitmap_inv sb w → inode_ok sb' (i_inode_no i) → zlen (i_direct_blocks i) = 10 →
  bitmap_inv sb (put_inode sb' i w).
Proof.
  intros Hi Hn Hd. pose proof (inode_ok_block _ _ Hn).
  pose proof (inode_offset_range (i_inode_no i)).
  pose proof (zlen_Inode_to_bytes i Hd) as Hb. change INODE_SIZE with 84 in *.
  pose proof (disk_ok_block w (inode_block sb' (i_inode_no i)) (bi_disk _ _ Hi)) as [Hl Hu].
  consts. apply bitmap_inv_write; [done|lia|consts; rewrite zlen_splice; lia|].
  apply Forall_splice; [by apply Inode_to_bytes_u8|done].
Qed.

Lemma put_inode_read_ne sb i w b :
  b ≠ inode_block sb (i_inode_no i) → w_read (put_inode sb i w) b = w_read w b.
Proof. intros. unfold put_inode. by apply w_read_write_ne. Qed.

Lemma disk_inode_put_same sb i w :
  disk_ok w → inode_wf i → disk_inode sb (put_inode sb i w) (i_inode_no i) = Some i.
Proof.
  intros Hok Hwf. pose proof Hwf as (_ & _ & _ & _ & _ & _ & _ & _ & _ & _ & Hd & _).
  unfold disk_inode, put_inode. rewrite w_read_write_eq.
  pose proof (inode_offset_range (i_inode_no i)).
  pose proof (zlen_Inode_to_bytes i Hd) as Hb. change INODE_SIZE with 84 in *.
  pose proof (disk_ok_zlen w (inode_block sb (i_inode_no i)) Hok) as Hl. consts.
  rewrite slice_splice_same by lia. cbn [mbind option_bind]. by apply Inode_from_to_bytes.
Qed.

Lemma disk_inode_put_other sb i w n :
  disk_ok w → zlen (i_direct_blocks i) = 10 → n ≠ i_inode_no i →
  0 ≤ n → 0 ≤ i_inode_no i →
  disk_inode sb (put_inode sb i w) n = disk_inode sb w n.
Proof.
  intros Hok Hd Hne Hn Hi. unfold disk_inode, put_inode. rewrite w_read_write.
  case_decide as Hblk; [|done]. rewrite <-Hblk.
  pose proof (inode_offset_range (i_inode_no i)). pose proof (inode_offset_range n).
  pose proof (zlen_Inode_to_bytes i Hd) as Hb. change INODE_SIZE with 84 in *.
  pose proof (disk_ok_zlen w (inode_block sb (i_inode_no i)) Hok) as Hl. consts.
  rewrite slice_splice_other by (unfold inode_block, inode_offset in *; dlia). done.
Qed.

Lemma disk_inode_write_ne sb w b d n :
  b ≠ inode_block sb n → disk_inode sb (w_write b d w) n = disk_inode sb w n.
Proof. intros. unfold disk_inode. by rewrite w_read_write_ne. Qed.

Lemma disk_inode_ext sb w w' n :
  w_read w' (inode_block sb n) = w_read w (inode_block sb n) →
  disk_inode sb w' n = disk_inode sb w n.
Proof. intros Hr. unfold disk_inode. by rewrite Hr. Qed.

(** An inode in a block of zeros. *)
Definition zero_inode (n : u32) : Inode := Build_Inode n 0 0 0 0 0 0 0 0 0 (replicate 10 0) 0.

Lemma disk_inode_zeros sb w n :
  w_read w (inode_block sb n) = zeros 512 → disk_inode sb w n = Some (zero_inode n).
Proof.
  intros Hz. unfold disk_inode. rewrite Hz. change INODE_SIZE with 84.
  pose proof (inode_offset_range n). rewrite slice_Some by (rewrite ?zlen_zeros by lia; lia).
  assert (take (Z.to_nat (inode_offset n + 84 - inode_offset n))
    (drop (Z.to_nat (inode_offset n)) (zeros 512)) = zeros 84) as ->; [|reflexivity].
  unfold zeros. rewrite drop_replicate, take_replicate. f_equal. lia.
Qed.

Lemma run_current_timestamp w :
  0 ≤ clock_at (w_ticks w) < 9223372036854775808 →
  run current_timestamp w = Done (clock_at (w_ticks w)) (w_tick w).
Proof.
  intros Hc. unfold current_timestamp. cbn [run]. Z_false (clock_at (w_ticks w) <? 0).
  rewrite run_ret, as_u64_id, as_i64_id by (unfold is_i64; lia). done.
Qed.
End disk.
#[export] Hint Resolve disk_ok_put : simplefs.

(** Setting a field keeps an inode well-formed. *)
Section setters_wf.
Implicit Types (i : Inode).
Lemma inode_wf_direct i : inode_wf i → zlen (i_direct_blocks i) = 10.
Proof. unfold inode_wf. tauto. Qed.
Lemma set_mode_wf i x : inode_wf i → is_u16 x → inode_wf (set_mode i x).
Proof. unfold inode_wf. simpl. tauto. Qed.
Lemma set_size_wf i x : inode_wf i → is_u32 x → inode_wf (set_size i x).
Proof. unfold inode_wf. simpl. tauto. Qed.
Lemma set_nlink_wf i x : inode_wf i → is_u16 x → inode_wf (set_nlink i x).
Proof. unfold inode_wf. simpl. tauto. Qed.
Lemma set_block_count_wf i x : inode_wf i → is_u16 x → inode_wf (set_block_count i x).
Proof. unfold inode_wf. simpl. tauto. Qed.
Lemma set_mtime_wf i x : inode_wf i → is_i64 x → inode_wf (set_mtime i x).
Proof. unfold inode_wf. simpl. tauto. Qed.
Lemma set_atime_wf i x : inode_wf i → is_i64 x → inode_wf (set_atime i x).
Proof. unfold inode_wf. simpl. tauto. Qed.
Lemma set_indirect_block_wf i x : inode_wf i → is_u32 x → inode_wf (set_indirect_block i x).
Proof. unfold inode_wf. simpl. tauto. Qed.
Lemma set_direct_blocks_wf i (k : nat) x :
  inode_wf i → is_u32 x → inode_wf (set_direct_blocks i (<[k := x]> (i_direct_blocks i))).
Proof.
  unfold inode_wf. simpl. rewrite zlen_insert. intuition auto using Forall_insert.
Qed.
End setters_wf.
#[export] Hint Resolve inode_wf_direct set_mode_wf set_size_wf set_nlink_wf set_block_count_wf
  set_mtime_wf set_atime_wf set_indirect_block_wf set_direct_blocks_wf : simplefs.

(** ** Block pointers *)

(** The pointer number [idx] of an inode, 0 when there is none: the direct pointers,
    then the 255 16-bit pointers in the page of the indirect block. *)
Definition block_at (i : Inode) (w : world) (idx : Z) : u32 :=
  if idx <? 10 then i_direct_blocks i !!! Z.to_nat idx
  else if i_indirect_block i =? 0 then 0
  else if 265 <=? idx then 0
  else default 0 (read_le 2 (w_read w (i_indirect_block i)) ((idx - 10) * 2)).

(** The indirect block can be read, when the inode has one. *)
Definition indirect_ok (i : Inode) : Prop := i_indirect_block i < MAX_BLOCKS.

Definition some_block (b : u32) : option u32 := if b =? 0 then None else Some b.

Section blocks.
Context `{Clock}.
Implicit Types (sb : SuperBlock) (w : world) (i : Inode).

Lemma inode_wf_pointer i k : inode_wf i → 0 ≤ k < 10 →
  i_direct_blocks i !! Z.to_nat k = Some (i_direct_blocks i !!! Z.to_nat k) ∧
  is_u32 (i_direct_blocks i !!! Z.to_nat k).
Proof.
  intros (_ & _ & _ & _ & _ & _ & _ & _ & _ & _ & Hd & Hu & _) Hk.
  assert (i_direct_blocks i !! Z.to_nat k = Some (i_direct_blocks i !!! Z.to_nat k)) as Hl
    by (apply list_lookup_lookup_total_lt; unfold zlen in Hd; lia).
  split; [done|]. by apply (Forall_lookup_1 _ _ _ _ Hu Hl).
Qed.

Lemma inode_wf_indirect i : inode_wf i → is_u32 (i_indirect_block i).
Proof. unfold inode_wf. tauto. Qed.


Lemma run_get_block i w idx :
  disk_ok w → inode_wf i → (10 ≤ idx → indirect_ok i) → is_u32 idx →
  run (get_block i idx) w = Done (some_block (block_at i w idx)) w.
Proof.
  unfold is_u32. intros Hok Hwf Hind Hidx.
  unfold get_block, block_at, some_block, indirect_ok in *.
  change (as_u32 DIRECT_BLOCKS) with 10.
  destruct (Z.ltb_spec idx 10) as [Hlt|Hge].
  - destruct (inode_wf_pointer i idx Hwf ltac:(lia)) as [Hl _].
    run_step run_unwrap by (rewrite index_lookup by lia; exact Hl). done.
  - destruct (Z.eqb_spec (i_indirect_block i) 0) as [|Hne]; [done|]. cbn [negb].
    pose proof (inode_wf_indirect i Hwf) as Hu. unfold is_u32 in Hu.
    specialize (Hind Hge).
    cbv zeta. run_step run_read_block by (apply disk_ok_has; [done|lia]).
    pose proof (disk_ok_zlen w (i_indirect_block i) Hok) as Hl. consts.
    destruct (Z.leb_spec 265 idx) as [Hbig|Hsmall].
    + rewrite as_usize_id by lia. Z_true (510 <? (idx - 10) * 2 + 2). done.
    + rewrite as_usize_id by lia. Z_false (510 <? (idx - 10) * 2 + 2).
      destruct (read_le_Some 2 (w_read w (i_indirect_block i)) ((idx - 10) * 2)) as [x Hx];
        [lia|lia|lia|].
      rewrite Hx. by run_step run_unwrap by done.
Qed.

(** A write to another block than the indirect one leaves the pointers alone. *)
Lemma block_at_ext i w w' idx :
  w_read w' (i_indirect_block i) = w_read w (i_indirect_block i) →
  block_at i w' idx = block_at i w idx.
Proof. intros Hr. unfold block_at. by rewrite Hr. Qed.

Lemma block_at_direct i w idx :
  idx < 10 → block_at i w idx = i_direct_blocks i !!! Z.to_nat idx.
Proof. intros. unfold block_at. by Z_true (idx <? 10). Qed.

(** What [set_block] does to the inode and to the disk. *)
Definition set_pointer (i : Inode) (idx b : Z) : Inode :=
  if idx <? 10 then set_direct_blocks i (<[Z.to_nat idx := b]> (i_direct_blocks i)) else i.
Definition put_pointer (i : Inode) (idx b : Z) (w : world) : world :=
  if idx <? 10 then w
  else w_write (i_indirect_block i)
         (splice ((idx - 10) * 2) (to_le 2 (as_u16 b)) (w_read w (i_indirect_block i))) w.

Lemma run_set_block i w idx b :
  disk_ok w → inode_wf i → indirect_ok i → 0 ≤ idx < 266 →
  run (set_block i idx b) w = Done (set_pointer i idx b) (put_pointer i idx b w).
Proof.
  intros Hok Hwf Hind Hidx. unfold set_block, set_pointer, put_pointer, indirect_ok in *.
  change (as_u32 DIRECT_BLOCKS) with 10.
  pose proof (inode_wf_direct i Hwf) as Hd.
  pose proof (disk_ok_zlen w (i_indirect_block i) Hok) as Hl. consts.
  pose proof (inode_wf_indirect i Hwf) as Hu. unfold is_u32 in Hu.
  destruct (Z.ltb_spec idx 10) as [Hlt|Hge].
  - by run_step run_unwrap by (apply set_index_Some; lia).
  - cbv zeta. run_step run_read_block by (apply disk_ok_has; [done|consts; lia]).
    rewrite as_usize_id by lia.
    run_step run_unwrap by (apply copy_from_slice_Some; [lia|lia|rewrite zlen_to_le; lia]).
    run_step run_write_block by
      (rewrite ?zlen_splice, ?zlen_to_le by (rewrite ?zlen_to_le; lia); first [done|unfold is_u32; lia]).
    done.
Qed.

Lemma disk_ok_put_pointer i idx b w :
  disk_ok w → 0 ≤ idx < 266 → disk_ok (put_pointer i idx b w).
Proof.
  intros Hok Hidx. unfold put_pointer. destruct (Z.ltb_spec idx 10); [done|].
  pose proof (disk_ok_block w (i_indirect_block i) Hok) as [Hl Hu]. consts.
  apply disk_ok_write; [done| |auto with simplefs]. consts.
  rewrite zlen_splice by (rewrite ?zlen_to_le; lia). lia.
Qed.

Lemma block_at_set i w idx b idx' :
  disk_ok w → inode_wf i → 0 ≤ idx < 265 → 0 ≤ idx' → 0 ≤ b < 65536 →
  (10 ≤ idx → i_indirect_block i ≠ 0) →
  block_at (set_pointer i idx b) (put_pointer i idx b w) idx' =
    if decide (idx' = idx) then b else block_at i w idx'.
Proof.
  intros Hok Hwf Hidx Hidx' Hb Hne. unfold set_pointer, put_pointer.
  pose proof (inode_wf_direct i Hwf) as Hd.
  destruct (Z.ltb_spec idx 10) as [Hlt|Hge]; unfold block_at.
  - destruct (Z.ltb_spec idx' 10) as [Hlt'|Hge']; simpl.
    + case_decide as He; [subst; rewrite list_lookup_total_insert_eq; [done|unfold zlen in Hd; lia]|].
      rewrite list_lookup_total_insert_ne by lia. done.
    + rewrite decide_False by lia. done.
  - specialize (Hne Hge). destruct (Z.ltb_spec idx' 10) as [Hlt'|Hge'].
    { rewrite decide_False by lia. done. }
    Z_false (i_indirect_block i =? 0).
    destruct (Z.leb_spec 265 idx'); [by rewrite decide_False by lia|].
    pose proof (disk_ok_zlen w (i_indirect_block i) Hok) as Hl. consts.
    rewrite w_read_write_eq. case_decide as He.
    + subst. rewrite (read_le_splice_same 2) by lia. simpl.
      rewrite as_u16_id by (unfold is_u16; lia). apply Z.mod_small. lia.
    + rewrite read_le_splice_other by (rewrite ?zlen_to_le; lia). done.
Qed.
End blocks.

(** The three bits of a permission mask. *)
Lemma mask_bits m a b c :
  0 ≤ a → 0 ≤ b → 0 ≤ c →
  negb (Z.land m (Z.lor (2 ^ a) (Z.lor (2 ^ b) (2 ^ c))) =? 0) =
    Z.testbit m a || Z.testbit m b || Z.testbit m c.
Proof.
  intros. pose proof (land_pow2_zero m a). pose proof (land_pow2_zero m b).
  pose proof (land_pow2_zero m c). rewrite !Z.land_lor_distr_r.
  apply eq_true_iff_eq. rewrite negb_true_iff, Z.eqb_neq, !Z.lor_eq_0_iff, !orb_true_iff.
  destruct (Z.testbit m a), (Z.testbit m b), (Z.testbit m c); intuition congruence.
Qed.

(** ** Time stamps *)

(** The clock of the system is after the epoch, and its seconds fit in an [i64]. *)
Definition clock_ok `{Clock} : Prop := ∀ t, 0 ≤ clock_at t < 9223372036854775808.

(** The inode with the current modification time, and the disk that holds it. *)
Definition touched `{Clock} (i : Inode) (w : world) : Inode :=
  set_mtime i (clock_at (w_ticks w)).
Definition store_touched `{Clock} (sb : SuperBlock) (i : Inode) (w : world) : world :=
  put_inode sb (touched i w) (w_tick w).

Section touched.
Context `{Clock} `{Build} (Hclock : clock_ok).

Lemma run_now w : run current_timestamp w = Done (clock_at (w_ticks w)) (w_tick w).
Proof. apply run_current_timestamp, Hclock. Qed.

Lemma touched_wf i w : inode_wf i → inode_wf (touched i w).
Proof.
  intros. apply set_mtime_wf; [done|]. pose proof (Hclock (w_ticks w)). unfold is_i64. lia.
Qed.

Lemma run_store_touched sb i w :
  disk_ok w → inode_wf i → inode_ok sb (i_inode_no i) →
  run (write_inode sb (touched i w)) (w_tick w) = Done () (store_touched sb i w).
Proof.
  intros Hok Hwf Hn. pose proof (inode_wf_direct _ (touched_wf i w Hwf)).
  by apply run_write_inode.
Qed.
End touched.

(** ** Properties *)
Section properties.
Context `{Clock} `{Build}.
Implicit Types (sb : SuperBlock) (w : world) (i : Inode).

(** C26: an inode written to the disk is read back unchanged; every other inode reads
    as before, also the ones that share its block, and no other block changes. *)
Theorem write_read_inode sb i w :
  disk_ok w → inode_wf i → inode_ok sb (i_inode_no i) →
  ∃ w', run (write_inode sb i;; read_inode sb (i_inode_no i)) w = Done i w' ∧
    (∀ n j, n ≠ i_inode_no i → inode_ok sb n →
       run (read_inode sb n) w = Done j w → run (read_inode sb n) w' = Done j w') ∧
    (∀ b, b ≠ inode_block sb (i_inode_no i) → w_read w' b = w_read w b).
Proof.
  intros Hok Hwf Hn. pose proof (inode_wf_direct i Hwf) as Hd.
  exists (put_inode sb i w).
  assert (disk_ok (put_inode sb i w)) as Hok' by by apply disk_ok_put.
  split_and!.
  - run_step run_write_inode by done. apply run_read_inode; [done|done|].
    by apply disk_inode_put_same.
  - intros n j Hne Hn' Hr. destruct (disk_inode_Some sb w n Hok Hn') as (j' & Hj & _).
    rewrite (run_read_inode sb n j') in Hr by done. simplify_eq.
    apply run_read_inode; [done|done|]. rewrite disk_inode_put_other; try done; [apply Hn'|apply Hn].
  - intros b Hb. by apply put_inode_read_ne.
Qed.

(** On a formatted disk an inode occupies 84 bytes inside one block, two inodes
    never overlap, and the block belongs to the inode table exactly for the inodes
    below 150: the other inodes lie in the data area. *)
Theorem inode_slots sb n m w :
  sb_inode_table_start sb = 6 → sb_data_start sb = 31 → 0 ≤ n < 122844 → 0 ≤ m < 122844 →
  ∃ b off b' off', run (inode_block_location sb n) w = Done (b, off) w ∧
    run (inode_block_location sb m) w = Done (b', off') w ∧
    b < MAX_BLOCKS ∧ 0 ≤ off ∧ off + INODE_SIZE ≤ BLOCK_SIZE ∧
    (n ≠ m → b ≠ b' ∨ off + INODE_SIZE ≤ off' ∨ off' + INODE_SIZE ≤ off) ∧
    (b < sb_data_start sb ↔ n < 150).
Proof.
  intros Hs Hd Hn Hm.
  exists (inode_block sb n), (inode_offset n), (inode_block sb m), (inode_offset m).
  assert (inode_ok sb n ∧ inode_ok sb m) as [Hon Hom].
  { unfold inode_ok, inode_block. rewrite Hs. consts. split_and!; dlia. }
  split; [by apply run_inode_block_location|]. split; [by apply run_inode_block_location|].
  rewrite Hd. change INODE_SIZE with 84. unfold inode_block, inode_offset. rewrite Hs. consts.
  split_and!; dlia.
Qed.

(** C32: [set_block] makes [get_block] return the new pointer at its index and leaves
    every other index alone, for the 10 direct and the 255 indirect pointers.  An
    indirect pointer is stored in 16 bits, enough for the blocks of the disk. *)
Theorem set_get_block i idx b idx' w :
  disk_ok w → inode_wf i → indirect_ok i →
  0 ≤ idx < 265 → is_u32 idx' → 0 < b < MAX_BLOCKS →
  (10 ≤ idx → i_indirect_block i ≠ 0) →
  ∃ w' r, run (get_block i idx') w = Done r w ∧
    run (i' ← set_block i idx b; get_block i' idx') w =
      Done (if decide (idx' = idx) then Some b else r) w'.
Proof.
  intros Hok Hwf Hind Hidx Hidx' Hb Hne. consts. unfold is_u32 in Hidx'.
  eexists _, _. split; [by apply run_get_block|].
  run_step run_set_block by (done || lia).
  rewrite run_get_block; [| | | |done].
  - rewrite block_at_set by (done || lia). f_equal. case_decide; [|done].
    unfold some_block. by Z_false (b =? 0).
  - apply disk_ok_put_pointer; [done|lia].
  - unfold set_pointer. destruct (idx <? 10); [|done].
    apply set_direct_blocks_wf; [done|]. unfold is_u32. lia.
  - unfold set_pointer. destruct (idx <? 10); done.
Qed.

(** [check_permission] looks at the permission bits of the three classes
    together and at nothing else: a writer is let in when any of the write bits of
    the owner, the group or the others is set, whoever it is. *)
Theorem check_permission_any_class i want_write uid gid :
  check_permission i want_write uid gid =
    (if want_write
     then Z.testbit (i_mode i) 7 || Z.testbit (i_mode i) 4 || Z.testbit (i_mode i) 1
     else Z.testbit (i_mode i) 8 || Z.testbit (i_mode i) 5 || Z.testbit (i_mode i) 2).
Proof.
  unfold check_permission. rewrite <-!Z.land_assoc.
  destruct want_write; [apply (mask_bits _ 7 4 1)|apply (mask_bits _ 8 5 2)]; lia.
Qed.
End properties.

(** ** Witnesses *)
Definition sample_inode : Inode :=
  {| i_inode_no := 7; i_mode := 33188; i_uid := 1000; i_gid := 1000; i_size := 5500;
     i_nlink := 1; i_block_count := 11; i_mtime := 5; i_atime := -1; i_ctime := 3;
     i_direct_blocks := [40; 41; 42; 43; 44; 45; 46; 47; 48; 49]; i_indirect_block := 50 |}.

Lemma sample_inode_wf : inode_wf sample_inode.
Proof. by apply (bool_decide_unpack _). Qed.

Lemma write_read_inode_witness :
  ∃ w', run (H := λ _, 0) (write_inode (H := true) initial_superblock sample_inode;;
             read_inode (H := true) initial_superblock 7) blank_world = Done sample_inode w' ∧
    (∀ n j, n ≠ 7 → inode_ok initial_superblock n →
       run (H := λ _, 0) (read_inode (H := true) initial_superblock n) blank_world =
         Done j blank_world →
       run (H := λ _, 0) (read_inode (H := true) initial_superblock n) w' = Done j w') ∧
    (∀ b, b ≠ inode_block initial_superblock 7 → w_read w' b = w_read blank_world b).
Proof.
  apply (write_read_inode (H := λ _, 0) (H0 := true) initial_superblock sample_inode blank_world
           blank_disk_ok sample_inode_wf). split_and!; done.
Defined.

Lemma inode_slots_witness :
  ∃ b off b' off',
    run (H := λ _, 0) (inode_block_location (H := true) initial_superblock 149) blank_world =
      Done (b, off) blank_world ∧
    run (H := λ _, 0) (inode_block_location (H := true) initial_superblock 1000) blank_world =
      Done (b', off') blank_world ∧
    b < MAX_BLOCKS ∧ 0 ≤ off ∧ off + INODE_SIZE ≤ BLOCK_SIZE ∧
    (149 ≠ 1000 → b ≠ b' ∨ off + INODE_SIZE ≤ off' ∨ off' + INODE_SIZE ≤ off) ∧
    (b < sb_data_start initial_superblock ↔ 149 < 150).
Proof.
  apply (inode_slots (H := λ _, 0) (H0 := true) initial_superblock 149 1000 blank_world); done.
Defined.

Lemma set_get_block_witness :
  ∃ w' r, run (H := λ _, 0) (get_block sample_inode 263) blank_world = Done r blank_world ∧
    run (H := λ _, 0) (i' ← set_block sample_inode 264 20479; get_block i' 263) blank_world =
      Done (if decide (263 = 264) then Some 20479 else r) w'.
Proof.
  apply (set_get_block (H := λ _, 0) sample_inode 264 20479 263 blank_world
           blank_disk_ok sample_inode_wf); done.
Defined.
