(* ===== verification/Directory.v ===== *)
(** * Directory: [src/directory.rs], directory entries and path resolution *)
From S2P Require Import Prelude Disk Superblock Bitmap Inode.

Definition DIR_ENTRY_HEADER_SIZE : usize := 4 + 1 + 1.
Definition MAX_NAME_LEN : usize := 28.
Definition DIR_ENTRY_SIZE : usize := DIR_ENTRY_HEADER_SIZE + MAX_NAME_LEN.

(** ** UTF-8

    [core::str::from_utf8]: the well-formed byte sequences of table 3-7 of the Unicode
    standard (no overlong forms, no surrogates, nothing beyond U+10FFFF). *)
Definition between (lo hi b : Z) : bool := (lo <=? b) && (b <=? hi).
Definition continuation (b : u8) : bool := between 128 191 b.

Fixpoint utf8_valid (l : bytes) : bool :=
  match l with
  | [] => true
  | b0 :: l1 =>
      if between 0 127 b0 then utf8_valid l1
      else match l1 with
      | b1 :: l2 =>
          if between 194 223 b0 then continuation b1 && utf8_valid l2
          else match l2 with
          | b2 :: l3 =>
              if between 224 239 b0 then
                (if b0 =? 224 then between 160 191 b1
                 else if b0 =? 237 then between 128 159 b1
                 else continuation b1)
                && continuation b2 && utf8_valid l3
              else match l3 with
              | b3 :: l4 =>
                  between 240 244 b0
                  && (if b0 =? 240 then between 144 191 b1
                      else if b0 =? 244 then between 128 143 b1
                      else continuation b1)
                  && continuation b2 && continuation b3 && utf8_valid l4
              | [] => false
              end
          | [] => false
          end
      | [] => false
      end
  end.

(** ** Entries *)

Record DirEntry := {
  de_inode : u32;
  de_entry_type : u8;
  de_name_len : u8;
  de_name : bytes;
}.

(** [DirEntry::new] *)
Definition DirEntry_new (inode : u32) (name : bytes) (is_dir : bool) : DirEntry :=
  let name_bytes := name in
  let len := Z.min (zlen name_bytes) MAX_NAME_LEN in
  let name_arr := splice 0 (take (Z.to_nat len) name_bytes) (zeros MAX_NAME_LEN) in
  {| de_inode := inode;
     de_entry_type := if is_dir then 2 else 1;
     de_name_len := as_u8 len;
     de_name := name_arr |}.

(** [DirEntry::is_empty] *)
Definition DirEntry_is_empty (self : DirEntry) : bool := de_name_len self =? 0.

(** [DirEntry::name_str]; [None] is the panic on a length beyond the name array. *)
Definition name_str (self : DirEntry) : option bytes :=
  s ← slice 0 (de_name_len self) (de_name self);
  Some (if utf8_valid s then s else str "???").

(** [DirEntry::from_bytes] *)
Definition DirEntry_from_bytes (data : bytes) : option DirEntry :=
  inode ← read_le 4 data 0;
  entry_type ← index 4 data;
  name_len ← index 5 data;
  name ← slice 6 (6 + MAX_NAME_LEN) data;
  Some {| de_inode := inode;
          de_entry_type := entry_type;
          de_name_len := name_len;
          de_name := name |}.

(** [DirEntry::to_bytes]; the ranges are constants inside the 34-byte array. *)
Definition DirEntry_to_bytes (self : DirEntry) : bytes :=
  let buf := zeros DIR_ENTRY_SIZE in
  let buf := splice 0 (to_le 4 (de_inode self)) buf in
  let buf := splice 4 [de_entry_type self] buf in
  let buf := splice 5 [de_name_len self] buf in
  splice 6 (de_name self) buf.

(** A Rust [Result]. *)
Inductive result (A E : Type) : Type :=
| Ok (a : A)
| Err (e : E).
Arguments Ok {A E} _.
Arguments Err {A E} _.

Definition entries_per_block : usize := PAGE_SIZE / DIR_ENTRY_SIZE.

(** [DirEntry::from_bytes(&block_buf[offset..offset + DIR_ENTRY_SIZE])] *)
Definition entry_at (block_buf : bytes) (offset : usize) : prog DirEntry :=
  data ← unwrap (slice offset (offset + DIR_ENTRY_SIZE) block_buf);
  unwrap (DirEntry_from_bytes data).

(** A directory entry with its block and its offset in the block. *)
Abbreviation found := (DirEntry * u32 * usize)%type (only parsing).

(** [dir_lookup] *)
Definition dir_lookup (dir_inode : Inode) : prog (list found) :=
  let count := as_u32 (i_block_count dir_inode) in
  for_each (seqZ 0 count) [] (λ i entries,
    b ← get_block dir_inode i;
    match b with
    | None => mret entries
    | Some block_num =>
        block_buf ← read_block block_num;
        for_each (seqZ 0 entries_per_block) entries (λ j entries,
          let offset := j * DIR_ENTRY_SIZE in
          entry ← entry_at block_buf offset;
          mret (if DirEntry_is_empty entry then entries
                else entries ++ [(entry, block_num, offset)]))
    end).

(** [dir_find] *)
Definition dir_find (dir_inode : Inode) (name : bytes) : prog (option found) :=
  let count := as_u32 (i_block_count dir_inode) in
  r ← for_in (seqZ 0 count) () (λ i _,
    b ← get_block dir_inode i;
    match b with
    | None => mret (Continue ())
    | Some block_num =>
        block_buf ← read_block block_num;
        for_in (seqZ 0 entries_per_block) () (λ j _,
          let offset := j * DIR_ENTRY_SIZE in
          entry ← entry_at block_buf offset;
          if DirEntry_is_empty entry then mret (Continue ())
          else
            s ← unwrap (name_str entry);
            mret (if bool_decide (s = name) then Break (entry, block_num, offset)
                  else Continue ()))
    end);
  mret (match r with Break e => Some e | Continue _ => None end).

Section with_build.
Context `{Build}.

(** [dir_add_entry]; the superblock and the inode of the directory are mutable
    references, their new values are returned. *)
Definition dir_add_entry (sb : SuperBlock) (dir_inode : Inode) (name : bytes)
    (child_inode : u32) (is_dir : bool)
  : prog (result () string * SuperBlock * Inode) :=
  e ← dir_find dir_inode name;
  if bool_decide (is_Some e) then mret (Err "entry already exists"%string, sb, dir_inode)
  else
    let new_entry := DirEntry_new child_inode name is_dir in
    let entry_bytes := DirEntry_to_bytes new_entry in
    let count := as_u32 (i_block_count dir_inode) in
    r ← for_in (seqZ 0 count) () (λ i _,
      b ← get_block dir_inode i;
      block_num ← unwrap b;
      block_buf ← read_block block_num;
      for_in (seqZ 0 entries_per_block) () (λ j _,
        let offset := j * DIR_ENTRY_SIZE in
        entry ← entry_at block_buf offset;
        if DirEntry_is_empty entry then
          block_buf ← unwrap (copy_from_slice offset (offset + DIR_ENTRY_SIZE)
                                entry_bytes block_buf);
          write_block block_num block_buf;;
          now ← current_timestamp;
          let dir_inode := set_mtime dir_inode now in
          write_inode sb dir_inode;;
          mret (Break dir_inode)
        else mret (Continue ())));
    match r with
    | Break dir_inode => mret (Ok (), sb, dir_inode)
    | Continue _ =>
        if count <? as_u32 DIRECT_BLOCKS then
          '(new_block, sb) ← allocate_block sb;
          match new_block with
          | None => mret (Err "no free blocks for directory expansion"%string, sb, dir_inode)
          | Some new_block =>
              block_buf ← unwrap (copy_from_slice 0 DIR_ENTRY_SIZE entry_bytes
                                    (zeros BLOCK_SIZE));
              write_block new_block block_buf;;
              direct_blocks ← unwrap (set_index (as_usize count) new_block
                                        (i_direct_blocks dir_inode));
              let dir_inode := set_direct_blocks dir_inode direct_blocks in
              block_count ← arith_u16 (i_block_count dir_inode + 1);
              let dir_inode := set_block_count dir_inode block_count in
              size ← arith_u32 (as_u32 block_count * as_u32 PAGE_SIZE);
              let dir_inode := set_size dir_inode size in
              now ← current_timestamp;
              let dir_inode := set_mtime dir_inode now in
              write_inode sb dir_inode;;
              mret (Ok (), sb, dir_inode)
          end
        else mret (Err "directory too large"%string, sb, dir_inode)
    end.

(** [dir_remove_entry] *)
Definition dir_remove_entry (sb : SuperBlock) (dir_inode : Inode) (name : bytes)
  : prog (result () string * Inode) :=
  e ← dir_find dir_inode name;
  match e with
  | None => mret (Err "entry not found"%string, dir_inode)
  | Some (_entry, block_num, offset) =>
      block_buf ← read_block block_num;
      block_buf ← unwrap (set_index (offset + 5) 0 block_buf);
      write_block block_num block_buf;;
      now ← current_timestamp;
      let dir_inode := set_mtime dir_inode now in
      write_inode sb dir_inode;;
      mret (Ok (), dir_inode)
  end.

(** [path.split('/').filter(|c| !c.is_empty()).collect()]; a slash is the byte 47. *)
Fixpoint split_slash (current path : bytes) : list bytes :=
  match path with
  | [] => [current]
  | c :: path =>
      if c =? 47 then current :: split_slash [] path
      else split_slash (current ++ [c]) path
  end.
Definition components (path : bytes) : list bytes :=
  filter (λ c, c ≠ []) (split_slash [] path).

(** One iteration of the loop of [path_resolve], on the component number [idx] of
    [count]. *)
Definition resolve_step (sb : SuperBlock) (count : usize) (c : usize * bytes)
    (current_inode : Inode)
  : prog (flow Inode (result (Inode * Inode * bytes) string)) :=
  let '(idx, component) := c in
  if (zlen component =? 0) || (MAX_NAME_LEN <? zlen component) then
    mret (Break (Err "invalid path component"%string))
  else
    let parent_inode := current_inode in
    entry ← dir_find current_inode component;
    match entry with
    | Some (de, _, _) =>
        child ← read_inode sb (de_inode de);
        if idx =? count - 1 then
          mret (Break (Ok (child, parent_inode, component)))
        else if Z.land (i_mode child) (as_u16 S_IFDIR) =? 0 then
          mret (Break (Err "not a directory"%string))
        else mret (Continue child)
    | None =>
        if idx =? count - 1 then
          mret (Break (Err "no such entry"%string))
        else mret (Break (Err "no such directory"%string))
    end.

(** [path_resolve] *)
Definition path_resolve (sb : SuperBlock) (path : bytes)
  : prog (result (Inode * Inode * bytes) string) :=
  if bool_decide (path = str "/") then
    root ← read_inode sb (sb_root_inode sb);
    mret (Ok (root, root, []))
  else
    let components := components path in
    if bool_decide (components = []) then
      root ← read_inode sb (sb_root_inode sb);
      mret (Ok (root, root, []))
    else
      current_inode ← read_inode sb (sb_root_inode sb);
      r ← for_in (imap (λ i c, (Z.of_nat i, c)) components) current_inode
            (resolve_step sb (zlen components));
      match r with
      | Break r => mret r
      | Continue _ => mret (Err "path resolution failed"%string)
      end.
End with_build.

(** ** Entries on the disk *)
#[export] Instance DirEntry_eq_dec : EqDecision DirEntry.
Proof. solve_decision. Defined.

(** The values a Rust [DirEntry] can have. *)
Definition entry_wf (e : DirEntry) : Prop :=
  is_u32 (de_inode e) ∧ is_u8 (de_entry_type e) ∧ is_u8 (de_name_len e) ∧
  zlen (de_name e) = 28 ∧ Forall is_u8 (de_name e).

#[export] Instance entry_wf_dec e : Decision (entry_wf e).
Proof. unfold entry_wf. apply _. Defined.

Section entries.
Implicit Types (e : DirEntry) (buf name : bytes).

Lemma DirEntry_to_bytes_layout e :
  zlen (de_name e) = 28 →
  DirEntry_to_bytes e = to_le 4 (de_inode e) ++ [de_entry_type e] ++ [de_name_len e] ++ de_name e.
Proof.
  intros Hn. unfold DirEntry_to_bytes. change DIR_ENTRY_SIZE with 34.
  assert (∀ x : Z, zlen [x] = 1) as H1 by done.
  rewrite splice_first by zlen_tac.
  do 3 (rewrite splice_next by (rewrite ?zlen_app, ?zlen_to_le, ?H1, ?Hn; done || lia)).
  rewrite ?zlen_to_le, ?H1, Hn. change (zeros _) with (@nil Z).
  rewrite app_nil_r, <-!app_assoc. done.
Qed.

Lemma zlen_DirEntry_to_bytes e : zlen (de_name e) = 28 → zlen (DirEntry_to_bytes e) = 34.
Proof.
  intros Hn. rewrite DirEntry_to_bytes_layout by done.
  rewrite !zlen_app, zlen_to_le, Hn. done.
Qed.

Lemma DirEntry_to_bytes_u8 e : entry_wf e → Forall is_u8 (DirEntry_to_bytes e).
Proof.
  intros (_ & ? & ? & ? & ?). rewrite DirEntry_to_bytes_layout by done.
  repeat (apply Forall_app; split); auto with simplefs.
Qed.

Lemma DirEntry_from_to_bytes e : entry_wf e → DirEntry_from_bytes (DirEntry_to_bytes e) = Some e.
Proof.
  intros (? & ? & ? & Hn & ?). rewrite DirEntry_to_bytes_layout by done.
  unfold DirEntry_from_bytes. rewrite read_le_4_here by done. cbn [mbind option_bind].
  assert (∀ k, index (4 + Z.of_nat k) (to_le 4 (de_inode e) ++ [de_entry_type e] ++
    [de_name_len e] ++ de_name e) = ([de_entry_type e] ++ [de_name_len e] ++ de_name e) !! k)
    as Hix.
  { intros k. rewrite index_lookup by lia.
    rewrite lookup_app_r by (rewrite length_to_le; lia).
    rewrite length_to_le. f_equal. lia. }
  change 4 with (4 + Z.of_nat 0) at 1. change 5 with (4 + Z.of_nat 1).
  rewrite (Hix 0%nat), (Hix 1%nat).
  change (([de_entry_type e] ++ [de_name_len e] ++ de_name e) !! 0%nat) with (Some (de_entry_type e)).
  change (([de_entry_type e] ++ [de_name_len e] ++ de_name e) !! 1%nat) with (Some (de_name_len e)).
  cbn [mbind option_bind]. change MAX_NAME_LEN with 28.
  rewrite slice_app_skip by (rewrite zlen_to_le; lia). rewrite zlen_to_le.
  do 2 (rewrite slice_app_skip by done).
  match goal with |- context [slice ?a ?b (de_name e)] => change (slice a b (de_name e)) with (slice 0 28 (de_name e)) end.
  rewrite <-Hn, slice_all. by destruct e.
Qed.

(** The entry at an offset of a block. *)
Definition entry_of (buf : bytes) (off : Z) : DirEntry :=
  default (DirEntry_new 0 [] false)
    (data ← slice off (off + DIR_ENTRY_SIZE) buf; DirEntry_from_bytes data).

Lemma DirEntry_from_bytes_Some data :
  zlen data = 34 → Forall is_u8 data →
  ∃ e, DirEntry_from_bytes data = Some e ∧ entry_wf e ∧ de_name_len e = data !!! 5%nat.
Proof.
  intros Hl Hu. unfold DirEntry_from_bytes. change MAX_NAME_LEN with 28.
  destruct (read_le_Some 4 data 0) as [x Hx]; [lia|lia|lia|]. rewrite Hx. simpl mbind.
  rewrite !index_Some by lia. simpl mbind. rewrite slice_Some by lia. simpl mbind.
  eexists. split; [done|]. split; [|done].
  apply (read_le_range 4) in Hx; [|done].
  assert (∀ k : nat, (k < 34)%nat → is_u8 (data !!! k)) as Hk.
  { intros k Hk. apply (Forall_lookup_1 _ _ k _ Hu).
    apply list_lookup_lookup_total_lt. unfold zlen in Hl. lia. }
  split_and!; simpl; [done|apply Hk; lia|apply Hk; lia| |by apply Forall_take, Forall_drop].
  unfold zlen in *. rewrite length_take, length_drop. lia.
Qed.

Lemma entry_at_some buf off :
  zlen buf = 512 → Forall is_u8 buf → 0 ≤ off → off + 34 ≤ 512 →
  ∃ data, slice off (off + DIR_ENTRY_SIZE) buf = Some data ∧
    DirEntry_from_bytes data = Some (entry_of buf off) ∧ entry_wf (entry_of buf off) ∧
    de_name_len (entry_of buf off) = buf !!! Z.to_nat (off + 5).
Proof.
  intros Hl Hu Ho Ho'. change DIR_ENTRY_SIZE with 34.
  set (data := take (Z.to_nat (off + 34 - off)) (drop (Z.to_nat off) buf)).
  assert (slice off (off + 34) buf = Some data) as Hs by (by rewrite slice_Some by lia).
  exists data. split; [done|].
  destruct (DirEntry_from_bytes_Some data) as (e & He & Hwf & Hlen).
  { apply slice_length in Hs. lia. }
  { by apply Forall_take, Forall_drop. }
  assert (entry_of buf off = e) as ->.
  { unfold entry_of. change DIR_ENTRY_SIZE with 34. rewrite Hs. simpl. by rewrite He. }
  split_and!; [done|done|]. rewrite Hlen. unfold data.
  rewrite !list_lookup_total_alt, lookup_take_lt, lookup_drop by lia.
  do 2 f_equal. lia.
Qed.

Lemma entry_of_wf buf off :
  zlen buf = 512 → Forall is_u8 buf → 0 ≤ off → off + 34 ≤ 512 → entry_wf (entry_of buf off).
Proof. intros. edestruct (entry_at_some buf off) as (? & ? & ? & ? & ?); eauto. Qed.

(** What a write to the block does to its entries. *)
Lemma entry_of_splice_same e buf off :
  entry_wf e → zlen buf = 512 → 0 ≤ off → off + 34 ≤ 512 →
  entry_of (splice off (DirEntry_to_bytes e) buf) off = e.
Proof.
  intros He Hl Ho Ho'. unfold entry_of. change DIR_ENTRY_SIZE with 34.
  pose proof (zlen_DirEntry_to_bytes e) as Hb. destruct He as (?&?&?&Hn&?).
  rewrite slice_splice_same by (rewrite ?Hb by done; lia). cbn [mbind option_bind].
  by rewrite DirEntry_from_to_bytes.
Qed.

Lemma entry_of_splice_other src buf off off' :
  zlen src ≤ 34 → zlen buf = 512 → 0 ≤ off → off + 34 ≤ 512 → 0 ≤ off' → off' + 34 ≤ 512 →
  off + 34 ≤ off' ∨ off' + 34 ≤ off →
  entry_of (splice off src buf) off' = entry_of buf off'.
Proof.
  intros. assert (0 ≤ zlen src) by (unfold zlen; lia).
  unfold entry_of. change DIR_ENTRY_SIZE with 34.
  by rewrite slice_splice_other by lia.
Qed.
End entries.

(** ** Names *)
Definition entry_name (e : DirEntry) : bytes := default [] (name_str e).

Section names.
Implicit Types (name : bytes) (e : DirEntry).

Lemma name_str_Some e :
  entry_wf e → de_name_len e ≤ 28 → name_str e = Some (entry_name e).
Proof.
  intros (_ & _ & Hl & Hn & _) Hle. unfold is_u8 in Hl. unfold entry_name, name_str.
  rewrite slice_Some by lia. done.
Qed.

Lemma DirEntry_new_name_len ino name d :
  de_name_len (DirEntry_new ino name d) = Z.min (zlen name) 28.
Proof.
  unfold DirEntry_new. cbn [de_name_len]. change MAX_NAME_LEN with 28.
  apply as_u8_id. unfold is_u8, zlen. lia.
Qed.

Lemma DirEntry_new_wf ino name d :
  is_u32 ino → Forall is_u8 name → entry_wf (DirEntry_new ino name d).
Proof.
  intros Hi Hn. pose proof (DirEntry_new_name_len ino name d) as Hl.
  unfold DirEntry_new in *. cbn [de_name_len] in Hl. change MAX_NAME_LEN with 28 in *.
  unfold entry_wf. cbn [de_inode de_entry_type de_name_len de_name].
  rewrite Hl. unfold is_u8, zlen. split_and!; [done|by destruct d|by destruct d|lia|lia| |].
  - rewrite length_splice by
      (rewrite ?zlen_zeros by lia; unfold zlen; rewrite ?length_take; lia). done.
  - apply Forall_splice; [by apply Forall_take|apply Forall_zeros].
Qed.

(** The name an entry gives back: the first 28 bytes of the name it was made of. *)
Lemma name_str_new ino name d :
  name_str (DirEntry_new ino name d) =
    Some (let s := take 28 name in if utf8_valid s then s else str "???").
Proof.
  unfold name_str. rewrite DirEntry_new_name_len.
  unfold DirEntry_new. cbn [de_name]. change MAX_NAME_LEN with 28.
  assert (take (Z.to_nat (Z.min (zlen name) 28)) name = take 28 name) as ->.
  { unfold zlen. destruct (decide (length name ≤ 28)%nat).
    - rewrite !take_ge by lia. done.
    - f_equal. lia. }
  assert (zlen (take 28 name) = Z.min (zlen name) 28) as Ht
    by (unfold zlen; rewrite length_take; lia).
  rewrite slice_splice_same by (rewrite ?zlen_zeros by lia; lia). done.
Qed.

Lemma DirEntry_new_empty ino name d :
  DirEntry_is_empty (DirEntry_new ino name d) = bool_decide (name = []).
Proof.
  unfold DirEntry_is_empty. rewrite DirEntry_new_name_len.
  destruct name as [|c name]; [done|]. rewrite bool_decide_false by done.
  unfold zlen. cbn [length]. apply Z.eqb_neq. lia.
Qed.

(** The names a directory can hold under their own name. *)
Definition good_name (name : bytes) : Prop :=
  name ≠ [] ∧ zlen name ≤ 28 ∧ utf8_valid name = true ∧ Forall is_u8 name.

#[export] Instance good_name_dec name : Decision (good_name name).
Proof. unfold good_name. apply _. Defined.

Lemma entry_name_new ino name d :
  good_name name → entry_name (DirEntry_new ino name d) = name.
Proof.
  intros (_ & Hl & Hv & _). unfold entry_name. rewrite name_str_new.
  rewrite take_ge by (unfold zlen in Hl; lia). simpl. by rewrite Hv.
Qed.
End names.

(** ** The contents of a directory *)

(** The 15 entries of a block with their place, used or not. *)
Definition block_slots (b : u32) (buf : bytes) : list found :=
  (λ j, (entry_of buf (j * 34), b, j * 34)) <$> seqZ 0 15.
Definition dir_blocks (i : Inode) : list u32 :=
  take (Z.to_nat (i_block_count i)) (i_direct_blocks i).
Definition dir_slots (i : Inode) (w : world) : list found :=
  dir_blocks i ≫= λ b, block_slots b (w_read w b).

(** The used entries, in order. *)
Definition is_used (s : found) : Prop := DirEntry_is_empty (fst (fst s)) = false.
Definition dir_entries (i : Inode) (w : world) : list found :=
  filter is_used (dir_slots i w).

(** The directory as a map: the first used entry of a name. *)
Definition matches (name : bytes) (s : found) : option found :=
  if DirEntry_is_empty (fst (fst s)) then None
  else if bool_decide (entry_name (fst (fst s)) = name) then Some s else None.
Definition dir_get (i : Inode) (w : world) (name : bytes) : option found :=
  first_some (matches name) (dir_slots i w).

(** What reading a directory relies on: at most ten blocks, all on the disk, and
    entries whose names fit. *)
Record dir_readable (i : Inode) (w : world) : Prop := {
  dr_disk : disk_ok w;
  dr_wf : inode_wf i;
  dr_count : i_block_count i ≤ 10;
  dr_blocks : Forall (λ b, 0 < b < MAX_BLOCKS) (dir_blocks i);
  dr_names : Forall (λ s : found, de_name_len (fst (fst s)) ≤ 28) (dir_slots i w);
}.

#[export] Instance dir_readable_dec i w : Decision (dir_readable i w).
Proof.
  destruct (decide (disk_ok w ∧ inode_wf i ∧ i_block_count i ≤ 10 ∧
    Forall (λ b, 0 < b < MAX_BLOCKS) (dir_blocks i) ∧
    Forall (λ s : found, de_name_len (fst (fst s)) ≤ 28) (dir_slots i w))) as [Hd|Hd].
  - left. destruct Hd as (?&?&?&?&?). by constructor.
  - right. intros []. by apply Hd.
Defined.

Section slots.
Implicit Types (i : Inode) (w : world) (s : found).

Lemma dir_blocks_seq i :
  inode_wf i → i_block_count i ≤ 10 →
  dir_blocks i = (λ k, i_direct_blocks i !!! Z.to_nat k) <$> seqZ 0 (i_block_count i).
Proof.
  intros Hwf Hc. pose proof (inode_wf_direct i Hwf) as Hd. unfold zlen in Hd.
  unfold dir_blocks. apply list_eq. intros k. rewrite list_lookup_fmap.
  destruct (decide (Z.of_nat k < i_block_count i)).
  - rewrite lookup_take_lt, lookup_seqZ_lt by lia.
    cbn [fmap option_fmap option_map]. rewrite Z.add_0_l, Nat2Z.id.
    apply list_lookup_lookup_total_lt. lia.
  - rewrite lookup_take_ge, lookup_seqZ_ge by lia. done.
Qed.

Lemma elem_of_block_slots s b buf :
  s ∈ block_slots b buf ↔ ∃ j, 0 ≤ j < 15 ∧ s = (entry_of buf (j * 34), b, j * 34).
Proof.
  unfold block_slots. rewrite list_elem_of_fmap. setoid_rewrite elem_of_seqZ. naive_solver lia.
Qed.

Lemma elem_of_dir_slots s i w :
  s ∈ dir_slots i w ↔ ∃ b j, b ∈ dir_blocks i ∧ 0 ≤ j < 15 ∧
    s = (entry_of (w_read w b) (j * 34), b, j * 34).
Proof.
  unfold dir_slots. rewrite list_elem_of_bind. setoid_rewrite elem_of_block_slots. naive_solver.
Qed.

Lemma dir_slots_ext i i' w w' :
  dir_blocks i' = dir_blocks i → (∀ b, b ∈ dir_blocks i → w_read w' b = w_read w b) →
  dir_slots i' w' = dir_slots i w.
Proof.
  unfold dir_slots. intros -> Hr. induction (dir_blocks i) as [|b l IH]; [done|].
  cbn [mbind list_bind]. rewrite Hr by set_solver. f_equal. apply IH. set_solver.
Qed.

Lemma matches_Some name s s' : matches name s = Some s' → s' = s ∧ is_used s ∧ entry_name (fst (fst s)) = name.
Proof. unfold matches, is_used. destruct (DirEntry_is_empty _); [done|]. case_bool_decide; naive_solver. Qed.

Lemma dir_get_elem i w name s :
  dir_get i w name = Some s →
  s ∈ dir_slots i w ∧ is_used s ∧ entry_name (fst (fst s)) = name.
Proof. intros (s' & ? & (-> & ? & ?)%matches_Some)%first_some_elem. done. Qed.

(** The first used entry with the name is the first match among the used entries. *)
Lemma dir_get_entries i w name :
  dir_get i w name = head (filter (λ s, entry_name (fst (fst s)) = name) (dir_entries i w)).
Proof.
  unfold dir_get, dir_entries. induction (dir_slots i w) as [|s l IH]; [done|].
  cbn [first_some]. rewrite filter_cons. unfold matches, is_used.
  destruct (DirEntry_is_empty (fst (fst s))) eqn:E.
  - rewrite decide_False by done. exact IH.
  - rewrite decide_True by done. rewrite filter_cons.
    case_bool_decide; [by rewrite decide_True|rewrite decide_False by done]. exact IH.
Qed.
End slots.

Section run.
Context `{Clock}.
Implicit Types (i : Inode) (w : world).

Lemma run_entry_at b off w :
  disk_ok w → 0 ≤ off → off + 34 ≤ 512 →
  run (entry_at (w_read w b) off) w = Done (entry_of (w_read w b) off) w.
Proof.
  intros Hok Ho Ho'. destruct (disk_ok_block w b Hok) as [Hl Hu]. consts.
  edestruct (entry_at_some (w_read w b) off) as (data & Hs & He & _); [done..|].
  unfold entry_at. by run_step run_unwrap by exact Hs; apply run_unwrap.
Qed.

(** The blocks a loop over a directory visits. *)
Lemma dir_readable_block i w k :
  dir_readable i w → 0 ≤ k < i_block_count i →
  let b := i_direct_blocks i !!! Z.to_nat k in
  run (get_block i k) w = Done (Some b) w ∧ 0 < b < MAX_BLOCKS ∧ b ∈ dir_blocks i.
Proof.
  intros [] Hk b.
  assert (b ∈ dir_blocks i) as Hb.
  { rewrite dir_blocks_seq by done. apply list_elem_of_fmap. exists k. split; [done|].
    apply elem_of_seqZ. lia. }
  assert (0 < b < MAX_BLOCKS) as Hr by (by apply (proj1 (Forall_forall _ _) dr_blocks0)).
  split_and!; try done; try lia.
  rewrite run_get_block; [|done|done|lia|unfold is_u32; lia].
  rewrite block_at_direct by lia. unfold some_block. fold b. by Z_false (b =? 0).
Qed.

Lemma dir_count_u32 i : inode_wf i → as_u32 (i_block_count i) = i_block_count i.
Proof. intros Hwf. apply as_u32_id. unfold inode_wf, is_u16 in Hwf. unfold is_u32. lia. Qed.

Lemma run_dir_lookup i w :
  dir_readable i w → run (dir_lookup i) w = Done (dir_entries i w) w.
Proof.
  intros Hd. pose proof (dr_wf _ _ Hd) as Hwf. unfold dir_lookup.
  rewrite dir_count_u32 by done.
  rewrite (run_for_each_pure (λ entries k, entries ++
    filter is_used (block_slots (i_direct_blocks i !!! Z.to_nat k)
                      (w_read w (i_direct_blocks i !!! Z.to_nat k))))).
  - rewrite foldl_collect. f_equal. unfold dir_entries, dir_slots.
    rewrite filter_bind, dir_blocks_seq by (done || apply Hd). by rewrite bind_fmap.
  - intros k entries Hk%elem_of_seqZ.
    destruct (dir_readable_block i w k Hd ltac:(lia)) as (Hb & Hr & _).
    run_step Hb. cbv beta iota. run_step run_read_block by (apply disk_ok_has; [apply Hd|lia]).
    change entries_per_block with 15.
    set (b := i_direct_blocks i !!! Z.to_nat k) in *.
    rewrite (run_for_each_pure (λ entries j, entries ++
      (if DirEntry_is_empty (entry_of (w_read w b) (j * 34)) then []
       else [(entry_of (w_read w b) (j * 34), b, j * 34)]))).
    + rewrite foldl_collect. do 2 f_equal. unfold block_slots.
      induction (seqZ 0 15) as [|j l IH]; [done|].
      cbn [fmap list_fmap mbind list_bind]. rewrite filter_cons, <-IH.
      case_decide as Hu; unfold is_used in Hu; simpl in Hu; [by rewrite Hu|].
      by apply not_false_is_true in Hu as ->.
    + intros j acc Hj%elem_of_seqZ. change DIR_ENTRY_SIZE with 34.
      run_step run_entry_at by (apply Hd || lia).
      destruct (DirEntry_is_empty _); [by rewrite app_nil_r|done].
Qed.

Lemma run_dir_find i name w :
  dir_readable i w → run (dir_find i name) w = Done (dir_get i w name) w.
Proof.
  intros Hd. pose proof (dr_wf _ _ Hd) as Hwf. unfold dir_find.
  rewrite dir_count_u32 by done.
  rewrite run_bind, (run_for_in_first (λ k, (λ s, (s, w)) <$>
    first_some (matches name) (block_slots (i_direct_blocks i !!! Z.to_nat k)
                      (w_read w (i_direct_blocks i !!! Z.to_nat k))))).
  - unfold dir_get, dir_slots.
    rewrite first_some_bind, dir_blocks_seq, first_some_fmap by (done || apply Hd).
    unfold compose.
    induction (seqZ 0 (i_block_count i)) as [|k l IH]; [done|]. cbn [first_some].
    destruct (first_some (matches name) (block_slots _ _)); [done|]. exact IH.
  - intros k Hk%elem_of_seqZ.
    destruct (dir_readable_block i w k Hd ltac:(lia)) as (Hb & Hr & Hin).
    run_step Hb. cbv beta iota. run_step run_read_block by (apply disk_ok_has; [apply Hd|lia]).
    change entries_per_block with 15.
    set (b := i_direct_blocks i !!! Z.to_nat k) in *.
    rewrite (run_for_in_first (λ j, (λ s, (s, w)) <$>
      matches name (entry_of (w_read w b) (j * 34), b, j * 34))).
    + unfold block_slots. rewrite first_some_fmap. unfold compose.
      induction (seqZ 0 15) as [|j l IH]; [done|]. cbn [first_some].
      destruct (matches name _); [done|]. exact IH.
    + intros j Hj%elem_of_seqZ. change DIR_ENTRY_SIZE with 34.
      run_step run_entry_at by (apply Hd || lia). unfold matches. simpl.
      destruct (DirEntry_is_empty _) eqn:E; [done|].
      assert ((entry_of (w_read w b) (j * 34), b, j * 34) ∈ dir_slots i w) as Hs
        by (apply elem_of_dir_slots; eauto with lia).
      pose proof (proj1 (Forall_forall _ _) (dr_names _ _ Hd) _ Hs) as Hlen.
      destruct (disk_ok_block w b (dr_disk _ _ Hd)) as [Hl Hu].
      run_step run_unwrap by (apply name_str_Some; [apply entry_of_wf; consts; (done || lia)|done]).
      by case_bool_decide.
Qed.
End run.

(** ** Changing one entry *)
Definition put_slot (b : u32) (off : usize) (e : DirEntry) (s : found) : found :=
  if decide (snd (fst s) = b ∧ snd s = off) then (e, b, off) else s.

Section update.
Implicit Types (i : Inode) (w : world) (s : found) (e : DirEntry) (name : bytes).

Lemma dir_slots_update i w b j d e :
  0 ≤ j < 15 → entry_of d (j * 34) = e →
  (∀ j', 0 ≤ j' < 15 → j' ≠ j → entry_of d (j' * 34) = entry_of (w_read w b) (j' * 34)) →
  dir_slots i (w_write b d w) = put_slot b (j * 34) e <$> dir_slots i w.
Proof.
  intros Hj He Hother. unfold dir_slots. induction (dir_blocks i) as [|b' l IH]; [done|].
  cbn [mbind list_bind]. rewrite fmap_app, <-IH. f_equal. unfold block_slots.
  rewrite <-list_fmap_compose. apply list_fmap_ext. intros k j' Hj'.
  apply list_elem_of_lookup_2, elem_of_seqZ in Hj'.
  unfold put_slot, compose. simpl. destruct (decide (b = b')) as [<-|Hne].
  - rewrite w_read_write_eq. case_decide as Hd.
    + assert (j' = j) as -> by lia. by rewrite He.
    + rewrite Hother; [done|lia|]. intros ->. by apply Hd.
  - rewrite w_read_write_ne by done. rewrite decide_False; [done|]. intros [-> _]. done.
Qed.


(** The entry at a place is determined by the place. *)
Lemma dir_slots_inj i w s s' :
  s ∈ dir_slots i w → s' ∈ dir_slots i w → snd (fst s) = snd (fst s') → snd s = snd s' → s = s'.
Proof.
  intros (b & j & _ & _ & ->)%elem_of_dir_slots (b' & j' & _ & _ & ->)%elem_of_dir_slots.
  simpl. by intros -> ->.
Qed.

(** A free entry that is filled in: the new name is found there, the other names are
    found where they were. *)
Lemma first_matches_fill i w s e name name' :
  s ∈ dir_slots i w → DirEntry_is_empty (fst (fst s)) = true →
  DirEntry_is_empty e = false → entry_name e = name →
  dir_get i w name = None →
  first_some (matches name') (put_slot (snd (fst s)) (snd s) e <$> dir_slots i w) =
    if decide (name' = name) then Some (e, snd (fst s), snd s) else dir_get i w name'.
Proof.
  intros Hs Hfree Hused Hname Hnone. rewrite first_some_fmap.
  assert (∀ s', s' ∈ dir_slots i w → snd (fst s') = snd (fst s) ∧ snd s' = snd s → s' = s) as Hinj
    by (intros s' Hs' []; by eapply dir_slots_inj).
  assert (matches name' (e, snd (fst s), snd s) =
    if decide (name' = name) then Some (e, snd (fst s), snd s) else None) as Hnew.
  { unfold matches. simpl. rewrite Hused.
    case_decide; [by rewrite bool_decide_true by congruence|by rewrite bool_decide_false by congruence]. }
  unfold dir_get in *. rewrite first_some_None in Hnone. case_decide as Hd.
  - subst name'. apply (first_some_unique _ _ s); [done|..].
    + unfold compose, put_slot. by rewrite decide_True.
    + intros s' Hs'. unfold compose, put_slot. case_decide; [by right|left; auto].
  - apply first_some_ext. intros s' Hs'. unfold compose, put_slot. case_decide as Hp; [|done].
    rewrite Hnew. apply Hinj in Hp as ->; [|done]. unfold matches. by rewrite Hfree.
Qed.

(** Names are unique: two used entries of the same name are the same entry. *)
Definition dir_unique i w : Prop :=
  ∀ s s', s ∈ dir_slots i w → s' ∈ dir_slots i w → is_used s → is_used s' →
    entry_name (fst (fst s)) = entry_name (fst (fst s')) → s = s'.

(** An entry that is cleared: its name is gone, the other names are found where they
    were. *)
Lemma first_matches_clear i w s e name name' :
  dir_unique i w → dir_get i w name = Some s → DirEntry_is_empty e = true →
  first_some (matches name') (put_slot (snd (fst s)) (snd s) e <$> dir_slots i w) =
    if decide (name' = name) then None else dir_get i w name'.
Proof.
  intros Huniq Hget He. apply dir_get_elem in Hget as (Hs & Hused & Hname).
  rewrite first_some_fmap. unfold dir_get. case_decide as Hd.
  - subst name'. apply first_some_None. intros s' Hs'. unfold compose, put_slot.
    case_decide as Hp; [unfold matches; simpl; by rewrite He|].
    destruct (matches name s') as [r|] eqn:E; [|done]. exfalso.
    apply matches_Some in E as (-> & Hu' & Hn'). apply Hp.
    assert (s' = s) as ->; [|done]. apply Huniq; congruence.
  - apply first_some_ext. intros s' Hs'. unfold compose, put_slot. case_decide as Hp; [|done].
    assert (s' = s) as -> by (destruct Hp; by eapply dir_slots_inj).
    unfold matches. simpl. rewrite He. unfold is_used in Hused. rewrite Hused.
    by rewrite bool_decide_false by congruence.
Qed.
End update.

(** ** The operations on a directory *)

(** A directory that can be changed: its blocks lie in the data area, and its inode is
    in none of them. *)
Record dir_ok (sb : SuperBlock) (i : Inode) (w : world) : Prop := {
  dk_readable : dir_readable i w;
  dk_no : inode_ok sb (i_inode_no i);
  dk_blocks : Forall (λ b, 31 ≤ b ∧ b ≠ inode_block sb (i_inode_no i)) (dir_blocks i);
}.

#[export] Instance dir_ok_dec sb i w : Decision (dir_ok sb i w).
Proof.
  destruct (decide (dir_readable i w ∧ inode_ok sb (i_inode_no i) ∧
    Forall (λ b, 31 ≤ b ∧ b ≠ inode_block sb (i_inode_no i)) (dir_blocks i))) as [Hd|Hd].
  - left. destruct Hd as (?&?&?). by constructor.
  - right. intros []. by apply Hd.
Defined.

(** The place of the first free entry. *)
Definition free_place (s : found) : option (u32 * usize) :=
  if DirEntry_is_empty (fst (fst s)) then Some (snd (fst s), snd s) else None.
Definition first_free (i : Inode) (w : world) : option (u32 * usize) :=
  first_some free_place (dir_slots i w).

Section change.
Context `{Clock} `{Build} (Hclock : clock_ok).
Implicit Types (sb : SuperBlock) (i : Inode) (w : world) (e : DirEntry) (name : bytes).

(** The disk with the entry [e] at a place of the directory [i]. *)
Definition fill_slot sb i (b : u32) (off : usize) e w : world :=
  store_touched sb i (w_write b (splice off (DirEntry_to_bytes e) (w_read w b)) w).

(** The directory extended by the block [n] with the entry [e]. *)
Definition extended i (n : u32) : Inode :=
  let i := set_direct_blocks i (<[Z.to_nat (i_block_count i) := n]> (i_direct_blocks i)) in
  let i := set_block_count i (i_block_count i + 1) in
  set_size i (i_block_count i * 510).
Definition extend_dir sb i (n : u32) e w : world :=
  store_touched sb (extended i n)
    (w_write n (splice 0 (DirEntry_to_bytes e) (zeros 512)) w).

Lemma first_free_elem i w b off :
  first_free i w = Some (b, off) →
  ∃ j, 0 ≤ j < 15 ∧ off = j * 34 ∧ b ∈ dir_blocks i ∧
    (entry_of (w_read w b) off, b, off) ∈ dir_slots i w ∧
    DirEntry_is_empty (entry_of (w_read w b) off) = true.
Proof.
  intros (s & Hs & Hf)%first_some_elem. pose proof Hs as (b' & j & Hb & Hj & ->)%elem_of_dir_slots.
  unfold free_place in Hf. simpl in Hf. destruct (DirEntry_is_empty _) eqn:E; [|done].
  simplify_eq. eauto 10.
Qed.

Lemma disk_ok_fill b off e w :
  disk_ok w → entry_wf e → 0 ≤ off → off + 34 ≤ 512 →
  disk_ok (w_write b (splice off (DirEntry_to_bytes e) (w_read w b)) w).
Proof.
  intros Hok He Ho Ho'. destruct (disk_ok_block w b Hok) as [Hl Hu].
  pose proof (zlen_DirEntry_to_bytes e) as Hb. pose proof He as (_&_&_&Hn&_).
  specialize (Hb Hn). apply disk_ok_write; [done| |].
  - consts. rewrite zlen_splice by lia. done.
  - apply Forall_splice; [by apply DirEntry_to_bytes_u8|done].
Qed.

(** The search for a free entry in [dir_add_entry]: the bodies of its two loops, on the
    entry [j] of the block [b], and on the block [k] of the directory. *)
Definition fill_entry_body sb i e (b : u32) (block_buf : bytes) (j : Z) (_ : ())
  : prog (flow () Inode) :=
  let offset := j * DIR_ENTRY_SIZE in
  entry ← entry_at block_buf offset;
  if DirEntry_is_empty entry then
    block_buf ← unwrap (copy_from_slice offset (offset + DIR_ENTRY_SIZE)
                          (DirEntry_to_bytes e) block_buf);
    write_block b block_buf;;
    now ← current_timestamp;
    let dir_inode := set_mtime i now in
    write_inode sb dir_inode;;
    mret (Break dir_inode)
  else mret (Continue ()).

Definition fill_block_body sb i e (k : Z) (_ : ()) : prog (flow () Inode) :=
  b ← get_block i k;
  block_num ← unwrap b;
  block_buf ← read_block block_num;
  for_in (seqZ 0 entries_per_block) () (fill_entry_body sb i e block_num block_buf).

(** The block [k] of a directory, and the first place in it. *)
Definition block_of i (k : Z) : u32 := i_direct_blocks i !!! Z.to_nat k.
Definition place_in i w (k : Z) : option (u32 * usize) :=
  first_some free_place (block_slots (block_of i k) (w_read w (block_of i k))).
Definition place_at w (b : u32) (j : Z) : option (u32 * usize) :=
  free_place (entry_of (w_read w b) (j * 34), b, j * 34).
Definition filled sb i e w : u32 * usize → Inode * world :=
  λ '(b, off), (touched i w, fill_slot sb i b off e w).

Lemma place_in_seq i w k : place_in i w k = first_some (place_at w (block_of i k)) (seqZ 0 15).
Proof. unfold place_in, block_slots. by rewrite first_some_fmap. Qed.

Lemma first_free_seq i w :
  dir_readable i w → first_free i w = first_some (place_in i w) (seqZ 0 (i_block_count i)).
Proof.
  intros Hd. unfold first_free, dir_slots.
  rewrite first_some_bind, dir_blocks_seq, first_some_fmap by (done || apply Hd). done.
Qed.

Lemma run_fill_entry sb i e w b j :
  dir_ok sb i w → entry_wf e → 0 ≤ b < MAX_BLOCKS → 0 ≤ j < 15 →
  run (fill_entry_body sb i e b (w_read w b) j ()) w =
    match filled sb i e w <$> place_at w b j with
    | None => Done (Continue ()) w
    | Some (i', w') => Done (Break i') w'
    end.
Proof.
  intros [Hd Hno Hbl] He Hr Hj. pose proof (dr_wf _ _ Hd) as Hwf. pose proof (dr_disk _ _ Hd) as Hok.
  unfold fill_entry_body. cbv zeta. change DIR_ENTRY_SIZE with 34.
  run_step run_entry_at by (done || lia). unfold place_at, free_place. simpl fst. simpl snd.
  destruct (DirEntry_is_empty _) eqn:E; [|done].
  pose proof (disk_ok_zlen w b Hok) as Hl. pose proof (disk_ok_fill b (j * 34) e w Hok He) as Hok'.
  pose proof He as (_&_&_&Hn&_). pose proof (zlen_DirEntry_to_bytes e Hn) as Hbl'. consts.
  run_step run_unwrap by (apply copy_from_slice_Some; lia).
  run_step run_write_block by (consts; rewrite ?zlen_splice by lia; first [done|unfold is_u32; lia]).
  run_step run_now by done. cbv zeta.
  change (set_mtime i (clock_at (w_ticks (w_write b (splice (j * 34) (DirEntry_to_bytes e) (w_read w b)) w))))
    with (touched i (w_write b (splice (j * 34) (DirEntry_to_bytes e) (w_read w b)) w)).
  run_step (run_store_touched Hclock) by (try apply Hok'; done || lia). done.
Qed.

Lemma run_fill_block sb i e w k :
  dir_ok sb i w → entry_wf e → 0 ≤ k < i_block_count i →
  run (fill_block_body sb i e k ()) w =
    match filled sb i e w <$> place_in i w k with
    | None => Done (Continue ()) w
    | Some (i', w') => Done (Break i') w'
    end.
Proof.
  intros Hdok He Hk. pose proof Hdok as [Hd Hno Hbl]. pose proof (dr_disk _ _ Hd) as Hok.
  destruct (dir_readable_block i w k Hd ltac:(lia)) as (Hb & Hr & Hin).
  unfold fill_block_body. run_step Hb. cbn [unwrap]. rewrite run_bind. cbn [run].
  run_step run_read_block by (apply disk_ok_has; [done|lia]).
  change entries_per_block with 15. fold (block_of i k).
  rewrite (run_for_in_first (λ j, filled sb i e w <$> place_at w (block_of i k) j)).
  - rewrite place_in_seq. induction (seqZ 0 15) as [|j l IH]; [done|]. cbn [first_some].
    destruct (place_at w (block_of i k) j) as [[? ?]|]; [done|]. exact IH.
  - intros j Hj%elem_of_seqZ. apply run_fill_entry; [done|done|unfold block_of; lia|lia].
Qed.

Lemma run_fill_loop sb i e w :
  dir_ok sb i w → entry_wf e →
  run (for_in (seqZ 0 (as_u32 (i_block_count i))) () (fill_block_body sb i e)) w =
    match first_free i w with
    | None => Done (Continue ()) w
    | Some (b, off) => Done (Break (touched i w)) (fill_slot sb i b off e w)
    end.
Proof.
  intros Hdok He. pose proof Hdok as [Hd Hno Hbl].
  rewrite dir_count_u32 by apply Hd. rewrite first_free_seq by done.
  rewrite (run_for_in_first (λ k, filled sb i e w <$> place_in i w k)).
  - induction (seqZ 0 (i_block_count i)) as [|k l IH]; [done|]. cbn [first_some].
    destruct (place_in i w k) as [[b off]|]; [done|]. exact IH.
  - intros k Hk%elem_of_seqZ. apply run_fill_block; [done|done|lia].
Qed.

Lemma extended_wf i n :
  inode_wf i → i_block_count i < 10 → is_u32 n → inode_wf (extended i n).
Proof.
  intros Hwf Hc Hn. pose proof Hwf as (_&_&_&_&_&_&Hbc&_). unfold is_u16 in Hbc.
  unfold extended. apply set_size_wf; [apply set_block_count_wf; [by apply set_direct_blocks_wf|]|];
    simpl; unfold is_u16, is_u32; lia.
Qed.

Lemma run_dir_add_entry sb i name c d w :
  dir_ok sb i w → bitmap_inv sb w → is_u32 c → Forall is_u8 name →
  run (dir_add_entry sb i name c d) w =
    let e := DirEntry_new c name d in
    match dir_get i w name with
    | Some _ => Done (Err "entry already exists"%string, sb, i) w
    | None =>
        match first_free i w with
        | Some (b, off) => Done (Ok (), sb, touched i w) (fill_slot sb i b off e w)
        | None =>
            if i_block_count i <? 10 then
              match least_free w with
              | None => Done (Err "no free blocks for directory expansion"%string, sb, i) w
              | Some n =>
                  let sb' := with_free_blocks (sb_free_blocks sb - 1) sb in
                  Done (Ok (), sb', touched (extended i n) w)
                    (extend_dir sb' i n e (record_superblock sb' (set_bit n w)))
              end
            else Done (Err "directory too large"%string, sb, i) w
        end
    end.
Proof.
  intros Hd Hinv Hc Hname. pose proof Hd as [Hr Hno Hbl].
  pose proof (dr_wf _ _ Hr) as Hwf. pose proof (dr_disk _ _ Hr) as Hok.
  pose proof (DirEntry_new_wf c name d Hc Hname) as He.
  unfold dir_add_entry. run_step run_dir_find by done. cbv zeta.
  destruct (dir_get i w name) as [s|]; [done|]. rewrite bool_decide_false by (by intros []).
  pose proof (run_fill_loop sb i (DirEntry_new c name d) w Hd He) as Hloop.
  unfold fill_block_body, fill_entry_body in Hloop. rewrite run_bind, Hloop. clear Hloop.
  destruct (first_free i w) as [[b off]|]; [done|].
  rewrite dir_count_u32 by done. change (as_u32 DIRECT_BLOCKS) with 10.
  destruct (Z.ltb_spec (i_block_count i) 10) as [Hlt|]; [|done].
  rewrite run_bind, run_allocate_block_inv by done.
  destruct (least_free w) as [n|] eqn:En; [|done]. cbv beta iota zeta.
  apply least_free_Some in En as (Hn & Hbit & _).
  set (sb' := with_free_blocks (sb_free_blocks sb - 1) sb).
  pose proof (bitmap_inv_set sb w n Hinv Hn Hbit) as Hinv'. fold sb' in Hinv'.
  set (w1 := record_superblock sb' (set_bit n w)) in *.
  set (e := DirEntry_new c name d) in *.
  pose proof He as (_&_&_&Hen&_). pose proof (zlen_DirEntry_to_bytes e Hen) as Hel.
  pose proof (bi_disk _ _ Hinv') as Hok1.
  pose proof Hwf as (_&_&_&_&_&_&Hbc&_&_&_&Hdl&_). unfold is_u16 in Hbc. consts.
  change DIR_ENTRY_SIZE with 34.
  run_step run_unwrap by (apply copy_from_slice_Some; rewrite ?zlen_zeros by lia; lia).
  assert (zlen (splice 0 (DirEntry_to_bytes e) (zeros 512)) = 512) as Hz
    by (rewrite zlen_splice; rewrite ?zlen_zeros by lia; lia).
  run_step run_write_block by (done || (unfold is_u32; lia)).
  rewrite as_usize_id by lia.
  run_step run_unwrap by (apply set_index_Some; lia).
  cbn [i_block_count set_direct_blocks].
  run_step run_arith_u by lia. rewrite as_u32_id by (unfold is_u32; lia).
  run_step run_arith_u by (consts; lia).
  run_step run_now by done.
  set (w2 := w_write n (splice 0 (DirEntry_to_bytes e) (zeros 512)) w1).
  assert (disk_ok w2) as Hok2.
  { apply disk_ok_write; [done|done|]. apply Forall_splice; [by apply DirEntry_to_bytes_u8|].
    apply Forall_zeros. }
  assert (inode_wf (extended i n)) as Hwf' by (apply extended_wf; [done|lia|unfold is_u32; lia]).
  run_step (run_store_touched Hclock sb' (extended i n) w2) by (done || exact Hno). done.
Qed.

(** The disk with the entry at a place of the directory cleared. *)
Definition clear_slot sb i (b : u32) (off : usize) w : world :=
  store_touched sb i (w_write b (<[Z.to_nat (off + 5) := 0]> (w_read w b)) w).

Lemma run_dir_remove_entry sb i name w :
  dir_ok sb i w →
  run (dir_remove_entry sb i name) w =
    match dir_get i w name with
    | None => Done (Err "entry not found"%string, i) w
    | Some (_, b, off) => Done (Ok (), touched i w) (clear_slot sb i b off w)
    end.
Proof.
  intros Hd. pose proof Hd as [Hr Hno Hbl].
  pose proof (dr_wf _ _ Hr) as Hwf. pose proof (dr_disk _ _ Hr) as Hok.
  unfold dir_remove_entry. run_step run_dir_find by done.
  destruct (dir_get i w name) as [[[e b] off]|] eqn:Eg; [|done].
  apply dir_get_elem in Eg as ((b' & j & Hb & Hj & Heq)%elem_of_dir_slots & _).
  injection Heq as -> -> ->.
  pose proof (proj1 (Forall_forall _ _) (dr_blocks _ _ Hr) _ Hb) as Hrange. simpl in Hrange.
  destruct (disk_ok_block w b' Hok) as [Hl Hu]. consts.
  run_step run_read_block by (apply disk_ok_has; [done|consts; lia]).
  run_step run_unwrap by (apply set_index_Some; lia).
  run_step run_write_block by (consts; rewrite ?zlen_insert; first [done|unfold is_u32; lia]).
  run_step run_now by done.
  set (w1 := w_write b' _ w).
  assert (disk_ok w1) as Hok1.
  { apply disk_ok_write; [done|by rewrite zlen_insert|]. by apply Forall_insert. }
  run_step (run_store_touched Hclock sb i w1) by done. done.
Qed.
End change.

(** ** The effect of the operations on the contents *)
Section effect.
Context `{Clock} (Hclock : clock_ok).
Implicit Types (sb : SuperBlock) (i : Inode) (w : world) (e : DirEntry) (name : bytes).

Lemma dir_ok_wf sb i w : dir_ok sb i w → inode_wf i.
Proof. intros Hd. apply Hd. Qed.
Lemma dir_ok_disk sb i w : dir_ok sb i w → disk_ok w.
Proof. intros Hd. apply Hd. Qed.

Lemma dir_slots_store sb i w :
  dir_ok sb i w → dir_slots (touched i w) (store_touched sb i w) = dir_slots i w.
Proof.
  intros Hd. apply dir_slots_ext; [done|]. intros b Hb.
  destruct (proj1 (Forall_forall _ _) (dk_blocks _ _ _ Hd) _ Hb) as [_ Hne].
  unfold store_touched. by rewrite put_inode_read_ne by done.
Qed.

(** What [store_touched] leaves of a well-formed directory. *)
Lemma dir_ok_store sb i w : dir_ok sb i w → dir_ok sb (touched i w) (store_touched sb i w).
Proof.
  intros Hd. pose proof (dir_slots_store sb i w Hd) as Hs.
  destruct Hd as [[] Hno Hbl]. constructor; [constructor|done|done].
  - apply disk_ok_put; [done|]. by apply inode_wf_direct, touched_wf.
  - by apply touched_wf.
  - done.
  - done.
  - by rewrite Hs.
Qed.

Lemma disk_inode_store sb i w :
  disk_ok w → inode_wf i →
  disk_inode sb (store_touched sb i w) (i_inode_no i) = Some (touched i w).
Proof. intros Hok Hwf. apply (disk_inode_put_same sb (touched i w)); [done|by apply touched_wf]. Qed.

(** A write to a block of the directory that keeps the names of the entries short. *)
Lemma dir_ok_write sb i w b d :
  dir_ok sb i w → zlen d = BLOCK_SIZE → Forall is_u8 d →
  Forall (λ s : found, de_name_len (fst (fst s)) ≤ 28) (dir_slots i (w_write b d w)) →
  dir_ok sb i (w_write b d w).
Proof. intros [[] Hno Hbl] Hd Hu Hn. constructor; [constructor; try done; by apply disk_ok_write|done|done]. Qed.

Lemma names_put_slot b off e l :
  de_name_len e ≤ 28 → Forall (λ s : found, de_name_len (fst (fst s)) ≤ 28) l →
  Forall (λ s : found, de_name_len (fst (fst s)) ≤ 28) (put_slot b off e <$> l).
Proof.
  intros He Hl. apply Forall_fmap. eapply Forall_impl; [exact Hl|].
  intros s Hs. unfold compose, put_slot. by case_decide.
Qed.

Lemma slots_fill sb i w j b e :
  dir_ok sb i w → 0 ≤ j < 15 → entry_wf e →
  dir_slots i (w_write b (splice (j * 34) (DirEntry_to_bytes e) (w_read w b)) w) =
    put_slot b (j * 34) e <$> dir_slots i w.
Proof.
  intros Hd Hj He. pose proof (disk_ok_zlen w b (dir_ok_disk _ _ _ Hd)) as Hl. consts.
  pose proof He as (_&_&_&Hen&_). pose proof (zlen_DirEntry_to_bytes e Hen) as Hel.
  apply dir_slots_update; [done|by apply entry_of_splice_same; [|lia..]|].
  intros j' Hj' Hne. apply entry_of_splice_other; lia.
Qed.

Lemma fill_slot_effect sb i w b off e :
  dir_ok sb i w → first_free i w = Some (b, off) → entry_wf e → de_name_len e ≤ 28 →
  dir_ok sb (touched i w) (fill_slot sb i b off e w) ∧
  dir_slots (touched i w) (fill_slot sb i b off e w) = put_slot b off e <$> dir_slots i w.
Proof.
  intros Hd Hf He Hlen. apply first_free_elem in Hf as (j & Hj & -> & Hb & _).
  pose proof (slots_fill sb i w j b e Hd Hj He) as Hs.
  pose proof (disk_ok_fill b (j * 34) e w (dir_ok_disk _ _ _ Hd) He) as Hok'.
  set (w1 := w_write b _ w) in *.
  assert (dir_ok sb i w1) as Hd1.
  { specialize (Hok' ltac:(lia) ltac:(lia)). pose proof (disk_ok_block w1 b Hok') as [Hz Hu].
    unfold w1 in Hz, Hu. rewrite w_read_write_eq in Hz, Hu.
    apply dir_ok_write; [done|done|done|]. fold w1. rewrite Hs.
    apply names_put_slot; [done|]. apply Hd. }
  split; [by apply (dir_ok_store sb i w1)|].
  etrans; [apply (dir_slots_store sb i w1 Hd1)|done].
Qed.

Lemma clear_slot_effect sb i w name s :
  dir_ok sb i w → dir_get i w name = Some s →
  ∃ e, DirEntry_is_empty e = true ∧
    dir_ok sb (touched i w) (clear_slot sb i (snd (fst s)) (snd s) w) ∧
    dir_slots (touched i w) (clear_slot sb i (snd (fst s)) (snd s) w) =
      put_slot (snd (fst s)) (snd s) e <$> dir_slots i w.
Proof.
  intros Hd ((b & j & Hb & Hj & ->)%elem_of_dir_slots & _)%dir_get_elem. simpl fst; simpl snd.
  destruct (disk_ok_block w b (dir_ok_disk _ _ _ Hd)) as [Hl Hu]. consts.
  unfold clear_slot. set (d := <[Z.to_nat (j * 34 + 5):=0]> (w_read w b)).
  assert (zlen d = 512) as Hld by (unfold d; by rewrite zlen_insert).
  assert (Forall is_u8 d) as Hud by (by apply Forall_insert).
  edestruct (entry_at_some d (j * 34)) as (_ & _ & _ & _ & Hlen); [done|done|lia|lia|].
  assert (de_name_len (entry_of d (j * 34)) = 0) as Hlen0.
  { rewrite Hlen. unfold d. apply list_lookup_total_insert_eq. unfold zlen in Hl. lia. }
  exists (entry_of d (j * 34)). split; [unfold DirEntry_is_empty; by rewrite Hlen0|].
  assert (dir_slots i (w_write b d w) = put_slot b (j * 34) (entry_of d (j * 34)) <$> dir_slots i w) as Hs.
  { apply dir_slots_update; [done|done|]. intros j' Hj' Hne. unfold d.
    assert (<[Z.to_nat (j * 34 + 5):=0]> (w_read w b) = splice (j * 34 + 5) [0] (w_read w b)) as ->.
    { unfold splice. cbn [length]. rewrite Nat.add_1_r. apply insert_take_drop. unfold zlen in Hl. lia. }
    unfold entry_of. change DIR_ENTRY_SIZE with 34.
    rewrite slice_splice_other by (change (zlen [0]) with 1; lia). done. }
  assert (dir_ok sb i (w_write b d w)) as Hd1.
  { apply dir_ok_write; [done|done|done|]. rewrite Hs. apply names_put_slot; [lia|apply Hd]. }
  split; [by apply (dir_ok_store sb i (w_write b d w))|].
  etrans; [apply (dir_slots_store sb i _ Hd1)|done].
Qed.

Lemma entry_of_zeros off :
  0 ≤ off → off + 34 ≤ 512 → DirEntry_is_empty (entry_of (zeros 512) off) = true.
Proof.
  intros Ho Ho'. edestruct (entry_at_some (zeros 512) off) as (_ & _ & _ & _ & Hlen);
    [done|apply Forall_zeros|done|done|].
  unfold DirEntry_is_empty. rewrite Hlen.
  rewrite (list_lookup_total_correct _ _ 0); [done|]. apply lookup_zeros. lia.
Qed.

(** A fresh block with one entry. *)
Lemma block_slots_fresh n e :
  entry_wf e →
  ∃ rest, block_slots n (splice 0 (DirEntry_to_bytes e) (zeros 512)) = (e, n, 0) :: rest ∧
    ∀ s, s ∈ rest → DirEntry_is_empty (fst (fst s)) = true.
Proof.
  intros He. pose proof He as (_&_&_&Hen&_). pose proof (zlen_DirEntry_to_bytes e Hen) as Hel.
  unfold block_slots. change (seqZ 0 15) with (0 :: seqZ 1 14). cbn [fmap list_fmap].
  change (0 * 34) with 0.
  rewrite (entry_of_splice_same e (zeros 512) 0) by (done || lia).
  eexists. split; [done|]. intros s (j & -> & Hj%elem_of_seqZ)%list_elem_of_fmap. simpl.
  rewrite entry_of_splice_other by (rewrite ?zlen_zeros by lia; lia).
  apply entry_of_zeros; lia.
Qed.

Lemma dir_blocks_extended i n :
  inode_wf i → i_block_count i < 10 → dir_blocks (extended i n) = dir_blocks i ++ [n].
Proof.
  intros Hwf Hc. pose proof Hwf as (_&_&_&_&_&_&Hbc&_&_&_&Hd&_). unfold is_u16 in Hbc.
  unfold dir_blocks, extended. cbn [i_block_count i_direct_blocks set_size set_block_count set_direct_blocks].
  rewrite Z2Nat.inj_add, Nat.add_1_r by lia. unfold zlen in Hd.
  rewrite (take_S_r _ _ n) by (apply list_lookup_insert_eq; lia).
  by rewrite take_insert_ge by lia.
Qed.

Lemma extend_dir_effect sb i w w1 n e :
  dir_ok sb i w → i_block_count i < 10 → 31 ≤ n < MAX_BLOCKS → n ∉ dir_blocks i →
  n ≠ inode_block sb (i_inode_no i) → disk_ok w1 → frame_above 5 w w1 → entry_wf e →
  de_name_len e ≤ 28 →
  dir_ok sb (touched (extended i n) w1) (extend_dir sb i n e w1) ∧
  ∃ rest, dir_slots (touched (extended i n) w1) (extend_dir sb i n e w1) =
      dir_slots i w ++ (e, n, 0) :: rest ∧
    ∀ s, s ∈ rest → DirEntry_is_empty (fst (fst s)) = true.
Proof.
  intros Hd Hc Hn Hnew Hno Hok1 Hframe He Hlen. pose proof (dir_ok_wf _ _ _ Hd) as Hwf.
  pose proof He as (_&_&_&Hen&_). pose proof (zlen_DirEntry_to_bytes e Hen) as Hel.
  destruct (block_slots_fresh n e He) as (rest & Hfresh & Hrest).
  set (d := splice 0 (DirEntry_to_bytes e) (zeros 512)) in *.
  set (w2 := w_write n d w1). set (i1 := extended i n).
  assert (dir_slots i1 w2 = dir_slots i w ++ (e, n, 0) :: rest) as Hs.
  { unfold dir_slots, i1. rewrite dir_blocks_extended by done. rewrite bind_app. f_equal.
    - apply (dir_slots_ext i i w w2); [done|]. intros b Hb.
      unfold w2. rewrite w_read_write_ne by set_solver. apply Hframe.
      destruct (proj1 (Forall_forall _ _) (dk_blocks _ _ _ Hd) _ Hb). lia.
    - cbn [mbind list_bind]. rewrite app_nil_r. unfold w2. rewrite w_read_write_eq. done. }
  assert (dir_ok sb i1 w2) as Hd1.
  { destruct Hd as [[] Hno' Hbl]. consts. constructor; [constructor|done|].
    - apply disk_ok_write; [done|consts; unfold d; rewrite zlen_splice; rewrite ?zlen_zeros by lia; lia|].
      apply Forall_splice; [by apply DirEntry_to_bytes_u8|apply Forall_zeros].
    - apply extended_wf; [done|done|unfold is_u32; lia].
    - simpl. lia.
    - unfold i1. rewrite dir_blocks_extended by done. apply Forall_app. split; [done|].
      constructor; [consts; lia|constructor].
    - rewrite Hs. apply Forall_app. split; [done|]. constructor; [done|].
      apply Forall_forall. intros s Hin%Hrest. unfold DirEntry_is_empty in Hin.
      apply Z.eqb_eq in Hin. lia.
    - unfold i1. rewrite dir_blocks_extended by done. apply Forall_app. split; [done|].
      constructor; [split; [lia|exact Hno]|constructor]. }
  split; [by apply (dir_ok_store sb i1 w2)|].
  exists rest. split; [|done]. etrans; [apply (dir_slots_store sb i1 w2 Hd1)|done].
Qed.

(** The new names of an extended directory. *)
Lemma first_matches_extend i w e n rest name name' :
  DirEntry_is_empty e = false → entry_name e = name →
  (∀ s, s ∈ rest → DirEntry_is_empty (fst (fst s)) = true) →
  dir_get i w name = None →
  first_some (matches name') (dir_slots i w ++ (e, n, 0) :: rest) =
    if decide (name' = name) then Some (e, n, 0) else dir_get i w name'.
Proof.
  intros Hused Hname Hrest Hnone. rewrite first_some_app.
  change (first_some (matches name') (dir_slots i w)) with (dir_get i w name').
  assert (first_some (matches name') rest = None) as Hr.
  { apply first_some_None. intros s Hs. unfold matches. by rewrite Hrest. }
  cbn [first_some]. unfold matches at 1. simpl. rewrite Hused, Hr.
  case_decide as Hd.
  - subst name'. rewrite Hnone, bool_decide_true by done. done.
  - rewrite bool_decide_false by congruence. by destruct (dir_get i w name').
Qed.

(** Uniqueness of names is an invariant of the three changes. *)
Lemma dir_unique_put i w i' w' b off e :
  dir_unique i w → dir_slots i' w' = put_slot b off e <$> dir_slots i w →
  DirEntry_is_empty e = true ∨ dir_get i w (entry_name e) = None →
  dir_unique i' w'.
Proof.
  intros Hu Hs He s1 s2. rewrite Hs, !list_elem_of_fmap.
  intros (t1 & -> & Ht1) (t2 & -> & Ht2). unfold put_slot.
  assert (∀ t, t ∈ dir_slots i w → is_used t → is_used (e, b, off) →
    entry_name e = entry_name (fst (fst t)) → False) as Hno.
  { intros t Ht Hut Hue Hn. destruct He as [He|He]; [unfold is_used in Hue; simpl in Hue; congruence|].
    unfold dir_get in He. rewrite first_some_None in He. specialize (He t Ht).
    unfold matches in He. unfold is_used in Hut. rewrite Hut, bool_decide_true in He by done. done. }
  repeat case_decide; intros; try done.
  - exfalso. eapply (Hno t2); eauto.
  - exfalso. eapply (Hno t1); eauto.
  - by apply Hu.
Qed.

Lemma dir_unique_extend i w i' w' e n rest :
  dir_unique i w → dir_slots i' w' = dir_slots i w ++ (e, n, 0) :: rest →
  (∀ s, s ∈ rest → DirEntry_is_empty (fst (fst s)) = true) →
  dir_get i w (entry_name e) = None → dir_unique i' w'.
Proof.
  intros Hu Hs Hrest Hnone s1 s2. rewrite Hs, !elem_of_app, !elem_of_cons.
  assert (∀ t, t ∈ rest → is_used t → False) as Hr by
    (intros t Ht Hut; unfold is_used in Hut; rewrite Hrest in Hut; done).
  assert (∀ t, t ∈ dir_slots i w → is_used t → entry_name e = entry_name (fst (fst t)) → False) as Hno.
  { intros t Ht Hut Hn. unfold dir_get in Hnone. rewrite first_some_None in Hnone.
    specialize (Hnone t Ht). unfold matches in Hnone. unfold is_used in Hut.
    rewrite Hut, bool_decide_true in Hnone by done. done. }
  intros [H1|[->|H1]] [H2|[->|H2]] Hu1 Hu2 Heq; try (exfalso; eauto; fail); [by apply Hu|done].
Qed.
End effect.

(** ** Path names *)

(** The path with the components [l]. *)
Definition join (l : list bytes) : bytes := l ≫= λ c, 47 :: c.

Lemma split_slash_app current c rest :
  47 ∉ c → split_slash current (c ++ rest) = split_slash (current ++ c) rest.
Proof.
  revert current. induction c as [|x c IH]; intros current Hc; [by rewrite app_nil_r|].
  simpl. destruct (Z.eqb_spec x 47); [set_solver|].
  rewrite IH by set_solver. by rewrite <-app_assoc.
Qed.

Lemma split_slash_join current l :
  47 ∉ current → Forall (λ c, 47 ∉ c) l → split_slash current (join l) = current :: l.
Proof.
  intros Hcur Hl. revert current Hcur. induction Hl as [|c l Hc _ IH]; intros current Hcur; [done|].
  unfold join. cbn [mbind list_bind]. simpl. f_equal.
  rewrite split_slash_app by done. by apply IH.
Qed.

Lemma components_join l :
  Forall (λ c, c ≠ [] ∧ 47 ∉ c) l → components (join l) = l.
Proof.
  intros Hl. unfold components. rewrite split_slash_join; [|set_solver|].
  - rewrite filter_cons_False by (intros Hn; by apply Hn).
    induction Hl as [|c l [Hc _] _ IH]; [done|]. rewrite filter_cons_True by done. by f_equal.
  - eapply Forall_impl; [exact Hl|]. by intros c [].
Qed.

(** The components of any path are not empty and have no slash. *)
Lemma split_slash_no_slash current path :
  47 ∉ current → Forall (λ c, 47 ∉ c) (split_slash current path).
Proof.
  revert current. induction path as [|c path IH]; intros current Hc; simpl; [by constructor|].
  destruct (Z.eqb_spec c 47); [constructor; [done|apply IH; set_solver]|].
  apply IH. set_solver.
Qed.

Lemma components_no_slash path : Forall (λ c, c ≠ [] ∧ 47 ∉ c) (components path).
Proof.
  apply Forall_forall. intros c [Hc Hin]%list_elem_of_filter. split; [done|].
  apply (proj1 (Forall_forall _ _) (split_slash_no_slash [] path ltac:(set_solver)) _ Hin).
Qed.

(** What [path_resolve] looks for: one lookup per component, from a directory. *)
Definition is_dir (i : Inode) : Prop := Z.land (i_mode i) S_IFDIR ≠ 0.
#[export] Instance is_dir_dec i : Decision (is_dir i).
Proof. unfold is_dir. apply _. Defined.

Inductive walk (sb : SuperBlock) (w : world) : Inode → list bytes → Inode → Inode → bytes → Prop :=
| walk_last cur c e b off child :
    zlen c ≤ 28 → dir_get cur w c = Some (e, b, off) →
    disk_inode sb w (de_inode e) = Some child →
    walk sb w cur [c] child cur c
| walk_step cur c e b off child c' rest target parent name :
    zlen c ≤ 28 → dir_get cur w c = Some (e, b, off) →
    disk_inode sb w (de_inode e) = Some child → is_dir child →
    walk sb w child (c' :: rest) target parent name →
    walk sb w cur (c :: c' :: rest) target parent name.

(** The directories that can be reached from the inode [root]. *)
Inductive reaches (sb : SuperBlock) (w : world) (root : Inode) : Inode → Prop :=
| reaches_root : reaches sb w root root
| reaches_child dir s child :
    reaches sb w root dir → s ∈ dir_entries dir w →
    disk_inode sb w (de_inode (fst (fst s))) = Some child → is_dir child →
    reaches sb w root child.

(** All of them can be read, and so can the inodes their entries name. *)
Record tree_ok (sb : SuperBlock) (w : world) (root : Inode) : Prop := {
  tree_disk : disk_ok w;
  tree_root : disk_inode sb w (sb_root_inode sb) = Some root;
  tree_root_ok : inode_ok sb (sb_root_inode sb);
  tree_dirs : ∀ dir, reaches sb w root dir → dir_readable dir w;
  tree_entries : ∀ dir s, reaches sb w root dir → s ∈ dir_entries dir w →
    inode_ok sb (de_inode (fst (fst s)));
}.

Lemma dir_get_in_entries i w name s : dir_get i w name = Some s → s ∈ dir_entries i w.
Proof. intros (? & ? & _)%dir_get_elem. by apply list_elem_of_filter. Qed.

(** The result of [path_resolve] below the directory [cur]. *)
Fixpoint resolve (sb : SuperBlock) (w : world) (cur : Inode) (l : list bytes)
  : result (Inode * Inode * bytes) string :=
  match l with
  | [] => Err "path resolution failed"%string
  | c :: rest =>
      if MAX_NAME_LEN <? zlen c then Err "invalid path component"%string
      else
        match dir_get cur w c ≫= (λ s, disk_inode sb w (de_inode (fst (fst s)))) with
        | None => Err (if bool_decide (rest = []) then "no such entry"%string
                       else "no such directory"%string)
        | Some child =>
            if bool_decide (rest = []) then Ok (child, cur, c)
            else if bool_decide (is_dir child) then resolve sb w child rest
            else Err "not a directory"%string
        end
  end.

Section resolve.
Context `{Clock} `{Build}.
Implicit Types (sb : SuperBlock) (w : world) (l : list bytes).

Definition child_of sb w cur (c : bytes) : option Inode :=
  dir_get cur w c ≫= (λ s, disk_inode sb w (de_inode (fst (fst s)))).

Lemma run_resolve_step sb w root cur idx count c :
  tree_ok sb w root → reaches sb w root cur → c ≠ [] →
  run (resolve_step sb count (idx, c) cur) w =
    Done (if MAX_NAME_LEN <? zlen c then Break (Err "invalid path component"%string)
          else match child_of sb w cur c with
               | None => Break (Err (if idx =? count - 1 then "no such entry"%string
                                     else "no such directory"%string))
               | Some child =>
                   if idx =? count - 1 then Break (Ok (child, cur, c))
                   else if bool_decide (is_dir child) then Continue child
                   else Break (Err "not a directory"%string)
               end) w.
Proof.
  intros Ht Hcur Hc. unfold resolve_step, child_of.
  assert (zlen c =? 0 = false) as -> by (destruct c; [done|]; unfold zlen; simpl; lia).
  cbn [orb]. destruct (MAX_NAME_LEN <? zlen c); [done|].
  run_step run_dir_find by (by apply (tree_dirs _ _ _ Ht)).
  destruct (dir_get cur w c) as [[[e b] off]|] eqn:Eg; [|by destruct (idx =? count - 1)].
  apply dir_get_in_entries in Eg.
  pose proof (tree_entries _ _ _ Ht cur _ Hcur Eg) as Hok. simpl in Hok.
  destruct (disk_inode_Some sb w (de_inode e) (tree_disk _ _ _ Ht) Hok) as (child & Hchild & _).
  cbn [mbind option_bind fst]. rewrite Hchild.
  run_step run_read_inode by (apply Ht || done).
  destruct (idx =? count - 1); [done|].
  change (as_u16 S_IFDIR) with S_IFDIR. unfold is_dir.
  destruct (Z.eqb_spec (Z.land (i_mode child) S_IFDIR) 0) as [Hz|Hz].
  - by rewrite bool_decide_false by (intros Hn; by apply Hn).
  - by rewrite bool_decide_true by done.
Qed.

Lemma child_of_reaches sb w root cur c child :
  reaches sb w root cur → child_of sb w cur c = Some child → is_dir child →
  reaches sb w root child.
Proof.
  unfold child_of. destruct (dir_get cur w c) as [s|] eqn:Eg; [|done].
  intros Hcur Hch Hd. apply dir_get_in_entries in Eg. by eapply reaches_child.
Qed.

Lemma run_resolve_loop sb w root l cur k :
  tree_ok sb w root → reaches sb w root cur → Forall (λ c, c ≠ []) l → l ≠ [] →
  run (for_in (imap (λ i c, (Z.of_nat (k + i), c)) l) cur
         (resolve_step sb (Z.of_nat (k + length l)))) w =
    Done (Break (resolve sb w cur l)) w.
Proof.
  intros Ht. revert cur k. induction l as [|c l IH]; intros cur k Hcur Hl Hne; [done|].
  apply Forall_cons in Hl as [Hc Hl].
  rewrite imap_cons. cbn [for_in resolve]. rewrite Nat.add_0_r.
  rewrite run_bind, (run_resolve_step sb w root) by done.
  change (dir_get cur w c ≫= _) with (child_of sb w cur c).
  destruct (MAX_NAME_LEN <? zlen c); [done|].
  assert (Z.of_nat k =? Z.of_nat (k + length (c :: l)) - 1 = bool_decide (l = [])) as ->.
  { destruct l; cbn [length]; [by apply Z.eqb_eq; lia|]. rewrite bool_decide_false by done.
    apply Z.eqb_neq. lia. }
  destruct (child_of sb w cur c) as [child|] eqn:Ec; [|done].
  case_bool_decide as Hr; [done|]. case_bool_decide as Hd; [|done].
  rewrite (imap_ext _ (λ i c, (Z.of_nat (S k + i), c)))
    by (intros; unfold compose; do 2 f_equal; lia).
  replace (k + length (c :: l))%nat with (S k + length l)%nat by (cbn [length]; lia).
  apply IH; [by eapply child_of_reaches|done|done].
Qed.

Lemma run_path_resolve sb w root path :
  tree_ok sb w root →
  run (path_resolve sb path) w =
    Done (if bool_decide (components path = []) then Ok (root, root, [])
          else resolve sb w root (components path)) w.
Proof.
  intros Ht. unfold path_resolve. pose proof (run_read_inode sb _ _ w (tree_disk _ _ _ Ht)
    (tree_root_ok _ _ _ Ht) (tree_root _ _ _ Ht)) as Hroot.
  case_bool_decide as Hp; [subst path; run_step Hroot; done|].
  cbv zeta. case_bool_decide as Hc; [run_step Hroot; done|].
  run_step Hroot.
  run_step (run_resolve_loop sb w root (components path) root 0); [done|done|constructor| |done].
  eapply Forall_impl; [apply components_no_slash|]. by intros c [].
Qed.

Lemma resolve_walk sb w cur l target parent name :
  Forall (λ c, c ≠ []) l →
  resolve sb w cur l = Ok (target, parent, name) ↔ walk sb w cur l target parent name.
Proof.
  intros Hl. split.
  - revert cur. induction Hl as [|c l Hc _ IH]; intros cur; [done|]. cbn [resolve].
    destruct (Z.ltb_spec MAX_NAME_LEN (zlen c)); [done|].
    destruct (dir_get cur w c) as [[[e b] off]|] eqn:Eg; [|done]. cbn [mbind option_bind fst].
    destruct (disk_inode sb w (de_inode e)) as [child|] eqn:Ec; [|done].
    case_bool_decide as Hr.
    + intros [= -> -> ->]. subst l. by eapply walk_last.
    + case_bool_decide as Hd; [|done]. intros Hres. destruct l as [|c' rest]; [done|].
      eapply walk_step; eauto.
  - intros Hw. clear Hl. induction Hw as [cur c e b off child Hl Hg Hi|cur c e b off child c' rest t p n Hl Hg Hi Hd _ IH].
    + cbn [resolve]. change MAX_NAME_LEN with 28 in *.
      destruct (Z.ltb_spec 28 (zlen c)); [lia|]. rewrite Hg. cbn [mbind option_bind fst].
      by rewrite Hi.
    + cbn [resolve]. change MAX_NAME_LEN with 28 in *.
      destruct (Z.ltb_spec 28 (zlen c)); [lia|]. rewrite Hg. cbn [mbind option_bind fst].
      rewrite Hi, bool_decide_false by done. rewrite bool_decide_true by done. exact IH.
Qed.
End resolve.

(** ** Properties *)

(** The allocator will not hand out the block of the inode [n] next: its bit is set,
    or another free block comes first.  The inodes of [create] and [mkdir] lie in the
    data area with their bits clear, so this is not automatic. *)
Definition inode_block_safe (sb : SuperBlock) (n : u32) (w : world) : Prop :=
  least_free w ≠ Some (inode_block sb n).

(** There is room for one more entry. *)
Definition has_room (i : Inode) (w : world) : Prop :=
  first_free i w ≠ None ∨ (i_block_count i < 10 ∧ least_free w ≠ None).

Lemma bitmap_inv_store `{Clock} (Hclock : clock_ok) sb sb' i w :
  bitmap_inv sb w → inode_wf i → inode_ok sb' (i_inode_no i) →
  bitmap_inv sb (store_touched sb' i w).
Proof.
  intros Hi Hwf Hn. apply bitmap_inv_put; [by apply bitmap_inv_tick|done|].
  by apply inode_wf_direct, touched_wf.
Qed.

(** What storing the inode of a directory leaves alone. *)
Section store_frame.
Context `{Clock} (Hclock : clock_ok).
Context (sb : SuperBlock) (i : Inode) (w : world).
Context (Hok : disk_ok w) (Hwf : inode_wf i) (Hno : inode_ok sb (i_inode_no i)).

Lemma store_read_ne b :
  b ≠ inode_block sb (i_inode_no i) → w_read (store_touched sb i w) b = w_read w b.
Proof. intros Hne. unfold store_touched. by rewrite put_inode_read_ne. Qed.

Lemma store_inode_other n :
  0 ≤ n → n ≠ i_inode_no i → disk_inode sb (store_touched sb i w) n = disk_inode sb w n.
Proof.
  intros Hn Hne. unfold store_touched. rewrite disk_inode_put_other; try done.
  - by apply inode_wf_direct, touched_wf.
  - apply Hno.
Qed.

Lemma store_bit m : 0 ≤ m < MAX_BLOCKS → bit (store_touched sb i w) m = bit w m.
Proof.
  intros Hm. apply bit_ext; [done|]. intros b Hb. apply store_read_ne.
  pose proof (inode_ok_block _ _ Hno). lia.
Qed.
End store_frame.

(** The state after the entry [e] was added to the directory [i] under [name]: the
    invariants hold, the inode is on the disk, the new name is found, every other
    name is found as before, and nothing else changes but for a block that the
    directory may have been given. *)
Record entry_added (sb : SuperBlock) (i : Inode) (w : world) (name : bytes) (e : DirEntry)
    (sb' : SuperBlock) (i' : Inode) (w' : world) : Prop := {
  ea_dir : dir_ok sb' i' w';
  ea_inv : bitmap_inv sb' w';
  ea_no : i_inode_no i' = i_inode_no i;
  ea_inode : disk_inode sb' w' (i_inode_no i) = Some i';
  ea_get : ∃ b off, ∀ name', dir_get i' w' name' =
    if decide (name' = name) then Some (e, b, off) else dir_get i w name';
  ea_unique : dir_unique i w → dir_unique i' w';
  ea_kind : i_mode i' = i_mode i ∧ i_nlink i' = i_nlink i;
  ea_table : sb_inode_table_start sb' = sb_inode_table_start sb;
  ea_blocks : dir_blocks i' = dir_blocks i ∨
    ∃ n, least_free w = Some n ∧ first_free i w = None ∧ dir_blocks i' = dir_blocks i ++ [n];
  ea_bits : ∀ m, 0 ≤ m < MAX_BLOCKS →
    bit w' m = bool_decide (m ∈ dir_blocks i' ∧ m ∉ dir_blocks i) || bit w m;
  ea_frame : ∀ b, 6 ≤ b → b ∉ dir_blocks i' → b ≠ inode_block sb (i_inode_no i) →
    w_read w' b = w_read w b;
  ea_inodes : ∀ n, 0 ≤ n → n ≠ i_inode_no i → 6 ≤ inode_block sb n →
    inode_block sb n ∉ dir_blocks i' → disk_inode sb w' n = disk_inode sb w n;
}.

Section adding.
Context `{Clock} `{Build} (Hclock : clock_ok).
Context (sb : SuperBlock) (i : Inode) (w : world) (name : bytes) (c : u32) (d : bool).
Context (Hd : dir_ok sb i w) (Hinv : bitmap_inv sb w) (Hgood : good_name name) (Hc : is_u32 c).
Context (Hnone : dir_get i w name = None).

Lemma good_entry :
  let e := DirEntry_new c name d in
  entry_wf e ∧ de_name_len e ≤ 28 ∧ DirEntry_is_empty e = false ∧ entry_name e = name ∧
  zlen (DirEntry_to_bytes e) = 34 ∧ Forall is_u8 (DirEntry_to_bytes e).
Proof.
  intros e. destruct Hgood as (Hne & Hlen & _ & Hu8).
  assert (entry_wf e) as He by (by apply DirEntry_new_wf). split_and!.
  - done.
  - unfold e. rewrite DirEntry_new_name_len. lia.
  - unfold e. rewrite DirEntry_new_empty. by apply bool_decide_false.
  - by apply entry_name_new.
  - by apply zlen_DirEntry_to_bytes, He.
  - by apply DirEntry_to_bytes_u8.
Qed.

Lemma fill_added b off :
  let e := DirEntry_new c name d in
  first_free i w = Some (b, off) →
  entry_added sb i w name e sb (touched i w) (fill_slot sb i b off e w).
Proof.
  intros e Ef. destruct good_entry as (He & Hel & Hused & Hname & Hz & Hu).
  assert (inode_wf i) as Hwf by apply Hd. assert (disk_ok w) as Hok by apply Hd.
  assert (inode_ok sb (i_inode_no i)) as Hno by apply Hd.
  destruct (fill_slot_effect Hclock sb i w b off e Hd Ef He Hel) as [Hd' Hs].
  destruct (first_free_elem i w b off Ef) as (j & Hj & Hoff & Hb & Hin & Hemp).
  destruct (proj1 (Forall_forall _ _) (dk_blocks _ _ _ Hd) _ Hb) as [Hb31 _].
  pose proof (disk_ok_fill b off e w Hok He ltac:(lia) ltac:(lia)) as Hok1.
  set (w1 := w_write b (splice off (DirEntry_to_bytes e) (w_read w b)) w) in *.
  constructor.
  - exact Hd'.
  - apply (bitmap_inv_store Hclock sb sb i w1); [|done|done].
    pose proof (disk_ok_block w1 b Hok1) as [Hz' Hu']. unfold w1 in Hz', Hu'.
    rewrite w_read_write_eq in Hz', Hu'. by apply bitmap_inv_write; [|lia|..].
  - done.
  - by apply (disk_inode_store Hclock sb i w1).
  - exists b, off. intros name'. unfold dir_get at 1. rewrite Hs.
    by apply (first_matches_fill i w (entry_of (w_read w b) off, b, off)).
  - intros Hun. eapply dir_unique_put; [done|exact Hs|]. right. fold e in Hname. by rewrite Hname.
  - done.
  - done.
  - by left.
  - intros m Hm. rewrite bool_decide_false by (intros []; done).
    etrans; [by apply (store_bit sb i w1)|]. by apply bit_write_ne; [|lia].
  - intros b' Hb' Hni HnB. etrans; [by apply (store_read_ne sb i w1)|].
    apply w_read_write_ne. intros <-. by apply Hni.
  - intros n Hn Hne Hn6 Hnb. etrans; [by apply (store_inode_other Hclock sb i w1)|].
    apply disk_inode_write_ne. intros Heq. apply Hnb. by rewrite <-Heq.
Qed.

Lemma extend_added n :
  let e := DirEntry_new c name d in
  let sb' := with_free_blocks (sb_free_blocks sb - 1) sb in
  let w1 := record_superblock sb' (set_bit n w) in
  Forall (λ b, bit w b = true) (dir_blocks i) → n ≠ inode_block sb (i_inode_no i) →
  i_block_count i < 10 → first_free i w = None → least_free w = Some n →
  entry_added sb i w name e sb' (touched (extended i n) w1) (extend_dir sb' i n e w1).
Proof.
  intros e sb' w1 Hbits Hnno Hcount Hfull Hleast. pose proof Hleast as (Hn & Hbit & _)%least_free_Some.
  destruct good_entry as (He & Hel & Hused & Hname & Hz & Hu). fold e in He, Hel, Hused, Hname, Hz, Hu.
  assert (inode_wf i) as Hwf by apply Hd.
  assert (inode_ok sb (i_inode_no i)) as Hno by apply Hd.
  pose proof (bitmap_inv_set sb w n Hinv Hn Hbit) as Hinv'. cbv zeta in Hinv'. fold sb' w1 in Hinv'.
  assert (31 ≤ n) as Hn31.
  { destruct (Z.le_gt_cases 31 n); [done|]. pose proof (bi_system _ _ Hinv n ltac:(lia)). congruence. }
  assert (n ∉ dir_blocks i) as Hnew.
  { intros Hin. pose proof (proj1 (Forall_forall _ _) Hbits _ Hin) as Hb. simpl in Hb. congruence. }
  assert (frame_above 5 w w1) as Hframe by (by apply frame_set).
  assert (disk_ok w1) as Hok1 by apply Hinv'.
  destruct (extend_dir_effect Hclock sb i w w1 n e Hd Hcount ltac:(lia) Hnew Hnno Hok1 Hframe He Hel)
    as (Hd' & rest & Hs & Hrest).
  assert (inode_wf (extended i n)) as Hwf' by (apply extended_wf; [done|done|unfold is_u32; consts; lia]).
  set (d' := splice 0 (DirEntry_to_bytes e) (zeros 512)).
  assert (zlen d' = BLOCK_SIZE ∧ Forall is_u8 d') as [Hz' Hu'].
  { split; [unfold d'; rewrite zlen_splice; rewrite ?zlen_zeros by lia; consts; lia|].
    apply Forall_splice; [done|apply Forall_zeros]. }
  assert (dir_blocks (touched (extended i n) w1) = dir_blocks i ++ [n]) as Hdb
    by (by apply dir_blocks_extended).
  constructor.
  - destruct Hd'. by constructor.
  - apply (bitmap_inv_store Hclock sb' sb' (extended i n) (w_write n d' w1)); [|done|exact Hno].
    by apply bitmap_inv_write; [|lia|..].
  - done.
  - apply (disk_inode_store Hclock sb' (extended i n) (w_write n d' w1)); [|done].
    by apply disk_ok_write.
  - exists n, 0. intros name'. unfold dir_get at 1.
    change (extend_dir sb' i n e w1) with (extend_dir sb i n e w1).
    rewrite Hs. by apply first_matches_extend.
  - intros Hun. eapply dir_unique_extend; [done|exact Hs|done|]. by rewrite Hname.
  - done.
  - done.
  - right. exists n. split_and!; [done|done|exact Hdb].
  - intros m Hm. etrans; [by apply (store_bit sb' (extended i n) (w_write n d' w1))|].
    rewrite bit_write_ne by (done || lia).
    assert (bit w1 m = bool_decide (n = m) || bit w m) as ->
      by (unfold w1; by rewrite bit_record, bit_set_bit by (done || apply Hinv)).
    f_equal. apply bool_decide_ext. rewrite Hdb. clear -Hnew. set_solver.
  - intros b Hb6 Hni HnB.
    rewrite Hdb in Hni.
    etrans; [by apply (store_read_ne sb' (extended i n) (w_write n d' w1))|].
    rewrite w_read_write_ne by set_solver. by apply Hframe; lia.
  - intros m Hm Hne Hm6 Hmb.
    rewrite Hdb in Hmb.
    assert (disk_ok (w_write n d' w1)) as Hok2 by (by apply disk_ok_write).
    etrans; [by apply (store_inode_other Hclock sb' (extended i n) (w_write n d' w1))|].
    rewrite (disk_inode_write_ne sb') by (change (inode_block sb' m) with (inode_block sb m); set_solver).
    change (disk_inode sb' w1 m) with (disk_inode sb w1 m). apply disk_inode_ext, Hframe. lia.
Qed.


Lemma run_dir_add_entry_added :
  Forall (λ b, bit w b = true) (dir_blocks i) → inode_block_safe sb (i_inode_no i) w →
  has_room i w →
  ∃ sb' i' w', run (dir_add_entry sb i name c d) w = Done (Ok (), sb', i') w' ∧
    entry_added sb i w name (DirEntry_new c name d) sb' i' w'.
Proof.
  intros Hbits Hsafe Hroom. destruct Hgood as (_ & _ & _ & Hu8).
  rewrite run_dir_add_entry, Hnone by done. cbv zeta.
  destruct (first_free i w) as [[b off]|] eqn:Ef.
  - do 3 eexists. split; [done|]. by apply fill_added.
  - destruct Hroom as [Hroom|[Hcount Hfree]]; [done|]. Z_true (i_block_count i <? 10).
    destruct (least_free w) as [n|] eqn:En; [|done].
    do 3 eexists. split; [done|]. apply extend_added; [done| |done|done|done].
    intros ->. by apply Hsafe.
Qed.
End adding.

(** The state after the name [name] was removed from the directory [i]. *)
Record entry_removed (i : Inode) (w : world) (name : bytes)
    (sb : SuperBlock) (i' : Inode) (w' : world) : Prop := {
  er_dir : dir_ok sb i' w';
  er_inv : bitmap_inv sb w';
  er_no : i_inode_no i' = i_inode_no i;
  er_inode : disk_inode sb w' (i_inode_no i) = Some i';
  er_get : ∀ name', dir_get i' w' name' =
    if decide (name' = name) then None else dir_get i w name';
  er_unique : dir_unique i' w';
  er_kind : i_mode i' = i_mode i ∧ i_nlink i' = i_nlink i;
  er_blocks : dir_blocks i' = dir_blocks i;
  er_bits : ∀ m, 0 ≤ m < MAX_BLOCKS → bit w' m = bit w m;
  er_frame : ∀ b, 6 ≤ b → b ∉ dir_blocks i → b ≠ inode_block sb (i_inode_no i) →
    w_read w' b = w_read w b;
  er_inodes : ∀ n, 0 ≤ n → n ≠ i_inode_no i → inode_block sb n ∉ dir_blocks i →
    disk_inode sb w' n = disk_inode sb w n;
}.

Lemma run_dir_remove_entry_removed `{Clock} `{Build} (Hclock : clock_ok) sb i w name s :
  dir_ok sb i w → bitmap_inv sb w → dir_unique i w → dir_get i w name = Some s →
  ∃ i' w', run (dir_remove_entry sb i name) w = Done (Ok (), i') w' ∧
    entry_removed i w name sb i' w'.
Proof.
  intros Hd Hinv Huniq Hget.
  assert (inode_wf i) as Hwf by apply Hd. assert (disk_ok w) as Hok by apply Hd.
  destruct (clear_slot_effect Hclock sb i w name s Hd Hget) as (e & He & Hd' & Hs).
  pose proof Hget as ((b & j & Hb & Hj & Heq)%elem_of_dir_slots & _)%dir_get_elem.
  destruct (proj1 (Forall_forall _ _) (dk_blocks _ _ _ Hd) _ Hb) as [Hb31 _].
  rewrite run_dir_remove_entry, Hget by done. destruct s as [[e0 b0] off].
  injection Heq as -> -> ->. simpl fst in *. simpl snd in *.
  destruct (disk_ok_block w b Hok) as [Hz Hu].
  set (w1 := w_write b (<[Z.to_nat (j * 34 + 5):=0]> (w_read w b)) w).
  assert (bitmap_inv sb w1) as Hinv1.
  { apply bitmap_inv_write; [done|lia|by rewrite zlen_insert|]. by apply Forall_insert. }
  do 2 eexists. split; [done|]. constructor.
  - exact Hd'.
  - by apply (bitmap_inv_store Hclock sb sb i w1); [|done|apply Hd].
  - done.
  - apply (disk_inode_store Hclock sb i w1); [apply Hinv1|done].
  - intros name'. unfold dir_get at 1. rewrite Hs.
    by apply (first_matches_clear i w (entry_of (w_read w b) (j * 34), b, j * 34) e name name').
  - eapply dir_unique_put; [done|exact Hs|by left].
  - done.
  - done.
  - intros m Hm. etrans; [by apply (store_bit sb i w1); [apply Hd|]|]. by apply bit_write_ne; [|lia].
  - intros b' Hb' Hni HnB. etrans; [by apply (store_read_ne sb i w1)|].
    apply w_read_write_ne. intros <-. by apply Hni.
  - intros n Hn Hne Hnb.
    etrans; [apply (store_inode_other Hclock sb i w1 (bi_disk _ _ Hinv1) Hwf (dk_no _ _ _ Hd) n Hn Hne)|].
    apply disk_inode_write_ne. intros Heq. apply Hnb. by rewrite <-Heq.
Qed.

(** ** Properties *)
Section properties.
Context `{Clock} `{Build}.
Implicit Types (sb : SuperBlock) (i : Inode) (w : world) (name : bytes).

(** C31: in a directory whose blocks are on the disk, [dir_lookup] returns the used
    entries, and [dir_find] returns the first of them that has the name. *)
Theorem dir_find_first_match i name w :
  dir_readable i w →
  ∃ l, run (dir_lookup i) w = Done l w ∧
    Forall (λ s, DirEntry_is_empty (fst (fst s)) = false) l ∧
    run (dir_find i name) w =
      Done (head (filter (λ s, name_str (fst (fst s)) = Some name) l)) w.
Proof.
  intros Hd. exists (dir_entries i w). split; [by apply run_dir_lookup|]. split.
  { apply Forall_forall. by intros s [Hu _]%list_elem_of_filter. }
  rewrite run_dir_find, dir_get_entries by done. do 2 f_equal.
  apply list_filter_ext_in, Forall_forall. intros s [_ Hs]%list_elem_of_filter.
  pose proof (proj1 (Forall_forall _ _) (dr_names _ _ Hd) _ Hs) as Hlen. simpl in Hlen.
  apply elem_of_dir_slots in Hs as (b & j & Hb & Hj & ->).
  destruct (disk_ok_block w b (dr_disk _ _ Hd)) as [Hz Hu]. consts. simpl in *.
  rewrite name_str_Some by (done || apply entry_of_wf; done || lia). naive_solver.
Qed.

(** C17: [dir_add_entry] of a new name succeeds when there is room: afterwards the
    directory on the disk holds the entry under this name and every other name leads
    where it led before; no name is duplicated, and the allocator and the directory
    stay consistent. *)
Theorem dir_add_entry_correct sb i name c d w :
  clock_ok → dir_ok sb i w → bitmap_inv sb w → good_name name → is_u32 c →
  Forall (λ b, bit w b = true) (dir_blocks i) → inode_block_safe sb (i_inode_no i) w →
  has_room i w → run (dir_find i name) w = Done None w →
  ∃ sb' i' w' b off, run (dir_add_entry sb i name c d) w = Done (Ok (), sb', i') w' ∧
    run (read_inode sb' (i_inode_no i)) w' = Done i' w' ∧
    run (dir_find i' name) w' = Done (Some (DirEntry_new c name d, b, off)) w' ∧
    (∀ name' r, name' ≠ name →
       run (dir_find i name') w = Done r w → run (dir_find i' name') w' = Done r w') ∧
    (dir_unique i w → dir_unique i' w') ∧ dir_ok sb' i' w' ∧ bitmap_inv sb' w'.
Proof.
  intros Hclock Hd Hinv Hgood Hc Hbits Hsafe Hroom Hnone.
  rewrite run_dir_find in Hnone by apply Hd. injection Hnone as Hnone.
  destruct (run_dir_add_entry_added Hclock sb i w name c d) as (sb' & i' & w' & Hrun & []);
    try done. destruct ea_get0 as (b & off & Hget).
  exists sb', i', w', b, off.
  pose proof (dk_readable _ _ _ ea_dir0) as Hr. split_and!; try done.
  - apply run_read_inode; [apply ea_inv0| |done]. rewrite <-ea_no0. apply ea_dir0.
  - by rewrite run_dir_find, Hget, decide_True.
  - intros name' r Hne. rewrite !run_dir_find by (done || apply Hd). intros [= <-].
    by rewrite Hget, decide_False.
Qed.

(** Why [dir_add_entry] refuses a name: it is there already, or there is no free entry and
    the directory has its ten blocks, or it has fewer and no block is free. *)
Definition add_refused (i : Inode) (name : bytes) (w : world) (e : string) : Prop :=
  (e = "entry already exists"%string ∧ dir_get i w name ≠ None) ∨
  (dir_get i w name = None ∧ first_free i w = None ∧
   ((e = "directory too large"%string ∧ 10 ≤ i_block_count i) ∨
    (e = "no free blocks for directory expansion"%string ∧ i_block_count i < 10 ∧
     least_free w = None))).

(** C35: [dir_add_entry] fails exactly for an existing name, a directory with ten full
    blocks and a full disk, with the error of each; then it changes nothing.  When none of
    the three holds it succeeds. *)
Theorem dir_add_entry_errors sb i name c d w :
  clock_ok → dir_ok sb i w → bitmap_inv sb w → is_u32 c → Forall is_u8 name →
  (∀ e, (∃ sb' i' w', run (dir_add_entry sb i name c d) w = Done (Err e, sb', i') w') ↔
        add_refused i name w e) ∧
  (∀ e, add_refused i name w e →
        run (dir_add_entry sb i name c d) w = Done (Err e, sb, i) w) ∧
  ((∀ e, ¬ add_refused i name w e) →
     ∃ sb' i' w', run (dir_add_entry sb i name c d) w = Done (Ok (), sb', i') w').
Proof.
  intros Hclock Hd Hinv Hc Hname. rewrite (run_dir_add_entry Hclock) by done. cbv zeta.
  assert (∀ e0 : string, (∀ e, add_refused i name w e ↔ e = e0) →
    (∀ e, (∃ sb' i' w', Done (Err (A := ()) e0, sb, i) w = Done (Err e, sb', i') w') ↔ add_refused i name w e) ∧
    (∀ e, add_refused i name w e → Done (Err (A := ()) e0, sb, i) w = Done (Err e, sb, i) w) ∧
    ((∀ e, ¬ add_refused i name w e) →
       ∃ sb' i' w', Done (Err e0, sb, i) w = Done (Ok (), sb', i') w')) as Herr.
  { intros e0 He. split_and!.
    - intros e. rewrite He. split; [by intros (? & ? & ? & [= <- _ _ _])|intros ->; eauto].
    - by intros e ->%He.
    - intros Hno. destruct (Hno e0). by apply He. }
  unfold add_refused in *. destruct (dir_get i w name) as [s|]; [apply Herr; naive_solver|].
  destruct (first_free i w) as [[b off]|].
  - split_and!; [|naive_solver|naive_solver]. intros e. split; [by intros (? & ? & ? & [=])|naive_solver].
  - destruct (Z.ltb_spec (i_block_count i) 10) as [Hlt|Hge].
    + destruct (least_free w) as [n|].
      * split_and!; [intros e; split; [by intros (? & ? & ? & [=])|]|intros e|eauto];
          intros [[_ []]|(_ & _ & [[_ ?]|(_ & _ & [=])])]; done || lia.
      * apply Herr. intros e. split; [|intros ->; right; split_and!; [done..|by right]].
        intros [[_ []]|(_ & _ & [[_ ?]|(-> & _)])]; done || lia.
    + apply Herr. intros e. split; [|intros ->; right; split_and!; [done..|by left]].
      intros [[_ []]|(_ & _ & [[-> ?]|(_ & ? & _)])]; done || lia.
Qed.

(** C28: [dir_remove_entry] removes exactly the name it is given: afterwards
    [dir_find] does not find it, and finds every other name where it was. *)
Theorem dir_remove_entry_correct sb i name s w :
  clock_ok → dir_ok sb i w → bitmap_inv sb w → dir_unique i w →
  run (dir_find i name) w = Done (Some s) w →
  ∃ i' w', run (dir_remove_entry sb i name) w = Done (Ok (), i') w' ∧
    run (read_inode sb (i_inode_no i)) w' = Done i' w' ∧
    run (dir_find i' name) w' = Done None w' ∧
    (∀ name' r, name' ≠ name →
       run (dir_find i name') w = Done r w → run (dir_find i' name') w' = Done r w') ∧
    dir_unique i' w' ∧ dir_ok sb i' w' ∧ bitmap_inv sb w'.
Proof.
  intros Hclock Hd Hinv Huniq Hget.
  rewrite run_dir_find in Hget by apply Hd. injection Hget as Hget.
  destruct (run_dir_remove_entry_removed Hclock sb i w name s) as (i' & w' & Hrun & []); try done.
  exists i', w'. pose proof (dk_readable _ _ _ er_dir0) as Hr. split_and!; try done.
  - apply run_read_inode; [apply er_inv0| |done]. rewrite <-er_no0. apply er_dir0.
  - by rewrite run_dir_find, er_get0, decide_True.
  - intros name' r Hne. rewrite !run_dir_find by (done || apply Hd). intros [= <-].
    by rewrite er_get0, decide_False.
Qed.

(** C38: an entry survives serialisation, and gives back the name it was made of when
    that name has at most 28 bytes; a longer name is cut after 28 bytes, in the middle
    of a character if need be, which turns it into "???". *)
Theorem DirEntry_roundtrip ino name d :
  is_u32 ino → Forall is_u8 name → utf8_valid name = true →
  DirEntry_from_bytes (DirEntry_to_bytes (DirEntry_new ino name d)) = Some (DirEntry_new ino name d) ∧
  name_str (DirEntry_new ino name d) =
    Some (if bool_decide (zlen name ≤ 28) then name
          else if utf8_valid (take 28 name) then take 28 name else str "???").
Proof.
  intros Hi Hu Hv. split; [by apply DirEntry_from_to_bytes, DirEntry_new_wf|].
  rewrite name_str_new. cbv zeta. case_bool_decide as Hl; [|done].
  rewrite take_ge by (unfold zlen in Hl; lia). by rewrite Hv.
Qed.

(** C39: a name of more than 28 bytes is never found, so [dir_add_entry] accepts it as
    often as it is called. *)
Theorem long_name_not_found i name w :
  dir_readable i w → 28 < zlen name → run (dir_find i name) w = Done None w.
Proof.
  intros Hd Hl. rewrite run_dir_find by done. f_equal. apply first_some_None.
  intros s Hs. destruct (matches name s) as [s'|] eqn:E; [|done]. exfalso.
  apply matches_Some in E as (_ & _ & Hn).
  pose proof (proj1 (Forall_forall _ _) (dr_names _ _ Hd) _ Hs) as Hlen. simpl in Hlen.
  assert (zlen (entry_name (fst (fst s))) ≤ 28); [|congruence || (rewrite Hn in *; lia)].
  unfold entry_name, name_str. destruct (slice _ _ _) as [n|] eqn:En; [|done].
  apply slice_length in En. simpl. destruct (utf8_valid n); [lia|]. vm_compute. done.
Qed.

(** C24: on a tree whose directories can be read, [path_resolve] returns the inode
    that the components of the path lead to from the root, one lookup after the other,
    with its parent and the last component, exactly when they lead to one; a path
    without components leads to the root. *)
Theorem path_resolve_walks sb root path w :
  tree_ok sb w root →
  ∃ r, run (path_resolve sb path) w = Done r w ∧
    (components path = [] → r = Ok (root, root, [])) ∧
    (components path ≠ [] → ∀ target parent name,
       r = Ok (target, parent, name) ↔ walk sb w root (components path) target parent name).
Proof.
  intros Ht. eexists. split; [by apply run_path_resolve|]. split.
  - intros ->. done.
  - intros Hc target parent name. rewrite bool_decide_false by done. apply resolve_walk.
    eapply Forall_impl; [apply components_no_slash|]. by intros c [].
Qed.

(** The components of a path are what its slashes separate: a path made of
    components gives them back, and no path has empty components or components with a
    slash. *)
Theorem components_of_path l path :
  (Forall (λ c, c ≠ [] ∧ 47 ∉ c) l → components (join l) = l) ∧
  Forall (λ c, c ≠ [] ∧ 47 ∉ c) (components path) ∧
  components (join (components path)) = components path.
Proof.
  pose proof (components_no_slash path).
  split_and!; [apply components_join|done|by apply components_join].
Qed.
End properties.

(** ** Witnesses

    A root directory with the entry ".", in block 31 of a formatted disk. *)
Definition sample_dir : Inode :=
  {| i_inode_no := 1; i_mode := 16877; i_uid := 1000; i_gid := 1000; i_size := 510;
     i_nlink := 2; i_block_count := 1; i_mtime := 0; i_atime := 0; i_ctime := 0;
     i_direct_blocks := 31 :: replicate 9 0; i_indirect_block := 0 |}.
Definition sample_world : world :=
  w_write 31 (splice 0 (DirEntry_to_bytes (DirEntry_new 1 (str ".") true)) (zeros 512)) map_one.

Lemma zero_clock_ok : clock_ok (H := λ _, 0).
Proof. by intros t. Qed.

Lemma inode_block_safe_bit sb n w : bit w (inode_block sb n) = true → inode_block_safe sb n w.
Proof. intros Hb (_ & Hb' & _)%least_free_Some. congruence. Qed.

Lemma sample_dir_ok : dir_ok sb_one sample_dir sample_world.
Proof. apply (bool_decide_unpack _). vm_compute. done. Qed.

Lemma sample_inv : bitmap_inv sb_one sample_world.
Proof.
  apply bitmap_inv_write; [apply map_one_inv|done|done|].
  apply (bool_decide_unpack _). vm_compute. done.
Qed.

Lemma sample_bits : Forall (λ b, bit sample_world b = true) (dir_blocks sample_dir).
Proof.
  constructor; [|constructor]. pose proof map_one_31 as [_ Hb]%elem_of_used.
  unfold sample_world. rewrite bit_write_ne; [exact Hb|consts; lia|lia].
Qed.

Lemma sample_safe : inode_block_safe sb_one 1 sample_world.
Proof. apply inode_block_safe_bit. by apply (bi_system _ _ sample_inv). Qed.

Lemma dir_unique_single i w s : dir_entries i w = [s] → dir_unique i w.
Proof.
  intros He s1 s2 H1 H2 Hu1 Hu2 _.
  assert (∀ t, t ∈ dir_slots i w → is_used t → t = s) as Ht.
  { intros t Ht Hut. assert (t ∈ dir_entries i w) as Hin by (by apply list_elem_of_filter).
    rewrite He in Hin. set_solver. }
  by rewrite (Ht s1), (Ht s2).
Qed.

Lemma sample_entries :
  dir_entries sample_dir sample_world = [(DirEntry_new 1 (str ".") true, 31, 0)].
Proof. vm_compute. reflexivity. Qed.

Lemma sample_unique : dir_unique sample_dir sample_world.
Proof. exact (dir_unique_single _ _ _ sample_entries). Qed.

#[local] Instance zero_clock : Clock := λ _, 0.
#[local] Instance checked_build : Build := true.

Lemma sample_readable : dir_readable sample_dir sample_world.
Proof. exact (dk_readable _ _ _ sample_dir_ok). Qed.

Lemma sample_none : run (dir_find sample_dir (str "a")) sample_world = Done None sample_world.
Proof.
  rewrite (run_dir_find _ _ _ sample_readable), dir_get_entries, sample_entries. reflexivity.
Qed.

Lemma sample_dot : run (dir_find sample_dir (str ".")) sample_world =
  Done (Some (DirEntry_new 1 (str ".") true, 31, 0)) sample_world.
Proof.
  rewrite (run_dir_find _ _ _ sample_readable), dir_get_entries, sample_entries. reflexivity.
Qed.

Lemma sample_room : has_room sample_dir sample_world.
Proof.
  left. assert (first_free sample_dir sample_world = Some (31, 34)) as -> by (vm_compute; reflexivity).
  done.
Qed.

Lemma dir_find_first_match_witness :
  ∃ l, run (dir_lookup sample_dir) sample_world = Done l sample_world ∧
    Forall (λ s, DirEntry_is_empty (fst (fst s)) = false) l ∧
    run (dir_find sample_dir (str ".")) sample_world =
      Done (head (filter (λ s, name_str (fst (fst s)) = Some (str ".")) l)) sample_world.
Proof. exact (dir_find_first_match sample_dir (str ".") sample_world sample_readable). Defined.

Lemma good_name_a : good_name (str "a").
Proof. by apply (bool_decide_unpack _). Qed.

Lemma dir_add_entry_correct_witness :
  ∃ sb' i' w' b off,
    run (dir_add_entry sb_one sample_dir (str "a") 1000 false) sample_world =
      Done (Ok (), sb', i') w' ∧
    run (read_inode sb' 1) w' = Done i' w' ∧
    run (dir_find i' (str "a")) w' = Done (Some (DirEntry_new 1000 (str "a") false, b, off)) w' ∧
    (∀ name' r, name' ≠ str "a" → run (dir_find sample_dir name') sample_world = Done r sample_world →
       run (dir_find i' name') w' = Done r w') ∧
    (dir_unique sample_dir sample_world → dir_unique i' w') ∧ dir_ok sb' i' w' ∧ bitmap_inv sb' w'.
Proof.
  assert (is_u32 1000) as Hc by (split; reflexivity || discriminate).
  exact (dir_add_entry_correct sb_one sample_dir (str "a") 1000 false sample_world
    zero_clock_ok sample_dir_ok sample_inv good_name_a Hc sample_bits sample_safe sample_room
    sample_none).
Defined.

Lemma dir_add_entry_errors_witness :
  add_refused sample_dir (str ".") sample_world "entry already exists" ∧
  run (dir_add_entry sb_one sample_dir (str ".") 1 true) sample_world =
    Done (Err "entry already exists"%string, sb_one, sample_dir) sample_world ∧
  ∃ sb' i' w', run (dir_add_entry sb_one sample_dir (str "a") 1 true) sample_world =
    Done (Ok (), sb', i') w'.
Proof.
  assert (is_u32 1) as Hc by (split; reflexivity || discriminate).
  assert (Forall is_u8 (str ".") ∧ Forall is_u8 (str "a")) as [Hn Ha]
    by (split; apply (bool_decide_unpack _); reflexivity).
  assert (add_refused sample_dir (str ".") sample_world "entry already exists") as Hr
    by (left; split; [done|vm_compute; discriminate]).
  split_and!; [exact Hr| |].
  - exact (proj1 (proj2 (dir_add_entry_errors sb_one sample_dir (str ".") 1 true sample_world
      zero_clock_ok sample_dir_ok sample_inv Hc Hn)) _ Hr).
  - apply (proj2 (proj2 (dir_add_entry_errors sb_one sample_dir (str "a") 1 true sample_world
      zero_clock_ok sample_dir_ok sample_inv Hc Ha))).
    intros e [[_ Hget]|(_ & Hfree & _)].
    + apply Hget. vm_compute. reflexivity.
    + assert (∀ {A} (o : option A), bool_decide (is_Some o) = true → o ≠ None) as Hs
        by (intros A o Ho%bool_decide_eq_true; by destruct Ho as [? ->]).
      revert Hfree. apply Hs. vm_compute. reflexivity.
Defined.

Lemma dir_remove_entry_correct_witness :
  ∃ i' w', run (dir_remove_entry sb_one sample_dir (str ".")) sample_world = Done (Ok (), i') w' ∧
    run (read_inode sb_one 1) w' = Done i' w' ∧
    run (dir_find i' (str ".")) w' = Done None w' ∧
    (∀ name' r, name' ≠ str "." → run (dir_find sample_dir name') sample_world = Done r sample_world →
       run (dir_find i' name') w' = Done r w') ∧
    dir_unique i' w' ∧ dir_ok sb_one i' w' ∧ bitmap_inv sb_one w'.
Proof.
  exact (dir_remove_entry_correct sb_one sample_dir (str ".") _ sample_world
    zero_clock_ok sample_dir_ok sample_inv sample_unique sample_dot).
Defined.

Lemma DirEntry_roundtrip_witness :
  DirEntry_from_bytes (DirEntry_to_bytes (DirEntry_new 7 (str "a") false)) =
    Some (DirEntry_new 7 (str "a") false) ∧
  name_str (DirEntry_new 7 (str "a") false) =
    Some (if bool_decide (zlen (str "a") ≤ 28) then str "a"
          else if utf8_valid (take 28 (str "a")) then take 28 (str "a") else str "???").
Proof.
  apply (DirEntry_roundtrip 7 (str "a") false); [done|by apply (bool_decide_unpack _)|done].
Defined.

Lemma long_name_not_found_witness :
  run (dir_find sample_dir (str "a name of twenty-nine letters")) sample_world =
    Done None sample_world.
Proof.
  assert (28 < zlen (str "a name of twenty-nine letters")) as Hl by reflexivity.
  exact (long_name_not_found sample_dir _ sample_world sample_readable Hl).
Defined.

(** A tree that consists of the root directory. *)
Definition sb_root : SuperBlock := with_root_inode 1 sb_one.
Definition root_world : world := put_inode sb_root sample_dir sample_world.

Lemma root_world_entries :
  dir_entries sample_dir root_world = [(DirEntry_new 1 (str ".") true, 31, 0)].
Proof. vm_compute. reflexivity. Qed.

Lemma root_world_inode : disk_inode sb_root root_world 1 = Some sample_dir.
Proof. vm_compute. reflexivity. Qed.

Lemma root_world_reaches dir : reaches sb_root root_world sample_dir dir → dir = sample_dir.
Proof.
  induction 1 as [|dir s child _ -> Hs Hc _]; [done|].
  rewrite root_world_entries in Hs. apply list_elem_of_singleton in Hs as ->.
  change (de_inode _) with 1 in Hc. rewrite root_world_inode in Hc. congruence.
Qed.

Lemma root_world_readable : dir_readable sample_dir root_world.
Proof. apply (bool_decide_unpack _). vm_compute. reflexivity. Qed.

Lemma root_world_tree : tree_ok sb_root root_world sample_dir.
Proof.
  constructor.
  - exact (dr_disk _ _ root_world_readable).
  - exact root_world_inode.
  - split_and!; vm_compute; (done || discriminate).
  - intros dir ->%root_world_reaches. exact root_world_readable.
  - intros dir s ->%root_world_reaches Hs.
    rewrite root_world_entries in Hs. apply list_elem_of_singleton in Hs as ->.
    split_and!; vm_compute; (done || discriminate).
Qed.

Lemma path_resolve_walks_witness :
  ∃ r, run (path_resolve sb_root (str "/./.")) root_world = Done r root_world ∧
    (components (str "/./.") = [] → r = Ok (sample_dir, sample_dir, [])) ∧
    (components (str "/./.") ≠ [] → ∀ target parent name,
       r = Ok (target, parent, name) ↔
       walk sb_root root_world sample_dir (components (str "/./.")) target parent name).
Proof.
  exact (path_resolve_walks sb_root sample_dir (str "/./.") root_world root_world_tree).
Defined.

Lemma components_of_path_witness :
  (Forall (λ c, c ≠ [] ∧ 47 ∉ c) [str "a"; str "b"] →
     components (join [str "a"; str "b"]) = [str "a"; str "b"]) ∧
  Forall (λ c, c ≠ [] ∧ 47 ∉ c) (components (str "//a/b/")) ∧
  components (join (components (str "//a/b/"))) = components (str "//a/b/").
Proof. exact (components_of_path [str "a"; str "b"] (str "//a/b/")). Defined.
