(* ===== verification/Fs.v ===== *)
(** * Fs: [src/fs.rs], the FUSE operations, the formatting of a disk and the mount

    Every handler takes the superblock the [SimpleFS] structure holds and returns the
    reply it sends and the superblock it leaves.  The disk is the state of [prog]. *)
From S2P Require Import Prelude Disk Superblock Bitmap Inode Directory.

Definition MAX_FILE_BLOCKS : u32 := 20.

(** The error codes the handlers reply with. *)
Inductive errno : Type :=
| EACCES | EEXIST | ENOENT | ENOSPC | ENOTDIR | ENOTEMPTY | EFBIG | EISDIR.

#[export] Instance errno_eq_dec : EqDecision errno.
Proof. solve_decision. Defined.

(** Flags of open(2) in the Linux ABI. *)
Definition O_WRONLY : i32 := 1.
Definition O_RDWR : i32 := 2.

(** ** Attributes *)

(** The file types of [fuser] that the program uses. *)
Inductive FileType : Type := Directory | RegularFile.

#[export] Instance FileType_eq_dec : EqDecision FileType.
Proof. solve_decision. Defined.

(** [fuser::FileAttr]; a [SystemTime] is its number of seconds since the epoch. *)
Record FileAttr := {
  fa_ino : u64;
  fa_size : u64;
  fa_blocks : u64;
  fa_atime : Z;
  fa_mtime : Z;
  fa_ctime : Z;
  fa_crtime : Z;
  fa_kind : FileType;
  fa_perm : u16;
  fa_nlink : u32;
  fa_uid : u32;
  fa_gid : u32;
  fa_rdev : u32;
  fa_flags : u32;
  fa_blksize : u32;
}.

(** [system_time_from_timestamp] *)
Definition system_time_from_timestamp (ts : i64) : Z := as_u64 (Z.max ts 0).

(** [SimpleFS::inode_to_attr] *)
Definition inode_to_attr (inode : Inode) : FileAttr :=
  {| fa_ino := as_u64 (i_inode_no inode);
     fa_size := as_u64 (i_size inode);
     fa_blocks := as_u64 (i_block_count inode);
     fa_atime := system_time_from_timestamp (i_atime inode);
     fa_mtime := system_time_from_timestamp (i_mtime inode);
     fa_ctime := system_time_from_timestamp (i_ctime inode);
     fa_crtime := system_time_from_timestamp (i_ctime inode);
     fa_kind := if negb (Z.land (i_mode inode) (as_u16 S_IFDIR) =? 0)
             then Directory else RegularFile;
     fa_perm := i_mode inode;
     fa_nlink := as_u32 (i_nlink inode);
     fa_uid := as_u32 (i_uid inode);
     fa_gid := as_u32 (i_gid inode);
     fa_rdev := 0;
     fa_flags := 0;
     fa_blksize := as_u32 BLOCK_SIZE |}.

(** ** File names

    An [OsStr] is any sequence of bytes; [name.to_str().unwrap_or(default)]. *)
Definition to_str_or (default : string) (name : bytes) : bytes :=
  if utf8_valid name then name else str default.

(** The reply buffer of [readdir] belongs to [fuser]: [empty_buffer] is the one for a
    request of so many bytes, [add] adds an entry (inode, offset, type, name) and says
    whether the buffer is full. *)
Class DirBuffer := {
  buffer : Type;
  empty_buffer : u32 → buffer;
  add : u64 → i64 → FileType → bytes → buffer → bool * buffer;
}.

Abbreviation reply A := (result A errno) (only parsing).

(** The methods of [SimpleFS]. *)
Module SimpleFS.
Section handlers.
Context `{Build}.

(** [getattr] *)
Definition getattr (sb : SuperBlock) (ino : u64) : prog (reply FileAttr) :=
  inode ← read_inode sb (as_u32 ino);
  if i_nlink inode =? 0 then mret (Err ENOENT)
  else mret (Ok (inode_to_attr inode)).

(** [readdir] on the reply buffer [buf] *)
Definition readdir `{DirBuffer} (sb : SuperBlock) (ino : u64) (offset : i64) (buf : buffer)
  : prog (reply buffer) :=
  dir_inode ← read_inode sb (as_u32 ino);
  if Z.land (i_mode dir_inode) (as_u16 S_IFDIR) =? 0 then mret (Err ENOTDIR)
  else
    entries ← dir_lookup dir_inode;
    r ← for_in entries (0, buf) (λ '(entry, _, _) '(entry_offset, buf),
      if offset <=? entry_offset then
        let file_type := if de_entry_type entry =? 2 then Directory else RegularFile in
        s ← unwrap (name_str entry);
        let '(full, buf) := add (as_u64 (de_inode entry)) (entry_offset + 1)
                              file_type s buf in
        if full : bool then mret (Break buf) else mret (Continue (entry_offset + 1, buf))
      else mret (Continue (entry_offset + 1, buf)));
    match r with
    | Break buf => mret (Ok buf)
    | Continue (_, buf) => mret (Ok buf)
    end.

(** [lookup] *)
Definition lookup (sb : SuperBlock) (parent : u64) (name : bytes) : prog (reply FileAttr) :=
  parent_inode ← read_inode sb (as_u32 parent);
  e ← dir_find parent_inode (to_str_or "" name);
  match e with
  | Some (entry, _, _) =>
      child_inode ← read_inode sb (de_inode entry);
      mret (Ok (inode_to_attr child_inode))
  | None => mret (Err ENOENT)
  end.

(** [open] on behalf of the user [uid], [gid]; the reply is the file handle. *)
Definition open (sb : SuperBlock) (uid gid : u32) (ino : u64) (flags : i32)
  : prog (reply u64) :=
  inode ← read_inode sb (as_u32 ino);
  let want_write := negb (Z.land flags O_WRONLY =? 0) || negb (Z.land flags O_RDWR =? 0) in
  if want_write && negb (check_permission inode true uid gid) then mret (Err EACCES)
  else mret (Ok ino).

(** The loop of [read] on [remaining], [copied], [block_index], [block_offset] and
    [result]; each iteration takes at least one byte, so [remaining] iterations
    and the exit test are enough fuel. *)
Definition read_loop (inode : Inode) (remaining copied : usize) (block_index : u32)
    (block_offset : usize) (result : bytes) : prog (usize * bytes) :=
  loop (S (Z.to_nat remaining)) (remaining, copied, block_index, block_offset, result)
    (λ '(remaining, copied, block_index, block_offset, result),
      if remaining <=? 0 then mret (Break (copied, result))
      else
        b ← get_block inode block_index;
        match b with
        | None => mret (Break (copied, result))
        | Some block_num =>
            block_buf ← read_block block_num;
            let to_copy := Z.min remaining (PAGE_SIZE - block_offset) in
            src ← unwrap (slice block_offset (block_offset + to_copy) block_buf);
            result ← unwrap (copy_from_slice copied (copied + to_copy) src result);
            mret (Continue (remaining - to_copy, copied + to_copy, block_index + 1,
                            0, result))
        end).

(** [read] *)
Definition read (sb : SuperBlock) (ino : u64) (offset : i64) (size : u32)
  : prog (reply bytes) :=
  inode ← read_inode sb (as_u32 ino);
  if i_size inode <=? offset then mret (Ok [])
  else
    left ← arith_i64 (i_size inode - offset);
    let actual_size := Z.min size (as_u32 left) in
    let result := zeros actual_size in
    let block_index := as_u32 offset / as_u32 PAGE_SIZE in
    let block_offset := as_usize offset mod PAGE_SIZE in
    '(copied, result) ← read_loop inode actual_size 0 block_index block_offset result;
    data ← unwrap (slice 0 copied result);
    mret (Ok data).

(** The loop of [create] and [mkdir] that looks for an inode whose [nlink] is 0,
    from [candidate] to [limit]; [None] stands for the [ENOSPC] return. *)
Definition find_free_inode (sb : SuperBlock) (candidate limit : u32) : prog (option u32) :=
  loop (S (Z.to_nat (limit - candidate))) candidate (λ candidate,
    test_inode ← read_inode sb candidate;
    if i_nlink test_inode =? 0 then mret (Break (Some candidate))
    else
      let candidate := candidate + 1 in
      if limit <? candidate then mret (Break None) else mret (Continue candidate)).

(** [create]; the reply is the attributes and the file handle. *)
Definition create (sb : SuperBlock) (parent : u64) (name : bytes)
  : prog (reply (FileAttr * u64) * SuperBlock) :=
  let name_str := to_str_or "unknown" name in
  parent_inode ← read_inode sb (as_u32 parent);
  e ← dir_find parent_inode name_str;
  if bool_decide (is_Some e) then mret (Err EEXIST, sb)
  else
    c ← find_free_inode sb 1000 2000;
    match c with
    | None => mret (Err ENOSPC, sb)
    | Some new_inode_no =>
        new_inode ← new_file new_inode_no;
        let new_inode := set_mode new_inode (Z.lor (as_u16 S_IFREG) 420 (* 0o644 *)) in
        write_inode sb new_inode;;
        '(r, sb, parent_inode) ←
          dir_add_entry sb parent_inode name_str new_inode_no false;
        match r with
        | Err e =>
            mret (Err (if bool_decide (e = "entry already exists"%string)
                       then EEXIST else ENOSPC), sb)
        | Ok _ => mret (Ok (inode_to_attr new_inode, as_u64 new_inode_no), sb)
        end
    end.

(** The first block of a directory: the entries "." and "..", as [mkdir] and
    [format_new_fs] build it. *)
Definition dir_block (self parent : u32) : bytes :=
  let dot := DirEntry_new self (str ".") true in
  let dotdot := DirEntry_new parent (str "..") true in
  splice DIR_ENTRY_SIZE (DirEntry_to_bytes dotdot)
    (splice 0 (DirEntry_to_bytes dot) (zeros BLOCK_SIZE)).

(** [mkdir] *)
Definition mkdir (sb : SuperBlock) (parent : u64) (name : bytes)
  : prog (reply FileAttr * SuperBlock) :=
  let name_str := to_str_or "unknown" name in
  parent_inode ← read_inode sb (as_u32 parent);
  e ← dir_find parent_inode name_str;
  if bool_decide (is_Some e) then mret (Err EEXIST, sb)
  else
    c ← find_free_inode sb 500 900;
    match c with
    | None => mret (Err ENOSPC, sb)
    | Some new_inode_no =>
        new_dir_inode ← new_dir new_inode_no;
        '(b, sb) ← allocate_block sb;
        match b with
        | None => mret (Err ENOSPC, sb)
        | Some data_block =>
            write_block data_block (dir_block new_inode_no (as_u32 parent));;
            direct_blocks ← unwrap (set_index 0 data_block (i_direct_blocks new_dir_inode));
            let new_dir_inode := set_direct_blocks new_dir_inode direct_blocks in
            let new_dir_inode := set_block_count new_dir_inode 1 in
            let new_dir_inode := set_size new_dir_inode (as_u32 PAGE_SIZE) in
            write_inode sb new_dir_inode;;
            '(r, sb, parent_inode) ←
              dir_add_entry sb parent_inode name_str new_inode_no true;
            match r with
            | Err _ => Panic
            | Ok _ => mret (Ok (inode_to_attr new_dir_inode), sb)
            end
        end
    end.

(** [for i in 0..inode.block_count { if let Some(b) = .. { mark_free(b) } }] *)
Definition free_blocks (sb : SuperBlock) (inode : Inode) : prog SuperBlock :=
  for_each (seqZ 0 (i_block_count inode)) sb (λ i sb,
    b ← get_block inode (as_u32 i);
    match b with
    | Some block_num => mark_free sb block_num
    | None => mret sb
    end).

(** [rmdir] *)
Definition rmdir (sb : SuperBlock) (parent : u64) (name : bytes)
  : prog (reply () * SuperBlock) :=
  let name_str := to_str_or "" name in
  parent_inode ← read_inode sb (as_u32 parent);
  e ← dir_find parent_inode name_str;
  match e with
  | None => mret (Err ENOENT, sb)
  | Some (entry, _, _) =>
      child_inode ← read_inode sb (de_inode entry);
      if Z.land (i_mode child_inode) (as_u16 S_IFDIR) =? 0 then mret (Err ENOTDIR, sb)
      else
        child_entries ← dir_lookup child_inode;
        if 2 <? zlen child_entries then mret (Err ENOTEMPTY, sb)
        else
          sb ← free_blocks sb child_inode;
          '(r, parent_inode) ← dir_remove_entry sb parent_inode name_str;
          match r with
          | Err _ => Panic
          | Ok _ =>
              let freed_inode := set_nlink child_inode 0 in
              write_inode sb freed_inode;;
              mret (Ok (), sb)
          end
  end.

(** One iteration of the loop of [write] that gives the file another block; [None]
    stands for the [ENOSPC] return. *)
Definition grow_step (sb : SuperBlock) (inode : Inode)
  : prog (option Inode * SuperBlock) :=
  '(b, sb) ← allocate_block sb;
  match b with
  | None => mret (None, sb)
  | Some new_block =>
      let idx := as_u32 (i_block_count inode) in
      '(inode, sb) ←
        (if idx <? as_u32 DIRECT_BLOCKS then
           direct_blocks ← unwrap (set_index (as_usize idx) new_block
                                     (i_direct_blocks inode));
           mret (set_direct_blocks inode direct_blocks, sb)
         else if idx =? as_u32 DIRECT_BLOCKS then
           '(b, sb) ← allocate_block sb;
           indirect ← unwrap b;
           let inode := set_indirect_block inode indirect in
           indirect_buf ← unwrap (copy_from_slice 0 2 (to_le 2 (as_u16 new_block))
                                    (zeros BLOCK_SIZE));
           write_block indirect indirect_buf;;
           mret (inode, sb)
         else
           let indirect_idx := idx - as_u32 DIRECT_BLOCKS in
           indirect_buf ← read_block (i_indirect_block inode);
           let byte_offset := as_usize indirect_idx * 2 in
           indirect_buf ← unwrap (copy_from_slice byte_offset (byte_offset + 2)
                                    (to_le 2 (as_u16 new_block)) indirect_buf);
           write_block (i_indirect_block inode) indirect_buf;;
           mret (inode, sb));
      write_block new_block (zeros BLOCK_SIZE);;
      block_count ← arith_u16 (i_block_count inode + 1);
      mret (Some (set_block_count inode block_count), sb)
  end.

(** The loop of [write] that allocates the missing blocks; every iteration adds one
    block, so the number of required blocks is enough fuel. *)
Definition grow (sb : SuperBlock) (inode : Inode) (required_blocks : u16)
  : prog (option Inode * SuperBlock) :=
  loop (S (Z.to_nat required_blocks)) (inode, sb) (λ '(inode, sb),
    if i_block_count inode <? required_blocks then
      '(r, sb) ← grow_step sb inode;
      match r with
      | None => mret (Break (None, sb))
      | Some inode => mret (Continue (inode, sb))
      end
    else mret (Break (Some inode, sb))).

(** The loop of [write] that copies the data; as for [read_loop], the number of
    bytes is enough fuel. *)
Definition write_loop (inode : Inode) (data : bytes) (remaining : usize)
    (block_index : u32) (block_offset data_offset : usize) : prog () :=
  loop (S (Z.to_nat remaining)) (remaining, block_index, block_offset, data_offset)
    (λ '(remaining, block_index, block_offset, data_offset),
      if remaining <=? 0 then mret (Break ())
      else
        b ← get_block inode block_index;
        block_num ← unwrap b;
        block_buf ← read_block block_num;
        let to_write := Z.min remaining (PAGE_SIZE - block_offset) in
        src ← unwrap (slice data_offset (data_offset + to_write) data);
        block_buf ← unwrap (copy_from_slice block_offset (block_offset + to_write)
                              src block_buf);
        write_block block_num block_buf;;
        mret (Continue (remaining - to_write, block_index + 1, 0,
                        data_offset + to_write))).

(** [write] *)
Definition write (sb : SuperBlock) (ino : u64) (offset : i64) (data : bytes)
  : prog (reply u32 * SuperBlock) :=
  inode ← read_inode sb (as_u32 ino);
  let write_size := zlen data in
  if write_size =? 0 then mret (Ok 0, sb)
  else
    sum ← arith_usize (as_usize offset + write_size);
    sum ← arith_usize (sum + PAGE_SIZE);
    sum ← arith_usize (sum - 1);
    let required_blocks := as_u32 (sum / PAGE_SIZE) in
    if MAX_FILE_BLOCKS <? required_blocks then mret (Err EFBIG, sb)
    else
      '(g, sb) ← grow sb inode (as_u16 required_blocks);
      match g with
      | None => mret (Err ENOSPC, sb)
      | Some inode =>
          let block_index := as_u32 offset / as_u32 PAGE_SIZE in
          let block_offset := as_usize offset mod PAGE_SIZE in
          write_loop inode data write_size block_index block_offset 0;;
          new_size ← arith_usize (as_usize offset + write_size);
          let inode := if as_usize (i_size inode) <? new_size
                       then set_size inode (as_u32 new_size) else inode in
          now ← current_timestamp;
          let inode := set_mtime inode now in
          let inode := set_atime inode (i_mtime inode) in
          write_inode sb inode;;
          mret (Ok (as_u32 write_size), sb)
      end.

(** [unlink] *)
Definition unlink (sb : SuperBlock) (parent : u64) (name : bytes)
  : prog (reply () * SuperBlock) :=
  let name_str := to_str_or "" name in
  parent_inode ← read_inode sb (as_u32 parent);
  e ← dir_find parent_inode name_str;
  match e with
  | None => mret (Err ENOENT, sb)
  | Some (entry, _, _) =>
      inode ← read_inode sb (de_inode entry);
      if negb (Z.land (i_mode inode) (as_u16 S_IFDIR) =? 0) then mret (Err EISDIR, sb)
      else
        sb ← free_blocks sb inode;
        sb ← (if negb (i_indirect_block inode =? 0)
              then mark_free sb (i_indirect_block inode) else mret sb);
        let inode := set_nlink inode 0 in
        write_inode sb inode;;
        '(r, parent_inode) ← dir_remove_entry sb parent_inode name_str;
        match r with
        | Err _ => Panic
        | Ok _ => mret (Ok (), sb)
        end
  end.

(** [setattr]: the requested mode is the only attribute the code looks at. *)
Definition setattr (sb : SuperBlock) (ino : u64) (mode : option u32)
    (_uid _gid : option u32) (_size : option u64) : prog (reply FileAttr) :=
  inode ← read_inode sb (as_u32 ino);
  let inode :=
    match mode with
    | Some new_mode =>
        let file_type := Z.land (i_mode inode) 61440 (* 0xF000 *) in
        set_mode inode (Z.lor file_type (as_u16 (Z.land new_mode 511 (* 0o777 *))))
    | None => inode
    end in
  now ← current_timestamp;
  let inode := set_mtime inode now in
  write_inode sb inode;;
  mret (Ok (inode_to_attr inode)).

(** ** Formatting and mounting *)

(** [format_new_fs] *)
Definition format_new_fs : prog SuperBlock :=
  sb ← init_superblock;
  init_bitmap sb;;
  let root_inode_no := 1 in
  root_inode ← new_dir root_inode_no;
  '(b, sb_mut) ← allocate_block sb;
  root_data_block ← unwrap b;
  write_block root_data_block (dir_block root_inode_no root_inode_no);;
  direct_blocks ← unwrap (set_index 0 root_data_block (i_direct_blocks root_inode));
  let root_inode := set_direct_blocks root_inode direct_blocks in
  let root_inode := set_block_count root_inode 1 in
  let root_inode := set_size root_inode (as_u32 PAGE_SIZE) in
  let root_inode := set_nlink root_inode 2 in
  write_inode sb_mut root_inode;;
  let updated_sb := with_root_inode root_inode_no sb_mut in
  write_superblock updated_sb;;
  mret updated_sb.

(** [SimpleFS::mount] on the opened disk: the superblock of the mounted file
    system. *)
Definition mount : prog SuperBlock :=
  size ← Disk.size;
  if size =? 0 then
    truncate DISK_SIZE;;
    format_new_fs
  else
    r ← catch_unwind read_superblock;
    match r with
    | Some sb => mret sb
    | None =>
        truncate DISK_SIZE;;
        format_new_fs
    end.
End handlers.
End SimpleFS.
