(* ===== verification/File.v ===== *)
(** * File: the contents of files, and what [read] and [write] of [src/fs.rs] do to them

    The contents of a file are the pages of its blocks, cut at its size.  [read] returns
    a part of them, [write] replaces a part of them; both leave everything else alone. *)
From S2P Require Import Prelude Disk Superblock Bitmap Inode Directory Fs.

(** ** Contents *)

(** The blocks of a file, in order, and all the blocks that belong to it. *)
Definition file_blocks (i : Inode) (w : world) : list u32 :=
  block_at i w <$> seqZ 0 (i_block_count i).
Definition indirect_blocks (i : Inode) : list u32 :=
  if 10 <? i_block_count i then [i_indirect_block i] else [].
Definition own_blocks (i : Inode) (w : world) : list u32 :=
  indirect_blocks i ++ file_blocks i w.

(** The first 510 bytes of every block; the two last bytes of a block are not used. *)
Definition page (w : world) (b : u32) : bytes := take 510 (w_read w b).
Definition raw (i : Inode) (w : world) : bytes := file_blocks i w ≫= page w.
Definition contents (i : Inode) (w : world) : bytes := take (Z.to_nat (i_size i)) (raw i w).

(** The blocks of a file are in the data area and pairwise different, and its inode is
    in none of them. *)
Record file_layout (sb : SuperBlock) (i : Inode) (w : world) : Prop := {
  fl_disk : disk_ok w;
  fl_wf : inode_wf i;
  fl_no : inode_ok sb (i_inode_no i);
  fl_count : i_block_count i ≤ 20;
  fl_range : Forall (λ b, 31 ≤ b < MAX_BLOCKS) (own_blocks i w);
  fl_nodup : NoDup (inode_block sb (i_inode_no i) :: own_blocks i w);
}.

(** A file: it ends inside its blocks, and the bytes after its end are zero. *)
Record file_ok (sb : SuperBlock) (i : Inode) (w : world) : Prop := {
  fo_layout : file_layout sb i w;
  fo_size : i_size i ≤ zlen (raw i w);
  fo_zero : Forall (λ x, x = 0) (drop (Z.to_nat (i_size i)) (raw i w));
}.

#[export] Instance file_layout_dec sb i w : Decision (file_layout sb i w).
Proof.
  destruct (decide (disk_ok w ∧ inode_wf i ∧ inode_ok sb (i_inode_no i) ∧
    i_block_count i ≤ 20 ∧ Forall (λ b, 31 ≤ b < MAX_BLOCKS) (own_blocks i w) ∧
    NoDup (inode_block sb (i_inode_no i) :: own_blocks i w))) as [Hd|Hd].
  - left. destruct Hd as (?&?&?&?&?&?). by constructor.
  - right. intros []. by apply Hd.
Defined.

#[export] Instance file_ok_dec sb i w : Decision (file_ok sb i w).
Proof.
  destruct (decide (file_layout sb i w ∧ i_size i ≤ zlen (raw i w) ∧
    Forall (λ x, x = 0) (drop (Z.to_nat (i_size i)) (raw i w)))) as [Hd|Hd].
  - left. destruct Hd as (?&?&?). by constructor.
  - right. intros []. by apply Hd.
Defined.

Section raw.
Implicit Types (i : Inode) (w : world) (k p : Z).

Lemma zlen_page w b : disk_ok w → zlen (page w b) = 510.
Proof.
  intros Hok. pose proof (disk_ok_zlen w b Hok) as Hl. consts. unfold page, zlen in *.
  rewrite length_take. lia.
Qed.

Lemma zlen_bind_page w l : disk_ok w → zlen (l ≫= page w) = 510 * zlen l.
Proof.
  intros Hok. induction l as [|b l IH]; [done|]. cbn [mbind list_bind].
  rewrite zlen_app, zlen_page, IH by done. unfold zlen. cbn [length]. lia.
Qed.

Lemma block_count_nonneg i : inode_wf i → 0 ≤ i_block_count i.
Proof. unfold inode_wf, is_u16. lia. Qed.

Lemma zlen_file_blocks i w : inode_wf i → zlen (file_blocks i w) = i_block_count i.
Proof.
  intros Hwf%block_count_nonneg. unfold file_blocks, zlen. rewrite length_fmap, length_seqZ. lia.
Qed.

Lemma zlen_raw i w : disk_ok w → inode_wf i → zlen (raw i w) = 510 * i_block_count i.
Proof. intros. unfold raw. by rewrite zlen_bind_page, zlen_file_blocks. Qed.

Lemma lookup_bind_page w l (p : nat) b :
  disk_ok w → l !! (p / 510)%nat = Some b →
  (l ≫= page w) !! p = page w b !! (p mod 510)%nat.
Proof.
  intros Hok. revert p. induction l as [|b' l IH]; intros p Hb; [done|].
  cbn [mbind list_bind]. pose proof (zlen_page w b' Hok) as Hz. unfold zlen in Hz.
  destruct (decide (p < 510)%nat) as [Hlt|Hge].
  - rewrite Nat.div_small in Hb by done. injection Hb as ->.
    rewrite lookup_app_l by lia. by rewrite Nat.mod_small by done.
  - rewrite lookup_app_r by lia. assert (length (page w b') = 510%nat) as -> by lia.
    replace p with (p - 510 + 1 * 510)%nat in Hb by lia.
    rewrite Nat.div_add in Hb by lia. rewrite Nat.add_1_r in Hb.
    rewrite (IH _ Hb). f_equal. replace p with (p - 510 + 1 * 510)%nat at 2 by lia.
    by rewrite Nat.Div0.mod_add.
Qed.

Lemma file_blocks_lookup i w k :
  0 ≤ k < i_block_count i → file_blocks i w !! Z.to_nat k = Some (block_at i w k).
Proof.
  intros Hk. unfold file_blocks. rewrite list_lookup_fmap, lookup_seqZ_lt by lia.
  cbn. do 2 f_equal. lia.
Qed.

Lemma elem_of_file_blocks i w b :
  b ∈ file_blocks i w ↔ ∃ k, 0 ≤ k < i_block_count i ∧ b = block_at i w k.
Proof.
  unfold file_blocks. rewrite list_elem_of_fmap. setoid_rewrite elem_of_seqZ. naive_solver lia.
Qed.

Lemma raw_lookup i w p :
  disk_ok w → 0 ≤ p < 510 * i_block_count i →
  raw i w !! Z.to_nat p = w_read w (block_at i w (p / 510)) !! Z.to_nat (p mod 510).
Proof.
  intros Hok Hp. unfold raw.
  assert (Z.to_nat p / 510 = Z.to_nat (p / 510))%nat as Hdiv
    by (rewrite Z2Nat.inj_div by lia; done).
  assert (Z.to_nat p mod 510 = Z.to_nat (p mod 510))%nat as Hmod
    by (rewrite Z2Nat.inj_mod by lia; done).
  rewrite (lookup_bind_page _ _ _ (block_at i w (p / 510))).
  - unfold page. rewrite Hmod. apply lookup_take_lt. dlia.
  - done.
  - rewrite Hdiv. apply file_blocks_lookup. dlia.
Qed.

(** The pages depend on the blocks of the file only. *)
Lemma file_blocks_ext i w w' :
  (10 < i_block_count i → w_read w' (i_indirect_block i) = w_read w (i_indirect_block i)) →
  file_blocks i w' = file_blocks i w.
Proof.
  intros Hr. unfold file_blocks. apply list_fmap_ext. intros j k Hk.
  apply list_elem_of_lookup_2, elem_of_seqZ in Hk.
  destruct (decide (10 ≤ k)); [apply block_at_ext, Hr; lia|].
  by rewrite !block_at_direct by lia.
Qed.

Lemma raw_ext i w w' :
  (∀ b, b ∈ own_blocks i w → w_read w' b = w_read w b) → raw i w' = raw i w.
Proof.
  intros Hr. unfold raw. rewrite (file_blocks_ext i w w').
  - assert (∀ b, b ∈ file_blocks i w → w_read w' b = w_read w b) as Hr'
      by (intros; apply Hr; unfold own_blocks; set_solver).
    induction (file_blocks i w) as [|b l IH]; [done|]. cbn [mbind list_bind].
    unfold page at 1 3. rewrite Hr' by set_solver. f_equal. apply IH. set_solver.
  - intros Hc. apply Hr. unfold own_blocks, indirect_blocks. Z_true (10 <? i_block_count i).
    set_solver.
Qed.
End raw.

(** ** [read] *)
Section reading.
Context `{Clock} `{Build}.
Implicit Types (sb : SuperBlock) (i : Inode) (w : world).

Lemma file_block_range sb i w k :
  file_layout sb i w → 0 ≤ k < i_block_count i → 31 ≤ block_at i w k < MAX_BLOCKS.
Proof.
  intros Hf Hk. apply (proj1 (Forall_forall _ _) (fl_range _ _ _ Hf)).
  apply elem_of_app. right. apply elem_of_file_blocks. eauto.
Qed.

Lemma file_indirect_range sb i w :
  file_layout sb i w → 10 < i_block_count i → 31 ≤ i_indirect_block i < MAX_BLOCKS.
Proof.
  intros Hf Hk. apply (proj1 (Forall_forall _ _) (fl_range _ _ _ Hf)).
  apply elem_of_app. left. unfold indirect_blocks. Z_true (10 <? i_block_count i). set_solver.
Qed.

Lemma run_file_block sb i w k :
  file_layout sb i w → 0 ≤ k < i_block_count i →
  run (get_block i k) w = Done (Some (block_at i w k)) w.
Proof.
  intros Hf Hk. pose proof (file_block_range _ _ _ _ Hf Hk). pose proof (fl_count _ _ _ Hf).
  rewrite run_get_block.
  - unfold some_block. by Z_false (block_at i w k =? 0).
  - apply Hf.
  - apply Hf.
  - intros Hge. apply (file_indirect_range _ _ _ Hf). lia.
  - unfold is_u32. lia.
Qed.

Lemma run_read_loop sb i w off n :
  file_layout sb i w → 0 ≤ off → 0 ≤ n → off + n ≤ 510 * i_block_count i →
  ∃ r, run (SimpleFS.read_loop i n 0 (off / 510) (off mod 510) (zeros n)) w = Done (n, r) w ∧
    zlen r = n ∧ ∀ q, 0 ≤ q < n → r !! Z.to_nat q = raw i w !! Z.to_nat (off + q).
Proof.
  intros Hf Ho Hn Hfit. pose proof (fl_disk _ _ _ Hf) as Hok.
  set (I := λ '(remaining, copied, k, bo, r) w', w' = w ∧ 0 ≤ remaining ∧ remaining + copied = n ∧
    0 ≤ copied ∧ 0 ≤ k ∧ 0 ≤ bo < 510 ∧ (0 < remaining → 510 * k + bo = off + copied) ∧ zlen r = n ∧
    ∀ q, 0 ≤ q < copied → r !! Z.to_nat q = raw i w !! Z.to_nat (off + q)).
  set (m := λ x : usize * usize * u32 * usize * bytes, Z.to_nat (fst (fst (fst (fst x))))).
  assert (wp (SimpleFS.read_loop i n 0 (off / 510) (off mod 510) (zeros n)) (λ x w', w' = w ∧ fst x = n ∧
    zlen (snd x) = n ∧ ∀ q, 0 ≤ q < n → snd x !! Z.to_nat q = raw i w !! Z.to_nat (off + q)) w) as Hwp.
  { unfold SimpleFS.read_loop. apply (wp_loop I m); [unfold m; simpl; lia| |].
    - unfold I. rewrite zlen_zeros by lia. split_and!; try done; try dlia.
    - intros [[[[remaining copied] k] bo] r] w' (-> & Hr & Hsum & Hc & Hk & Hbo & Hpos & Hl & Hq).
      destruct (Z.leb_spec remaining 0) as [Hz|Hz].
      + apply wp_ret. simpl. assert (copied = n) by lia. subst copied. auto.
      + specialize (Hpos Hz).
        assert (0 ≤ k < i_block_count i) as Hkr by lia.
        wp_step (run_file_block sb) by done. pose proof (file_block_range _ _ _ _ Hf Hkr) as Hb.
        wp_step run_read_block by (apply disk_ok_has; [done|lia]).
        pose proof (disk_ok_zlen w (block_at i w k) Hok) as Hbl. consts.
        set (t := Z.min remaining (510 - bo)).
        destruct (slice bo (bo + t) (w_read w (block_at i w k))) as [src|] eqn:Es;
          [|rewrite slice_Some in Es by lia; done].
        pose proof (slice_length _ _ _ _ Es) as Hsl.
        wp_step run_unwrap by reflexivity.
        wp_step run_unwrap by (apply copy_from_slice_Some; lia).
        apply wp_ret. split; [|unfold m; simpl; lia].
        unfold I. rewrite zlen_splice by lia. split_and!; try done; try lia.
        intros q Hq'. rewrite lookup_splice by lia. case_decide as Hd; [|apply Hq; lia].
        rewrite raw_lookup by (done || lia).
        rewrite slice_Some in Es by lia. injection Es as <-.
        rewrite lookup_take_lt, lookup_drop by lia.
        replace (off + q) with (bo + (q - copied) + k * 510) by lia.
        rewrite Z.div_add, Z.mod_add, Z.div_small, Z.mod_small by lia.
        rewrite Z.add_0_l. f_equal. lia. }
  apply wp_inv in Hwp as ([c r] & w' & Hrun & -> & Hc & Hl & Hq). simpl in *. subst c. eauto.
Qed.

Lemma run_read sb ino i off n w :
  file_ok sb i w → i_inode_no i = as_u32 ino → disk_inode sb w (as_u32 ino) = Some i →
  0 ≤ off → 0 ≤ n →
  run (SimpleFS.read sb ino off n) w =
    Done (Ok (take (Z.to_nat n) (drop (Z.to_nat off) (contents i w)))) w.
Proof.
  intros [Hf Hsize Hzero] Hno Hi Ho Hn. pose proof (fl_disk _ _ _ Hf) as Hok. pose proof (fl_wf _ _ _ Hf) as Hwf.
  rewrite zlen_raw in Hsize by done.
  assert (is_u32 (i_size i)) as Hs by (unfold inode_wf in Hwf; tauto). unfold is_u32 in Hs.
  pose proof (zlen_raw i w Hok Hwf) as Hrl.
  unfold SimpleFS.read. run_step run_read_inode by (rewrite <-?Hno; first [done|apply Hf|by rewrite Hno]).
  destruct (Z.leb_spec (i_size i) off) as [Hle|Hgt].
  - unfold contents. rewrite drop_ge; [by rewrite take_nil|].
    rewrite length_take. unfold zlen in Hrl. lia.
  - run_step run_arith_i64 by (unfold is_i64; lia).
    rewrite (as_u32_id (i_size i - off)), (as_u32_id off), as_usize_id by (unfold is_u32; lia).
    consts. set (m := Z.min n (i_size i - off)).
    destruct (run_read_loop sb i w off m Hf) as (r & Hr & Hl & Hq); [lia|lia|lia|].
    run_step Hr. cbv beta iota. rewrite <-Hl at 1. run_step run_unwrap by apply slice_all.
    rewrite run_ret. do 2 f_equal. apply list_eq. intros q.
    destruct (decide (Z.of_nat q < m)) as [Hlt|Hge].
    + pose proof (Hq (Z.of_nat q) ltac:(lia)) as Hqq. rewrite Nat2Z.id in Hqq.
      rewrite Hqq, lookup_take_lt, lookup_drop by lia. unfold contents.
      rewrite lookup_take_lt by lia. f_equal. lia.
    + rewrite lookup_ge_None_2 by (unfold zlen in Hl; lia).
      symmetry. apply lookup_ge_None_2. unfold contents.
      rewrite length_take, length_drop, length_take. unfold zlen in *. lia.
Qed.
End reading.

(** ** [write], on blocks that the file has *)
Section writing.
Context `{Clock} `{Build}.
Implicit Types (sb : SuperBlock) (i : Inode) (w : world).

(** A write inside the page of a block of the file. *)
Lemma file_write_frame sb i w k d :
  file_layout sb i w → 0 ≤ k < i_block_count i →
  let w' := w_write (block_at i w k) d w in
  file_blocks i w' = file_blocks i w ∧
  ∀ k', 0 ≤ k' < i_block_count i →
    w_read w' (block_at i w k') = if decide (k' = k) then d else w_read w (block_at i w k').
Proof.
  intros Hf Hk w'. pose proof (fl_nodup _ _ _ Hf) as [_ Hnd]%NoDup_cons. split.
  - apply file_blocks_ext. intros Hc. unfold w'. apply w_read_write_ne. intros Heq.
    unfold own_blocks, indirect_blocks in Hnd. rewrite (proj2 (Z.ltb_lt _ _)) in Hnd by lia.
    apply NoDup_cons in Hnd as [Hni _]. apply Hni. rewrite <-Heq.
    apply elem_of_file_blocks. eauto.
  - intros k' Hk'. unfold w'. rewrite w_read_write. case_decide as Heq; case_decide as Hkk;
      [done| |by subst|done].
    exfalso. apply Hkk. apply NoDup_app in Hnd as (_ & _ & Hnd).
    pose proof (NoDup_lookup _ (Z.to_nat k') (Z.to_nat k) _ Hnd
      (file_blocks_lookup i w k' Hk')) as Hlk.
    rewrite <-Heq in Hlk. specialize (Hlk (file_blocks_lookup i w k Hk)). lia.
Qed.

Lemma disk_ok_page_write w b bo src :
  disk_ok w → 0 ≤ bo → bo + zlen src ≤ 512 → Forall is_u8 src →
  disk_ok (w_write b (splice bo src (w_read w b)) w).
Proof.
  intros Hok Hbo Hfit Hu. destruct (disk_ok_block w b Hok) as [Hz Hub]. consts.
  apply disk_ok_write; [done|consts; by rewrite zlen_splice by lia|by apply Forall_splice].
Qed.

Lemma raw_write sb i w k bo src :
  file_layout sb i w → 0 ≤ k < i_block_count i → 0 ≤ bo → bo + zlen src ≤ 510 → Forall is_u8 src →
  let b := block_at i w k in
  raw i (w_write b (splice bo src (w_read w b)) w) = splice (k * 510 + bo) src (raw i w).
Proof.
  intros Hf Hk Hbo Hfit Hu b. pose proof (fl_disk _ _ _ Hf) as Hok. pose proof (fl_wf _ _ _ Hf) as Hwf.
  assert (0 ≤ zlen src) by (unfold zlen; lia).
  assert (disk_ok (w_write b (splice bo src (w_read w b)) w)) as Hok'
    by (apply disk_ok_page_write; done || lia).
  destruct (file_write_frame sb i w k (splice bo src (w_read w b)) Hf Hk) as [Hbl Hrd].
  fold b in Hbl, Hrd. set (w' := w_write b _ w) in *.
  pose proof (disk_ok_zlen w b Hok) as Hzb. consts.
  pose proof (zlen_raw i w Hok Hwf) as Hrl. pose proof (zlen_raw i w' Hok' Hwf) as Hrl'.
  apply splice_ext; [lia|lia|unfold zlen in *; lia|]. intros q.
  destruct (decide (Z.of_nat q < 510 * i_block_count i)) as [Hq|Hq].
  2: { rewrite decide_False by lia. unfold zlen in *. rewrite !lookup_ge_None_2 by lia. done. }
  pose proof (raw_lookup i w (Z.of_nat q) Hok ltac:(lia)) as Hq1.
  pose proof (raw_lookup i w' (Z.of_nat q) Hok' ltac:(lia)) as Hq2.
  rewrite Nat2Z.id in Hq1, Hq2. rewrite Hq1, Hq2. clear Hq1 Hq2.
  set (k' := Z.of_nat q / 510). assert (0 ≤ k' < i_block_count i) as Hk' by (unfold k'; dlia).
  assert (block_at i w' k' = block_at i w k') as ->.
  { pose proof (file_blocks_lookup i w k' Hk') as Hl1.
    pose proof (file_blocks_lookup i w' k' Hk') as Hl2. rewrite Hbl in Hl2. congruence. }
  rewrite Hrd by done. case_decide as Hkk.
  - rewrite lookup_splice by lia. rewrite Hkk. fold b.
    repeat case_decide; try (unfold k' in *; dlia); [f_equal; unfold k' in *; dlia|done].
  - rewrite decide_False; [done|]. unfold k' in *. dlia.
Qed.

Lemma file_layout_write sb i w k bo src :
  file_layout sb i w → 0 ≤ k < i_block_count i → 0 ≤ bo → bo + zlen src ≤ 510 → Forall is_u8 src →
  let b := block_at i w k in
  file_layout sb i (w_write b (splice bo src (w_read w b)) w).
Proof.
  intros Hf Hk Hbo Hfit Hu b. assert (0 ≤ zlen src) by (unfold zlen; lia).
  destruct (file_write_frame sb i w k (splice bo src (w_read w b)) Hf Hk) as [Hbl _].
  fold b in Hbl. destruct Hf. constructor; try done.
  - apply disk_ok_page_write; done || lia.
  - unfold own_blocks. by rewrite Hbl.
  - unfold own_blocks. by rewrite Hbl.
Qed.

(** The data loop of [write]: one iteration, its invariant and its effect. *)
Definition copy_body (inode : Inode) (data : bytes) (st : usize * u32 * usize * usize)
    : prog (flow (usize * u32 * usize * usize) ()) :=
  let '(remaining, block_index, block_offset, data_offset) := st in
  if remaining <=? 0 then mret (Break ())
  else
    b ← get_block inode block_index;
    block_num ← unwrap b;
    block_buf ← read_block block_num;
    let to_write := Z.min remaining (PAGE_SIZE - block_offset) in
    src ← unwrap (slice data_offset (data_offset + to_write) data);
    block_buf ← unwrap (copy_from_slice block_offset (block_offset + to_write) src block_buf);
    write_block block_num block_buf;;
    mret (Continue (remaining - to_write, block_index + 1, 0, data_offset + to_write)).

Lemma write_loop_body i data remaining k bo dn :
  SimpleFS.write_loop i data remaining k bo dn =
    loop (S (Z.to_nat remaining)) (remaining, k, bo, dn) (copy_body i data).
Proof. reflexivity. Qed.

(** The first [done_] bytes of [data] are written at [off]. *)
Definition copying sb i data off w (st : usize * u32 * usize * usize) w' : Prop :=
  let '(remaining, k, bo, done_) := st in
  file_layout sb i w' ∧ w_ticks w' = w_ticks w ∧
  file_blocks i w' = file_blocks i w ∧
  (∀ b, b ∉ file_blocks i w → w_read w' b = w_read w b) ∧
  0 ≤ remaining ∧ remaining + done_ = zlen data ∧ 0 ≤ done_ ∧ 0 ≤ k ∧ 0 ≤ bo < 510 ∧
  (0 < remaining → 510 * k + bo = off + done_) ∧
  raw i w' = splice off (take (Z.to_nat done_) data) (raw i w).

Lemma copying_start sb i data off w :
  file_layout sb i w → 0 ≤ off → copying sb i data off w (zlen data, off / 510, off mod 510, 0) w.
Proof.
  intros Hf Ho. assert (0 ≤ zlen data) by (unfold zlen; lia). unfold copying.
  rewrite take_0, splice_nil. split_and!; try done; dlia.
Qed.

(** The block of an iteration, and the state after it. *)
Lemma run_copy_body sb i data off w remaining k bo dn w' :
  file_layout sb i w → Forall is_u8 data → 0 ≤ off → off + zlen data ≤ 510 * i_block_count i →
  copying sb i data off w (remaining, k, bo, dn) w' → 0 < remaining →
  let b := block_at i w' k in
  let t := Z.min remaining (510 - bo) in
  ∃ src, slice dn (dn + t) data = Some src ∧ zlen src = t ∧
    Forall is_u8 src ∧ 0 ≤ k < i_block_count i ∧ b ∈ file_blocks i w ∧
    copying sb i data off w (remaining - t, k + 1, 0, dn + t)
      (w_write b (splice bo src (w_read w' b)) w').
Proof.
  intros Hf Hu Ho Hfit (Hf' & Ht & Hbl & Hfr & Hr & Hsum & Hdn & Hk & Hbo & Hpos & Hraw) Hz b t.
  specialize (Hpos Hz). assert (0 ≤ k < i_block_count i) as Hkr by lia.
  assert (b ∈ file_blocks i w) as Hin by (rewrite <-Hbl; apply elem_of_file_blocks; eauto).
  destruct (slice dn (dn + t) data) as [src|] eqn:Es; [|rewrite slice_Some in Es by lia; done].
  pose proof (slice_length _ _ _ _ Es) as Hsl. rewrite slice_Some in Es by lia. injection Es as Hsrc.
  assert (Forall is_u8 src) as Hsu by (subst src; by apply Forall_take, Forall_drop).
  exists src. split_and!; [done|lia|done|lia|lia|done|]. unfold copying.
  destruct (file_write_frame sb i w' k (splice bo src (w_read w' b)) Hf' Hkr) as [Hbl' _].
  fold b in Hbl'. split_and!; try done; try lia.
  - apply file_layout_write; done || lia.
  - congruence.
  - intros b' Hb'. rewrite w_read_write_ne; [by apply Hfr|]. by intros <-.
  - unfold b. rewrite (raw_write sb), Hraw by (done || lia).
    pose proof (zlen_raw i w (fl_disk _ _ _ Hf) (fl_wf _ _ _ Hf)) as Hrl.
    rewrite splice_splice; [|lia|unfold zlen in *; rewrite length_take; lia|lia].
    f_equal. subst src. rewrite Z2Nat.inj_add by lia.
    replace (dn + t - dn) with t by lia. by rewrite take_take_drop.
Qed.

Lemma wp_copy_body sb i data off w st w' :
  file_layout sb i w → Forall is_u8 data → 0 ≤ off → off + zlen data ≤ 510 * i_block_count i →
  copying sb i data off w st w' →
  wp (copy_body i data st) (λ r w'', match r with
    | Continue st' => copying sb i data off w st' w'' ∧
        (Z.to_nat (fst (fst (fst st'))) < Z.to_nat (fst (fst (fst st))))%nat
    | Break _ => w'' = w' ∧ raw i w' = splice off data (raw i w)
    end) w'.
Proof.
  intros Hf Hu Ho Hfit HI. destruct st as [[[remaining k] bo] dn]. pose proof HI as
    (Hf' & Ht & Hbl & Hfr & Hr & Hsum & Hdn & Hk & Hbo & Hpos & Hraw). unfold copy_body.
  destruct (Z.leb_spec remaining 0) as [Hz|Hz].
  - apply wp_ret. split; [done|]. by rewrite take_ge in Hraw by (unfold zlen in *; lia).
  - destruct (run_copy_body sb i data off w _ _ _ _ w' Hf Hu Ho Hfit HI Hz)
      as (src & Es & Hsl & Hsu & Hkr & Hin & HI').
    wp_step (run_file_block sb) by done. pose proof (file_block_range _ _ _ _ Hf' Hkr) as Hb.
    wp_step run_unwrap by reflexivity. pose proof (fl_disk _ _ _ Hf') as Hok.
    wp_step run_read_block by (apply disk_ok_has; [done|lia]).
    pose proof (disk_ok_zlen w' (block_at i w' k) Hok) as Hzb. consts. cbv zeta.
    wp_step run_unwrap by exact Es.
    wp_step run_unwrap by (apply copy_from_slice_Some; lia).
    wp_step run_write_block by (consts; rewrite ?zlen_splice by lia; first [lia|unfold is_u32; lia]).
    apply wp_ret. split; [exact HI'|]. simpl. lia.
Qed.

Lemma wp_write_loop sb i data off w :
  file_layout sb i w → Forall is_u8 data → 0 ≤ off → off + zlen data ≤ 510 * i_block_count i →
  wp (SimpleFS.write_loop i data (zlen data) (off / 510) (off mod 510) 0) (λ _ w',
    file_layout sb i w' ∧ raw i w' = splice off data (raw i w) ∧ w_ticks w' = w_ticks w ∧
    file_blocks i w' = file_blocks i w ∧
    ∀ b, b ∉ file_blocks i w → w_read w' b = w_read w b) w.
Proof.
  intros Hf Hu Ho Hfit. rewrite write_loop_body.
  apply (wp_loop (copying sb i data off w) (λ st, Z.to_nat (fst (fst (fst st)))));
    [simpl; lia|by apply copying_start|].
  intros st w' HI. eapply wp_mono; [by apply wp_copy_body|].
  intros [st'|[]] w''; [done|]. intros [-> Hraw].
  destruct st as [[[remaining k] bo] dn]. destruct HI as (? & ? & ? & ? & _). auto 10.
Qed.
End writing.

(** ** Growth: giving a file more blocks *)

(** The blocks of a file are marked in the map. *)
Definition marked (i : Inode) (w : world) : Prop :=
  Forall (λ b, bit w b = true) (own_blocks i w).

(** The indirect block of a file that does not need one is 0. *)
Definition tidy (i : Inode) : Prop := 10 < i_block_count i ∨ i_indirect_block i = 0.

(** Everything but the blocks of an inode. *)
Definition same_meta (i' i : Inode) : Prop :=
  i_inode_no i' = i_inode_no i ∧ i_mode i' = i_mode i ∧ i_uid i' = i_uid i ∧
  i_gid i' = i_gid i ∧ i_size i' = i_size i ∧ i_nlink i' = i_nlink i ∧
  i_mtime i' = i_mtime i ∧ i_atime i' = i_atime i ∧ i_ctime i' = i_ctime i.

(** The state after [n] zeroed blocks were added to a file, none of which is in
    [avoid]. *)
Record grown (avoid : u32 → Prop) (n : Z) (sb : SuperBlock) (i : Inode) (w : world)
    (sb' : SuperBlock) (i' : Inode) (w' : world) : Prop := {
  gr_layout : file_layout sb' i' w';
  gr_inv : bitmap_inv sb' w';
  gr_marked : marked i' w';
  gr_meta : same_meta i' i;
  gr_count : i_block_count i' = i_block_count i + n;
  gr_raw : raw i' w' = raw i w ++ zeros (510 * n);
  gr_own : ∀ b, b ∈ own_blocks i' w' → b ∈ own_blocks i w ∨ bit w b = false;
  gr_avoid : ∀ b, avoid b → b ∉ own_blocks i w → b ∉ own_blocks i' w';
  gr_sub : ∀ b, b ∈ own_blocks i w → b ∈ own_blocks i' w';
  gr_frame : ∀ b, 6 ≤ b → b ∉ own_blocks i' w' → w_read w' b = w_read w b;
  gr_bits : ∀ b, 0 ≤ b < MAX_BLOCKS → bit w b = true → bit w' b = true;
  gr_new : ∀ b, 0 ≤ b < MAX_BLOCKS → bit w' b = true → bit w b = true ∨ b ∈ own_blocks i' w';
  gr_tidy : tidy i → tidy i';
  gr_table : sb_inode_table_start sb' = sb_inode_table_start sb;
  gr_ticks : w_ticks w' = w_ticks w;
}.

Section growing.
Context (avoid : u32 → Prop).
Implicit Types (sb : SuperBlock) (i : Inode) (w : world).

Lemma grown_refl sb i w :
  file_layout sb i w → bitmap_inv sb w → marked i w → grown avoid 0 sb i w sb i w.
Proof. constructor; try done; [lia|by rewrite app_nil_r|by left|by left]. Qed.

Lemma grown_trans n m sb i w sb1 i1 w1 sb2 i2 w2 :
  0 ≤ n → 0 ≤ m →
  grown avoid n sb i w sb1 i1 w1 → grown avoid m sb1 i1 w1 sb2 i2 w2 → grown avoid (n + m) sb i w sb2 i2 w2.
Proof.
  intros Hn Hm G1 G2.
  constructor; try apply G2.
  - pose proof (gr_meta _ _ _ _ _ _ _ _ G1). pose proof (gr_meta _ _ _ _ _ _ _ _ G2).
    unfold same_meta in *. intuition congruence.
  - rewrite (gr_count _ _ _ _ _ _ _ _ G2), (gr_count _ _ _ _ _ _ _ _ G1). lia.
  - rewrite (gr_raw _ _ _ _ _ _ _ _ G2), (gr_raw _ _ _ _ _ _ _ _ G1).
    rewrite Z.mul_add_distr_l, zeros_app by lia. by rewrite app_assoc.
  - intros b Hin. destruct (gr_own _ _ _ _ _ _ _ _ G2 b Hin) as [Hb|Hb]; [by apply G1|].
    destruct (bit w b) eqn:E; [|by right].
    pose proof (proj1 (Forall_forall _ _) (fl_range _ _ _ (gr_layout _ _ _ _ _ _ _ _ G2)) b Hin) as Hr.
    simpl in Hr. rewrite (gr_bits _ _ _ _ _ _ _ _ G1 b ltac:(lia) E) in Hb. done.
  - intros b Hb Hno. by apply (gr_avoid _ _ _ _ _ _ _ _ G2), (gr_avoid _ _ _ _ _ _ _ _ G1).
  - intros b Hb. by apply G2, G1.
  - intros b Hb Hno. rewrite (gr_frame _ _ _ _ _ _ _ _ G2) by done.
    apply (gr_frame _ _ _ _ _ _ _ _ G1); [done|]. intros Hin. by apply Hno, G2.
  - intros b Hb Hbit. apply (gr_bits _ _ _ _ _ _ _ _ G2); [done|]. by apply (gr_bits _ _ _ _ _ _ _ _ G1).
  - intros b Hb Hbit. destruct (gr_new _ _ _ _ _ _ _ _ G2 b Hb Hbit) as [Hb1|]; [|by right].
    destruct (gr_new _ _ _ _ _ _ _ _ G1 b Hb Hb1) as [|Hin]; [by left|right]. by apply G2.
  - intros Ht. by apply (gr_tidy _ _ _ _ _ _ _ _ G2), (gr_tidy _ _ _ _ _ _ _ _ G1).
  - by rewrite (gr_table _ _ _ _ _ _ _ _ G2), (gr_table _ _ _ _ _ _ _ _ G1).
  - by rewrite (gr_ticks _ _ _ _ _ _ _ _ G2), (gr_ticks _ _ _ _ _ _ _ _ G1).
Qed.

Lemma file_blocks_snoc i w i' w' a :
  0 ≤ i_block_count i → i_block_count i' = i_block_count i + 1 →
  (∀ k, 0 ≤ k < i_block_count i → block_at i' w' k = block_at i w k) →
  block_at i' w' (i_block_count i) = a →
  file_blocks i' w' = file_blocks i w ++ [a].
Proof.
  intros H0 Hc Hk Ha. unfold file_blocks. rewrite Hc.
  rewrite (seqZ_app 0 (i_block_count i) 1), fmap_app by lia.
  change (seqZ (0 + i_block_count i) 1) with [0 + i_block_count i].
  rewrite Z.add_0_l. cbn [fmap list_fmap]. rewrite Ha. f_equal.
  apply list_fmap_ext. intros j k Hin%list_elem_of_lookup_2%elem_of_seqZ. apply Hk. lia.
Qed.

Lemma bind_page_ext w w' l :
  (∀ b, b ∈ l → w_read w' b = w_read w b) → l ≫= page w' = l ≫= page w.
Proof.
  intros Hr. induction l as [|b l IH]; [done|]. cbn [mbind list_bind].
  unfold page at 1 3. rewrite Hr by set_solver. f_equal. apply IH. set_solver.
Qed.

(** One block more: the new blocks of the file (its data block and perhaps an indirect
    block) were free, and nothing but them and the old indirect block was written. *)
Lemma grown_one sb i w sb' i' w' fresh a :
  file_layout sb i w → marked i w → bitmap_inv sb' w' → inode_wf i' → same_meta i' i →
  i_block_count i' = i_block_count i + 1 → i_block_count i < 20 →
  NoDup fresh → a ∈ fresh →
  Forall (λ b, 31 ≤ b < MAX_BLOCKS ∧ bit w b = false ∧ b ≠ inode_block sb (i_inode_no i) ∧
               bit w' b = true ∧ ¬ avoid b) fresh →
  own_blocks i' w' ≡ₚ fresh ++ own_blocks i w →
  file_blocks i' w' = file_blocks i w ++ [a] →
  w_read w' a = zeros 512 →
  (∀ b, 6 ≤ b → b ∉ fresh → b ∉ indirect_blocks i → w_read w' b = w_read w b) →
  (∀ b, 0 ≤ b < MAX_BLOCKS → bit w' b = bool_decide (b ∈ fresh) || bit w b) → (tidy i → tidy i') →
  sb_inode_table_start sb' = sb_inode_table_start sb → w_ticks w' = w_ticks w →
  grown avoid 1 sb i w sb' i' w'.
Proof.
  intros Hl Hm Hinv Hwf Hmeta Hc Hlt Hnd Ha Hfresh Hown Hblocks Hzero Hread Hbit Htidy Htab Ht.
  rewrite Forall_forall in Hfresh.
  assert (∀ b, 0 ≤ b < MAX_BLOCKS → bit w b = true → bit w' b = true) as Hbits
    by (intros b Hb Hbw; rewrite Hbit, Hbw by done; apply orb_true_r).
  pose proof (fl_nodup _ _ _ Hl) as [HB Hndo]%NoDup_cons.
  assert (inode_block sb' (i_inode_no i') = inode_block sb (i_inode_no i)) as HBeq.
  { unfold inode_block. destruct Hmeta as [-> _]. by rewrite Htab. }
  assert (∀ b, b ∈ own_blocks i w → 31 ≤ b < MAX_BLOCKS ∧ bit w b = true) as Hold.
  { intros b Hb. split; [by apply (proj1 (Forall_forall _ _) (fl_range _ _ _ Hl))|].
    by apply (proj1 (Forall_forall _ _) Hm). }
  assert (∀ b, b ∈ fresh → b ∉ own_blocks i w) as Hdis.
  { intros b Hb Hin. destruct (Hold b Hin), (Hfresh b Hb) as (_ & ? & _). congruence. }
  constructor; try done.
  - constructor; [apply Hinv|done| |lia| |].
    + destruct Hl. unfold inode_ok in *. by rewrite HBeq, Htab, (proj1 Hmeta).
    + rewrite Hown. apply Forall_app. split; [|apply Hl].
      apply Forall_forall. intros b Hb. by apply Hfresh.
    + rewrite Hown, HBeq. apply NoDup_cons. rewrite elem_of_app. split.
      * intros [Hb|Hb]; [|done]. by destruct (Hfresh _ Hb) as (_ & _ & ? & _).
      * apply NoDup_app. auto.
  - unfold marked. rewrite Hown. apply Forall_app. split.
    + apply Forall_forall. intros b Hb. by apply Hfresh.
    + apply Forall_forall. intros b Hb. destruct (Hold b Hb). apply Hbits; [lia|done].
  - unfold raw. rewrite Hblocks, bind_app. f_equal.
    + apply bind_page_ext. intros b Hb.
      assert (b ∈ own_blocks i w) as Hin by (apply elem_of_app; by right).
      destruct (Hold b Hin). apply Hread; [lia| |].
      * intros Hf. by apply (Hdis b).
      * intros Hi. apply NoDup_app in Hndo as (_ & Hd & _). by apply (Hd b).
    + cbn [mbind list_bind]. rewrite app_nil_r. unfold page. rewrite Hzero. reflexivity.
  - intros b. rewrite Hown, elem_of_app. intros [Hb|Hb]; [|by left].
    right. by destruct (Hfresh b Hb) as (_ & ? & _).
  - intros b Hb Hno. rewrite Hown, elem_of_app. intros [Hin|Hin]; [|done].
    by destruct (Hfresh b Hin) as (_ & _ & _ & _ & Hav).
  - intros b Hb. rewrite Hown. apply elem_of_app. by right.
  - intros b Hb. rewrite Hown, elem_of_app. intros Hno. apply Hread; [done|tauto|].
    intros Hi. apply Hno. right. apply elem_of_app. by left.
  - intros b Hb. rewrite Hbit, orb_true_iff, bool_decide_eq_true by done. intros [Hin|]; [|by left].
    right. rewrite Hown. apply elem_of_app. by left.
Qed.
End growing.

Section grow_step.
Context `{Clock} `{Build} (avoid : u32 → Prop).
Implicit Types (sb : SuperBlock) (i : Inode) (w : world).

(** The number of blocks a growth step takes: the eleventh block needs an indirect
    block too. *)
Definition step_cost (count : Z) : Z := if count =? 10 then 2 else 1.

Lemma run_write_zeros b w : 0 ≤ b < MAX_BLOCKS →
  run (write_block b (zeros BLOCK_SIZE)) w = Done () (w_write b (zeros 512) w).
Proof. intros Hb. apply run_write_block; [done|]. unfold is_u32. consts. lia. Qed.

Lemma bitmap_inv_zeros sb w b : bitmap_inv sb w → 31 ≤ b → bitmap_inv sb (w_write b (zeros 512) w).
Proof. intros Hi Hb. apply bitmap_inv_write; [done|lia|done|apply Forall_zeros]. Qed.

Lemma budget_write b n w b' d : budget b n w → 6 ≤ b' → budget b n (w_write b' d w).
Proof.
  assert (∀ m, 0 ≤ m < MAX_BLOCKS → 6 ≤ b' → bit (w_write b' d w) m = bit w m) as Hb
    by (intros; apply bit_write_ne; [done|lia]).
  intros (Hr & Hc & Hor) Hb'. split; [done|]. rewrite (free_count_ext w) by auto. split; [done|].
  rewrite Hb by done. destruct Hor as [?|Hf]; [by left|right].
  unfold free_below in *. rewrite (list_filter_ext_in _ (λ n, bit w n = false)); [done|].
  apply Forall_forall. intros m Hm%elem_of_seqZ. rewrite Hb by lia. done.
Qed.

Lemma bitmap_inv_pointer sb i k b w :
  bitmap_inv sb w → 0 ≤ k < 266 → (10 ≤ k → 31 ≤ i_indirect_block i) →
  bitmap_inv sb (put_pointer i k b w) ∧
  ∀ m, 0 ≤ m < MAX_BLOCKS → bit (put_pointer i k b w) m = bit w m.
Proof.
  intros Hi Hk Hind. unfold put_pointer. destruct (Z.ltb_spec k 10) as [|Hge]; [done|].
  specialize (Hind Hge).
  assert (disk_ok (put_pointer i k b w)) as Hok by (apply disk_ok_put_pointer; [apply Hi|done]).
  pose proof (disk_ok_block _ (i_indirect_block i) Hok) as [Hz Hu].
  unfold put_pointer in Hz, Hu. rewrite (proj2 (Z.ltb_ge _ _)), w_read_write_eq in Hz, Hu by done.
  split; [by apply bitmap_inv_write; [|lia|..]|]. intros m Hm. by apply bit_write_ne; [|lia].
Qed.

(** The pointers after the new one was stored. *)
Lemma block_at_pointer i w w1 a k c :
  inode_wf i → disk_ok w1 → 0 ≤ k ≤ c → c < 20 → c ≠ 10 → 0 ≤ a < MAX_BLOCKS →
  (10 < c → i_indirect_block i ≠ 0 ∧ i_indirect_block i ≠ a ∧
            w_read w1 (i_indirect_block i) = w_read w (i_indirect_block i)) →
  block_at (set_pointer i c a) (w_write a (zeros 512) (put_pointer i c a w1)) k =
    if decide (k = c) then a else block_at i w k.
Proof.
  intros Hwf Hok Hk Hc Hne Ha Hind. transitivity (block_at (set_pointer i c a) (put_pointer i c a w1) k).
  - destruct (decide (k < 10)); [by rewrite !block_at_direct|].
    apply block_at_ext, w_read_write_ne. unfold set_pointer.
    rewrite (proj2 (Z.ltb_ge _ _)) by lia. destruct Hind as (_ & ? & _); [lia|done].
  - rewrite block_at_set; [|done|done|lia|lia|consts; lia|].
    + case_decide; [done|]. destruct (decide (k < 10)); [by rewrite !block_at_direct|].
      apply block_at_ext. apply Hind. lia.
    + intros Hge. apply Hind. lia.
Qed.

(** The direct blocks and the blocks 12 to 20: the pointer goes into the inode or into
    the indirect block. *)
Lemma grown_pointer sb i w a sb1 w1 :
  file_layout sb i w → marked i w → allocated sb w a sb1 w1 →
  a ≠ inode_block sb (i_inode_no i) → ¬ avoid a → i_block_count i < 20 → i_block_count i ≠ 10 →
  let i' := set_block_count (set_pointer i (i_block_count i) a) (i_block_count i + 1) in
  let w' := w_write a (zeros 512) (put_pointer i (i_block_count i) a w1) in
  grown avoid 1 sb i w sb1 i' w'.
Proof.
  intros Hl Hm [Hr Hf Hb Hi Ht [Htk Hfr]] HaB Hav Hlt Hne i' w'.
  pose proof (fl_wf _ _ _ Hl) as Hwf. pose proof (block_count_nonneg i Hwf) as Hc0.
  set (c := i_block_count i) in *.
  assert (i_indirect_block i' = i_indirect_block i) as Hii
    by (unfold i', set_pointer; by destruct (c <? 10)).
  assert (10 < c → 31 ≤ i_indirect_block i < MAX_BLOCKS ∧ i_indirect_block i ∈ indirect_blocks i) as Hind.
  { intros Hc. split; [by eapply file_indirect_range|].
    unfold indirect_blocks. fold c. Z_true (10 <? c). set_solver. }
  assert (∀ b, b ∈ own_blocks i w → b ≠ a) as Hown.
  { intros b Hin ->. pose proof (proj1 (Forall_forall _ _) Hm a Hin) as Ha. simpl in Ha. congruence. }
  assert (10 < c → i_indirect_block i ≠ a) as Hia
    by (intros Hc; apply Hown, elem_of_app; left; by apply Hind).
  destruct (bitmap_inv_pointer sb1 i c a w1 Hi ltac:(lia)) as [Hi2 Hb2].
  { intros Hge. destruct Hind; lia. }
  assert (file_blocks i' w' = file_blocks i w ++ [a]) as Hblocks.
  { assert (∀ k, 0 ≤ k ≤ c → block_at i' w' k = if decide (k = c) then a else block_at i w k) as Hat.
    { intros k Hk. apply (block_at_pointer i w w1 a k c); try done; [apply Hi|lia|].
      intros Hc. destruct (Hind Hc). split_and!; [lia|by apply Hia|apply Hfr; lia]. }
    apply file_blocks_snoc; [done|done| |].
    - intros k Hk. fold c in Hk. rewrite Hat by lia. by rewrite decide_False by lia.
    - fold c. rewrite Hat by lia. by rewrite decide_True. }
  assert (indirect_blocks i' = indirect_blocks i) as Hib.
  { unfold indirect_blocks. rewrite Hii. change (i_block_count i') with (c + 1). fold c.
    destruct (Z.ltb_spec 10 (c + 1)), (Z.ltb_spec 10 c); done || lia. }
  apply (grown_one _ _ _ _ _ _ _ [a] a); try done.
  - apply bitmap_inv_zeros; [done|lia].
  - apply set_block_count_wf; [|unfold is_u16; lia]. unfold set_pointer.
    destruct (Z.ltb_spec c 10); [|done]. apply set_direct_blocks_wf; [done|].
    unfold is_u32. consts. lia.
  - unfold i', set_pointer. by destruct (c <? 10).
  - apply NoDup_singleton.
  - set_solver.
  - constructor; [|constructor]. split_and!; try done; try lia.
    unfold w'. rewrite bit_write_ne, Hb2, Hb by lia. rewrite bool_decide_true by done. done.
  - unfold own_blocks. rewrite Hblocks, Hib, app_assoc. rewrite (Permutation_app_comm _ [a]). done.
  - unfold w'. by rewrite w_read_write_eq.
  - intros b Hb6 Hnf Hni. unfold w'. rewrite w_read_write_ne by set_solver. unfold put_pointer.
    destruct (Z.ltb_spec c 10); [apply Hfr; lia|]. rewrite w_read_write_ne; [apply Hfr; lia|].
    intros <-. apply Hni, Hind. lia.
  - intros b Hbr. unfold w'. rewrite bit_write_ne, Hb2, Hb by lia. f_equal.
    apply bool_decide_ext. rewrite list_elem_of_singleton. done.
  - unfold tidy. change (i_block_count i') with (c + 1). rewrite Hii. fold c. intros [|]; [left; lia|].
    by right.
  - unfold w', put_pointer. by destruct (c <? 10).
Qed.

(** The eleventh block: a fresh indirect block with one pointer. *)
Definition first_pointer (a : u32) : bytes := splice 0 (to_le 2 a) (zeros 512).

Lemma zlen_first_pointer a : zlen (first_pointer a) = 512.
Proof. unfold first_pointer. rewrite zlen_splice; rewrite ?zlen_to_le, ?zlen_zeros by lia; lia. Qed.

Lemma first_pointer_u8 a : Forall is_u8 (first_pointer a).
Proof. apply Forall_splice; auto with simplefs. Qed.

Lemma grown_indirect sb i w a sb1 w1 a2 sb2 w2 :
  file_layout sb i w → marked i w → allocated sb w a sb1 w1 → allocated sb1 w1 a2 sb2 w2 →
  a ≠ inode_block sb (i_inode_no i) → a2 ≠ inode_block sb (i_inode_no i) →
  ¬ avoid a → ¬ avoid a2 → i_block_count i = 10 →
  let i' := set_block_count (set_indirect_block i a2) 11 in
  let w' := w_write a (zeros 512) (w_write a2 (first_pointer a) w2) in
  grown avoid 1 sb i w sb2 i' w'.
Proof.
  intros Hl Hm [Hr Hf Hb Hi Ht [Htk Hfr]] [Hr2 Hf2 Hb2 Hi2 Ht2 [Htk2 Hfr2]] HaB HaB2 Hav Hav2 Hc i' w'.
  pose proof (fl_wf _ _ _ Hl) as Hwf.
  rewrite Hb in Hf2 by lia. apply orb_false_iff in Hf2 as [Hne Hf2].
  apply bool_decide_eq_false in Hne.
  assert (file_blocks i' w' = file_blocks i w ++ [a]) as Hblocks.
  { apply file_blocks_snoc; [lia|by rewrite Hc| |].
    - intros k Hk. rewrite !block_at_direct by lia. done.
    - rewrite Hc. unfold block_at. cbn -[w_read read_le]. Z_false (a2 =? 0).
      unfold w'. rewrite w_read_write_ne, w_read_write_eq by done.
      unfold first_pointer. rewrite (read_le_splice_same 2) by (rewrite ?zlen_zeros by lia; lia).
      cbn. apply Z.mod_small. consts. lia. }
  assert (bitmap_inv sb2 (w_write a2 (first_pointer a) w2)) as Hi3.
  { apply bitmap_inv_write; [done|lia|apply zlen_first_pointer|apply first_pointer_u8]. }
  assert (∀ m, 0 ≤ m < MAX_BLOCKS → bit w' m = bool_decide (a2 = m) || (bool_decide (a = m) || bit w m))
    as Hbw by (intros m Hmr; unfold w'; rewrite !bit_write_ne, Hb2, Hb by lia; done).
  assert (indirect_blocks i' = [a2] ∧ indirect_blocks i = []) as [Hib' Hib].
  { unfold indirect_blocks. by rewrite Hc. }
  apply (grown_one _ _ _ _ _ _ _ [a2; a] a); try done.
  - apply bitmap_inv_zeros; [done|lia].
  - apply set_block_count_wf; [|done]. apply set_indirect_block_wf; [done|].
    unfold is_u32. consts. lia.
  - by rewrite Hc.
  - lia.
  - apply NoDup_cons. split; [set_solver|apply NoDup_singleton].
  - set_solver.
  - apply Forall_forall. intros b Hin. assert (b = a2 ∨ b = a) as Hba by set_solver.
    destruct Hba as [-> | ->]; (split_and!; [lia|lia|done|done| |done]); rewrite Hbw by lia.
    + by rewrite (bool_decide_true (a2 = a2)).
    + rewrite (bool_decide_true (a = a)) by done. apply orb_true_r.
  - unfold own_blocks. rewrite Hblocks, Hib', Hib. simpl. f_equiv.
    apply (Permutation_app_comm _ [a]).
  - unfold w'. by rewrite w_read_write_eq.
  - intros b Hb6 Hnf _. unfold w'. rewrite !w_read_write_ne by set_solver.
    rewrite Hfr2, Hfr by lia. done.
  - intros b Hbr. rewrite Hbw, orb_assoc by done. f_equal.
    repeat case_bool_decide; simpl; set_solver.
  - left. simpl. lia.
  - congruence.
  - unfold w'. simpl. congruence.
Qed.

(** The two branches of [grow_step] that need no indirect block. *)
Lemma run_store_pointer sb i w c a :
  disk_ok w → inode_wf i → 0 ≤ c < 20 → c ≠ 10 → 0 ≤ a < MAX_BLOCKS →
  (10 < c → 0 ≤ i_indirect_block i < MAX_BLOCKS) →
  run (if c <? 10 then
      direct_blocks ← unwrap (set_index (as_usize c) a (i_direct_blocks i));
      mret (set_direct_blocks i direct_blocks, sb)
    else
      let indirect_idx := c - 10 in
      indirect_buf ← read_block (i_indirect_block i);
      let byte_offset := as_usize indirect_idx * 2 in
      indirect_buf ← unwrap (copy_from_slice byte_offset (byte_offset + 2)
                               (to_le 2 (as_u16 a)) indirect_buf);
      write_block (i_indirect_block i) indirect_buf;;
      mret (i, sb)) w = Done (set_pointer i c a, sb) (put_pointer i c a w).
Proof.
  intros Hok Hwf Hc Hne Ha Hind. unfold set_pointer, put_pointer.
  pose proof (inode_wf_direct i Hwf) as Hd.
  pose proof (disk_ok_zlen w (i_indirect_block i) Hok) as Hl. consts.
  destruct (Z.ltb_spec c 10).
  - rewrite as_usize_id by lia. by run_step run_unwrap by (apply set_index_Some; lia).
  - cbv zeta. run_step run_read_block by (apply disk_ok_has; [done|consts; lia]).
    rewrite as_usize_id by lia.
    run_step run_unwrap by (apply copy_from_slice_Some; [lia|lia|rewrite zlen_to_le; lia]).
    run_step run_write_block by
      (rewrite ?zlen_splice, ?zlen_to_le by (rewrite ?zlen_to_le; lia); first [done|unfold is_u32; lia]).
    done.
Qed.

Lemma run_grow_step sb i w n :
  file_layout sb i w → marked i w → bitmap_inv sb w → i_block_count i < 20 →
  step_cost (i_block_count i) ≤ n → avoid (inode_block sb (i_inode_no i)) →
  (∀ b, avoid b → budget b n w) →
  ∃ sb' i' w', run (SimpleFS.grow_step sb i) w = Done (Some i', sb') w' ∧
    grown avoid 1 sb i w sb' i' w' ∧
    ∀ b, avoid b → budget b (n - step_cost (i_block_count i)) w'.
Proof.
  intros Hl Hm Hi Hlt Hn HavB Hbud. set (B := inode_block sb (i_inode_no i)) in *.
  pose proof (fl_wf _ _ _ Hl) as Hwf. pose proof (block_count_nonneg i Hwf) as Hc0.
  assert (1 ≤ step_cost (i_block_count i)) by (unfold step_cost; destruct (_ =? _); lia).
  destruct (run_allocate_budget n sb w Hi) as (a & sb1 & w1 & Hrun & Ha & Hbud1).
  { destruct (Hbud B HavB) as (_ & ? & _). lia. }
  assert (¬ avoid a) as Hava by (intros Hav; by destruct (Hbud1 a (Hbud a Hav))).
  assert (a ≠ B) as HaB by (by intros ->).
  unfold SimpleFS.grow_step. run_step Hrun. cbv beta iota zeta.
  rewrite as_u32_id by (unfold is_u32; lia). change (as_u32 DIRECT_BLOCKS) with 10.
  assert (i_block_count i + 1 < 65536) by lia.
  pose proof (al_range _ _ _ _ _ Ha) as Har.
  destruct (Z.eqb_spec (i_block_count i) 10) as [Hten|Hten].
  - Z_false (i_block_count i <? 10).
    unfold step_cost in *. rewrite Hten in *. change (if 10 =? 10 then 2 else 1) with 2 in *.
    destruct (run_allocate_budget (n - 1) sb1 w1 (al_inv _ _ _ _ _ Ha))
      as (a2 & sb2 & w2 & Hrun2 & Ha2 & Hbud2).
    { destruct (Hbud1 B (Hbud B HavB)) as (_ & _ & ? & _). lia. }
    assert (¬ avoid a2) as Hava2 by (intros Hav; by destruct (Hbud2 a2 (proj2 (Hbud1 a2 (Hbud a2 Hav))))).
    assert (a2 ≠ B) as HaB2 by (by intros ->).
    rewrite run_bind. run_step Hrun2. cbv beta iota zeta. cbn [unwrap]. rewrite run_bind. cbn [run].
    rewrite (as_u16_id a) by (unfold is_u16; consts; lia).
    run_step run_unwrap by (apply copy_from_slice_Some; rewrite ?zlen_to_le; done || lia).
    change (splice 0 (to_le 2 a) (zeros BLOCK_SIZE)) with (first_pointer a).
    pose proof (al_range _ _ _ _ _ Ha2) as Har2.
    run_step run_write_block by (rewrite ?zlen_first_pointer; first [done|unfold is_u32; consts; lia]).
    rewrite run_ret. cbv beta iota. run_step run_write_zeros by lia.
    cbn [i_block_count set_indirect_block]. rewrite Hten.
    run_step run_arith_u by lia. rewrite run_ret.
    do 3 eexists. split; [done|]. split; [by eapply grown_indirect|].
    intros b Hav. apply budget_write; [apply budget_write|]; [|lia|lia].
    destruct (Hbud1 b (Hbud b Hav)) as [_ Hb1]. destruct (Hbud2 b Hb1) as [_ Hb2]. by replace (n - 2) with (n - 1 - 1) by lia.
  - assert (grown avoid 1 sb i w sb1 (set_block_count (set_pointer i (i_block_count i) a) (i_block_count i + 1))
      (w_write a (zeros 512) (put_pointer i (i_block_count i) a w1))) as Hg by (by apply grown_pointer).
    rewrite (run_bind_Done _ _ _ _ _ (run_store_pointer sb1 i w1 (i_block_count i) a
      (bi_disk _ _ (al_inv _ _ _ _ _ Ha)) Hwf ltac:(lia) Hten ltac:(lia)
      ltac:(intros Hgt; pose proof (file_indirect_range _ _ _ Hl Hgt); lia))).
    cbv beta iota. run_step run_write_zeros by lia.
    assert (i_block_count (set_pointer i (i_block_count i) a) = i_block_count i) as ->
      by (unfold set_pointer; by destruct (_ <? _)).
    run_step run_arith_u by lia. rewrite run_ret. do 3 eexists. split; [done|]. split; [done|].
    intros b Hav. destruct (Hbud1 b (Hbud b Hav)) as [_ Hb1]. unfold step_cost. rewrite (proj2 (Z.eqb_neq _ _) Hten).
    apply budget_write; [|lia]. unfold put_pointer. destruct (Z.ltb_spec (i_block_count i) 10); [done|].
    apply budget_write; [done|]. pose proof (file_indirect_range _ _ _ Hl ltac:(lia)). lia.
Qed.
End grow_step.

(** ** The whole of [write] *)

(** The number of blocks the growth from [c] to [r] blocks takes. *)
Definition grow_cost (c r : Z) : Z :=
  if r <=? c then 0 else r - c + (if (c <=? 10) && (10 <? r) then 1 else 0).

Lemma grow_cost_step c r : c < r → grow_cost c r = step_cost c + grow_cost (c + 1) r.
Proof.
  intros Hlt. unfold grow_cost, step_cost.
  destruct (Z.leb_spec r c), (Z.leb_spec r (c + 1)), (Z.eqb_spec c 10), (Z.leb_spec c 10),
    (Z.leb_spec (c + 1) 10), (Z.ltb_spec 10 r); simpl; lia.
Qed.

Lemma grow_cost_nonneg c r : 0 ≤ grow_cost c r.
Proof. unfold grow_cost. destruct (Z.leb_spec r c); [lia|]. destruct (_ && _); lia. Qed.

(** The contents after a write of [data] at [off]: what is between the old end and
    [off] is zero. *)
Definition written (off : Z) (data old : bytes) : bytes :=
  splice off data (old ++ zeros (Z.max (zlen old) (off + zlen data) - zlen old)).

Section write.
Context `{Clock} `{Build} (Hclock : clock_ok) (avoid : u32 → Prop).
Implicit Types (sb : SuperBlock) (i : Inode) (w : world).

Lemma run_grow_loop (fuel : nat) sb i w r n :
  (Z.to_nat (r - i_block_count i) < fuel)%nat → r ≤ 20 →
  file_layout sb i w → marked i w → bitmap_inv sb w →
  grow_cost (i_block_count i) r ≤ n → avoid (inode_block sb (i_inode_no i)) →
  (∀ b, avoid b → budget b n w) →
  ∃ sb' i' w', run (loop fuel (i, sb) (λ '(inode, sb),
      if i_block_count inode <? r then
        '(r, sb) ← SimpleFS.grow_step sb inode;
        match r with
        | None => mret (Break (None, sb))
        | Some inode => mret (Continue (inode, sb))
        end
      else mret (Break (Some inode, sb)))) w = Done (Some i', sb') w' ∧
    grown avoid (Z.max 0 (r - i_block_count i)) sb i w sb' i' w'.
Proof.
  revert sb i w n. induction fuel as [|fuel IH]; intros sb i w n Hfuel Hr Hl Hm Hi Hn HavB Hb; [lia|].
  cbn [loop]. pose proof (block_count_nonneg i (fl_wf _ _ _ Hl)).
  destruct (Z.ltb_spec (i_block_count i) r) as [Hlt|Hge].
  - pose proof (grow_cost_step _ _ Hlt) as Hcost.
    pose proof (grow_cost_nonneg (i_block_count i + 1) r).
    destruct (run_grow_step avoid sb i w n) as (sb1 & i1 & w1 & Hrun & Hg & Hb1);
      [done|done|done|lia|lia|done|done|].
    assert (i_block_count i1 = i_block_count i + 1) as Hc1 by apply Hg.
    destruct (IH sb1 i1 w1 (n - step_cost (i_block_count i))) as (sb2 & i2 & w2 & Hrun2 & Hg2);
      [lia|done|apply Hg|apply Hg|apply Hg|rewrite Hc1; lia| |done|].
    { unfold inode_block. rewrite (gr_table _ _ _ _ _ _ _ _ Hg).
      by destruct (gr_meta _ _ _ _ _ _ _ _ Hg) as [-> _]. }
    exists sb2, i2, w2. split.
    + rewrite run_bind, run_bind, Hrun. cbv beta iota. rewrite run_ret. exact Hrun2.
    + replace (Z.max 0 (r - i_block_count i)) with (1 + Z.max 0 (r - i_block_count i1)) by lia.
      eapply grown_trans; [lia|lia|exact Hg|exact Hg2].
  - exists sb, i, w. split; [done|]. replace (Z.max 0 (r - i_block_count i)) with 0 by lia.
    by apply grown_refl.
Qed.

Lemma run_grow sb i w r :
  0 ≤ r ≤ 20 → file_layout sb i w → marked i w → bitmap_inv sb w →
  avoid (inode_block sb (i_inode_no i)) →
  (∀ b, avoid b → budget b (grow_cost (i_block_count i) r) w) →
  ∃ sb' i' w', run (SimpleFS.grow sb i r) w = Done (Some i', sb') w' ∧
    grown avoid (Z.max 0 (r - i_block_count i)) sb i w sb' i' w'.
Proof.
  intros Hr Hl Hm Hi HavB Hb. pose proof (block_count_nonneg i (fl_wf _ _ _ Hl)).
  eapply run_grow_loop; [lia|lia|done|done|done|apply Z.le_refl|done|done].
Qed.

(** The bytes of the blocks are the contents and zeros. *)
Lemma raw_contents sb i w :
  file_ok sb i w → zlen (contents i w) = i_size i ∧
    raw i w = contents i w ++ zeros (zlen (raw i w) - i_size i).
Proof.
  intros [Hl Hs Hz]. assert (is_u32 (i_size i)) as Hu by (pose proof (fl_wf _ _ _ Hl) as Hwf; unfold inode_wf in Hwf; tauto).
  unfold is_u32 in Hu. unfold contents. split.
  - unfold zlen in *. rewrite length_take. lia.
  - rewrite <-(take_drop (Z.to_nat (i_size i)) (raw i w)) at 1. f_equal.
    apply list_eq. intros q. unfold zeros. rewrite Forall_forall in Hz.
    destruct (decide (q < Z.to_nat (zlen (raw i w) - i_size i))%nat) as [Hq|Hq].
    + rewrite lookup_replicate_2 by done.
      destruct (lookup_lt_is_Some_2 (drop (Z.to_nat (i_size i)) (raw i w)) q) as [x Hx].
      { rewrite length_drop. unfold zlen in *. lia. }
      rewrite Hx. f_equal. apply Hz. by eapply list_elem_of_lookup_2.
    + rewrite !lookup_ge_None_2; [done|rewrite length_replicate; lia|].
      rewrite length_drop. unfold zlen in *. lia.
Qed.

(** The bytes of the blocks after the growth and the data loop. *)
Lemma raw_written sb i w off data m :
  file_ok sb i w → 0 ≤ off → 0 ≤ m → off + zlen data ≤ zlen (raw i w) + m →
  splice off data (raw i w ++ zeros m) =
    written off data (contents i w) ++
    zeros (zlen (raw i w) + m - Z.max (i_size i) (off + zlen data)) ∧
  zlen (written off data (contents i w)) = Z.max (i_size i) (off + zlen data).
Proof.
  intros Hf Ho Hm Hfit. pose proof (fo_size _ _ _ Hf) as Hs.
  destruct (raw_contents sb i w Hf) as [Hc Hraw]. unfold written. rewrite Hc.
  set (s' := Z.max (i_size i) (off + zlen data)).
  assert (0 ≤ zlen data) by (unfold zlen; lia).
  assert (zlen (contents i w ++ zeros (s' - i_size i)) = s') as Hz
    by (rewrite zlen_app, zlen_zeros, Hc; lia).
  split; [|rewrite zlen_splice; lia].
  rewrite Hraw at 1. rewrite <-app_assoc, <-zeros_app by lia.
  replace (zlen (raw i w) - i_size i + m) with
    ((s' - i_size i) + (zlen (raw i w) + m - s')) by lia.
  rewrite zeros_app, app_assoc by lia. by rewrite splice_app_l by lia.
Qed.

(** The number of blocks a write needs. *)
Definition blocks_for (n : Z) : Z := (n + 509) / 510.

(** The state after [data] was written at [off]. *)
Record file_written (avoid : u32 → Prop) (sb : SuperBlock) (i : Inode) (w : world) (off : Z) (data : bytes)
    (sb' : SuperBlock) (i' : Inode) (w' : world) : Prop := {
  fw_ok : file_ok sb' i' w';
  fw_inv : bitmap_inv sb' w';
  fw_marked : marked i' w';
  fw_no : i_inode_no i' = i_inode_no i;
  fw_inode : disk_inode sb' w' (i_inode_no i) = Some i';
  fw_contents : contents i' w' = written off data (contents i w);
  fw_count : i_block_count i' = Z.max (i_block_count i) (blocks_for (off + zlen data));
  fw_table : sb_inode_table_start sb' = sb_inode_table_start sb;
  fw_own : ∀ b, b ∈ own_blocks i' w' → b ∈ own_blocks i w ∨ bit w b = false;
  fw_avoid : ∀ b, avoid b → b ∉ own_blocks i w → b ∉ own_blocks i' w';
  fw_bits : ∀ b, 0 ≤ b < MAX_BLOCKS → bit w b = true → bit w' b = true;
  fw_sub : ∀ b, b ∈ own_blocks i w → b ∈ own_blocks i' w';
  fw_new : ∀ b, 0 ≤ b < MAX_BLOCKS → bit w' b = true → bit w b = true ∨ b ∈ own_blocks i' w';
  fw_tidy : tidy i → tidy i';
  fw_kind : i_mode i' = i_mode i ∧ i_nlink i' = i_nlink i;
  fw_frame : ∀ b, 6 ≤ b → b ∉ own_blocks i' w' → b ≠ inode_block sb (i_inode_no i) →
    w_read w' b = w_read w b;
  fw_inodes : ∀ n, 0 ≤ n → n ≠ i_inode_no i →
    inode_block sb n ∉ own_blocks i' w' → 6 ≤ inode_block sb n →
    disk_inode sb' w' n = disk_inode sb w n;
}.

(** The end of [write]: the inode with its new size and times is stored. *)
Definition finished i (len : Z) w : Inode :=
  let i := if as_usize (i_size i) <? len then set_size i (as_u32 len) else i in
  let i := touched i w in
  set_atime i (i_mtime i).

Lemma finished_blocks i len w : own_blocks (finished i len w) w = own_blocks i w ∧
  raw (finished i len w) w = raw i w ∧ i_block_count (finished i len w) = i_block_count i ∧
  i_inode_no (finished i len w) = i_inode_no i.
Proof. unfold finished. by destruct (_ <? _). Qed.

Lemma finished_wf i len w :
  inode_wf i → 0 ≤ len < 4294967296 →
  inode_wf (finished i len w) ∧ i_size (finished i len w) = Z.max (i_size i) len.
Proof.
  intros Hwf Hlen. assert (is_u32 (i_size i)) as Hs by (unfold inode_wf in Hwf; tauto).
  unfold is_u32 in Hs. pose proof (Hclock (w_ticks w)).
  unfold finished. rewrite as_usize_id by lia.
  assert (∀ j, inode_wf j → inode_wf (set_atime (touched j w) (i_mtime (touched j w)))) as Ht.
  { intros j Hj. apply set_atime_wf; [by apply touched_wf|]. simpl. unfold is_i64. lia. }
  destruct (Z.ltb_spec (i_size i) len).
  - rewrite as_u32_id by done. split; [apply Ht, set_size_wf; done|]. simpl. lia.
  - split; [by apply Ht|]. simpl. lia.
Qed.

(** Storing the inode of a file keeps its blocks. *)
Lemma own_blocks_put sb i j w :
  inode_block sb (i_inode_no j) ∉ own_blocks i w →
  own_blocks i (put_inode sb j (w_tick w)) = own_blocks i w ∧
  raw i (put_inode sb j (w_tick w)) = raw i w.
Proof.
  intros Hno. assert (∀ b, b ∈ own_blocks i w → w_read (put_inode sb j (w_tick w)) b = w_read w b) as Hr.
  { intros b Hb. rewrite put_inode_read_ne; [done|]. by intros ->. }
  split; [|by apply raw_ext]. unfold own_blocks. f_equal. apply file_blocks_ext. intros Hc.
  apply Hr, elem_of_app. left. unfold indirect_blocks. Z_true (10 <? i_block_count i). set_solver.
Qed.

(** The allocator looks at the blocks 0 to 5 only. *)
Lemma bitmap_inv_ext sb w w' :
  bitmap_inv sb w → disk_ok w' → (∀ b, 0 ≤ b < 6 → w_read w' b = w_read w b) →
  bitmap_inv sb w' ∧ ∀ m, 0 ≤ m < MAX_BLOCKS → bit w' m = bit w m.
Proof.
  intros Hi Hok Hr.
  assert (∀ m, 0 ≤ m < MAX_BLOCKS → bit w' m = bit w m) as Hb.
  { intros m Hm. apply bit_ext; [done|]. intros k Hk. apply Hr. lia. }
  split; [|done]. destruct Hi. constructor; try done.
  - unfold disk_superblock. by rewrite Hr.
  - by rewrite (free_count_ext w).
  - intros n Hn. rewrite Hb by (consts; lia). auto.
Qed.

(** From the state after the data loop to the state after [write]. *)
Section finish.
Context (sb : SuperBlock) (i : Inode) (w : world) (off : Z) (data : bytes).
Context (sb1 : SuperBlock) (i1 : Inode) (w1 w2 : world).
Let n := Z.max 0 (blocks_for (off + zlen data) - i_block_count i).
Let i' := finished i1 (off + zlen data) w2.
Let w' := put_inode sb1 i' (w_tick w2).
Context (Hf : file_ok sb i w) (Hg : grown avoid n sb i w sb1 i1 w1).
Context (Hoff : 0 ≤ off) (Hdata : 0 < zlen data) (Hmax : off + zlen data ≤ 10200).
Context (Hl2 : file_layout sb1 i1 w2) (Hraw : raw i1 w2 = splice off data (raw i1 w1)).
Context (Hblocks : file_blocks i1 w2 = file_blocks i1 w1).
Context (Hread : ∀ b, b ∉ file_blocks i1 w1 → w_read w2 b = w_read w1 b).

Lemma finish_no : i_inode_no i' = i_inode_no i.
Proof.
  destruct (finished_blocks i1 (off + zlen data) w2) as (_ & _ & _ & Hn).
  unfold i'. rewrite Hn. apply (gr_meta _ _ _ _ _ _ _ _ Hg).
Qed.

Lemma finish_block m : inode_block sb1 m = inode_block sb m.
Proof. unfold inode_block. by rewrite (gr_table _ _ _ _ _ _ _ _ Hg). Qed.

Lemma finish_own : own_blocks i' w' = own_blocks i1 w1 ∧ own_blocks i1 w2 = own_blocks i1 w1 ∧
  raw i' w' = raw i1 w2.
Proof.
  assert (own_blocks i1 w2 = own_blocks i1 w1) as H12 by (unfold own_blocks; by rewrite Hblocks).
  assert (own_blocks i' w2 = own_blocks i1 w2 ∧ raw i' w2 = raw i1 w2) as [Ho Hr]
    by (destruct (finished_blocks i1 (off + zlen data) w2) as (? & ? & _); done).
  destruct (own_blocks_put sb1 i' i' w2) as [Ho' Hr'].
  { pose proof (fl_nodup _ _ _ Hl2) as [Hni _]%NoDup_cons. rewrite Ho, finish_no.
    by destruct (gr_meta _ _ _ _ _ _ _ _ Hg) as [<- _]. }
  split_and!; [|done|]; unfold w'; congruence.
Qed.

Lemma finish_wf : inode_wf i' ∧ i_size i' = Z.max (i_size i) (off + zlen data).
Proof.
  destruct (finished_wf i1 (off + zlen data) w2 (fl_wf _ _ _ Hl2)) as [Hwf Hs]; [lia|].
  split; [done|]. unfold i'. rewrite Hs.
  by destruct (gr_meta _ _ _ _ _ _ _ _ Hg) as (_ & _ & _ & _ & -> & _).
Qed.

Lemma finish_count : i_block_count i' = Z.max (i_block_count i) (blocks_for (off + zlen data)).
Proof.
  destruct (finished_blocks i1 (off + zlen data) w2) as (_ & _ & Hc & _). unfold i'.
  rewrite Hc, (gr_count _ _ _ _ _ _ _ _ Hg). unfold n. lia.
Qed.

Lemma finish_layout : file_layout sb1 i' w'.
Proof.
  destruct finish_own as (Ho' & Ho2 & _). destruct finish_wf as [Hwf _].
  destruct Hl2. destruct (gr_meta _ _ _ _ _ _ _ _ Hg) as (Hno & _). constructor.
  - apply disk_ok_put; [done|]. by apply inode_wf_direct.
  - done.
  - by rewrite finish_no, <-Hno.
  - rewrite finish_count, <-finish_count. unfold i'.
    by destruct (finished_blocks i1 (off + zlen data) w2) as (_ & _ & -> & _).
  - by rewrite Ho', <-Ho2.
  - by rewrite Ho', <-Ho2, finish_no, <-Hno.
Qed.

Lemma finish_inv : bitmap_inv sb1 w' ∧ ∀ m, 0 ≤ m < MAX_BLOCKS → bit w' m = bit w1 m.
Proof.
  apply (bitmap_inv_ext sb1 w1); [apply Hg|apply finish_layout|].
  intros b Hb. unfold w'. rewrite put_inode_read_ne.
  - apply Hread. intros Hin. pose proof (fl_range _ _ _ (gr_layout _ _ _ _ _ _ _ _ Hg)) as Hrange.
    rewrite Forall_forall in Hrange.
    specialize (Hrange b ltac:(apply elem_of_app; by right)). simpl in Hrange. lia.
  - pose proof (inode_ok_block _ _ (fl_no _ _ _ finish_layout)). lia.
Qed.

Lemma finish_raw :
  raw i' w' = written off data (contents i w) ++ zeros (zlen (raw i' w') - i_size i') ∧
  zlen (written off data (contents i w)) = i_size i' ∧ i_size i' ≤ zlen (raw i' w').
Proof.
  destruct finish_own as (_ & _ & Hr). destruct finish_wf as [_ Hs].
  pose proof (zlen_raw i w (fl_disk _ _ _ (fo_layout _ _ _ Hf)) (fl_wf _ _ _ (fo_layout _ _ _ Hf))) as Hz.
  pose proof (zlen_raw i' w' (fl_disk _ _ _ finish_layout) (fl_wf _ _ _ finish_layout)) as Hz'.
  rewrite finish_count in Hz'.
  pose proof (fo_size _ _ _ Hf). pose proof (block_count_nonneg i (fl_wf _ _ _ (fo_layout _ _ _ Hf))).
  assert (off + zlen data ≤ 510 * blocks_for (off + zlen data)) as Hb by (unfold blocks_for; dlia).
  destruct (raw_written sb i w off data (510 * n) Hf Hoff) as [Hw Hlen]; [unfold n; lia|unfold n; lia|].
  rewrite <-(gr_raw _ _ _ _ _ _ _ _ Hg), <-Hraw, <-Hr, <-Hs in Hw. rewrite <-Hs in Hlen.
  split_and!; [|done|lia]. rewrite Hw at 1. do 2 f_equal. unfold n. lia.
Qed.

Lemma finish_written : file_written avoid sb i w off data sb1 i' w'.
Proof.
  destruct finish_own as (Ho' & Ho2 & _). destruct finish_wf as [Hwf Hs].
  destruct finish_inv as [Hinv Hbits]. destruct finish_raw as (Hr & Hz & Hle).
  pose proof finish_no as Hno. constructor.
  - constructor; [apply finish_layout|done|].
    rewrite Hr, drop_app_ge by (unfold zlen in Hz; lia). apply Forall_drop, Forall_replicate. done.
  - done.
  - unfold marked. rewrite Ho'. apply Forall_forall. intros b Hb.
    pose proof (fl_range _ _ _ (gr_layout _ _ _ _ _ _ _ _ Hg)) as Hrange. rewrite Forall_forall in Hrange.
    specialize (Hrange b Hb). simpl in Hrange. rewrite Hbits by lia.
    by apply (proj1 (Forall_forall _ _) (gr_marked _ _ _ _ _ _ _ _ Hg)).
  - done.
  - rewrite <-Hno. apply disk_inode_put_same; [apply Hl2|done].
  - unfold contents at 1. rewrite Hr. apply take_app_length'. unfold zlen in Hz. lia.
  - apply finish_count.
  - apply Hg.
  - rewrite Ho'. apply Hg.
  - rewrite Ho'. apply Hg.
  - intros b Hb Hbit. rewrite Hbits by done. by apply (gr_bits _ _ _ _ _ _ _ _ Hg).
  - rewrite Ho'. apply Hg.
  - intros b Hb. rewrite Hbits, Ho' by done. by apply (gr_new _ _ _ _ _ _ _ _ Hg).
  - intros Ht%(gr_tidy _ _ _ _ _ _ _ _ Hg). unfold i', finished. by destruct (_ <? _).
  - destruct (gr_meta _ _ _ _ _ _ _ _ Hg) as (_ & <- & _ & _ & _ & <- & _).
    unfold i', finished. by destruct (_ <? _).
  - intros b Hb6 Hb HbB. rewrite Ho' in Hb. unfold w'. rewrite put_inode_read_ne.
    + change (w_read (w_tick w2) b) with (w_read w2 b). rewrite Hread; [by apply Hg|].
      intros Hin. apply Hb, elem_of_app. by right.
    + by rewrite Hno, finish_block.
  - intros m Hm Hne Hmb Hm6. rewrite Ho' in Hmb. unfold w'.
    rewrite disk_inode_put_other; [|apply Hl2|by apply inode_wf_direct|by rewrite Hno|done|].
    + unfold disk_inode. rewrite finish_block.
      change (w_read (w_tick w2) ?b) with (w_read w2 b).
      rewrite Hread; [by rewrite (gr_frame _ _ _ _ _ _ _ _ Hg)|].
      intros Hin. apply Hmb, elem_of_app. by right.
    + pose proof (fl_no _ _ _ finish_layout) as [? _]. done.
Qed.
End finish.

Lemma run_write sb ino i w off data :
  file_ok sb i w → marked i w → bitmap_inv sb w →
  i_inode_no i = as_u32 ino → disk_inode sb w (as_u32 ino) = Some i →
  Forall is_u8 data → 0 ≤ off → 0 < zlen data → off + zlen data ≤ 10200 →
  avoid (inode_block sb (i_inode_no i)) →
  (∀ b, avoid b → budget b (grow_cost (i_block_count i) (blocks_for (off + zlen data))) w) →
  ∃ sb' i' w', run (SimpleFS.write sb ino off data) w = Done (Ok (zlen data), sb') w' ∧
    file_written avoid sb i w off data sb' i' w'.
Proof.
  intros Hf Hm Hi Hno Hd Hu Ho Hpos Hmax HavB Hb.
  pose proof (fo_layout _ _ _ Hf) as Hl. pose proof (fl_wf _ _ _ Hl) as Hwf.
  unfold SimpleFS.write. run_step run_read_inode by (rewrite <-?Hno; first [apply Hl|by rewrite Hno]).
  Z_false (zlen data =? 0). rewrite as_usize_id by lia. consts.
  run_step run_arith_u by lia. run_step run_arith_u by lia. run_step run_arith_u by lia.
  replace (off + zlen data + 510 - 1) with (off + zlen data + 509) by lia.
  fold (blocks_for (off + zlen data)). set (r := blocks_for (off + zlen data)) in *.
  assert (0 ≤ r ≤ 20) as Hr by (unfold r, blocks_for; dlia).
  rewrite as_u32_id, as_u16_id by (unfold is_u32, is_u16; lia).
  change MAX_FILE_BLOCKS with 20. Z_false (20 <? r).
  destruct (run_grow sb i w r Hr Hl Hm Hi HavB Hb) as (sb1 & i1 & w1 & Hrun & Hg).
  run_step Hrun. cbv beta iota. rewrite (as_u32_id off) by (unfold is_u32; lia).
  assert (off + zlen data ≤ 510 * i_block_count i1) as Hfit.
  { rewrite (gr_count _ _ _ _ _ _ _ _ Hg). unfold r, blocks_for. dlia. }
  pose proof (wp_write_loop sb1 i1 data off w1 (gr_layout _ _ _ _ _ _ _ _ Hg) Hu Ho Hfit) as Hwp.
  apply wp_inv in Hwp as ([] & w2 & Hrun2 & Hl2 & Hraw & Hticks & Hbl & Hread).
  run_step Hrun2. run_step run_arith_u by lia. cbv zeta.
  run_step run_now by done. cbv zeta.
  set (i2 := set_atime _ _). assert (i2 = finished i1 (off + zlen data) w2) as -> by done.
  destruct (finished_wf i1 (off + zlen data) w2 (fl_wf _ _ _ Hl2)) as [Hwf' _]; [lia|].
  destruct (finished_blocks i1 (off + zlen data) w2) as (_ & _ & _ & Hn').
  run_step run_write_inode by
    (rewrite ?Hn'; first [exact (fl_disk _ _ _ Hl2)|apply Hl2|by apply inode_wf_direct]).
  rewrite run_ret, as_u32_id by (unfold is_u32; lia).
  do 3 eexists. split; [done|]. by eapply finish_written.
Qed.
End write.

(** The branches of [write] that do nothing. *)
Section refuse.
Context `{Clock} `{Build}.

Lemma run_write_empty sb w ino i off data :
  run (read_inode sb (as_u32 ino)) w = Done i w → zlen data = 0 →
  run (SimpleFS.write sb ino off data) w = Done (Ok 0, sb) w.
Proof. intros Hrd Hz. unfold SimpleFS.write. run_step Hrd. by rewrite (proj2 (Z.eqb_eq _ _) Hz). Qed.

Lemma run_write_efbig sb w ino i off data :
  run (read_inode sb (as_u32 ino)) w = Done i w → 0 ≤ off → 0 < zlen data →
  off + zlen data ≤ 510 * 4294967295 → 20 < blocks_for (off + zlen data) →
  run (SimpleFS.write sb ino off data) w = Done (Err EFBIG, sb) w.
Proof.
  unfold blocks_for. intros Hrd Ho Hpos Hmax Hbig. unfold SimpleFS.write.
  run_step Hrd. Z_false (zlen data =? 0). rewrite as_usize_id by lia. consts.
  run_step run_arith_u by lia. run_step run_arith_u by lia. run_step run_arith_u by lia.
  replace (off + zlen data + 510 - 1) with (off + zlen data + 509) by lia.
  rewrite as_u32_id by (unfold is_u32; dlia). change MAX_FILE_BLOCKS with 20.
  by Z_true (20 <? (off + zlen data + 509) / 510).
Qed.
End refuse.

(** ** Other files *)
Lemma own_blocks_ext i w w' :
  (∀ b, b ∈ own_blocks i w → w_read w' b = w_read w b) → own_blocks i w' = own_blocks i w.
Proof.
  intros Hr. unfold own_blocks. f_equal. apply file_blocks_ext. intros Hc.
  apply Hr, elem_of_app. left. unfold indirect_blocks. Z_true (10 <? i_block_count i). set_solver.
Qed.

Lemma file_ok_ext sb sb' i w w' :
  file_ok sb i w → disk_ok w' → sb_inode_table_start sb' = sb_inode_table_start sb →
  (∀ b, b ∈ own_blocks i w → w_read w' b = w_read w b) →
  file_ok sb' i w' ∧ contents i w' = contents i w.
Proof.
  intros [[] Hs Hz] Hok Ht Hr. pose proof (own_blocks_ext i w w' Hr) as Ho.
  pose proof (raw_ext i w w' Hr) as Hraw. split; [|unfold contents; by rewrite Hraw].
  assert (inode_block sb' (i_inode_no i) = inode_block sb (i_inode_no i)) as HB
    by (unfold inode_block; by rewrite Ht).
  constructor; [constructor|by rewrite Hraw|by rewrite Hraw]; try done.
  - unfold inode_ok in *. by rewrite Ht, HB.
  - by rewrite Ho.
  - by rewrite Ho, HB.
Qed.

(** ** Running out of space *)
Section nospace.
Context `{Clock} `{Build}.
Implicit Types (sb : SuperBlock) (i : Inode) (w : world).

(** From [w] to [w'] every block behind the map keeps its bytes, or was free and is blank
    now; what was marked stays marked. *)
Record blanked w w' : Prop := {
  bk_read : ∀ b, 6 ≤ b < MAX_BLOCKS →
    w_read w' b = w_read w b ∨ (bit w b = false ∧ w_read w' b = zeros 512);
  bk_bit : ∀ b, 0 ≤ b < MAX_BLOCKS → bit w b = true → bit w' b = true;
}.

Lemma blanked_refl w : blanked w w.
Proof. by split; [left|]. Qed.

Lemma blanked_trans w w1 w2 : blanked w w1 → blanked w1 w2 → blanked w w2.
Proof.
  intros [Hr1 Hb1] [Hr2 Hb2]. split; [|auto]. intros b Hb.
  destruct (Hr2 b Hb) as [->|[Hf Hz]]; [auto|right]. split; [|done].
  destruct (bit w b) eqn:E; [|done]. by rewrite Hb1 in Hf by (done || lia).
Qed.

(** An inode whose blocks were marked owns no block that was free. *)
Lemma blanked_owned sb w w' n j j' :
  blanked w w' → inode_ok sb n → disk_inode sb w n = Some j →
  (∀ b, b ∈ own_blocks j w → 31 ≤ b < MAX_BLOCKS ∧ bit w b = true) →
  disk_inode sb w' n = Some j' → ∀ b, b ∈ own_blocks j' w' → 31 ≤ b < MAX_BLOCKS ∧ bit w b = true.
Proof.
  intros [Hr _] (Hn & Ht & Hmax) Hj Hm Hj' b Hb.
  destruct (Hr (inode_block sb n)) as [Hsame|[_ Hz]].
  - unfold inode_block in *. dlia.
  - rewrite (disk_inode_ext sb w w' n Hsame), Hj in Hj'. injection Hj' as <-.
    apply Hm. rewrite (own_blocks_ext j w w') in Hb; [done|].
    intros c [Hc Hbit]%Hm. destruct (Hr c) as [?|[Hf _]]; [lia|done|congruence].
  - rewrite disk_inode_zeros in Hj' by done. injection Hj' as <-. by apply not_elem_of_nil in Hb.
Qed.

Lemma run_grow_step_direct sb i w :
  bitmap_inv sb w → inode_wf i → i_block_count i < 10 →
  match least_free w with
  | None => run (SimpleFS.grow_step sb i) w = Done (None, sb) w
  | Some a => ∃ sb' i' w', run (SimpleFS.grow_step sb i) w = Done (Some i', sb') w' ∧
      bitmap_inv sb' w' ∧ inode_wf i' ∧ i_block_count i' = i_block_count i + 1 ∧
      free_count w' = free_count w - 1 ∧ w_read w' a = zeros 512 ∧ blanked w w'
  end.
Proof.
  intros Hi Hwf Hc. pose proof (block_count_nonneg i Hwf). pose proof (inode_wf_direct i Hwf).
  unfold SimpleFS.grow_step. rewrite run_bind, run_allocate_block_inv by done.
  destruct (least_free w) as [a|] eqn:E; [|done]. cbv beta iota zeta.
  pose proof (least_free_allocated sb w a Hi E) as Ha. cbv zeta in Ha.
  apply least_free_Some in E as (Har & Hbit & _).
  pose proof (free_count_set_bit w a (bi_disk _ _ Hi) Har Hbit) as Hfc.
  set (sb1 := with_free_blocks (sb_free_blocks sb - 1) sb) in *.
  set (w1 := record_superblock sb1 (set_bit a w)) in *.
  pose proof (al_range _ _ _ _ _ Ha) as Ha31.
  rewrite as_u32_id by (unfold is_u32; lia). change (as_u32 DIRECT_BLOCKS) with 10.
  Z_true (i_block_count i <? 10). rewrite as_usize_id by lia.
  rewrite run_bind. run_step run_unwrap by (apply set_index_Some; lia). rewrite run_ret. cbv beta iota.
  run_step run_write_zeros by lia. cbn [i_block_count set_direct_blocks].
  run_step run_arith_u by lia. rewrite run_ret.
  do 3 eexists. split; [done|]. split_and!.
  - apply bitmap_inv_zeros; [apply Ha|lia].
  - apply set_block_count_wf; [apply set_direct_blocks_wf; [done|]|].
    + unfold is_u32. consts. lia.
    + unfold is_u16. lia.
  - done.
  - rewrite (free_count_ext w1) by (intros; by apply bit_write_ne; [|lia]).
    unfold w1. rewrite (free_count_ext (set_bit a w)) by (intros; by apply bit_record). lia.
  - apply w_read_write_eq.
  - split.
    + intros b Hb. destruct (decide (b = a)) as [->|Hne]; [right; by rewrite w_read_write_eq|left].
      rewrite w_read_write_ne by done. apply (al_frame _ _ _ _ _ Ha). lia.
    + intros b Hb Hbb. rewrite bit_write_ne, (al_bits _ _ _ _ _ Ha), Hbb by (done || lia).
      apply orb_true_r.
Qed.

Lemma run_grow_nospace_loop (fuel : nat) sb i w r :
  (Z.to_nat (r - i_block_count i) < fuel)%nat → r ≤ 10 → bitmap_inv sb w → inode_wf i →
  i_block_count i + free_count w < r →
  ∃ sb' w', run (loop fuel (i, sb) (λ '(inode, sb),
      if i_block_count inode <? r then
        '(r, sb) ← SimpleFS.grow_step sb inode;
        match r with
        | None => mret (Break (None, sb))
        | Some inode => mret (Continue (inode, sb))
        end
      else mret (Break (Some inode, sb)))) w = Done (None, sb') w' ∧
    bitmap_inv sb' w' ∧ least_free w' = None ∧ blanked w w'.
Proof.
  revert sb i w. induction fuel as [|fuel IH]; intros sb i w Hfuel Hr Hi Hwf Hlt; [lia|].
  cbn [loop]. pose proof (free_count_range w). pose proof (block_count_nonneg i Hwf).
  Z_true (i_block_count i <? r).
  pose proof (run_grow_step_direct sb i w Hi Hwf ltac:(lia)) as Hstep.
  destruct (least_free w) as [a|] eqn:E.
  - destruct Hstep as (sb1 & i1 & w1 & Hrun & Hi1 & Hwf1 & Hc1 & Hf1 & _ & Hb1).
    destruct (IH sb1 i1 w1) as (sb2 & w2 & Hrun2 & Hi2 & Hf2 & Hb2); [lia|done|done|done|lia|].
    exists sb2, w2. split; [rewrite run_bind, run_bind, Hrun; exact Hrun2|].
    split_and!; [done|done|]. by eapply blanked_trans, Hb2.
  - exists sb, w. split; [by rewrite run_bind, run_bind, Hstep|]. split; [done|].
    split; [done|apply blanked_refl].
Qed.
End nospace.

(** ** Properties *)

(** What a write of [data] at [off] relies on: the file, the allocator, and enough
    free blocks that are not the block of the inode. *)
Record can_write (sb : SuperBlock) (w : world) (ino : u64) (i : Inode) (off : i64) (data : bytes)
    : Prop := {
  cw_file : file_ok sb i w;
  cw_marked : marked i w;
  cw_inv : bitmap_inv sb w;
  cw_no : i_inode_no i = as_u32 ino;
  cw_inode : disk_inode sb w (as_u32 ino) = Some i;
  cw_bytes : Forall is_u8 data;
  cw_off : 0 ≤ off;
  cw_pos : 0 < zlen data;
  cw_max : off + zlen data ≤ 10200;
  cw_budget : budget (inode_block sb (as_u32 ino))
    (grow_cost (i_block_count i) (blocks_for (off + zlen data))) w;
}.

Section properties.
Context `{Clock} `{Build}.
Implicit Types (sb : SuperBlock) (i : Inode) (w : world) (data : bytes).

Lemma run_can_write (Hclock : clock_ok) (avoid : u32 → Prop) sb w ino i off data :
  can_write sb w ino i off data →
  (∀ b, avoid b → budget b (grow_cost (i_block_count i) (blocks_for (off + zlen data))) w) →
  ∃ sb' i' w', run (SimpleFS.write sb ino off data) w = Done (Ok (zlen data), sb') w' ∧
    file_written (λ b, b = inode_block sb (as_u32 ino) ∨ avoid b) sb i w off data sb' i' w'.
Proof.
  intros [] Hav. apply run_write; try done.
  - rewrite cw_no0. by left.
  - intros b [->|Hb]; [done|by apply Hav].
Qed.

(** C15: [read] of a file replies with the bytes [offset .. offset + size] of its
    contents, as many of them as there are; it changes nothing. *)
Theorem read_contents sb w ino i off n :
  file_ok sb i w → i_inode_no i = as_u32 ino → run (read_inode sb (as_u32 ino)) w = Done i w →
  0 ≤ off → 0 ≤ n →
  run (SimpleFS.read sb ino off n) w =
    Done (Ok (take (Z.to_nat n) (drop (Z.to_nat off) (contents i w)))) w ∧
  zlen (contents i w) = i_size i.
Proof.
  intros Hf Hno Hrd Ho Hn. pose proof (fl_no _ _ _ (fo_layout _ _ _ Hf)) as Hino.
  split; [|by eapply raw_contents].
  apply run_read; try done. rewrite Hno in Hino.
  destruct (disk_inode_Some sb w (as_u32 ino) (fl_disk _ _ _ (fo_layout _ _ _ Hf)) Hino) as (j & Hj & _).
  rewrite (run_read_inode sb _ j) in Hrd by (done || apply Hf). congruence.
Qed.

(** C14: [write] replies with the number of bytes and replaces exactly the bytes
    [offset .. offset + length] of the contents, extending the file with zeros if it
    ends before; the file on the disk is again a file, with the blocks it needs, all
    marked, and the allocator is consistent. *)
Theorem write_contents sb w ino i off data :
  clock_ok → can_write sb w ino i off data →
  ∃ sb' i' w', run (SimpleFS.write sb ino off data) w = Done (Ok (zlen data), sb') w' ∧
    run (read_inode sb' (as_u32 ino)) w' = Done i' w' ∧
    contents i' w' =
      splice off data (contents i w ++ zeros (Z.max 0 (off + zlen data - i_size i))) ∧
    i_block_count i' = Z.max (i_block_count i) ((off + zlen data + 509) / 510) ∧
    file_ok sb' i' w' ∧ marked i' w' ∧ bitmap_inv sb' w'.
Proof.
  intros Hclock Hcw. destruct (run_can_write Hclock (λ _, False) sb w ino i off data Hcw)
    as (sb' & i' & w' & Hrun & []); [done|].
  destruct (raw_contents sb i w (cw_file _ _ _ _ _ _ Hcw)) as [Hz _].
  exists sb', i', w'. split_and!; try done.
  - apply run_read_inode; [apply fw_inv0| |by rewrite <-(cw_no _ _ _ _ _ _ Hcw)].
    rewrite <-(cw_no _ _ _ _ _ _ Hcw), <-fw_no0. apply fw_ok0.
  - rewrite fw_contents0. unfold written. rewrite Hz. do 2 f_equal. f_equal. lia.
Qed.

(** What was written is read back: [read] at the offset of a [write] replies with
    the data. *)
Theorem read_after_write sb w ino i off data :
  clock_ok → can_write sb w ino i off data →
  ∃ w', run ('(_, sb) ← SimpleFS.write sb ino off data;
             SimpleFS.read sb ino off (zlen data)) w = Done (Ok data) w'.
Proof.
  intros Hclock Hcw. destruct (run_can_write Hclock (λ _, False) sb w ino i off data Hcw)
    as (sb' & i' & w' & Hrun & []); [done|].
  destruct (raw_contents sb i w (cw_file _ _ _ _ _ _ Hcw)) as [Hz _].
  pose proof (cw_off _ _ _ _ _ _ Hcw). pose proof (cw_pos _ _ _ _ _ _ Hcw).
  exists w'. run_step Hrun. cbv beta iota.
  rewrite (run_read sb' ino i'); [|done| | |done|lia].
  - rewrite fw_contents0. unfold written. do 2 f_equal.
    set (l := contents i w ++ _).
    assert (off + zlen data ≤ zlen l) as Hl.
    { unfold l. rewrite zlen_app, zlen_zeros by lia. lia. }
    pose proof (slice_splice_same off (off + zlen data) data l ltac:(lia) Hl eq_refl) as Hs.
    rewrite slice_Some in Hs by (rewrite ?zlen_splice; lia). injection Hs as Hs.
    by replace (off + zlen data - off) with (zlen data) in Hs by lia.
  - by rewrite fw_no0, (cw_no _ _ _ _ _ _ Hcw).
  - by rewrite <-(cw_no _ _ _ _ _ _ Hcw).
Qed.

(** C19: [write] to a file does not show in another file: every [read] of the other
    file replies as before, also when the two inodes share a block. *)
Theorem write_isolated sb w ino i off data ino' j :
  clock_ok → can_write sb w ino i off data →
  file_ok sb j w → marked j w → i_inode_no j = as_u32 ino' →
  disk_inode sb w (as_u32 ino') = Some j → as_u32 ino' ≠ as_u32 ino →
  (∀ b, b ∈ own_blocks j w → b ∉ own_blocks i w ∧ b ≠ inode_block sb (as_u32 ino)) →
  inode_block sb (as_u32 ino') ∉ own_blocks i w →
  budget (inode_block sb (as_u32 ino'))
    (grow_cost (i_block_count i) (blocks_for (off + zlen data))) w →
  ∃ sb' w', run (SimpleFS.write sb ino off data) w = Done (Ok (zlen data), sb') w' ∧
    ∀ off' n r, 0 ≤ off' → 0 ≤ n →
      run (SimpleFS.read sb ino' off' n) w = Done r w →
      run (SimpleFS.read sb' ino' off' n) w' = Done r w'.
Proof.
  intros Hclock Hcw Hfj Hmj Hnoj Hj Hne Hdis Hblk Hbud.
  destruct (run_can_write Hclock (λ b, b = inode_block sb (as_u32 ino')) sb w ino i off data Hcw)
    as (sb' & i' & w' & Hrun & []); [by intros b ->|].
  exists sb', w'. split; [done|]. intros off' n r Ho Hn.
  pose proof (fo_layout _ _ _ Hfj) as Hlj.
  destruct (file_ok_ext sb sb' j w w' Hfj (bi_disk _ _ fw_inv0) fw_table0) as [Hfj' Hc'].
  { intros b Hb. destruct (Hdis b Hb) as [Hni HnB].
    pose proof (proj1 (Forall_forall _ _) (fl_range _ _ _ Hlj) b Hb) as Hr. simpl in Hr.
    apply fw_frame0; [lia| |by rewrite (cw_no _ _ _ _ _ _ Hcw)].
    intros [Hin|Hfree]%fw_own0; [done|].
    pose proof (proj1 (Forall_forall _ _) Hmj b Hb) as Hbit. simpl in Hbit. congruence. }
  rewrite (run_read sb ino' j) by done. intros [= <-].
  rewrite (run_read sb' ino' j); [by rewrite Hc'|done|done| |done|done].
  pose proof (fl_no _ _ _ Hlj) as Hino. rewrite Hnoj in Hino.
  rewrite fw_inodes0; [done|apply Hino|by rewrite (cw_no _ _ _ _ _ _ Hcw)| |].
  - apply fw_avoid0; [by right|done].
  - apply inode_ok_block in Hino. lia.
Qed.

(** A [write] beyond the 20 blocks a file can have, up to the offsets whose number
    of blocks fits in 32 bits, replies [EFBIG] and changes nothing, and so does an empty
    [write], which replies 0. *)
Theorem write_refused sb w ino off data i :
  disk_ok w → inode_ok sb (as_u32 ino) → run (read_inode sb (as_u32 ino)) w = Done i w →
  0 ≤ off → off + zlen data ≤ 510 * 4294967295 →
  (zlen data = 0 → run (SimpleFS.write sb ino off data) w = Done (Ok 0, sb) w) ∧
  (0 < zlen data → 10200 < off + zlen data →
     run (SimpleFS.write sb ino off data) w = Done (Err EFBIG, sb) w).
Proof.
  intros Hok Hino Hrd Ho Hmax. split.
  - intros Hz. by eapply run_write_empty.
  - intros Hpos Hbig. eapply run_write_efbig; [done|done|done|done|].
    unfold blocks_for. dlia.
Qed.

(** C37: the number of blocks is computed in 32 bits: a [write] at the offset
    [510 * 2^32 + o], beyond any file, is not refused but overwrites the bytes at [o],
    and cuts the file after them. *)
Theorem write_wraps_around sb w ino i o data :
  clock_ok → can_write sb w ino i o data →
  o + zlen data ≤ 510 * i_block_count i → o + zlen data < i_size i →
  ∃ sb' i' w', run (SimpleFS.write sb ino (510 * 4294967296 + o) data) w =
      Done (Ok (zlen data), sb') w' ∧
    run (read_inode sb' (as_u32 ino)) w' = Done i' w' ∧
    i_size i' = o + zlen data ∧ raw i' w' = splice o data (raw i w).
Proof.
  intros Hclock [] Hfit Hsize. pose proof (fo_layout _ _ _ cw_file0) as Hl.
  pose proof (fl_wf _ _ _ Hl) as Hwf. set (off := 510 * 4294967296 + o).
  pose proof (fl_no _ _ _ Hl) as Hino.
  assert (is_u32 (i_size i)) as Hsz by (unfold inode_wf in Hwf; tauto). unfold is_u32 in Hsz.
  unfold SimpleFS.write. run_step run_read_inode by (rewrite <-?cw_no0; first [apply Hl|by rewrite cw_no0]).
  Z_false (zlen data =? 0). unfold off in *. rewrite (as_usize_id (_ + o)) by lia. consts.
  run_step run_arith_u by lia. run_step run_arith_u by lia. run_step run_arith_u by lia.
  set (r := blocks_for (o + zlen data)).
  assert (as_u32 ((510 * 4294967296 + o + zlen data + 510 - 1) / 510) = r) as ->.
  { unfold as_u32, r, blocks_for. dlia. }
  assert (0 ≤ r ≤ i_block_count i) as Hr by (unfold r, blocks_for; dlia).
  pose proof (fl_count _ _ _ Hl). change MAX_FILE_BLOCKS with 20. Z_false (20 <? r).
  rewrite as_u16_id by (unfold is_u16; lia).
  assert (run (SimpleFS.grow sb i r) w = Done (Some i, sb) w) as Hgrow.
  { unfold SimpleFS.grow. cbn [loop]. Z_false (i_block_count i <? r). done. }
  run_step Hgrow. cbv beta iota.
  assert (as_u32 (510 * 4294967296 + o) = o) as ->.
  { unfold as_u32. dlia. }
  assert ((510 * 4294967296 + o) mod 510 = o mod 510) as -> by dlia.
  pose proof (wp_write_loop sb i data o w Hl cw_bytes0 cw_off0 Hfit) as Hwp.
  apply wp_inv in Hwp as ([] & w2 & Hrun2 & Hl2 & Hraw & _ & _ & _).
  run_step Hrun2. run_step run_arith_u by lia. rewrite as_usize_id by lia.
  Z_true (i_size i <? 510 * 4294967296 + o + zlen data).
  assert (as_u32 (510 * 4294967296 + o + zlen data) = o + zlen data) as -> by (unfold as_u32; dlia).
  run_step (run_now Hclock) by done. cbv zeta.
  set (i2 := set_atime _ _).
  assert (i2 = set_atime (touched (set_size i (o + zlen data)) w2)
    (clock_at (w_ticks w2))) as Hi2 by done.
  assert (inode_wf i2) as Hwf2.
  { rewrite Hi2. apply set_atime_wf.
    - apply (touched_wf Hclock), set_size_wf; [done|]. unfold is_u32. lia.
    - unfold is_i64. pose proof (Hclock (w_ticks w2)). lia. }
  assert (i_inode_no i2 = i_inode_no i) as Hn2 by done.
  run_step run_write_inode by
    (rewrite ?Hn2; first [exact (fl_disk _ _ _ Hl2)|apply Hl|by apply inode_wf_direct]).
  rewrite run_ret, as_u32_id by (unfold is_u32; lia).
  assert (disk_ok (put_inode sb i2 (w_tick w2))) as Hok3
    by (apply disk_ok_put; [apply Hl2|by apply inode_wf_direct]).
  do 3 eexists. split; [done|]. split_and!.
  - apply run_read_inode; [done|by rewrite <-cw_no0|].
    rewrite <-cw_no0, <-Hn2. apply disk_inode_put_same; [apply Hl2|done].
  - done.
  - rewrite <-Hraw. destruct (own_blocks_put Hclock sb i2 i2 w2) as [_ Hr'].
    + pose proof (fl_nodup _ _ _ Hl2) as [Hni _]%NoDup_cons. exact Hni.
    + exact Hr'.
Qed.

(** C36: when the disk has too few free blocks for a file of at most ten blocks,
    [write] replies [ENOSPC], but every block that was free is marked now and nothing is
    left to allocate; and no inode owns these blocks: one that owned only marked blocks
    before the write, the file included, owns after it no block that was free. *)
Theorem write_no_space_leaks sb w ino i off data :
  disk_ok w → inode_ok sb (as_u32 ino) → run (read_inode sb (as_u32 ino)) w = Done i w →
  bitmap_inv sb w → 0 ≤ off → 0 < zlen data → off + zlen data ≤ 5100 →
  i_block_count i + free_count w < (off + zlen data + 509) / 510 →
  ∃ sb' w', run (SimpleFS.write sb ino off data) w = Done (Err ENOSPC, sb') w' ∧
    bitmap_inv sb' w' ∧ sb_free_blocks sb' = 0 ∧
    run (allocate_block sb') w' = Done (None, sb') w' ∧
    (∀ b, 0 ≤ b < MAX_BLOCKS → bit w' b = true) ∧
    ∀ n j j', inode_ok sb n → disk_inode sb w n = Some j →
      (∀ b, b ∈ own_blocks j w → 31 ≤ b < MAX_BLOCKS ∧ bit w b = true) →
      disk_inode sb' w' n = Some j' → ∀ b, bit w b = false → b ∉ own_blocks j' w'.
Proof.
  intros Hok Hino Hrd Hi Ho Hpos Hmax Hfew.
  destruct (disk_inode_Some sb w _ Hok Hino) as (j & Hj & Hwf & _).
  assert (j = i) as -> by (rewrite (run_read_inode sb _ j) in Hrd by done; congruence).
  unfold SimpleFS.write. run_step Hrd. Z_false (zlen data =? 0). rewrite as_usize_id by lia. consts.
  run_step run_arith_u by lia. run_step run_arith_u by lia. run_step run_arith_u by lia.
  replace (off + zlen data + 510 - 1) with (off + zlen data + 509) by lia.
  set (r := (off + zlen data + 509) / 510) in *. assert (0 ≤ r ≤ 10) as Hr by (unfold r; dlia).
  rewrite as_u32_id, as_u16_id by (unfold is_u32, is_u16; lia).
  change MAX_FILE_BLOCKS with 20. Z_false (20 <? r).
  pose proof (block_count_nonneg i Hwf).
  destruct (run_grow_nospace_loop (S (Z.to_nat r)) sb i w r) as (sb1 & w1 & Hrun & Hi1 & Hf1 & Hb1);
    [lia|lia|done|done|done|].
  assert (run (SimpleFS.grow sb i r) w = Done (None, sb1) w1) as Hgrow by exact Hrun.
  run_step Hgrow. exists sb1, w1. split; [done|]. split; [done|].
  pose proof (bi_count _ _ Hi1) as Hc1. rewrite (free_count_none _ Hf1) in Hc1. split; [done|].
  split; [unfold allocate_block; by rewrite (proj2 (Z.eqb_eq _ _) Hc1)|].
  split; [by apply least_free_None|].
  intros n k k' Hn Hk Hm Hk' b Hbit Hin.
  assert (disk_inode sb w1 n = Some k') as Hk1.
  { rewrite <-Hk'. unfold disk_inode, inode_block. by rewrite (bi_table _ _ Hi), (bi_table _ _ Hi1). }
  destruct (blanked_owned sb w w1 n k k' Hb1 Hn Hk Hm Hk1 b Hin). congruence.
Qed.

(** C34: the blocks of the inodes that [create] and [mkdir] hand out lie in the data area
    and are free in the map.  When such a block is the next free one, a file that grows
    takes it, and every inode in it is lost: it reads as zeros, which is a free inode. *)
Theorem growth_destroys_inodes sb w i n :
  bitmap_inv sb w → inode_wf i → i_block_count i < 10 → least_free w = Some (inode_block sb n) →
  ∃ sb' i' w', run (SimpleFS.grow_step sb i) w = Done (Some i', sb') w' ∧
    i_block_count i' = i_block_count i + 1 ∧
    ∀ m, inode_block sb m = inode_block sb n → disk_inode sb w' m = Some (zero_inode m).
Proof.
  intros Hi Hwf Hc Hleast. pose proof (run_grow_step_direct sb i w Hi Hwf Hc) as Hstep.
  rewrite Hleast in Hstep. destruct Hstep as (sb' & i' & w' & Hrun & _ & _ & Hcount & _ & Hz & _).
  exists sb', i', w'. split_and!; [done|done|]. intros m Hm. apply disk_inode_zeros. by rewrite Hm.
Qed.
End properties.

(** ** Witnesses

    Two files: inode 1000 with three bytes in block 31, and inode 1001, empty. *)
Definition sample_file : Inode :=
  {| i_inode_no := 1000; i_mode := 33188; i_uid := 1000; i_gid := 1000; i_size := 3;
     i_nlink := 1; i_block_count := 1; i_mtime := 0; i_atime := 0; i_ctime := 0;
     i_direct_blocks := 31 :: replicate 9 0; i_indirect_block := 0 |}.
Definition empty_file : Inode :=
  {| i_inode_no := 1001; i_mode := 33188; i_uid := 1000; i_gid := 1000; i_size := 0;
     i_nlink := 1; i_block_count := 0; i_mtime := 0; i_atime := 0; i_ctime := 0;
     i_direct_blocks := replicate 10 0; i_indirect_block := 0 |}.
Definition file_world : world :=
  put_inode sb_one empty_file (put_inode sb_one sample_file
    (w_write 31 (splice 0 [1; 2; 3] (zeros 512)) map_one)).

#[local] Instance zero_clock : Clock := λ _, 0.
#[local] Instance checked_build : Build := true.

Lemma inode_ok_1000 : inode_ok sb_one 1000.
Proof. split_and!; vm_compute; (done || discriminate). Qed.
Lemma inode_ok_1001 : inode_ok sb_one 1001.
Proof. split_and!; vm_compute; (done || discriminate). Qed.

Lemma file_world_inv : bitmap_inv sb_one file_world.
Proof.
  apply bitmap_inv_put; [|exact inode_ok_1001|done].
  apply bitmap_inv_put; [|exact inode_ok_1000|done].
  apply bitmap_inv_write; [apply map_one_inv|done|done|].
  apply (bool_decide_unpack _). vm_compute. reflexivity.
Qed.

Lemma sample_file_ok : file_ok sb_one sample_file file_world.
Proof. apply (bool_decide_unpack _). vm_compute. reflexivity. Qed.
Lemma empty_file_ok : file_ok sb_one empty_file file_world.
Proof. apply (bool_decide_unpack _). vm_compute. reflexivity. Qed.

Lemma sample_file_inode : disk_inode sb_one file_world 1000 = Some sample_file.
Proof. vm_compute. reflexivity. Qed.
Lemma empty_file_inode : disk_inode sb_one file_world 1001 = Some empty_file.
Proof. vm_compute. reflexivity. Qed.

Lemma sample_file_marked : marked sample_file file_world.
Proof.
  assert (own_blocks sample_file file_world = [31]) as Ho by (vm_compute; reflexivity).
  assert (bit file_world 31 = true) as Hb by (vm_compute; reflexivity).
  unfold marked. rewrite Ho. constructor; [exact Hb|constructor].
Qed.
Lemma empty_file_marked : marked empty_file file_world.
Proof.
  assert (own_blocks empty_file file_world = []) as Ho by (vm_compute; reflexivity).
  unfold marked. rewrite Ho. constructor.
Qed.

Lemma file_world_budget n : n ≤ 140 → budget 172 n file_world.
Proof.
  intros Hn. assert (140 <=? free_below 172 file_world = true) as Hb%Z.leb_le by (vm_compute; reflexivity).
  pose proof (bi_count _ _ file_world_inv) as Hc. change (sb_free_blocks sb_one) with 20448 in Hc.
  split; [consts; lia|]. rewrite <-Hc. split; [lia|right; lia].
Qed.

Lemma sample_can_write off data :
  0 ≤ off → 0 < zlen data → off + zlen data ≤ 10200 → Forall is_u8 data →
  can_write sb_one file_world 1000 sample_file off data.
Proof.
  intros Ho Hd Hm Hu.
  refine (Build_can_write sb_one file_world 1000 sample_file off data sample_file_ok sample_file_marked file_world_inv eq_refl
    sample_file_inode Hu Ho Hd Hm _).
  change (inode_block sb_one (as_u32 1000)) with 172. apply file_world_budget.
  unfold grow_cost, blocks_for. change (i_block_count sample_file) with 1.
  destruct (Z.leb_spec ((off + zlen data + 509) / 510) 1); [lia|].
  destruct (_ && _); dlia.
Qed.

Lemma sample_read : run (read_inode sb_one 1000) file_world = Done sample_file file_world.
Proof.
  exact (run_read_inode sb_one 1000 sample_file file_world (bi_disk _ _ file_world_inv)
           inode_ok_1000 sample_file_inode).
Qed.

Lemma read_contents_witness :
  run (SimpleFS.read sb_one 1000 1 10) file_world =
    Done (Ok (take (Z.to_nat 10) (drop (Z.to_nat 1) (contents sample_file file_world)))) file_world ∧
  zlen (contents sample_file file_world) = i_size sample_file.
Proof.
  exact (read_contents sb_one file_world 1000 sample_file 1 10 sample_file_ok eq_refl sample_read
           ltac:(lia) ltac:(lia)).
Defined.

(** 600 bytes at offset 100, into a second block. *)
Definition sample_data : bytes := replicate 600 7.

Lemma sample_data_u8 : Forall is_u8 sample_data.
Proof. apply Forall_replicate. unfold is_u8. lia. Qed.

Lemma sample_write : can_write sb_one file_world 1000 sample_file 100 sample_data.
Proof. apply sample_can_write; [done|done|done|exact sample_data_u8]. Qed.

Lemma empty_write : can_write sb_one file_world 1001 empty_file 100 sample_data.
Proof.
  refine (Build_can_write sb_one file_world 1001 empty_file 100 sample_data empty_file_ok
    empty_file_marked file_world_inv eq_refl empty_file_inode sample_data_u8 _ _ _ _);
    [lia|reflexivity|discriminate|].
  apply (file_world_budget (grow_cost (i_block_count empty_file) (blocks_for (100 + zlen sample_data)))).
  vm_compute. discriminate.
Qed.

Lemma write_contents_witness :
  ∃ sb' i' w', run (SimpleFS.write sb_one 1000 100 sample_data) file_world =
      Done (Ok (zlen sample_data), sb') w' ∧
    run (read_inode sb' (as_u32 1000)) w' = Done i' w' ∧
    contents i' w' = splice 100 sample_data (contents sample_file file_world ++
      zeros (Z.max 0 (100 + zlen sample_data - i_size sample_file))) ∧
    i_block_count i' = Z.max (i_block_count sample_file) ((100 + zlen sample_data + 509) / 510) ∧
    file_ok sb' i' w' ∧ marked i' w' ∧ bitmap_inv sb' w'.
Proof.
  exact (write_contents sb_one file_world 1000 sample_file 100 sample_data zero_clock_ok sample_write).
Defined.

Lemma read_after_write_witness :
  ∃ w', run ('(_, sb) ← SimpleFS.write sb_one 1000 100 sample_data;
             SimpleFS.read sb 1000 100 (zlen sample_data)) file_world = Done (Ok sample_data) w'.
Proof.
  exact (read_after_write sb_one file_world 1000 sample_file 100 sample_data zero_clock_ok sample_write).
Defined.

(** Both inodes lie in the block 172; the file that is read has a block of its own. *)
Lemma write_isolated_witness :
  contents sample_file file_world = [1; 2; 3] ∧ inode_block sb_one 1000 = inode_block sb_one 1001 ∧
  ∃ sb' w', run (SimpleFS.write sb_one 1001 100 sample_data) file_world =
      Done (Ok (zlen sample_data), sb') w' ∧
    ∀ off' n r, 0 ≤ off' → 0 ≤ n →
      run (SimpleFS.read sb_one 1000 off' n) file_world = Done r file_world →
      run (SimpleFS.read sb' 1000 off' n) w' = Done r w'.
Proof.
  assert (own_blocks empty_file file_world = []) as He by (vm_compute; reflexivity).
  assert (own_blocks sample_file file_world = [31]) as Ho by (vm_compute; reflexivity).
  split; [vm_compute; reflexivity|]. split; [reflexivity|].
  apply (write_isolated sb_one file_world 1001 empty_file 100 sample_data 1000 sample_file
    zero_clock_ok empty_write sample_file_ok sample_file_marked eq_refl sample_file_inode).
  - discriminate.
  - intros b Hb. rewrite Ho in Hb. apply list_elem_of_singleton in Hb as ->. rewrite He.
    split; [apply not_elem_of_nil|discriminate].
  - rewrite He. apply not_elem_of_nil.
  - apply file_world_budget. vm_compute. discriminate.
Defined.

Lemma write_refused_witness :
  (zlen sample_data = 0 →
     run (SimpleFS.write sb_one 1000 9700 sample_data) file_world = Done (Ok 0, sb_one) file_world) ∧
  (0 < zlen sample_data → 10200 < 9700 + zlen sample_data →
     run (SimpleFS.write sb_one 1000 9700 sample_data) file_world =
       Done (Err EFBIG, sb_one) file_world).
Proof.
  apply (write_refused sb_one file_world 1000 9700 sample_data sample_file
    (bi_disk _ _ file_world_inv) inode_ok_1000 sample_read); [lia|].
  change (zlen sample_data) with 600. lia.
Defined.

Lemma write_wraps_around_witness :
  ∃ sb' i' w', run (SimpleFS.write sb_one 1000 (510 * 4294967296 + 1) [9]) file_world =
      Done (Ok (zlen [9]), sb') w' ∧
    run (read_inode sb' (as_u32 1000)) w' = Done i' w' ∧
    i_size i' = 1 + zlen [9] ∧ raw i' w' = splice 1 [9] (raw sample_file file_world).
Proof.
  assert (can_write sb_one file_world 1000 sample_file 1 [9]) as Hc.
  { apply sample_can_write; [done|done|done|]. constructor; [|constructor]. unfold is_u8. lia. }
  apply (write_wraps_around sb_one file_world 1000 sample_file 1 [9] zero_clock_ok Hc).
  - vm_compute. discriminate.
  - vm_compute. reflexivity.
Defined.

(** A disk without a free block. *)
Definition sb_full : SuperBlock := with_free_blocks 0 initial_superblock.
Definition full_world : world :=
  foldl (λ w b, w_write b (replicate 512 255) w) (w_write 0 (superblock_block sb_full) blank_world)
    [1; 2; 3; 4; 5].

Lemma full_world_bit m : 0 ≤ m < MAX_BLOCKS → bit full_world m = true.
Proof.
  intros Hm. pose proof (bitmap_block_range m Hm) as Hb. unfold bit.
  assert (w_read full_world (1 + m / 4096) = replicate 512 255) as ->.
  { generalize dependent (1 + m / 4096). intros b Hb.
    assert (b = 1 ∨ b = 2 ∨ b = 3 ∨ b = 4 ∨ b = 5) as [->|[->|[->|[->| ->]]]] by lia; reflexivity. }
  rewrite (list_lookup_total_correct _ _ 255) by (apply lookup_replicate_2; dlia).
  apply testbit_255. dlia.
Qed.

Lemma full_world_count : free_count full_world = 0.
Proof. apply free_count_none, least_free_None. exact full_world_bit. Qed.

Lemma full_world_inv : bitmap_inv sb_full full_world.
Proof.
  assert (disk_ok full_world) as Hok by (apply (bool_decide_unpack _); vm_compute; reflexivity).
  assert (disk_superblock full_world = Some sb_full) as Hsb by (vm_compute; reflexivity).
  refine (Build_bitmap_inv sb_full full_world Hok Hsb eq_refl eq_refl eq_refl _ _).
  - rewrite full_world_count. reflexivity.
  - intros n Hn. apply full_world_bit. consts. lia.
Qed.

(** The same disk with the block 40 free and [sample_file] on it; a write of 1021 bytes
    needs two blocks more. *)
Definition sb_last : SuperBlock := with_free_blocks 1 initial_superblock.
Definition last_world : world :=
  put_inode sb_last sample_file (record_superblock sb_last (clear_bit 40 full_world)).

Lemma last_world_inv : bitmap_inv sb_last last_world.
Proof.
  apply bitmap_inv_put; [|split_and!; vm_compute; (done || discriminate)|done].
  apply (bitmap_inv_clear sb_full full_world 40 full_world_inv); [consts; lia|].
  apply full_world_bit. consts. lia.
Qed.

Lemma last_world_count : free_count last_world = 1.
Proof. symmetry. apply (bi_count _ _ last_world_inv). Qed.

Lemma write_no_space_leaks_witness :
  bit last_world 40 = false ∧
  ∃ sb' w', run (SimpleFS.write sb_last 1000 0 (replicate 1021 7)) last_world =
      Done (Err ENOSPC, sb') w' ∧ bit w' 40 = true ∧
    run (allocate_block sb') w' = Done (None, sb') w' ∧
    ∀ j, disk_inode sb' w' 1000 = Some j → 40 ∉ own_blocks j w'.
Proof.
  assert (bit last_world 40 = false) as Hfree by (vm_compute; reflexivity). split; [exact Hfree|].
  assert (inode_ok sb_last 1000) as Hn by (split_and!; vm_compute; (done || discriminate)).
  assert (disk_inode sb_last last_world 1000 = Some sample_file) as Hi by (vm_compute; reflexivity).
  assert (own_blocks sample_file last_world = [31]) as Hown by (vm_compute; reflexivity).
  assert (bit last_world 31 = true) as H31 by (vm_compute; reflexivity).
  destruct (write_no_space_leaks sb_last last_world 1000 sample_file 0 (replicate 1021 7)
    (bi_disk _ _ last_world_inv) Hn (run_read_inode _ _ _ _ (bi_disk _ _ last_world_inv) Hn Hi)
    last_world_inv) as (sb' & w' & Hrun & _ & _ & Hall & Hbits & Hout).
  - lia.
  - reflexivity.
  - discriminate.
  - rewrite last_world_count. reflexivity.
  - exists sb', w'. split_and!; [exact Hrun|apply Hbits; consts; lia|exact Hall|].
    intros j Hj. apply (Hout 1000 sample_file j Hn Hi); [|exact Hj|exact Hfree].
    intros b Hb. rewrite Hown in Hb. apply list_elem_of_singleton in Hb as ->.
    split; [consts; lia|exact H31].
Defined.

(** A map whose first 89 blocks are marked: the next one is that of the inodes 498 to
    503; the inode 500, the first of [mkdir], is in use. *)
Definition sb_low : SuperBlock := with_free_blocks 20391 initial_superblock.
Definition low_map : bytes := replicate 11 255 ++ [1] ++ zeros 500.
Definition doomed_dir : Inode :=
  {| i_inode_no := 500; i_mode := 16877; i_uid := 1000; i_gid := 1000; i_size := 0; i_nlink := 2;
     i_block_count := 0; i_mtime := 0; i_atime := 0; i_ctime := 0;
     i_direct_blocks := replicate 10 0; i_indirect_block := 0 |}.
Definition low_world : world :=
  put_inode sb_low doomed_dir
    (w_write 1 low_map (w_write 0 (superblock_block sb_low) blank_world)).

Lemma low_world_bits : first_marked 89 low_world.
Proof.
  intros m Hm. destruct (decide (m < 96)) as [Hlt|Hge].
  - assert (Forall (λ m, bit low_world m = bool_decide (m < 89)) (seqZ 0 96)) as Hf
      by (apply (bool_decide_unpack _); vm_compute; reflexivity).
    apply (proj1 (Forall_forall _ _) Hf), elem_of_seqZ. lia.
  - rewrite bool_decide_false by lia. unfold bit.
    assert (w_read low_world (1 + m / 4096) !!! Z.to_nat (m / 8 mod 512) = 0) as ->; [|apply Z.bits_0].
    destruct (decide (m < 4096)) as [Hs|Hs].
    + replace (1 + m / 4096) with 1 by dlia. change (w_read low_world 1) with low_map.
      apply list_lookup_total_correct. unfold low_map.
      rewrite !lookup_app_r by (simpl; dlia). unfold zeros. apply lookup_replicate_2. simpl. dlia.
    + pose proof (bitmap_block_range m Hm) as Hb.
      assert (w_read low_world (1 + m / 4096) = zeros 512) as ->.
      { assert (1 < 1 + m / 4096) as Hb' by dlia. generalize dependent (1 + m / 4096). intros b Hb Hb'.
        assert (b = 2 ∨ b = 3 ∨ b = 4 ∨ b = 5) as [->|[->|[->| ->]]] by lia; reflexivity. }
      apply list_lookup_total_correct. unfold zeros. apply lookup_replicate_2. dlia.
Qed.

Lemma low_world_inv : bitmap_inv sb_low low_world.
Proof.
  assert (disk_ok low_world) as Hok by (apply (bool_decide_unpack _); vm_compute; reflexivity).
  assert (disk_superblock low_world = Some sb_low) as Hsb by (vm_compute; reflexivity).
  refine (Build_bitmap_inv sb_low low_world Hok Hsb eq_refl eq_refl eq_refl _ _).
  - rewrite (free_count_prefix low_world 89) by (exact low_world_bits || (consts; lia)). reflexivity.
  - intros n Hn. rewrite low_world_bits by (consts; lia). apply bool_decide_true. lia.
Qed.

Lemma growth_destroys_inodes_witness :
  disk_inode sb_low low_world 500 = Some doomed_dir ∧
  ∃ sb' i' w', run (SimpleFS.grow_step sb_low empty_file) low_world = Done (Some i', sb') w' ∧
    i_block_count i' = 0 + 1 ∧
    ∀ m, inode_block sb_low m = inode_block sb_low 500 → disk_inode sb_low w' m = Some (zero_inode m).
Proof.
  split; [vm_compute; reflexivity|].
  apply (growth_destroys_inodes sb_low low_world empty_file 500 low_world_inv).
  - apply (bool_decide_unpack _). vm_compute. reflexivity.
  - reflexivity.
  - exact (first_marked_least 89 low_world ltac:(consts; lia) low_world_bits).
Defined.
