(* ===== verification/Format.v ===== *)
(** * Format: formatting and mounting a disk ([format_new_fs] and [SimpleFS::mount] of
    [src/fs.rs])

    A freshly formatted disk satisfies the invariants the other operations keep, and a
    mount of a disk that satisfies them returns its superblock. *)
From S2P Require Import Prelude Disk Superblock Bitmap Inode Directory Fs.

(** ** The first block of a directory *)
Section dir_block.
Implicit Types (w : world) (self parent b : u32).

Definition dot_entry self : DirEntry := DirEntry_new self (str ".") true.
Definition dotdot_entry parent : DirEntry := DirEntry_new parent (str "..") true.

Lemma good_dot : good_name (str ".").
Proof. by apply (bool_decide_unpack _). Qed.
Lemma good_dotdot : good_name (str "..").
Proof. by apply (bool_decide_unpack _). Qed.

Lemma dot_entry_wf self : is_u32 self → entry_wf (dot_entry self).
Proof. intros. apply DirEntry_new_wf; [done|apply good_dot]. Qed.
Lemma dotdot_entry_wf parent : is_u32 parent → entry_wf (dotdot_entry parent).
Proof. intros. apply DirEntry_new_wf; [done|apply good_dotdot]. Qed.

Lemma zlen_entry e : entry_wf e → zlen (DirEntry_to_bytes e) = 34.
Proof. intros (_&_&_&?&_). by apply zlen_DirEntry_to_bytes. Qed.

Lemma dir_block_wf self parent :
  is_u32 self → is_u32 parent →
  zlen (SimpleFS.dir_block self parent) = 512 ∧ Forall is_u8 (SimpleFS.dir_block self parent).
Proof.
  intros Hs Hp. unfold SimpleFS.dir_block. change DIR_ENTRY_SIZE with 34. consts.
  fold (dot_entry self) (dotdot_entry parent).
  pose proof (zlen_entry _ (dot_entry_wf _ Hs)). pose proof (zlen_entry _ (dotdot_entry_wf _ Hp)).
  assert (zlen (splice 0 (DirEntry_to_bytes (dot_entry self)) (zeros 512)) = 512)
    by (rewrite zlen_splice; rewrite ?zlen_zeros by lia; lia).
  split; [rewrite zlen_splice; lia|].
  apply Forall_splice; [by apply DirEntry_to_bytes_u8, dotdot_entry_wf|].
  apply Forall_splice; [by apply DirEntry_to_bytes_u8, dot_entry_wf|apply Forall_zeros].
Qed.

(** Its entries: "." and "..", and free ones. *)
Lemma dir_block_slots self parent b :
  is_u32 self → is_u32 parent →
  ∃ rest, block_slots b (SimpleFS.dir_block self parent) =
      (dot_entry self, b, 0) :: (dotdot_entry parent, b, 34) :: rest ∧
    ∀ s, s ∈ rest → DirEntry_is_empty (fst (fst s)) = true.
Proof.
  intros Hs Hp. unfold SimpleFS.dir_block. change DIR_ENTRY_SIZE with 34. consts.
  fold (dot_entry self) (dotdot_entry parent).
  pose proof (dot_entry_wf _ Hs) as Hd. pose proof (dotdot_entry_wf _ Hp) as Hdd.
  pose proof (zlen_entry _ Hd) as Hz. pose proof (zlen_entry _ Hdd) as Hzz.
  set (b1 := splice 0 (DirEntry_to_bytes (dot_entry self)) (zeros 512)).
  assert (zlen b1 = 512) as Hb1
    by (unfold b1; rewrite zlen_splice; rewrite ?zlen_zeros by lia; lia).
  unfold block_slots. change (seqZ 0 15) with (0 :: 1 :: seqZ 2 13). cbn [fmap list_fmap].
  change (0 * 34) with 0. change (1 * 34) with 34.
  rewrite (entry_of_splice_same _ b1) by (done || lia).
  rewrite (entry_of_splice_other _ b1) by lia. unfold b1 at 1.
  rewrite (entry_of_splice_same _ (zeros 512)) by (done || lia).
  eexists. split; [done|]. intros s (j & -> & Hj%elem_of_seqZ)%list_elem_of_fmap. simpl.
  rewrite (entry_of_splice_other _ b1) by lia. unfold b1.
  rewrite entry_of_splice_other by (rewrite ?zlen_zeros by lia; lia).
  apply entry_of_zeros; lia.
Qed.

(** A directory that has just been made: one block, with the entries "." and "..". *)
Definition fresh_dir (n b : u32) (i : Inode) : Prop :=
  i_inode_no i = n ∧ i_block_count i = 1 ∧ dir_blocks i = [b].

Lemma fresh_dir_entries n b i self parent w :
  is_u32 self → is_u32 parent → fresh_dir n b i → w_read w b = SimpleFS.dir_block self parent →
  dir_entries i w = [(dot_entry self, b, 0); (dotdot_entry parent, b, 34)] ∧
  Forall (λ s : found, de_name_len (fst (fst s)) ≤ 28) (dir_slots i w).
Proof.
  intros Hs Hp (_ & _ & Hbl) Hr. unfold dir_entries, dir_slots. rewrite Hbl.
  cbn [mbind list_bind]. rewrite app_nil_r, Hr.
  destruct (dir_block_slots self parent b Hs Hp) as (rest & -> & Hrest). split.
  - assert (∀ e o, DirEntry_is_empty e = false → is_used (e, b, o)) as Hu by done.
    rewrite !filter_cons, !decide_True; [|apply Hu|apply Hu].
    + do 2 f_equal. assert (∀ l, (∀ s, s ∈ l → DirEntry_is_empty (fst (fst s)) = true) →
        filter is_used l = []) as Hf; [|by apply Hf].
      intros l. induction l as [|s l IH]; intros Hl; [done|].
      rewrite filter_cons, decide_False; [apply IH; set_solver|].
      unfold is_used. rewrite Hl by set_solver. done.
    + unfold dotdot_entry. by rewrite DirEntry_new_empty.
    + unfold dot_entry. by rewrite DirEntry_new_empty.
  - do 2 (constructor; [cbn [fst]; unfold dot_entry, dotdot_entry; rewrite DirEntry_new_name_len; lia|]).
    apply Forall_forall. intros s Hs'%Hrest. unfold DirEntry_is_empty in Hs'.
    apply Z.eqb_eq in Hs'. lia.
Qed.
End dir_block.

(** ** Formatting *)

(** Writing a superblock that differs in the root inode. *)
Lemma bitmap_inv_root sb n w :
  bitmap_inv sb w → is_u32 n →
  bitmap_inv (with_root_inode n sb) (record_superblock (with_root_inode n sb) w).
Proof.
  intros Hi Hn. destruct (bitmap_inv_wf _ _ Hi) as [Hwf Hv].
  assert (superblock_wf (with_root_inode n sb)) as Hwf' by auto with simplefs.
  destruct Hi. constructor; try done.
  - apply disk_ok_write; auto with simplefs.
  - by apply disk_superblock_write.
  - rewrite (free_count_ext w) by (intros; by apply bit_record). done.
  - intros m Hm. rewrite bit_record by (consts; lia). auto.
Qed.

(** The state of a disk that was just formatted: the system area and the block of the
    root directory are marked, and the root directory has two entries, both of which
    lead to itself; the blocks after it are those of the disk [w0] that was formatted. *)
Record formatted (w0 : world) (sb : SuperBlock) (w : world) : Prop := {
  fm_inv : bitmap_inv sb w;
  fm_root : sb_root_inode sb = 1;
  fm_bits : first_marked 32 w;
  fm_dir : ∃ root, disk_inode sb w 1 = Some root ∧ dir_ok sb root w ∧ i_mode root = 16877 ∧
    i_nlink root = 2 ∧ fresh_dir 1 31 root ∧
    dir_entries root w = [(dot_entry 1, 31, 0); (dotdot_entry 1, 31, 34)];
  fm_frame : ∀ b, 31 < b → w_read w b = w_read w0 b;
}.

Section format.
Context `{Clock} `{Build} (Hclock : clock_ok).

(** The inode of a new directory with the block [b]. *)
Definition made_dir (n b : u32) (now : i64) : Inode :=
  {| i_inode_no := n; i_mode := 16877; i_uid := 1000; i_gid := 1000; i_size := 510;
     i_nlink := 2; i_block_count := 1; i_mtime := now; i_atime := now; i_ctime := now;
     i_direct_blocks := b :: replicate 9 0; i_indirect_block := 0 |}.

Lemma made_dir_wf n b t :
  is_u32 n → is_u32 b → inode_wf (made_dir n b (clock_at t)).
Proof.
  intros Hn Hb. pose proof (Hclock t). unfold inode_wf, is_u16, is_i64. simpl.
  split_and!; try done; try lia. repeat (constructor; [done|]). constructor.
Qed.

Lemma made_dir_fresh n b t : fresh_dir n b (made_dir n b t).
Proof. done. Qed.

(** [Inode::new_dir] and [Inode::new_file]. *)
Definition new_inode (mode nlink : u16) (n : u32) (now : i64) : Inode :=
  {| i_inode_no := n; i_mode := mode; i_uid := 1000; i_gid := 1000; i_size := 0;
     i_nlink := nlink; i_block_count := 0; i_mtime := now; i_atime := now; i_ctime := now;
     i_direct_blocks := replicate 10 0; i_indirect_block := 0 |}.

Lemma run_new_dir n w :
  run (new_dir n) w = Done (new_inode 16877 2 n (clock_at (w_ticks w))) (w_tick w).
Proof. unfold new_dir. by run_step run_now by done. Qed.

Lemma run_new_file n w :
  run (new_file n) w = Done (new_inode 33188 1 n (clock_at (w_ticks w))) (w_tick w).
Proof. unfold new_file. by run_step run_now by done. Qed.

Lemma run_init_superblock w :
  run init_superblock w =
    Done initial_superblock (w_write 0 (superblock_block initial_superblock) w).
Proof. unfold init_superblock. run_step run_write_block by (auto with simplefs; done). done. Qed.

Lemma wp_format w : disk_ok w → wp SimpleFS.format_new_fs (formatted w) w.
Proof.
  intros Hok. pose proof (wp_format_map w Hok) as Hwp.
  apply wp_inv in Hwp as ([] & w1 & Hrun & Hi & Hbits & Hread & Hticks).
  pose proof (run_init_superblock w) as Hinit.
  rewrite (run_bind_Done _ _ _ _ _ Hinit) in Hrun.
  unfold SimpleFS.format_new_fs. wp_step Hinit. wp_step Hrun. cbv zeta. clear Hinit Hrun.
  wp_step run_new_dir.
  pose proof (bitmap_inv_tick _ _ Hi) as Hi1.
  pose proof (first_marked_least 31 (w_tick w1) ltac:(consts; lia) Hbits) as Hleast.
  pose proof (least_free_allocated _ _ _ Hi1 Hleast) as Ha. cbv zeta in Ha.
  set (sb1 := with_free_blocks (sb_free_blocks initial_superblock - 1) initial_superblock) in *.
  set (w2 := record_superblock sb1 (set_bit 31 (w_tick w1))) in *.
  assert (run (allocate_block initial_superblock) (w_tick w1) = Done (Some 31, sb1) w2) as Halloc
    by (by rewrite run_allocate_block_inv, Hleast).
  wp_step Halloc. clear Halloc Hleast. cbv beta iota. cbn [unwrap]. wp_step run_ret.
  destruct (dir_block_wf 1 1) as [Hz Hu]; [done|done|].
  wp_step run_write_block by done.
  set (w3 := w_write 31 (SimpleFS.dir_block 1 1) w2).
  wp_step run_unwrap by reflexivity. cbv zeta.
  set (root := set_nlink _ 2).
  assert (root = made_dir 1 31 (clock_at (w_ticks w1))) as -> by reflexivity.
  set (root := made_dir 1 31 (clock_at (w_ticks w1))).
  assert (bitmap_inv sb1 w3) as Hi3.
  { apply bitmap_inv_write; [apply Ha|lia|done|done]. }
  assert (inode_ok sb1 1) as Hno by done. assert (inode_wf root) as Hwf by (by apply made_dir_wf).
  wp_step (run_write_inode sb1 root w3 (bi_disk _ _ Hi3) Hno eq_refl).
  set (w4 := put_inode sb1 root w3).
  assert (bitmap_inv sb1 w4) as Hi4 by exact (bitmap_inv_put sb1 sb1 root w3 Hi3 Hno eq_refl).
  set (sb2 := with_root_inode 1 sb1).
  wp_step (run_write_superblock sb2 w4 eq_refl).
  pose proof (bitmap_inv_root sb1 1 w4 Hi4 ltac:(done)) as Hi5. fold sb2 in Hi5.
  change (w_write 0 (superblock_block sb2) w4) with (record_superblock sb2 w4).
  set (w5 := record_superblock sb2 w4) in *. apply wp_ret.
  assert (w_read w5 31 = SimpleFS.dir_block 1 1) as Hr31.
  { unfold w5, record_superblock. rewrite w_read_write_ne by done. unfold w4.
    rewrite put_inode_read_ne by done. unfold w3. apply w_read_write_eq. }
  assert (is_u32 1) as H1 by done.
  destruct (fresh_dir_entries 1 31 root 1 1 w5 H1 H1 (made_dir_fresh _ _ _) Hr31) as [Hent Hnames].
  refine (Build_formatted w sb2 w5 Hi5 eq_refl _ _ _).
  - intros m Hm. unfold w5. rewrite bit_record by exact Hm. unfold w4, put_inode.
    rewrite bit_write_ne by (exact Hm || (change (inode_block sb1 _) with 6; lia)).
    unfold w3. rewrite bit_write_ne by (exact Hm || lia).
    rewrite (al_bits _ _ _ _ _ Ha) by exact Hm. change (bit (w_tick w1) m) with (bit w1 m).
    rewrite Hbits by exact Hm. repeat case_bool_decide; simpl; done || lia.
  - exists root. split; [|split; [|split; [done|split; [done|split; [apply made_dir_fresh|exact Hent]]]]].
    + rewrite (disk_inode_ext sb2 w4 w5).
      * exact (disk_inode_put_same sb1 root w3 (bi_disk _ _ Hi3) Hwf).
      * unfold w5, record_superblock. apply w_read_write_ne. done.
    + refine (Build_dir_ok sb2 root w5 (Build_dir_readable root w5 (bi_disk _ _ Hi5) Hwf _ _ Hnames) Hno _).
      * simpl. lia.
      * constructor; [consts; lia|constructor].
      * constructor; [done|constructor].
  - intros b Hb. unfold w5, record_superblock. rewrite w_read_write_ne by lia. unfold w4.
    rewrite put_inode_read_ne by (change (inode_block sb1 _) with 6; lia). unfold w3.
    rewrite w_read_write_ne by lia. destruct (al_frame _ _ _ _ _ Ha) as [_ Hfr]. rewrite Hfr by lia.
    apply Hread. lia.
Qed.
End format.

(** ** Mounting *)

(** The contents of an image file of any size: every block that was written has 512
    bytes. *)
Definition image_ok (w : world) : Prop :=
  map_Forall (λ _ d, zlen d = BLOCK_SIZE ∧ Forall is_u8 d) (img_blocks (w_img w)).

#[export] Instance image_ok_dec w : Decision (image_ok w).
Proof. unfold image_ok. apply _. Defined.

Section mount.
Context `{Clock} `{Build}.

Definition truncated (w : world) : world := World (img_truncate DISK_SIZE (w_img w)) (w_ticks w).

Lemma disk_ok_truncated w : image_ok w → disk_ok (truncated w).
Proof.
  intros Hok. split; [done|]. intros b d Hb. unfold truncated in Hb. simpl in Hb.
  rewrite map_lookup_imap in Hb. destruct (img_blocks (w_img w) !! b) as [d0|] eqn:E; [|done].
  cbn [mbind option_bind] in Hb. injection Hb as <-. destruct (Hok b d0 E) as [Hl Hu]. consts.
  destruct (Z.leb_spec 512 (Z.max 0 (10485760 - b * 512))); [done|]. split.
  - rewrite zlen_app, zlen_zeros by lia. unfold zlen in *. rewrite length_take. lia.
  - apply Forall_app. split; [by apply Forall_take|apply Forall_zeros].
Qed.

(** The superblock a mount finds. *)
Definition present_superblock (w : world) : option SuperBlock :=
  if w_has w 0 then disk_superblock w else None.

Lemma run_catch_read_superblock w :
  run (catch_unwind read_superblock) w = Done (present_superblock w) w.
Proof.
  rewrite run_catch. unfold present_superblock. destruct (w_has w 0) eqn:E.
  - destruct (disk_superblock w) as [sb|] eqn:Es; [by rewrite (run_read_superblock sb)|].
    unfold read_superblock. run_step run_read_block by done. unfold disk_superblock in Es.
    destruct (SuperBlock_from_bytes (w_read w 0)) as [sb|]; [|done].
    run_step run_unwrap by done. simpl in Es. by destruct (SuperBlock_is_valid sb).
  - unfold read_superblock, read_block. cbn [mbind prog_bind run]. by rewrite E.
Qed.

Lemma wp_mount_format (Hclock : clock_ok) w :
  image_ok w → present_superblock w = None → wp SimpleFS.mount (formatted (truncated w)) w.
Proof.
  intros Hok Hnone. pose proof (wp_format Hclock _ (disk_ok_truncated w Hok)) as Hf.
  assert (run (truncate DISK_SIZE) w = Done () (truncated w)) as Ht by done.
  unfold SimpleFS.mount.
  assert (run size w = Done (img_size (w_img w)) w) as Hs by done.
  wp_step Hs. destruct (Z.eqb_spec (img_size (w_img w)) 0); [by wp_step Ht|].
  wp_step run_catch_read_superblock. rewrite Hnone. by wp_step Ht.
Qed.

Lemma run_mount_present sb w :
  present_superblock w = Some sb → run SimpleFS.mount w = Done sb w.
Proof.
  intros Hp. assert (run size w = Done (img_size (w_img w)) w) as Hs by done.
  unfold SimpleFS.mount. run_step Hs.
  assert (img_size (w_img w) =? 0 = false) as ->.
  { unfold present_superblock, w_has, img_has in Hp. consts.
    destruct (Z.eqb_spec (img_size (w_img w)) 0) as [Hz|]; [|done]. by rewrite Hz in Hp. }
  run_step run_catch_read_superblock. by rewrite Hp.
Qed.

(** ** Properties *)

(** C25: a mount always succeeds.  When block 0 is in the file and starts with the
    magic it returns the superblock it finds and changes nothing; otherwise it formats
    the disk: the free-space map marks the system area and the block of the root
    directory, and the root directory holds "." and "..", both leading to itself. *)
Theorem mount_total w :
  clock_ok → image_ok w →
  match present_superblock w with
  | Some sb => run SimpleFS.mount w = Done sb w
  | None => ∃ sb w', run SimpleFS.mount w = Done sb w' ∧ formatted (truncated w) sb w'
  end.
Proof.
  intros Hclock Hok. destruct (present_superblock w) as [sb|] eqn:E.
  - by apply run_mount_present.
  - by apply wp_inv, wp_mount_format.
Qed.

(** Everything is on the disk: a mount of the disk that a consistent file system
    leaves returns the superblock the file system had in memory, and changes nothing. *)
Theorem remount_same sb w :
  bitmap_inv sb w → run SimpleFS.mount w = Done sb w.
Proof.
  intros Hi. apply run_mount_present. unfold present_superblock.
  rewrite disk_ok_has; [apply Hi|apply Hi|done].
Qed.
End mount.

(** ** Witnesses *)
#[local] Instance zero_clock : Clock := λ _, 0.
#[local] Instance checked_build : Build := true.

(** An empty image file. *)
Definition empty_image : world := World (Image 0 ∅) 0.

Lemma mount_total_witness :
  match present_superblock empty_image with
  | Some sb => run SimpleFS.mount empty_image = Done sb empty_image
  | None => ∃ sb w', run SimpleFS.mount empty_image = Done sb w' ∧ formatted (truncated empty_image) sb w'
  end.
Proof. exact (mount_total empty_image zero_clock_ok (map_Forall_empty _)). Defined.

Lemma remount_same_witness : run SimpleFS.mount sample_world = Done sb_one sample_world.
Proof. exact (remount_same sb_one sample_world sample_inv). Defined.
