(* ===== verification/Spec.v ===== *)
(** * Spec: what the file system promises, as a tree of files and directories

    The state is a finite map from inode numbers to nodes: a file with its contents, or
    a directory with its entries.  There are no blocks, no inodes on a disk, no bitmap.
    Each handler of [src/fs.rs] has an operation here; [Refinement] proves that the
    handlers implement them.  The operations keep the state a tree ([tree]). *)
From S2P Require Import Prelude Disk Directory Fs File.

(** ** The state *)
Inductive body : Type :=
| AFile (data : bytes)
| ADir (entries : gmap bytes u32).

(** A node: its mode (type and permission bits) and its body. *)
Record anode := ANode { an_mode : u16; an_body : body }.
Abbreviation afs := (gmap u32 anode) (only parsing).

Section state.
Implicit Types (A : afs) (p n c : u32) (name : bytes) (m : gmap bytes u32).

(** The entries of the directory [p], and what its entry [name] leads to. *)
Definition entries A p : option (gmap bytes u32) :=
  x ← A !! p; match an_body x with ADir m => Some m | AFile _ => None end.
Definition file_data A n : option bytes :=
  x ← A !! n; match an_body x with AFile d => Some d | ADir _ => None end.
Definition child A p name : option u32 := m ← entries A p; m !! name.

(** The directory [p] with other entries. *)
Definition set_entries p m A : afs := alter (λ x, ANode (an_mode x) (ADir m)) p A.

(** The names that are not "." and "..". *)
Definition dot : bytes := str ".".
Definition dotdot : bytes := str "..".
Definition proper name : Prop := name ≠ dot ∧ name ≠ dotdot.

(** The first number that no node has. *)
Definition unused A n : option u32 := match A !! n with None => Some n | Some _ => None end.
Definition first_unused A (lo hi : u32) : option u32 :=
  first_some (unused A) (seqZ lo (hi - lo + 1)).

(** ** The operations *)
Definition spec_create A p name : result u32 errno * afs :=
  let m := default ∅ (entries A p) in
  match m !! name with
  | Some _ => (Err EEXIST, A)
  | None =>
      match first_unused A 1000 2000 with
      | None => (Err ENOSPC, A)
      | Some n => (Ok n, set_entries p (<[name := n]> m) (<[n := ANode 33188 (AFile [])]> A))
      end
  end.

Definition new_entries (n p : u32) : gmap bytes u32 := {[ dot := n; dotdot := p ]}.

Definition spec_mkdir A p name : result u32 errno * afs :=
  let m := default ∅ (entries A p) in
  match m !! name with
  | Some _ => (Err EEXIST, A)
  | None =>
      match first_unused A 500 900 with
      | None => (Err ENOSPC, A)
      | Some n =>
          (Ok n, set_entries p (<[name := n]> m) (<[n := ANode 16877 (ADir (new_entries n p))]> A))
      end
  end.

(** The entry [name] of [p] and the node [c] it leads to are taken away. *)
Definition detach A p name c : afs :=
  set_entries p (base.delete name (default ∅ (entries A p))) (base.delete c A).

Definition spec_unlink A p name : result () errno * afs :=
  match child A p name with
  | None => (Err ENOENT, A)
  | Some c =>
      match entries A c with
      | Some _ => (Err EISDIR, A)
      | None => (Ok (), detach A p name c)
      end
  end.

Definition spec_rmdir A p name : result () errno * afs :=
  match child A p name with
  | None => (Err ENOENT, A)
  | Some c =>
      match entries A c with
      | None => (Err ENOTDIR, A)
      | Some m => if 2 <? Z.of_nat (base.size m) then (Err ENOTEMPTY, A)
                  else (Ok (), detach A p name c)
      end
  end.

(** A write replaces the bytes from [off] on, with zeros between the old end and [off];
    a file has at most 20 blocks. *)
Definition spec_write A n (off : Z) (data : bytes) : result Z errno * afs :=
  if zlen data =? 0 then (Ok 0, A)
  else if 20 <? blocks_for (off + zlen data) then (Err EFBIG, A)
  else (Ok (zlen data),
        alter (λ x, ANode (an_mode x) (AFile (written off data
                      (match an_body x with AFile d => d | ADir _ => [] end)))) n A).

Definition spec_read A n (off k : Z) : bytes :=
  take (Z.to_nat k) (drop (Z.to_nat off) (default [] (file_data A n))).

(** An opening for writing needs a write bit, whoever asks; the handle is the number. *)
Definition writable (mode : u16) : bool := Z.testbit mode 1 || Z.testbit mode 4 || Z.testbit mode 7.
Definition spec_open A n (flags : i32) : result u64 errno :=
  match A !! n with
  | None => Err ENOENT
  | Some x =>
      if (Z.testbit flags 0 || Z.testbit flags 1) && negb (writable (an_mode x))
      then Err EACCES else Ok n
  end.

(** The entries of a directory with their types. *)
Definition kind_of A c : FileType :=
  match entries A c with Some _ => Fs.Directory | None => RegularFile end.
Definition listing A m : gmap bytes (u32 * FileType) := (λ c, (c, kind_of A c)) <$> m.

(** [setattr] sets the permission bits and keeps the type. *)
Definition chmod_mode (old : u16) (mode : option u32) : u16 :=
  match mode with
  | Some new_mode => Z.lor (Z.land old 61440) (Z.land new_mode 511)
  | None => old
  end.
Definition spec_setattr A n (mode : option u32) : afs :=
  alter (λ x, ANode (chmod_mode (an_mode x) mode) (an_body x)) n A.

(** ** Trees *)

(** Reached from the root, along proper names. *)
Inductive reach A : u32 → Prop :=
| reach_root : reach A 1
| reach_child p name c : reach A p → proper name → child A p name = Some c → reach A c.

(** Every node is reached from the root; entries lead to nodes; a node has one proper
    name, the root none; "." is the directory itself and ".." its parent. *)
Record tree A : Prop := {
  tr_root : is_Some (entries A 1);
  tr_reach : ∀ n, is_Some (A !! n) → reach A n;
  tr_closed : ∀ p name c, child A p name = Some c → is_Some (A !! c);
  tr_single : ∀ p name q name' c, child A p name = Some c → child A q name' = Some c →
    proper name → proper name' → p = q ∧ name = name';
  tr_top : ∀ p name, proper name → child A p name ≠ Some 1;
  tr_dot : ∀ n m, entries A n = Some m → m !! dot = Some n;
  tr_dotdot : ∀ n m, entries A n = Some m → ∃ q, m !! dotdot = Some q ∧
    (n = 1 ∧ q = 1 ∨ ∃ name, proper name ∧ child A q name = Some n);
}.
End state.

(** ** The operations keep the tree *)
Section lemmas.
Implicit Types (A : afs) (p q n c : u32) (name nm : bytes) (m : gmap bytes u32).

Lemma entries_Some A p m : entries A p = Some m ↔ ∃ md, A !! p = Some (ANode md (ADir m)).
Proof.
  unfold entries. destruct (A !! p) as [[md [d|m']]|]; simpl; [|naive_solver|naive_solver].
  split; [done|]. by intros (? & [=]).
Qed.

Lemma entries_set A p m q :
  is_Some (A !! p) → entries (set_entries p m A) q = if decide (q = p) then Some m else entries A q.
Proof.
  intros [x Hx]. unfold entries, set_entries. case_decide as Hq.
  - subst q. by rewrite lookup_alter_eq, Hx.
  - by rewrite lookup_alter_ne.
Qed.

Lemma set_entries_Some A p m q : is_Some (set_entries p m A !! q) ↔ is_Some (A !! q).
Proof. unfold set_entries. rewrite lookup_alter. case_decide; subst; by rewrite ?fmap_is_Some. Qed.

Lemma child_entries A p m name : entries A p = Some m → child A p name = m !! name.
Proof. unfold child. by intros ->. Qed.

Lemma entries_in A p m : entries A p = Some m → is_Some (A !! p).
Proof. intros (md & ->)%entries_Some. done. Qed.

Lemma child_in A p name c : child A p name = Some c → ∃ m, entries A p = Some m ∧ m !! name = Some c.
Proof. unfold child. destruct (entries A p) as [m|]; [|done]. naive_solver. Qed.

(** A tree depends on the directories and on the numbers of the nodes only. *)
Lemma tree_ext A A' :
  tree A → (∀ n, entries A' n = entries A n) → (∀ n, is_Some (A' !! n) ↔ is_Some (A !! n)) → tree A'.
Proof.
  intros [] He Hi.
  assert (∀ p name, child A' p name = child A p name) as Hc by (intros; unfold child; by rewrite He).
  assert (∀ n, reach A n → reach A' n) as Hr.
  { induction 1; [constructor|]. eapply reach_child; [done|done|by rewrite Hc]. }
  constructor; repeat setoid_rewrite Hc; repeat setoid_rewrite He; repeat setoid_rewrite Hi; try done; auto.
Qed.

Lemma entries_alter_ext A n (f : anode → anode) q :
  (∀ x, A !! n = Some x →
    match an_body (f x), an_body x with
    | ADir m, ADir m' => m = m' | AFile _, AFile _ => True | _, _ => False
    end) →
  entries (alter f n A) q = entries A q.
Proof.
  intros Hf. unfold entries. destruct (decide (n = q)) as [<-|Hne].
  - rewrite lookup_alter_eq. destruct (A !! n) as [x|]; [|done]. simpl. specialize (Hf x eq_refl).
    destruct (an_body (f x)), (an_body x); naive_solver.
  - by rewrite lookup_alter_ne.
Qed.

Lemma alter_Some (f : anode → anode) A n q : is_Some (alter f n A !! q) ↔ is_Some (A !! q).
Proof. rewrite lookup_alter. case_decide; subst; by rewrite ?fmap_is_Some. Qed.

(** Two entries that are not proper are not all of a larger directory. *)
Lemma leaf_no_child m name (a b c : u32) :
  m !! dot = Some a → m !! dotdot = Some b → (base.size m ≤ 2)%nat → proper name → m !! name ≠ Some c.
Proof.
  intros Ha Hb Hs [Hd Hdd] Hc.
  assert (({[dot; dotdot; name]} : gset bytes) ⊆ dom m) as Hsub%subseteq_size.
  { intros x. rewrite !elem_of_union, !elem_of_singleton, elem_of_dom. naive_solver. }
  rewrite size_dom, size_union, size_union, !size_singleton in Hsub; [lia| |].
  - apply disjoint_singleton_l. rewrite elem_of_singleton. done.
  - apply disjoint_singleton_r. rewrite elem_of_union, !elem_of_singleton. naive_solver.
Qed.
End lemmas.

(** A new node under a new name. *)
Section attach.
Context (A : afs) (p n : u32) (name : bytes) (m : gmap bytes u32) (x : anode).
Context (Ht : tree A) (Hp : entries A p = Some m) (Hname : m !! name = None).
Context (Hproper : proper name) (Hn : A !! n = None).
Context (Hx : ∀ m', an_body x = ADir m' → m' = new_entries n p).

Let A' := set_entries p (<[name := n]> m) (<[n := x]> A).

Lemma attach_ne : n ≠ p.
Proof. intros ->. apply entries_in in Hp. destruct Hp as [? Hs]. congruence. Qed.

Lemma attach_entries q :
  entries A' q = if decide (q = p) then Some (<[name := n]> m)
                 else if decide (q = n) then match an_body x with ADir m' => Some m' | _ => None end
                 else entries A q.
Proof.
  pose proof attach_ne. unfold A'. rewrite entries_set.
  - repeat case_decide; subst; try done; unfold entries; [by rewrite lookup_insert_eq|].
    by rewrite lookup_insert_ne.
  - rewrite lookup_insert_ne by done. by eapply entries_in.
Qed.

Lemma attach_old q nm c : child A q nm = Some c → child A' q nm = Some c.
Proof.
  intros (m' & Hm & Hc)%child_in. unfold child. rewrite attach_entries.
  destruct (decide (q = p)) as [->|Hqp].
  - assert (m' = m) as -> by congruence. simpl. rewrite lookup_insert_ne; [done|]. congruence.
  - rewrite decide_False, Hm; [done|]. intros ->. apply entries_in in Hm as [? ?]. congruence.
Qed.

Lemma attach_child q nm c :
  child A' q nm = Some c →
  (q = p ∧ nm = name ∧ c = n) ∨ (q = n ∧ (nm = dot ∧ c = n ∨ nm = dotdot ∧ c = p)) ∨
  child A q nm = Some c.
Proof.
  unfold child at 1. rewrite attach_entries. case_decide as Hq.
  - subst q. simpl. destruct (decide (nm = name)) as [->|Hne].
    + rewrite lookup_insert_eq. naive_solver.
    + rewrite lookup_insert_ne by done. right. right. by rewrite (child_entries _ _ m).
  - case_decide as Hqn; [|by right; right]. subst q. destruct (an_body x) as [d|m'] eqn:E; [done|].
    rewrite (Hx m' eq_refl). simpl. unfold new_entries. rewrite lookup_insert.
    case_decide; [naive_solver|]. rewrite lookup_singleton. case_decide; naive_solver.
Qed.

Lemma attach_number q nm : child A q nm ≠ Some n.
Proof. intros [y Hy]%(tr_closed _ Ht). congruence. Qed.

Lemma attach_new : child A' p name = Some n.
Proof. unfold child. rewrite attach_entries, decide_True by done. apply lookup_insert_eq. Qed.

Lemma attach_in q : is_Some (A' !! q) ↔ q = n ∨ is_Some (A !! q).
Proof.
  unfold A'. rewrite set_entries_Some. destruct (decide (q = n)) as [->|Hne].
  - rewrite lookup_insert_eq. naive_solver.
  - rewrite lookup_insert_ne by done. naive_solver.
Qed.

Lemma attach_tree : tree A'.
Proof.
  pose proof attach_new as Hnew.
  assert (n ≠ 1) as Hn1.
  { intros ->. destruct (tr_root _ Ht) as [m1 Hm1]. apply entries_in in Hm1 as [? ?]. congruence. }
  assert (∀ q, reach A q → reach A' q) as Hreach.
  { induction 1 as [|q nm c Hr IH Hpn Hc]; [constructor|]. eapply reach_child; [done|done|].
    by apply attach_old. }
  assert (∀ q nm c, child A' q nm = Some c → proper nm →
    q = p ∧ nm = name ∧ c = n ∨ child A q nm = Some c ∧ c ≠ n) as Hpc.
  { intros q nm c [?|[(-> & [[-> _]|[-> _]])|Hc]]%attach_child [Hd Hdd]; [by left|done|done|].
    right. split; [done|]. intros ->. by apply attach_number in Hc. }
  constructor.
  - rewrite attach_entries, (decide_False (P := 1 = n)) by done.
    case_decide; [done|]. by apply Ht.
  - intros q [->|Hq]%attach_in; [|by apply Hreach, Ht].
    eapply reach_child; [|done|exact Hnew]. apply Hreach, Ht. by eapply entries_in.
  - intros q nm c [(-> & -> & ->)|[(-> & [[-> ->]|[-> ->]])|Hc]]%attach_child; apply attach_in;
      [by left|by left| |]; right; [by eapply entries_in|by eapply (tr_closed _ Ht)].
  - intros q nm q' nm' c Hc Hc' Hpn Hpn'.
    destruct (Hpc _ _ _ Hc Hpn) as [(-> & -> & ->)|[H1 Hne]];
      destruct (Hpc _ _ _ Hc' Hpn') as [(-> & -> & ?)|[H2 Hne']]; try done.
    by eapply (tr_single _ Ht).
  - intros q nm Hpn Hc. destruct (Hpc _ _ _ Hc Hpn) as [(_ & _ & ?)|[H1 _]]; [done|].
    by eapply (tr_top _ Ht).
  - intros q m'. rewrite attach_entries. case_decide as Hq.
    + intros [= <-]. subst q. rewrite lookup_insert_ne by (by intros ->; destruct Hproper).
      by apply (tr_dot _ Ht).
    + case_decide as Hqn; [|by apply (tr_dot _ Ht)]. subst q.
      destruct (an_body x) as [|m1] eqn:E; [done|]. intros [= <-]. rewrite (Hx m1 eq_refl). done.
  - intros q m'. rewrite attach_entries. case_decide as Hq.
    + intros [= <-]. subst q. rewrite lookup_insert_ne by (by intros ->; destruct Hproper).
      destruct (tr_dotdot _ Ht _ _ Hp) as (q & Hd & Hor). exists q. split; [done|].
      destruct Hor as [?|(nm & ? & ?)]; [by left|right]. eauto using attach_old.
    + case_decide as Hqn.
      * subst q. destruct (an_body x) as [|m1] eqn:E; [done|]. intros [= <-]. rewrite (Hx m1 eq_refl).
        exists p. split; [done|]. right. eauto.
      * intros Hm. destruct (tr_dotdot _ Ht _ _ Hm) as (q' & Hd & Hor). exists q'. split; [done|].
        destruct Hor as [?|(nm & ? & ?)]; [by left|right]. eauto using attach_old.
Qed.
End attach.

(** A leaf that is taken away. *)
Section detach.
Context (A : afs) (p c : u32) (name : bytes).
Context (Ht : tree A) (Hc : child A p name = Some c) (Hproper : proper name).
Context (Hleaf : ∀ m, entries A c = Some m → (base.size m ≤ 2)%nat).

Let A' := detach A p name c.

Lemma detach_leaf nm d : proper nm → child A c nm ≠ Some d.
Proof.
  intros Hpn (m & Hm & Hd)%child_in. pose proof (tr_dot _ Ht _ _ Hm) as H1.
  destruct (tr_dotdot _ Ht _ _ Hm) as (q & H2 & _).
  by apply (leaf_no_child m nm c q d H1 H2 (Hleaf m Hm) Hpn).
Qed.

Lemma detach_ne : p ≠ c ∧ c ≠ 1.
Proof.
  split.
  - intros Heq. apply (detach_leaf name c Hproper). by rewrite <-Heq at 1.
  - intros Heq. apply (tr_top _ Ht p name Hproper). by rewrite <-Heq.
Qed.

Lemma detach_entries q m :
  entries A' q = Some m → q ≠ c ∧ ∃ m', entries A q = Some m' ∧ ∀ nm,
    m !! nm = if decide (q = p ∧ nm = name) then None else m' !! nm.
Proof.
  destruct detach_ne as [Hpc _]. apply child_in in Hc as (mp & Hp & Hm).
  unfold A', detach. rewrite entries_set.
  2: { rewrite lookup_delete_ne by done. by eapply entries_in. }
  rewrite Hp. simpl. destruct (decide (q = p)) as [->|Hqp].
  - intros [= <-]. split; [done|]. exists mp. split; [done|]. intros nm.
    destruct (decide (nm = name)) as [->|Hne].
    + by rewrite lookup_delete_eq, decide_True.
    + rewrite lookup_delete_ne, decide_False; naive_solver.
  - unfold entries. destruct (decide (q = c)) as [->|Hqc]; [by rewrite lookup_delete_eq|].
    rewrite lookup_delete_ne by done. intros Hq. split; [done|]. exists m. split; [done|].
    intros nm. rewrite decide_False; [done|naive_solver].
Qed.

Lemma detach_child q nm d : child A' q nm = Some d → q ≠ c ∧ child A q nm = Some d ∧ ¬ (q = p ∧ nm = name).
Proof.
  intros (m & (Hq & m' & Hm' & Hl)%detach_entries & Hd)%child_in. rewrite Hl in Hd.
  case_decide; [done|]. split_and!; [done| |done]. by rewrite (child_entries _ _ _ _ Hm').
Qed.

Lemma detach_keep q nm d : child A q nm = Some d → q ≠ c → ¬ (q = p ∧ nm = name) → child A' q nm = Some d.
Proof.
  destruct detach_ne as [Hpc _]. intros (m & Hm & Hd)%child_in Hq Hne.
  apply child_in in Hc as (mp & Hp & Hmn). unfold A', detach, child.
  rewrite entries_set by (rewrite lookup_delete_ne by done; by eapply entries_in).
  rewrite Hp. simpl. case_decide as Hqp.
  - subst q. simpl. rewrite lookup_delete_ne by naive_solver. congruence.
  - unfold entries. rewrite lookup_delete_ne by done. unfold entries in Hm. by rewrite Hm.
Qed.

Lemma detach_in q : is_Some (A' !! q) ↔ q ≠ c ∧ is_Some (A !! q).
Proof.
  unfold A', detach. rewrite set_entries_Some. destruct (decide (q = c)) as [->|Hne].
  - rewrite lookup_delete_eq. split; [by intros [? ?]|naive_solver].
  - rewrite lookup_delete_ne by done. naive_solver.
Qed.

(** No entry that stays leads to [c]. *)
Lemma detach_away q nm : child A' q nm ≠ Some c.
Proof.
  intros (Hq & Hd & Hne)%detach_child. destruct detach_ne as [_ Hc1].
  destruct (decide (nm = dot)) as [->|H1].
  { pose proof Hd as (m & Hm & Hl)%child_in. rewrite (tr_dot _ Ht _ _ Hm) in Hl. congruence. }
  destruct (decide (nm = dotdot)) as [->|H2].
  { pose proof Hd as (m & Hm & Hl)%child_in.
    destruct (tr_dotdot _ Ht _ _ Hm) as (q' & Hq' & [[_ ?]|(nm & Hpn & Hcq)]); [congruence|].
    assert (q' = c) as -> by congruence. by apply (detach_leaf nm q). }
  destruct (tr_single _ Ht q nm p name c) as [-> ->]; [done|done|done|done|]. by apply Hne.
Qed.

Lemma detach_dir q m : entries A' q = Some m → ∃ m', entries A q = Some m' ∧ q ≠ c ∧
  m !! dot = m' !! dot ∧ m !! dotdot = m' !! dotdot.
Proof.
  intros (Hq & m' & Hm' & Hl)%detach_entries. exists m'. destruct Hproper as [Hd Hdd].
  split_and!; [done|done| |]; rewrite Hl, decide_False; [done| |done|]; intros [_ ?]; congruence.
Qed.

Lemma detach_tree : tree A'.
Proof.
  destruct detach_ne as [Hpc Hc1].
  assert (∀ q, reach A q → q ≠ c → reach A' q) as Hreach.
  { induction 1 as [|q nm d Hr IH Hpn Hd]; intros Hne; [constructor|].
    assert (q ≠ c) as Hqc by (intros ->; by apply (detach_leaf nm d)).
    eapply reach_child; [by apply IH|done|]. apply detach_keep; [done|done|].
    intros [-> ->]. congruence. }
  constructor.
  - destruct (tr_root _ Ht) as [m Hm]. pose proof (tr_dot _ Ht _ _ Hm) as Hd.
    assert (child A' 1 dot = Some 1) as (m' & Hm' & _)%child_in; [|by rewrite Hm'].
    apply detach_keep; [by rewrite (child_entries _ _ _ _ Hm)|done|].
    intros [_ Heq]. by destruct Hproper as [[] _].
  - intros q [Hq Hin]%detach_in. apply Hreach; [by apply Ht|done].
  - intros q nm d Hd. apply detach_in. split; [intros ->; by apply detach_away in Hd|].
    apply detach_child in Hd as (_ & Hd & _). by eapply (tr_closed _ Ht).
  - intros q nm q' nm' d (_ & Hd & _)%detach_child (_ & Hd' & _)%detach_child.
    by apply (tr_single _ Ht) with d.
  - intros q nm Hpn (_ & Hd & _)%detach_child. by apply (tr_top _ Ht) in Hd.
  - intros q m (m' & Hm' & _ & -> & _)%detach_dir. by apply (tr_dot _ Ht).
  - intros q m (m' & Hm' & Hqc & _ & ->)%detach_dir.
    destruct (tr_dotdot _ Ht _ _ Hm') as (q' & Hd & Hor). exists q'. split; [done|].
    destruct Hor as [?|(nm & Hpn & Hcq)]; [by left|]. right. exists nm. split; [done|].
    apply detach_keep; [done| |].
    + intros ->. by apply (detach_leaf nm q).
    + intros [-> ->]. apply Hqc. congruence.
Qed.
End detach.
