(* ===== verification/Consistency.v ===== *)
(** * Consistency: the invariant of a mounted file system, and the tree it stores

    [consistent]: every inode in use is a file or a directory whose blocks lie in the data
    area; a block is marked in the free-space map exactly when one inode owns it; no two
    inodes own the same block; a number below 1000 is that of a directory, any other that
    of a file, and every entry records the type that its number has.  [abs] is the tree
    of [Spec] that such a disk stores.  The lemma [change] says when an operation that
    changes one inode keeps all of this. *)
From S2P Require Import Prelude Disk Superblock Bitmap Inode Directory Fs File Spec.

(** ** The inode numbers of the program *)

(** The root, the numbers of [mkdir] and those of [create]. *)
Definition inode_numbers : list u32 := 1 :: seqZ 500 401 ++ seqZ 1000 1001.

(** The blocks of their inodes, the inode of the root apart.  They lie in the data area,
    beyond the inode table. *)
Definition inode_area (b : u32) : Prop := 89 ≤ b < 340.

Lemma elem_of_inode_numbers n : n ∈ inode_numbers ↔ n = 1 ∨ 500 ≤ n ≤ 900 ∨ 1000 ≤ n ≤ 2000.
Proof.
  unfold inode_numbers. rewrite elem_of_cons, elem_of_app, !elem_of_seqZ. lia.
Qed.

Lemma number_block sb n :
  sb_inode_table_start sb = 6 → n ∈ inode_numbers →
  inode_ok sb n ∧ (inode_block sb n = 6 ∨ inode_area (inode_block sb n)).
Proof.
  intros Ht Hn%elem_of_inode_numbers. unfold inode_ok, inode_block, inode_area. rewrite Ht.
  consts. dlia.
Qed.

(** The numbers below 1000 are those of directories. *)
Definition dir_number (n : u32) : bool := n <? 1000.
(** An entry records the type that its number has. *)
Definition typed_entry (e : DirEntry) : Prop := (de_entry_type e =? 2) = dir_number (de_inode e).

(** ** Nodes *)
Record dir_node (sb : SuperBlock) (i : Inode) (w : world) : Prop := {
  dn_ok : dir_ok sb i w;
  dn_unique : dir_unique i w;
  dn_nodup : NoDup (dir_blocks i);
  dn_no : dir_number (i_inode_no i) = true;
  dn_types : ∀ name s, dir_get i w name = Some s → typed_entry (fst (fst s));
}.

(** A file has the blocks its size needs. *)
Record file_node (sb : SuperBlock) (i : Inode) (w : world) : Prop := {
  fn_ok : file_ok sb i w;
  fn_tidy : tidy i;
  fn_count : i_block_count i = blocks_for (i_size i);
  fn_no : dir_number (i_inode_no i) = false;
}.

Definition node_ok (sb : SuperBlock) (i : Inode) (w : world) : Prop :=
  if decide (is_dir i) then dir_node sb i w else file_node sb i w.

(** The blocks of a node, its inode apart. *)
Definition owned (i : Inode) (w : world) : list u32 :=
  if decide (is_dir i) then dir_blocks i else own_blocks i w.

(** The entries of a directory as a map, and the node of the tree. *)
Definition dir_map (i : Inode) (w : world) : gmap bytes u32 :=
  list_to_map ((λ s : found, (entry_name (fst (fst s)), de_inode (fst (fst s)))) <$> dir_entries i w).
Definition node (i : Inode) (w : world) : anode :=
  ANode (i_mode i) (if decide (is_dir i) then ADir (dir_map i w) else AFile (contents i w)).

Section node.
Implicit Types (sb : SuperBlock) (i : Inode) (w : world) (name : bytes).

Lemma list_to_map_head {V} (l : list (bytes * V)) name :
  (list_to_map l : gmap bytes V) !! name = snd <$> head (filter (λ x, fst x = name) l).
Proof.
  induction l as [|[k v] l IH]; [done|]. cbn [list_to_map foldr]. rewrite filter_cons. simpl.
  destruct (decide (k = name)) as [->|Hne]; [by rewrite lookup_insert_eq|].
  by rewrite lookup_insert_ne.
Qed.

(** The map is what [dir_find] finds. *)
Lemma dir_map_get i w name :
  dir_map i w !! name = (λ s : found, de_inode (fst (fst s))) <$> dir_get i w name.
Proof.
  unfold dir_map. rewrite list_to_map_head, dir_get_entries.
  induction (dir_entries i w) as [|s l IH]; [done|]. cbn [fmap list_fmap].
  rewrite !filter_cons. simpl. by case_decide.
Qed.

Lemma dir_ok_ext sb sb' i w w' :
  dir_ok sb i w → disk_ok w' → sb_inode_table_start sb' = sb_inode_table_start sb →
  (∀ b, b ∈ dir_blocks i → w_read w' b = w_read w b) →
  dir_ok sb' i w' ∧ dir_slots i w' = dir_slots i w.
Proof.
  intros [[] Hno Hbl] Hok Ht Hr.
  assert (dir_slots i w' = dir_slots i w) as Hs by (by apply dir_slots_ext).
  assert (inode_block sb' (i_inode_no i) = inode_block sb (i_inode_no i)) as HB
    by (unfold inode_block; by rewrite Ht).
  split; [|done]. constructor; [constructor; try done; by rewrite Hs| |by rewrite HB].
  unfold inode_ok in *. by rewrite HB, Ht.
Qed.

Lemma dir_slots_same i w w' :
  dir_slots i w' = dir_slots i w →
  dir_map i w' = dir_map i w ∧ (dir_unique i w → dir_unique i w') ∧
  ∀ name, dir_get i w' name = dir_get i w name.
Proof. intros Hs. unfold dir_map, dir_unique, dir_entries, dir_get. by rewrite Hs. Qed.

Lemma node_ok_wf sb i w : node_ok sb i w → inode_wf i.
Proof.
  unfold node_ok. case_decide; intros [Hok].
  - apply Hok.
  - apply (fl_wf _ _ _ (fo_layout _ _ _ Hok)).
Qed.

Lemma node_ok_range sb i w b : node_ok sb i w → b ∈ owned i w → 31 ≤ b < MAX_BLOCKS.
Proof.
  unfold node_ok, owned. case_decide; intros [Hok] Hb.
  - pose proof (proj1 (Forall_forall _ _) (dk_blocks _ _ _ Hok) b Hb) as [? _].
    pose proof (proj1 (Forall_forall _ _) (dr_blocks _ _ (dk_readable _ _ _ Hok)) b Hb) as [_ ?]. lia.
  - by apply (proj1 (Forall_forall _ _) (fl_range _ _ _ (fo_layout _ _ _ Hok))).
Qed.

(** A node is the same in two states that agree on its blocks. *)
Lemma node_ok_ext sb sb' i w w' :
  node_ok sb i w → disk_ok w' → sb_inode_table_start sb' = sb_inode_table_start sb →
  (∀ b, b ∈ owned i w → w_read w' b = w_read w b) →
  node_ok sb' i w' ∧ owned i w' = owned i w ∧ node i w' = node i w.
Proof.
  unfold node_ok, owned, node. case_decide; intros Hn Hok Ht Hr.
  - destruct (dir_ok_ext sb sb' i w w') as [Hd Hs]; [apply Hn|done|done|done|].
    destruct (dir_slots_same i w w' Hs) as (Hm & Hu & Hget). rewrite Hm. destruct Hn.
    split; [|done]. constructor; auto. intros name s. rewrite Hget. eauto.
  - destruct (file_ok_ext sb sb' i w w') as [Hf Hc]; [apply Hn|done|done|done|].
    rewrite Hc, (own_blocks_ext i w w') by done. destruct Hn. split; [|done]. by constructor.
Qed.

(** The blocks of a node depend on the tables of the inode, not on its times and mode. *)
Definition same_blocks (j i : Inode) : Prop :=
  i_inode_no j = i_inode_no i ∧ i_block_count j = i_block_count i ∧ i_size j = i_size i ∧
  i_direct_blocks j = i_direct_blocks i ∧ i_indirect_block j = i_indirect_block i ∧
  (is_dir j ↔ is_dir i).

Lemma same_blocks_node sb j i w :
  same_blocks j i → inode_wf j → node_ok sb i w →
  node_ok sb j w ∧ owned j w = owned i w ∧ an_body (node j w) = an_body (node i w).
Proof.
  intros (Hno & Hc & Hs & Hd & Hi & Hk) Hwf Hn. destruct i, j. simpl in *. subst.
  unfold node_ok, owned, node in *.
  destruct (decide (is_dir _)) as [Hj|Hj], (decide (is_dir _)) as [Hi|Hi] in Hn |- *;
    [|by apply Hk in Hj|by apply Hk in Hi|]; (split; [|done]).
  - destruct Hn as [[[] ? ?] ? ? ? ?].
    constructor; [constructor; [constructor|done|done]|done..]; done.
  - destruct Hn as [[[] ? ?] ? ? ?].
    constructor; [constructor; [constructor|done|done]|done..]; done.
Qed.
End node.

(** ** The file system *)

(** The inode of a node: a number is in use when [nlink] is not 0.  [X] is a node that
    is being removed: its blocks are free already, its inode is still in use. *)
Definition live (X : option u32) (sb : SuperBlock) (w : world) (n : u32) : option Inode :=
  if decide (X = Some n) then None
  else i ← disk_inode sb w n; if i_nlink i =? 0 then None else Some i.

Definition owned_at X sb w (n : u32) : list u32 :=
  match live X sb w n with Some i => owned i w | None => [] end.
Definition node_at X sb w (n : u32) : option anode := (λ i, node i w) <$> live X sb w n.

Record consistent (X : option u32) (sb : SuperBlock) (w : world) : Prop := {
  cs_inv : bitmap_inv sb w;
  cs_node : ∀ n i, n ∈ inode_numbers → live X sb w n = Some i → node_ok sb i w;
  cs_bits : ∀ b, 31 ≤ b < MAX_BLOCKS →
    bit w b = true ↔ ∃ n, n ∈ inode_numbers ∧ b ∈ owned_at X sb w n;
  cs_disjoint : ∀ n m b, n ∈ inode_numbers → m ∈ inode_numbers →
    b ∈ owned_at X sb w n → b ∈ owned_at X sb w m → n = m;
  cs_area : ∀ b, inode_area b → bit w b = false;
}.

(** The tree the disk stores. *)
Definition abs (X : option u32) (sb : SuperBlock) (w : world) : gmap u32 anode :=
  list_to_map (omap (λ n, pair n <$> node_at X sb w n) inode_numbers).

Section consistent.
Implicit Types (X : option u32) (sb : SuperBlock) (w : world) (n m b : u32).

Lemma abs_lookup X sb w n :
  abs X sb w !! n = if decide (n ∈ inode_numbers) then node_at X sb w n else None.
Proof.
  unfold abs. induction inode_numbers as [|m l IH]; [done|]. cbn [omap list_omap].
  destruct (node_at X sb w m) as [x|] eqn:E; cbn [fmap option_fmap option_map].
  - cbn [list_to_map foldr]. destruct (decide (m = n)) as [->|Hne].
    + simpl. rewrite lookup_insert_eq, decide_True by set_solver. done.
    + simpl. rewrite lookup_insert_ne, IH by done. apply decide_ext. set_solver.
  - rewrite IH. destruct (decide (m = n)) as [->|Hne].
    + rewrite E. repeat case_decide; done.
    + apply decide_ext. set_solver.
Qed.

Lemma abs_of X sb w n i :
  n ∈ inode_numbers → live X sb w n = Some i → abs X sb w !! n = Some (node i w).
Proof. intros Hn Hl. rewrite abs_lookup, decide_True by done. unfold node_at. by rewrite Hl. Qed.

Lemma live_Some X sb w n i :
  live X sb w n = Some i ↔ X ≠ Some n ∧ disk_inode sb w n = Some i ∧ i_nlink i ≠ 0.
Proof.
  unfold live. case_decide; [naive_solver|]. destruct (disk_inode sb w n) as [j|]; simpl.
  - destruct (Z.eqb_spec (i_nlink j) 0); naive_solver.
  - naive_solver.
Qed.

Lemma disk_inode_table sb sb' w n :
  sb_inode_table_start sb' = sb_inode_table_start sb → disk_inode sb' w n = disk_inode sb w n.
Proof. intros Ht. unfold disk_inode, inode_block. by rewrite Ht. Qed.

Lemma consistent_table X sb w : consistent X sb w → sb_inode_table_start sb = 6.
Proof. intros Hc. by apply (bi_table _ _ (cs_inv _ _ _ Hc)). Qed.

Lemma consistent_number X sb w n :
  consistent X sb w → n ∈ inode_numbers →
  inode_ok sb n ∧ 6 ≤ inode_block sb n < MAX_BLOCKS ∧ as_u32 n = n ∧
  (inode_block sb n < 31 ∨ bit w (inode_block sb n) = false).
Proof.
  intros Hc Hn. destruct (number_block sb n (consistent_table _ _ _ Hc) Hn) as [Hok Hb].
  split_and!; [done|by apply inode_ok_block|by apply inode_ok_block| |].
  - apply as_u32_id. by eapply inode_ok_u32.
  - destruct Hb as [->|Hb]; [left; lia|right]. by apply (cs_area _ _ _ Hc).
Qed.

(** What is owned lies in the data area and is marked. *)
Lemma owned_range X sb w n b :
  consistent X sb w → n ∈ inode_numbers → b ∈ owned_at X sb w n →
  31 ≤ b < MAX_BLOCKS ∧ bit w b = true.
Proof.
  intros Hc Hn Hb. assert (31 ≤ b < MAX_BLOCKS) as Hr.
  { unfold owned_at in Hb. destruct (live X sb w n) as [i|] eqn:E; [|by apply not_elem_of_nil in Hb].
    eapply node_ok_range; [|done]. by eapply (cs_node _ _ _ Hc). }
  split; [done|]. apply (cs_bits _ _ _ Hc); [done|]. eauto.
Qed.

(** A number of the program is never the number of a block someone owns. *)
Lemma owned_not_inode X sb w n m b :
  consistent X sb w → n ∈ inode_numbers → m ∈ inode_numbers → b ∈ owned_at X sb w n →
  b ≠ inode_block sb m.
Proof.
  intros Hc Hn Hm Hb ->. destruct (owned_range _ _ _ _ _ Hc Hn Hb) as [Hr Hbit].
  destruct (consistent_number _ _ _ m Hc Hm) as (_ & _ & _ & [?|?]); [lia|congruence].
Qed.

(** An operation that changes one node: the blocks it takes were free, the blocks it
    gives up are freed, and the other inodes and the blocks of other nodes are left
    alone. *)
Record change (n : u32) (X : option u32) (sb : SuperBlock) (w : world)
    (X' : option u32) (sb' : SuperBlock) (w' : world) : Prop := {
  ch_inv : bitmap_inv sb' w';
  ch_live : ∀ m, m ∈ inode_numbers → m ≠ n → live X' sb' w' m = live X sb w m;
  ch_node : ∀ i, live X' sb' w' n = Some i → node_ok sb' i w';
  ch_new : ∀ b, b ∈ owned_at X' sb' w' n → b ∈ owned_at X sb w n ∨ bit w b = false ∧ ¬ inode_area b;
  ch_bits : ∀ b, 31 ≤ b < MAX_BLOCKS →
    bit w' b = bool_decide (b ∈ owned_at X' sb' w' n) || (bit w b && bool_decide (b ∉ owned_at X sb w n));
  ch_read : ∀ b, 31 ≤ b < MAX_BLOCKS → bit w b = true → b ∉ owned_at X sb w n →
    w_read w' b = w_read w b;
}.

Lemma change_consistent n X sb w X' sb' w' :
  n ∈ inode_numbers → consistent X sb w → change n X sb w X' sb' w' →
  consistent X' sb' w' ∧
  abs X' sb' w' = partial_alter (λ _, node_at X' sb' w' n) n (abs X sb w).
Proof.
  intros Hn Hc [Hinv Hlive Hnode Hnew Hbits Hread].
  assert (sb_inode_table_start sb' = sb_inode_table_start sb) as Ht
    by (rewrite (consistent_table _ _ _ Hc); apply Hinv).
  assert (∀ m i b, m ∈ inode_numbers → m ≠ n → live X sb w m = Some i → b ∈ owned i w →
    w_read w' b = w_read w b) as Hr.
  { intros m i b Hm Hne Hi Hb. assert (b ∈ owned_at X sb w m) as Hb' by (unfold owned_at; by rewrite Hi).
    destruct (owned_range _ _ _ _ _ Hc Hm Hb'). apply Hread; [done|done|].
    intros Hb''. by apply Hne, (cs_disjoint _ _ _ Hc _ _ b). }
  assert (∀ m i, m ∈ inode_numbers → m ≠ n → live X sb w m = Some i →
    node_ok sb' i w' ∧ owned i w' = owned i w ∧ node i w' = node i w) as Hext.
  { intros m i Hm Hne Hi. apply (node_ok_ext sb); [by eapply (cs_node _ _ _ Hc)|apply Hinv|done|eauto]. }
  assert (∀ m, m ∈ inode_numbers → m ≠ n → owned_at X' sb' w' m = owned_at X sb w m) as Hown.
  { intros m Hm Hne. unfold owned_at. rewrite Hlive by done.
    destruct (live X sb w m) as [i|] eqn:E; [|done]. by apply (Hext m i Hm Hne E). }
  assert (∀ m b, m ∈ inode_numbers → m ≠ n → b ∈ owned_at X sb w m → b ∉ owned_at X sb w n) as Hdis.
  { intros m b Hm Hne H1 H2. by apply Hne, (cs_disjoint _ _ _ Hc _ _ b). }
  assert (∀ m b, m ∈ inode_numbers → m ≠ n → b ∈ owned_at X sb w m → b ∉ owned_at X' sb' w' n) as Hdis'.
  { intros m b Hm Hne H1 [?|[Hf _]]%Hnew; [by eapply Hdis|].
    destruct (owned_range _ _ _ _ _ Hc Hm H1). congruence. }
  split; [constructor|].
  - done.
  - intros m i Hm. destruct (decide (m = n)) as [->|Hne]; [apply Hnode|].
    rewrite Hlive by done. intros Hi. by apply (Hext m i).
  - intros b Hb. rewrite Hbits, orb_true_iff, andb_true_iff, !bool_decide_eq_true by done.
    rewrite (cs_bits _ _ _ Hc) by done. split.
    + intros [Hin|((m & Hm & Hin) & Hni)]; [by exists n|]. exists m. split; [done|].
      rewrite Hown; [done|done|]. by intros ->.
    + intros (m & Hm & Hin). destruct (decide (m = n)) as [->|Hne]; [by left|right].
      rewrite Hown in Hin by done. split; [by exists m|by eapply Hdis].
  - intros m1 m2 b Hm1 Hm2 H1 H2.
    destruct (decide (m1 = n)) as [->|Hne1], (decide (m2 = n)) as [->|Hne2]; [done| | |].
    + rewrite Hown in H2 by done. by destruct (Hdis' m2 b).
    + rewrite Hown in H1 by done. by destruct (Hdis' m1 b).
    + rewrite Hown in H1, H2 by done. by eapply (cs_disjoint _ _ _ Hc).
  - intros b Hb. assert (31 ≤ b < MAX_BLOCKS) as Hr' by (unfold inode_area in Hb; consts; lia).
    rewrite Hbits by done. rewrite (cs_area _ _ _ Hc b Hb), orb_false_r. apply bool_decide_eq_false.
    intros [Hin|[_ ?]]%Hnew; [|done]. destruct (owned_range _ _ _ _ _ Hc Hn Hin) as [_ Hbt].
    rewrite (cs_area _ _ _ Hc b Hb) in Hbt. done.
  - apply map_eq. intros m. rewrite lookup_partial_alter. case_decide as Hm.
    + subst m. rewrite abs_lookup. by rewrite decide_True.
    + rewrite !abs_lookup. case_decide as Hin; [|done]. unfold node_at.
      rewrite Hlive by done. destruct (live X sb w m) as [i|] eqn:E; [|done].
      simpl. f_equal. by apply (Hext m i).
Qed.

(** ** Reading an inode *)
Lemma consistent_inode X sb w n :
  consistent X sb w → n ∈ inode_numbers →
  ∃ i, disk_inode sb w n = Some i ∧ inode_wf i ∧ i_inode_no i = n.
Proof.
  intros Hc Hn. apply disk_inode_Some; [apply (cs_inv _ _ _ Hc)|].
  by apply (consistent_number _ _ _ _ Hc).
Qed.

Lemma consistent_live X sb w n i :
  consistent X sb w → n ∈ inode_numbers → live X sb w n = Some i →
  node_ok sb i w ∧ inode_wf i ∧ i_inode_no i = n ∧ disk_inode sb w n = Some i.
Proof.
  intros Hc Hn Hl. pose proof (cs_node _ _ _ Hc n i Hn Hl) as Hok.
  apply live_Some in Hl as (_ & Hi & _). split_and!; [done|by eapply node_ok_wf| |done].
  destruct (consistent_inode _ _ _ _ Hc Hn) as (j & Hj & _ & Hno). congruence.
Qed.

Lemma abs_live X sb w n x :
  abs X sb w !! n = Some x → n ∈ inode_numbers ∧ ∃ i, live X sb w n = Some i ∧ x = node i w.
Proof.
  rewrite abs_lookup. case_decide; [|done]. unfold node_at.
  destruct (live X sb w n); naive_solver.
Qed.

Lemma consistent_tick X sb w : consistent X sb w → consistent X sb (w_tick w).
Proof.
  intros Hc. destruct Hc as [Hinv Hnode Hbits Hdis Harea].
  constructor; [by apply bitmap_inv_tick| |exact Hbits|exact Hdis|exact Harea].
  intros n i Hn Hi. destruct (node_ok_ext sb sb i w (w_tick w)) as [? _]; try done.
  - exact (Hnode n i Hn Hi).
  - apply Hinv.
Qed.

(** ** Writing an inode *)

(** Writing the inode [j]: the number gets another inode, with the same blocks. *)
Lemma put_same X sb w j :
  consistent X sb w → inode_wf j → i_inode_no j ∈ inode_numbers →
  let w' := put_inode sb j w in
  bitmap_inv sb w' ∧ (∀ b, 0 ≤ b < MAX_BLOCKS → bit w' b = bit w b) ∧
  (∀ b, 31 ≤ b < MAX_BLOCKS → bit w b = true → w_read w' b = w_read w b) ∧
  disk_inode sb w' (i_inode_no j) = Some j ∧
  (∀ X' m, m ∈ inode_numbers → m ≠ i_inode_no j → (X' = Some m ↔ X = Some m) →
    live X' sb w' m = live X sb w m).
Proof.
  intros Hc Hj Hn w'. pose proof (cs_inv _ _ _ Hc) as Hinv.
  destruct (consistent_number _ _ _ _ Hc Hn) as (Hno & Hblk & _ & Hfree).
  pose proof (inode_wf_direct _ Hj) as Hd. split_and!.
  - by apply bitmap_inv_put.
  - intros b Hb. apply bit_ext; [done|]. intros k Hk. apply put_inode_read_ne. lia.
  - intros b Hb Hbit. apply put_inode_read_ne. intros ->. destruct Hfree; [lia|congruence].
  - apply disk_inode_put_same; [apply Hinv|done].
  - intros X' m Hm Hne HX. unfold live. rewrite (decide_ext _ _ _ _ HX).
    unfold w'. rewrite disk_inode_put_other; [done|apply Hinv|done|done| |apply Hno].
    apply (consistent_number _ _ _ _ Hc Hm).
Qed.

Lemma change_put X sb w j :
  consistent X sb w → inode_wf j → i_inode_no j ∈ inode_numbers → X ≠ Some (i_inode_no j) →
  i_nlink j ≠ 0 → node_ok sb j w → owned j w = owned_at X sb w (i_inode_no j) →
  change (i_inode_no j) X sb w X sb (put_inode sb j w) ∧
  node_at X sb (put_inode sb j w) (i_inode_no j) = Some (node j w).
Proof.
  intros Hc Hj Hn HX Hlink Hok Hown. set (n := i_inode_no j) in *.
  destruct (put_same X sb w j Hc Hj Hn) as (Hinv & Hbits & Hread & Hdisk & Hlive).
  set (w' := put_inode sb j w) in *.
  assert (live X sb w' n = Some j) as Hl by (by apply live_Some).
  destruct (node_ok_ext sb sb j w w' Hok) as (Hok' & Hown' & Hnode'); [apply Hinv|done| |].
  { rewrite Hown. intros b Hb. destruct (owned_range _ _ _ _ _ Hc Hn Hb). by apply Hread. }
  assert (owned_at X sb w' n = owned_at X sb w n) as Hsame
    by (unfold owned_at at 1; by rewrite Hl, Hown', Hown).
  split; [constructor|].
  - done.
  - intros m Hm Hne. by apply Hlive.
  - rewrite Hl. by intros i [= <-].
  - rewrite Hsame. by left.
  - intros b Hb. rewrite Hsame, Hbits by lia.
    destruct (bit w b) eqn:E; simpl; repeat case_bool_decide; try done.
    destruct (owned_range _ _ _ _ _ Hc Hn H). congruence.
  - intros b Hb Hbit _. by apply Hread.
  - unfold node_at. rewrite Hl. simpl. by rewrite Hnode'.
Qed.

(** Writing an inode whose [nlink] is 0, for a node without blocks. *)
Lemma change_bury X sb w j :
  consistent X sb w → inode_wf j → i_inode_no j ∈ inode_numbers →
  X = None ∨ X = Some (i_inode_no j) → i_nlink j = 0 → owned_at X sb w (i_inode_no j) = [] →
  change (i_inode_no j) X sb w None sb (put_inode sb j w) ∧
  node_at None sb (put_inode sb j w) (i_inode_no j) = None.
Proof.
  intros Hc Hj Hn HX Hlink Hown. set (n := i_inode_no j) in *.
  destruct (put_same X sb w j Hc Hj Hn) as (Hinv & Hbits & Hread & Hdisk & Hlive).
  set (w' := put_inode sb j w) in *.
  assert (live None sb w' n = None) as Hl.
  { unfold live. fold n in Hdisk. rewrite decide_False, Hdisk by done. simpl. by rewrite Hlink. }
  assert (owned_at None sb w' n = []) as Hnone by (unfold owned_at; by rewrite Hl).
  split; [constructor|].
  - done.
  - intros m Hm Hne. apply Hlive; [done|done|]. naive_solver.
  - by rewrite Hl.
  - rewrite Hnone. intros b []%not_elem_of_nil.
  - intros b Hb. rewrite Hnone, Hown, Hbits by lia.
    by rewrite bool_decide_false, bool_decide_true, andb_true_r by apply not_elem_of_nil.
  - intros b Hb Hbit _. by apply Hread.
  - unfold node_at. by rewrite Hl.
Qed.
End consistent.
