(* ===== verification/Room.v ===== *)
(** * Room: the free blocks, and what the operations take of them

    The free blocks that matter are those below block 89, where the inodes begin that lie
    in the data area.  [room_left] bounds what an operation takes of them; [spent] says more:
    no block above them is taken, and a directory gets another block only when its
    entries fill the ones it has.  [space] is the number of blocks a tree needs, given
    the largest sizes its directories had ([peak]); [used_spent] keeps the account over an
    operation and [space_room] derives the free blocks from it: what was freed counts
    again. *)
From S2P Require Import Prelude Disk Superblock Bitmap Inode Directory Fs File Spec Consistency.

(** ** Free blocks *)

(** There are [k] free blocks before the inodes that lie in the data area. *)
Definition room (k : Z) (w : world) : Prop := k ≤ free_below 89 w.

Lemma room_least k sb w :
  bitmap_inv sb w → 1 ≤ k → room k w → ∃ a, least_free w = Some a ∧ 31 ≤ a < 89 ∧ bit w a = false.
Proof.
  intros Hi Hk Hroom. unfold room in Hroom. destruct (free_below_pos 89 w) as (m & Hm & Hbit); [lia|].
  destruct (least_free w) as [a|] eqn:E.
  - apply least_free_Some in E as (Ha & Hf & Hlow). exists a. split_and!; [done| | |done].
    + apply (bitmap_inv_free sb w a Hi); [lia|done].
    + destruct (Z.lt_ge_cases a 89); [done|]. rewrite Hlow in Hbit by lia. done.
  - rewrite (proj1 (least_free_None w) E m) in Hbit by (consts; lia). done.
Qed.

(** What an operation leaves of them: all but [k]. *)
Definition room_left (k : Z) (w w' : world) : Prop := free_below 89 w - k ≤ free_below 89 w'.

(** Counting the blocks that were marked. *)
Lemma room_left_new l w w' :
  (∀ b, 0 ≤ b < 89 → bit w' b = true → bit w b = true ∨ b ∈ l) → room_left (zlen l) w w'.
Proof.
  intros Hnew. unfold room_left, free_below.
  assert (filter (λ n, bit w n = false) (seqZ 0 89) ⊆+
    filter (λ n, bit w' n = false) (seqZ 0 89) ++ l) as Hsub%submseteq_length.
  { apply NoDup_submseteq; [apply NoDup_filter, NoDup_seqZ|]. intros b [Hb Hin]%list_elem_of_filter.
    apply elem_of_app. destruct (bit w' b) eqn:E.
    - right. apply elem_of_seqZ in Hin. destruct (Hnew b ltac:(lia) E); [congruence|done].
    - left. by apply list_elem_of_filter. }
  rewrite length_app in Hsub. unfold zlen. lia.
Qed.

Lemma room_left_same w w' :
  (∀ b, 0 ≤ b < MAX_BLOCKS → bit w' b = true → bit w b = true) → room_left 0 w w'.
Proof.
  intros Hb. apply (room_left_new []). intros b Hr Hbit. left. apply Hb; [consts; lia|done].
Qed.

Lemma room_left_trans j k w w1 w2 : room_left j w w1 → room_left k w1 w2 → room_left (j + k) w w2.
Proof. unfold room_left. lia. Qed.

Lemma room_ext k w w' : (∀ b, 0 ≤ b < MAX_BLOCKS → bit w' b = bit w b) → room k w → room k w'.
Proof.
  intros Hb Hr. unfold room in *. replace (free_below 89 w') with (free_below 89 w); [done|].
  unfold free_below. f_equal. apply list_filter_ext_in.
  apply Forall_forall. intros b Hin%elem_of_seqZ.
  by rewrite Hb by (consts; lia).
Qed.

(** ** Directories as maps *)
Section dir.
Implicit Types (sb : SuperBlock) (i : Inode) (w : world) (name : bytes).

Lemma NoDup_dir_slots i w : NoDup (dir_blocks i) → NoDup (dir_slots i w).
Proof.
  intros Hnd. unfold dir_slots. apply NoDup_bind; [| |done].
  - intros b b' s _ _ (j & _ & ->)%elem_of_block_slots (j' & _ & [= ? ? ?])%elem_of_block_slots. done.
  - intros b _. apply NoDup_fmap_2_strong; [|apply NoDup_seqZ].
    intros j j' _ _ [= _ ?]. lia.
Qed.

Lemma NoDup_dir_names sb i w :
  dir_node sb i w →
  NoDup (((λ s : found, (entry_name (fst (fst s)), de_inode (fst (fst s)))) <$> dir_entries i w).*1).
Proof.
  intros [_ Huniq Hnd _ _]. rewrite <-list_fmap_compose. apply NoDup_fmap_2_strong.
  - intros s s' [Hu Hs]%list_elem_of_filter [Hu' Hs']%list_elem_of_filter Heq. by apply Huniq.
  - apply NoDup_filter, NoDup_dir_slots, Hnd.
Qed.

Lemma size_dir_map sb i w : dir_node sb i w → base.size (dir_map i w) = length (dir_entries i w).
Proof.
  intros Hd. unfold dir_map. rewrite map_size_list_to_map; [by rewrite length_fmap|].
  by eapply NoDup_dir_names.
Qed.

Lemma length_dir_slots i w : length (dir_slots i w) = (15 * length (dir_blocks i))%nat.
Proof.
  unfold dir_slots. induction (dir_blocks i) as [|b l IH]; [done|]. cbn [mbind list_bind].
  rewrite length_app, IH. cbn [length]. unfold block_slots. rewrite length_fmap, length_seqZ. lia.
Qed.

Lemma filter_all {T} (P : T → Prop) `{∀ x, Decision (P x)} (l : list T) :
  (∀ x, x ∈ l → P x) → filter P l = l.
Proof.
  induction l as [|x l IH]; intros Hl; [done|]. rewrite filter_cons, decide_True by (apply Hl; set_solver).
  f_equal. apply IH. set_solver.
Qed.

(** In a directory without a free place every slot is an entry. *)
Lemma dir_full sb i w :
  dir_node sb i w → first_free i w = None →
  base.size (dir_map i w) = (15 * length (dir_blocks i))%nat.
Proof.
  intros Hd E. rewrite (size_dir_map sb) by done. unfold dir_entries.
  rewrite filter_all, length_dir_slots; [done|].
  intros s Hin. pose proof (proj1 (first_some_None _ _) E s Hin) as Hnone. unfold free_place in Hnone.
  unfold is_used. by destruct (DirEntry_is_empty _).
Qed.

(** A directory with fewer than 150 entries has room for another. *)
Lemma dir_has_room sb i w :
  dir_node sb i w → (base.size (dir_map i w) < 150)%nat → least_free w ≠ None → has_room i w.
Proof.
  intros Hd Hs Hfree. destruct (first_free i w) as [[b off]|] eqn:E; [left; congruence|]. right.
  split; [|done]. rewrite (dir_full sb) in Hs by done.
  pose proof (dk_readable _ _ _ (dn_ok _ _ _ Hd)) as Hr. pose proof (dr_wf _ _ Hr) as Hwf.
  pose proof (inode_wf_direct _ Hwf) as Hdl. pose proof (dr_count _ _ Hr).
  unfold dir_blocks in Hs. unfold zlen in Hdl. rewrite length_take in Hs. lia.
Qed.
End dir.

(** ** What an operation takes *)

(** The number of blocks a directory needs that had [h] entries at most. *)
Definition dir_need (h : nat) : Z := Z.max 1 ((Z.of_nat h + 14) / 15).

(** The directories of the new state: [P] holds, or they were there with as many blocks. *)
Definition one_block (i : Inode) (w : world) : Prop := zlen (dir_blocks i) ≤ 1.
Definition as_needed (i : Inode) (w : world) : Prop :=
  zlen (dir_blocks i) ≤ dir_need (base.size (dir_map i w)).

Record spent (P : Inode → world → Prop) (k : Z) (X : option u32) (sb : SuperBlock) (w : world)
    (X' : option u32) (sb' : SuperBlock) (w' : world) : Prop := {
  sp_left : room_left k w w';
  sp_low : ∀ b, 89 ≤ b < MAX_BLOCKS → bit w' b = true → bit w b = true;
  sp_dirs : ∀ n i', n ∈ inode_numbers → live X' sb' w' n = Some i' → is_dir i' →
    P i' w' ∨ ∃ i, live X sb w n = Some i ∧ is_dir i ∧ zlen (dir_blocks i') ≤ zlen (dir_blocks i);
}.

Section spent.
Implicit Types (P : Inode → world → Prop) (X : option u32) (sb : SuperBlock) (w : world) (n : u32).

Lemma one_block_needed i w : one_block i w → as_needed i w.
Proof. unfold one_block, as_needed, dir_need. lia. Qed.

Lemma spent_needed k X sb w X' sb' w' :
  spent one_block k X sb w X' sb' w' → spent as_needed k X sb w X' sb' w'.
Proof.
  intros [Hl Hb Hd]. constructor; [done|done|]. intros n i' Hn Hi' Hdir.
  destruct (Hd n i' Hn Hi' Hdir); [left; by apply one_block_needed|by right].
Qed.

Lemma spent_refl P k X sb w : 0 ≤ k → spent P k X sb w X sb w.
Proof.
  intros Hk. constructor; [unfold room_left; lia|done|].
  intros n i' _ Hl Hd. right. by exists i'.
Qed.

Lemma spent_trans P j k X sb w X1 sb1 w1 X2 sb2 w2 :
  (∀ i v, one_block i v → P i v) →
  spent one_block j X sb w X1 sb1 w1 → spent P k X1 sb1 w1 X2 sb2 w2 →
  spent P (j + k) X sb w X2 sb2 w2.
Proof.
  intros HP [Hl1 Hb1 Hd1] [Hl2 Hb2 Hd2]. constructor; [by eapply room_left_trans|auto|].
  intros n i2 Hn Hi2 Hdir. destruct (Hd2 n i2 Hn Hi2 Hdir) as [?|(i1 & Hi1 & Hdir1 & Hle)]; [by left|].
  destruct (Hd1 n i1 Hn Hi1 Hdir1) as [Hone|(i & Hi & Hdi & Hle1)].
  - left. apply HP. unfold one_block in *. lia.
  - right. exists i. split_and!; [done|done|lia].
Qed.

(** The clock does not matter. *)
Lemma spent_tick P k X sb w X' sb' w' :
  spent P k X sb (w_tick w) X' sb' w' → spent P k X sb w X' sb' w'.
Proof. intros [Hl Hb Hd]. constructor; [exact Hl|exact Hb|exact Hd]. Qed.

(** An operation that changes one node. *)
Lemma spent_change P l n X sb w X' sb' w' :
  change n X sb w X' sb' w' →
  (∀ b, 0 ≤ b < MAX_BLOCKS → bit w' b = true → bit w b = true ∨ b ∈ l ∧ b < 89) →
  (∀ i', live X' sb' w' n = Some i' → is_dir i' →
     P i' w' ∨ ∃ i, live X sb w n = Some i ∧ is_dir i ∧ zlen (dir_blocks i') ≤ zlen (dir_blocks i)) →
  spent P (zlen l) X sb w X' sb' w'.
Proof.
  intros Hch Hb Hn. constructor.
  - apply room_left_new. intros b Hr Hbit. destruct (Hb b ltac:(consts; lia) Hbit) as [?|[? _]]; [by left|by right].
  - intros b Hr Hbit. destruct (Hb b ltac:(lia) Hbit) as [?|[_ ?]]; [done|lia].
  - intros m i' Hm Hl Hd. destruct (decide (m = n)) as [->|Hne]; [by apply Hn|].
    right. exists i'. rewrite <-(ch_live _ _ _ _ _ _ _ Hch) by done. done.
Qed.

(** One that takes no block. *)
Lemma spent_change_none P n X sb w X' sb' w' :
  change n X sb w X' sb' w' →
  (∀ b, 0 ≤ b < MAX_BLOCKS → bit w' b = true → bit w b = true) →
  (∀ i', live X' sb' w' n = Some i' → is_dir i' →
     P i' w' ∨ ∃ i, live X sb w n = Some i ∧ is_dir i ∧ zlen (dir_blocks i') ≤ zlen (dir_blocks i)) →
  spent P 0 X sb w X' sb' w'.
Proof.
  intros Hch Hb. apply (spent_change P []); [done|]. intros b Hr Hbit. left. by apply Hb.
Qed.
End spent.

(** ** Space: the blocks a tree needs *)

(** The largest size each directory of [A] had, given the largest sizes [H] before. *)
Definition peak (H : gmap u32 nat) (A : gmap u32 anode) : gmap u32 nat :=
  map_imap (λ n x, match an_body x with
    | ADir m => Some (default 0%nat (H !! n) `max` base.size m)%nat
    | AFile _ => None
    end) A.

(** The blocks of a node: a file of more than 10 blocks has an indirect block, and a
    directory keeps the blocks it had when it was largest. *)
Definition node_need (H : gmap u32 nat) (n : u32) (x : anode) : Z :=
  match an_body x with
  | AFile d => let k := blocks_for (zlen d) in k + (if 10 <? k then 1 else 0)
  | ADir _ => dir_need (default 0%nat (H !! n))
  end.

Definition total (f : u32 → Z) (l : list u32) : Z := foldr (λ n s, f n + s) 0 l.
Definition space (H : gmap u32 nat) (A : gmap u32 anode) : Z :=
  total (λ n, from_option (node_need H n) 0 (A !! n)) inode_numbers.

(** The blocks in use are those the sizes [H] account for. *)
Record used (H : gmap u32 nat) (sb : SuperBlock) (w : world) : Prop := {
  us_low : ∀ b, 89 ≤ b < MAX_BLOCKS → bit w b = false;
  us_dirs : ∀ n i, n ∈ inode_numbers → live None sb w n = Some i → is_dir i →
    zlen (dir_blocks i) ≤ dir_need (default 0%nat (H !! n));
}.

Section space.
Implicit Types (H : gmap u32 nat) (A : gmap u32 anode) (sb : SuperBlock) (w : world) (n : u32).

Lemma total_le f g l : (∀ n, n ∈ l → f n ≤ g n) → total f l ≤ total g l.
Proof.
  unfold total. induction l as [|n l IH]; intros Hl; simpl; [done|].
  pose proof (Hl n ltac:(set_solver)). specialize (IH ltac:(set_solver)). lia.
Qed.

Lemma total_add f g l : total (λ n, f n + g n) l = total f l + total g l.
Proof. unfold total. induction l as [|n l IH]; simpl; lia. Qed.

Lemma total_at p k l : NoDup l → 0 ≤ k → total (λ n, if decide (n = p) then k else 0) l ≤ k.
Proof.
  intros Hnd Hk. unfold total. induction Hnd as [|n l Hn Hnd IH]; [done|]. cbn [foldr].
  destruct (decide (n = p)) as [->|Hne]; [|lia].
  enough (foldr (λ n s, (if decide (n = p) then k else 0) + s) 0 l = 0) by lia.
  clear -Hn. induction l as [|m l IH]; [done|]. cbn [foldr]. rewrite decide_False by set_solver.
  apply IH. set_solver.
Qed.

Lemma NoDup_inode_numbers : NoDup inode_numbers.
Proof.
  unfold inode_numbers. apply NoDup_cons. rewrite elem_of_app, !elem_of_seqZ. split; [lia|].
  apply NoDup_app. split_and!; [apply NoDup_seqZ| |apply NoDup_seqZ]. intros n. rewrite !elem_of_seqZ. lia.
Qed.

Lemma dir_need_mono (h h' : nat) : (h ≤ h')%nat → dir_need h ≤ dir_need h'.
Proof. unfold dir_need. intros Hh. dlia. Qed.

Lemma peak_lookup H A n :
  peak H A !! n = x ← A !! n; match an_body x with
    | ADir m => Some (default 0%nat (H !! n) `max` base.size m)%nat | AFile _ => None end.
Proof. unfold peak. by rewrite map_lookup_imap. Qed.

Lemma peak_dir H A n m :
  entries A n = Some m → peak H A !! n = Some (default 0%nat (H !! n) `max` base.size m)%nat.
Proof. intros (md & Hn)%entries_Some. by rewrite peak_lookup, Hn. Qed.

(** An operation keeps the account. *)
Lemma used_spent H k sb w sb' w' :
  used H sb w → spent as_needed k None sb w None sb' w' →
  used (peak H (abs None sb' w')) sb' w'.
Proof.
  intros [Hlow Hdirs] [_ Hb Hd]. constructor.
  - intros b Hr. destruct (bit w' b) eqn:E; [|done]. by rewrite <-(Hb b Hr E), Hlow.
  - intros n i' Hn Hl Hdir. assert (entries (abs None sb' w') n = Some (dir_map i' w')) as He.
    { unfold entries. rewrite (abs_of _ _ _ _ _ Hn Hl). simpl. unfold node. by rewrite decide_True. }
    rewrite (peak_dir H _ n (dir_map i' w')) by done. simpl.
    destruct (Hd n i' Hn Hl Hdir) as [Hneed|(i & Hi & Hdi & Hle)].
    + etrans; [exact Hneed|]. apply dir_need_mono. lia.
    + etrans; [exact Hle|]. etrans; [by apply (Hdirs n)|]. apply dir_need_mono. lia.
Qed.

Lemma zlen_own_blocks i w :
  inode_wf i → zlen (own_blocks i w) = i_block_count i + (if 10 <? i_block_count i then 1 else 0).
Proof.
  intros Hwf. unfold own_blocks. rewrite zlen_app, zlen_file_blocks by done. unfold indirect_blocks.
  destruct (10 <? i_block_count i); unfold zlen; simpl; lia.
Qed.

(** What a node owns. *)
Lemma owned_need H sb w n :
  consistent None sb w → used H sb w → n ∈ inode_numbers →
  zlen (owned_at None sb w n) ≤ from_option (node_need H n) 0 (abs None sb w !! n).
Proof.
  intros Hc Hu Hn. rewrite abs_lookup, decide_True by done. unfold owned_at, node_at.
  destruct (live None sb w n) as [i|] eqn:Hl; [|done]. simpl.
  pose proof (cs_node _ _ _ Hc n i Hn Hl) as Hok. unfold node_ok in Hok. unfold owned, node, node_need. simpl.
  destruct (decide (is_dir i)) as [Hd|Hd]; [by apply (us_dirs _ _ _ Hu)|].
  destruct (raw_contents sb i w (fn_ok _ _ _ Hok)) as [-> _].
  rewrite zlen_own_blocks, (fn_count _ _ _ Hok); [done|].
  apply (fl_wf _ _ _ (fo_layout _ _ _ (fn_ok _ _ _ Hok))).
Qed.

Lemma zlen_owned_all H sb w l :
  consistent None sb w → used H sb w → (∀ n, n ∈ l → n ∈ inode_numbers) →
  zlen (l ≫= owned_at None sb w) ≤ total (λ n, from_option (node_need H n) 0 (abs None sb w !! n)) l.
Proof.
  intros Hc Hu. unfold total. induction l as [|n l IH]; intros Hl; [done|].
  rewrite bind_cons, zlen_app. cbn [foldr]. pose proof (owned_need H sb w n Hc Hu ltac:(set_solver)).
  specialize (IH ltac:(set_solver)). lia.
Qed.

(** The free blocks are those the tree does not need. *)
Lemma space_room H sb w k :
  consistent None sb w → used H sb w → space H (abs None sb w) + k ≤ 58 → room k w.
Proof.
  intros Hc Hu Hk. unfold room, free_below.
  set (marked := filter (λ n, bit w n ≠ false) (seqZ 0 89)).
  assert (marked ⊆+ seqZ 0 31 ++ (inode_numbers ≫= owned_at None sb w)) as Hsub%submseteq_length.
  { apply NoDup_submseteq; [apply NoDup_filter, NoDup_seqZ|].
    intros b [Hb Hin%elem_of_seqZ]%list_elem_of_filter. apply not_false_iff_true in Hb.
    apply elem_of_app. destruct (Z.lt_ge_cases b 31); [left; apply elem_of_seqZ; lia|right].
    apply (cs_bits _ _ _ Hc) in Hb as (n & Hn & Hown); [|consts; lia].
    apply list_elem_of_bind. by exists n. }
  pose proof (zlen_owned_all H sb w inode_numbers Hc Hu (λ n Hn, Hn)) as Hown.
  pose proof (filter_app_complement (λ n, bit w n = false) (seqZ 0 89)) as Hp%Permutation_length.
  fold (space H (abs None sb w)) in Hown. rewrite length_app, length_seqZ in *. fold marked in Hp.
  unfold zlen in *. lia.
Qed.
End space.
