(* ===== verification/Namespace.v ===== *)
(** * Namespace: the handlers of [src/fs.rs] on directories and their entries

    [create], [mkdir], [unlink] and [rmdir] implement the operations of [Spec]: from a
    consistent file system each replies what the specification says, and leaves a
    consistent file system that stores the tree of the specification. *)
From S2P Require Import Prelude Disk Superblock Bitmap Inode Directory Fs File Format Spec.
From S2P Require Import Consistency Room.

(** ** Directories as maps *)
Section dir.
Implicit Types (sb : SuperBlock) (i : Inode) (w : world) (name : bytes).

(** The state after an entry was added. *)
Lemma change_added X sb w p i name e sb' i' w' :
  consistent X sb w → p ∈ inode_numbers → live X sb w p = Some i → is_dir i →
  room 1 w → typed_entry e → entry_added sb i w name e sb' i' w' →
  change p X sb w X sb' w' ∧
  node_at X sb' w' p = Some (ANode (i_mode i) (ADir (<[name := de_inode e]> (dir_map i w)))).
Proof.
  intros Hc Hp Hl Hdir Hroom Hty Ha. destruct (consistent_live _ _ _ _ _ Hc Hp Hl) as (Hok & Hwf & Hno & Hi).
  unfold node_ok in Hok. rewrite decide_True in Hok by done.
  destruct (ea_kind _ _ _ _ _ _ _ _ Ha) as [Hmode Hlink].
  assert (is_dir i') as Hdir' by (unfold is_dir; by rewrite Hmode).
  assert (live X sb' w' p = Some i') as Hl'.
  { apply live_Some in Hl as (HX & _ & Hn). apply live_Some. split_and!; [done| |by rewrite Hlink].
    rewrite <-Hno. by apply (ea_inode _ _ _ _ _ _ _ _ Ha). }
  assert (owned_at X sb w p = dir_blocks i) as Ho
    by (unfold owned_at, owned; by rewrite Hl, decide_True).
  assert (owned_at X sb' w' p = dir_blocks i') as Ho'
    by (unfold owned_at, owned; by rewrite Hl', decide_True).
  assert (∀ b, b ∈ dir_blocks i → 31 ≤ b < MAX_BLOCKS ∧ bit w b = true) as Hold.
  { intros b. rewrite <-Ho. by apply (owned_range _ _ _ _ _ Hc). }
  destruct (room_least 1 sb w (cs_inv _ _ _ Hc) ltac:(lia) Hroom) as (a & Hleast & Har & Hfree).
  assert (dir_blocks i' = dir_blocks i ∨ dir_blocks i' = dir_blocks i ++ [a]) as Hb'.
  { destruct (ea_blocks _ _ _ _ _ _ _ _ Ha) as [?|(b & Hb & _ & ?)]; [by left|right; congruence]. }
  assert (∀ b, b ∈ dir_blocks i' → b ∈ dir_blocks i ∨ b = a) as Hin.
  { intros b. destruct Hb' as [-> | ->]; [by left|].
    rewrite elem_of_app, list_elem_of_singleton. tauto. }
  assert (∀ b, b ∈ dir_blocks i' → b ∈ dir_blocks i ∨ bit w b = false ∧ ¬ inode_area b) as Hnew.
  { intros b [?| ->]%Hin; [by left|right]. split; [done|]. unfold inode_area. lia. }
  assert (∀ b, b ∈ dir_blocks i → b ∈ dir_blocks i') as Hsub by (intros b; destruct Hb' as [-> | ->]; [done|rewrite elem_of_app; tauto]).
  pose proof (ea_table _ _ _ _ _ _ _ _ Ha) as Ht.
  split; [constructor|].
  - apply Ha.
  - intros m Hm Hne. unfold live. case_decide; [done|].
    destruct (consistent_number _ _ _ m Hc Hm) as (Hmo & Hmb & _ & Hmf).
    rewrite (disk_inode_table sb sb') by done.
    rewrite (ea_inodes _ _ _ _ _ _ _ _ Ha); [done|apply Hmo|by rewrite Hno|lia|].
    destruct (number_block sb m (consistent_table _ _ _ Hc) Hm) as [_ Hma].
    intros [Hb|Heq]%Hin; [|unfold inode_area in Hma; lia].
    destruct (Hold _ Hb). destruct Hmf; [lia|congruence].
  - rewrite Hl'. intros j [= <-]. unfold node_ok. rewrite decide_True by done. constructor.
    + apply Ha.
    + apply (ea_unique _ _ _ _ _ _ _ _ Ha), Hok.
    + destruct Hb' as [-> | ->]; [apply Hok|]. apply NoDup_app. split_and!; [apply Hok| |apply NoDup_singleton].
      intros b Hb ->%list_elem_of_singleton. destruct (Hold _ Hb). congruence.
    + rewrite (ea_no _ _ _ _ _ _ _ _ Ha). apply Hok.
    + destruct (ea_get _ _ _ _ _ _ _ _ Ha) as (b & off & Hget). intros nm s. rewrite Hget.
      case_decide; [by intros [= <-]|apply Hok].
  - rewrite Ho, Ho'. exact Hnew.
  - intros b Hb. rewrite Ho, Ho', (ea_bits _ _ _ _ _ _ _ _ Ha) by lia.
    destruct (decide (b ∈ dir_blocks i)) as [Hbi|Hbi].
    + destruct (Hold _ Hbi) as [_ ->]. rewrite (bool_decide_true (b ∈ dir_blocks i')) by auto.
      apply orb_true_r.
    + rewrite (bool_decide_true (b ∉ dir_blocks i)), andb_true_r by done. f_equal.
      apply bool_decide_ext. naive_solver.
  - rewrite Ho. intros b Hb Hbit Hbi. apply (ea_frame _ _ _ _ _ _ _ _ Ha); [lia| |].
    + intros [?|[? _]]%Hnew; [done|congruence].
    + rewrite Hno. intros ->.
      destruct (consistent_number _ _ _ p Hc Hp) as (_ & _ & _ & [?|?]); [lia|congruence].
  - unfold node_at, node. rewrite Hl'. simpl. rewrite decide_True, Hmode by done. do 3 f_equal.
    apply map_eq. intros nm. destruct (ea_get _ _ _ _ _ _ _ _ Ha) as (b & off & Hget).
    rewrite dir_map_get, Hget, lookup_insert. case_decide as Hd.
    + by rewrite decide_True.
    + rewrite decide_False by congruence. by rewrite dir_map_get.
Qed.

(** What it takes. *)
Lemma spent_added X sb w p i name e sb' i' w' :
  consistent X sb w → p ∈ inode_numbers → live X sb w p = Some i → is_dir i →
  room 1 w → typed_entry e → dir_map i w !! name = None → entry_added sb i w name e sb' i' w' →
  spent as_needed 1 X sb w X sb' w'.
Proof.
  intros Hc Hp Hl Hdir Hroom Hty Hname Ha.
  destruct (change_added _ _ _ _ _ _ _ _ _ _ Hc Hp Hl Hdir Hroom Hty Ha) as [Hch Hnode].
  destruct (consistent_live _ _ _ _ _ Hc Hp Hl) as (Hok & _ & Hno & _).
  unfold node_ok in Hok. rewrite decide_True in Hok by done.
  destruct (room_least 1 sb w (cs_inv _ _ _ Hc) ltac:(lia) Hroom) as (a & Hleast & Har & Hfree).
  apply (spent_change _ [a] p); [exact Hch| |].
  - intros b Hb. rewrite (ea_bits _ _ _ _ _ _ _ _ Ha) by done.
    rewrite orb_true_iff, bool_decide_eq_true, list_elem_of_singleton. intros [[Hin Hni]|?]; [right|by left].
    destruct (ea_blocks _ _ _ _ _ _ _ _ Ha) as [Heq|(a' & Ha' & _ & Heq)]; rewrite Heq in Hin; [done|].
    apply elem_of_app in Hin as [?|Hin%list_elem_of_singleton]; [done|].
    assert (b = a) as -> by congruence. split; [done|lia].
  - intros j Hj Hdj. unfold node_at in Hnode. rewrite Hj in Hnode. injection Hnode as _ Hbody.
    rewrite decide_True in Hbody by done. injection Hbody as Hmap.
    apply live_Some in Hj as (_ & Hj & _). rewrite <-Hno, (ea_inode _ _ _ _ _ _ _ _ Ha) in Hj.
    injection Hj as <-.
    destruct (ea_blocks _ _ _ _ _ _ _ _ Ha) as [Heq|(a' & _ & Hfull & Heq)].
    + right. exists i. by rewrite Heq.
    + left. unfold as_needed, dir_need. rewrite Hmap, Heq, map_size_insert_None, (dir_full sb), zlen_app by done.
      unfold zlen. simpl. dlia.
Qed.

(** The state after an entry was removed. *)
Lemma change_removed X sb w p i name i' w' :
  consistent X sb w → p ∈ inode_numbers → live X sb w p = Some i → is_dir i →
  entry_removed i w name sb i' w' →
  change p X sb w X sb w' ∧
  node_at X sb w' p = Some (ANode (i_mode i) (ADir (base.delete name (dir_map i w)))).
Proof.
  intros Hc Hp Hl Hdir Hr. destruct (consistent_live _ _ _ _ _ Hc Hp Hl) as (Hok & Hwf & Hno & Hi).
  unfold node_ok in Hok. rewrite decide_True in Hok by done.
  destruct (er_kind _ _ _ _ _ _ Hr) as [Hmode Hlink].
  assert (is_dir i') as Hdir' by (unfold is_dir; by rewrite Hmode).
  assert (live X sb w' p = Some i') as Hl'.
  { apply live_Some in Hl as (HX & _ & Hn). apply live_Some. split_and!; [done| |by rewrite Hlink].
    rewrite <-Hno. by apply (er_inode _ _ _ _ _ _ Hr). }
  assert (owned_at X sb w p = dir_blocks i) as Ho
    by (unfold owned_at, owned; by rewrite Hl, decide_True).
  assert (owned_at X sb w' p = dir_blocks i) as Ho'
    by (unfold owned_at, owned; rewrite Hl', decide_True by done; apply Hr).
  split; [constructor|].
  - apply Hr.
  - intros m Hm Hne. unfold live. case_decide; [done|].
    destruct (consistent_number _ _ _ m Hc Hm) as (Hmo & Hmb & _ & Hmf).
    rewrite (er_inodes _ _ _ _ _ _ Hr); [done|apply Hmo|by rewrite Hno|].
    rewrite <-Ho. intros Hb. by apply (owned_not_inode _ _ _ _ m _ Hc Hp Hm Hb).
  - rewrite Hl'. intros j [= <-]. unfold node_ok. rewrite decide_True by done. constructor.
    + apply Hr.
    + apply Hr.
    + rewrite (er_blocks _ _ _ _ _ _ Hr). apply Hok.
    + rewrite (er_no _ _ _ _ _ _ Hr). apply Hok.
    + intros nm s. rewrite (er_get _ _ _ _ _ _ Hr). case_decide; [done|apply Hok].
  - rewrite Ho, Ho'. by left.
  - intros b Hb. rewrite Ho, Ho', (er_bits _ _ _ _ _ _ Hr) by lia. destruct (bit w b) eqn:E.
    + simpl. repeat case_bool_decide; done.
    + rewrite bool_decide_false; [done|]. rewrite <-Ho. intros Hin.
      destruct (owned_range _ _ _ _ _ Hc Hp Hin). congruence.
  - rewrite Ho. intros b Hb Hbit Hbi. apply (er_frame _ _ _ _ _ _ Hr); [lia|done|].
    rewrite Hno. intros ->.
    destruct (consistent_number _ _ _ p Hc Hp) as (_ & _ & _ & [?|?]); [lia|congruence].
  - unfold node_at, node. rewrite Hl'. simpl. rewrite decide_True, Hmode by done. do 3 f_equal.
    apply map_eq. intros nm. rewrite dir_map_get, (er_get _ _ _ _ _ _ Hr), lookup_delete.
    case_decide as Hd.
    + by rewrite decide_True.
    + rewrite decide_False by congruence. by rewrite dir_map_get.
Qed.
Lemma spent_removed X sb w p i name i' w' :
  consistent X sb w → p ∈ inode_numbers → live X sb w p = Some i → is_dir i →
  entry_removed i w name sb i' w' → spent one_block 0 X sb w X sb w'.
Proof.
  intros Hc Hp Hl Hdir Hr.
  destruct (change_removed _ _ _ _ _ _ _ _ Hc Hp Hl Hdir Hr) as [Hch _].
  destruct (consistent_live _ _ _ _ _ Hc Hp Hl) as (_ & _ & Hno & _).
  apply (spent_change_none _ p); [exact Hch| |].
  - intros b Hb. by rewrite (er_bits _ _ _ _ _ _ Hr).
  - intros j (_ & Hj & _)%live_Some _. rewrite <-Hno, (er_inode _ _ _ _ _ _ Hr) in Hj. injection Hj as <-.
    right. exists i. by rewrite (er_blocks _ _ _ _ _ _ Hr).
Qed.
End dir.

(** ** What the handlers begin with *)
Section begin.
Context `{Clock} `{Build}.
Implicit Types (X : option u32) (sb : SuperBlock) (w : world) (p n : u32) (name : bytes).

Lemma run_read_number X sb w n :
  consistent X sb w → n ∈ inode_numbers →
  ∃ i, disk_inode sb w n = Some i ∧ inode_wf i ∧ i_inode_no i = n ∧
    run (read_inode sb n) w = Done i w ∧ run (read_inode sb (as_u32 n)) w = Done i w.
Proof.
  intros Hc Hn. destruct (consistent_inode _ _ _ _ Hc Hn) as (i & Hi & Hwf & Hno).
  destruct (consistent_number _ _ _ _ Hc Hn) as (Hok & _ & Hu & _). exists i. rewrite Hu.
  assert (run (read_inode sb n) w = Done i w) as Hr
    by (apply run_read_inode; [apply (cs_inv _ _ _ Hc)|done|done]). done.
Qed.

Lemma run_read_live X sb w n i :
  consistent X sb w → n ∈ inode_numbers → live X sb w n = Some i →
  run (read_inode sb n) w = Done i w ∧ run (read_inode sb (as_u32 n)) w = Done i w.
Proof.
  intros Hc Hn Hl. apply live_Some in Hl as (_ & Hi & _).
  destruct (run_read_number _ _ _ _ Hc Hn) as (j & Hj & _ & _ & Hr & Hr').
  assert (j = i) as -> by congruence. done.
Qed.

(** The directory of a handler. *)
Lemma open_dir X sb w p m :
  consistent X sb w → entries (abs X sb w) p = Some m →
  ∃ dir, p ∈ inode_numbers ∧ live X sb w p = Some dir ∧ is_dir dir ∧ dir_node sb dir w ∧
    m = dir_map dir w ∧ run (read_inode sb (as_u32 p)) w = Done dir w ∧
    ∀ name, run (dir_find dir name) w = Done (dir_get dir w name) w.
Proof.
  intros Hc (md & (Hp & i & Hl & Hx)%abs_live)%entries_Some. exists i.
  unfold node in Hx. destruct (decide (is_dir i)) as [Hdir|]; [|done]. injection Hx as _ ->.
  pose proof (cs_node _ _ _ Hc p i Hp Hl) as Hok. unfold node_ok in Hok. rewrite decide_True in Hok by done.
  split_and!; try done.
  - by apply (run_read_live _ _ _ _ _ Hc Hp Hl).
  - intros name. apply run_dir_find, Hok.
Qed.

(** The kind of a node is that of its number. *)
Lemma dir_number_of X sb w p m :
  consistent X sb w → entries (abs X sb w) p = Some m → dir_number p = true.
Proof.
  intros Hc Hp. destruct (open_dir _ _ _ _ _ Hc Hp) as (dir & Hpn & Hl & _ & Hdn & _).
  destruct (consistent_live _ _ _ _ _ Hc Hpn Hl) as (_ & _ & <- & _). apply Hdn.
Qed.

Lemma file_number_of X sb w n x :
  consistent X sb w → abs X sb w !! n = Some x → entries (abs X sb w) n = None → dir_number n = false.
Proof.
  intros Hc Hx He. destruct (abs_live _ _ _ _ _ Hx) as (Hn & i & Hl & ->).
  destruct (consistent_live _ _ _ _ _ Hc Hn Hl) as (Hok & _ & <- & _).
  unfold node_ok in Hok. unfold entries in He. rewrite Hx in He. unfold node in He. simpl in He.
  destruct (decide (is_dir i)); [done|]. apply Hok.
Qed.

(** The search for a free inode. *)
Lemma run_find_free_inode X sb w lo hi :
  consistent X sb w → lo ≤ hi → (∀ n, lo ≤ n ≤ hi → n ∈ inode_numbers ∧ X ≠ Some n) →
  run (SimpleFS.find_free_inode sb lo hi) w = Done (first_unused (abs X sb w) lo hi) w.
Proof.
  intros Hc Hlo Hin. unfold SimpleFS.find_free_inode, first_unused.
  replace (hi - lo + 1) with (Z.of_nat (S (Z.to_nat (hi - lo)))) by lia.
  remember (Z.to_nat (hi - lo)) as k eqn:Hk.
  revert lo Hlo Hin Hk. induction k as [|k IH]; intros lo Hlo Hin Hk;
    destruct (Hin lo ltac:(lia)) as [Hn HX];
    destruct (run_read_number _ _ _ _ Hc Hn) as (i & Hi & _ & _ & Hr & _);
    assert (unused (abs X sb w) lo = if i_nlink i =? 0 then Some lo else None) as Hu
      by (unfold unused; rewrite abs_lookup, decide_True by done; unfold node_at, live;
          rewrite decide_False, Hi by done; cbn; by destruct (i_nlink i =? 0));
    rewrite seqZ_cons by lia; cbn [loop first_some]; rewrite Hu, run_bind, run_bind, Hr;
    clear Hr Hu; destruct (i_nlink i =? 0); try reflexivity; cbn [run mret prog_ret].
  - Z_true (hi <? lo + 1). rewrite seqZ_nil by lia. reflexivity.
  - Z_false (hi <? lo + 1). cbn [run mret prog_ret].
    replace (Z.pred (Z.of_nat (S (S k)))) with (Z.of_nat (S k)) by lia.
    change (Z.succ lo) with (lo + 1). apply IH; [lia| |lia]. intros n Hn'. apply Hin. lia.
Qed.

Lemma first_unused_Some (A : gmap u32 anode) lo hi n :
  first_unused A lo hi = Some n → lo ≤ n ≤ hi ∧ A !! n = None.
Proof.
  intros (m & Hm%elem_of_seqZ & Hf)%first_some_elem. unfold unused in Hf.
  destruct (A !! m) eqn:E; [done|]. injection Hf as ->. split; [lia|done].
Qed.

Lemma to_str_utf8 (d : string) name : utf8_valid name = true → to_str_or d name = name.
Proof. intros Hu. unfold to_str_or. by rewrite Hu. Qed.

Lemma to_str_good (d : string) name : good_name name → to_str_or d name = name.
Proof. intros (_ & _ & Hu & _). by apply to_str_utf8. Qed.

(** The names of a directory are UTF-8, and not empty: a request for another name finds
    nothing, and neither does the empty name that the handlers put in its place. *)
Lemma entry_name_utf8 e : utf8_valid (entry_name e) = true.
Proof.
  unfold entry_name, name_str. destruct (slice _ _ _) as [s|]; [|done]. simpl.
  by destruct (utf8_valid s) eqn:E.
Qed.

Lemma dir_get_utf8 i w name s : dir_get i w name = Some s → utf8_valid name = true.
Proof. intros (s' & _ & (_ & _ & <-)%matches_Some)%first_some_elem. apply entry_name_utf8. Qed.

Lemma dir_get_nil i w : dir_readable i w → dir_get i w [] = None.
Proof.
  intros Hd. apply first_some_None. intros s Hs. destruct (matches [] s) as [s'|] eqn:E; [|done]. exfalso.
  apply matches_Some in E as (_ & Hused & Hn).
  pose proof (proj1 (Forall_forall _ _) (dr_names _ _ Hd) _ Hs) as Hlen.
  apply elem_of_dir_slots in Hs as (b & j & Hb & Hj & ->). cbn [fst] in *.
  destruct (disk_ok_block w b (dr_disk _ _ Hd)) as [Hz Hu].
  assert (entry_wf (entry_of (w_read w b) (j * 34))) as Hwf by (apply entry_of_wf; consts; (done || lia)).
  pose proof (name_str_Some _ Hwf Hlen) as Hname. rewrite Hn in Hname. unfold name_str in Hname.
  destruct (slice _ _ _) as [t|] eqn:Es; [|done]. apply slice_length in Es. simpl in Hname.
  destruct (utf8_valid t); [|done]. injection Hname as ->.
  unfold is_used, DirEntry_is_empty in Hused. simpl in Hused. apply Z.eqb_neq in Hused.
  destruct Hwf as (_ & _ & Hl & _). unfold is_u8 in Hl. unfold zlen in Es. simpl in Es. lia.
Qed.

Lemma dir_get_lossy sb i w name : dir_node sb i w → dir_get i w (to_str_or "" name) = dir_get i w name.
Proof.
  intros Hd. destruct (utf8_valid name) eqn:Hu; [by rewrite to_str_utf8|].
  unfold to_str_or. rewrite Hu. change (str "") with (@nil Z). rewrite dir_get_nil by apply Hd.
  destruct (dir_get i w name) as [s|] eqn:E; [|done]. apply dir_get_utf8 in E. congruence.
Qed.

(** A name that is not there, in the map and in the directory. *)
Lemma dir_map_None i w name : dir_map i w !! name = None → dir_get i w name = None.
Proof. rewrite dir_map_get. by destruct (dir_get i w name). Qed.

Lemma dir_map_Some i w name c :
  dir_map i w !! name = Some c → ∃ e b off, dir_get i w name = Some (e, b, off) ∧ de_inode e = c.
Proof.
  rewrite dir_map_get. destruct (dir_get i w name) as [[[e b] off]|]; [|done]. intros [= <-]. eauto.
Qed.

Lemma entries_utf8 X sb w p name m c :
  consistent X sb w → entries (abs X sb w) p = Some m → m !! name = Some c → utf8_valid name = true.
Proof.
  intros Hc Hp Hm. destruct (open_dir _ _ _ _ _ Hc Hp) as (dir & _ & _ & _ & _ & -> & _).
  apply dir_map_Some in Hm as (e & b & off & Hget & _). by eapply dir_get_utf8.
Qed.

(** The attributes of a node. *)
Definition attr_of X sb w n : option FileAttr := inode_to_attr <$> live X sb w n.
End begin.

(** ** Entries of a directory, as changes of the tree *)
Section link.
Context `{Clock} `{Build} (Hclock : clock_ok).
Implicit Types (X : option u32) (sb : SuperBlock) (w : world) (p n c : u32) (name : bytes).
Implicit Types (m : gmap bytes u32).

Lemma alter_entries (A : gmap u32 anode) p m m' md :
  A !! p = Some (ANode md (ADir m)) →
  partial_alter (λ _, Some (ANode md (ADir m'))) p A = set_entries p m' A.
Proof.
  intros Hp. apply map_eq. intros q. unfold set_entries.
  rewrite lookup_partial_alter, lookup_alter. case_decide; [|done]. subst q. by rewrite Hp.
Qed.

Lemma run_add_name X sb w p dir name c d m :
  consistent X sb w → entries (abs X sb w) p = Some m → live X sb w p = Some dir →
  m !! name = None → good_name name → (base.size m < 150)%nat → room 1 w → is_u32 c →
  d = dir_number c →
  ∃ sb' i' w', run (dir_add_entry sb dir name c d) w = Done (Ok (), sb', i') w' ∧
    consistent X sb' w' ∧ abs X sb' w' = set_entries p (<[name := c]> m) (abs X sb w) ∧
    (∀ n, n ∈ inode_numbers → n ≠ p → live X sb' w' n = live X sb w n) ∧
    spent as_needed 1 X sb w X sb' w'.
Proof.
  intros Hc Hp Hl Hm Hgood Hsize Hroom Hcu Hd.
  assert (typed_entry (DirEntry_new c name d)) as Hty by (unfold typed_entry; rewrite Hd; simpl; by destruct (dir_number c)).
  pose proof Hp as (md & Hlk)%entries_Some.
  destruct (open_dir _ _ _ _ _ Hc Hp) as (dir' & Hpn & Hl' & Hdir & Hdn & -> & _).
  assert (dir' = dir) as -> by congruence. pose proof Hm as Hnew. apply dir_map_None in Hm.
  destruct (consistent_live _ _ _ _ _ Hc Hpn Hl) as (_ & _ & Hno & _).
  destruct (room_least 1 sb w (cs_inv _ _ _ Hc) ltac:(lia) Hroom) as (a & Hleast & Har & Hfree).
  destruct (run_dir_add_entry_added Hclock sb dir w name c d) as (sb' & i' & w' & Hrun & Ha).
  - apply Hdn.
  - apply Hc.
  - done.
  - done.
  - done.
  - apply Forall_forall. intros b Hb. apply (owned_range X sb w p b Hc Hpn).
    unfold owned_at, owned. by rewrite Hl, decide_True.
  - rewrite Hno. unfold inode_block_safe. rewrite Hleast. intros [= Heq].
    destruct (number_block sb p (consistent_table _ _ _ Hc) Hpn) as [_ Hb]. unfold inode_area in Hb. lia.
  - eapply dir_has_room; [done|done|]. by rewrite Hleast.
  - destruct (change_added _ _ _ _ _ _ _ _ _ _ Hc Hpn Hl Hdir Hroom Hty Ha) as [Hch Hnode].
    destruct (change_consistent _ _ _ _ _ _ _ Hpn Hc Hch) as [Hc' Habs].
    exists sb', i', w'. split_and!; [exact Hrun|exact Hc'| |apply Hch|].
    2: { by eapply spent_added. }
    rewrite Habs, Hnode. rewrite abs_lookup, decide_True in Hlk by done. unfold node_at in Hlk.
    rewrite Hl in Hlk. injection Hlk as Hmd Hb.
    apply (alter_entries _ _ (dir_map dir w)). rewrite abs_lookup, decide_True by done. unfold node_at.
    rewrite Hl. simpl. unfold node. by rewrite decide_True.
Qed.

Lemma run_remove_name X sb w p dir name c m :
  consistent X sb w → entries (abs X sb w) p = Some m → live X sb w p = Some dir →
  m !! name = Some c →
  ∃ i' w', run (dir_remove_entry sb dir name) w = Done (Ok (), i') w' ∧
    consistent X sb w' ∧ abs X sb w' = set_entries p (base.delete name m) (abs X sb w) ∧
    (∀ n, n ∈ inode_numbers → n ≠ p → live X sb w' n = live X sb w n ∧
      disk_inode sb w' n = disk_inode sb w n) ∧ spent one_block 0 X sb w X sb w'.
Proof.
  intros Hc Hp Hl Hm.
  destruct (open_dir _ _ _ _ _ Hc Hp) as (dir' & Hpn & Hl' & Hdir & Hdn & -> & _).
  assert (dir' = dir) as -> by congruence. apply dir_map_Some in Hm as (e & b & off & Hget & _).
  destruct (run_dir_remove_entry_removed Hclock sb dir w name (e, b, off)) as (i' & w' & Hrun & Hr).
  - apply Hdn.
  - apply Hc.
  - apply Hdn.
  - done.
  - destruct (change_removed _ _ _ _ _ _ _ _ Hc Hpn Hl Hdir Hr) as [Hch Hnode].
    destruct (change_consistent _ _ _ _ _ _ _ Hpn Hc Hch) as [Hc' Habs].
    exists i', w'. split_and!; [exact Hrun|exact Hc'| | |].
    + rewrite Habs, Hnode. apply (alter_entries _ _ (dir_map dir w)).
      rewrite abs_lookup, decide_True by done. unfold node_at.
      rewrite Hl. simpl. unfold node. by rewrite decide_True.
    + intros n Hn Hne. split; [by apply Hch|].
      destruct (consistent_live _ _ _ _ _ Hc Hpn Hl) as (_ & _ & Hno & _).
      apply (er_inodes _ _ _ _ _ _ Hr); [apply (consistent_number _ _ _ _ Hc Hn)|by rewrite Hno|].
      assert (owned_at X sb w p = dir_blocks dir) as <-
        by (unfold owned_at, owned; by rewrite Hl, decide_True).
      intros Hb. by apply (owned_not_inode _ _ _ _ n _ Hc Hpn Hn Hb).
    + by eapply spent_removed.
Qed.
End link.

(** ** [create] *)
Section create.
Context `{Clock} `{Build} (Hclock : clock_ok).
Implicit Types (sb : SuperBlock) (w : world) (p n c : u32) (name : bytes) (m : gmap bytes u32).

Lemma new_inode_wf mode nlink n t :
  is_u16 mode → is_u16 nlink → is_u32 n → inode_wf (new_inode mode nlink n (clock_at t)).
Proof.
  intros Hm Hl Hn. pose proof (Hclock t). unfold inode_wf, is_i64, is_u16 in *. simpl.
  split_and!; try done; try lia. repeat (constructor; [done|]). constructor.
Qed.

(** A new file is empty. *)
Lemma empty_file_node sb w n t :
  disk_ok w → inode_ok sb n → 1000 ≤ n → file_node sb (new_inode 33188 1 n (clock_at t)) w.
Proof.
  intros Hok Hn Hfile. constructor; [constructor; [constructor|..]|..].
  - done.
  - apply new_inode_wf; [done|done|by eapply inode_ok_u32].
  - done.
  - done.
  - constructor.
  - apply NoDup_singleton.
  - done.
  - constructor.
  - by right.
  - done.
  - apply Z.ltb_ge. exact Hfile.
Qed.

(** The state after [create] wrote the inode, before it gives it a name. *)
Lemma created_state sb w p n m dir :
  consistent None sb w → p ∈ inode_numbers → live None sb w p = Some dir →
  entries (abs None sb w) p = Some m → n ∈ inode_numbers → 1000 ≤ n → abs None sb w !! n = None →
  let j := new_inode 33188 1 n (clock_at (w_ticks w)) in
  let w1 := put_inode sb j (w_tick w) in
  inode_wf j ∧ inode_ok sb n ∧ consistent None sb w1 ∧
  abs None sb w1 = <[n := ANode 33188 (AFile [])]> (abs None sb w) ∧
  live None sb w1 p = Some dir ∧ live None sb w1 n = Some j ∧
  entries (abs None sb w1) p = Some m ∧ (∀ b, 0 ≤ b < MAX_BLOCKS → bit w1 b = bit w b) ∧
  spent one_block 0 None sb w None sb w1.
Proof.
  intros Hc Hpn Hl Hp Hnn Hfile Hfree j w1. destruct (consistent_number _ _ _ _ Hc Hnn) as (Hnok & _).
  assert (n ≠ p) as Hnp by (intros ->; apply entries_in in Hp as [? ?]; congruence).
  pose proof (consistent_tick _ _ _ Hc) as Hct.
  assert (inode_wf j) as Hj by (apply new_inode_wf; [done|done|by eapply inode_ok_u32]).
  assert (node_ok sb j (w_tick w)) as Hjok
    by (unfold node_ok; rewrite decide_False by (by intros Hd; apply Hd);
        apply empty_file_node; [apply Hct|done|done]).
  destruct (change_put None sb (w_tick w) j Hct Hj Hnn) as [Hch Hnode]; [done|done|done| |].
  { unfold owned_at. change (i_inode_no j) with n. change (live None sb (w_tick w) n) with (live None sb w n).
    rewrite abs_lookup, decide_True in Hfree by done. unfold node_at in Hfree.
    by destruct (live None sb w n). }
  destruct (change_consistent _ _ _ _ _ _ _ Hnn Hct Hch) as [Hc1 Habs1]. fold w1 in Habs1, Hnode.
  change (i_inode_no j) with n in *. rewrite Hnode in Habs1.
  assert (live None sb w1 n = Some j) as Hlj.
  { apply live_Some. split_and!; [done| |done]. apply (put_same None sb (w_tick w) j Hct Hj Hnn). }
  assert (∀ b, 0 ≤ b < MAX_BLOCKS → bit w1 b = bit w b) as Hbits.
  { intros b Hb. by apply (put_same None sb (w_tick w) j Hct Hj Hnn). }
  split_and!; [done|done|done|exact Habs1| |exact Hlj| |exact Hbits|].
  - unfold w1. by rewrite (ch_live _ _ _ _ _ _ _ Hch).
  - rewrite Habs1. unfold entries. rewrite lookup_partial_alter_ne by done. exact Hp.
  - apply spent_tick, (spent_change_none _ n); [exact Hch|intros b Hb; by rewrite Hbits|].
    intros i Hi Hd. assert (i = j) as -> by congruence. by destruct Hd.
Qed.

Lemma run_create sb w p name m n :
  consistent None sb w → entries (abs None sb w) p = Some m → m !! name = None →
  good_name name → (base.size m < 150)%nat → room 1 w →
  first_unused (abs None sb w) 1000 2000 = Some n →
  ∃ a sb' w', run (SimpleFS.create sb p name) w = Done (Ok (a, n), sb') w' ∧
    consistent None sb' w' ∧ spent as_needed 1 None sb w None sb' w' ∧ attr_of None sb' w' n = Some a ∧
    abs None sb' w' = set_entries p (<[name := n]> m)
                        (<[n := ANode 33188 (AFile [])]> (abs None sb w)).
Proof.
  intros Hc Hp Hm Hgood Hsize Hroom Hn.
  destruct (open_dir _ _ _ _ _ Hc Hp) as (dir & Hpn & Hl & Hdir & Hdn & Hmap & Hread & Hfind).
  pose proof Hm as Hnone. rewrite Hmap in Hnone. apply dir_map_None in Hnone.
  pose proof (first_unused_Some _ _ _ _ Hn) as [Hr Hfree].
  assert (n ∈ inode_numbers) as Hnn by (apply elem_of_inode_numbers; lia).
  assert (n ≠ p) as Hnp by (intros ->; apply entries_in in Hp as [? ?]; congruence).
  destruct (consistent_number _ _ _ _ Hc Hnn) as (_ & _ & Hnu & _).
  destruct (created_state sb w p n m dir Hc Hpn Hl Hp Hnn (proj1 Hr) Hfree)
    as (Hj & Hnok & Hc1 & Habs1 & Hl1 & Hlive1 & Hp1 & Hbits1 & Hleft1).
  unfold SimpleFS.create. rewrite to_str_good by done. cbv zeta. run_step Hread.
  run_step Hfind. rewrite Hnone. rewrite bool_decide_false by (by intros [? [=]]).
  run_step run_find_free_inode by
    (first [exact Hc|lia|intros k Hk; split; [apply elem_of_inode_numbers; lia|done]]).
  rewrite Hn. run_step run_new_file by done.
  change (set_mode _ _) with (new_inode 33188 1 n (clock_at (w_ticks w))).
  set (j := new_inode 33188 1 n (clock_at (w_ticks w))) in *.
  run_step run_write_inode by (first [apply (cs_inv _ _ _ Hc)|done]).
  set (w1 := put_inode sb j (w_tick w)) in *.
  destruct (run_add_name Hclock None sb w1 p dir name n false m Hc1 Hp1 Hl1 Hm Hgood Hsize)
    as (sb' & i' & w' & Hrun & Hc' & Habs' & Hlive' & Hleft); [by eapply room_ext|by eapply inode_ok_u32|symmetry; apply Z.ltb_ge; lia|].
  run_step Hrun. exists (inode_to_attr j), sb', w'. split_and!.
  - rewrite run_ret. rewrite as_u64_id; [done|lia].
  - done.
  - by apply (spent_trans _ 0 1 _ _ _ _ _ _ _ _ _ one_block_needed Hleft1).
  - unfold attr_of. rewrite Hlive' by done. by rewrite Hlive1.
  - by rewrite Habs', Habs1.
Qed.
End create.

(** ** [mkdir] *)
Section mkdir.
Context `{Clock} `{Build} (Hclock : clock_ok).
Implicit Types (sb : SuperBlock) (w : world) (p n c : u32) (name : bytes) (m : gmap bytes u32).

Lemma fresh_dir_unique i w s s' :
  dir_entries i w = [s; s'] → entry_name (fst (fst s)) ≠ entry_name (fst (fst s')) → dir_unique i w.
Proof.
  intros He Hne t t' Ht Ht' Hu Hu' Heq.
  assert (t ∈ dir_entries i w ∧ t' ∈ dir_entries i w) as [H1 H2]
    by (unfold dir_entries; by rewrite !list_elem_of_filter).
  rewrite He in H1, H2. rewrite !elem_of_cons, elem_of_nil in H1, H2.
  destruct H1 as [-> |[-> |[]]], H2 as [-> |[-> |[]]]; done.
Qed.

Lemma entry_dot n p :
  entry_name (dot_entry n) = dot ∧ entry_name (dotdot_entry p) = dotdot.
Proof. split; apply entry_name_new; [apply good_dot|apply good_dotdot]. Qed.

(** The new directory: "." and "..". *)
Lemma made_dir_node sb w n p a t :
  disk_ok w → inode_ok sb n → is_u32 p → 31 ≤ a < MAX_BLOCKS → a ≠ inode_block sb n →
  w_read w a = SimpleFS.dir_block n p → dir_number n = true → dir_number p = true →
  dir_node sb (made_dir n a (clock_at t)) w ∧
  dir_map (made_dir n a (clock_at t)) w = new_entries n p.
Proof.
  intros Hok Hn Hp Ha Hne Hr Hnd Hpd. pose proof (inode_ok_u32 _ _ Hn) as Hnu.
  destruct (fresh_dir_entries n a (made_dir n a (clock_at t)) n p w Hnu Hp (made_dir_fresh _ _ _) Hr)
    as [He Hnames].
  destruct (entry_dot n p) as [Hd Hdd]. split; [constructor|].
  - constructor; [constructor|..].
    + done.
    + apply made_dir_wf; [done|done|]. unfold is_u32. consts. lia.
    + simpl. lia.
    + constructor; [lia|constructor].
    + exact Hnames.
    + exact Hn.
    + constructor; [|constructor]. split; [lia|exact Hne].
  - eapply fresh_dir_unique; [exact He|]. simpl. by rewrite Hd, Hdd.
  - apply NoDup_singleton.
  - done.
  - intros nm s Hs%dir_get_in_entries. rewrite He in Hs.
    by apply elem_of_cons in Hs as [->|Hs%list_elem_of_singleton]; [|subst s].
  - unfold dir_map. rewrite He. cbn [fmap list_fmap list_to_map foldr fst snd]. by rewrite Hd, Hdd.
Qed.

(** The state after [mkdir] made the directory, before it gives it a name. *)
Lemma change_made sb w n p a sb1 w1 t :
  consistent None sb w → n ∈ inode_numbers → p ∈ inode_numbers → live None sb w n = None →
  dir_number n = true → dir_number p = true → 31 ≤ a < 89 → allocated sb w a sb1 w1 →
  let j := made_dir n a (clock_at t) in
  let w' := put_inode sb1 j (w_write a (SimpleFS.dir_block n p) w1) in
  change n None sb w None sb1 w' ∧ live None sb1 w' n = Some j ∧
  node_at None sb1 w' n = Some (ANode 16877 (ADir (new_entries n p))).
Proof.
  intros Hc Hn Hp Hdead Hnd Hpd Ha [Hr Hf Hb Hi Ht [Htk Hfr]] j w'.
  set (w2 := w_write a (SimpleFS.dir_block n p) w1) in *.
  destruct (consistent_number _ _ _ _ Hc Hn) as (Hnok & _ & _ & _).
  destruct (consistent_number _ _ _ _ Hc Hp) as (Hpok & _ & _ & _).
  pose proof (inode_ok_u32 _ _ Hnok) as Hnu. pose proof (inode_ok_u32 _ _ Hpok) as Hpu.
  destruct (dir_block_wf n p Hnu Hpu) as [Hz Hu].
  assert (∀ m : u32, inode_block sb1 m = inode_block sb m) as HB by (intros m; unfold inode_block; by rewrite Ht).
  assert (∀ m : u32, m ∈ inode_numbers → a ≠ inode_block sb m ∧ 6 ≤ inode_block sb m) as Hab.
  { intros m Hm. destruct (number_block sb m (consistent_table _ _ _ Hc) Hm) as [_ Hblk].
    unfold inode_area in Hblk. lia. }
  assert (inode_ok sb1 n) as Hnok1 by (unfold inode_ok in *; by rewrite HB, Ht).
  assert (inode_wf j) as Hj by (apply made_dir_wf; [done|done|unfold is_u32; consts; lia]).
  assert (bitmap_inv sb1 w2) as Hi2 by (apply bitmap_inv_write; [done|lia|exact Hz|exact Hu]).
  assert (bitmap_inv sb1 w') as Hi' by (apply bitmap_inv_put; [done|done|by apply inode_wf_direct]).
  assert (∀ b, 0 ≤ b < MAX_BLOCKS → bit w' b = bool_decide (a = b) || bit w b) as Hbits.
  { intros b Hb'. unfold w'. unfold put_inode. rewrite bit_write_ne by
      (lia || (change (i_inode_no j) with n; rewrite HB; destruct (Hab n Hn); lia)).
    unfold w2. rewrite bit_write_ne by lia. by apply Hb. }
  assert (∀ b, b ≠ a → b ≠ inode_block sb n → 5 < b → w_read w' b = w_read w b) as Hread.
  { intros b Hba Hbn Hb5. unfold w'. rewrite put_inode_read_ne by (change (i_inode_no j) with n; by rewrite HB).
    unfold w2. rewrite w_read_write_ne by done. by apply Hfr. }
  assert (w_read w' a = SimpleFS.dir_block n p) as Hra.
  { unfold w'. rewrite put_inode_read_ne by (change (i_inode_no j) with n; rewrite HB; by apply Hab).
    unfold w2. apply w_read_write_eq. }
  assert (a ≠ inode_block sb1 n) as Hna by (rewrite HB; by apply Hab).
  destruct (made_dir_node sb1 w' n p a t) as [Hnode Hmap]; [apply Hi'|done|done|consts; lia|done..|].
  assert (live None sb1 w' n = Some j) as Hl.
  { apply live_Some. split_and!; [done| |done]. apply (disk_inode_put_same sb1 j w2); [apply Hi2|done]. }
  assert (owned_at None sb1 w' n = [a]) as Ho by (unfold owned_at; rewrite Hl; reflexivity).
  assert (owned_at None sb w n = []) as Ho0 by (unfold owned_at; by rewrite Hdead).
  split_and!; [constructor|done|].
  - done.
  - intros m Hm Hne. unfold live. rewrite !decide_False by done.
    destruct (consistent_number _ _ _ _ Hc Hm) as (Hmok & _). destruct (Hab m Hm) as [Ham Hm6].
    assert (disk_inode sb1 w' m = disk_inode sb w m) as ->; [|done].
    unfold w'. rewrite disk_inode_put_other;
      [|apply Hi2|by apply inode_wf_direct|done|apply Hmok|apply Hnok].
    rewrite (disk_inode_table sb sb1) by done. apply disk_inode_ext. unfold w2.
    rewrite w_read_write_ne by done. apply Hfr. lia.
  - rewrite Hl. intros i [= <-]. exact Hnode.
  - rewrite Ho, Ho0. intros b ->%list_elem_of_singleton. right. split; [done|].
    unfold inode_area. lia.
  - intros b Hb'. rewrite Ho, Ho0, Hbits by lia. rewrite (bool_decide_true (b ∉ [])), andb_true_r
      by apply not_elem_of_nil. f_equal. apply bool_decide_ext. rewrite list_elem_of_singleton. done.
  - intros b Hb' Hbit _. apply Hread; [intros ->; congruence| |lia]. intros ->.
    destruct (consistent_number _ _ _ n Hc Hn) as (_ & _ & _ & [?|?]); [lia|congruence].
  - unfold node_at. rewrite Hl. cbn [fmap option_fmap option_map]. unfold node. by rewrite <-Hmap.
Qed.

(** The same in terms of the tree; the parent is untouched, and a block is left for it. *)
Lemma made_state sb w p n m dir a t :
  consistent None sb w → p ∈ inode_numbers → live None sb w p = Some dir →
  entries (abs None sb w) p = Some m → n ∈ inode_numbers → n < 1000 → abs None sb w !! n = None →
  least_free w = Some a → 31 ≤ a < 89 → room 2 w →
  let sb1 := with_free_blocks (sb_free_blocks sb - 1) sb in
  let w1 := record_superblock sb1 (set_bit a w) in
  let w2 := w_write a (SimpleFS.dir_block n p) w1 in
  let w3 := put_inode sb1 (made_dir n a (clock_at t)) w2 in
  disk_ok w2 ∧ consistent None sb1 w3 ∧
  abs None sb1 w3 = <[n := ANode 16877 (ADir (new_entries n p))]> (abs None sb w) ∧
  live None sb1 w3 p = Some dir ∧ live None sb1 w3 n = Some (made_dir n a (clock_at t)) ∧
  entries (abs None sb1 w3) p = Some m ∧ room 1 w3 ∧ spent one_block 1 None sb w None sb1 w3.
Proof.
  intros Hc Hpn Hl Hp Hnn Hdn Hfree Hleast Har Hroom sb1 w1 w2 w3.
  assert (n ≠ p) as Hnp by (intros ->; apply entries_in in Hp as [? ?]; congruence).
  pose proof (cs_inv _ _ _ Hc) as Hinv.
  destruct (consistent_number _ _ _ _ Hc Hnn) as (Hnok & _).
  destruct (consistent_number _ _ _ _ Hc Hpn) as (Hpok & _).
  pose proof (least_free_allocated _ _ _ Hinv Hleast) as Ha. cbv zeta in Ha. fold sb1 w1 in Ha.
  pose proof Hleast as (_ & Hbit & _)%least_free_Some.
  assert (live None sb w n = None) as Hdead.
  { rewrite abs_lookup, decide_True in Hfree by done. unfold node_at in Hfree.
    by destruct (live None sb w n). }
  destruct (dir_block_wf n p) as [Hz Hu]; [by eapply inode_ok_u32|by eapply inode_ok_u32|].
  destruct (change_made sb w n p a sb1 w1 t Hc Hnn Hpn Hdead (proj2 (Z.ltb_lt _ _) Hdn) (dir_number_of _ _ _ _ _ Hc Hp) Har Ha) as (Hch & Hlive & Hnode).
  fold w2 w3 in Hch, Hlive, Hnode.
  destruct (change_consistent _ _ _ _ _ _ _ Hnn Hc Hch) as [Hc3 Habs3]. rewrite Hnode in Habs3.
  assert (inode_ok sb1 n) as Hnok1 by exact Hnok.
  assert (∀ b, 0 ≤ b < MAX_BLOCKS → bit w3 b = bit w1 b) as Hbits.
  { intros b Hb. unfold w3, put_inode, w2. rewrite bit_write_ne, bit_write_ne; [done|done|lia|done|].
    pose proof (inode_ok_block _ _ Hnok1). simpl. lia. }
  split_and!.
  - apply disk_ok_write; [apply (bi_disk _ _ (al_inv _ _ _ _ _ Ha))|exact Hz|exact Hu].
  - exact Hc3.
  - exact Habs3.
  - by rewrite (ch_live _ _ _ _ _ _ _ Hch).
  - exact Hlive.
  - rewrite Habs3. unfold entries. rewrite lookup_partial_alter_ne by done. exact Hp.
  - apply (room_ext 1 w1); [exact Hbits|].
    pose proof (free_below_step 89 a w w1 ltac:(consts; lia) Hbit ltac:(lia)
      (al_bits _ _ _ _ _ Ha)) as Hs. unfold room in *. lia.
  - apply (spent_change _ [a] n); [exact Hch| |].
    + intros b Hb. rewrite Hbits, (al_bits _ _ _ _ _ Ha), orb_true_iff, bool_decide_eq_true by done.
      rewrite list_elem_of_singleton. intros [->|?]; [right; split; [done|lia]|by left].
    + intros j Hj _. left. assert (j = made_dir n a (clock_at t)) as -> by congruence. done.
Qed.

Lemma run_mkdir sb w p name m n :
  consistent None sb w → entries (abs None sb w) p = Some m → m !! name = None →
  good_name name → (base.size m < 150)%nat → room 2 w →
  first_unused (abs None sb w) 500 900 = Some n →
  ∃ a sb' w', run (SimpleFS.mkdir sb p name) w = Done (Ok a, sb') w' ∧
    consistent None sb' w' ∧ spent as_needed 2 None sb w None sb' w' ∧ attr_of None sb' w' n = Some a ∧
    abs None sb' w' = set_entries p (<[name := n]> m)
                        (<[n := ANode 16877 (ADir (new_entries n p))]> (abs None sb w)).
Proof.
  intros Hc Hp Hm Hgood Hsize Hroom Hn.
  destruct (open_dir _ _ _ _ _ Hc Hp) as (dir & Hpn & Hl & Hdir & Hdn & Hmap & Hread & Hfind).
  pose proof Hm as Hnone. rewrite Hmap in Hnone. apply dir_map_None in Hnone.
  pose proof (first_unused_Some _ _ _ _ Hn) as [Hr Hfree].
  assert (n ∈ inode_numbers) as Hnn by (apply elem_of_inode_numbers; lia).
  destruct (consistent_number _ _ _ _ Hc Hnn) as (Hnok & _ & Hnu & _).
  destruct (consistent_number _ _ _ _ Hc Hpn) as (Hpok & _ & Hpu & _).
  unfold SimpleFS.mkdir. rewrite to_str_good by done. cbv zeta. run_step Hread.
  run_step Hfind. rewrite Hnone. rewrite bool_decide_false by (by intros [? [=]]).
  run_step run_find_free_inode by
    (first [exact Hc|lia|intros k Hk; split; [apply elem_of_inode_numbers; lia|done]]).
  rewrite Hn. run_step run_new_dir by done.
  pose proof (consistent_tick _ _ _ Hc) as Hct. pose proof (cs_inv _ _ _ Hct) as Hit.
  destruct (room_least 2 sb (w_tick w) Hit ltac:(lia) Hroom) as (a & Hleast & Har & Hbit).
  destruct (made_state sb (w_tick w) p n m dir a (w_ticks w) Hct Hpn Hl Hp Hnn ltac:(lia) Hfree Hleast Har Hroom)
    as (Hok2 & Hc3 & Habs3 & Hl3 & Hlive & Hp3 & Hroom3 & Hleft3).
  set (sb1 := with_free_blocks (sb_free_blocks sb - 1) sb) in *.
  set (w1 := record_superblock sb1 (set_bit a (w_tick w))) in *.
  assert (run (allocate_block sb) (w_tick w) = Done (Some a, sb1) w1) as Halloc
    by (by rewrite run_allocate_block_inv, Hleast).
  run_step Halloc. clear Halloc. cbv beta iota. rewrite Hpu.
  destruct (dir_block_wf n p) as [Hz Hu]; [by eapply inode_ok_u32|by eapply inode_ok_u32|].
  run_step run_write_block by (first [exact Hz|unfold is_u32; lia]).
  run_step run_unwrap by reflexivity. cbv zeta.
  set (j := set_size _ _).
  assert (j = made_dir n a (clock_at (w_ticks w))) as Hj by reflexivity. rewrite Hj. clear j Hj.
  run_step run_write_inode by (first [exact Hok2|exact Hnok|reflexivity]).
  destruct (run_add_name Hclock None sb1 _ p dir name n true m Hc3 Hp3 Hl3 Hm Hgood Hsize Hroom3)
    as (sb' & i' & w' & Hrun & Hc' & Habs' & Hlive' & Hleft);
    [by eapply inode_ok_u32|symmetry; apply Z.ltb_lt; lia|].
  assert (n ≠ p) as Hnp by (intros ->; apply entries_in in Hp as [? ?]; congruence).
  run_step Hrun. exists (inode_to_attr (made_dir n a (clock_at (w_ticks w)))), sb', w'. split_and!.
  - reflexivity.
  - exact Hc'.
  - by apply spent_tick, (spent_trans _ 1 1 _ _ _ _ _ _ _ _ _ one_block_needed Hleft3).
  - unfold attr_of. rewrite Hlive' by done. by rewrite Hlive.
  - by rewrite Habs', Habs3.
Qed.
End mkdir.

(** ** Freeing the blocks of a node *)

(** The state after the blocks of [l] were freed. *)
Record freed (l : list u32) (sb : SuperBlock) (w : world) (sb' : SuperBlock) (w' : world) : Prop := {
  fr_inv : bitmap_inv sb' w';
  fr_bits : ∀ b, 0 ≤ b < MAX_BLOCKS → bit w' b = bit w b && bool_decide (b ∉ l);
  fr_frame : frame_above 5 w w';
}.

Section freeing.
Context `{Clock} `{Build}.
Implicit Types (sb : SuperBlock) (i : Inode) (w : world) (l : list u32).

Lemma freed_nil sb w : bitmap_inv sb w → freed [] sb w sb w.
Proof.
  intros Hi. constructor; [done| |done]. intros b _.
  by rewrite bool_decide_true, andb_true_r by apply not_elem_of_nil.
Qed.

Lemma freed_snoc l b sb w sb1 w1 :
  freed l sb w sb1 w1 → 31 ≤ b < MAX_BLOCKS → bit w b = true → b ∉ l →
  ∃ sb' w', run (mark_free sb1 b) w1 = Done sb' w' ∧ freed (l ++ [b]) sb w sb' w'.
Proof.
  intros [Hi Hbits [Htk Hfr]] Hb Hbit Hni.
  assert (bit w1 b = true) as Hb1 by (rewrite Hbits, Hbit, bool_decide_true by (done || lia); done).
  pose proof (bi_count _ _ Hi). pose proof (free_count_range w1).
  pose proof (free_count_clear_bit w1 b (bi_disk _ _ Hi) ltac:(lia) Hb1) as Hcount.
  pose proof (free_count_range (clear_bit b w1)). consts.
  pose proof (bitmap_inv_clear sb1 w1 b Hi ltac:(consts; lia) Hb1) as Hi'. cbv zeta in Hi'.
  do 2 eexists. split.
  { apply run_mark_free; [apply Hi|by eapply bitmap_inv_magic|consts; lia|lia]. }
  constructor.
  - exact Hi'.
  - intros m Hm. rewrite bit_record, bit_clear_bit, Hbits by (done || apply Hi || consts; lia).
    destruct (bit w m); simpl; [|by rewrite andb_false_r].
    rewrite <-bool_decide_not, <-bool_decide_and. apply bool_decide_ext.
    rewrite elem_of_app, list_elem_of_singleton. naive_solver.
  - split; [done|]. intros k Hk. rewrite <-Hfr by done.
    unfold record_superblock. rewrite w_read_write_ne by lia. apply update_byte_read_ne.
    pose proof (bitmap_block_range b ltac:(consts; lia)). lia.
Qed.

(** The blocks the loop of [unlink] and [rmdir] frees: [blk k] is the one number [k]. *)
Record freeable sb i w (blk : Z → u32) : Prop := {
  fb_inv : bitmap_inv sb w;
  fb_wf : inode_wf i;
  fb_get : ∀ k w', 0 ≤ k < i_block_count i → disk_ok w' → frame_above 5 w w' →
    run (get_block i k) w' = Done (Some (blk k)) w';
  fb_range : ∀ k, 0 ≤ k < i_block_count i → 31 ≤ blk k < MAX_BLOCKS ∧ bit w (blk k) = true;
  fb_nodup : NoDup (blk <$> seqZ 0 (i_block_count i));
}.

(** One iteration of the loop. *)
Lemma freeable_step sb i w blk pre k post sb1 w1 :
  freeable sb i w blk → seqZ 0 (i_block_count i) = pre ++ k :: post →
  freed (blk <$> pre) sb w sb1 w1 →
  31 ≤ blk k < MAX_BLOCKS ∧
  run (get_block i (as_u32 k)) w1 = Done (Some (blk k)) w1 ∧
  ∃ sb2 w2, run (mark_free sb1 (blk k)) w1 = Done sb2 w2 ∧ freed (blk <$> pre ++ [k]) sb w sb2 w2.
Proof.
  intros [Hi Hwf Hget Hl Hnd] Heq Hf.
  assert (0 ≤ k < i_block_count i) as Hk.
  { assert (k ∈ seqZ 0 (i_block_count i)) as Hin%elem_of_seqZ by (rewrite Heq; set_solver). lia. }
  assert (is_u16 (i_block_count i)) as Hc by (unfold inode_wf in Hwf; tauto).
  rewrite as_u32_id by (unfold is_u16 in Hc; unfold is_u32; lia). destruct (Hl k Hk) as [Hr Hb].
  split; [done|]. split.
  { apply Hget; [done|exact (bi_disk _ _ (fr_inv _ _ _ _ _ Hf))|exact (fr_frame _ _ _ _ _ Hf)]. }
  destruct (freed_snoc (blk <$> pre) (blk k) sb w sb1 w1 Hf Hr Hb) as (sb2 & w2 & Hrun & Hf2).
  { rewrite Heq, fmap_app in Hnd. apply NoDup_app in Hnd as (_ & Hd & _).
    intros Hpre. apply (Hd _ Hpre). cbn [fmap list_fmap]. set_solver. }
  exists sb2, w2. split; [done|]. by rewrite fmap_app.
Qed.

(** The loop of [unlink] and [rmdir] over the blocks of an inode. *)
Lemma run_free_blocks sb i w blk :
  freeable sb i w blk →
  ∃ sb' w', run (SimpleFS.free_blocks sb i) w = Done sb' w' ∧
    freed (blk <$> seqZ 0 (i_block_count i)) sb w sb' w'.
Proof.
  intros Hfb. apply wp_Done. unfold SimpleFS.free_blocks.
  apply (wp_for_each (λ pre sb' w', freed (blk <$> pre) sb w sb' w')); [by apply freed_nil, Hfb|].
  intros pre k post sb1 w1 Heq Hf.
  destruct (freeable_step _ _ _ _ _ _ _ _ _ Hfb Heq Hf) as (_ & Hget & sb2 & w2 & Hrun & Hf2).
  wp_step Hget. by eapply wp_intro; [exact Hrun|].
Qed.

(** The blocks of a node were freed: the node is gone, but for its inode. *)
Lemma change_freed sb w c i l sb' w' :
  consistent None sb w → c ∈ inode_numbers → live None sb w c = Some i →
  freed l sb w sb' w' → (∀ b, b ∈ l ↔ b ∈ owned i w) →
  consistent (Some c) sb' w' ∧ abs (Some c) sb' w' = base.delete c (abs None sb w) ∧
  (∀ n, n ∈ inode_numbers → n ≠ c → live (Some c) sb' w' n = live None sb w n) ∧
  disk_inode sb' w' c = Some i ∧ spent one_block 0 None sb w (Some c) sb' w'.
Proof.
  intros Hc Hcn Hl [Hi Hbits [_ Hfr]] Hown.
  assert (sb_inode_table_start sb' = sb_inode_table_start sb) as Ht
    by (rewrite (consistent_table _ _ _ Hc); apply Hi).
  assert (owned_at None sb w c = owned i w) as Ho by (unfold owned_at; by rewrite Hl).
  assert (live (Some c) sb' w' c = None) as Hl' by (unfold live; by rewrite decide_True).
  assert (owned_at (Some c) sb' w' c = []) as Ho' by (unfold owned_at; by rewrite Hl').
  assert (∀ n, n ∈ inode_numbers → disk_inode sb' w' n = disk_inode sb w n) as Hd.
  { intros n Hn. rewrite (disk_inode_table sb sb') by done. apply disk_inode_ext, Hfr.
    destruct (consistent_number _ _ _ _ Hc Hn) as (_ & ? & _). lia. }
  assert (∀ n, n ∈ inode_numbers → n ≠ c → live (Some c) sb' w' n = live None sb w n) as Hlive.
  { intros n Hn Hne. unfold live. rewrite !decide_False, Hd by congruence. done. }
  assert (change c None sb w (Some c) sb' w') as Hch.
  { constructor.
    - done.
    - done.
    - by rewrite Hl'.
    - rewrite Ho'. by intros b []%not_elem_of_nil.
    - intros b Hb. rewrite Hbits, Ho, Ho' by lia. rewrite (bool_decide_false (b ∈ [])) by apply not_elem_of_nil.
      simpl. f_equal. apply bool_decide_ext. by rewrite Hown.
    - intros b Hb _ _. apply Hfr. lia. }
  destruct (change_consistent _ _ _ _ _ _ _ Hcn Hc Hch) as [Hc' Habs'].
  split_and!; [done| |done| |].
  - rewrite Habs'. unfold node_at. by rewrite Hl'.
  - rewrite Hd by done. by apply live_Some in Hl as (_ & ? & _).
  - apply (spent_change_none _ c); [exact Hch| |by rewrite Hl'].
    intros b Hb. rewrite Hbits by done. by intros [? _]%andb_true_iff.
Qed.

Lemma freeable_file sb w c i :
  consistent None sb w → c ∈ inode_numbers → live None sb w c = Some i → ¬ is_dir i →
  freeable sb i w (block_at i w).
Proof.
  intros Hc Hcn Hl Hfile. destruct (consistent_live _ _ _ _ _ Hc Hcn Hl) as (Hok & Hwf & _ & _).
  unfold node_ok in Hok. rewrite decide_False in Hok by done. destruct Hok as [Hf _ _ _].
  pose proof (fo_layout _ _ _ Hf) as Hlay. pose proof (fl_nodup _ _ _ Hlay) as [_ Hnd]%NoDup_cons.
  assert (∀ b, b ∈ own_blocks i w → 31 ≤ b < MAX_BLOCKS ∧ bit w b = true) as Hown.
  { intros b Hb. apply (owned_range None sb w c b Hc Hcn). unfold owned_at, owned.
    by rewrite Hl, decide_False. }
  constructor.
  - apply Hc.
  - done.
  - intros k w' Hk Hok' [_ Hfr].
    assert (∀ b, b ∈ own_blocks i w → w_read w' b = w_read w b) as Hr
      by (intros b Hb; destruct (Hown b Hb); apply Hfr; lia).
    destruct (file_ok_ext sb sb i w w' Hf Hok' eq_refl Hr) as [Hf' _].
    rewrite (run_file_block sb) by (first [apply Hf'|done]).
    assert (block_at i w' k = block_at i w k) as ->; [|done].
    destruct (decide (10 ≤ k)) as [Hge|Hlt]; [|by rewrite !block_at_direct by lia].
    apply block_at_ext, Hr, elem_of_app. left. unfold indirect_blocks. Z_true (10 <? i_block_count i).
    set_solver.
  - intros k Hk. apply Hown, elem_of_app. right. apply list_elem_of_fmap. exists k.
    split; [done|]. rewrite elem_of_seqZ. lia.
  - by apply NoDup_app in Hnd as (_ & _ & ?).
Qed.

(** The indirect block is freed after the others. *)
Lemma freed_indirect sb w c i sb1 w1 :
  consistent None sb w → c ∈ inode_numbers → live None sb w c = Some i → ¬ is_dir i →
  freed (file_blocks i w) sb w sb1 w1 →
  if negb (i_indirect_block i =? 0) then
    31 ≤ i_indirect_block i < MAX_BLOCKS ∧
    ∃ sb2 w2, run (mark_free sb1 (i_indirect_block i)) w1 = Done sb2 w2 ∧
      freed (file_blocks i w ++ [i_indirect_block i]) sb w sb2 w2 ∧
      ∀ b, b ∈ file_blocks i w ++ [i_indirect_block i] ↔ b ∈ owned i w
  else ∀ b, b ∈ file_blocks i w ↔ b ∈ owned i w.
Proof.
  intros Hc Hcn Hl Hfile Hf1. destruct (consistent_live _ _ _ _ _ Hc Hcn Hl) as (Hok & _).
  unfold node_ok in Hok. unfold owned. rewrite decide_False in Hok by done. rewrite decide_False by done.
  destruct Hok as [Hf Htidy _]. pose proof (fo_layout _ _ _ Hf) as Hlay.
  pose proof (fl_nodup _ _ _ Hlay) as [_ Hnd]%NoDup_cons. unfold own_blocks in *.
  destruct (Z.eqb_spec (i_indirect_block i) 0) as [Hz|Hz]; cbn [negb].
  - intros b. assert (indirect_blocks i = []) as Hib; [|by rewrite Hib].
    unfold indirect_blocks. destruct (Z.ltb_spec 10 (i_block_count i)) as [Hlt|]; [|done].
    pose proof (file_indirect_range _ _ _ Hlay Hlt). lia.
  - assert (indirect_blocks i = [i_indirect_block i]) as Hib.
    { unfold indirect_blocks. destruct Htidy as [Hlt|?]; [|done]. by Z_true (10 <? i_block_count i). }
    rewrite Hib in *. destruct (owned_range None sb w c (i_indirect_block i) Hc Hcn) as [Hr Hb].
    { unfold owned_at, owned, own_blocks. rewrite Hl, decide_False, Hib by done. set_solver. }
    split; [done|]. destruct (freed_snoc _ _ _ _ _ _ Hf1 Hr Hb) as (sb2 & w2 & Hrun2 & Hf2).
    { apply NoDup_app in Hnd as (_ & Hd & _). apply Hd. set_solver. }
    exists sb2, w2. split_and!; [done|done|]. intros b. rewrite !elem_of_app, list_elem_of_singleton. tauto.
Qed.

(** [unlink] frees the blocks of a file and its indirect block. *)
Lemma run_free_file sb w c i :
  consistent None sb w → c ∈ inode_numbers → live None sb w c = Some i → ¬ is_dir i →
  ∃ sb' w', run (sb ← SimpleFS.free_blocks sb i;
      if negb (i_indirect_block i =? 0) then mark_free sb (i_indirect_block i) else mret sb) w = Done sb' w' ∧
    ∃ l, freed l sb w sb' w' ∧ ∀ b, b ∈ l ↔ b ∈ owned i w.
Proof.
  intros Hc Hcn Hl Hfile.
  destruct (run_free_blocks sb i w (block_at i w)) as (sb1 & w1 & Hrun1 & Hf1); [by eapply freeable_file|].
  change (block_at i w <$> seqZ 0 (i_block_count i)) with (file_blocks i w) in Hf1.
  rewrite (run_bind_Done _ _ _ _ _ Hrun1).
  pose proof (freed_indirect _ _ _ _ _ _ Hc Hcn Hl Hfile Hf1) as Hind.
  destruct (negb (i_indirect_block i =? 0)); [|by eauto 10].
  destruct Hind as (_ & sb2 & w2 & Hrun2 & Hf2 & Hown). eauto 10.
Qed.

Lemma freeable_dir sb w c i :
  consistent None sb w → c ∈ inode_numbers → live None sb w c = Some i → is_dir i →
  freeable sb i w (λ k, i_direct_blocks i !!! Z.to_nat k) ∧
  dir_blocks i = (λ k, i_direct_blocks i !!! Z.to_nat k) <$> seqZ 0 (i_block_count i).
Proof.
  intros Hc Hcn Hl Hdir. destruct (consistent_live _ _ _ _ _ Hc Hcn Hl) as (Hok & Hwf & _ & _).
  unfold node_ok in Hok. rewrite decide_True in Hok by done.
  destruct Hok as [Hd Huniq Hnd]. pose proof (dk_readable _ _ _ Hd) as Hread.
  pose proof (dir_blocks_seq i Hwf (dr_count _ _ Hread)) as Hseq. split; [|done]. constructor.
  - apply Hc.
  - done.
  - intros k w' Hk Hok' [_ Hfr]. apply (dir_readable_block i w' k); [|done].
    destruct (dir_ok_ext sb sb i w w' Hd Hok' eq_refl) as [Hd' _]; [|apply Hd'].
    intros b Hb. apply Hfr. pose proof (proj1 (Forall_forall _ _) (dk_blocks _ _ _ Hd) b Hb). simpl in *. lia.
  - intros k Hk. apply (owned_range None sb w c _ Hc Hcn). unfold owned_at, owned.
    rewrite Hl, decide_True, Hseq by done. apply list_elem_of_fmap. exists k. split; [done|].
    rewrite elem_of_seqZ. lia.
  - by rewrite <-Hseq.
Qed.

(** [rmdir] frees the blocks of a directory. *)
Lemma run_free_dir sb w c i :
  consistent None sb w → c ∈ inode_numbers → live None sb w c = Some i → is_dir i →
  ∃ sb' w', run (SimpleFS.free_blocks sb i) w = Done sb' w' ∧
    ∃ l, freed l sb w sb' w' ∧ ∀ b, b ∈ l ↔ b ∈ owned i w.
Proof.
  intros Hc Hcn Hl Hdir. destruct (freeable_dir sb w c i Hc Hcn Hl Hdir) as [Hfb Hseq].
  destruct (run_free_blocks _ _ _ _ Hfb) as (sb1 & w1 & Hrun & Hf).
  unfold owned. rewrite decide_True, Hseq by done. eauto 10.
Qed.
End freeing.

(** ** [unlink] and [rmdir] *)
Section remove.
Context `{Clock} `{Build} (Hclock : clock_ok).
Implicit Types (sb : SuperBlock) (w : world) (p n c : u32) (name : bytes) (m : gmap bytes u32).

Lemma run_bury X sb w c i :
  consistent X sb w → c ∈ inode_numbers → X = Some c → disk_inode sb w c = Some i →
  run (write_inode sb (set_nlink i 0)) w = Done () (put_inode sb (set_nlink i 0) w) ∧
  consistent None sb (put_inode sb (set_nlink i 0) w) ∧
  abs None sb (put_inode sb (set_nlink i 0) w) = base.delete c (abs X sb w) ∧
  (∀ n, n ∈ inode_numbers → n ≠ c → live None sb (put_inode sb (set_nlink i 0) w) n = live X sb w n) ∧
  spent one_block 0 X sb w None sb (put_inode sb (set_nlink i 0) w).
Proof.
  intros Hc Hcn HX Hi.
  destruct (consistent_number _ _ _ _ Hc Hcn) as (Hok & _).
  destruct (disk_inode_wf sb w c i) as [Hwf Hno]; [apply Hc|done|done|].
  assert (inode_wf (set_nlink i 0)) as Hwf' by (by apply set_nlink_wf).
  assert (i_inode_no (set_nlink i 0) = c) as Hno' by done.
  destruct (change_bury X sb w (set_nlink i 0) Hc Hwf') as [Hch Hnode].
  - by rewrite Hno'.
  - right. by rewrite Hno'.
  - done.
  - rewrite Hno'. unfold owned_at, live. by rewrite decide_True.
  - rewrite Hno' in Hch, Hnode. destruct (change_consistent _ _ _ _ _ _ _ Hcn Hc Hch) as [Hc' Habs].
    split_and!; [|done| |apply Hch|].
    + apply run_write_inode; [apply Hc|by rewrite Hno'|by apply inode_wf_direct].
    + by rewrite Habs, Hnode.
    + destruct (put_same X sb w (set_nlink i 0) Hc Hwf') as (_ & Hb1 & _); [by rewrite Hno'|].
      apply (spent_change_none _ c); [exact Hch|intros b Hb; by rewrite Hb1|].
      intros j Hj. unfold node_at in Hnode. by rewrite Hj in Hnode.
Qed.

Lemma run_unlink sb w p name m c :
  consistent None sb w → entries (abs None sb w) p = Some m → m !! name = Some c →
  is_Some (abs None sb w !! c) → entries (abs None sb w) c = None →
  ∃ sb' w', run (SimpleFS.unlink sb p name) w = Done (Ok (), sb') w' ∧
    consistent None sb' w' ∧ spent one_block 0 None sb w None sb' w' ∧
    abs None sb' w' = detach (abs None sb w) p name c.
Proof.
  intros Hc Hp Hm [x Hx] Hfile.
  destruct (open_dir _ _ _ _ _ Hc Hp) as (dir & Hpn & Hl & Hdir & Hdn & Hmap & Hread & Hfind).
  pose proof Hm as Hget. rewrite Hmap in Hget. apply dir_map_Some in Hget as (e & b & off & Hget & He).
  destruct (abs_live _ _ _ _ _ Hx) as (Hcn & i & Hli & Hxi).
  assert (¬ is_dir i) as Hnd.
  { intros Hd. unfold entries in Hfile. rewrite Hx, Hxi in Hfile. unfold node in Hfile.
    cbn in Hfile. by rewrite decide_True in Hfile. }
  assert (p ≠ c) as Hpc by (intros ->; congruence).
  unfold SimpleFS.unlink. rewrite to_str_utf8 by (by eapply dir_get_utf8). cbv zeta. run_step Hread.
  run_step Hfind. rewrite Hget, He. destruct (run_read_live _ _ _ _ _ Hc Hcn Hli) as [Hreadc _]. run_step Hreadc.
  assert (Z.land (i_mode i) (as_u16 S_IFDIR) =? 0 = true) as ->.
  { unfold is_dir in Hnd. change (as_u16 S_IFDIR) with S_IFDIR. apply Z.eqb_eq.
    by destruct (decide (Z.land (i_mode i) S_IFDIR = 0)). }
  cbn [negb].
  destruct (run_free_file sb w c i Hc Hcn Hli Hnd) as (sb1 & w1 & Hrun1 & l & Hfr & Hown).
  rewrite run_bind in Hrun1. rewrite run_bind.
  destruct (run (SimpleFS.free_blocks sb i) w) as [sb0 w0| |]; [|done|done].
  run_step Hrun1. clear Hrun1.
  destruct (change_freed _ _ _ _ _ _ _ Hc Hcn Hli Hfr Hown) as (Hc1 & Habs1 & Hlive1 & Hi1 & Hleft1).
  destruct (run_bury _ _ _ _ _ Hc1 Hcn eq_refl Hi1) as (Hrun2 & Hc2 & Habs2 & Hlive2 & Hleft2).
  cbv zeta. run_step Hrun2. set (w2 := put_inode sb1 (set_nlink i 0) w1) in *. clear Hrun2.
  rewrite Habs1, delete_delete_eq in Habs2.
  destruct (run_remove_name Hclock None sb1 w2 p dir name c m Hc2) as (i' & w' & Hrun3 & Hc3 & Habs3 & _ & Hleft3).
  - rewrite Habs2. unfold entries. rewrite lookup_delete_ne by done. exact Hp.
  - by rewrite Hlive2, Hlive1.
  - done.
  - run_step Hrun3. exists sb1, w'. split_and!; [done|done| |].
    { eapply (spent_trans _ 0 0); [done| |exact Hleft3]. by eapply (spent_trans _ 0 0). }
    rewrite Habs3, Habs2. unfold detach. by rewrite Hp.
Qed.

(** [rmdir] after the blocks were freed: the entry is removed, then the inode. *)
Lemma removed_state sb w p name m c dir i l sb1 w1 :
  consistent None sb w → entries (abs None sb w) p = Some m → m !! name = Some c → c ∈ inode_numbers →
  live None sb w p = Some dir → live None sb w c = Some i → p ≠ c →
  freed l sb w sb1 w1 → (∀ b, b ∈ l ↔ b ∈ owned i w) →
  ∃ i' w2, run (dir_remove_entry sb1 dir name) w1 = Done (Ok (), i') w2 ∧
    let w3 := put_inode sb1 (set_nlink i 0) w2 in
    run (write_inode sb1 (set_nlink i 0)) w2 = Done () w3 ∧ consistent None sb1 w3 ∧
    spent one_block 0 None sb w None sb1 w3 ∧ abs None sb1 w3 = detach (abs None sb w) p name c.
Proof.
  intros Hc Hp Hm Hcn Hl Hli Hpc Hfr Hown.
  destruct (open_dir _ _ _ _ _ Hc Hp) as (_ & Hpn & _).
  destruct (change_freed _ _ _ _ _ _ _ Hc Hcn Hli Hfr Hown) as (Hc1 & Habs1 & Hlive1 & Hi1 & Hleft1).
  destruct (run_remove_name Hclock (Some c) sb1 w1 p dir name c m Hc1) as (i' & w2 & Hrun2 & Hc2 & Habs2 & Hlive2 & Hleft2).
  - rewrite Habs1. unfold entries. rewrite lookup_delete_ne by done. exact Hp.
  - by rewrite Hlive1.
  - done.
  - destruct (Hlive2 c Hcn) as [_ Hi2]; [done|]. rewrite Hi1 in Hi2.
    destruct (run_bury _ _ _ _ _ Hc2 Hcn eq_refl Hi2) as (Hrun3 & Hc3 & Habs3 & _ & Hleft3).
    exists i', w2. split; [exact Hrun2|]. split; [exact Hrun3|]. split; [exact Hc3|]. split.
    { eapply (spent_trans _ 0 0); [done| |exact Hleft3]. by eapply (spent_trans _ 0 0). }
    rewrite Habs3, Habs2, Habs1. unfold detach. rewrite Hp. simpl. unfold set_entries.
    apply map_eq. intros q. destruct (decide (q = c)) as [->|Hq].
    + rewrite lookup_delete_eq, lookup_alter_ne, lookup_delete_eq by done. done.
    + by rewrite lookup_delete_ne.
Qed.

Lemma run_rmdir sb w p name m c mc :
  consistent None sb w → entries (abs None sb w) p = Some m → m !! name = Some c →
  entries (abs None sb w) c = Some mc → (base.size mc ≤ 2)%nat → p ≠ c →
  ∃ sb' w', run (SimpleFS.rmdir sb p name) w = Done (Ok (), sb') w' ∧
    consistent None sb' w' ∧ spent one_block 0 None sb w None sb' w' ∧
    abs None sb' w' = detach (abs None sb w) p name c.
Proof.
  intros Hc Hp Hm Hce Hsize Hpc.
  destruct (open_dir _ _ _ _ _ Hc Hp) as (dir & Hpn & Hl & Hdir & Hdn & Hmap & Hread & Hfind).
  destruct (open_dir _ _ _ _ _ Hc Hce) as (i & Hcn & Hli & Hdi & Hidn & Hmapc & _ & _).
  pose proof Hm as Hget. rewrite Hmap in Hget. apply dir_map_Some in Hget as (e & b & off & Hget & He).
  unfold SimpleFS.rmdir. rewrite to_str_utf8 by (by eapply dir_get_utf8). cbv zeta. run_step Hread.
  run_step Hfind. rewrite Hget, He. destruct (run_read_live _ _ _ _ _ Hc Hcn Hli) as [Hreadc _]. run_step Hreadc.
  assert (Z.land (i_mode i) (as_u16 S_IFDIR) =? 0 = false) as -> by (by apply Z.eqb_neq).
  run_step run_dir_lookup by apply Hidn.
  assert (2 <? zlen (dir_entries i w) = false) as ->.
  { apply Z.ltb_ge. rewrite Hmapc, (size_dir_map sb) in Hsize by done. unfold zlen. lia. }
  destruct (run_free_dir sb w c i Hc Hcn Hli Hdi) as (sb1 & w1 & Hrun1 & l & Hfr & Hown).
  run_step Hrun1. clear Hrun1.
  destruct (removed_state sb w p name m c dir i l sb1 w1 Hc Hp Hm Hcn Hl Hli Hpc Hfr Hown)
    as (i' & w2 & Hrun2 & Hrun3 & Hc3 & Hleft3 & Habs3).
  run_step Hrun2. cbv beta iota zeta. run_step Hrun3. eauto 10.
Qed.
End remove.
