(* ===== verification/Mount.v ===== *)
(** * Mount: the file system a mount starts with

    [mounted] is the state every handler starts from and ends in: a consistent file system
    that stores a tree.  A mount of a blank image makes one: the root directory alone. *)
From S2P Require Import Prelude Disk Superblock Bitmap Inode Directory Fs File Format Spec.
From S2P Require Import Consistency Room Namespace.

(** A mounted file system: consistent, and its nodes form a tree. *)
Definition mounted (sb : SuperBlock) (w : world) : Prop :=
  consistent None sb w ∧ tree (abs None sb w).

(** ** The file system a mount starts with *)

(** The tree of a fresh disk: the root directory. *)
Definition fresh_tree : gmap u32 anode := {[ 1 := ANode 16877 (ADir (new_entries 1 1)) ]}.

(** No inode outside of the inode table is in use: true of an empty image, but formatting
    does not make it so. *)
Definition no_stale_inodes (w : world) : Prop :=
  ∀ n i, n ∈ inode_numbers → n ≠ 1 → disk_inode initial_superblock w n = Some i → i_nlink i = 0.

Section fresh.
Context `{Clock} `{Build}.
Implicit Types (sb : SuperBlock) (w : world).

Lemma fresh_tree_entries n m : entries fresh_tree n = Some m ↔ n = 1 ∧ m = new_entries 1 1.
Proof.
  unfold entries, fresh_tree. rewrite lookup_singleton. case_decide; simpl; naive_solver.
Qed.

Lemma fresh_tree_child n name c :
  child fresh_tree n name = Some c → n = 1 ∧ c = 1 ∧ (name = dot ∨ name = dotdot).
Proof.
  intros (m & [-> ->]%fresh_tree_entries & Hl)%child_in. unfold new_entries in Hl.
  rewrite lookup_insert, lookup_singleton in Hl. repeat case_decide; naive_solver.
Qed.

Lemma fresh_tree_ok : tree fresh_tree.
Proof.
  assert (entries fresh_tree 1 = Some (new_entries 1 1)) as H1 by (by apply fresh_tree_entries).
  constructor.
  - by rewrite H1.
  - intros n [x Hx]. unfold fresh_tree in Hx. rewrite lookup_singleton in Hx.
    case_decide; [|done]. subst n. constructor.
  - intros p name c (-> & -> & _)%fresh_tree_child. by eapply entries_in.
  - intros p name q name' c (-> & -> & Hn)%fresh_tree_child _ [? ?]. naive_solver.
  - intros p name [? ?] (_ & _ & Hn)%fresh_tree_child. naive_solver.
  - intros n m [-> ->]%fresh_tree_entries. done.
  - intros n m [-> ->]%fresh_tree_entries. exists 1. split; [done|by left].
Qed.

Lemma formatted_mounted w0 sb w :
  formatted w0 sb w → no_stale_inodes w0 → mounted sb w ∧ abs None sb w = fresh_tree ∧ used ∅ sb w.
Proof.
  intros [Hi _ Hbits (root & Hroot & Hd & Hmode & Hlink & (Hno & Hcount & Hblk) & He) Hframe] Hstale.
  pose proof (bi_table _ _ Hi) as Ht.
  assert (is_dir root) as Hdir by (unfold is_dir; by rewrite Hmode).
  assert (live None sb w 1 = Some root) as Hl1
    by (apply live_Some; rewrite Hlink; done).
  assert (∀ n, n ∈ inode_numbers → n ≠ 1 → live None sb w n = None) as Hdead.
  { intros n Hn Hne. destruct (number_block sb n Ht Hn) as [Hok Hb].
    unfold live. rewrite decide_False by done. destruct (disk_inode sb w n) as [i|] eqn:Hi'; [|done].
    simpl. assert (i_nlink i = 0) as ->; [|done]. apply (Hstale n i Hn Hne). rewrite <-Hi'.
    rewrite (disk_inode_table sb initial_superblock) by done. symmetry. apply disk_inode_ext, Hframe.
    apply elem_of_inode_numbers in Hn. unfold inode_block. rewrite Ht. dlia. }
  assert (dir_node sb root w) as Hnode.
  { constructor; [done| |rewrite Hblk; apply NoDup_singleton|by rewrite Hno|].
    - eapply fresh_dir_unique; [exact He|]. destruct (entry_dot 1 1) as [Hx Hy]. simpl. by rewrite Hx, Hy.
    - intros nm s Hs%dir_get_in_entries. rewrite He in Hs.
      by apply elem_of_cons in Hs as [->|Hs%list_elem_of_singleton]; [|subst s]. }
  assert (∀ n, n ∈ inode_numbers → owned_at None sb w n = if decide (n = 1) then [31] else []) as Hown.
  { intros n Hn. unfold owned_at. case_decide as Hn1; [|by rewrite Hdead].
    subst n. rewrite Hl1. unfold owned. by rewrite decide_True, Hblk. }
  assert (1 ∈ inode_numbers) as H1 by (apply elem_of_inode_numbers; lia).
  assert (consistent None sb w) as Hc.
  { constructor.
    - done.
    - intros n i Hn Hl. destruct (decide (n = 1)) as [->|Hne]; [|by rewrite Hdead in Hl].
      assert (i = root) as -> by congruence. unfold node_ok. by rewrite decide_True.
    - intros b Hb. rewrite Hbits, bool_decide_eq_true by lia. split.
      + intros Hlt. exists 1. split; [done|]. rewrite Hown by done. apply list_elem_of_singleton. lia.
      + intros (n & Hn & Hin). rewrite Hown in Hin by done. case_decide.
        * apply list_elem_of_singleton in Hin. lia.
        * by apply not_elem_of_nil in Hin.
    - intros n k b Hn Hk. rewrite !Hown by done. repeat case_decide; subst; try done;
        intros Hx Hy; first [by apply not_elem_of_nil in Hx|by apply not_elem_of_nil in Hy].
    - intros b Hb. unfold inode_area in Hb. rewrite Hbits by (consts; lia).
      apply bool_decide_eq_false. lia. }
  assert (abs None sb w = fresh_tree) as Habs.
  { apply map_eq. intros n. rewrite abs_lookup. unfold fresh_tree. rewrite lookup_singleton.
    destruct (decide (1 = n)) as [<-|Hne].
    - rewrite decide_True by done. unfold node_at. rewrite Hl1. simpl. do 2 f_equal. unfold node.
      rewrite Hmode. f_equal. rewrite decide_True by done. f_equal. unfold dir_map. rewrite He.
      destruct (entry_dot 1 1) as [Hx Hy]. cbn [fmap list_fmap list_to_map foldr fst snd].
      by rewrite Hx, Hy.
    - case_decide as Hn; [|done]. unfold node_at. by rewrite Hdead. }
  split; [|split; [done|constructor]].
  - split; [done|]. rewrite Habs. apply fresh_tree_ok.
  - intros b Hb. rewrite Hbits by lia. apply bool_decide_eq_false. lia.
  - intros n i Hn Hl _. destruct (decide (n = 1)) as [->|Hne]; [|by rewrite Hdead in Hl].
    assert (i = root) as -> by congruence. by rewrite Hblk.
Qed.

(** A formatted disk has 57 free blocks before the inodes in the data area. *)
Lemma fresh_room sb w k :
  mounted sb w → abs None sb w = fresh_tree → used ∅ sb w → k ≤ 57 → room k w.
Proof.
  intros [Hc _] Habs Hu Hk. apply (space_room ∅ sb); [done..|]. rewrite Habs.
  assert (space ∅ fresh_tree = 1) as -> by (vm_compute; reflexivity). lia.
Qed.

(** The blocks of the disk are those of the file before it got its length. *)
Lemma truncated_read w b : 0 ≤ b < MAX_BLOCKS → w_read (truncated w) b = w_read w b.
Proof.
  intros Hb. unfold truncated, w_read, img_read. simpl.
  rewrite map_lookup_imap. destruct (img_blocks (w_img w) !! _) as [d|]; [|done]. simpl.
  assert (BLOCK_SIZE <=? Z.max 0 (DISK_SIZE - b * BLOCK_SIZE) = true) as ->; [|done].
  consts. lia.
Qed.

Lemma truncated_stale w : no_stale_inodes (truncated w) ↔ no_stale_inodes w.
Proof.
  assert (∀ n, n ∈ inode_numbers →
    disk_inode initial_superblock (truncated w) n = disk_inode initial_superblock w n) as Heq.
  { intros n Hn. apply disk_inode_ext, truncated_read. apply elem_of_inode_numbers in Hn.
    consts. unfold inode_block. change (sb_inode_table_start initial_superblock) with 6. dlia. }
  by split; intros Hs n i Hn Hne Hi; apply (Hs n i Hn Hne); rewrite <-Hi, Heq.
Qed.

(** A mount of a disk without a file system on it. *)
Lemma run_mount_fresh (Hclock : clock_ok) w :
  image_ok w → present_superblock w = None → no_stale_inodes w →
  ∃ sb w', run SimpleFS.mount w = Done sb w' ∧ mounted sb w' ∧ abs None sb w' = fresh_tree ∧
    used ∅ sb w'.
Proof.
  intros Hok Hnone Hs.
  destruct (wp_inv _ _ _ (wp_mount_format Hclock w Hok Hnone)) as (sb & w' & Hrun & Hf).
  destruct (formatted_mounted _ _ _ Hf (proj2 (truncated_stale w) Hs)) as (Hm & Habs & Hu).
  by exists sb, w'.
Qed.
End fresh.

(** ** An empty image *)
#[local] Instance zero_clock : Clock := λ _, 0.
#[local] Instance checked_build : Build := true.

Lemma empty_image_no_stale : no_stale_inodes empty_image.
Proof.
  intros n i _ _. rewrite disk_inode_zeros by reflexivity. by intros [= <-].
Qed.

Lemma fresh_mount :
  ∃ sb w, run SimpleFS.mount empty_image = Done sb w ∧ mounted sb w ∧ abs None sb w = fresh_tree ∧
    ∀ k, k ≤ 57 → room k w.
Proof.
  destruct (run_mount_fresh zero_clock_ok empty_image (map_Forall_empty _) eq_refl empty_image_no_stale)
    as (sb & w & Hrun & Hm & Habs & Hu).
  exists sb, w. split_and!; [done..|]. intros k. by apply (fresh_room sb).
Qed.
