(* ===== verification/Nodes.v ===== *)
(** * Nodes: the handlers of [src/fs.rs] on one node

    [getattr], [lookup], [setattr], [open], [read], [write] and [readdir] on a consistent
    file system, in terms of the tree it stores. *)
From S2P Require Import Prelude Disk Superblock Bitmap Inode Directory Fs File Format Spec.
From S2P Require Import Consistency Room Namespace Mount.

(** What the attributes say about a node of the tree. *)
Definition attr_matches (n : u32) (x : anode) (a : FileAttr) : Prop :=
  fa_ino a = n ∧ fa_perm a = an_mode x ∧
  match an_body x with
  | AFile d => fa_kind a = RegularFile ∧ fa_size a = zlen d
  | ADir _ => fa_kind a = Directory
  end.

Section nodes.
Context `{Clock} `{Build}.
Implicit Types (X : option u32) (sb : SuperBlock) (w : world) (n p c : u32) (i : Inode).

Lemma attr_node sb w n i :
  consistent None sb w → n ∈ inode_numbers → live None sb w n = Some i →
  attr_matches n (node i w) (inode_to_attr i).
Proof.
  intros Hc Hn Hl. destruct (consistent_live _ _ _ _ _ Hc Hn Hl) as (Hok & Hwf & Hno & _).
  destruct (consistent_number _ _ _ _ Hc Hn) as (Hnok & _). apply inode_ok_u32 in Hnok.
  assert (is_u32 (i_size i)) as Hs by (unfold inode_wf in Hwf; tauto).
  unfold attr_matches, node, node_ok, is_u32 in *. cbn [an_mode an_body].
  unfold inode_to_attr. cbn [fa_ino fa_perm fa_kind fa_size]. change (as_u16 S_IFDIR) with S_IFDIR.
  split_and!; [rewrite Hno; apply as_u64_id; lia|done|]. unfold is_dir in *. case_decide as Hd.
  - by rewrite (proj2 (Z.eqb_neq _ _)).
  - rewrite (proj2 (Z.eqb_eq _ _)) by (by destruct (decide (Z.land (i_mode i) S_IFDIR = 0))).
    split; [done|]. destruct (raw_contents sb i w (fn_ok _ _ _ Hok)) as [-> _].
    apply as_u64_id. lia.
Qed.

(** [getattr] *)
Lemma run_getattr sb w n :
  consistent None sb w → n ∈ inode_numbers →
  run (SimpleFS.getattr sb n) w =
    Done (match attr_of None sb w n with Some a => Ok a | None => Err ENOENT end) w.
Proof.
  intros Hc Hn. destruct (run_read_number _ _ _ _ Hc Hn) as (i & Hi & _ & _ & _ & Hr).
  unfold SimpleFS.getattr. run_step Hr. unfold attr_of, live. rewrite decide_False, Hi by done.
  simpl. by destruct (i_nlink i =? 0).
Qed.

(** [lookup] *)
Lemma run_lookup sb w p name m :
  consistent None sb w → entries (abs None sb w) p = Some m →
  (∀ c, m !! name = Some c → is_Some (abs None sb w !! c)) →
  run (SimpleFS.lookup sb p name) w =
    Done (match c ← m !! name; attr_of None sb w c with Some a => Ok a | None => Err ENOENT end) w.
Proof.
  intros Hc Hp Hclosed.
  destruct (open_dir _ _ _ _ _ Hc Hp) as (dir & Hpn & Hl & Hdir & Hdn & Hmap & Hread & Hfind).
  unfold SimpleFS.lookup. run_step Hread. run_step Hfind.
  rewrite (dir_get_lossy sb) by done.
  pose proof (dir_map_get dir w name) as Hget. rewrite <-Hmap in Hget. rewrite Hget.
  destruct (dir_get dir w name) as [[[e b] off]|]; [|done]. simpl in Hget |- *.
  destruct (Hclosed _ Hget) as [x Hx]. destruct (abs_live _ _ _ _ _ Hx) as (Hcn & i & Hli & _).
  destruct (run_read_live _ _ _ _ _ Hc Hcn Hli) as [Hrc _]. run_step Hrc.
  unfold attr_of. by rewrite Hli.
Qed.

(** The file a handler finds. *)
Lemma open_file X sb w n d :
  consistent X sb w → file_data (abs X sb w) n = Some d →
  ∃ i, n ∈ inode_numbers ∧ live X sb w n = Some i ∧ ¬ is_dir i ∧ file_node sb i w ∧
    d = contents i w ∧ i_inode_no i = n ∧ disk_inode sb w n = Some i ∧ as_u32 n = n.
Proof.
  intros Hc Hd. unfold file_data in Hd. destruct (abs X sb w !! n) as [x|] eqn:Hx; [|done].
  destruct (abs_live _ _ _ _ _ Hx) as (Hn & i & Hl & ->). exists i. simpl in Hd.
  destruct (consistent_live _ _ _ _ _ Hc Hn Hl) as (Hok & _ & Hno & Hi).
  destruct (consistent_number _ _ _ _ Hc Hn) as (_ & _ & Hu & _).
  unfold node_ok in Hok. destruct (decide (is_dir i)); [done|]. injection Hd as <-. done.
Qed.

(** [read] *)
Lemma run_read_node sb w n d off k :
  consistent None sb w → file_data (abs None sb w) n = Some d → 0 ≤ off → 0 ≤ k →
  run (SimpleFS.read sb n off k) w = Done (Ok (spec_read (abs None sb w) n off k)) w.
Proof.
  intros Hc Hd Ho Hk. destruct (open_file _ _ _ _ _ Hc Hd) as (i & _ & _ & _ & Hf & -> & Hno & Hi & Hu).
  unfold spec_read. rewrite Hd. simpl.
  apply run_read; [apply Hf|by rewrite Hu|by rewrite Hu|done|done].
Qed.

(** ** [setattr] *)

Lemma chmod_kind mode x : Z.land (chmod_mode mode x) S_IFDIR = Z.land mode S_IFDIR.
Proof.
  unfold chmod_mode. destruct x as [x|]; [|done].
  rewrite Z.land_lor_distr_l, <-!Z.land_assoc. change (Z.land 61440 S_IFDIR) with S_IFDIR.
  change (Z.land 511 S_IFDIR) with 0. by rewrite Z.land_0_r, Z.lor_0_r.
Qed.

Lemma land_range a b : 0 ≤ b → 0 ≤ Z.land a b ≤ b.
Proof.
  intros Hb. assert (0 ≤ Z.land a b) as H1 by (apply Z.land_nonneg; by right). split; [done|].
  rewrite <-(Z.lor_ldiff_and b a) at 2. rewrite (Z.land_comm a b).
  assert (0 ≤ Z.ldiff b a) by (apply Z.ldiff_nonneg; by left).
  rewrite <-Z.add_nocarry_lor, (Z.land_comm b a); [lia|].
  apply Z.bits_inj'. intros k Hk. rewrite !Z.land_spec, Z.ldiff_spec, Z.bits_0.
  destruct (Z.testbit a k), (Z.testbit b k); done.
Qed.

Lemma chmod_u16 mode x : is_u16 mode → is_u16 (chmod_mode mode x).
Proof.
  unfold is_u16. intros Hm. unfold chmod_mode. destruct x as [x|]; [|done].
  pose proof (land_range mode 61440 ltac:(lia)). pose proof (land_range x 511 ltac:(lia)).
  assert (Z.land (Z.land mode 61440) (Z.land x 511) = 0) as Hz.
  { rewrite (Z.land_comm x), Z.land_assoc, <-(Z.land_assoc mode). change (Z.land 61440 511) with 0.
    by rewrite Z.land_0_r. }
  rewrite <-Z.add_nocarry_lor by done. lia.
Qed.

Lemma alter_node (A : gmap u32 anode) n (f : anode → anode) x :
  A !! n = Some x → partial_alter (λ _, Some (f x)) n A = alter f n A.
Proof.
  intros Hx. apply map_eq. intros q. rewrite lookup_partial_alter, lookup_alter.
  case_decide; [|done]. subst q. by rewrite Hx.
Qed.

(** The inode that [setattr] writes. *)
Definition chmodded `{Clock} (i : Inode) (mode : option u32) (t : nat) : Inode :=
  set_mtime (set_mode i (chmod_mode (i_mode i) mode)) (clock_at t).

Lemma chmodded_wf (Hclock : clock_ok) i mode t : inode_wf i → inode_wf (chmodded i mode t).
Proof.
  intros Hwf. assert (is_u16 (i_mode i)) as Hm by (unfold inode_wf in Hwf; tauto).
  apply set_mtime_wf; [|pose proof (Hclock t); unfold is_i64; lia].
  apply set_mode_wf; [done|by apply chmod_u16].
Qed.

(** The mode it computes. *)
Lemma setattr_mode i mode :
  match mode with
  | Some new_mode => set_mode i (Z.lor (Z.land (i_mode i) 61440) (as_u16 (Z.land new_mode 511)))
  | None => i
  end = set_mode i (chmod_mode (i_mode i) mode).
Proof.
  unfold chmod_mode. destruct mode as [x|]; [|by destruct i]. do 2 f_equal. apply as_u16_id.
  pose proof (land_range x 511). unfold is_u16. lia.
Qed.

Lemma run_setattr (Hclock : clock_ok) sb w n x mode uid gid size :
  consistent None sb w → abs None sb w !! n = Some x →
  ∃ a w', run (SimpleFS.setattr sb n mode uid gid size) w = Done (Ok a) w' ∧
    consistent None sb w' ∧ spent one_block 0 None sb w None sb w' ∧ attr_of None sb w' n = Some a ∧
    abs None sb w' = spec_setattr (abs None sb w) n mode.
Proof.
  intros Hc Hx. destruct (abs_live _ _ _ _ _ Hx) as (Hn & i & Hl & ->).
  destruct (consistent_live _ _ _ _ _ Hc Hn Hl) as (Hok & Hwf & Hno & Hi).
  destruct (run_read_live _ _ _ _ _ Hc Hn Hl) as [_ Hr].
  destruct (consistent_number _ _ _ _ Hc Hn) as (Hnok & _).
  unfold SimpleFS.setattr. run_step Hr. cbv zeta.
  rewrite setattr_mode. run_step run_now by done.
  change (set_mtime _ _) with (chmodded i mode (w_ticks w)). set (j := chmodded i mode (w_ticks w)).
  pose proof (consistent_tick _ _ _ Hc) as Hct.
  assert (is_u16 (i_mode i)) as Hm by (unfold inode_wf in Hwf; tauto).
  assert (inode_wf j) as Hj by (by apply chmodded_wf).
  assert (i_inode_no j = n) as Hjno by done.
  assert (same_blocks j i) as Hsame.
  { split_and!; try done. unfold is_dir, j, chmodded. simpl. by rewrite chmod_kind. }
  destruct (consistent_live None sb (w_tick w) n i Hct Hn Hl) as (Hokt & _).
  destruct (same_blocks_node sb j i (w_tick w) Hsame Hj Hokt) as (Hjok & Hown & Hbody).
  apply live_Some in Hl as Hl'. destruct Hl' as (_ & _ & Hlink).
  destruct (change_put None sb (w_tick w) j Hct Hj) as [Hch Hnode].
  - by rewrite Hjno.
  - done.
  - done.
  - done.
  - rewrite Hjno, Hown. unfold owned_at. change (live None sb (w_tick w) n) with (live None sb w n).
    by rewrite Hl.
  - rewrite Hjno in Hch, Hnode.
    destruct (change_consistent _ _ _ _ _ _ _ Hn Hct Hch) as [Hc' Habs].
    run_step run_write_inode by (first [apply (cs_inv _ _ _ Hct)|by rewrite Hjno|by apply inode_wf_direct]).
    assert (live None sb (put_inode sb j (w_tick w)) n = Some j) as Hlj.
    { apply live_Some. split_and!; [done| |done]. rewrite <-Hjno.
      apply disk_inode_put_same; [apply Hct|done]. }
    exists (inode_to_attr j), (put_inode sb j (w_tick w)). split_and!; [done|done| | |].
    + destruct (put_same None sb (w_tick w) j Hct Hj) as (_ & Hb1 & _); [by rewrite Hjno|].
      apply spent_tick, (spent_change_none _ n); [exact Hch|intros b Hb; by rewrite Hb1|].
      intros j' Hj' Hd. assert (j' = j) as -> by congruence.
      right. exists i. split_and!; [exact Hl|by apply Hsame|done].
    + unfold attr_of. by rewrite Hlj.
    + rewrite Habs, Hnode. change (abs None sb (w_tick w)) with (abs None sb w).
      unfold spec_setattr. rewrite <-(alter_node _ _ _ _ (abs_of _ _ _ _ _ Hn Hl)).
      assert (node j (w_tick w) = ANode (chmod_mode (i_mode i) mode) (an_body (node i w))) as ->;
        [|done].
      change (node i (w_tick w)) with (node i w) in Hbody. rewrite <-Hbody. done.
Qed.
End nodes.


(** ** [write] *)
Section write.
Context `{Clock} `{Build} (Hclock : clock_ok).
Implicit Types (sb : SuperBlock) (w : world) (n b : u32) (i : Inode) (data d : bytes).

(** The blocks a write must not be given: those of the inodes. *)
Definition inode_place (b : u32) : Prop := b = 6 ∨ inode_area b.
(** With enough free blocks below them it is given none from there on. *)
Definition high_place (b : u32) : Prop := b = 6 ∨ 89 ≤ b < MAX_BLOCKS.

Lemma place_high b : inode_place b → high_place b.
Proof. unfold inode_place, high_place, inode_area. consts. lia. Qed.

Lemma free_below_mono b b' w : b ≤ b' → free_below b w ≤ free_below b' w.
Proof.
  intros Hb. destruct (Z.le_gt_cases b 0) as [Hz|Hz].
  - unfold free_below. rewrite seqZ_nil by lia. simpl. unfold zlen. simpl. lia.
  - unfold free_below. replace b' with (b + (b' - b)) by lia.
    rewrite seqZ_app, filter_app, zlen_app by lia. unfold zlen. lia.
Qed.

Lemma room_budget sb w k b :
  bitmap_inv sb w → room k w → high_place b → budget b k w.
Proof.
  intros Hi Hroom Hb. unfold room in Hroom. unfold high_place in Hb.
  pose proof (free_below_mono 89 MAX_BLOCKS w ltac:(consts; lia)). unfold budget.
  change (free_count w) with (free_below MAX_BLOCKS w).
  split; [consts; lia|]. split; [lia|]. destruct Hb as [->|Hb].
  - left. apply (bi_system _ _ Hi). lia.
  - right. pose proof (free_below_mono 89 b w ltac:(lia)). lia.
Qed.

Lemma zlen_written off data old :
  0 ≤ off → zlen (written off data old) = Z.max (zlen old) (off + zlen data).
Proof.
  intros Ho. unfold written. assert (0 ≤ zlen data ∧ 0 ≤ zlen old) by (unfold zlen; lia).
  rewrite zlen_splice; rewrite ?zlen_app, ?zlen_zeros by lia; lia.
Qed.

Lemma blocks_for_mono x y : x ≤ y → blocks_for x ≤ blocks_for y.
Proof. intros Hxy. unfold blocks_for. apply Z.div_le_mono; lia. Qed.

(** The blocks of a file are not those of inodes. *)
Lemma place_not_owned sb w n i b :
  consistent None sb w → n ∈ inode_numbers → live None sb w n = Some i → ¬ is_dir i →
  inode_place b → b ∉ own_blocks i w.
Proof.
  intros Hc Hn Hl Hfile Hb Hin.
  destruct (owned_range None sb w n b Hc Hn) as [Hr Hbit];
    [unfold owned_at, owned; by rewrite Hl, decide_False|].
  destruct Hb as [->|Hb]; [lia|]. rewrite (cs_area _ _ _ Hc b Hb) in Hbit. done.
Qed.

Lemma change_written sb w n i off data sb' i' w' :
  consistent None sb w → n ∈ inode_numbers → live None sb w n = Some i → ¬ is_dir i →
  file_written high_place sb i w off data sb' i' w' → 0 ≤ off → 0 < zlen data →
  change n None sb w None sb' w' ∧
  node_at None sb' w' n = Some (ANode (i_mode i) (AFile (written off data (contents i w)))).
Proof.
  intros Hc Hn Hl Hfile Hw Ho Hpos.
  destruct (consistent_live _ _ _ _ _ Hc Hn Hl) as (Hok & Hwf & Hno & Hi).
  unfold node_ok in Hok. rewrite decide_False in Hok by done.
  destruct (fw_kind _ _ _ _ _ _ _ _ _ Hw) as [Hmode Hlink].
  assert (¬ is_dir i') as Hfile' by (unfold is_dir; by rewrite Hmode).
  assert (live None sb' w' n = Some i') as Hl'.
  { apply live_Some in Hl as (HX & _ & Hnz). apply live_Some. split_and!; [done| |by rewrite Hlink].
    rewrite <-Hno. by apply (fw_inode _ _ _ _ _ _ _ _ _ Hw). }
  assert (owned_at None sb w n = own_blocks i w) as Hown
    by (unfold owned_at, owned; by rewrite Hl, decide_False).
  assert (owned_at None sb' w' n = own_blocks i' w') as Hown'
    by (unfold owned_at, owned; by rewrite Hl', decide_False).
  assert (∀ k, k ∈ inode_numbers → inode_place (inode_block sb k)) as Hplace.
  { intros k Hk. by apply (number_block sb k (consistent_table _ _ _ Hc)). }
  assert (∀ b, inode_place b → b ∉ own_blocks i w) as Havoid.
  { intros b Hb. by eapply place_not_owned. }
  split; [constructor|].
  - apply Hw.
  - intros k Hk Hne. unfold live. rewrite !decide_False by done.
    destruct (consistent_number _ _ _ _ Hc Hk) as (Hkok & Hkb & _).
    rewrite (fw_inodes _ _ _ _ _ _ _ _ _ Hw); [done|apply Hkok|by rewrite Hno| |lia].
    apply (fw_avoid _ _ _ _ _ _ _ _ _ Hw); [by apply place_high, Hplace|by apply Havoid, Hplace].
  - rewrite Hl'. intros j [= <-]. unfold node_ok. rewrite decide_False by done. constructor.
    + apply Hw.
    + apply (fw_tidy _ _ _ _ _ _ _ _ _ Hw), Hok.
    + rewrite (fw_count _ _ _ _ _ _ _ _ _ Hw), (fn_count _ _ _ Hok).
      destruct (raw_contents sb' i' w' (fw_ok _ _ _ _ _ _ _ _ _ Hw)) as [<- _].
      destruct (raw_contents sb i w (fn_ok _ _ _ Hok)) as [Hz _].
      rewrite (fw_contents _ _ _ _ _ _ _ _ _ Hw), zlen_written, Hz by done.
      destruct (Z.max_spec (i_size i) (off + zlen data)) as [[? ->]|[? ->]].
      * pose proof (blocks_for_mono (i_size i) (off + zlen data)). lia.
      * pose proof (blocks_for_mono (off + zlen data) (i_size i)). lia.
    + rewrite (fw_no _ _ _ _ _ _ _ _ _ Hw). apply Hok.
  - rewrite Hown, Hown'. intros b Hb.
    destruct (decide (b ∈ own_blocks i w)) as [|Hni]; [by left|right].
    destruct (fw_own _ _ _ _ _ _ _ _ _ Hw b Hb) as [?|Hf]; [done|]. split; [done|]. intros Ha.
    by apply (fw_avoid _ _ _ _ _ _ _ _ _ Hw b); [apply place_high; right| |].
  - intros b Hb. rewrite Hown, Hown'. apply eq_true_iff_eq.
    rewrite orb_true_iff, andb_true_iff, !bool_decide_eq_true. split.
    + intros Hbit. destruct (decide (b ∈ own_blocks i' w')) as [|Hni]; [by left|right].
      destruct (fw_new _ _ _ _ _ _ _ _ _ Hw b ltac:(lia) Hbit) as [Hbw|]; [|done].
      split; [done|]. intros Hin. by apply Hni, (fw_sub _ _ _ _ _ _ _ _ _ Hw).
    + intros [Hin|[Hbit _]].
      * by apply (proj1 (Forall_forall _ _) (fw_marked _ _ _ _ _ _ _ _ _ Hw)).
      * apply (fw_bits _ _ _ _ _ _ _ _ _ Hw); [lia|done].
  - intros b Hb Hbit Hni. rewrite Hown in Hni. apply (fw_frame _ _ _ _ _ _ _ _ _ Hw); [lia| |].
    + intros Hin. destruct (fw_own _ _ _ _ _ _ _ _ _ Hw b Hin) as [?|Hf]; [done|congruence].
    + rewrite Hno. intros ->.
      destruct (consistent_number _ _ _ _ Hc Hn) as (_ & _ & _ & [?|?]); [lia|congruence].
  - unfold node_at, node. rewrite Hl'. simpl.
    by rewrite decide_False, Hmode, (fw_contents _ _ _ _ _ _ _ _ _ Hw).
Qed.

(** The blocks a write takes. *)
Lemma length_filter_out (l l' : list u32) :
  NoDup l → NoDup l' → (∀ b, b ∈ l → b ∈ l') → zlen (filter (λ b, b ∉ l) l') = zlen l' - zlen l.
Proof.
  intros Hl Hl' Hsub. assert (filter (λ b, b ∈ l) l' ≡ₚ l) as Hp%Permutation_length.
  { apply NoDup_Permutation; [by apply NoDup_filter|done|]. intros b. rewrite list_elem_of_filter.
    split; [tauto|auto]. }
  pose proof (filter_app_complement (λ b, b ∈ l) l') as Hq%Permutation_length.
  rewrite length_app in Hq. unfold zlen. lia.
Qed.

Lemma written_room sb w n i off data sb' i' w' :
  consistent None sb w → n ∈ inode_numbers → live None sb w n = Some i → ¬ is_dir i →
  file_written high_place sb i w off data sb' i' w' → 0 ≤ off → 0 < zlen data →
  spent one_block (grow_cost (i_block_count i) (blocks_for (off + zlen data))) None sb w None sb' w'.
Proof.
  intros Hc Hn Hl Hfile Hw Ho Hpos. destruct (consistent_live _ _ _ _ _ Hc Hn Hl) as (Hok & Hwf & _).
  destruct (change_written _ _ _ _ _ _ _ _ _ Hc Hn Hl Hfile Hw Ho Hpos) as [Hch Hnode].
  unfold node_ok in Hok. rewrite decide_False in Hok by done.
  pose proof (fo_layout _ _ _ (fn_ok _ _ _ Hok)) as Hlay.
  pose proof (fo_layout _ _ _ (fw_ok _ _ _ _ _ _ _ _ _ Hw)) as Hlay'.
  replace (grow_cost _ _) with (zlen (filter (λ b, b ∉ own_blocks i w) (own_blocks i' w'))).
  - apply (spent_change _ _ n); [exact Hch| |].
    + intros b Hb Hbit. destruct (decide (b ∈ own_blocks i w)) as [Hin|Hni].
      { left. apply (owned_range None sb w n b Hc Hn). unfold owned_at, owned. by rewrite Hl, decide_False. }
      destruct (fw_new _ _ _ _ _ _ _ _ _ Hw b Hb Hbit) as [?|?]; [by left|right].
      split; [by apply list_elem_of_filter|]. apply Z.nle_gt. intros Hge.
      apply (fw_avoid _ _ _ _ _ _ _ _ _ Hw b); [right; lia|done|done].
    + intros j Hj Hd. unfold node_at in Hnode. rewrite Hj in Hnode. injection Hnode as _ Hbody.
      by rewrite decide_True in Hbody.
  - pose proof (fl_nodup _ _ _ Hlay) as [_ Hnd]%NoDup_cons.
    pose proof (fl_nodup _ _ _ Hlay') as [_ Hnd']%NoDup_cons.
    rewrite length_filter_out by (done || apply (fw_sub _ _ _ _ _ _ _ _ _ Hw)).
    rewrite !zlen_own_blocks by (done || apply (fl_wf _ _ _ Hlay')).
    rewrite (fw_count _ _ _ _ _ _ _ _ _ Hw). unfold grow_cost.
    set (c := i_block_count i). set (r := blocks_for _).
    destruct (Z.leb_spec r c) as [Hle|Hlt].
    + rewrite Z.max_l by lia. lia.
    + rewrite Z.max_r by lia. destruct (Z.leb_spec c 10), (Z.ltb_spec 10 r), (Z.ltb_spec 10 c);
        simpl; lia.
Qed.

Lemma run_write_node sb w n d off data :
  consistent None sb w → file_data (abs None sb w) n = Some d →
  0 ≤ off → Forall is_u8 data → 0 < zlen data → blocks_for (off + zlen data) ≤ 20 →
  room (grow_cost (blocks_for (zlen d)) (blocks_for (off + zlen data))) w →
  ∃ sb' w', run (SimpleFS.write sb n off data) w = Done (Ok (zlen data), sb') w' ∧
    consistent None sb' w' ∧
    spent one_block (grow_cost (blocks_for (zlen d)) (blocks_for (off + zlen data))) None sb w None sb' w' ∧
    abs None sb' w' = alter (λ x, ANode (an_mode x) (AFile (written off data d))) n (abs None sb w).
Proof.
  intros Hc Hd Ho Hu Hpos Hmax Hroom.
  destruct (open_file _ _ _ _ _ Hc Hd) as (i & Hn & Hl & Hfile & Hf & -> & Hno & Hi & Hnu).
  destruct (raw_contents sb i w (fn_ok _ _ _ Hf)) as [Hz _].
  rewrite Hz, <-(fn_count _ _ _ Hf) in Hroom.
  assert (marked i w) as Hm.
  { apply Forall_forall. intros b Hb. apply (owned_range None sb w n b Hc Hn).
    unfold owned_at, owned. by rewrite Hl, decide_False. }
  destruct (run_write Hclock high_place sb n i w off data) as (sb' & i' & w' & Hrun & Hw).
  - apply Hf.
  - done.
  - apply Hc.
  - by rewrite Hnu.
  - by rewrite Hnu.
  - done.
  - done.
  - done.
  - unfold blocks_for in Hmax. dlia.
  - rewrite Hno. by apply place_high, (number_block sb n (consistent_table _ _ _ Hc)).
  - intros b Hb. eapply room_budget; [apply Hc|done|done].
  - destruct (change_written _ _ _ _ _ _ _ _ _ Hc Hn Hl Hfile Hw Ho Hpos) as [Hch Hnode].
    destruct (change_consistent _ _ _ _ _ _ _ Hn Hc Hch) as [Hc' Habs].
    exists sb', w'. split_and!; [done|done| |].
    { rewrite Hz, <-(fn_count _ _ _ Hf). by eapply written_room. }
    rewrite Habs, Hnode.
    rewrite <-(alter_node _ _ _ _ (abs_of _ _ _ _ _ Hn Hl)). done.
Qed.
End write.

(** ** [readdir] *)

(** The entries are added with consecutive offsets until the buffer is full. *)
Definition entry_type (e : DirEntry) : FileType :=
  if de_entry_type e =? 2 then Fs.Directory else RegularFile.
Fixpoint fill `{DirBuffer} (l : list found) (offset : i64) (buf : buffer) : buffer :=
  match l with
  | [] => buf
  | (e, _, _) :: l =>
      let '(full, buf) := add (de_inode e) (offset + 1) (entry_type e) (entry_name e) buf in
      if full : bool then buf else fill l (offset + 1) buf
  end.

Section readdir.
Context `{Clock} `{Build} `{DirBuffer}.
Implicit Types (sb : SuperBlock) (w : world) (p : u32) (l : list found) (k offset : Z).

Lemma run_readdir_loop l k offset buf w :
  (∀ s, s ∈ l → name_str (fst (fst s)) = Some (entry_name (fst (fst s))) ∧ is_u32 (de_inode (fst (fst s)))) →
  ∃ r, run (for_in l (k, buf) (λ '(entry, _, _) '(entry_offset, buf),
      if offset <=? entry_offset then
        let file_type := entry_type entry in
        s ← unwrap (name_str entry);
        let '(full, buf) := add (as_u64 (de_inode entry)) (entry_offset + 1) file_type s buf in
        if full : bool then mret (Break buf) else mret (Continue (entry_offset + 1, buf))
      else mret (Continue (entry_offset + 1, buf)))) w = Done r w ∧
    match r with Break b => b | Continue (_, b) => b end =
      fill (drop (Z.to_nat (offset - k)) l) (Z.max k offset) buf.
Proof.
  revert k buf. induction l as [|[[e b] off] l IH]; intros k buf Hl.
  - exists (Continue (k, buf)). split; [done|]. by rewrite drop_nil.
  - destruct (Hl (e, b, off) ltac:(set_solver)) as [Hname Hino]. cbn [fst] in Hname, Hino.
    assert (∀ s, s ∈ l → name_str (fst (fst s)) = Some (entry_name (fst (fst s))) ∧
      is_u32 (de_inode (fst (fst s)))) as Hl' by (intros s Hs; apply Hl; set_solver).
    cbn [for_in]. destruct (Z.leb_spec offset k) as [Hle|Hgt].
    + replace (Z.to_nat (offset - k)) with 0%nat by lia. rewrite drop_0, Z.max_l by lia.
      rewrite run_bind. run_step run_unwrap by exact Hname.
      rewrite as_u64_id by (unfold is_u32 in Hino; lia). cbn [fill].
      destruct (add (de_inode e) (k + 1) (entry_type e) (entry_name e) buf) as [[] buf'].
      * exists (Break buf'). done.
      * destruct (IH (k + 1) buf' Hl') as (r & Hr & Hf). exists r. split; [exact Hr|].
        rewrite Hf, Z.max_l by lia. by replace (Z.to_nat (offset - (k + 1))) with 0%nat by lia.
    + destruct (IH (k + 1) buf Hl') as (r & Hr & Hf). exists r. split; [exact Hr|]. rewrite Hf.
      replace (Z.to_nat (offset - k)) with (S (Z.to_nat (offset - (k + 1)))) by lia.
      rewrite !Z.max_r by lia. done.
Qed.

(** [readdir] of a directory *)
Lemma run_readdir sb w p dir offset buf :
  consistent None sb w → p ∈ inode_numbers → live None sb w p = Some dir → is_dir dir →
  run (SimpleFS.readdir sb p offset buf) w =
    Done (Ok (fill (drop (Z.to_nat offset) (dir_entries dir w)) (Z.max 0 offset) buf)) w.
Proof.
  intros Hc Hp Hl Hdir. destruct (run_read_live _ _ _ _ _ Hc Hp Hl) as [_ Hr].
  unfold SimpleFS.readdir. change (as_u16 S_IFDIR) with S_IFDIR. unfold is_dir in Hdir.
  pose proof (cs_node _ _ _ Hc p dir Hp Hl) as Hok. unfold node_ok in Hok. rewrite decide_True in Hok by done.
  pose proof (dk_readable _ _ _ (dn_ok _ _ _ Hok)) as Hread.
  run_step Hr. rewrite (proj2 (Z.eqb_neq _ _)) by done. run_step run_dir_lookup by exact Hread.
  destruct (run_readdir_loop (dir_entries dir w) 0 offset buf w) as (r & Hrun & Hf).
  { intros s [_ Hs]%list_elem_of_filter.
    pose proof (proj1 (Forall_forall _ _) (dr_names _ _ Hread) _ Hs) as Hlen.
    apply elem_of_dir_slots in Hs as (b & j & Hb & Hj & ->). simpl in Hlen |- *.
    destruct (disk_ok_block w b (dr_disk _ _ Hread)) as [Hz Hu].
    assert (entry_wf (entry_of (w_read w b) (j * 34))) as Hwf by (apply entry_of_wf; consts; (done || lia)).
    split; [by apply name_str_Some|apply Hwf]. }
  run_step Hrun. rewrite Z.sub_0_r in Hf. rewrite <-Hf. by destruct r as [[? ?]|].
Qed.

(** [readdir] of a file *)
Lemma run_readdir_file sb w p i offset buf :
  consistent None sb w → p ∈ inode_numbers → live None sb w p = Some i → ¬ is_dir i →
  run (SimpleFS.readdir sb p offset buf) w = Done (Err ENOTDIR) w.
Proof.
  intros Hc Hp Hl Hdir. destruct (run_read_live _ _ _ _ _ Hc Hp Hl) as [_ Hr].
  unfold SimpleFS.readdir. change (as_u16 S_IFDIR) with S_IFDIR. unfold is_dir in Hdir.
  run_step Hr. rewrite (proj2 (Z.eqb_eq _ _)); [done|].
  by destruct (decide (Z.land (i_mode i) S_IFDIR = 0)).
Qed.

Lemma live_entries sb w p dir :
  p ∈ inode_numbers → live None sb w p = Some dir → is_dir dir →
  entries (abs None sb w) p = Some (dir_map dir w).
Proof.
  intros Hp Hl Hdir. unfold entries. rewrite (abs_of _ _ _ _ _ Hp Hl). simpl. unfold node.
  by rewrite decide_True.
Qed.

(** What a listing says of an entry, and the buffer with the entries of a list. *)
Definition listed (s : found) : bytes * (u32 * FileType) :=
  (entry_name (fst (fst s)), (de_inode (fst (fst s)), entry_type (fst (fst s)))).
Fixpoint add_all (l : list (bytes * (u32 * FileType))) (offset : i64) (buf : buffer) : buffer :=
  match l with
  | [] => buf
  | (name, (c, t)) :: l =>
      let '(full, buf) := add c (offset + 1) t name buf in
      if full : bool then buf else add_all l (offset + 1) buf
  end.

Lemma fill_listed l offset buf : fill l offset buf = add_all (listed <$> l) offset buf.
Proof.
  revert offset buf. induction l as [|[[e b] off] l IH]; intros offset buf; [done|]. simpl.
  destruct (add _ _ _ _ _) as [[] ?]; [done|]. apply IH.
Qed.

Lemma dir_get_entry i w s :
  dir_unique i w → s ∈ dir_entries i w → dir_get i w (entry_name (fst (fst s))) = Some s.
Proof.
  intros Huniq Hs. pose proof Hs as [Hused Hslot]%list_elem_of_filter. rewrite dir_get_entries.
  destruct (head _) as [s'|] eqn:E.
  - rewrite <-dir_get_entries in E. apply dir_get_elem in E as (Hs' & Hu' & Heq). f_equal. by apply Huniq.
  - exfalso. apply head_None in E. apply (not_elem_of_nil s). rewrite <-E. by apply list_elem_of_filter.
Qed.

(** The type an entry records is that of the node it leads to. *)
Lemma entry_kind sb w p dir s :
  consistent None sb w → p ∈ inode_numbers → live None sb w p = Some dir → is_dir dir →
  s ∈ dir_entries dir w → is_Some (abs None sb w !! de_inode (fst (fst s))) →
  entry_type (fst (fst s)) = kind_of (abs None sb w) (de_inode (fst (fst s))).
Proof.
  intros Hc Hp Hl Hdir Hs [x Hx]. pose proof (cs_node _ _ _ Hc p dir Hp Hl) as Hok.
  unfold node_ok in Hok. rewrite decide_True in Hok by done.
  pose proof (dn_types _ _ _ Hok _ _ (dir_get_entry _ _ _ (dn_unique _ _ _ Hok) Hs)) as Hty.
  unfold typed_entry in Hty. unfold entry_type, kind_of. rewrite Hty.
  destruct (entries _ _) as [m|] eqn:E.
  - by rewrite (dir_number_of _ _ _ _ _ Hc E).
  - by rewrite (file_number_of _ _ _ _ _ Hc Hx E).
Qed.

(** The listing of a directory of the tree: its names, numbers and types, each once. *)
Lemma run_readdir_listing sb w p m offset buf :
  consistent None sb w → entries (abs None sb w) p = Some m →
  (∀ name c, m !! name = Some c → is_Some (abs None sb w !! c)) →
  ∃ l : list (bytes * (u32 * FileType)), l ≡ₚ map_to_list (listing (abs None sb w) m) ∧
    run (SimpleFS.readdir sb p offset buf) w =
      Done (Ok (add_all (drop (Z.to_nat offset) l) (Z.max 0 offset) buf)) w.
Proof.
  intros Hc Hp Hclosed. destruct (open_dir _ _ _ _ _ Hc Hp) as (dir & Hn & Hl & Hdir & Hdn & -> & _).
  exists (listed <$> dir_entries dir w). split.
  - pose proof (NoDup_dir_names _ _ _ Hdn) as Hnd. rewrite <-list_fmap_compose in Hnd.
    assert (listing (abs None sb w) (dir_map dir w) = list_to_map (listed <$> dir_entries dir w)) as ->;
      [|symmetry; apply map_to_list_to_map; by rewrite <-list_fmap_compose].
    unfold listing, dir_map. rewrite <-list_to_map_fmap. f_equal.
    rewrite <-list_fmap_compose. apply list_fmap_ext. intros k s Hs%list_elem_of_lookup_2. unfold listed. simpl.
    do 2 f_equal. symmetry. apply (entry_kind sb w p dir); [done..|].
    apply (Hclosed (entry_name (fst (fst s)))). by rewrite dir_map_get, dir_get_entry by (done || apply Hdn).
  - rewrite (run_readdir sb w p dir) by done. by rewrite fill_listed, fmap_drop.
Qed.

(** [open] *)
Lemma run_open sb w n i uid gid flags :
  consistent None sb w → n ∈ inode_numbers → live None sb w n = Some i →
  run (SimpleFS.open sb uid gid n flags) w =
    Done (if (Z.testbit flags 0 || Z.testbit flags 1) &&
             negb (Z.testbit (i_mode i) 1 || Z.testbit (i_mode i) 4 || Z.testbit (i_mode i) 7)
          then Err EACCES else Ok n) w.
Proof.
  intros Hc Hn Hl. destruct (run_read_live _ _ _ _ _ Hc Hn Hl) as [_ Hr].
  unfold SimpleFS.open. run_step Hr. cbv zeta.
  assert (∀ k, 0 ≤ k → negb (Z.land flags (2 ^ k) =? 0) = Z.testbit flags k) as Hbit.
  { intros k Hk. pose proof (land_pow2_zero flags k Hk) as Hz.
    destruct (Z.eqb_spec (Z.land flags (2 ^ k)) 0), (Z.testbit flags k); simpl; naive_solver. }
  change O_WRONLY with (2 ^ 0). change O_RDWR with (2 ^ 1). rewrite !Hbit by lia.
  assert (check_permission i true uid gid =
    Z.testbit (i_mode i) 1 || Z.testbit (i_mode i) 4 || Z.testbit (i_mode i) 7) as ->.
  { unfold check_permission. rewrite <-(mask_bits (i_mode i) 1 4 7) by lia.
    by rewrite <-Z.land_assoc. }
  by destruct (_ && _).
Qed.

(** C30: [readdir] of a directory adds its used entries, in the order of the disk, from the
    one with number [offset] on, each with the number after it as its offset and with
    its type, until the buffer is full; the entries are those of the tree, each once, and
    nothing changes.  [readdir] of a file replies [ENOTDIR]. *)
Theorem readdir_lists sb w p dir offset buf :
  consistent None sb w → p ∈ inode_numbers → live None sb w p = Some dir →
  (is_dir dir →
     run (SimpleFS.readdir sb p offset buf) w =
       Done (Ok (fill (drop (Z.to_nat offset) (dir_entries dir w)) (Z.max 0 offset) buf)) w ∧
     entries (abs None sb w) p = Some (dir_map dir w) ∧
     base.size (dir_map dir w) = length (dir_entries dir w)) ∧
  (¬ is_dir dir → run (SimpleFS.readdir sb p offset buf) w = Done (Err ENOTDIR) w).
Proof.
  intros Hc Hp Hl. split; [|by apply run_readdir_file]. intros Hdir.
  split_and!; [by apply run_readdir|by apply live_entries|].
  pose proof (cs_node _ _ _ Hc p dir Hp Hl) as Hok. unfold node_ok in Hok. rewrite decide_True in Hok by done.
  by eapply size_dir_map.
Qed.

(** C40: [open] refuses exactly an opening for writing of a node that nobody may write,
    whoever asks; otherwise the handle is the inode number, and nothing changes. *)
Theorem open_checks_write sb w n i uid gid flags :
  consistent None sb w → n ∈ inode_numbers → live None sb w n = Some i →
  run (SimpleFS.open sb uid gid n flags) w =
    Done (if (Z.testbit flags 0 || Z.testbit flags 1) &&
             negb (Z.testbit (i_mode i) 1 || Z.testbit (i_mode i) 4 || Z.testbit (i_mode i) 7)
          then Err EACCES else Ok n) w.
Proof. apply run_open. Qed.
End readdir.

(** ** Witnesses *)
#[local] Instance zero_clock : Clock := λ _, 0.
#[local] Instance checked_build : Build := true.

(** A buffer without an end. *)
#[local] Instance list_buffer : DirBuffer :=
  {| buffer := list (u64 * i64 * FileType * bytes);
     empty_buffer _ := [];
     add := λ ino off ty name l, (false, l ++ [(ino, off, ty, name)]) |}.

Definition no_entries : buffer := [].

Lemma fresh_root :
  ∃ sb w i, run SimpleFS.mount empty_image = Done sb w ∧ consistent None sb w ∧
    1 ∈ inode_numbers ∧ live None sb w 1 = Some i.
Proof.
  destruct fresh_mount as (sb & w & Hrun & [Hc _] & Habs & _).
  assert (abs None sb w !! 1 = Some (ANode 16877 (ADir (new_entries 1 1)))) as Hx by (by rewrite Habs).
  destruct (abs_live _ _ _ _ _ Hx) as (Hn & i & Hl & _). eauto 10.
Qed.

Lemma readdir_lists_witness :
  ∃ sb w dir, run SimpleFS.mount empty_image = Done sb w ∧
    ((is_dir dir →
       run (SimpleFS.readdir sb 1 1 no_entries) w =
         Done (Ok (fill (drop (Z.to_nat 1) (dir_entries dir w)) (Z.max 0 1) no_entries)) w ∧
       entries (abs None sb w) 1 = Some (dir_map dir w) ∧
       base.size (dir_map dir w) = length (dir_entries dir w)) ∧
    (¬ is_dir dir → run (SimpleFS.readdir sb 1 1 no_entries) w = Done (Err ENOTDIR) w)).
Proof.
  destruct fresh_root as (sb & w & i & Hrun & Hc & Hn & Hl). exists sb, w, i. split; [exact Hrun|].
  apply (readdir_lists sb w 1 i 1 no_entries Hc Hn Hl).
Defined.

Lemma open_checks_write_witness :
  ∃ sb w i, run SimpleFS.mount empty_image = Done sb w ∧
    run (SimpleFS.open sb 1000 1000 1 2) w =
      Done (if (Z.testbit 2 0 || Z.testbit 2 1) &&
               negb (Z.testbit (i_mode i) 1 || Z.testbit (i_mode i) 4 || Z.testbit (i_mode i) 7)
            then Err EACCES else Ok 1) w.
Proof.
  destruct fresh_root as (sb & w & i & Hrun & Hc & Hn & Hl). exists sb, w, i. split; [exact Hrun|].
  apply (open_checks_write sb w 1 i 1000 1000 2 Hc Hn Hl).
Defined.
