(* ===== verification/Refinement.v ===== *)
(** * Refinement: the handlers of [src/fs.rs] implement the tree of [Spec]

    An operation of the kernel is a handler with its arguments ([op]); [exec] runs it,
    [spec] is what it does to the tree.  [kernel] is what the kernel guarantees of a
    request as long as no open file is removed, [within] are the limits of the program,
    [ready] is both; [room] says that enough blocks are free before the inodes that lie in the data area.  Under these every
    operation ends normally, answers what [spec] says and keeps the file system
    consistent.  [Sessions] composes them. *)
From S2P Require Import Prelude Disk Superblock Bitmap Inode Directory Fs File Format Spec.
From S2P Require Import Consistency Room Namespace Mount Nodes.

(** ** Refusals: the handlers find that they cannot do it, and do nothing *)
Section refuse.
Context `{Clock} `{Build}.
Implicit Types (sb : SuperBlock) (w : world) (p n c : u32) (name : bytes) (m : gmap bytes u32).

Lemma run_create_exists sb w p name m :
  consistent None sb w → entries (abs None sb w) p = Some m → is_Some (m !! name) →
  run (SimpleFS.create sb p name) w = Done (Err EEXIST, sb) w.
Proof.
  intros Hc Hp [c Hm].
  destruct (open_dir _ _ _ _ _ Hc Hp) as (dir & _ & _ & _ & _ & -> & Hread & Hfind).
  apply dir_map_Some in Hm as (e & b & off & Hget & _).
  unfold SimpleFS.create. rewrite to_str_utf8 by (by eapply dir_get_utf8). cbv zeta. run_step Hread. run_step Hfind.
  by rewrite Hget, bool_decide_true.
Qed.

Lemma run_mkdir_exists sb w p name m :
  consistent None sb w → entries (abs None sb w) p = Some m → is_Some (m !! name) →
  run (SimpleFS.mkdir sb p name) w = Done (Err EEXIST, sb) w.
Proof.
  intros Hc Hp [c Hm].
  destruct (open_dir _ _ _ _ _ Hc Hp) as (dir & _ & _ & _ & _ & -> & Hread & Hfind).
  apply dir_map_Some in Hm as (e & b & off & Hget & _).
  unfold SimpleFS.mkdir. rewrite to_str_utf8 by (by eapply dir_get_utf8). cbv zeta. run_step Hread. run_step Hfind.
  by rewrite Hget, bool_decide_true.
Qed.

Lemma run_create_full sb w p name m :
  consistent None sb w → entries (abs None sb w) p = Some m → m !! name = None → good_name name →
  first_unused (abs None sb w) 1000 2000 = None →
  run (SimpleFS.create sb p name) w = Done (Err ENOSPC, sb) w.
Proof.
  intros Hc Hp Hm Hgood Hfull.
  destruct (open_dir _ _ _ _ _ Hc Hp) as (dir & _ & _ & _ & _ & -> & Hread & Hfind).
  apply dir_map_None in Hm.
  unfold SimpleFS.create. rewrite to_str_good by done. cbv zeta. run_step Hread. run_step Hfind.
  rewrite Hm, bool_decide_false by (by intros [? [=]]).
  run_step run_find_free_inode by
    (first [exact Hc|lia|intros k Hk; split; [apply elem_of_inode_numbers; lia|done]]).
  by rewrite Hfull.
Qed.

Lemma run_mkdir_full sb w p name m :
  consistent None sb w → entries (abs None sb w) p = Some m → m !! name = None → good_name name →
  first_unused (abs None sb w) 500 900 = None →
  run (SimpleFS.mkdir sb p name) w = Done (Err ENOSPC, sb) w.
Proof.
  intros Hc Hp Hm Hgood Hfull.
  destruct (open_dir _ _ _ _ _ Hc Hp) as (dir & _ & _ & _ & _ & -> & Hread & Hfind).
  apply dir_map_None in Hm.
  unfold SimpleFS.mkdir. rewrite to_str_good by done. cbv zeta. run_step Hread. run_step Hfind.
  rewrite Hm, bool_decide_false by (by intros [? [=]]).
  run_step run_find_free_inode by
    (first [exact Hc|lia|intros k Hk; split; [apply elem_of_inode_numbers; lia|done]]).
  by rewrite Hfull.
Qed.

Lemma run_unlink_absent sb w p name m :
  consistent None sb w → entries (abs None sb w) p = Some m → m !! name = None →
  run (SimpleFS.unlink sb p name) w = Done (Err ENOENT, sb) w ∧
  run (SimpleFS.rmdir sb p name) w = Done (Err ENOENT, sb) w.
Proof.
  intros Hc Hp Hm.
  destruct (open_dir _ _ _ _ _ Hc Hp) as (dir & _ & _ & _ & Hdn & -> & Hread & Hfind).
  apply dir_map_None in Hm. unfold SimpleFS.unlink, SimpleFS.rmdir. cbv zeta.
  split; run_step Hread; run_step Hfind; by rewrite (dir_get_lossy sb), Hm by done.
Qed.

Lemma run_unlink_dir sb w p name m c mc :
  consistent None sb w → entries (abs None sb w) p = Some m → m !! name = Some c →
  entries (abs None sb w) c = Some mc →
  run (SimpleFS.unlink sb p name) w = Done (Err EISDIR, sb) w ∧
  ((2 < base.size mc)%nat → run (SimpleFS.rmdir sb p name) w = Done (Err ENOTEMPTY, sb) w).
Proof.
  intros Hc Hp Hm Hce.
  destruct (open_dir _ _ _ _ _ Hc Hp) as (dir & _ & _ & _ & _ & -> & Hread & Hfind).
  destruct (open_dir _ _ _ _ _ Hc Hce) as (i & Hcn & Hli & Hdi & Hidn & Hmapc & _ & _).
  apply dir_map_Some in Hm as (e & b & off & Hget & He).
  destruct (run_read_live _ _ _ _ _ Hc Hcn Hli) as [Hreadc _].
  unfold SimpleFS.unlink, SimpleFS.rmdir. rewrite to_str_utf8 by (by eapply dir_get_utf8). cbv zeta.
  assert (Z.land (i_mode i) (as_u16 S_IFDIR) =? 0 = false) as Hkind by (by apply Z.eqb_neq).
  split; [|intros Hsize]; run_step Hread; run_step Hfind; rewrite Hget, He; run_step Hreadc;
    rewrite Hkind; [done|].
  run_step run_dir_lookup by apply Hidn.
  rewrite Hmapc, (size_dir_map sb) in Hsize by done.
  assert (2 <? zlen (dir_entries i w) = true) as ->; [|done].
  apply Z.ltb_lt. unfold zlen. lia.
Qed.

Lemma run_rmdir_file sb w p name m c x :
  consistent None sb w → entries (abs None sb w) p = Some m → m !! name = Some c →
  abs None sb w !! c = Some x → entries (abs None sb w) c = None →
  run (SimpleFS.rmdir sb p name) w = Done (Err ENOTDIR, sb) w.
Proof.
  intros Hc Hp Hm Hx Hfile.
  destruct (open_dir _ _ _ _ _ Hc Hp) as (dir & _ & _ & _ & _ & -> & Hread & Hfind).
  apply dir_map_Some in Hm as (e & b & off & Hget & He).
  destruct (abs_live _ _ _ _ _ Hx) as (Hcn & i & Hli & Hxi).
  destruct (run_read_live _ _ _ _ _ Hc Hcn Hli) as [Hreadc _].
  unfold SimpleFS.rmdir. rewrite to_str_utf8 by (by eapply dir_get_utf8). cbv zeta.
  run_step Hread. run_step Hfind. rewrite Hget, He. run_step Hreadc.
  assert (Z.land (i_mode i) (as_u16 S_IFDIR) =? 0 = true) as ->; [|done].
  change (as_u16 S_IFDIR) with S_IFDIR. apply Z.eqb_eq.
  destruct (decide (Z.land (i_mode i) S_IFDIR = 0)) as [|Hd]; [done|]. exfalso.
  unfold entries in Hfile. rewrite Hx, Hxi in Hfile. unfold node in Hfile. cbn in Hfile.
  by rewrite decide_True in Hfile.
Qed.
End refuse.

(** ** Operations *)
Inductive op : Type :=
| OpLookup (parent : u32) (name : bytes)
| OpGetattr (ino : u32)
| OpSetattr (ino : u32) (mode uid gid : option u32) (size : option u64)
| OpRead (ino : u32) (offset : Z) (size : u32)
| OpWrite (ino : u32) (offset : Z) (data : bytes)
| OpCreate (parent : u32) (name : bytes)
| OpMkdir (parent : u32) (name : bytes)
| OpUnlink (parent : u32) (name : bytes)
| OpRmdir (parent : u32) (name : bytes)
| OpReaddir (ino : u32) (offset : i64) (size : u32)
| OpOpen (ino : u32) (uid gid : u32) (flags : i32).

(** What a handler replies. *)
Inductive answer `{DirBuffer} : Type :=
| Attr (a : FileAttr)
| Data (d : bytes)
| Count (k : Z)
| Nothing
| Listing (b : buffer)
| Handle (h : u64)
| Error (e : errno).

(** What the specification promises of a reply: for attributes the number and the node
    they have to describe, for a listing the entries it has to give, from which offset
    and in a buffer of which size. *)
Inductive promise : Type :=
| PNode (n : u32) (x : anode)
| PData (d : bytes)
| PCount (k : Z)
| PNothing
| PListing (m : gmap bytes (u32 * FileType)) (offset : i64) (size : u32)
| PHandle (h : u64)
| PError (e : errno).

(** A listing gives the names, numbers and types of the directory in an order that is left
    open, from the offset on and as far as the buffer goes. *)
Definition answers `{DirBuffer} (a : answer) (p : promise) : Prop :=
  match a, p with
  | Attr a, PNode n x => attr_matches n x a
  | Data d, PData d' => d = d'
  | Count k, PCount k' => k = k'
  | Nothing, PNothing => True
  | Listing b, PListing m off k => ∃ l : list (bytes * (u32 * FileType)),
      l ≡ₚ map_to_list m ∧
      b = add_all (drop (Z.to_nat off) l) (Z.max 0 off) (empty_buffer k)
  | Handle h, PHandle h' => h = h'
  | Error e, PError e' => e = e'
  | _, _ => False
  end.

Definition reply_of `{DirBuffer} {A} (f : A → answer) (r : result A errno) : answer :=
  match r with Ok x => f x | Err e => Error e end.

Definition exec `{Build} `{DirBuffer} (o : op) (sb : SuperBlock) : prog (answer * SuperBlock) :=
  match o with
  | OpLookup p name => r ← SimpleFS.lookup sb p name; mret (reply_of Attr r, sb)
  | OpGetattr n => r ← SimpleFS.getattr sb n; mret (reply_of Attr r, sb)
  | OpSetattr n mode uid gid size =>
      r ← SimpleFS.setattr sb n mode uid gid size; mret (reply_of Attr r, sb)
  | OpRead n off k => r ← SimpleFS.read sb n off k; mret (reply_of Data r, sb)
  | OpWrite n off data => '(r, sb) ← SimpleFS.write sb n off data; mret (reply_of Count r, sb)
  | OpCreate p name => '(r, sb) ← SimpleFS.create sb p name; mret (reply_of (Attr ∘ fst) r, sb)
  | OpMkdir p name => '(r, sb) ← SimpleFS.mkdir sb p name; mret (reply_of Attr r, sb)
  | OpUnlink p name => '(r, sb) ← SimpleFS.unlink sb p name; mret (reply_of (λ _, Nothing) r, sb)
  | OpRmdir p name => '(r, sb) ← SimpleFS.rmdir sb p name; mret (reply_of (λ _, Nothing) r, sb)
  | OpReaddir n off k => r ← SimpleFS.readdir sb n off (empty_buffer k); mret (reply_of Listing r, sb)
  | OpOpen n uid gid flags => r ← SimpleFS.open sb uid gid n flags; mret (reply_of Handle r, sb)
  end.

Definition promise_of {A} (f : A → promise) (r : result A errno) : promise :=
  match r with Ok x => f x | Err e => PError e end.

(** The node [n] of a tree. *)
Definition node_of (A : gmap u32 anode) (n : u32) : promise :=
  match A !! n with Some x => PNode n x | None => PError ENOENT end.

Definition spec (o : op) (A : gmap u32 anode) : promise * gmap u32 anode :=
  match o with
  | OpLookup p name =>
      (match child A p name with Some c => node_of A c | None => PError ENOENT end, A)
  | OpGetattr n => (node_of A n, A)
  | OpSetattr n mode _ _ _ => (node_of (spec_setattr A n mode) n, spec_setattr A n mode)
  | OpRead n off k => (PData (spec_read A n off k), A)
  | OpWrite n off data => let '(r, A') := spec_write A n off data in (promise_of PCount r, A')
  | OpCreate p name => let '(r, A') := spec_create A p name in (promise_of (node_of A') r, A')
  | OpMkdir p name => let '(r, A') := spec_mkdir A p name in (promise_of (node_of A') r, A')
  | OpUnlink p name => let '(r, A') := spec_unlink A p name in (promise_of (λ _, PNothing) r, A')
  | OpRmdir p name => let '(r, A') := spec_rmdir A p name in (promise_of (λ _, PNothing) r, A')
  | OpReaddir n off k =>
      (match entries A n with Some m => PListing (listing A m) off k | None => PError ENOTDIR end, A)
  | OpOpen n _ _ flags => (promise_of PHandle (spec_open A n flags), A)
  end.

(** What the kernel guarantees of a request, as long as no file is removed that is still
    open: the inode is one of the tree, parents are directories, what is read and written
    is a file, names are not empty, and not "." or ".." where an entry is made or removed. *)
Definition kernel (A : gmap u32 anode) (o : op) : Prop :=
  match o with
  | OpLookup p _ => is_Some (entries A p)
  | OpGetattr n => n ∈ inode_numbers
  | OpSetattr n _ _ _ _ | OpReaddir n _ _ | OpOpen n _ _ _ => is_Some (A !! n)
  | OpRead n off k => is_Some (file_data A n) ∧ 0 ≤ off ∧ 0 ≤ k
  | OpWrite n off data => is_Some (file_data A n) ∧ 0 ≤ off ∧ Forall is_u8 data
  | OpCreate p name | OpMkdir p name =>
      is_Some (entries A p) ∧ proper name ∧ name ≠ [] ∧ Forall is_u8 name
  | OpUnlink p name | OpRmdir p name => is_Some (entries A p) ∧ proper name
  end.

(** The limits within which the program does what the specification says.  The kernel
    does not keep them: a new name has at most 28 bytes, which are UTF-8, and goes into a
    directory of fewer than 150 entries; a write ends before its blocks exceed 32 bits. *)
Definition within (A : gmap u32 anode) (o : op) : Prop :=
  match o with
  | OpCreate p name | OpMkdir p name =>
      child A p name = None →
      zlen name ≤ 28 ∧ utf8_valid name = true ∧ (base.size (default ∅ (entries A p)) < 150)%nat
  | OpWrite _ off data => off + zlen data ≤ 510 * 4294967295
  | _ => True
  end.

Definition ready (A : gmap u32 anode) (o : op) : Prop := kernel A o ∧ within A o.

#[export] Instance ready_dec A o : Decision (ready A o).
Proof. unfold ready, kernel, within, proper. destruct o; apply _. Defined.

(** A name that is made. *)
Lemma ready_new A p name m o :
  o = OpCreate p name ∨ o = OpMkdir p name → ready A o → entries A p = Some m → m !! name = None →
  good_name name ∧ (base.size m < 150)%nat.
Proof.
  intros Ho [Hk Hw] Hp Hm. assert (child A p name = None) as Hc by (by rewrite (child_entries _ _ _ _ Hp)).
  destruct Ho as [-> | ->]; destruct Hk as (_ & _ & Hn & Hu), (Hw Hc) as (Hl & Hv & Hs);
    rewrite Hp in Hs; by split_and!.
Qed.

(** The number of blocks an operation takes at most. *)
Definition cost (A : gmap u32 anode) (o : op) : Z :=
  match o with
  | OpCreate _ _ => 1
  | OpMkdir _ _ => 2
  | OpWrite n off data =>
      grow_cost (blocks_for (zlen (default [] (file_data A n)))) (blocks_for (off + zlen data))
  | _ => 0
  end.

Lemma cost_nonneg A o : 0 ≤ cost A o.
Proof. destruct o; simpl; try lia. apply grow_cost_nonneg. Qed.

(** ** The operations of the specification keep the tree *)
Section spec_tree.
Implicit Types (A : gmap u32 anode) (o : op).

Lemma spec_create_tree A p name m :
  tree A → entries A p = Some m → proper name → tree (snd (spec_create A p name)).
Proof.
  intros Ht Hp Hproper. unfold spec_create. rewrite Hp. simpl.
  destruct (m !! name) eqn:Hm; [done|]. destruct (first_unused A 1000 2000) as [n|] eqn:Hn; [|done].
  apply first_unused_Some in Hn as [_ Hn]. simpl. by apply attach_tree.
Qed.

Lemma spec_mkdir_tree A p name m :
  tree A → entries A p = Some m → proper name → tree (snd (spec_mkdir A p name)).
Proof.
  intros Ht Hp Hproper. unfold spec_mkdir. rewrite Hp. simpl.
  destruct (m !! name) eqn:Hm; [done|]. destruct (first_unused A 500 900) as [n|] eqn:Hn; [|done].
  apply first_unused_Some in Hn as [_ Hn]. simpl. apply attach_tree; try done. by intros m' [= <-].
Qed.

Lemma spec_unlink_tree A p name :
  tree A → proper name → tree (snd (spec_unlink A p name)).
Proof.
  intros Ht Hproper. unfold spec_unlink. destruct (child A p name) as [c|] eqn:Hc; [|done].
  destruct (entries A c) eqn:He; [done|]. simpl. apply detach_tree; try done. by rewrite He.
Qed.

Lemma spec_rmdir_tree A p name :
  tree A → proper name → tree (snd (spec_rmdir A p name)).
Proof.
  intros Ht Hproper. unfold spec_rmdir. destruct (child A p name) as [c|] eqn:Hc; [|done].
  destruct (entries A c) as [m|] eqn:He; [|done]. destruct (Z.ltb_spec 2 (Z.of_nat (base.size m))); [done|].
  simpl. apply detach_tree; try done. rewrite He. intros m' [= <-]. lia.
Qed.

Lemma spec_tree A o : tree A → ready A o → tree (snd (spec o A)).
Proof.
  intros Ht. destruct o as [| |n mode| |n off data|p name|p name|p name|p name| |]; unfold ready; simpl; try done.
  - intros _. apply (tree_ext A); [done| |intros q; apply alter_Some].
    intros q. apply entries_alter_ext. intros x _. simpl. by destruct (an_body x).
  - intros (([d Hd] & _) & _). unfold spec_write. destruct (zlen data =? 0); [done|].
    destruct (20 <? _); [done|]. apply (tree_ext A); [done| |intros q; apply alter_Some].
    intros q. apply entries_alter_ext. intros x Hx. simpl.
    unfold file_data in Hd. rewrite Hx in Hd. simpl in Hd. by destruct (an_body x).
  - intros (([m Hm] & Hpr & _) & _). pose proof (spec_create_tree A p name m Ht Hm Hpr).
    by destruct (spec_create A p name).
  - intros (([m Hm] & Hpr & _) & _). pose proof (spec_mkdir_tree A p name m Ht Hm Hpr).
    by destruct (spec_mkdir A p name).
  - intros ((_ & Hpr) & _). pose proof (spec_unlink_tree A p name Ht Hpr). by destruct (spec_unlink A p name).
  - intros ((_ & Hpr) & _). pose proof (spec_rmdir_tree A p name Ht Hpr). by destruct (spec_rmdir A p name).
Qed.
End spec_tree.

(** ** Every handler implements its operation *)
Section refine.
Context `{Clock} `{Build} `{DirBuffer} (Hclock : clock_ok).
Implicit Types (sb : SuperBlock) (w : world) (n p c : u32) (name : bytes) (m : gmap bytes u32).

(** The handler [h] answers what the specification [r] promises, leaves the tree of the
    specification, and takes at most [k] blocks. *)
Definition implements (k : Z) (h : prog (answer * SuperBlock)) (sb : SuperBlock) (w : world)
    (r : promise * gmap u32 anode) : Prop :=
  ∃ a sb' w', run h w = Done (a, sb') w' ∧ consistent None sb' w' ∧
    answers a (fst r) ∧ abs None sb' w' = snd r ∧ spent as_needed k None sb w None sb' w'.

Lemma implements_intro {A} k (h : prog (A * SuperBlock)) (f : A → answer) sb w r x sb' w' :
  run h w = Done (x, sb') w' → consistent None sb' w' → answers (f x) (fst r) →
  abs None sb' w' = snd r → spent as_needed k None sb w None sb' w' →
  implements k ('(x, sb) ← h; mret (f x, sb)) sb w r.
Proof.
  intros Hrun Hc Ha Habs Hk. exists (f x), sb', w'. split_and!; [|done..]. by run_step Hrun.
Qed.

(** A refusal changes nothing. *)
Lemma implements_refuse {A} k (h : prog (A * SuperBlock)) (f : A → answer) sb w (p : promise) x :
  run h w = Done (x, sb) w → consistent None sb w → answers (f x) p → 0 ≤ k →
  implements k ('(x, sb) ← h; mret (f x, sb)) sb w (p, abs None sb w).
Proof.
  intros Hrun Hc Ha Hk. eapply implements_intro; [exact Hrun|done|done|done|]. by apply spent_refl.
Qed.

Lemma implements_keep {A} (h : prog A) (f : A → answer) sb w (p : promise) x :
  run h w = Done x w → consistent None sb w → answers (f x) p →
  implements 0 (x ← h; mret (f x, sb)) sb w (p, abs None sb w).
Proof.
  intros Hrun Hc Ha. exists (f x), sb, w. split_and!; [by run_step Hrun|done|done|done|].
  by apply spent_refl.
Qed.

(** The attributes of a live node describe its node in the tree. *)
Lemma answers_attr sb w n a :
  consistent None sb w → n ∈ inode_numbers → attr_of None sb w n = Some a →
  answers (Attr a) (node_of (abs None sb w) n).
Proof.
  intros Hc Hn Ha. unfold attr_of in Ha. destruct (live None sb w n) as [i|] eqn:Hl; [|done].
  injection Ha as <-. unfold node_of. rewrite (abs_of _ _ _ _ _ Hn Hl). by eapply attr_node.
Qed.

Lemma answers_getattr sb w n :
  consistent None sb w → n ∈ inode_numbers →
  answers (reply_of Attr match attr_of None sb w n with Some a => Ok a | None => Err ENOENT end)
    (node_of (abs None sb w) n).
Proof.
  intros Hc Hn. destruct (attr_of None sb w n) as [a|] eqn:Ha; [by apply answers_attr|].
  unfold node_of. rewrite abs_lookup, decide_True by done. unfold node_at. unfold attr_of in Ha.
  by destruct (live None sb w n).
Qed.

Lemma create_implements sb w p name m :
  consistent None sb w → entries (abs None sb w) p = Some m →
  ready (abs None sb w) (OpCreate p name) → room 1 w →
  implements 1 (exec (OpCreate p name) sb) sb w (spec (OpCreate p name) (abs None sb w)).
Proof.
  intros Hc Hp Hready Hroom. cbn [exec spec]. unfold spec_create. rewrite Hp. simpl default.
  destruct (m !! name) as [c|] eqn:Hm; [|destruct (ready_new _ p name m _ ltac:(left; reflexivity) Hready Hp Hm) as [Hgood Hsize]].
  - by eapply implements_refuse; [eapply run_create_exists|..].
  - destruct (first_unused (abs None sb w) 1000 2000) as [n|] eqn:Hn.
    + destruct (run_create Hclock sb w p name m n) as (a & sb' & w' & Hrun & Hc' & Hleft & Ha & Habs); [done..|].
      eapply implements_intro; [exact Hrun|exact Hc'| |exact Habs|exact Hleft]. simpl. rewrite <-Habs.
      apply answers_attr; [done| |done]. apply first_unused_Some in Hn as [? _].
      apply elem_of_inode_numbers. lia.
    + by eapply implements_refuse; [eapply run_create_full|..].
Qed.

Lemma mkdir_implements sb w p name m :
  consistent None sb w → entries (abs None sb w) p = Some m →
  ready (abs None sb w) (OpMkdir p name) → room 2 w →
  implements 2 (exec (OpMkdir p name) sb) sb w (spec (OpMkdir p name) (abs None sb w)).
Proof.
  intros Hc Hp Hready Hroom. cbn [exec spec]. unfold spec_mkdir. rewrite Hp. simpl default.
  destruct (m !! name) as [c|] eqn:Hm; [|destruct (ready_new _ p name m _ ltac:(right; reflexivity) Hready Hp Hm) as [Hgood Hsize]].
  - by eapply implements_refuse; [eapply run_mkdir_exists|..].
  - destruct (first_unused (abs None sb w) 500 900) as [n|] eqn:Hn.
    + destruct (run_mkdir Hclock sb w p name m n) as (a & sb' & w' & Hrun & Hc' & Hleft & Ha & Habs); [done..|].
      eapply implements_intro; [exact Hrun|exact Hc'| |exact Habs|exact Hleft]. simpl. rewrite <-Habs.
      apply answers_attr; [done| |done]. apply first_unused_Some in Hn as [? _].
      apply elem_of_inode_numbers. lia.
    + by eapply implements_refuse; [eapply run_mkdir_full|..].
Qed.

Lemma unlink_implements sb w p name m :
  consistent None sb w → tree (abs None sb w) → entries (abs None sb w) p = Some m →
  implements 0 (exec (OpUnlink p name) sb) sb w (spec (OpUnlink p name) (abs None sb w)).
Proof.
  intros Hc Ht Hp. cbn [exec spec]. unfold spec_unlink.
  rewrite (child_entries _ _ _ _ Hp). destruct (m !! name) as [c|] eqn:Hm.
  - destruct (entries (abs None sb w) c) as [mc|] eqn:He.
    + by eapply implements_refuse; [eapply run_unlink_dir|..].
    + destruct (run_unlink Hclock sb w p name m c) as (sb' & w' & Hrun & Hc' & Hleft & Habs); [done..| |done|].
      * apply (tr_closed _ Ht p name). by rewrite (child_entries _ _ _ _ Hp).
      * eapply implements_intro; [done..|by apply spent_needed].
  - by eapply implements_refuse; [eapply run_unlink_absent|..].
Qed.

Lemma rmdir_implements sb w p name m :
  consistent None sb w → tree (abs None sb w) → entries (abs None sb w) p = Some m →
  proper name →
  implements 0 (exec (OpRmdir p name) sb) sb w (spec (OpRmdir p name) (abs None sb w)).
Proof.
  intros Hc Ht Hp Hproper. cbn [exec spec]. unfold spec_rmdir.
  rewrite (child_entries _ _ _ _ Hp). destruct (m !! name) as [c|] eqn:Hm.
  - assert (child (abs None sb w) p name = Some c) as Hch by (by rewrite (child_entries _ _ _ _ Hp)).
    destruct (tr_closed _ Ht _ _ _ Hch) as [x Hx].
    destruct (entries (abs None sb w) c) as [mc|] eqn:He.
    + destruct (Z.ltb_spec 2 (Z.of_nat (base.size mc))) as [Hlt|Hge].
      * eapply implements_refuse; [eapply run_unlink_dir; try done; lia|..]; done.
      * assert (∀ m', entries (abs None sb w) c = Some m' → (base.size m' ≤ 2)%nat) as Hleaf
          by (rewrite He; intros m' [= <-]; lia).
        destruct (detach_ne _ _ _ _ Ht Hch Hproper Hleaf) as [Hpc _].
        destruct (run_rmdir Hclock sb w p name m c mc) as (sb' & w' & Hrun & Hc' & Hleft & Habs); try done; [lia|].
        eapply implements_intro; [done..|by apply spent_needed].
    + by eapply implements_refuse; [eapply run_rmdir_file|..].
  - by eapply implements_refuse; [eapply run_unlink_absent|..].
Qed.

Lemma write_implements sb w n off data d :
  consistent None sb w → file_data (abs None sb w) n = Some d → 0 ≤ off → Forall is_u8 data →
  off + zlen data ≤ 510 * 4294967295 → room (cost (abs None sb w) (OpWrite n off data)) w →
  implements (cost (abs None sb w) (OpWrite n off data)) (exec (OpWrite n off data) sb) sb w (spec (OpWrite n off data) (abs None sb w)).
Proof.
  intros Hc Hd Ho Hu Hmax Hroom. cbn [exec spec cost] in *. unfold spec_write. rewrite Hd in Hroom.
  destruct (open_file _ _ _ _ _ Hc Hd) as (i & Hn & Hl & _ & _ & _ & _ & _ & _).
  destruct (run_read_live _ _ _ _ _ Hc Hn Hl) as [_ Hr].
  assert (0 ≤ zlen data) by (unfold zlen; lia).
  destruct (Z.eqb_spec (zlen data) 0) as [Hz|Hz].
  - eapply implements_refuse; [by eapply run_write_empty|done|done|apply grow_cost_nonneg].
  - destruct (Z.ltb_spec 20 (blocks_for (off + zlen data))) as [Hbig|Hfit].
    + eapply implements_refuse; [eapply run_write_efbig; [exact Hr|lia..]|done|done|apply grow_cost_nonneg].
    + destruct (run_write_node Hclock sb w n d off data) as (sb' & w' & Hrun & Hc' & Hleft & Habs); try done; [lia|].
      eapply implements_intro; [exact Hrun|done|done| |by rewrite Hd; apply spent_needed]. rewrite Habs. simpl.
      unfold file_data in Hd. apply map_eq. intros q. rewrite !lookup_alter. case_decide; [|done].
      subst q. destruct (abs None sb w !! n) as [x|]; [|done]. simpl in *.
      destruct (an_body x); [|done]. by injection Hd as ->.
Qed.

Lemma setattr_implements sb w n x mode uid gid size :
  consistent None sb w → abs None sb w !! n = Some x →
  implements 0 (exec (OpSetattr n mode uid gid size) sb) sb w
    (spec (OpSetattr n mode uid gid size) (abs None sb w)).
Proof.
  intros Hc Hx. destruct (abs_live _ _ _ _ _ Hx) as (Hn & _).
  destruct (run_setattr Hclock sb w n x mode uid gid size) as (a & w' & Hrun & Hc' & Hleft & Ha & Habs); [done..|].
  exists (Attr a), sb, w'. split_and!; [by cbn [exec]; run_step Hrun|done| |done|by apply spent_needed].
  cbn [spec fst]. rewrite <-Habs. by apply answers_attr.
Qed.

Lemma lookup_implements sb w p name m :
  consistent None sb w → tree (abs None sb w) → entries (abs None sb w) p = Some m →
  implements 0 (exec (OpLookup p name) sb) sb w (spec (OpLookup p name) (abs None sb w)).
Proof.
  intros Hc Ht Hp. cbn [exec spec].
  assert (∀ c, m !! name = Some c → is_Some (abs None sb w !! c)) as Hclosed.
  { intros c Hm. apply (tr_closed _ Ht p name). by rewrite (child_entries _ _ _ _ Hp). }
  eapply implements_keep; [by eapply run_lookup|done|].
  rewrite (child_entries _ _ _ _ Hp). destruct (m !! name) as [c|] eqn:Hm; [|done].
  destruct (Hclosed c eq_refl) as [x Hx]. destruct (abs_live _ _ _ _ _ Hx) as (Hn & _).
  by apply answers_getattr.
Qed.

Lemma readdir_implements sb w n x off k :
  consistent None sb w → tree (abs None sb w) → abs None sb w !! n = Some x →
  implements 0 (exec (OpReaddir n off k) sb) sb w (spec (OpReaddir n off k) (abs None sb w)).
Proof.
  intros Hc Ht Hx. cbn [exec spec]. destruct (entries (abs None sb w) n) as [m|] eqn:Hm.
  - destruct (run_readdir_listing sb w n m off (empty_buffer k) Hc Hm) as (l & Hl & Hrun).
    { intros name c Hch. apply (tr_closed _ Ht n name). by rewrite (child_entries _ _ _ _ Hm). }
    eapply implements_keep; [exact Hrun|done|]. by exists l.
  - destruct (abs_live _ _ _ _ _ Hx) as (Hn & i & Hl & _).
    eapply implements_keep; [eapply run_readdir_file; try done|done|done].
    intros Hdir. by rewrite (live_entries sb w n i) in Hm.
Qed.

Lemma open_implements sb w n x uid gid flags :
  consistent None sb w → abs None sb w !! n = Some x →
  implements 0 (exec (OpOpen n uid gid flags) sb) sb w
    (spec (OpOpen n uid gid flags) (abs None sb w)).
Proof.
  intros Hc Hx. cbn [exec spec]. destruct (abs_live _ _ _ _ _ Hx) as (Hn & i & Hl & ->).
  eapply implements_keep; [by eapply run_open|done|]. unfold spec_open. rewrite Hx. unfold writable.
  change (an_mode (node i w)) with (i_mode i). by destruct (_ && _).
Qed.

Lemma op_implements sb w o :
  mounted sb w → ready (abs None sb w) o → room (cost (abs None sb w) o) w →
  implements (cost (abs None sb w) o) (exec o sb) sb w (spec o (abs None sb w)).
Proof.
  intros [Hc Ht] Hready. pose proof Hready as [Hk Hw].
  destruct o as [p name|n|n mode uid gid size|n off k|n off data|p name|p name|p name|p name|n off k|n uid gid flags];
    cbn [kernel within cost] in *.
  - destruct Hk as [m Hp]. intros _. by eapply lookup_implements.
  - intros _. eapply implements_keep; [by apply run_getattr|done|by apply answers_getattr].
  - destruct Hk as [x Hx]. intros _. by eapply setattr_implements.
  - destruct Hk as ([d Hd] & Ho & Hs). intros _. by eapply implements_keep; [by eapply run_read_node|..].
  - destruct Hk as ([d Hd] & Ho & Hu). intros Hroom. by eapply write_implements.
  - destruct Hk as ([m Hp] & _). intros Hroom. by eapply create_implements.
  - destruct Hk as ([m Hp] & _). intros Hroom. by eapply mkdir_implements.
  - destruct Hk as ([m Hp] & _). intros _. by eapply unlink_implements.
  - destruct Hk as ([m Hp] & Hpr). intros _. by eapply rmdir_implements.
  - destruct Hk as [x Hx]. intros _. by eapply readdir_implements.
  - destruct Hk as [x Hx]. intros _. by eapply open_implements.
Qed.

Lemma op_mounted sb w o :
  mounted sb w → ready (abs None sb w) o → room (cost (abs None sb w) o) w →
  ∃ a sb' w', run (exec o sb) w = Done (a, sb') w' ∧ mounted sb' w' ∧
    answers a (fst (spec o (abs None sb w))) ∧ abs None sb' w' = snd (spec o (abs None sb w)) ∧
    spent as_needed (cost (abs None sb w) o) None sb w None sb' w'.
Proof.
  intros Hm Hready Hroom.
  destruct (op_implements sb w o Hm Hready Hroom) as (a & sb' & w' & Hrun & Hc & Ha & Habs & Hk).
  exists a, sb', w'. split_and!; try done. split; [done|]. rewrite Habs. by apply spec_tree; [apply Hm|].
Qed.

End refine.

(** ** Properties *)
Section properties.
Context `{Clock} `{Build} `{DirBuffer}.
Implicit Types (sb : SuperBlock) (w : world) (n p b : u32) (name : bytes).

(** C1: each of the eleven handlers implements its specification.  On a mounted file
    system, for a request of the kernel ([kernel]) within the limits of the program
    ([within]: a new name of at most 28 bytes of UTF-8 in a directory of fewer than 150
    entries, a write that ends at 510 * (2^32 - 1) or before) and with enough free blocks
    before the inodes of the data area ([room]), a handler ends normally, replies what the
    specification promises, and leaves a mounted file system: consistent, a tree, and
    storing the tree of the specification.  Outside of the limits the program has defects:
    [long_name_not_found], [write_wraps_around], [growth_destroys_inodes]. *)
Theorem handlers_implement_spec sb w (o : op) :
  clock_ok → mounted sb w → ready (abs None sb w) o → room (cost (abs None sb w) o) w →
  ∃ a sb' w', run (exec o sb) w = Done (a, sb') w' ∧ mounted sb' w' ∧
    answers a (fst (spec o (abs None sb w))) ∧
    abs None sb' w' = snd (spec o (abs None sb w)).
Proof.
  intros Hclock Hm Hr Hroom.
  destruct (op_mounted Hclock sb w o Hm Hr Hroom) as (a & sb' & w' & ? & ? & ? & ? & _). eauto 10.
Qed.

(** C23: [unlink] undoes [create]: after both the tree is what it was. *)
Theorem create_unlink_restores sb w p name n :
  clock_ok → mounted sb w → ready (abs None sb w) (OpCreate p name) → room 1 w →
  child (abs None sb w) p name = None → first_unused (abs None sb w) 1000 2000 = Some n →
  ∃ sb' w', run ('(_, sb) ← SimpleFS.create sb p name; SimpleFS.unlink sb p name) w =
      Done (Ok (), sb') w' ∧ mounted sb' w' ∧ abs None sb' w' = abs None sb w.
Proof.
  intros Hclock [Hc Ht] Hready Hroom Hch Hn. pose proof Hready as [([m Hp] & _) _].
  rewrite (child_entries _ _ _ _ Hp) in Hch.
  destruct (ready_new _ p name m _ (or_introl eq_refl) Hready Hp Hch) as [Hgood Hsize]. pose proof (first_unused_Some _ _ _ _ Hn) as [_ Hfree].
  destruct (run_create Hclock sb w p name m n Hc Hp Hch Hgood Hsize Hroom Hn)
    as (a & sb1 & w1 & Hrun1 & Hc1 & _ & _ & Habs1).
  assert (n ≠ p) as Hnp by (intros ->; apply entries_in in Hp as [? ?]; congruence).
  assert (is_Some (<[n:=ANode 33188 (AFile [])]> (abs None sb w) !! p)) as Hin
    by (rewrite lookup_insert_ne by done; by eapply entries_in).
  assert (entries (abs None sb1 w1) p = Some (<[name:=n]> m)) as Hp1
    by (by rewrite Habs1, entries_set, decide_True).
  assert (abs None sb1 w1 !! n = Some (ANode 33188 (AFile []))) as Hn1.
  { rewrite Habs1. unfold set_entries. rewrite lookup_alter_ne, lookup_insert_eq by done. done. }
  destruct (run_unlink Hclock sb1 w1 p name (<[name:=n]> m) n Hc1 Hp1) as (sb2 & w2 & Hrun2 & Hc2 & _ & Habs2).
  - apply lookup_insert_eq.
  - by rewrite Hn1.
  - unfold entries. by rewrite Hn1.
  - assert (abs None sb2 w2 = abs None sb w) as Habs.
    { rewrite Habs2. unfold detach. rewrite Hp1. simpl. rewrite delete_insert_id by done.
      pose proof Hp as (md & Hlk)%entries_Some. rewrite Habs1. unfold set_entries.
      apply map_eq. intros q. destruct (decide (q = p)) as [->|Hqp].
      - rewrite lookup_alter_eq, lookup_delete_ne, lookup_alter_eq, lookup_insert_ne, Hlk by done. done.
      - rewrite lookup_alter_ne by done. destruct (decide (q = n)) as [->|Hqn].
        + by rewrite lookup_delete_eq.
        + by rewrite lookup_delete_ne, lookup_alter_ne, lookup_insert_ne by done. }
    exists sb2, w2. split_and!; [run_step Hrun1; cbv beta iota; exact Hrun2| |done].
    split; [done|]. by rewrite Habs.
Qed.

(** C18: a handler that cannot do what it was asked for says so and does nothing: [create]
    and [mkdir] of a name that is there, [unlink] and [rmdir] of one that is not,
    [unlink] of a directory, [rmdir] of a file or of a directory with entries of its own. *)
Theorem namespace_refusals sb w p name m :
  mounted sb w → entries (abs None sb w) p = Some m →
  match m !! name with
  | None =>
      run (SimpleFS.unlink sb p name) w = Done (Err ENOENT, sb) w ∧
      run (SimpleFS.rmdir sb p name) w = Done (Err ENOENT, sb) w ∧
      run (SimpleFS.lookup sb p name) w = Done (Err ENOENT) w
  | Some c =>
      run (SimpleFS.create sb p name) w = Done (Err EEXIST, sb) w ∧
      run (SimpleFS.mkdir sb p name) w = Done (Err EEXIST, sb) w ∧
      match entries (abs None sb w) c with
      | Some mc => run (SimpleFS.unlink sb p name) w = Done (Err EISDIR, sb) w ∧
          ((2 < base.size mc)%nat → run (SimpleFS.rmdir sb p name) w = Done (Err ENOTEMPTY, sb) w)
      | None => run (SimpleFS.rmdir sb p name) w = Done (Err ENOTDIR, sb) w
      end
  end.
Proof.
  intros [Hc Ht] Hp. destruct (m !! name) as [c|] eqn:Hm.
  - split_and!; [by eapply run_create_exists|by eapply run_mkdir_exists|].
    destruct (entries (abs None sb w) c) as [mc|] eqn:He; [by eapply run_unlink_dir|].
    destruct (tr_closed _ Ht p name c) as [x Hx]; [by rewrite (child_entries _ _ _ _ Hp)|].
    by eapply run_rmdir_file.
  - destruct (run_unlink_absent sb w p name m Hc Hp Hm) as [Hu Hr]. split_and!; [done|done|].
    rewrite (run_lookup sb w p name m Hc Hp) by (intros c; by rewrite Hm). by rewrite Hm.
Qed.
End properties.

(** ** Witnesses: on an empty image *)
#[local] Instance zero_clock : Clock := λ _, 0.
#[local] Instance checked_build : Build := true.
#[local] Existing Instance list_buffer.

Lemma handlers_implement_spec_witness :
  ∃ sb w, run SimpleFS.mount empty_image = Done sb w ∧
    ∀ o, o ∈ [OpMkdir 1 (str "d"); OpReaddir 1 1 4096; OpOpen 1 1000 1000 2; OpLookup 1 (str "a name of more than twenty-eight bytes")] →
    ∃ a sb' w', run (exec o sb) w = Done (a, sb') w' ∧ mounted sb' w' ∧
      answers a (fst (spec o (abs None sb w))) ∧ abs None sb' w' = snd (spec o (abs None sb w)).
Proof.
  destruct fresh_mount as (sb & w & Hrun & Hm & Habs & Hroom). exists sb, w. split; [exact Hrun|].
  intros o Ho. apply (handlers_implement_spec sb w o zero_clock_ok Hm).
  - rewrite Habs. revert o Ho. apply Forall_forall, (bool_decide_unpack _). vm_compute. exact I.
  - apply Hroom. rewrite Habs. revert o Ho. apply Forall_forall, (bool_decide_unpack _).
    vm_compute. exact I.
Defined.

Lemma create_unlink_restores_witness :
  ∃ sb w, run SimpleFS.mount empty_image = Done sb w ∧
    ∃ sb' w', run ('(_, sb) ← SimpleFS.create sb 1 (str "f"); SimpleFS.unlink sb 1 (str "f")) w =
      Done (Ok (), sb') w' ∧ mounted sb' w' ∧ abs None sb' w' = abs None sb w.
Proof.
  destruct fresh_mount as (sb & w & Hrun & Hm & Habs & Hroom). exists sb, w. split; [exact Hrun|].
  apply (create_unlink_restores sb w 1 (str "f") 1000 zero_clock_ok Hm).
  - rewrite Habs. apply (bool_decide_unpack _). vm_compute. exact I.
  - apply Hroom. lia.
  - rewrite Habs. reflexivity.
  - rewrite Habs. reflexivity.
Defined.

Lemma namespace_refusals_witness :
  ∃ sb w, run SimpleFS.mount empty_image = Done sb w ∧
    run (SimpleFS.unlink sb 1 (str "f")) w = Done (Err ENOENT, sb) w ∧
    run (SimpleFS.rmdir sb 1 (str "f")) w = Done (Err ENOENT, sb) w ∧
    run (SimpleFS.lookup sb 1 (str "f")) w = Done (Err ENOENT) w.
Proof.
  destruct fresh_mount as (sb & w & Hrun & Hm & Habs & Hroom). exists sb, w. split; [exact Hrun|].
  assert (entries (abs None sb w) 1 = Some (new_entries 1 1)) as Hp by (by rewrite Habs).
  exact (namespace_refusals sb w 1 (str "f") (new_entries 1 1) Hm Hp).
Defined.
