(* ===== verification/Sessions.v ===== *)
(** * Sessions: any number of operations, and a restart between them

    A session mounts the image and serves a list of operations ([serve]).  [fits] says that
    the tree never needs more than the 58 blocks between the inode table and the inodes
    that lie in the data area: the account starts afresh with every operation, so a block
    that was freed counts again and a session may be of any length.  [cost_fits] gives a
    simpler bound, the sum of what the operations take.  Every session that fits runs to
    its end, keeps the free-space map exact, and survives a restart. *)
From S2P Require Import Prelude Disk Superblock Bitmap Inode Directory Fs File Format Spec.
From S2P Require Import Consistency Room Namespace Mount Nodes Refinement.

(** ** Sequences of operations *)
Fixpoint exec_all `{Build} `{DirBuffer} (l : list op) (sb : SuperBlock) : prog (list answer * SuperBlock) :=
  match l with
  | [] => mret ([], sb)
  | o :: l =>
      '(a, sb) ← exec o sb;
      '(r, sb) ← exec_all l sb;
      mret (a :: r, sb)
  end.

(** A mount and the requests after it. *)
Definition serve `{Build} `{DirBuffer} (l : list op) : prog (list answer * SuperBlock) :=
  sb ← SimpleFS.mount; exec_all l sb.

Fixpoint spec_all (l : list op) (A : gmap u32 anode) : list promise * gmap u32 anode :=
  match l with
  | [] => ([], A)
  | o :: l => let r := spec_all l (snd (spec o A)) in (fst (spec o A) :: fst r, snd r)
  end.

(** Every operation is one the kernel may ask for, within the limits of the program. *)
Fixpoint ready_all (A : gmap u32 anode) (l : list op) : Prop :=
  match l with
  | [] => True
  | o :: l => ready A o ∧ ready_all (snd (spec o A)) l
  end.
#[export] Instance ready_all_dec A l : Decision (ready_all A l).
Proof. revert A. induction l as [|o l IH]; intros A; simpl; apply _. Defined.

(** Every operation finds the blocks it may take: [H] holds the largest sizes of the
    directories so far. *)
Fixpoint fits (H : gmap u32 nat) (A : gmap u32 anode) (l : list op) : Prop :=
  match l with
  | [] => True
  | o :: l => space H A + cost A o ≤ 58 ∧ fits (peak H (snd (spec o A))) (snd (spec o A)) l
  end.
#[export] Instance fits_dec H A l : Decision (fits H A l).
Proof. revert H A. induction l as [|o l IH]; intros H A; simpl; apply _. Defined.

(** The largest sizes after the operations. *)
Fixpoint peaks (H : gmap u32 nat) (A : gmap u32 anode) (l : list op) : gmap u32 nat :=
  match l with
  | [] => H
  | o :: l => peaks (peak H (snd (spec o A))) (snd (spec o A)) l
  end.

(** What the operations take, when nothing they free counts. *)
Fixpoint cost_all (A : gmap u32 anode) (l : list op) : Z :=
  match l with
  | [] => 0
  | o :: l => cost A o + cost_all (snd (spec o A)) l
  end.

Section app.
Implicit Types (H : gmap u32 nat) (A : gmap u32 anode).

Lemma spec_all_app l1 l2 A :
  spec_all (l1 ++ l2) A =
    (fst (spec_all l1 A) ++ fst (spec_all l2 (snd (spec_all l1 A))),
     snd (spec_all l2 (snd (spec_all l1 A)))).
Proof.
  revert A. induction l1 as [|o l1 IH]; intros A; cbn [spec_all app fst snd].
  - by destruct (spec_all l2 A).
  - by rewrite IH.
Qed.

Lemma ready_all_app l1 l2 A :
  ready_all A (l1 ++ l2) ↔ ready_all A l1 ∧ ready_all (snd (spec_all l1 A)) l2.
Proof.
  revert A. induction l1 as [|o l1 IH]; intros A; cbn [ready_all spec_all app snd]; [tauto|].
  rewrite IH. tauto.
Qed.

Lemma fits_app l1 l2 H A :
  fits H A (l1 ++ l2) ↔ fits H A l1 ∧ fits (peaks H A l1) (snd (spec_all l1 A)) l2.
Proof.
  revert H A. induction l1 as [|o l1 IH]; intros H A; cbn [fits peaks spec_all app snd]; [tauto|].
  rewrite IH. tauto.
Qed.

Lemma cost_all_nonneg A l : 0 ≤ cost_all A l.
Proof.
  revert A. induction l as [|o l IH]; intros A; simpl; [lia|].
  pose proof (cost_nonneg A o). specialize (IH (snd (spec o A))). lia.
Qed.
End app.

(** ** A simpler bound *)

(** [H] accounts for the directories of [A], and for nothing else. *)
Definition covers (H : gmap u32 nat) (A : gmap u32 anode) : Prop :=
  (∀ n m, entries A n = Some m → dir_need (base.size m) ≤ dir_need (default 0%nat (H !! n))) ∧
  (∀ n, A !! n = None → H !! n = None).

Section bound.
Implicit Types (H : gmap u32 nat) (A : gmap u32 anode) (n p c : u32) (m : gmap bytes u32) (x : anode).

Definition need H A n : Z := from_option (node_need H n) 0 (A !! n).

Lemma peak_covers H A : covers (peak H A) A.
Proof.
  split.
  - intros n m Hm. rewrite (peak_dir H A n m Hm). apply dir_need_mono. simpl. lia.
  - intros n Hn. by rewrite peak_lookup, Hn.
Qed.

Lemma need_nonneg H A n : 0 ≤ need H A n.
Proof.
  unfold need, node_need. destruct (A !! n) as [[md [d|m]]|]; simpl; [|unfold dir_need; lia|done].
  assert (0 ≤ blocks_for (zlen d)) by (unfold blocks_for, zlen; dlia). destruct (10 <? _); lia.
Qed.

Lemma need_none H A n : A !! n = None → need H A n = 0.
Proof. unfold need. by intros ->. Qed.

(** A file or a directory that an operation leaves as large as it was, or larger by [j]. *)
Lemma need_file H H' A A' n x x' d d' :
  A !! n = Some x → A' !! n = Some x' → an_body x = AFile d → an_body x' = AFile d' →
  need H' A' n ≤ need H A n + grow_cost (blocks_for (zlen d)) (blocks_for (zlen d')).
Proof.
  intros Hx Hx' Hb Hb'. unfold need, node_need. rewrite Hx, Hx'. simpl. rewrite Hb, Hb'.
  set (a := blocks_for (zlen d)). set (b := blocks_for (zlen d')). unfold grow_cost.
  destruct (Z.ltb_spec 10 a), (Z.ltb_spec 10 b), (Z.leb_spec b a), (Z.leb_spec a 10); simpl; lia.
Qed.

Lemma need_dir H A A' n m m' (j : nat) :
  covers H A → entries A n = Some m → entries A' n = Some m' → (base.size m' ≤ base.size m + j)%nat →
  need (peak H A') A' n ≤ need H A n + Z.of_nat j.
Proof.
  intros [Hcov _] Hm Hm' Hs. pose proof (Hcov n m Hm) as Hc. pose proof (peak_dir H A' n m' Hm') as Hp.
  apply entries_Some in Hm as (md & Hx), Hm' as (md' & Hx').
  unfold need, node_need. rewrite Hx, Hx', Hp. simpl. unfold dir_need in *. dlia.
Qed.

Lemma need_same H A A' n :
  covers H A → (an_body <$> A' !! n) = (an_body <$> A !! n) → need (peak H A') A' n ≤ need H A n.
Proof.
  intros Hc Hb. destruct (A' !! n) as [x'|] eqn:Hx'.
  2: { rewrite need_none by done. apply need_nonneg. }
  destruct (A !! n) as [x|] eqn:Hx; [|done]. injection Hb as Hb. destruct (an_body x) as [d|m] eqn:E.
  - pose proof (need_file H (peak H A') A A' n x x' d d Hx Hx' E Hb) as Hle.
    unfold grow_cost in Hle. rewrite Z.leb_refl in Hle. lia.
  - enough (need (peak H A') A' n ≤ need H A n + Z.of_nat 0) by lia.
    apply (need_dir H A A' n m m); [done| | |lia]; unfold entries; rewrite ?Hx, ?Hx'; simpl; by rewrite ?Hb, ?E.
Qed.

(** The account of one operation. *)
Lemma space_step H A A' (f : u32 → Z) k :
  (∀ n, n ∈ inode_numbers → need (peak H A') A' n ≤ need H A n + f n) →
  total f inode_numbers ≤ k → space (peak H A') A' ≤ space H A + k.
Proof.
  intros Hf Hk. change (space H A) with (total (need H A) inode_numbers).
  etrans; [exact (total_le _ _ _ Hf)|]. rewrite total_add. lia.
Qed.

Lemma space_dir H A A' p m m' n (j : nat) k :
  covers H A → entries A p = Some m → entries A' p = Some m' → (base.size m' ≤ base.size m + j)%nat →
  need (peak H A') A' n ≤ need H A n + k → 0 ≤ k →
  (∀ q, q ≠ p → q ≠ n → an_body <$> A' !! q = an_body <$> A !! q) →
  space (peak H A') A' ≤ space H A + (Z.of_nat j + k).
Proof.
  intros Hc Hm Hm' Hs Hn Hk Hq.
  apply (space_step H A A' (λ q, (if decide (q = p) then Z.of_nat j else 0) + (if decide (q = n) then k else 0))).
  - intros q _. destruct (decide (q = p)) as [->|Hqp].
    + pose proof (need_dir H A A' p m m' j Hc Hm Hm' Hs). case_decide; lia.
    + destruct (decide (q = n)) as [->|Hqn]; [lia|].
      pose proof (need_same H A A' q Hc (Hq q Hqp Hqn)). lia.
  - rewrite total_add. pose proof (total_at p (Z.of_nat j) _ NoDup_inode_numbers ltac:(lia)).
    pose proof (total_at n k _ NoDup_inode_numbers Hk). lia.
Qed.

Lemma space_attach H A p m name n x (j : Z) :
  covers H A → entries A p = Some m → m !! name = None → A !! n = None →
  node_need (peak H (set_entries p (<[name := n]> m) (<[n := x]> A))) n x ≤ j → 0 ≤ j →
  let A' := set_entries p (<[name := n]> m) (<[n := x]> A) in space (peak H A') A' ≤ space H A + (1 + j).
Proof.
  intros Hc Hp Hm Hn Hj Hj0 A'.
  assert (n ≠ p) as Hnp by (intros ->; apply entries_in in Hp as [? ?]; congruence).
  assert (is_Some (<[n := x]> A !! p)) as Hin by (rewrite lookup_insert_ne by done; by eapply entries_in).
  eapply (space_dir H A A' p m (<[name := n]> m) n 1 j).
  - done.
  - done.
  - unfold A'. by rewrite entries_set, decide_True.
  - rewrite map_size_insert_None by done. lia.
  - rewrite (need_none H A n Hn). unfold need, A' at 2, set_entries.
    rewrite lookup_alter_ne, lookup_insert_eq by done. simpl. fold A' in Hj. lia.
  - done.
  - intros q Hqp Hqn. unfold A', set_entries. by rewrite lookup_alter_ne, lookup_insert_ne by done.
Qed.

Lemma space_detach H A p m name c :
  covers H A → entries A p = Some m → space (peak H (detach A p name c)) (detach A p name c) ≤ space H A.
Proof.
  intros Hc Hp. set (A' := detach A p name c).
  assert (∀ n, need (peak H A') A' n ≤ need H A n) as Hn.
  { intros n. destruct (decide (n = c)) as [->|Hnc].
    - rewrite need_none; [apply need_nonneg|]. unfold A', detach, set_entries.
      rewrite lookup_alter. case_decide; [subst p|]; by rewrite lookup_delete_eq.
    - destruct (decide (n = p)) as [->|Hnp].
      + enough (need (peak H A') A' p ≤ need H A p + Z.of_nat 0) by lia.
        apply (need_dir H A A' p m (base.delete name m)); [done|done| |].
        * unfold A', detach. rewrite entries_set, decide_True, Hp by
            (rewrite ?lookup_delete_ne by done; first [done|by eapply entries_in]). done.
        * rewrite Nat.add_0_r. rewrite map_size_delete. destruct (m !! name); simpl; lia.
      + apply need_same; [done|]. unfold A', detach, set_entries.
        by rewrite lookup_alter_ne, lookup_delete_ne by done. }
  transitivity (space H A + 0); [|lia]. apply (space_step H A A' (λ _, 0)).
  - intros n _. specialize (Hn n). lia.
  - pose proof (total_at 1 0 _ NoDup_inode_numbers ltac:(lia)) as Hz.
    etrans; [|exact Hz]. apply total_le. intros n _. case_decide; lia.
Qed.

Lemma space_alter H A n (f : anode → anode) k :
  covers H A → 0 ≤ k → need (peak H (alter f n A)) (alter f n A) n ≤ need H A n + k →
  space (peak H (alter f n A)) (alter f n A) ≤ space H A + k.
Proof.
  intros Hc Hk Hn. apply (space_step H A _ (λ q, if decide (q = n) then k else 0)).
  - intros q _. destruct (decide (q = n)) as [->|Hqn]; [done|].
    rewrite Z.add_0_r. apply need_same; [done|]. by rewrite lookup_alter_ne.
  - by apply total_at; [apply NoDup_inode_numbers|].
Qed.

Lemma space_id H A : covers H A → space (peak H A) A ≤ space H A.
Proof. intros Hc. apply total_le. intros n _. by apply (need_same H A A n). Qed.

(** What an operation adds to the account is at most its cost. *)
Lemma space_spec H A o :
  covers H A → ready A o → space (peak H (snd (spec o A))) (snd (spec o A)) ≤ space H A + cost A o.
Proof.
  intros Hc Hr. pose proof (space_id H A Hc) as Hid. pose proof (cost_nonneg A o) as Hcost.
  destruct o as [| |n mode| |n off data|p name|p name|p name|p name| |]; destruct Hr as [Hr _];
    cbn [spec snd]; try lia.
  - simpl in Hr. destruct Hr as [x Hx]. unfold spec_setattr. apply space_alter; [done|done|].
    rewrite Z.add_0_r. apply need_same; [done|]. by rewrite lookup_alter_eq, Hx.
  - simpl in Hr. destruct Hr as ([d Hd] & Ho & _). unfold spec_write.
    destruct (zlen data =? 0); [cbn [snd]; lia|]. destruct (20 <? _); [cbn [snd]; lia|]. cbn [snd].
    apply space_alter; [done|done|]. unfold file_data in Hd. simpl. unfold file_data.
    destruct (A !! n) as [x|] eqn:Hx; [|done]. simpl in Hd |- *.
    destruct (an_body x) as [d'|] eqn:E; [|done]. injection Hd as ->. simpl.
    etrans; [eapply (need_file H _ A); [done| |done|]; [by rewrite lookup_alter_eq, Hx|by rewrite E]|].
    rewrite zlen_written by done. set (a := zlen d). set (b := off + zlen data).
    enough (grow_cost (blocks_for a) (blocks_for (Z.max a b)) ≤ grow_cost (blocks_for a) (blocks_for b)) by lia.
    destruct (Z.max_spec a b) as [[? ->]|[? ->]]; [done|]. pose proof (grow_cost_nonneg (blocks_for a) (blocks_for b)).
    unfold grow_cost at 1. rewrite Z.leb_refl. done.
  - simpl in Hr. destruct Hr as ([m Hp] & _). unfold spec_create. rewrite Hp. simpl default.
    destruct (m !! name) eqn:Hm; [cbn [snd]; lia|]. destruct (first_unused A 1000 2000) as [n|] eqn:Hn; [|cbn [snd]; lia].
    apply first_unused_Some in Hn as [_ Hn]. cbn [snd]. by apply (space_attach H A p m name n _ 0).
  - simpl in Hr. destruct Hr as ([m Hp] & _). unfold spec_mkdir. rewrite Hp. simpl default.
    destruct (m !! name) eqn:Hm; [cbn [snd]; lia|]. destruct (first_unused A 500 900) as [n|] eqn:Hn; [|cbn [snd]; lia].
    apply first_unused_Some in Hn as [_ Hn]. cbn [snd].
    apply (space_attach H A p m name n _ 1); [done|done|done|done| |done]. unfold node_need. simpl.
    rewrite (peak_dir _ _ n (new_entries n p)).
    + simpl. by rewrite (proj2 Hc n Hn).
    + assert (n ≠ p) by (intros ->; apply entries_in in Hp as [? ?]; congruence).
      unfold entries, set_entries. by rewrite lookup_alter_ne, lookup_insert_eq.
  - unfold spec_unlink. destruct (child A p name) as [c|] eqn:Hch; [|cbn [snd]; lia].
    destruct (entries A c); [cbn [snd]; lia|]. cbn [snd]. apply child_in in Hch as (m & Hp & _).
    pose proof (space_detach H A p m name c Hc Hp). lia.
  - unfold spec_rmdir. destruct (child A p name) as [c|] eqn:Hch; [|cbn [snd]; lia].
    destruct (entries A c); [|cbn [snd]; lia]. destruct (2 <? _); [cbn [snd]; lia|]. cbn [snd].
    apply child_in in Hch as (m & Hp & _). pose proof (space_detach H A p m name c Hc Hp). lia.
Qed.

(** A session whose operations take no more than is free fits. *)
Lemma cost_fits H A l :
  covers H A → ready_all A l → space H A + cost_all A l ≤ 58 → fits H A l.
Proof.
  revert H A. induction l as [|o l IH]; intros H A Hc; cbn [ready_all cost_all fits]; [done|].
  intros [Ho Hl] Hk. pose proof (cost_all_nonneg (snd (spec o A)) l). split; [lia|].
  apply IH; [apply peak_covers|done|]. pose proof (space_spec H A o Hc Ho). lia.
Qed.

Lemma fresh_fits l : ready_all fresh_tree l → cost_all fresh_tree l ≤ 57 → fits ∅ fresh_tree l.
Proof.
  intros Hr Hk. apply cost_fits; [split|done|].
  - intros n m [-> ->]%fresh_tree_entries. done.
  - intros n _. apply lookup_empty.
  - assert (space ∅ fresh_tree = 1) as -> by (vm_compute; reflexivity). lia.
Qed.
End bound.

(** ** Running them *)
Section sequences.
Context `{Clock} `{Build} `{DirBuffer} (Hclock : clock_ok).
Implicit Types (sb : SuperBlock) (w : world) (A : gmap u32 anode) (M : gmap u32 nat).

Lemma run_exec_all l M sb w :
  mounted sb w → used M sb w → ready_all (abs None sb w) l → fits M (abs None sb w) l →
  ∃ r sb' w', run (exec_all l sb) w = Done (r, sb') w' ∧ mounted sb' w' ∧
    Forall2 answers r (fst (spec_all l (abs None sb w))) ∧
    abs None sb' w' = snd (spec_all l (abs None sb w)) ∧
    used (peaks M (abs None sb w) l) sb' w'.
Proof.
  revert M sb w. induction l as [|o l IH]; intros M sb w Hm Hu Hready Hfits;
    cbn [ready_all fits peaks spec_all exec_all fst snd] in *; [by exists [], sb, w|].
  destruct Hready as [Ho Hl], Hfits as [Hcost Hfits].
  destruct (op_mounted Hclock sb w o Hm Ho) as (a & sb1 & w1 & Hrun & Hm1 & Ha & Habs1 & Hsp).
  { by apply (space_room M sb); [apply Hm|..]. }
  apply (used_spent M) in Hsp; [|done]. rewrite <-Habs1 in *.
  destruct (IH _ sb1 w1 Hm1 Hsp Hl Hfits) as (r & sb2 & w2 & Hrun2 & Hm2 & Hr & Habs2 & Hu2).
  exists (a :: r), sb2, w2. split_and!; [|done|by constructor|done|done].
  run_step Hrun. cbv beta iota. run_step Hrun2. done.
Qed.

(** A session on a disk with a file system. *)
Lemma run_serve_again l M sb w :
  mounted sb w → used M sb w → ready_all (abs None sb w) l → fits M (abs None sb w) l →
  ∃ r sb' w', run (serve l) w = Done (r, sb') w' ∧ mounted sb' w' ∧
    Forall2 answers r (fst (spec_all l (abs None sb w))) ∧
    abs None sb' w' = snd (spec_all l (abs None sb w)) ∧
    used (peaks M (abs None sb w) l) sb' w'.
Proof.
  intros Hm Hu Hready Hfits.
  destruct (run_exec_all l M sb w Hm Hu Hready Hfits) as (r & sb' & w' & Hrun & Hm' & Hr & Habs & Hu').
  exists r, sb', w'. split_and!; [|done..]. unfold serve.
  run_step remount_same by apply (cs_inv _ _ _ (proj1 Hm)). exact Hrun.
Qed.

(** A session on a blank image. *)
Lemma run_serve_fresh w l :
  image_ok w → present_superblock w = None → no_stale_inodes w →
  ready_all fresh_tree l → fits ∅ fresh_tree l →
  ∃ r sb' w', run (serve l) w = Done (r, sb') w' ∧ mounted sb' w' ∧
    Forall2 answers r (fst (spec_all l fresh_tree)) ∧
    abs None sb' w' = snd (spec_all l fresh_tree) ∧
    used (peaks ∅ fresh_tree l) sb' w'.
Proof.
  intros Hok Hnone Hs Hready Hfits.
  destruct (run_mount_fresh Hclock w Hok Hnone Hs) as (sb & w1 & Hrun & Hm & Habs & Hu).
  rewrite <-Habs in *.
  destruct (run_exec_all l ∅ sb w1 Hm Hu Hready Hfits) as (r & sb' & w' & Hrun' & Hrest).
  exists r, sb', w'. split; [by unfold serve; run_step Hrun|exact Hrest].
Qed.
End sequences.

(** ** Properties *)
Section properties.
Context `{Clock} `{Build} `{DirBuffer}.
Implicit Types (sb : SuperBlock) (w : world) (b : u32).

(** C2: from a blank image, the mount and any sequence of operations after it that the
    kernel may ask for, within the limits of the program, and whose tree always fits in 58
    blocks, runs to its end; every reply is the one the specification promises, and so is
    the tree at the end.  The sequence may be of any length: blocks that were freed are
    taken again. *)
Theorem sessions_complete w (l : list op) :
  clock_ok → image_ok w → present_superblock w = None → no_stale_inodes w →
  ready_all fresh_tree l → fits ∅ fresh_tree l →
  ∃ r sb' w', run (sb ← SimpleFS.mount; exec_all l sb) w = Done (r, sb') w' ∧ mounted sb' w' ∧
    Forall2 answers r (fst (spec_all l fresh_tree)) ∧
    abs None sb' w' = snd (spec_all l fresh_tree).
Proof.
  intros Hclock Hok Hnone Hs Hready Hfits.
  destruct (run_serve_fresh Hclock w l Hok Hnone Hs Hready Hfits)
    as (r & sb' & w' & Hrun & Hm & Hr & Habs & _). by exists r, sb', w'.
Qed.

(** C3: no block is lost and none is used twice.  After any such session a block of the
    data area is marked in the free-space map exactly when a live inode owns it, no other
    one does, and the free-block counter of the superblock is the number of free bits. *)
Theorem blocks_owned_once w (l : list op) r sb' w' :
  clock_ok → image_ok w → present_superblock w = None → no_stale_inodes w →
  ready_all fresh_tree l → fits ∅ fresh_tree l →
  run (sb ← SimpleFS.mount; exec_all l sb) w = Done (r, sb') w' →
  sb_free_blocks sb' = free_count w' ∧
  ∀ b, 31 ≤ b < MAX_BLOCKS → bit w' b = true ↔
    ∃ n i, n ∈ inode_numbers ∧ live None sb' w' n = Some i ∧ b ∈ owned i w' ∧
      ∀ m j, m ∈ inode_numbers → live None sb' w' m = Some j → b ∈ owned j w' → m = n.
Proof.
  intros Hclock Hok Hnone Hs Hready Hfits Hrun.
  destruct (run_serve_fresh Hclock w l Hok Hnone Hs Hready Hfits)
    as (r' & sb2 & w2 & Hrun' & [Hc _] & _).
  unfold serve in Hrun'. rewrite Hrun' in Hrun. injection Hrun as -> -> ->.
  split; [apply (cs_inv _ _ _ Hc)|]. intros b Hb. rewrite (cs_bits _ _ _ Hc b Hb). split.
    + intros (n & Hn & Hin). pose proof Hin as Hin'. unfold owned_at in Hin'.
      destruct (live None sb' w' n) as [i|] eqn:Hl; [|by apply not_elem_of_nil in Hin'].
      exists n, i. split_and!; [done|done|done|]. intros m j Hmn Hj Hbj.
      apply (cs_disjoint _ _ _ Hc _ _ b Hmn Hn); [|done]. unfold owned_at. by rewrite Hj.
    + intros (n & i & Hn & Hl & Hin & _). exists n. split; [done|]. unfold owned_at. by rewrite Hl.
Qed.

(** C4: everything survives a restart.  A session, then a mount of the image it left and a
    second session, give the replies and the tree of one session: the second mount finds
    the files of the first. *)
Theorem sessions_persist w (l1 l2 : list op) :
  clock_ok → image_ok w → present_superblock w = None → no_stale_inodes w →
  ready_all fresh_tree (l1 ++ l2) → fits ∅ fresh_tree (l1 ++ l2) →
  ∃ r1 sb1 w1 r2 sb2 w2,
    run (serve l1) w = Done (r1, sb1) w1 ∧ run (serve l2) w1 = Done (r2, sb2) w2 ∧
    mounted sb2 w2 ∧ Forall2 answers (r1 ++ r2) (fst (spec_all (l1 ++ l2) fresh_tree)) ∧
    abs None sb2 w2 = snd (spec_all (l1 ++ l2) fresh_tree).
Proof.
  intros Hclock Hok Hnone Hs. rewrite ready_all_app, fits_app, spec_all_app. cbn [fst snd].
  intros [Hl1 Hl2] [Hf1 Hf2].
  destruct (run_serve_fresh Hclock w l1 Hok Hnone Hs Hl1 Hf1) as (r1 & sb1 & w1 & Hrun1 & Hm1 & Hr1 & Habs1 & Hu1).
  rewrite <-Habs1 in *.
  destruct (run_serve_again Hclock l2 _ sb1 w1 Hm1 Hu1 Hl2 Hf2) as (r2 & sb2 & w2 & Hrun2 & Hm2 & Hr2 & Habs2 & _).
  exists r1, sb1, w1, r2, sb2, w2. split_and!; try done. by apply Forall2_app.
Qed.
End properties.

(** ** Witnesses: a session on an empty image *)
#[local] Instance zero_clock : Clock := λ _, 0.
#[local] Instance checked_build : Build := true.
#[local] Existing Instance list_buffer.

Definition tour : list op :=
  [OpMkdir 1 (str "d"); OpCreate 500 (str "f"); OpWrite 1000 5100 [1; 2; 3]; OpRead 1000 5099 9;
   OpReaddir 1 2 4096; OpOpen 1000 1000 1000 2;
   OpRmdir 1 (str "d"); OpSetattr 1000 (Some 511) None None (Some 0); OpGetattr 1000;
   OpUnlink 500 (str "f"); OpLookup 500 (str "f"); OpRmdir 1 (str "d")].

(** The largest file, made and removed. *)
Definition churn : list op :=
  [OpCreate 1 (str "g"); OpWrite 1000 9690 [7]; OpUnlink 1 (str "g")].

Definition session : list op := tour ++ churn ++ churn ++ churn.

Lemma session_ready : ready_all fresh_tree session.
Proof. apply (bool_decide_unpack _). vm_compute. exact I. Qed.

Lemma session_fits : fits ∅ fresh_tree session.
Proof. apply (bool_decide_unpack _). vm_compute. exact I. Qed.

(** What it takes is more than the disk has: the blocks are taken again. *)
Example session_cost : cost_all fresh_tree session = 81.
Proof. vm_compute. reflexivity. Qed.

(** The promises of the tour: the file is read back, the directory that is not empty
    stays, and at the end the root is all there is. *)
Example session_promises :
  fst (spec_all tour fresh_tree) =
    [PNode 500 (ANode 16877 (ADir (new_entries 500 1))); PNode 1000 (ANode 33188 (AFile []));
     PCount 3; PData [0; 1; 2; 3];
     PListing ((λ c, (c, Fs.Directory)) <$> <[str "d" := 500]> (new_entries 1 1)) 2 4096; PHandle 1000; PError ENOTEMPTY;
     PNode 1000 (ANode 33279 (AFile (zeros 5100 ++ [1; 2; 3])));
     PNode 1000 (ANode 33279 (AFile (zeros 5100 ++ [1; 2; 3])));
     PNothing; PError ENOENT; PNothing] ∧
  snd (spec_all tour fresh_tree) = fresh_tree.
Proof. split; vm_compute; reflexivity. Qed.

Lemma sessions_complete_witness :
  ∃ r sb' w', run (sb ← SimpleFS.mount; exec_all session sb) empty_image = Done (r, sb') w' ∧
    mounted sb' w' ∧ Forall2 answers r (fst (spec_all session fresh_tree)) ∧
    abs None sb' w' = snd (spec_all session fresh_tree).
Proof.
  apply (sessions_complete empty_image session zero_clock_ok (map_Forall_empty _) eq_refl
           empty_image_no_stale session_ready session_fits).
Defined.

Lemma run_session :
  ∃ r sb' w', run (sb ← SimpleFS.mount; exec_all session sb) empty_image = Done (r, sb') w'.
Proof.
  destruct (run_serve_fresh zero_clock_ok empty_image session (map_Forall_empty _) eq_refl
    empty_image_no_stale session_ready session_fits) as (r & sb' & w' & Hrun & _).
  by exists r, sb', w'.
Qed.

Lemma blocks_owned_once_witness :
  ∃ sb' w', sb_free_blocks sb' = free_count w' ∧
    ∀ b, 31 ≤ b < MAX_BLOCKS → bit w' b = true ↔
      ∃ n i, n ∈ inode_numbers ∧ live None sb' w' n = Some i ∧ b ∈ owned i w' ∧
        ∀ m j, m ∈ inode_numbers → live None sb' w' m = Some j → b ∈ owned j w' → m = n.
Proof.
  destruct run_session as (r & sb' & w' & Hrun). exists sb', w'.
  apply (blocks_owned_once empty_image session r sb' w' zero_clock_ok (map_Forall_empty _) eq_refl
           empty_image_no_stale session_ready session_fits Hrun).
Defined.

Lemma sessions_persist_witness :
  ∃ r1 sb1 w1 r2 sb2 w2,
    run (serve tour) empty_image = Done (r1, sb1) w1 ∧
    run (serve (churn ++ churn ++ churn)) w1 = Done (r2, sb2) w2 ∧ mounted sb2 w2 ∧
    Forall2 answers (r1 ++ r2) (fst (spec_all session fresh_tree)) ∧
    abs None sb2 w2 = snd (spec_all session fresh_tree).
Proof.
  apply (sessions_persist empty_image tour (churn ++ churn ++ churn) zero_clock_ok
           (map_Forall_empty _) eq_refl empty_image_no_stale session_ready session_fits).
Defined.
