(* ===== verification/Typing.v ===== *)
(** * Typing: every function of the program in the system of [Effects]

    The types are the Rust types: integers of their width, superblocks, inodes and
    directory entries with fields of their width, blocks of 512 bytes.  Nothing is asked
    of the contents of the image or of the arguments beyond their types.  The functions
    that read have the effect [no_event]; the others may write anywhere. *)
From S2P Require Import Prelude Disk Libc Effects Superblock Bitmap Inode Directory Fs Nodes Refinement Sessions.

Create HintDb typing.

(** ** Values *)
Section values.
Context {A : Type}.
Implicit Types (l src r : list A).

Lemma slice_Forall (P : A → Prop) a b l r : slice a b l = Some r → Forall P l → Forall P r.
Proof.
  unfold slice. destruct (_ && _); [|done]. intros [= <-] Hl. by apply Forall_take, Forall_drop.
Qed.

Lemma slice_le a b l r : slice a b l = Some r → 0 ≤ a ≤ b ∧ b ≤ zlen l.
Proof.
  unfold slice. destruct (_ && _) eqn:Hc; [|done]. intros _. rewrite !andb_true_iff in Hc. lia.
Qed.

Lemma copy_from_slice_inv a b src l r :
  copy_from_slice a b src l = Some r → r = splice a src l ∧ zlen r = zlen l.
Proof.
  unfold copy_from_slice. destruct (_ && _) eqn:Hc; [|done]. intros [= <-].
  rewrite !andb_true_iff in Hc. split; [done|]. apply zlen_splice; lia.
Qed.

Lemma index_Forall (P : A → Prop) i l x : index i l = Some x → Forall P l → P x.
Proof.
  unfold index. destruct (0 <=? i); [|done]. intros Hx Hl. by eapply Forall_lookup_1.
Qed.

Lemma set_index_inv (P : A → Prop) i x l r :
  set_index i x l = Some r → P x → Forall P l → Forall P r ∧ zlen r = zlen l.
Proof.
  unfold set_index. destruct (_ && _); [|done]. intros [= <-] Hx Hl. split.
  - by apply Forall_insert.
  - unfold zlen. by rewrite length_insert.
Qed.
End values.

Lemma lor_range k a b :
  0 < k → 0 ≤ a < 2 ^ k → 0 ≤ b < 2 ^ k → 0 ≤ Z.lor a b < 2 ^ k.
Proof.
  intros Hk Ha Hb. assert (0 ≤ Z.lor a b) by (apply Z.lor_nonneg; lia). split; [done|].
  destruct (decide (Z.lor a b = 0)) as [->|Hne]; [lia|].
  apply Z.log2_lt_pow2; [lia|]. rewrite Z.log2_lor by lia.
  assert (∀ x, 0 ≤ x < 2 ^ k → Z.log2 x < k) as Hl; [|apply Z.max_lub_lt; by apply Hl].
  intros x Hx. destruct (decide (x = 0)) as [->|]; [done|]. apply Z.log2_lt_pow2; lia.
Qed.

Lemma land_bits k a b : 0 ≤ k → 0 ≤ a < 2 ^ k → 0 ≤ Z.land a b < 2 ^ k.
Proof.
  intros Hk Ha. assert (Z.land a b = Z.land a b mod 2 ^ k) as ->.
  - rewrite <-(Z.mod_small a (2 ^ k)) at 1 by done. rewrite <-!Z.land_ones by done.
    by rewrite <-!Z.land_assoc, (Z.land_comm b).
  - apply Z.mod_pos_bound. lia.
Qed.

Lemma u8_lor a b : is_u8 a → is_u8 b → is_u8 (Z.lor a b).
Proof. by apply (lor_range 8). Qed.
Lemma u16_lor a b : is_u16 a → is_u16 b → is_u16 (Z.lor a b).
Proof. by apply (lor_range 16). Qed.
Lemma u8_land a b : is_u8 a → is_u8 (Z.land a b).
Proof. by apply (land_bits 8). Qed.
Lemma u16_land a b : is_u16 a → is_u16 (Z.land a b).
Proof. by apply (land_bits 16). Qed.

Lemma is_u64_as x : is_u64 (as_u64 x).
Proof. apply Z.mod_pos_bound. lia. Qed.
Lemma is_u8_as x : is_u8 (as_u8 x).
Proof. apply Z.mod_pos_bound. lia. Qed.

(** ** Inodes *)
Section inodes.
Implicit Types (i : Inode).

Lemma wf_set_mode i x : inode_wf i → is_u16 x → inode_wf (set_mode i x).
Proof. unfold inode_wf. simpl. tauto. Qed.
Lemma wf_set_size i x : inode_wf i → is_u32 x → inode_wf (set_size i x).
Proof. unfold inode_wf. simpl. tauto. Qed.
Lemma wf_set_nlink i x : inode_wf i → is_u16 x → inode_wf (set_nlink i x).
Proof. unfold inode_wf. simpl. tauto. Qed.
Lemma wf_set_block_count i x : inode_wf i → is_u16 x → inode_wf (set_block_count i x).
Proof. unfold inode_wf. simpl. tauto. Qed.
Lemma wf_set_mtime i x : inode_wf i → is_i64 x → inode_wf (set_mtime i x).
Proof. unfold inode_wf. simpl. tauto. Qed.
Lemma wf_set_atime i x : inode_wf i → is_i64 x → inode_wf (set_atime i x).
Proof. unfold inode_wf. simpl. tauto. Qed.
Lemma wf_set_indirect i x : inode_wf i → is_u32 x → inode_wf (set_indirect_block i x).
Proof. unfold inode_wf. simpl. tauto. Qed.
Lemma wf_set_direct i n x l :
  inode_wf i → set_index n x (i_direct_blocks i) = Some l → is_u32 x →
  inode_wf (set_direct_blocks i l).
Proof.
  intros Hi Hl Hx. assert (Forall is_u32 l ∧ zlen l = 10) as [Hf Hz].
  { destruct (set_index_inv is_u32 _ _ _ _ Hl Hx) as [? ->]; [apply Hi|]. split; [done|apply Hi]. }
  unfold inode_wf in *. simpl. tauto.
Qed.
End inodes.
#[export] Hint Resolve wf_set_mode wf_set_size wf_set_nlink wf_set_block_count wf_set_mtime
  wf_set_atime wf_set_indirect wf_set_direct as_u16_range as_u32_range is_u64_as as_i64_range
  u16_lor u16_land : typing.

(** ** Blocks and integers *)
Section basic.
Context (E : event → Prop) `{Build}.

Lemma ty_read_block b : is_u32 b → has_type E is_block (read_block b).
Proof.
  intros Hb. constructor; [done|apply ty_Panic|]. intros d Hd. by apply ty_Ret.
Qed.

Lemma ty_write_block b d :
  is_u32 b → is_block d → E (EvWrite b d) → has_type E (λ _, True) (write_block b d).
Proof. intros Hb Hd He. constructor; try done; [apply ty_Panic|by apply ty_Ret]. Qed.

(** The result of an addition is in range, and exact when the sum is. *)
Lemma ty_arith_u bound x :
  0 < bound → has_type E (λ y, 0 ≤ y < bound ∧ (0 ≤ x < bound → y = x)) (arith_u bound x).
Proof.
  intros Hb. unfold arith_u. destruct ((0 <=? x) && (x <? bound)) eqn:Hx.
  - apply ty_Ret. split; [lia|done].
  - destruct overflow_checks; [apply ty_Panic|]. apply ty_Ret. split; [by apply Z.mod_pos_bound|lia].
Qed.

Lemma ty_arith_u32 x : has_type E is_u32 (arith_u32 x).
Proof. eapply ty_weaken; [by apply ty_arith_u|]. by intros y [Hy _]. Qed.
Lemma ty_arith_u16 x : has_type E (λ y, is_u16 y ∧ (is_u16 x → y = x)) (arith_u16 x).
Proof. by apply ty_arith_u. Qed.
Lemma ty_arith_usize x : has_type E is_u64 (arith_usize x).
Proof. eapply ty_weaken; [by apply ty_arith_u|]. by intros y [Hy _]. Qed.
Lemma ty_arith_i64 x : has_type E is_i64 (arith_i64 x).
Proof.
  unfold arith_i64. destruct (_ && _) eqn:Hx.
  - apply ty_Ret. unfold is_i64. lia.
  - destruct overflow_checks; [apply ty_Panic|]. apply ty_Ret, as_i64_range.
Qed.

Lemma ty_slice a b l :
  Forall is_u8 l → has_type E (λ r, Forall is_u8 r ∧ zlen r = b - a ∧ 0 ≤ a ≤ b) (unwrap (slice a b l)).
Proof.
  intros Hl. apply ty_unwrap. intros r Hr. split_and!; [by eapply slice_Forall|by apply (slice_length a b l)|..];
    apply slice_le in Hr; lia.
Qed.

Lemma ty_copy a b src l :
  Forall is_u8 src → Forall is_u8 l →
  has_type E (λ r, Forall is_u8 r ∧ zlen r = zlen l) (unwrap (copy_from_slice a b src l)).
Proof.
  intros Hs Hl. apply ty_unwrap. intros r Hr. destruct (copy_from_slice_inv _ _ _ _ _ Hr) as [-> Hz].
  split; [by apply Forall_splice|done].
Qed.

Lemma ty_copy_block a b src l :
  Forall is_u8 src → is_block l → has_type E is_block (unwrap (copy_from_slice a b src l)).
Proof.
  intros Hs [Hz Hl]. eapply ty_weaken; [by apply ty_copy|]. intros r [Hr Hzr]. split; congruence.
Qed.

Lemma ty_index (P : Z → Prop) i l : Forall P l → has_type E P (unwrap (index i l)).
Proof. intros Hl. apply ty_unwrap. intros x Hx. by eapply index_Forall. Qed.

Lemma ty_set_index_block i x l :
  is_u8 x → is_block l → has_type E is_block (unwrap (set_index i x l)).
Proof.
  intros Hx [Hz Hl]. apply ty_unwrap. intros r Hr.
  destruct (set_index_inv is_u8 _ _ _ _ Hr Hx Hl) as [Hf Hzr]. split; congruence.
Qed.

Lemma ty_set_direct i n x :
  inode_wf i → is_u32 x →
  has_type E (λ l, inode_wf (set_direct_blocks i l)) (unwrap (set_index n x (i_direct_blocks i))).
Proof. intros Hi Hx. apply ty_unwrap. intros l Hl. by eapply wf_set_direct. Qed.

Lemma ty_read_le_2 d off : Forall is_u8 d → has_type E is_u16 (unwrap (read_le 2 d off)).
Proof. intros Hd. apply ty_unwrap. intros x Hx. by apply (read_le_range 2) in Hx. Qed.

Lemma ty_current_timestamp : has_type E is_i64 current_timestamp.
Proof.
  constructor. intros t. destruct (t <? 0); [apply ty_Panic|]. apply ty_Ret, as_i64_range.
Qed.
End basic.

Lemma is_block_zeros : is_block (zeros BLOCK_SIZE).
Proof. split; [by apply zlen_zeros|apply Forall_zeros]. Qed.
Lemma is_block_u8 d : is_block d → Forall is_u8 d.
Proof. by intros []. Qed.
Lemma u32_u16 x : is_u16 x → is_u32 x.
Proof. unfold is_u16, is_u32. lia. Qed.
Lemma u32_as x : is_u32 (as_u32 x).
Proof. apply as_u32_range. Qed.

#[export] Hint Resolve is_block_zeros is_block_u8 u32_as u32_u16 Forall_to_le Forall_zeros : typing.
#[export] Hint Resolve ty_read_block ty_write_block ty_arith_u32 ty_arith_u16 ty_arith_usize
  ty_arith_i64 ty_slice ty_copy_block ty_index ty_set_index_block ty_set_direct
  ty_read_le_2 ty_current_timestamp : typing.
#[export] Hint Extern 1 (any_event _) => exact I : typing.

(** One step of a typing derivation: the rule for the head of the program, or a lemma of
    the database for the first part of a bind. *)
Ltac ty_step :=
  match goal with
  | |- has_type _ _ (mret _) => apply ty_ret
  | |- has_type _ _ (Ret _) => apply ty_ret
  | |- has_type _ _ Panic => apply ty_Panic
  | |- has_type _ _ (let _ := _ in _) => cbv zeta
  | |- has_type _ _ (?p ≫= _) => eapply ty_bind; [solve [eauto with typing]|intros ??]
  | |- has_type _ _ (if ?b then _ else _) => destruct b eqn:?
  | |- has_type _ _ (match ?o with Some _ => _ | None => _ end) => destruct o eqn:?
  | |- has_type _ _ (let '(_, _) := ?o in _) => destruct o eqn:?
  | |- has_type _ _ _ => solve [eauto with typing]
  end.
Ltac ty := repeat ty_step.

(** ** [superblock.rs] and [bitmap.rs] *)
Section superblock.
Context (E : event → Prop) `{Build}.

Lemma SuperBlock_from_bytes_wf d sb :
  Forall is_u8 d → SuperBlock_from_bytes d = Some sb → superblock_wf sb.
Proof.
  intros Hd Hs. unfold SuperBlock_from_bytes in Hs.
  destruct (slice 0 16 d) as [m|] eqn:Hm; [|done]. simpl in Hs.
  repeat match type of Hs with
         | context [read_le 4 d ?o] =>
             let x := fresh "x" in let Hx := fresh "Hx" in
             destruct (read_le 4 d o) as [x|] eqn:Hx; [|done]; simpl in Hs;
             apply (read_le_range 4) in Hx; [|done]
         end.
  simplify_eq. unfold superblock_wf. simpl. split_and!; try done.
  - by apply slice_length in Hm.
  - by eapply slice_Forall.
Qed.

Lemma ty_read_superblock : has_type E superblock_wf read_superblock.
Proof.
  unfold read_superblock. eapply ty_bind; [by apply ty_read_block|]. intros d [_ Hd].
  eapply ty_bind; [apply ty_unwrap; intros sb; by apply SuperBlock_from_bytes_wf|].
  intros sb Hsb. by ty.
Qed.

Lemma is_block_superblock sb : superblock_wf sb → is_block (superblock_block sb).
Proof. intros Hsb. split; auto with simplefs. Qed.

Lemma ty_write_superblock sb :
  superblock_wf sb → has_type any_event (λ _, True) (write_superblock sb).
Proof. intros Hsb. apply ty_write_block; [done|by apply is_block_superblock|done]. Qed.

Lemma ty_init_superblock : has_type any_event superblock_wf init_superblock.
Proof.
  unfold init_superblock. cbv zeta. eapply ty_bind.
  - apply ty_write_superblock, initial_superblock_wf.
  - intros _ _. apply ty_ret, initial_superblock_wf.
Qed.

Lemma u8_mask n : is_u8 (snd (locate n)).
Proof. apply is_u8_as. Qed.

(** The block of the map that holds a bit. *)
Lemma u32_map_block n : is_u32 n → is_u32 (1 + as_u32 (fst (locate n) / BLOCK_SIZE)).
Proof.
  unfold is_u32. intros Hn. simpl. rewrite as_usize_id by dlia. consts.
  rewrite as_u32_id by (unfold is_u32; dlia). dlia.
Qed.
End superblock.
#[export] Hint Resolve ty_read_superblock ty_write_superblock ty_init_superblock u8_lor u8_land
  u8_mask u32_map_block superblock_wf_with_free_blocks superblock_wf_with_root_inode : typing.

Section bitmap.
Context `{Build}.

(** [mark_allocated] and [mark_free] *)
Lemma ty_mark_allocated sb n :
  superblock_wf sb → is_u32 n → has_type any_event superblock_wf (mark_allocated sb n).
Proof.
  intros Hsb Hn. unfold mark_allocated. pose proof (u8_mask n). pose proof (u32_map_block n Hn).
  destruct (locate n) as [byte_idx mask]. cbn [fst snd] in *. cbv zeta. ty. auto with typing.
Qed.

Lemma ty_mark_free sb n :
  superblock_wf sb → is_u32 n → has_type any_event superblock_wf (mark_free sb n).
Proof.
  intros Hsb Hn. unfold mark_free. pose proof (u8_mask n). pose proof (u32_map_block n Hn).
  destruct (locate n) as [byte_idx mask]. cbn [fst snd] in *. cbv zeta. ty. auto with typing.
Qed.

Lemma ty_is_allocated (E : event → Prop) n :
  is_u32 n → has_type E (λ _, True) (is_allocated n).
Proof.
  intros Hn. unfold is_allocated. pose proof (u32_map_block n Hn).
  destruct (locate n) as [byte_idx mask]. cbn [fst snd] in *. cbv zeta. by ty.
Qed.
End bitmap.
#[export] Hint Resolve ty_mark_allocated ty_mark_free ty_is_allocated : typing.

(** A block that an allocation may return. *)
Definition block_type (r : option u32 * SuperBlock) : Prop :=
  (∀ b, fst r = Some b → is_u32 b) ∧ superblock_wf (snd r).

Section allocate.
Context `{Build}.

Lemma u32_map_index i n : is_u32 n → i ∈ seqZ 0 (as_usize n) → is_u32 (1 + as_u32 i).
Proof.
  unfold is_u32. intros Hn Hi%elem_of_seqZ. rewrite as_usize_id in Hi by lia.
  rewrite as_u32_id by (unfold is_u32; lia). lia.
Qed.

Lemma ty_allocate_block sb :
  superblock_wf sb → has_type any_event block_type (allocate_block sb).
Proof.
  intros Hsb. unfold allocate_block. destruct (sb_free_blocks sb =? 0); [by apply ty_ret|].
  eapply ty_bind; [apply ty_read_superblock|]. intros sbl Hsbl. cbv zeta.
  eapply (ty_bind _ (flow_type (λ _, True) block_type)).
  - apply ty_for_in; [done|]. intros i [] Hi _.
    pose proof (u32_map_index i (sb_bitmap_blocks sbl) ltac:(apply Hsbl) Hi) as Hb.
    eapply ty_bind; [by apply ty_read_block|]. intros d Hd.
    destruct (scan_bytes 0 d) as [[off k]|]; [|by apply ty_ret].
    destruct (_ <=? _); [by apply ty_ret|].
    eapply ty_bind; [apply ty_mark_allocated; [done|apply u32_as]|].
    intros sb' Hsb'. apply ty_ret. split; [|done]. intros b [= <-]. apply u32_as.
  - intros [[]|r] Hr; apply ty_ret; [|exact Hr]. by split.
Qed.

Lemma ty_init_bitmap_events (E : event → Prop) sb :
  superblock_wf sb →
  (∀ i d, i ∈ seqZ 0 (as_usize (sb_bitmap_blocks sb)) → is_block d → E (EvWrite (1 + as_u32 i) d)) →
  has_type E (λ _, True) (init_bitmap sb).
Proof.
  intros Hsb HE. unfold init_bitmap. cbv zeta.
  eapply (ty_bind _ (Forall is_u8)).
  - apply ty_for_each; [apply Forall_zeros|]. intros n map _ Hmap.
    pose proof (u8_mask n). destruct (locate n) as [byte_idx mask]. cbn [fst snd] in *.
    destruct (_ <? _); [|by apply ty_ret].
    eapply ty_bind; [by apply ty_index|]. intros byte Hbyte.
    apply ty_unwrap. intros r Hr. by eapply set_index_inv; [exact Hr|apply u8_lor|].
  - intros map Hmap. apply ty_for_each; [done|]. intros i [] Hi _.
    pose proof (u32_map_index i (sb_bitmap_blocks sb) ltac:(apply Hsb) Hi) as Hb.
    eapply ty_bind; [by apply ty_slice|]. intros src (Hsrc & _).
    eapply ty_bind; [apply ty_copy_block; [done|apply is_block_zeros]|]. intros d Hd.
    apply ty_write_block; [done|done|by apply HE].
Qed.

Lemma ty_init_bitmap sb :
  superblock_wf sb → has_type any_event (λ _, True) (init_bitmap sb).
Proof. intros Hsb. by apply ty_init_bitmap_events. Qed.
End allocate.
#[export] Hint Resolve ty_allocate_block ty_init_bitmap : typing.

(** ** [inode.rs] *)
Section inode.
Context (E : event → Prop) `{Build}.
Implicit Types (i : Inode) (sb : SuperBlock).

Lemma Inode_from_bytes_type n d i :
  is_u32 n → Forall is_u8 d → zlen d = INODE_SIZE → Inode_from_bytes n d = Some i → inode_wf i.
Proof.
  intros Hn Hd Hl Hi. destruct (Inode_from_bytes_wf n d Hn Hd Hl) as (i' & Hi' & Hwf & _). congruence.
Qed.

Lemma ty_new_file n : is_u32 n → has_type E inode_wf (new_file n).
Proof.
  intros Hn. unfold new_file. ty. unfold inode_wf. simpl.
  split_and!; try done; try (apply (bool_decide_unpack _); vm_compute; exact I).
Qed.
Lemma ty_new_dir n : is_u32 n → has_type E inode_wf (new_dir n).
Proof.
  intros Hn. unfold new_dir. ty. unfold inode_wf. simpl.
  split_and!; try done; try (apply (bool_decide_unpack _); vm_compute; exact I).
Qed.

Lemma ty_get_block i n :
  inode_wf i → has_type E (λ o, ∀ b, o = Some b → is_u32 b) (get_block i n).
Proof.
  intros Hi. unfold get_block. destruct (_ <? _).
  - eapply (ty_bind _ is_u32); [apply ty_index, Hi|]. intros b Hb. apply ty_ret.
    destruct (b =? 0); [done|]. by intros ? [= <-].
  - destruct (negb _); [|by apply ty_ret]. cbv zeta.
    eapply ty_bind; [apply ty_read_block, Hi|]. intros d Hd.
    destruct (_ <? _); [by apply ty_ret|].
    eapply ty_bind; [by apply ty_read_le_2, is_block_u8|]. intros b Hb%u32_u16. apply ty_ret.
    destruct (b =? 0); [done|]. by intros ? [= <-].
Qed.

Lemma ty_set_block i n b :
  inode_wf i → is_u32 b → has_type any_event inode_wf (set_block i n b).
Proof.
  intros Hi Hb. unfold set_block. pose proof Hi as (_&_&_&_&_&_&_&_&_&_&_&_&Hind).
  destruct (_ <? _); cbv zeta.
  - ty. done.
  - ty. done.
Qed.

Lemma ty_inode_block_location sb n :
  has_type E (λ r, is_u32 (fst r)) (inode_block_location sb n).
Proof. unfold inode_block_location. ty. done. Qed.

Lemma ty_read_inode sb n : is_u32 n → has_type E inode_wf (read_inode sb n).
Proof.
  intros Hn. unfold read_inode.
  eapply ty_bind; [apply ty_inode_block_location|]. intros [b off] Hb. simpl in Hb.
  eapply ty_bind; [by apply ty_read_block|]. intros d Hd.
  eapply ty_bind; [by apply ty_slice, is_block_u8|]. intros data (Hdata & Hl & _).
  apply ty_unwrap. intros i. apply Inode_from_bytes_type; [done|done|]. rewrite Hl. lia.
Qed.
End inode.

Lemma ty_write_inode `{Build} sb i :
  inode_wf i → has_type any_event (λ _, True) (write_inode sb i).
Proof.
  intros Hi. unfold write_inode.
  eapply ty_bind; [apply ty_inode_block_location|]. intros [b off] Hb. simpl in Hb.
  eapply ty_bind; [by apply ty_read_block|]. intros d Hd. cbv zeta.
  eapply ty_bind; [apply ty_copy_block; [apply Inode_to_bytes_u8, Hi|done]|]. intros d' Hd'.
  by apply ty_write_block.
Qed.
#[export] Hint Resolve ty_new_file ty_new_dir ty_get_block ty_set_block ty_read_inode ty_write_inode
  : typing.

(** ** [directory.rs] *)
Definition found_type (e : DirEntry * u32 * usize) : Prop :=
  let '(entry, b, _) := e in entry_wf entry ∧ is_u32 b.

Section directory.
Context (E : event → Prop) `{Build}.
Implicit Types (i : Inode) (sb : SuperBlock) (name : bytes).

Lemma DirEntry_from_bytes_wf d e : Forall is_u8 d → DirEntry_from_bytes d = Some e → entry_wf e.
Proof.
  intros Hd He. unfold DirEntry_from_bytes in He.
  destruct (read_le 4 d 0) as [no|] eqn:Hno; [|done]; simpl in He.
  destruct (index 4 d) as [ty|] eqn:Hty; [|done]; simpl in He.
  destruct (index 5 d) as [len|] eqn:Hlen; [|done]; simpl in He.
  destruct (slice 6 _ d) as [name|] eqn:Hname; [|done]. simpl in He. simplify_eq.
  unfold entry_wf. simpl. split_and!.
  - by apply (read_le_range 4) in Hno.
  - by eapply index_Forall.
  - by eapply index_Forall.
  - by apply slice_length in Hname.
  - by eapply slice_Forall.
Qed.

Lemma DirEntry_new_type n name is_dir :
  is_u32 n → Forall is_u8 name → entry_wf (DirEntry_new n name is_dir).
Proof.
  intros Hn Hname. unfold DirEntry_new, entry_wf. cbn [de_inode de_entry_type de_name_len de_name].
  change MAX_NAME_LEN with 28. split_and!.
  - done.
  - by destruct is_dir.
  - apply is_u8_as.
  - rewrite zlen_splice, zlen_zeros; [done..|]. rewrite zlen_zeros by done.
    unfold zlen. rewrite length_take. lia.
  - apply Forall_splice; [by apply Forall_take|apply Forall_zeros].
Qed.

Lemma ty_entry_at d off : is_block d → has_type E entry_wf (entry_at d off).
Proof.
  intros Hd. unfold entry_at. eapply ty_bind; [by apply ty_slice, is_block_u8|].
  intros data (Hdata & _). apply ty_unwrap. intros e. by apply DirEntry_from_bytes_wf.
Qed.

Lemma name_str_u8 e s : entry_wf e → name_str e = Some s → Forall is_u8 s.
Proof.
  intros (_ & _ & _ & _ & Hn). unfold name_str.
  destruct (slice _ _ _) as [s'|] eqn:Hs; [|done]. simpl. intros [= <-].
  destruct (utf8_valid s'); [by eapply slice_Forall|].
  apply (bool_decide_unpack _). vm_compute. exact I.
Qed.

Lemma ty_name_str e : entry_wf e → has_type E (Forall is_u8) (unwrap (name_str e)).
Proof. intros He. apply ty_unwrap. intros s. by apply name_str_u8. Qed.

Lemma ty_dir_lookup i : inode_wf i → has_type E (Forall found_type) (dir_lookup i).
Proof.
  intros Hi. unfold dir_lookup. cbv zeta. apply ty_for_each; [done|]. intros k entries _ He.
  eapply ty_bind; [by apply ty_get_block|]. intros [b|] Hb; [|by apply ty_ret].
  eapply ty_bind; [by apply ty_read_block, Hb|]. intros d Hd.
  apply ty_for_each; [done|]. intros j entries' _ He'. cbv zeta.
  eapply ty_bind; [by apply ty_entry_at|]. intros e Hwf. apply ty_ret.
  destruct (DirEntry_is_empty e); [done|]. apply Forall_app. split; [done|].
  constructor; [|done]. split; [done|by apply Hb].
Qed.

Lemma ty_dir_find i name :
  inode_wf i → has_type E (λ o, ∀ e, o = Some e → found_type e) (dir_find i name).
Proof.
  intros Hi. unfold dir_find. cbv zeta.
  eapply (ty_bind _ (flow_type (λ _, True) found_type)).
  - apply ty_for_in; [done|]. intros k [] _ _.
    eapply ty_bind; [by apply ty_get_block|]. intros [b|] Hb; [|by apply ty_ret].
    eapply ty_bind; [by apply ty_read_block, Hb|]. intros d Hd.
    apply ty_for_in; [done|]. intros j [] _ _. cbv zeta.
    eapply ty_bind; [by apply ty_entry_at|]. intros e Hwf.
    destruct (DirEntry_is_empty e); [by apply ty_ret|].
    eapply ty_bind; [by apply ty_name_str|]. intros s _. apply ty_ret.
    destruct (bool_decide _); [|done]. split; [done|by apply Hb].
  - intros [[]|e] He; apply ty_ret; [done|]. by intros ? [= <-].
Qed.
End directory.
#[export] Hint Resolve ty_entry_at ty_name_str ty_dir_lookup ty_dir_find : typing.

Section directory_writes.
Context `{Build}.
Implicit Types (i : Inode) (sb : SuperBlock) (name : bytes).

(** What [dir_add_entry] returns besides its result. *)
Definition dir_type {A} (r : A * SuperBlock * Inode) : Prop :=
  superblock_wf (snd (fst r)) ∧ inode_wf (snd r).

Lemma ty_dir_add_entry sb i name n is_dir :
  superblock_wf sb → inode_wf i → Forall is_u8 name → is_u32 n →
  has_type any_event dir_type (dir_add_entry sb i name n is_dir).
Proof.
  intros Hsb Hi Hname Hn. unfold dir_add_entry.
  pose proof (DirEntry_to_bytes_u8 _ (DirEntry_new_type n name is_dir Hn Hname)) as Hbytes.
  eapply ty_bind; [by apply ty_dir_find|]. intros o _.
  destruct (bool_decide _); [by apply ty_ret|]. cbv zeta.
  eapply (ty_bind _ (flow_type (λ _, True) inode_wf)).
  - apply ty_for_in; [done|]. intros k [] _ _.
    eapply ty_bind; [by apply ty_get_block|]. intros o' Ho'.
    eapply ty_bind; [by apply (ty_unwrap _ is_u32)|]. intros b Hb.
    eapply ty_bind; [by apply ty_read_block|]. intros d Hd.
    apply ty_for_in; [done|]. intros j [] _ _. cbv zeta.
    eapply ty_bind; [by apply ty_entry_at|]. intros e _.
    destruct (DirEntry_is_empty e); [|by apply ty_ret].
    eapply ty_bind; [by apply ty_copy_block|]. intros d' Hd'. ty. simpl. auto with typing.
  - intros [[]|i'] Hi'; [|by apply ty_ret]. destruct (_ <? _); [|by apply ty_ret].
    eapply ty_bind; [by apply ty_allocate_block|]. intros [[b|] sb'] [Hb Hsb'];
      cbn [fst snd] in *; [|by apply ty_ret]. specialize (Hb b eq_refl).
    eapply ty_bind; [apply ty_copy_block; [done|apply is_block_zeros]|]. intros d' Hd'.
    eapply ty_bind; [by apply ty_write_block|]. intros _ _.
    eapply ty_bind; [by apply ty_set_direct|]. intros l Hl.
    eapply ty_bind; [apply ty_arith_u16|]. intros c [Hc _].
    eapply ty_bind; [apply ty_arith_u32|]. intros s Hs.
    eapply ty_bind; [apply ty_current_timestamp|]. intros now Hnow.
    eapply ty_bind; [apply ty_write_inode; auto with typing|]. intros _ _.
    apply ty_ret. split; simpl; auto with typing.
Qed.

Lemma ty_dir_remove_entry sb i name :
  inode_wf i → has_type any_event (λ r, inode_wf (snd r)) (dir_remove_entry sb i name).
Proof.
  intros Hi. unfold dir_remove_entry.
  eapply ty_bind; [by apply ty_dir_find|]. intros [[[e b] off]|] He; [|by apply ty_ret].
  destruct (He _ eq_refl) as [_ Hb].
  eapply ty_bind; [by apply ty_read_block|]. intros d Hd.
  eapply ty_bind; [by apply ty_set_index_block|]. intros d' Hd'. ty. simpl. auto with typing.
Qed.

Lemma ty_path_resolve E sb path :
  superblock_wf sb →
  has_type E (λ r, ∀ i p c, r = Ok (i, p, c) → inode_wf i ∧ inode_wf p) (path_resolve sb path).
Proof.
  intros Hsb. assert (is_u32 (sb_root_inode sb)) as Hroot by apply Hsb.
  unfold path_resolve. cbv zeta. destruct (bool_decide _).
  { eapply ty_bind; [by apply ty_read_inode|]. intros i Hi. apply ty_ret. by intros ??? [= <- <-]. }
  destruct (bool_decide _).
  { eapply ty_bind; [by apply ty_read_inode|]. intros i Hi. apply ty_ret. by intros ??? [= <- <-]. }
  eapply ty_bind; [by apply ty_read_inode|]. intros root Hr.
  eapply (ty_bind _ (flow_type inode_wf (λ r, ∀ i p c, r = Ok (i, p, c) → inode_wf i ∧ inode_wf p))).
  - apply ty_for_in; [done|]. intros [idx c] i _ Hi. unfold resolve_step.
    destruct (_ || _); [by apply ty_ret|].
    eapply ty_bind; [by apply ty_dir_find|]. intros [[[e b] off]|] He;
      [|by destruct (_ =? _); apply ty_ret].
    destruct (He _ eq_refl) as [(Hno & _) _].
    eapply ty_bind; [by apply ty_read_inode|]. intros child Hc.
    destruct (_ =? _); [apply ty_ret; by intros ??? [= <- <-]|].
    by destruct (_ =? _); apply ty_ret.
  - intros [i|r] Hr'; by apply ty_ret.
Qed.
End directory_writes.
#[export] Hint Resolve ty_dir_add_entry ty_dir_remove_entry ty_path_resolve : typing.

(** ** [fs.rs] *)

(** The values of a [FileAttr]. *)
Definition attr_type (a : FileAttr) : Prop :=
  is_u64 (fa_ino a) ∧ is_u64 (fa_size a) ∧ is_u64 (fa_blocks a) ∧
  is_u64 (fa_atime a) ∧ is_u64 (fa_mtime a) ∧ is_u64 (fa_ctime a) ∧ is_u64 (fa_crtime a) ∧
  is_u16 (fa_perm a) ∧ is_u32 (fa_nlink a) ∧ is_u32 (fa_uid a) ∧ is_u32 (fa_gid a) ∧
  is_u32 (fa_rdev a) ∧ is_u32 (fa_flags a) ∧ is_u32 (fa_blksize a).

Lemma inode_to_attr_type i : inode_wf i → attr_type (inode_to_attr i).
Proof.
  intros Hi. unfold attr_type, inode_to_attr, system_time_from_timestamp. simpl.
  split_and!; try apply is_u64_as; try apply u32_as; try done. apply Hi.
Qed.

Definition reply_type {A} (T : A → Prop) (r : result A errno) : Prop :=
  match r with Ok a => T a | Err _ => True end.

(** The replies of the handlers that change the file system come with a superblock. *)
Definition change_type {A} (T : A → Prop) (r : result A errno * SuperBlock) : Prop :=
  reply_type T (fst r) ∧ superblock_wf (snd r).

Lemma to_str_or_u8 s name : Forall is_u8 name → Forall is_u8 (str s) → Forall is_u8 (to_str_or s name).
Proof. unfold to_str_or. by destruct (utf8_valid name). Qed.

Lemma str_unknown_u8 : Forall is_u8 (str "unknown").
Proof. apply (bool_decide_unpack _). vm_compute. exact I. Qed.
#[export] Hint Resolve inode_to_attr_type to_str_or_u8 str_unknown_u8 : typing.

Section readers.
Context (E : event → Prop) `{Build}.
Implicit Types (i : Inode) (sb : SuperBlock) (name : bytes).

Lemma ty_getattr sb ino : has_type E (reply_type attr_type) (SimpleFS.getattr sb ino).
Proof.
  unfold SimpleFS.getattr. eapply ty_bind; [apply ty_read_inode, u32_as|]. intros i Hi.
  destruct (_ =? _); apply ty_ret; simpl; auto with typing.
Qed.

Lemma ty_lookup sb parent name : has_type E (reply_type attr_type) (SimpleFS.lookup sb parent name).
Proof.
  unfold SimpleFS.lookup. eapply ty_bind; [apply ty_read_inode, u32_as|]. intros p Hp.
  eapply ty_bind; [by apply ty_dir_find|]. intros [[[e b] off]|] He; [|by apply ty_ret].
  destruct (He _ eq_refl) as [(Hno & _) _].
  eapply ty_bind; [by apply ty_read_inode|]. intros c Hc. apply ty_ret. simpl. auto with typing.
Qed.

Lemma ty_open sb uid gid ino flags : is_u64 ino → has_type E (reply_type is_u64) (SimpleFS.open sb uid gid ino flags).
Proof.
  intros Hino. unfold SimpleFS.open. eapply ty_bind; [apply ty_read_inode, u32_as|]. intros i Hi.
  cbv zeta. by destruct (_ && _); apply ty_ret.
Qed.

Lemma ty_readdir `{DirBuffer} sb ino offset buf :
  has_type E (λ _, True) (SimpleFS.readdir sb ino offset buf).
Proof.
  unfold SimpleFS.readdir. eapply ty_bind; [apply ty_read_inode, u32_as|]. intros i Hi.
  destruct (_ =? _); [by apply ty_ret|].
  eapply ty_bind; [by apply ty_dir_lookup|]. intros entries Hentries.
  eapply (ty_bind _ (flow_type (λ _, True) (λ _, True))).
  - apply ty_for_in; [done|]. intros [[e b] off] [k buf'] Hin _. cbv beta iota.
    destruct (_ <=? _); [|by apply ty_ret]. cbv zeta.
    rewrite Forall_forall in Hentries. destruct (Hentries _ Hin) as [He _].
    eapply ty_bind; [by apply ty_name_str|]. intros s _.
    destruct (add _ _ _ _ _) as [full buf'']. by destruct full; apply ty_ret.
  - intros [[k b]|b] _; by apply ty_ret.
Qed.

(** The loop of [read]: every iteration takes a byte at least. *)
Lemma ty_read_loop i remaining copied k off result :
  inode_wf i → 0 ≤ off < PAGE_SIZE → Forall is_u8 result →
  has_type E (λ r, Forall is_u8 (snd r) ∧ zlen (snd r) = zlen result)
    (SimpleFS.read_loop i remaining copied k off result).
Proof.
  intros Hi Hoff Hres. unfold SimpleFS.read_loop. consts.
  apply (ty_loop _ (λ '(remaining, copied, k, off, r),
           0 ≤ off < 510 ∧ Forall is_u8 r ∧ zlen r = zlen result) _
           (λ '(remaining, copied, k, off, r), Z.to_nat remaining)); [done|lia|].
  intros [[[[rem cop] k'] off'] r] (Ho & Hr & Hz).
  destruct (Z.leb_spec rem 0); [by apply ty_ret|].
  eapply ty_bind; [by apply ty_get_block|]. intros [b|] Hb; [|by apply ty_ret].
  eapply ty_bind; [by apply ty_read_block, Hb|]. intros d Hd. cbv zeta.
  eapply ty_bind; [by apply ty_slice, is_block_u8|]. intros src (Hsrc & _).
  eapply ty_bind; [by apply ty_copy|]. intros r' [Hr' Hz']. apply ty_ret. simpl.
  consts. split_and!; [lia|lia|done|congruence|lia].
Qed.

Lemma ty_read sb ino offset size :
  0 ≤ size →
  has_type E (reply_type (λ d, Forall is_u8 d ∧ zlen d ≤ size)) (SimpleFS.read sb ino offset size).
Proof.
  intros Hs. unfold SimpleFS.read. eapply ty_bind; [apply ty_read_inode, u32_as|]. intros i Hi.
  destruct (_ <=? _); [by apply ty_ret|].
  eapply ty_bind; [apply ty_arith_i64|]. intros left Hleft. cbv zeta.
  eapply ty_bind; [apply ty_read_loop; [done|apply Z.mod_pos_bound; by consts|apply Forall_zeros]|].
  intros [copied r] [Hr Hz]. cbv beta iota. cbn [fst snd] in *.
  eapply ty_bind; [apply ty_unwrap; intros d Hd; exact (conj (slice_Forall is_u8 _ _ _ _ Hd Hr)
                     (conj (slice_length _ _ _ _ Hd) (slice_le _ _ _ _ Hd)))|].
  intros d (Hd & Hl & Hle). apply ty_ret. simpl. split; [done|].
  pose proof (u32_as left) as [? _]. rewrite zlen_zeros in Hz by lia. lia.
Qed.

Lemma ty_find_free_inode sb candidate limit :
  0 ≤ candidate ≤ limit → is_u32 limit →
  has_type E (λ o, ∀ n, o = Some n → is_u32 n) (SimpleFS.find_free_inode sb candidate limit).
Proof.
  unfold is_u32. intros Hc Hl. unfold SimpleFS.find_free_inode.
  apply (ty_loop _ (λ c, 0 ≤ c ≤ limit) _ (λ c, Z.to_nat (limit - c))); [done|lia|].
  intros c Hcl. eapply ty_bind; [apply ty_read_inode; unfold is_u32; lia|]. intros i Hi.
  destruct (_ =? _).
  { apply ty_ret. simpl. intros n [= <-]. unfold is_u32. lia. }
  cbv zeta. destruct (Z.ltb_spec limit (c + 1)); apply ty_ret; [done|]. simpl. split; lia.
Qed.
End readers.
#[export] Hint Resolve ty_getattr ty_lookup ty_open ty_readdir ty_read ty_find_free_inode : typing.

Section writers.
Context `{Build}.
Implicit Types (i : Inode) (sb : SuperBlock) (name : bytes).

Lemma ty_create sb parent name :
  superblock_wf sb → Forall is_u8 name →
  has_type any_event (change_type (λ r, attr_type (fst r) ∧ is_u64 (snd r))) (SimpleFS.create sb parent name).
Proof.
  intros Hsb Hname. unfold SimpleFS.create. cbv zeta.
  eapply ty_bind; [apply ty_read_inode, u32_as|]. intros p Hp.
  eapply ty_bind; [by apply ty_dir_find|]. intros e _.
  destruct (bool_decide _); [by apply ty_ret|].
  eapply ty_bind; [by apply ty_find_free_inode|]. intros [n|] Hn; [|by apply ty_ret].
  specialize (Hn n eq_refl).
  eapply ty_bind; [by apply ty_new_file|]. intros i Hi.
  assert (inode_wf (set_mode i (Z.lor (as_u16 S_IFREG) 420))) as Hi'
    by (apply wf_set_mode; [done|by apply u16_lor]).
  eapply ty_bind; [by apply ty_write_inode|]. intros _ _.
  eapply ty_bind; [apply ty_dir_add_entry; auto with typing|].
  intros [[r sb'] p'] [Hsb' Hp']. cbn [fst snd] in *. destruct r as [u|er]; apply ty_ret.
  - split; [|done]. split; [by apply inode_to_attr_type|apply is_u64_as].
  - by split.
Qed.

Lemma is_block_dir_block self parent :
  is_u32 self → is_u32 parent → is_block (SimpleFS.dir_block self parent).
Proof.
  intros Hs Hp. unfold SimpleFS.dir_block. cbv zeta.
  assert (∀ n name, is_u32 n → Forall is_u8 name →
    Forall is_u8 (DirEntry_to_bytes (DirEntry_new n name true)) ∧
    zlen (DirEntry_to_bytes (DirEntry_new n name true)) = 34) as Hd.
  { intros n name Hn Hname. pose proof (DirEntry_new_type n name true Hn Hname) as Hwf.
    split; [by apply DirEntry_to_bytes_u8|]. apply zlen_DirEntry_to_bytes, Hwf. }
  destruct (Hd self (str ".")) as [H1 L1]; [done|apply (bool_decide_unpack _); vm_compute; exact I|].
  destruct (Hd parent (str "..")) as [H2 L2]; [done|apply (bool_decide_unpack _); vm_compute; exact I|].
  change DIR_ENTRY_SIZE with 34. consts.
  assert (zlen (zeros 512) = 512) as Hz by (by apply zlen_zeros).
  assert (zlen (splice 0 (DirEntry_to_bytes (DirEntry_new self (str ".") true)) (zeros 512)) = 512) as Hz1
    by (rewrite zlen_splice; lia).
  split.
  - consts. rewrite zlen_splice; lia.
  - apply Forall_splice; [done|]. apply Forall_splice; [done|apply Forall_zeros].
Qed.

Lemma ty_mkdir sb parent name :
  superblock_wf sb → Forall is_u8 name →
  has_type any_event (change_type attr_type) (SimpleFS.mkdir sb parent name).
Proof.
  intros Hsb Hname. unfold SimpleFS.mkdir. cbv zeta.
  eapply ty_bind; [apply ty_read_inode, u32_as|]. intros p Hp.
  eapply ty_bind; [by apply ty_dir_find|]. intros e _.
  destruct (bool_decide _); [by apply ty_ret|].
  eapply ty_bind; [by apply ty_find_free_inode|]. intros [n|] Hn; [|by apply ty_ret].
  specialize (Hn n eq_refl).
  eapply ty_bind; [by apply ty_new_dir|]. intros i Hi.
  eapply ty_bind; [by apply ty_allocate_block|]. intros [[b|] sb'] [Hb Hsb'];
    cbn [fst snd] in *; [|by apply ty_ret]. specialize (Hb b eq_refl).
  eapply ty_bind; [apply ty_write_block; [done|by apply is_block_dir_block; [|apply u32_as]|done]|].
  intros _ _. eapply ty_bind; [by apply ty_set_direct|]. intros l Hl.
  assert (inode_wf (set_size (set_block_count (set_direct_blocks i l) 1) (as_u32 PAGE_SIZE))) as Hi'
    by (apply wf_set_size; [by apply wf_set_block_count|apply u32_as]).
  eapply ty_bind; [by apply ty_write_inode|]. intros _ _.
  eapply ty_bind; [apply ty_dir_add_entry; auto with typing|].
  intros [[r sb''] p'] [Hsb'' Hp']. cbn [fst snd] in *. destruct r as [u|er]; [|apply ty_Panic].
  apply ty_ret. split; [by apply inode_to_attr_type|done].
Qed.

Lemma ty_free_blocks sb i :
  superblock_wf sb → inode_wf i → has_type any_event superblock_wf (SimpleFS.free_blocks sb i).
Proof.
  intros Hsb Hi. unfold SimpleFS.free_blocks. apply ty_for_each; [done|]. intros k sb' _ Hsb'.
  eapply ty_bind; [by apply ty_get_block|]. intros [b|] Hb; [|by apply ty_ret].
  apply ty_mark_free; [done|by apply Hb].
Qed.

Lemma ty_rmdir sb parent name :
  superblock_wf sb → has_type any_event (change_type (λ _, True)) (SimpleFS.rmdir sb parent name).
Proof.
  intros Hsb. unfold SimpleFS.rmdir. cbv zeta.
  eapply ty_bind; [apply ty_read_inode, u32_as|]. intros p Hp.
  eapply ty_bind; [by apply ty_dir_find|]. intros [[[e b] off]|] He; [|by apply ty_ret].
  destruct (He _ eq_refl) as [(Hno & _) _].
  eapply ty_bind; [by apply ty_read_inode|]. intros c Hc.
  destruct (_ =? _); [by apply ty_ret|].
  eapply ty_bind; [by apply ty_dir_lookup|]. intros entries _.
  destruct (_ <? _); [by apply ty_ret|].
  eapply ty_bind; [by apply ty_free_blocks|]. intros sb' Hsb'.
  eapply ty_bind; [by apply ty_dir_remove_entry|]. intros [[u|er] p'] Hp'; [|apply ty_Panic].
  cbv zeta. eapply ty_bind; [by apply ty_write_inode, wf_set_nlink|]. intros _ _. by apply ty_ret.
Qed.

Lemma ty_unlink sb parent name :
  superblock_wf sb → has_type any_event (change_type (λ _, True)) (SimpleFS.unlink sb parent name).
Proof.
  intros Hsb. unfold SimpleFS.unlink. cbv zeta.
  eapply ty_bind; [apply ty_read_inode, u32_as|]. intros p Hp.
  eapply ty_bind; [by apply ty_dir_find|]. intros [[[e b] off]|] He; [|by apply ty_ret].
  destruct (He _ eq_refl) as [(Hno & _) _].
  eapply ty_bind; [by apply ty_read_inode|]. intros i Hi.
  destruct (negb _); [by apply ty_ret|].
  eapply ty_bind; [by apply ty_free_blocks|]. intros sb1 Hsb1.
  eapply (ty_bind _ superblock_wf).
  { destruct (negb _); [apply ty_mark_free; [done|apply Hi]|by apply ty_ret]. }
  intros sb2 Hsb2. eapply ty_bind; [by apply ty_write_inode, wf_set_nlink|]. intros _ _.
  eapply ty_bind; [by apply ty_dir_remove_entry|]. intros [[u|er] p'] Hp'; [|apply ty_Panic].
  by apply ty_ret.
Qed.

Lemma ty_setattr sb ino mode uid gid size :
  has_type any_event (reply_type attr_type) (SimpleFS.setattr sb ino mode uid gid size).
Proof.
  unfold SimpleFS.setattr. eapply ty_bind; [apply ty_read_inode, u32_as|]. intros i Hi. cbv zeta.
  eapply ty_bind; [apply ty_current_timestamp|]. intros now Hnow.
  match goal with |- context [set_mtime ?j now] => assert (inode_wf j) as Hj end.
  { destruct mode as [m|]; [|done]. apply wf_set_mode; [done|].
    apply u16_lor; [|apply as_u16_range]. apply u16_land, Hi. }
  eapply ty_bind; [apply ty_write_inode; auto with typing|]. intros _ _. apply ty_ret. simpl.
  auto with typing.
Qed.
End writers.
#[export] Hint Resolve ty_create ty_mkdir ty_free_blocks ty_rmdir ty_unlink ty_setattr : typing.

Section write.
Context `{Build}.
Implicit Types (i : Inode) (sb : SuperBlock).

(** One more block for a file; the count grows by one unless it overflows. *)
Lemma ty_grow_step sb i :
  superblock_wf sb → inode_wf i →
  has_type any_event
    (λ r, superblock_wf (snd r) ∧ ∀ j, fst r = Some j → inode_wf j ∧
       (is_u16 (i_block_count i + 1) → i_block_count j = i_block_count i + 1))
    (SimpleFS.grow_step sb i).
Proof.
  intros Hsb Hi. unfold SimpleFS.grow_step.
  eapply ty_bind; [by apply ty_allocate_block|]. intros [[b|] sb1] [Hb Hsb1]; cbn [fst snd] in *;
    [|by apply ty_ret]. specialize (Hb b eq_refl). cbv zeta.
  eapply (ty_bind _ (λ r, inode_wf (fst r) ∧ i_block_count (fst r) = i_block_count i ∧
                          superblock_wf (snd r))).
  - destruct (_ <? _).
    { eapply ty_bind; [by apply ty_set_direct|]. intros l Hl. by apply ty_ret. }
    destruct (_ =? _).
    + eapply ty_bind; [by apply ty_allocate_block|]. intros [o sb2] [Ho Hsb2]. cbn [fst snd] in *.
      eapply ty_bind; [by apply (ty_unwrap _ is_u32)|]. intros ind Hind.
      eapply ty_bind; [apply ty_copy_block; [apply Forall_to_le|apply is_block_zeros]|]. intros d Hd.
      eapply ty_bind; [by apply ty_write_block|]. intros _ _. apply ty_ret. simpl.
      split_and!; [by apply wf_set_indirect|done|done].
    + assert (is_u32 (i_indirect_block i)) as Hind by apply Hi.
      eapply ty_bind; [by apply ty_read_block|]. intros d Hd.
      eapply ty_bind; [apply ty_copy_block; [apply Forall_to_le|done]|]. intros d' Hd'.
      eapply ty_bind; [by apply ty_write_block|]. intros _ _. by apply ty_ret.
  - intros [j sb2] (Hj & Hc & Hsb2). cbn [fst snd] in *.
    eapply ty_bind; [apply ty_write_block; [done|apply is_block_zeros|done]|]. intros _ _.
    eapply ty_bind; [apply ty_arith_u16|]. intros c [Hcu Hce]. apply ty_ret. simpl.
    split; [done|]. intros ? [= <-]. split; [by apply wf_set_block_count|]. simpl.
    rewrite Hc in Hce. done.
Qed.

Lemma ty_grow sb i n :
  superblock_wf sb → inode_wf i → is_u16 n →
  has_type any_event (λ r, superblock_wf (snd r) ∧ ∀ j, fst r = Some j → inode_wf j)
    (SimpleFS.grow sb i n).
Proof.
  unfold is_u16. intros Hsb Hi Hn. unfold SimpleFS.grow.
  assert (∀ j, inode_wf j → 0 ≤ i_block_count j) as Hpos.
  { intros j (_ & _ & _ & _ & _ & _ & Hc & _). unfold is_u16 in Hc. lia. }
  apply (ty_loop _ (λ r, inode_wf (fst r) ∧ superblock_wf (snd r)) _
           (λ r, Z.to_nat (n - i_block_count (fst r)))); [done|simpl; specialize (Hpos i Hi); lia|].
  intros [j sb'] [Hj Hsb']. cbn [fst snd] in *. specialize (Hpos j Hj).
  destruct (Z.ltb_spec (i_block_count j) n); [|apply ty_ret; split; [done|]; by intros ? [= <-]].
  eapply ty_bind; [by apply ty_grow_step|]. intros [[j'|] sb''] [Hsb'' Hj']; cbn [fst snd] in *;
    [|by apply ty_ret]. destruct (Hj' _ eq_refl) as [Hwf Hc].
  apply ty_ret. simpl. rewrite Hc by (unfold is_u16; lia). split; [done|lia].
Qed.

Lemma ty_write_loop i data n k off doff :
  inode_wf i → Forall is_u8 data → 0 ≤ off < PAGE_SIZE →
  has_type any_event (λ _, True) (SimpleFS.write_loop i data n k off doff).
Proof.
  intros Hi Hdata Hoff. unfold SimpleFS.write_loop. consts.
  apply (ty_loop _ (λ '(remaining, k, off, doff), 0 ≤ off < 510) _
           (λ '(remaining, k, off, doff), Z.to_nat remaining)); [done|lia|].
  intros [[[rem k'] off'] doff'] Ho.
  destruct (Z.leb_spec rem 0); [by apply ty_ret|].
  eapply ty_bind; [by apply ty_get_block|]. intros o Hob.
  eapply ty_bind; [by apply (ty_unwrap _ is_u32)|]. intros b Hb.
  eapply ty_bind; [by apply ty_read_block|]. intros d Hd. cbv zeta.
  eapply ty_bind; [by apply ty_slice|]. intros src (Hsrc & _).
  eapply ty_bind; [by apply ty_copy_block|]. intros d' Hd'.
  eapply ty_bind; [by apply ty_write_block|]. intros _ _. apply ty_ret. simpl. consts. lia.
Qed.

Lemma ty_write sb ino offset data :
  superblock_wf sb → Forall is_u8 data →
  has_type any_event (change_type is_u32) (SimpleFS.write sb ino offset data).
Proof.
  intros Hsb Hdata. unfold SimpleFS.write.
  eapply ty_bind; [apply ty_read_inode, u32_as|]. intros i Hi. cbv zeta.
  destruct (_ =? _); [by apply ty_ret|].
  eapply ty_bind; [apply ty_arith_usize|]. intros s1 _.
  eapply ty_bind; [apply ty_arith_usize|]. intros s2 _.
  eapply ty_bind; [apply ty_arith_usize|]. intros s3 _.
  destruct (_ <? _); [by apply ty_ret|].
  eapply ty_bind; [apply ty_grow; [done|done|apply as_u16_range]|].
  intros [[j|] sb'] [Hsb' Hj]; cbn [fst snd] in *; [|by apply ty_ret]. specialize (Hj j eq_refl).
  eapply ty_bind; [apply ty_write_loop; [done|done|apply Z.mod_pos_bound; by consts]|]. intros _ _.
  eapply ty_bind; [apply ty_arith_usize|]. intros n _.
  eapply ty_bind; [apply ty_current_timestamp|]. intros now Hnow.
  match goal with |- context [set_mtime ?j now] => assert (inode_wf (set_mtime j now)) as Hm end.
  { destruct (_ <? _); auto with typing. }
  eapply ty_bind; [apply ty_write_inode; apply wf_set_atime; [done|apply Hm]|]. intros _ _.
  apply ty_ret. split; [apply u32_as|done].
Qed.
End write.
#[export] Hint Resolve ty_grow ty_write : typing.

Section mount.
Context `{Build}.

Lemma ty_format : has_type any_event superblock_wf SimpleFS.format_new_fs.
Proof.
  unfold SimpleFS.format_new_fs.
  eapply ty_bind; [apply ty_init_superblock|]. intros sb Hsb.
  eapply ty_bind; [by apply ty_init_bitmap|]. intros _ _. cbv zeta.
  eapply ty_bind; [by apply ty_new_dir|]. intros i Hi.
  eapply ty_bind; [by apply ty_allocate_block|]. intros [o sb'] [Ho Hsb']. cbn [fst snd] in *.
  eapply ty_bind; [by apply (ty_unwrap _ is_u32)|]. intros b Hb.
  eapply ty_bind; [apply ty_write_block; [done|by apply is_block_dir_block|done]|]. intros _ _.
  eapply ty_bind; [by apply ty_set_direct|]. intros l Hl.
  eapply ty_bind; [apply ty_write_inode; repeat first [apply wf_set_nlink|apply wf_set_size
    |apply wf_set_block_count|apply u32_as|done]|]. intros _ _.
  assert (superblock_wf (with_root_inode 1 sb')) as Hr by (by apply superblock_wf_with_root_inode).
  eapply ty_bind; [by apply ty_write_superblock|]. intros _ _. by apply ty_ret.
Qed.

Lemma ty_truncate n (E : event → Prop) :
  0 ≤ n < 9223372036854775808 → E (EvTruncate n) → has_type E (λ _, True) (truncate n).
Proof. intros Hn He. constructor; try done; [apply ty_Panic|by apply ty_Ret]. Qed.

Lemma ty_mount : has_type any_event superblock_wf SimpleFS.mount.
Proof.
  unfold SimpleFS.mount. eapply (ty_bind _ is_u64).
  { constructor; [apply ty_Panic|]. intros n Hn. by apply ty_Ret. }
  intros n _. assert (has_type any_event superblock_wf (truncate DISK_SIZE;; SimpleFS.format_new_fs)) as Hf.
  { eapply ty_bind; [by apply ty_truncate|]. intros _ _. apply ty_format. }
  destruct (n =? 0); [exact Hf|].
  eapply ty_bind; [apply ty_catch, ty_read_superblock|]. intros [sb|] Hsb; [|exact Hf].
  apply ty_ret. by apply Hsb.
Qed.
End mount.
#[export] Hint Resolve ty_format ty_mount : typing.

(** ** Requests *)

(** The values the arguments of a request can have. *)
Definition op_type (o : op) : Prop :=
  match o with
  | OpRead _ _ k => is_u32 k
  | OpWrite _ _ data => Forall is_u8 data
  | OpCreate _ name | OpMkdir _ name => Forall is_u8 name
  | OpOpen n _ _ _ => is_u64 n
  | _ => True
  end.

#[export] Instance op_type_dec o : Decision (op_type o).
Proof. destruct o; simpl; apply _. Defined.

(** The values of the reply to a request. *)
Definition answer_type `{DirBuffer} (o : op) (a : answer) : Prop :=
  match a with
  | Attr a => attr_type a
  | Data d => Forall is_u8 d ∧ match o with OpRead _ _ k => zlen d ≤ k | _ => True end
  | Count k => is_u32 k
  | Handle h => is_u64 h
  | Listing _ => match o with OpReaddir _ _ _ => True | _ => False end
  | Nothing | Error _ => True
  end.

Lemma reply_of_type `{DirBuffer} {A} o (T : A → Prop) (f : A → answer) r :
  reply_type T r → (∀ x, T x → answer_type o (f x)) → answer_type o (reply_of f r).
Proof. intros Hr Hf. destruct r; simpl; [by apply Hf|done]. Qed.

Lemma ty_exec `{Build} `{DirBuffer} o sb :
  superblock_wf sb → op_type o →
  has_type any_event (λ r, answer_type o (fst r) ∧ superblock_wf (snd r)) (exec o sb).
Proof.
  intros Hsb Ho. destruct o as [p name|n|n mode uid gid sz|n off k|n off data|p name|p name|p name|p name|n off k|n uid gid flags];
    cbn [exec op_type] in *.
  - eapply ty_bind; [apply ty_lookup|]. intros r Hr. apply ty_ret. split; [|done].
    by eapply reply_of_type.
  - eapply ty_bind; [apply ty_getattr|]. intros r Hr. apply ty_ret. split; [|done].
    by eapply reply_of_type.
  - eapply ty_bind; [apply ty_setattr|]. intros r Hr. apply ty_ret. split; [|done].
    by eapply reply_of_type.
  - eapply ty_bind; [apply (ty_read _ _ _ _ k); apply Ho|]. intros r Hr. apply ty_ret. split; [|done].
    by eapply reply_of_type.
  - eapply ty_bind; [by apply ty_write|]. intros [r sb'] [Hr Hsb']. apply ty_ret. split; [|done].
    by eapply reply_of_type.
  - eapply ty_bind; [by apply ty_create|]. intros [r sb'] [Hr Hsb']. apply ty_ret. split; [|done].
    eapply reply_of_type; [exact Hr|]. by intros [? ?] [? ?].
  - eapply ty_bind; [by apply ty_mkdir|]. intros [r sb'] [Hr Hsb']. apply ty_ret. split; [|done].
    by eapply reply_of_type.
  - eapply ty_bind; [by apply ty_unlink|]. intros [r sb'] [Hr Hsb']. apply ty_ret. split; [|done].
    by eapply reply_of_type.
  - eapply ty_bind; [by apply ty_rmdir|]. intros [r sb'] [Hr Hsb']. apply ty_ret. split; [|done].
    by eapply reply_of_type.
  - eapply ty_bind; [apply ty_readdir|]. intros r _. apply ty_ret. split; [by destruct r|done].
  - eapply ty_bind; [by apply ty_open|]. intros r Hr. apply ty_ret. split; [|done].
    by eapply reply_of_type.
Qed.

Lemma ty_exec_all `{Build} `{DirBuffer} l sb :
  superblock_wf sb → Forall op_type l →
  has_type any_event (λ r, Forall2 answer_type l (fst r) ∧ superblock_wf (snd r)) (exec_all l sb).
Proof.
  intros Hsb Hl. revert sb Hsb. induction Hl as [|o l Ho _ IH]; intros sb Hsb; cbn [exec_all].
  - by apply ty_ret.
  - eapply ty_bind; [by apply ty_exec|]. intros [a sb1] [Ha Hsb1]. cbn [fst snd] in *.
    eapply ty_bind; [by apply IH|]. intros [r sb2] [Hr Hsb2]. cbn [fst snd] in *.
    apply ty_ret. split; [by constructor|done].
Qed.

Lemma ty_serve `{Build} `{DirBuffer} l :
  Forall op_type l →
  has_type any_event (λ r, Forall2 answer_type l (fst r) ∧ superblock_wf (snd r)) (serve l).
Proof.
  intros Hl. eapply ty_bind; [apply ty_mount|]. intros sb Hsb. by apply ty_exec_all.
Qed.

(** ** Properties *)
Section properties.
Context `{Clock} `{Build} `{DirBuffer}.
Implicit Types (sb : SuperBlock) (w : world) (name path : bytes).

(** C6: the file system survives any image.  Whatever is in the image file, a corrupt
    file system included, the mount and any requests after it end, with replies whose
    fields have the widths of their Rust types, or a panic; no loop runs forever, no
    buffer is overrun.  The image file stays made of blocks, wherever the machine stops. *)
Theorem sessions_type_sound w (l : list op) :
  image_typed (w_img w) → Forall op_type l →
  (∀ i, crash_image (serve l) w i → image_typed i) ∧
  match run (serve l) w with
  | Done (r, sb) w' => Forall2 answer_type l r ∧ superblock_wf sb ∧ image_typed (w_img w')
  | Panicked w' => image_typed (w_img w')
  | NoMeaning => False
  end.
Proof.
  intros Hw Hl. pose proof (ty_serve l Hl) as Ht. split.
  - intros i. by eapply crash_typed.
  - destruct (run_typed _ _ _ _ Ht Hw) as [_ Hr].
    destruct (run (serve l) w) as [[r sb] w'|w'|]; [|done|done]. by destruct Hr as [[] ?].
Qed.

(** C20: the file system survives a failing disk.  When system calls fail at any time, or
    report anything, the mount and any requests after it still end with typed replies or a
    panic. *)
Theorem sessions_survive_io_errors `{L : Libc} (fd : Z) (s : os) (t : nat) (l : list op) :
  (∀ fd s n buf s', sys_read fd BLOCK_SIZE s = (n, buf, s') → n = BLOCK_SIZE → is_block buf) →
  Forall op_type l →
  match Libc.exec fd (serve l) s t with
  | ODone (r, sb) _ _ => Forall2 answer_type l r ∧ superblock_wf sb
  | OPanicked _ _ => True
  | ONoMeaning => False
  end.
Proof.
  intros Hread Hl. pose proof (exec_typed Hread _ _ _ fd s t (ty_serve l Hl)) as Hr.
  by destruct (Libc.exec fd (serve l) s t) as [[r sb] s' t'|s' t'|].
Qed.

(** A program that writes nothing and leaves the image as it is, however it ends. *)
Definition silent {A} (p : prog A) (w : world) : Prop :=
  trace p w = [] ∧ ∃ w', outcome_world (run p w) = Some w' ∧ w_img w' = w_img w.

Lemma typed_silent {A} (T : A → Prop) (p : prog A) w :
  has_type no_event T p → image_typed (w_img w) → silent p w.
Proof.
  intros Hp Hw. pose proof (typed_no_event _ _ _ Hp Hw) as Ht. split; [done|].
  destruct (run_typed _ _ _ _ Hp Hw) as [_ Hr].
  destruct (outcome_world (run p w)) as [w'|] eqn:Ho.
  - exists w'. split; [done|]. by rewrite (run_trace _ _ _ Ho), Ht.
  - by destruct (run p w).
Qed.

(** C21: the handlers that answer questions never write.  On any image, whatever the
    arguments, [getattr], [lookup], [readdir], [open], [read] and [path_resolve] make no
    write and leave the image as it was, whether they reply or panic. *)
Theorem readers_silent sb w (ino : u64) name path (offset : Z) (size uid gid : u32)
    (flags : i32) (buf : buffer) :
  image_typed (w_img w) → superblock_wf sb → is_u64 ino → is_u32 size →
  silent (SimpleFS.getattr sb ino) w ∧ silent (SimpleFS.lookup sb ino name) w ∧
  silent (SimpleFS.readdir sb ino offset buf) w ∧ silent (SimpleFS.open sb uid gid ino flags) w ∧
  silent (SimpleFS.read sb ino offset size) w ∧ silent (path_resolve sb path) w.
Proof.
  intros Hw Hsb Hino [Hs _].
  split_and!; (eapply typed_silent; [|exact Hw]); [apply ty_getattr|apply ty_lookup|apply ty_readdir
    |by apply ty_open|by apply ty_read|by apply ty_path_resolve].
Qed.
End properties.

(** ** Witnesses: an image with a valid superblock and garbage behind it *)
#[local] Instance zero_clock : Clock := λ _, 0.
#[local] Instance checked_build : Build := true.
#[local] Existing Instance list_buffer.

Definition garbage : bytes := replicate 512 255.
Definition corrupt_image : world :=
  World (Image DISK_SIZE {[ 0 := superblock_block initial_superblock; 1 := garbage; 6 := garbage ]}) 0.

Lemma corrupt_image_typed : image_typed (w_img corrupt_image).
Proof. apply (bool_decide_unpack _). vm_compute. exact I. Qed.

Definition requests : list op :=
  [OpLookup 1 (str "f"); OpCreate 1 (str "f"); OpWrite 1000 (-1) [1; 2; 3]; OpUnlink 1 (str "f");
   OpReaddir 1 0 4096; OpOpen 1000 1000 1000 2].

Lemma requests_type : Forall op_type requests.
Proof. apply (bool_decide_unpack _). vm_compute. exact I. Qed.

Lemma sessions_type_sound_witness :
  image_typed (w_img corrupt_image) ∧ Forall op_type requests ∧
  (∀ i, crash_image (serve requests) corrupt_image i → image_typed i) ∧
  match run (serve requests) corrupt_image with
  | Done (r, sb) w' => Forall2 answer_type requests r ∧ superblock_wf sb ∧ image_typed (w_img w')
  | Panicked w' => image_typed (w_img w')
  | NoMeaning => False
  end.
Proof.
  split; [exact corrupt_image_typed|]. split; [exact requests_type|].
  apply (sessions_type_sound corrupt_image requests corrupt_image_typed requests_type).
Defined.

(** A C library on which every call fails. *)
#[local] Instance failing_libc : Libc := {|
  os := ();
  sys_open _ _ _ s := (-1, s);
  sys_lseek _ _ _ s := (-1, s);
  sys_read _ _ s := (-1, [], s);
  sys_write _ _ _ s := (-1, s);
  sys_fsync _ s := (-1, s);
  sys_fstat _ s := (-1, 0, s);
  sys_ftruncate _ _ s := (-1, s);
  sys_close _ s := (-1, s);
|}.

Lemma sessions_survive_io_errors_witness :
  match Libc.exec (L := failing_libc) 3 (serve requests) () 0 with
  | ODone (r, sb) _ _ => Forall2 answer_type requests r ∧ superblock_wf sb
  | OPanicked _ _ => True
  | ONoMeaning => False
  end.
Proof.
  apply (sessions_survive_io_errors (L := failing_libc) 3 () 0 requests); [|exact requests_type].
  intros fd s n buf s' [= <- _ _] [=].
Defined.

Lemma readers_silent_witness :
  silent (SimpleFS.getattr initial_superblock 1) corrupt_image ∧
  silent (SimpleFS.lookup initial_superblock 1 (str "f")) corrupt_image ∧
  silent (SimpleFS.readdir initial_superblock 1 0 no_entries) corrupt_image ∧
  silent (SimpleFS.open initial_superblock 0 0 1 2) corrupt_image ∧
  silent (SimpleFS.read initial_superblock 1 0 4096) corrupt_image ∧
  silent (path_resolve initial_superblock (str "/a/b")) corrupt_image.
Proof.
  apply (readers_silent initial_superblock corrupt_image 1 (str "f") (str "/a/b") 0 4096 0 0 2 no_entries);
    [exact corrupt_image_typed|exact initial_superblock_wf|by split|by split].
Defined.
