(* ===== verification/Main.v ===== *)
(** * Main: [src/main.rs], the process

    [main] takes the arguments and the state of the operating system and gives the lines
    it prints, how it ends and the state it leaves; [fuser::mount2], which calls the
    handlers until the file system is unmounted, and the rest of [fuser] are a parameter
    ([Fuser]).  [main_other] is the program on systems without FUSE.  The messages of
    other modules ([SimpleFS::mount] reports a damaged image) and of panics are not among
    the lines, and printing does not fail. *)
From stdpp Require Import pretty.
From S2P Require Import Prelude Disk Libc Superblock Bitmap Inode Directory Fs Format.
From S2P Require Import Spec Consistency Room Namespace Mount Nodes Refinement Sessions.

(** ** Output *)

(** [println!] and [eprintln!] *)
Inductive line : Type :=
| Stdout (l : bytes)
| Stderr (l : bytes).

(** [{}] for an unsigned integer *)
Definition decimal (n : Z) : bytes := str (pretty (Z.to_N n)).

(** [{:.1}] for [n as f64 / (1024.0 * 1024.0)]: the division by a power of two is exact;
    a digit is enough when [n] is a multiple of a tenth of a megabyte, as [DISK_SIZE]. *)
Definition megabytes (n : Z) : bytes :=
  decimal (n / 1048576) ++ str "." ++ decimal (n mod 1048576 * 10 / 1048576).

(** ** [fuser] *)

(** The part of [fuser] that [main] uses, over the operating system: its errors, and
    [mount2] on the file system (its descriptor and its superblock), the mount point and
    the options.  [mount2] owns the file system and drops it. *)
Class Fuser `{L : Libc} := {
  MountOption : Type;
  fuse_error : Type;
  display : fuse_error → bytes;
  mount2 : Z → SuperBlock → bytes → list MountOption → os → nat →
    os_outcome (result () fuse_error);
}.

(** How a process ends: [main] returns, [process::exit], a panic. *)
Inductive status : Type :=
| Returned
| Exited (code : i32)
| Aborted.

(** ** The process *)
Section main.
Context `{L : Libc} `{Clock} `{Build} `{F : !Fuser}.

(** What a process prints, how it ends, and the state and the clock after it; [None] is
    an execution the model gives no meaning to. *)
Definition ended : Type := option (list line * status * os * nat).

(** [SimpleFS::mount(disk_path)]; a panic drops the open disk. *)
Definition SimpleFS_mount (disk_path : bytes) (s : os) (t : nat)
  : os_outcome (Z * SuperBlock) :=
  match Disk_open disk_path s with
  | (None, s) => OPanicked s t
  | (Some fd, s) =>
      match Libc.exec fd SimpleFS.mount s t with
      | ODone sb s t => ODone (fd, sb) s t
      | OPanicked s t => OPanicked (Disk_drop fd s) t
      | ONoMeaning => ONoMeaning
      end
  end.

(** The usage message. *)
Definition usage (arg0 : bytes) : list line :=
  [Stderr (str "用法: " ++ arg0 ++ str " <挂载点> [FUSE选项...]");
   Stderr [];
   Stderr (str "示例:");
   Stderr (str "  " ++ arg0 ++ str " /tmp/mnt");
   Stderr (str "  " ++ arg0 ++ str " -f /tmp/mnt          # 前台运行");
   Stderr (str "  " ++ arg0 ++ str " -f -s /tmp/mnt      # 单线程模式");
   Stderr [];
   Stderr (str "首次运行时会在当前目录创建 disk.img 作为虚拟磁盘。");
   Stderr (str "后续运行会加载已有的 disk.img。")].

(** The lines before the disk is opened. *)
Definition mounting (mount_point : bytes) : list line :=
  [Stdout (str "[SimpleFS] 正在挂载文件系统到 " ++ mount_point ++ str " ...");
   Stdout (str "[SimpleFS] 磁盘映像: disk.img (" ++ megabytes DISK_SIZE ++ str "MB)");
   Stdout (str "[SimpleFS] 块大小: " ++ decimal BLOCK_SIZE ++ str "B, 总块数: " ++ decimal MAX_BLOCKS)].

(** The lines after it. *)
Definition ready_lines (mount_point : bytes) (sb : SuperBlock) : list line :=
  [Stdout (str "[SimpleFS] 空闲块数: " ++ decimal (sb_free_blocks sb));
   Stdout (str "[SimpleFS] 改进特性:");
   Stdout (str "           - 位图空闲空间管理 (Bitmap)");
   Stdout (str "           - 层次化目录结构");
   Stdout (str "           - Unix权限系统");
   Stdout (str "[SimpleFS] 文件系统已就绪，在另一个终端中操作 " ++ mount_point ++ str " 即可测试");
   Stdout (str "[SimpleFS] 按 Ctrl+C 退出...")].

(** The lines about an error of [mount2]. *)
Definition troubleshooting (mount_point e : bytes) : list line :=
  [Stderr (str "[SimpleFS] 挂载失败: " ++ e);
   Stderr (str "[SimpleFS] 故障排查建议:");
   Stderr (str "  1. 删除旧的 disk.img: rm disk.img");
   Stderr (str "  2. 确保挂载点存在: mkdir -p " ++ mount_point);
   Stderr (str "  3. 如果挂载点卡住: fusermount -u " ++ mount_point ++ str " 2>/dev/null; umount " ++
           mount_point ++ str " 2>/dev/null");
   Stderr (str "  4. 确保 fuse 内核模块已加载: sudo modprobe fuse")].

(** [main] on Linux *)
Definition main (args : list bytes) (s : os) (t : nat) : ended :=
  if zlen args <? 2 then
    match index 0 args with
    | None => Some ([], Aborted, s, t)
    | Some arg0 => Some (usage arg0, Exited 1, s, t)
    end
  else
    match last args with
    | None => Some ([], Aborted, s, t)
    | Some mount_point =>
        let out := mounting mount_point in
        match SimpleFS_mount (str "disk.img") s t with
        | ONoMeaning => None
        | OPanicked s t => Some (out, Aborted, s, t)
        | ODone (fd, sb) s t =>
            let out := out ++ ready_lines mount_point sb in
            let options : list MountOption := [] in
            match mount2 fd sb mount_point options s t with
            | ONoMeaning => None
            | OPanicked s t => Some (out, Aborted, s, t)
            | ODone (Ok _) s t => Some (out, Returned, s, t)
            | ODone (Err e) s t =>
                Some (out ++ troubleshooting mount_point (display e), Exited 1, s, t)
            end
        end
    end.
End main.

(** [main] on other systems *)
Definition main_other : list line :=
  [Stdout (str "=== SimpleFS Rust 实现 ===");
   Stdout [];
   Stdout (str "核心模块编译成功！");
   Stdout [];
   Stdout (str "模块列表:");
   Stdout (str "  - disk.rs        磁盘I/O层（libc系统调用）");
   Stdout (str "  - superblock.rs  超级块管理");
   Stdout (str "  - bitmap.rs      位图空闲空间管理 ★改进一");
   Stdout (str "  - inode.rs       inode结构与权限 ★改进二、三");
   Stdout (str "  - directory.rs   层次目录操作 ★改进二");
   Stdout (str "  - fs.rs          FUSE文件系统trait实现");
   Stdout [];
   Stdout (str "磁盘布局:");
   Stdout (str "  块大小: " ++ decimal BLOCK_SIZE ++ str "B");
   Stdout (str "  总块数: " ++ decimal MAX_BLOCKS);
   Stdout (str "  磁盘容量: " ++ megabytes DISK_SIZE ++ str "MB");
   Stdout [];
   Stdout (str "改进要点:");
   Stdout (str "  1. 位图(bitmap)替代链式空闲块管理 —— O(1)分配/释放");
   Stdout (str "  2. 层次化目录结构 —— 支持 /a/b/c 多级路径");
   Stdout (str "  3. Unix权限系统 —— rwx权限位 + chmod支持");
   Stdout [];
   Stdout (str "━━━━━━━━━━━━━━━━━━━━━━━━━━━━━━━━━━━━");
   Stdout (str "⚠  FUSE 挂载仅在 Linux 上支持");
   Stdout (str "   请在 Ubuntu 上运行: cargo build --release");
   Stdout (str "   然后: ./target/release/simplefs /tmp/mnt");
   Stdout (str "━━━━━━━━━━━━━━━━━━━━━━━━━━━━━━━━━━━━")].

Example megabytes_disk : megabytes DISK_SIZE = str "10.0".
Proof. reflexivity. Qed.

(** ** The image file

    What POSIX says of the file "disk.img" when it is opened and closed: [image_file s i]
    says that it is closed and has the contents [i], which are empty before the first
    run. *)
Class ImageFile (L : Libc) (P : Posix L) := {
  image_file : os → image → Prop;
  open_law s i :
    image_file s i →
    ∃ fd s', sys_open (str "disk.img") (Z.lor Libc.O_RDWR O_CREAT) 438 s = (fd, s') ∧
      0 ≤ fd ∧ contents s' fd i;
  close_law s fd i : contents s fd i → image_file (Disk_drop fd s) i;
}.

(** What [mount2] does, as [fuser] documents it: it calls the handlers for one request
    after the other, here the requests [l], returns when the file system is unmounted, and
    drops it. *)
Definition serves `{L : Libc} `{Clock} `{Build} `{DirBuffer} (F : Fuser) (l : list op) : Prop :=
  ∀ fd sb mount_point s t,
    mount2 fd sb mount_point [] s t =
      match Libc.exec fd (exec_all l sb) s t with
      | ODone _ s t => ODone (Ok ()) (Disk_drop fd s) t
      | OPanicked s t => OPanicked (Disk_drop fd s) t
      | ONoMeaning => ONoMeaning
      end.

Section process.
Context `{L : Libc} `{P : !Posix L} `{I : !ImageFile L P} `{Clock} `{Build} `{DirBuffer}.
Implicit Types (w : world) (args : list bytes).

Lemma run_SimpleFS_mount s w sb w' :
  image_file s (w_img w) → run SimpleFS.mount w = Done sb w' →
  ∃ fd s', SimpleFS_mount (str "disk.img") s (w_ticks w) = ODone (fd, sb) s' (w_ticks w') ∧
    contents s' fd (w_img w').
Proof.
  intros Hf Hrun. destruct (open_law s _ Hf) as (fd & s1 & Hopen & Hfd & Hc).
  pose proof (exec_related fd SimpleFS.mount s1 w Hc) as Hr. rewrite Hrun in Hr.
  unfold SimpleFS_mount, Disk_open. rewrite bool_decide_false by (by vm_compute; set_solver).
  rewrite Hopen. Z_false (fd <? 0).
  destruct (Libc.exec fd SimpleFS.mount s1 (w_ticks w)) as [a s2 t|s2 t|]; [|done|done].
  destruct Hr as (-> & Hc' & ->). by exists fd, s2.
Qed.

(** A process that serves a session. *)
Lemma run_main (F : Fuser) args mount_point s w l r sb w1 sb' w' :
  2 ≤ zlen args → last args = Some mount_point → serves F l →
  image_file s (w_img w) → run SimpleFS.mount w = Done sb w1 →
  run (exec_all l sb) w1 = Done (r, sb') w' →
  ∃ s', main args s (w_ticks w) =
          Some (mounting mount_point ++ ready_lines mount_point sb, Returned, s', w_ticks w') ∧
    image_file s' (w_img w').
Proof.
  intros Hargs Hlast Hserves Hf Hmount Hrun. unfold main. Z_false (zlen args <? 2). rewrite Hlast.
  destruct (run_SimpleFS_mount s w sb w1 Hf Hmount) as (fd & s1 & -> & Hc). cbv zeta.
  rewrite Hserves. pose proof (exec_related fd (exec_all l sb) s1 w1 Hc) as Hr. rewrite Hrun in Hr.
  destruct (Libc.exec fd (exec_all l sb) s1 (w_ticks w1)) as [a s2 t|s2 t|]; [|done|done].
  destruct Hr as (_ & Hc' & ->). exists (Disk_drop fd s2). split; [done|]. by apply close_law.
Qed.

(** ** Properties *)

(** C5: the program, from the first start to the second.  Started with a mount point on
    an empty image file, the process formats it, serves its requests and returns; started
    again it finds, without a write, the disk that the first one left, which holds the
    tree of the specification, and serves the next requests on it.  Both processes print
    the banner with the number of blocks that are free on the disk they start from, and
    at the end the image file holds the tree of the specification for all the requests. *)
Theorem main_persists (F1 F2 : Fuser) args1 args2 mp1 mp2 s w (l1 l2 : list op) :
  clock_ok → image_file s (w_img w) → image_ok w → present_superblock w = None → no_stale_inodes w →
  2 ≤ zlen args1 → last args1 = Some mp1 → 2 ≤ zlen args2 → last args2 = Some mp2 →
  serves F1 l1 → serves F2 l2 →
  ready_all fresh_tree (l1 ++ l2) → fits ∅ fresh_tree (l1 ++ l2) →
  ∃ sb1 s1 t1 sb2 s2 t2 sb w2,
    main (F := F1) args1 s (w_ticks w) = Some (mounting mp1 ++ ready_lines mp1 sb1, Returned, s1, t1) ∧
    main (F := F2) args2 s1 t1 = Some (mounting mp2 ++ ready_lines mp2 sb2, Returned, s2, t2) ∧
    (∃ w0, run SimpleFS.mount w = Done sb1 w0 ∧ sb_free_blocks sb1 = free_count w0 ∧
       abs None sb1 w0 = fresh_tree) ∧
    (∃ w1, image_file s1 (w_img w1) ∧ t1 = w_ticks w1 ∧ run SimpleFS.mount w1 = Done sb2 w1 ∧
       sb_free_blocks sb2 = free_count w1 ∧ abs None sb2 w1 = snd (spec_all l1 fresh_tree)) ∧
    image_file s2 (w_img w2) ∧ mounted sb w2 ∧
    abs None sb w2 = snd (spec_all (l1 ++ l2) fresh_tree).
Proof.
  intros Hclock Hf Hok Hnone Hs Ha1 Hl1 Ha2 Hl2 HF1 HF2.
  rewrite ready_all_app, fits_app, spec_all_app. cbn [snd]. intros [Hr1 Hr2] [Hs1 Hs2].
  destruct (run_mount_fresh Hclock w Hok Hnone Hs) as (sb1 & w0 & Hmount & Hm & Habs & Hu).
  rewrite <-Habs in *.
  destruct (run_exec_all Hclock l1 ∅ sb1 w0 Hm Hu Hr1 Hs1) as (r1 & sb2 & w1 & Hrun1 & Hm1 & _ & Habs1 & Hu1).
  rewrite <-Habs1 in *.
  destruct (run_exec_all Hclock l2 _ sb2 w1 Hm1 Hu1 Hr2 Hs2) as (r2 & sb3 & w2 & Hrun2 & Hm2 & _ & Habs2 & _).
  destruct (run_main F1 args1 mp1 s w l1 r1 sb1 w0 sb2 w1) as (s1 & Hmain1 & Hf1); try done.
  destruct (run_main F2 args2 mp2 s1 w1 l2 r2 sb2 w1 sb3 w2) as (s2 & Hmain2 & Hf2); try done.
  { apply remount_same, Hm1. }
  exists sb1, s1, (w_ticks w1), sb2, s2, (w_ticks w2), sb3, w2. split_and!; try done.
  - exists w0. split_and!; [done|apply Hm|done].
  - exists w1. split_and!; [done|done|by apply remount_same, Hm1|apply Hm1|done].
Qed.

(** Without a mount point the program prints how to use it and exits with code 1; it
    panics when even its own name is missing.  In both cases it calls nothing: no image
    file is created. *)
Theorem main_usage (F : Fuser) args s t :
  zlen args < 2 →
  main args s t =
    match args with
    | [] => Some ([], Aborted, s, t)
    | arg0 :: _ => Some (usage arg0, Exited 1, s, t)
    end.
Proof.
  intros Ha. unfold main. assert (zlen args <? 2 = true) as -> by lia. by destruct args.
Qed.

(** The mount point is the last argument and the options before it are ignored: the
    process does the same without them. *)
Theorem main_ignores_options (F : Fuser) arg0 opts mp s t :
  main (arg0 :: opts ++ [mp]) s t = main [arg0; mp] s t.
Proof.
  unfold main. assert (zlen (arg0 :: opts ++ [mp]) <? 2 = false) as ->.
  { apply Z.ltb_ge. unfold zlen. rewrite length_cons, length_app. cbn [length]. lia. }
  change (zlen [arg0; mp] <? 2) with false. rewrite app_comm_cons, last_snoc. done.
Qed.
End process.

(** ** Witnesses: the file system with one file of [Libc], and a [fuser] that serves the
    requests it is given *)
#[local] Instance zero_clock : Clock := λ _, 0.
#[local] Instance checked_build : Build := true.
#[local] Existing Instance list_buffer.

#[local, program] Instance one_image_file : ImageFile one_file_libc one_file_posix := {|
  image_file s i := one_file_contents s 3 i;
|}.
Next Obligation. intros s i Hf. by exists 3, s. Qed.
Next Obligation. by intros s fd i (-> & Hc). Qed.

Definition serving (l : list op) : Fuser (L := one_file_libc) := {|
  MountOption := ();
  fuse_error := ();
  display _ := str "error";
  mount2 fd sb _ _ s t :=
    match Libc.exec fd (exec_all l sb) s t with
    | ODone _ s t => ODone (Ok ()) (Disk_drop fd s) t
    | OPanicked s t => OPanicked (Disk_drop fd s) t
    | ONoMeaning => ONoMeaning
    end;
|}.

(** A [fuser] that cannot mount. *)
Definition refusing : Fuser (L := one_file_libc) := {|
  MountOption := ();
  fuse_error := ();
  display _ := str "Permission denied";
  mount2 fd _ _ _ s t := ODone (Err ()) (Disk_drop fd s) t;
|}.

Definition no_image : os (Libc := one_file_libc) := OneFile (Image 0 ∅) 0.

Lemma main_persists_witness :
  let args := [str "simplefs"; str "/tmp/mnt"] in
  ∃ sb1 s1 t1 sb2 s2 t2 sb w2,
    main (F := serving tour) args no_image 0 =
      Some (mounting (str "/tmp/mnt") ++ ready_lines (str "/tmp/mnt") sb1, Returned, s1, t1) ∧
    main (F := serving (churn ++ churn ++ churn)) args s1 t1 =
      Some (mounting (str "/tmp/mnt") ++ ready_lines (str "/tmp/mnt") sb2, Returned, s2, t2) ∧
    (∃ w0, run SimpleFS.mount empty_image = Done sb1 w0 ∧ sb_free_blocks sb1 = free_count w0 ∧
       abs None sb1 w0 = fresh_tree) ∧
    (∃ w1, image_file (ImageFile := one_image_file) s1 (w_img w1) ∧ t1 = w_ticks w1 ∧
       run SimpleFS.mount w1 = Done sb2 w1 ∧ sb_free_blocks sb2 = free_count w1 ∧
       abs None sb2 w1 = snd (spec_all tour fresh_tree)) ∧
    image_file (ImageFile := one_image_file) s2 (w_img w2) ∧ mounted sb w2 ∧
    abs None sb w2 = snd (spec_all session fresh_tree).
Proof.
  apply (main_persists (serving tour) (serving (churn ++ churn ++ churn)) [str "simplefs"; str "/tmp/mnt"]
           [str "simplefs"; str "/tmp/mnt"] (str "/tmp/mnt") (str "/tmp/mnt") no_image empty_image
           tour (churn ++ churn ++ churn) zero_clock_ok).
  - by split_and!.
  - apply map_Forall_empty.
  - reflexivity.
  - apply empty_image_no_stale.
  - done.
  - reflexivity.
  - done.
  - reflexivity.
  - by intros fd sb mp s t.
  - by intros fd sb mp s t.
  - apply session_ready.
  - apply session_fits.
Defined.

Lemma main_usage_witness :
  main (F := refusing) [str "simplefs"] no_image 0 = Some (usage (str "simplefs"), Exited 1, no_image, 0%nat).
Proof. apply (main_usage refusing [str "simplefs"] no_image 0). vm_compute. reflexivity. Defined.

(** A mount that fails: 20448 blocks are free on the disk that was formatted. *)
Example main_refused :
  (λ e : ended, option_map (λ r, fst (fst r)) e) (main (F := refusing) [str "simplefs"; str "/mnt"] no_image 0) =
    Some (mounting (str "/mnt") ++
          Stdout (str "[SimpleFS] 空闲块数: 20448") :: tail (ready_lines (str "/mnt") initial_superblock) ++
          troubleshooting (str "/mnt") (str "Permission denied"), Exited 1).
Proof. vm_compute. reflexivity. Qed.
