(* ===== verification/Crash.v ===== *)
(** * Crash: what is left when the machine stops in the middle of a handler

    Every block is on the disk when [Disk::write_block] returns, so a crash leaves the
    image after some of the writes of a handler ([crash_image]).  [create] and [mkdir] are
    safe: the next mount finds the old tree, the new one, or the old one with the new file
    or directory under no name.  [unlink] is not: it frees the blocks of a file before it
    removes the file. *)
From S2P Require Import Prelude Disk Effects Superblock Bitmap Inode Directory Fs File Format.
From S2P Require Import Spec Consistency Room Namespace Mount Nodes Refinement Sessions Typing.

(** ** The events of the allocator

    Blocks of the map, and block 0 with a superblock that a mount accepts. *)
Definition good_sb (sb : SuperBlock) : Prop :=
  superblock_wf sb ∧ SuperBlock_is_valid sb = true ∧ sb_inode_table_start sb = 6.

Definition meta_event (e : event) : Prop :=
  match e with
  | EvWrite b d => is_block d ∧ (1 ≤ b ≤ 5 ∨ b = 0 ∧ ∃ sb, d = superblock_block sb ∧ good_sb sb)
  | EvTruncate _ => False
  end.

Section meta.
Context `{Build}.
Implicit Types (sb : SuperBlock).

Lemma good_sb_free sb n : good_sb sb → is_u32 n → good_sb (with_free_blocks n sb).
Proof. intros (Hwf & Hv & Ht) Hn. split_and!; [by apply superblock_wf_with_free_blocks|done|done]. Qed.

Lemma ty_write_superblock_meta sb :
  good_sb sb → has_type meta_event (λ _, True) (write_superblock sb).
Proof.
  intros Hsb. pose proof (is_block_superblock sb (proj1 Hsb)) as Hb.
  apply ty_write_block; [done|done|]. split; [done|]. right. split; [done|]. by exists sb.
Qed.

Lemma map_block_range n : 0 ≤ n < MAX_BLOCKS → 1 ≤ 1 + as_u32 (fst (locate n) / BLOCK_SIZE) ≤ 5.
Proof.
  intros Hn. simpl. consts. rewrite as_usize_id by dlia. rewrite as_u32_id by (unfold is_u32; dlia). dlia.
Qed.

(** The end of [mark_allocated] and [mark_free]. *)
Lemma ty_count_meta sb b d x :
  good_sb sb → is_block d → 1 ≤ b ≤ 5 →
  has_type meta_event good_sb
    (write_block b d;; free_blocks ← arith_u32 x;
     let sb := with_free_blocks free_blocks sb in write_superblock sb;; mret sb).
Proof.
  intros Hsb Hd Hb. eapply ty_bind.
  { apply ty_write_block; [unfold is_u32; lia|done|]. split; [done|by left]. }
  intros _ _. eapply ty_bind; [apply ty_arith_u32|]. intros k Hk. cbv zeta.
  pose proof (good_sb_free sb k Hsb Hk) as Hg.
  eapply ty_bind; [by apply ty_write_superblock_meta|]. intros _ _. by apply ty_ret.
Qed.

Lemma ty_mark_allocated_meta sb n :
  good_sb sb → 0 ≤ n < MAX_BLOCKS → has_type meta_event good_sb (mark_allocated sb n).
Proof.
  intros Hsb Hn. unfold mark_allocated. pose proof (u8_mask n). pose proof (map_block_range n Hn).
  destruct (locate n) as [byte_idx mask]. cbn [fst snd] in *. cbv zeta.
  eapply ty_bind; [apply ty_read_block; unfold is_u32; lia|]. intros d Hd.
  eapply ty_bind; [by apply ty_index, is_block_u8|]. intros x Hx.
  eapply ty_bind; [apply ty_set_index_block; [by apply u8_lor|done]|]. intros d' Hd'.
  by apply ty_count_meta.
Qed.

Lemma ty_mark_free_meta sb n :
  good_sb sb → 0 ≤ n < MAX_BLOCKS → has_type meta_event good_sb (mark_free sb n).
Proof.
  intros Hsb Hn. unfold mark_free. pose proof (u8_mask n). pose proof (map_block_range n Hn).
  destruct (locate n) as [byte_idx mask]. cbn [fst snd] in *. cbv zeta.
  eapply ty_bind; [apply ty_read_block; unfold is_u32; lia|]. intros d Hd.
  eapply ty_bind; [by apply ty_index, is_block_u8|]. intros x Hx.
  eapply ty_bind; [apply ty_set_index_block; [by apply u8_land|done]|]. intros d' Hd'.
  by apply ty_count_meta.
Qed.

Lemma ty_allocate_block_meta sb :
  good_sb sb → has_type meta_event (λ r, good_sb (snd r)) (allocate_block sb).
Proof.
  intros Hsb. unfold allocate_block. destruct (sb_free_blocks sb =? 0); [by apply ty_ret|].
  eapply ty_bind; [apply ty_read_superblock|]. intros sbl Hsbl. cbv zeta.
  eapply (ty_bind _ (flow_type (λ _, True) (λ r, good_sb (snd r)))).
  - apply ty_for_in; [done|]. intros i [] Hi _.
    pose proof (u32_map_index i (sb_bitmap_blocks sbl) ltac:(apply Hsbl) Hi) as Hb.
    eapply ty_bind; [by apply ty_read_block|]. intros d Hd.
    destruct (scan_bytes 0 d) as [[off k]|]; [|by apply ty_ret].
    destruct (Z.leb_spec MAX_BLOCKS (as_u32 ((i * BLOCK_SIZE + off) * 8 + k))); [by apply ty_ret|].
    eapply ty_bind.
    { apply ty_mark_allocated_meta; [done|]. split; [apply (u32_as ((i * BLOCK_SIZE + off) * 8 + k))|done]. }
    intros sb' Hsb'. by apply ty_ret.
  - intros [[]|r] Hr; by apply ty_ret.
Qed.
End meta.

(** ** What a mount finds after a crash *)

(** A state whose nodes are well-formed and are the tree [A]; the map and the counters may
    be out of step with it. *)
Record stage (sb : SuperBlock) (v : world) (A : gmap u32 anode) : Prop := {
  st_disk : disk_ok v;
  st_table : sb_inode_table_start sb = 6;
  st_node : ∀ n i, n ∈ inode_numbers → live None sb v n = Some i → node_ok sb i v;
  st_abs : abs None sb v = A;
}.

(** An image with a superblock to mount, and the blocks [P] of [v]. *)
Record kept (P : u32 → Prop) (v : world) (i : image) : Prop := {
  cr_disk : disk_ok (World i 0);
  cr_size : is_u64 (img_size i);
  cr_sb : ∃ sb, disk_superblock (World i 0) = Some sb ∧ good_sb sb;
  cr_read : ∀ b, P b → img_read b i = w_read v b;
}.
#[global] Arguments cr_size {P v i}.

(** An image with all blocks of [v] behind the map. *)
Definition behind_map (b : u32) : Prop := 6 ≤ b.
Abbreviation crashed := (kept behind_map).

(** The tree that a mount of the image finds. *)
Definition mounts `{Clock} `{Build} (i : image) (A : gmap u32 anode) : Prop :=
  ∃ sb, (∀ t, run SimpleFS.mount (World i t) = Done sb (World i t)) ∧ abs None sb (World i 0) = A.

Section crashed.
Context `{Clock} `{Build}.
Implicit Types (sb : SuperBlock) (v w : world) (A : gmap u32 anode).

Lemma consistent_stage sb w : consistent None sb w → stage sb w (abs None sb w).
Proof.
  intros Hc. constructor; [apply (cs_inv _ _ _ Hc)|by apply (consistent_table None sb w)| |done].
  apply (cs_node _ _ _ Hc).
Qed.

(** The nodes of a state, in another one with the same inodes and blocks of nodes. *)
Lemma stage_ext_nodes sb sb' v v' A :
  stage sb v A → disk_ok v' → sb_inode_table_start sb' = 6 →
  (∀ n, n ∈ inode_numbers → w_read v' (inode_block sb n) = w_read v (inode_block sb n)) →
  (∀ n i b, n ∈ inode_numbers → live None sb v n = Some i → b ∈ owned i v →
     w_read v' b = w_read v b) →
  stage sb' v' A.
Proof.
  intros [Hok Ht Hnode Habs] Hok' Ht' Hinodes Hr.
  assert (∀ n, n ∈ inode_numbers → live None sb' v' n = live None sb v n) as Hlive.
  { intros n Hn. unfold live. case_decide; [done|].
    rewrite (disk_inode_table sb sb') by congruence.
    by rewrite (disk_inode_ext _ v v') by auto. }
  assert (∀ n i, n ∈ inode_numbers → live None sb v n = Some i →
    node_ok sb' i v' ∧ node i v' = node i v) as Hext.
  { intros n i Hn Hl. pose proof (Hnode n i Hn Hl) as Hi.
    destruct (node_ok_ext sb sb' i v v' Hi Hok') as (? & _ & ?); [congruence|eauto|done]. }
  constructor; [done|done| |].
  - intros n i Hn. rewrite Hlive by done. intros Hl. by apply (Hext n i).
  - rewrite <-Habs. apply map_eq. intros n. rewrite !abs_lookup. case_decide as Hn; [|done].
    unfold node_at. rewrite Hlive by done. destruct (live None sb v n) as [i|] eqn:Hl; [|done].
    simpl. f_equal. by apply (Hext n i).
Qed.

Lemma stage_ext sb sb' v v' A :
  stage sb v A → disk_ok v' → sb_inode_table_start sb' = 6 →
  (∀ b, 6 ≤ b → w_read v' b = w_read v b) → stage sb' v' A.
Proof.
  intros Hst Hok' Ht' Hr. pose proof (st_table _ _ _ Hst) as Ht.
  apply (stage_ext_nodes sb sb' v); [done|done|done| |].
  - intros n Hn. apply Hr. apply (inode_ok_block sb n), (number_block sb n Ht Hn).
  - intros n i b Hn Hl Hb. apply Hr.
    pose proof (node_ok_range _ _ _ _ (st_node _ _ _ Hst n i Hn Hl) Hb). lia.
Qed.

(** The tree is there before the inode with the new times is written. *)
Lemma stage_unput sb v i j A :
  consistent None sb (put_inode sb j v) → abs None sb (put_inode sb j v) = A →
  disk_ok v → i_inode_no j ∈ inode_numbers → live None sb v (i_inode_no j) = Some i →
  same_blocks i j → i_mode i = i_mode j → inode_wf i → inode_wf j → i_nlink j ≠ 0 →
  stage sb v A.
Proof.
  intros Hc Habs Hok Hn Hl Hsame Hmode Hwfi Hwfj Hlink. set (w' := put_inode sb j v) in *.
  pose proof (consistent_table _ _ _ Hc) as Ht.
  destruct (consistent_number _ _ _ _ Hc Hn) as (Hno & _).
  assert (live None sb w' (i_inode_no j) = Some j) as Hlj.
  { apply live_Some. split_and!; [done|by apply disk_inode_put_same|done]. }
  assert (∀ m, m ∈ inode_numbers → m ≠ i_inode_no j → live None sb w' m = live None sb v m) as Hother.
  { intros m Hm Hne. unfold live, w'. rewrite disk_inode_put_other; [done|done|apply Hwfj|done| |apply Hno].
    apply (consistent_number _ _ _ _ Hc Hm). }
  assert (∀ m k, m ∈ inode_numbers → live None sb w' m = Some k →
    node_ok sb k v ∧ node k w' = node k v) as Hext.
  { intros m k Hm Hk. pose proof (cs_node _ _ _ Hc m k Hm Hk) as Hnode.
    destruct (node_ok_ext sb sb k w' v Hnode Hok eq_refl) as (? & _ & ?); [|done].
    intros b Hb. symmetry. apply put_inode_read_ne.
    apply (owned_not_inode None sb w' m); [done|done|done|]. unfold owned_at. by rewrite Hk. }
  destruct (Hext _ j Hn Hlj) as [Hokj Hnodej].
  destruct (same_blocks_node sb i j v Hsame Hwfi Hokj) as (Hoki & _ & Hbody).
  constructor; [done|done| |].
  - intros m k Hm Hk. destruct (decide (m = i_inode_no j)) as [->|Hne]; [by simplify_eq|].
    rewrite <-Hother in Hk by done. by apply (Hext m).
  - rewrite <-Habs. apply map_eq. intros m. rewrite !abs_lookup. case_decide as Hm; [|done].
    unfold node_at. destruct (decide (m = i_inode_no j)) as [->|Hne].
    + rewrite Hl, Hlj. simpl. f_equal. rewrite Hnodej.
      unfold node in *. simpl in *. by rewrite Hbody, Hmode.
    + rewrite Hother by done. destruct (live None sb v m) as [k|] eqn:Hk; [|done]. simpl. f_equal.
      symmetry. rewrite <-Hother in Hk by done. by apply (Hext m).
Qed.

(** A mount takes the image as it is. *)
Lemma kept_mounts P v (i : image) : kept P v i →
  ∃ sb, sb_inode_table_start sb = 6 ∧ mounts i (abs None sb (World i 0)).
Proof.
  intros [Hok _ (sb & Hd & Hwf & Hv & Ht) _]. exists sb. split; [done|]. exists sb. split; [|done].
  intros t. apply run_mount_present. unfold present_superblock.
  assert (w_has (World i t) 0 = true) as ->; [|exact Hd].
  apply (disk_ok_has (World i t)); [exact Hok|done].
Qed.

Lemma crashed_mounts sb v A (i : image) : stage sb v A → crashed v i → mounts i A.
Proof.
  intros Hs Hc. destruct (kept_mounts _ _ _ Hc) as (sb' & Ht & Hm). destruct Hc as [Hok _ _ Hr].
  assert (abs None sb' (World i 0) = A) as <-; [|done].
  apply (st_abs sb' (World i 0)). by eapply stage_ext.
Qed.

(** What the allocator writes does not matter. *)
Lemma kept_meta P v (i : image) e :
  (∀ b, P b → 6 ≤ b) → kept P v i → meta_event e → kept P v (apply_event i e).
Proof.
  intros HP [Hok Hs (sb & Hd & Hg) Hr] He. destruct e as [b d|n]; [|done].
  destruct He as [[Hl Hu] Hb]. simpl.
  assert (disk_ok (World (img_write b d i) 0)) as Hok' by (by apply (disk_ok_write (World i 0))).
  constructor; [done| | |].
  - unfold is_u64 in *. simpl. consts. lia.
  - destruct Hb as [Hb|(-> & sb' & -> & Hg')].
    + exists sb. split; [|done]. rewrite <-Hd.
      apply (disk_superblock_write_ne b d (World i 0)). lia.
    + exists sb'. split; [|done]. by apply (disk_superblock_write sb' (World i 0)); apply Hg'.
  - intros c Hc. rewrite <-Hr by done. specialize (HP c Hc).
    apply (w_read_write_ne b c d (World i 0)). lia.
Qed.

Lemma crashed_meta v (i : image) e : crashed v i → meta_event e → crashed v (apply_event i e).
Proof. by apply kept_meta. Qed.

(** A write behind the map leads from one state to the next. *)
Lemma kept_write P v (i : image) b d :
  kept P v i → is_block d → 6 ≤ b < MAX_BLOCKS → kept P (w_write b d v) (img_write b d i).
Proof.
  intros [Hok Hs (sb & Hd & Hg) Hr] [Hl Hu] Hb.
  constructor; [by apply (disk_ok_write (World i 0))| | |].
  - unfold is_u64 in *. simpl. consts. lia.
  - exists sb. split; [|done]. rewrite <-Hd. apply (disk_superblock_write_ne b d (World i 0)). lia.
  - intros c Hc. rewrite w_read_write. case_decide as He.
    + subst c. apply (w_read_write_eq b d (World i 0)).
    + rewrite <-Hr by done. by apply (w_read_write_ne b c d (World i 0)).
Qed.

(** A write to another block leads nowhere. *)
Lemma kept_write_ne P v (i : image) b d :
  kept P v i → is_block d → 6 ≤ b < MAX_BLOCKS → ¬ P b → kept P v (img_write b d i).
Proof.
  intros Hk Hd Hb HP. destruct (kept_write P v i b d Hk Hd Hb) as [? ? ? Hr]. constructor; [done..|].
  intros c Hc. rewrite Hr by done. apply w_read_write_ne. by intros ->.
Qed.

Lemma kept_start P sb w :
  bitmap_inv sb w → is_u64 (img_size (w_img w)) → kept P w (w_img w).
Proof.
  intros Hi Hs. constructor; [exact (bi_disk _ _ Hi)|done| |done].
  exists sb. split; [exact (bi_on_disk _ _ Hi)|]. destruct (bitmap_inv_wf _ _ Hi). split_and!; [done|done|apply Hi].
Qed.

Lemma bitmap_good sb w : bitmap_inv sb w → good_sb sb.
Proof. intros Hi. destruct (bitmap_inv_wf _ _ Hi). split_and!; [done|done|apply Hi]. Qed.
End crashed.

(** ** Writing an inode, adding an entry *)
Section steps.
Context `{Clock} `{Build} (Hclock : clock_ok) (C : image → Prop).
Implicit Types (sb : SuperBlock) (w : world) (i : Inode) (name : bytes).

Lemma disk_typed w : disk_ok w → is_u64 (img_size (w_img w)) → image_typed (w_img w).
Proof. intros [_ Hb] Hs. by split. Qed.

Lemma size_write w b d :
  is_u64 (img_size (w_img w)) → 0 ≤ b < MAX_BLOCKS → is_u64 (img_size (w_img (w_write b d w))).
Proof. unfold is_u64. simpl. consts. lia. Qed.

(** An inode is written at once. *)
Lemma safe_write_inode sb i w :
  disk_ok w → is_u64 (img_size (w_img w)) → inode_ok sb (i_inode_no i) → inode_wf i →
  C (w_img w) → C (w_img (put_inode sb i w)) → crash_safe C (write_inode sb i) w.
Proof.
  intros Hok Hs Hno Hwf HC0 HC1. pose proof (disk_typed w Hok Hs) as Hw.
  pose proof (inode_ok_block _ _ Hno) as Hb. pose proof (inode_offset_range (i_inode_no i)).
  assert (zlen (i_direct_blocks i) = 10) as Hd by apply Hwf.
  pose proof (zlen_Inode_to_bytes i Hd) as Hl. change INODE_SIZE with 84 in *.
  pose proof (disk_ok_zlen w (inode_block sb (i_inode_no i)) Hok) as Hz. consts.
  unfold write_inode.
  eapply safe_bind_silent; [by apply run_inode_block_location|apply ty_inode_block_location|done|done|].
  cbv beta iota.
  eapply safe_bind_silent; [apply run_read_block, disk_ok_has; [done|consts; lia]
    |apply ty_read_block; unfold is_u32; lia|done|done|]. cbv zeta.
  eapply safe_bind_unwrap; [apply copy_from_slice_Some; change INODE_SIZE with 84; lia|done|].
  by apply safe_write.
Qed.

Lemma first_some_split {X Y} (f : X → option Y) pre x post y :
  (∀ z, z ∈ pre → f z = None) → f x = Some y → first_some f (pre ++ x :: post) = Some y.
Proof.
  intros Hpre Hx. rewrite first_some_app. rewrite (proj2 (first_some_None f pre)) by done.
  simpl. by rewrite Hx.
Qed.

(** The search for a free entry: only the first one found is written. *)
Lemma safe_fill_loop sb i e w :
  dir_ok sb i w → entry_wf e → is_u64 (img_size (w_img w)) → C (w_img w) →
  (∀ b off, first_free i w = Some (b, off) →
     C (w_img (w_write b (splice off (DirEntry_to_bytes e) (w_read w b)) w)) ∧
     C (w_img (fill_slot sb i b off e w))) →
  crash_safe C (for_in (seqZ 0 (as_u32 (i_block_count i))) () (fill_block_body sb i e)) w.
Proof.
  intros Hdok He Hs HC0 HC. pose proof Hdok as [Hd Hno Hbl]. pose proof (dr_wf _ _ Hd) as Hwf.
  pose proof (dr_disk _ _ Hd) as Hok. pose proof (disk_typed w Hok Hs) as Hw.
  rewrite dir_count_u32 by apply Hd.
  apply (safe_for_in_first _ (λ k, filled sb i e w <$> place_in i w k)); [done| |].
  { intros k Hk%elem_of_seqZ. apply (run_fill_block Hclock); [done|done|lia]. }
  intros pre k post Hsplit Hpre.
  assert (0 ≤ k < i_block_count i) as Hk
    by (assert (k ∈ seqZ 0 (i_block_count i)) as Hin%elem_of_seqZ by (rewrite Hsplit; set_solver); lia).
  destruct (dir_readable_block i w k Hd ltac:(lia)) as (Hb & Hr & Hin). unfold fill_block_body.
  eapply safe_bind_silent; [exact Hb|by apply ty_get_block|done|done|].
  eapply safe_bind_unwrap; [done|done|].
  eapply safe_bind_silent; [apply run_read_block, disk_ok_has; [done|lia]
    |apply ty_read_block; unfold is_u32; consts; lia|done|done|]. fold (block_of i k) in *.
  change entries_per_block with 15.
  apply (safe_for_in_first _ (λ j, filled sb i e w <$> place_at w (block_of i k) j)); [done| |].
  { intros j Hj%elem_of_seqZ. apply (run_fill_entry Hclock); [done|done|lia|lia]. }
  intros pre' j post' Hsplit' Hpre'.
  assert (0 ≤ j < 15) as Hj
    by (assert (j ∈ seqZ 0 15) as Hin'%elem_of_seqZ by (rewrite Hsplit'; set_solver); lia).
  unfold fill_entry_body. cbv zeta. change DIR_ENTRY_SIZE with 34.
  eapply safe_bind_silent; [apply run_entry_at; first [done|lia]|apply ty_entry_at, image_typed_read, Hw|done|done|].
  destruct (DirEntry_is_empty _) eqn:Hempty; [|by apply safe_ret].
  assert (first_free i w = Some (block_of i k, j * 34)) as Hfirst.
  { rewrite first_free_seq, Hsplit by done. apply first_some_split.
    - intros z Hz. specialize (Hpre z Hz). by destruct (place_in i w z).
    - rewrite place_in_seq, Hsplit'. apply first_some_split.
      + intros z Hz. specialize (Hpre' z Hz). by destruct (place_at w (block_of i k) z).
      + unfold place_at, free_place. simpl. by rewrite Hempty. }
  destruct (HC _ _ Hfirst) as [HC1 HC2].
  pose proof (disk_ok_zlen w (block_of i k) Hok) as Hl.
  pose proof (disk_ok_fill (block_of i k) (j * 34) e w Hok He ltac:(lia) ltac:(lia)) as Hok'.
  pose proof He as (_&_&_&Hn&_). pose proof (zlen_DirEntry_to_bytes e Hn) as Hbl'. consts.
  eapply safe_bind_unwrap; [apply copy_from_slice_Some; lia|done|].
  eapply safe_bind; [apply run_write_block; [consts; rewrite zlen_splice by lia; done|unfold is_u32; lia]
    |by apply safe_write|].
  set (w1 := w_write (block_of i k) (splice (j * 34) (DirEntry_to_bytes e) (w_read w (block_of i k))) w) in *.
  assert (is_u64 (img_size (w_img w1))) as Hs1
    by (apply size_write; [done|consts; unfold block_of in *; lia]).
  eapply safe_bind_silent; [by apply run_now|apply ty_current_timestamp|by apply disk_typed|done|]. cbv zeta.
  eapply safe_bind; [by apply (run_store_touched Hclock sb i w1)| |by apply safe_ret].
  apply safe_write_inode; [exact Hok'|exact Hs1|exact Hno|by apply touched_wf|exact HC1|exact HC2].
Qed.

(** [dir_add_entry] of a new name *)
Lemma safe_dir_add_entry sb i name c d w :
  dir_ok sb i w → bitmap_inv sb w → is_u32 c → Forall is_u8 name → dir_get i w name = None →
  is_u64 (img_size (w_img w)) → (∀ j, crashed w j → C j) →
  let e := DirEntry_new c name d in
  (∀ b off, first_free i w = Some (b, off) →
     C (w_img (w_write b (splice off (DirEntry_to_bytes e) (w_read w b)) w)) ∧
     C (w_img (fill_slot sb i b off e w))) →
  (∀ n, first_free i w = None → i_block_count i < 10 → least_free w = Some n →
     let sb' := with_free_blocks (sb_free_blocks sb - 1) sb in
     let w1 := record_superblock sb' (set_bit n w) in
     C (w_img (w_write n (splice 0 (DirEntry_to_bytes e) (zeros BLOCK_SIZE)) w1)) ∧
     C (w_img (extend_dir sb' i n e w1))) →
  crash_safe C (dir_add_entry sb i name c d) w.
Proof.
  intros Hdok Hinv Hc Hname Hnone Hs HCw e HCfill HCext. pose proof Hdok as [Hr Hno Hbl].
  pose proof (dr_wf _ _ Hr) as Hwf. pose proof (dr_disk _ _ Hr) as Hok.
  pose proof (DirEntry_new_wf c name d Hc Hname) as He. fold e in He.
  pose proof (disk_typed w Hok Hs) as Hw.
  pose proof (kept_start behind_map sb w Hinv Hs) as Hstart. pose proof (HCw _ Hstart) as HC0.
  unfold dir_add_entry.
  eapply safe_bind_silent; [by apply run_dir_find|by apply ty_dir_find|done|done|]. rewrite Hnone.
  rewrite bool_decide_false by (by intros []). cbv zeta. fold e.
  pose proof (run_fill_loop Hclock sb i e w Hdok He) as Hloop.
  pose proof (safe_fill_loop sb i e w Hdok He Hs HC0 HCfill) as Hsafe.
  destruct (first_free i w) as [[b off]|] eqn:Hff.
  { eapply safe_bind; [exact Hloop|exact Hsafe|]. by apply safe_ret, HCfill. }
  eapply safe_bind; [exact Hloop|exact Hsafe|]. clear Hloop Hsafe.
  rewrite dir_count_u32 by done. change (as_u32 DIRECT_BLOCKS) with 10.
  destruct (Z.ltb_spec (i_block_count i) 10) as [Hlt|]; [|by apply safe_ret].
  assert (crash_safe (crashed w) (allocate_block sb) w) as Halloc.
  { eapply safe_typed; [apply ty_allocate_block_meta, (bitmap_good sb w Hinv)|done|done|].
    intros j ev. apply crashed_meta. }
  pose proof (run_allocate_block_inv sb w Hinv) as Hrun.
  destruct (least_free w) as [n|] eqn:Hleast.
  2: { eapply safe_bind; [exact Hrun|intros j Hj; by apply HCw, Halloc|]. by apply safe_ret. }
  destruct (HCext n eq_refl Hlt eq_refl) as [HC1 HC2]. clear HCext HCfill.
  apply least_free_Some in Hleast as (Hn & Hbit & _).
  eapply safe_bind; [exact Hrun|intros j Hj; by apply HCw, Halloc|]. cbv beta iota.
  pose proof (bitmap_inv_set sb w n Hinv Hn Hbit) as Hinv'. cbv zeta in Hinv'.
  set (sb' := with_free_blocks (sb_free_blocks sb - 1) sb) in *.
  set (w1 := record_superblock sb' (set_bit n w)) in *.
  assert (crashed w (w_img w1)) as Hcr1.
  { by eapply safe_done. }
  assert (C (w_img w1)) as HCw1 by (by apply HCw).
  pose proof He as (_&_&_&Hen&_). pose proof (zlen_DirEntry_to_bytes e Hen) as Hel.
  pose proof (bi_disk _ _ Hinv') as Hok1. pose proof (cr_size Hcr1) as Hs1.
  pose proof Hwf as (_&_&_&_&_&_&Hbc&_&_&_&Hdl&_). unfold is_u16 in Hbc. consts.
  change DIR_ENTRY_SIZE with 34.
  eapply safe_bind_unwrap; [apply copy_from_slice_Some; rewrite ?zlen_zeros by lia; lia|done|].
  assert (zlen (splice 0 (DirEntry_to_bytes e) (zeros 512)) = 512) as Hz
    by (rewrite zlen_splice; rewrite ?zlen_zeros by lia; lia).
  eapply safe_bind; [apply run_write_block; [done|unfold is_u32; lia]|by apply safe_write|].
  set (w2 := w_write n (splice 0 (DirEntry_to_bytes e) (zeros 512)) w1) in *.
  assert (disk_ok w2) as Hok2.
  { apply disk_ok_write; [done|done|]. apply Forall_splice; [by apply DirEntry_to_bytes_u8|].
    apply Forall_zeros. }
  assert (is_u64 (img_size (w_img w2))) as Hs2 by (by apply size_write).
  pose proof (disk_typed w2 Hok2 Hs2) as Hw2.
  rewrite as_usize_id by lia.
  eapply safe_bind_unwrap; [apply set_index_Some; lia|done|].
  cbn [i_block_count set_direct_blocks].
  eapply safe_bind_silent; [apply run_arith_u; lia|apply ty_arith_u16|done|done|].
  rewrite as_u32_id by (unfold is_u32; lia).
  eapply safe_bind_silent; [apply run_arith_u; lia|apply ty_arith_u32|done|done|].
  eapply safe_bind_silent; [by apply run_now|apply ty_current_timestamp|done|done|].
  assert (inode_wf (extended i n)) as Hwf' by (apply extended_wf; [done|lia|unfold is_u32; lia]).
  eapply safe_bind; [apply (run_store_touched Hclock sb' (extended i n) w2); [done|done|exact Hno]| |by apply safe_ret].
  apply safe_write_inode; [exact Hok2|exact Hs2|exact Hno|by apply touched_wf|exact HC1|exact HC2].
Qed.
End steps.

(** ** [create] *)
Section create.
Context `{Clock} `{Build} (Hclock : clock_ok).
Implicit Types (sb : SuperBlock) (w : world) (p n : u32) (name : bytes) (m : gmap bytes u32).

(** The image of a crash, with one of the trees [As] on it. *)
Definition reaches (As : list (gmap u32 anode)) (i : image) : Prop :=
  ∃ sb v A, stage sb v A ∧ A ∈ As ∧ crashed v i.

Lemma reaches_mounts As (i : image) : reaches As i → ∃ A, A ∈ As ∧ mounts i A.
Proof. intros (sb & v & A & Hs & HA & Hc). exists A. split; [done|]. by eapply crashed_mounts. Qed.

(** The end of an operation. *)
Lemma reaches_consistent As sb w :
  consistent None sb w → abs None sb w ∈ As → is_u64 (img_size (w_img w)) → reaches As (w_img w).
Proof.
  intros Hc HA Hs. exists sb, w, (abs None sb w). split_and!; [by apply consistent_stage|done|].
  by apply (kept_start _ sb), Hs; apply Hc.
Qed.


(** The entry is in the block of the directory, and the inode is not written yet. *)
Lemma reaches_filled As sb w p dir b off e A :
  consistent None sb w → p ∈ inode_numbers → live None sb w p = Some dir → is_dir dir →
  first_free dir w = Some (b, off) → entry_wf e → is_u64 (img_size (w_img w)) →
  let w1 := w_write b (splice off (DirEntry_to_bytes e) (w_read w b)) w in
  consistent None sb (fill_slot sb dir b off e w) → abs None sb (fill_slot sb dir b off e w) = A →
  A ∈ As → reaches As (w_img w1) ∧ reaches As (w_img (fill_slot sb dir b off e w)).
Proof.
  intros Hc Hpn Hl Hdir Hff He Hs w1 Hc' Habs HA. pose proof (cs_inv _ _ _ Hc) as Hinv.
  assert (disk_ok w) as Hok by apply Hinv.
  destruct (consistent_live _ _ _ _ _ Hc Hpn Hl) as (_ & Hwf & Hno & _).
  destruct (first_free_elem _ _ _ _ Hff) as (j & Hj & Hoff & Hb & _).
  assert (b ∈ owned_at None sb w p) as Hown by (unfold owned_at, owned; by rewrite Hl, decide_True).
  destruct (owned_range _ _ _ _ _ Hc Hpn Hown) as [Hbr _].
  destruct (consistent_number _ _ _ _ Hc Hpn) as (_ & Hblk & _).
  pose proof (disk_ok_fill b off e w Hok He ltac:(lia) ltac:(lia)) as Hok1.
  apply live_Some in Hl as (_ & Hdisk & Hlink). split.
  - exists sb, (w_tick w1), A. split_and!; [|done|].
    + apply (stage_unput sb _ dir (touched dir w1));
        [exact Hc'|exact Habs|exact Hok1| | |by split_and!|done|done|by apply touched_wf|exact Hlink];
        change (i_inode_no (touched dir w1)) with (i_inode_no dir); rewrite Hno; [done|].
      apply live_Some. split_and!; [done| |done]. rewrite <-Hdisk.
      apply (disk_inode_write_ne sb w). by apply (owned_not_inode None sb w p).
    + apply (kept_write behind_map (w_tick w)); [by apply (kept_start _ sb (w_tick w) (bitmap_inv_tick _ _ Hinv))| |lia].
      destruct (disk_ok_block w1 b Hok1) as [? ?]. unfold w1 in *. rewrite w_read_write_eq in *. done.
  - apply (reaches_consistent As sb); [done|by rewrite Habs|].
    apply size_write; [apply size_write|]; [done|lia|].
    change (0 ≤ inode_block sb (i_inode_no dir) < MAX_BLOCKS). rewrite Hno. lia.
Qed.

(** The allocator was run, and the new block of the directory is written or not. *)
Lemma reaches_allocated As sb w n d :
  consistent None sb w → least_free w = Some n → room 1 w → is_block d →
  is_u64 (img_size (w_img w)) → abs None sb w ∈ As →
  let sb' := with_free_blocks (sb_free_blocks sb - 1) sb in
  let w1 := record_superblock sb' (set_bit n w) in
  crashed w (w_img w1) ∧ reaches As (w_img (w_write n d w1)).
Proof.
  intros Hc Hleast Hroom Hd Hs HA sb' w1. pose proof (cs_inv _ _ _ Hc) as Hinv.
  assert (disk_ok w) as Hok by apply Hinv.
  pose proof Hleast as (Hn & Hbit & _)%least_free_Some.
  destruct (room_least 1 sb w Hinv ltac:(lia) Hroom) as (a & Ha & Har & _).
  assert (a = n) as -> by congruence.
  assert (crashed w (w_img w1)) as Hcr.
  { pose proof (run_allocate_block_inv sb w Hinv) as Hal. rewrite Hleast in Hal.
    assert (crash_safe (crashed w) (allocate_block sb) w) as Hsafe.
    { eapply safe_typed; [apply ty_allocate_block_meta, (bitmap_good sb w Hinv)|by apply disk_typed
        |by eapply kept_start|]. intros j ev. apply crashed_meta. }
    by eapply safe_done. }
  split; [done|]. exists sb, (w_write n d w), (abs None sb w).
  split_and!; [|done|apply kept_write; [done|done|lia]].
  apply (stage_ext_nodes sb sb w); [by apply consistent_stage|by apply disk_ok_write; [|apply Hd..]
    |by eapply consistent_table| |].
  - intros k Hk. apply w_read_write_ne. intros ->.
    destruct (number_block sb k (consistent_table _ _ _ Hc) Hk) as [_ Hb]. unfold inode_area in Hb. lia.
  - intros k i b Hk Hi Hb. apply w_read_write_ne. intros ->.
    destruct (owned_range None sb w k b Hc Hk) as [_ Hbt]; [unfold owned_at; by rewrite Hi|congruence].
Qed.

(** [dir_add_entry]: the entry is there or not. *)
Lemma safe_add_name As sb w p dir name c d m :
  consistent None sb w → entries (abs None sb w) p = Some m → live None sb w p = Some dir →
  m !! name = None → good_name name → (base.size m < 150)%nat → room 1 w → is_u32 c →
  d = dir_number c → is_u64 (img_size (w_img w)) →
  abs None sb w ∈ As → set_entries p (<[name := c]> m) (abs None sb w) ∈ As →
  crash_safe (reaches As) (dir_add_entry sb dir name c d) w.
Proof.
  intros Hc Hp Hl Hm Hgood Hsize Hroom Hcu Hd Hs HA HA'.
  destruct (open_dir _ _ _ _ _ Hc Hp) as (dir' & Hpn & Hl' & Hdir & Hdn & Hmap & _).
  assert (dir' = dir) as -> by congruence. pose proof (cs_inv _ _ _ Hc) as Hinv.
  destruct (run_add_name Hclock None sb w p dir name c d m Hc Hp Hl Hm Hgood Hsize Hroom Hcu Hd)
    as (sb' & i' & w' & Hrun & Hc' & Habs' & _).
  rewrite Hmap in Hm. apply dir_map_None in Hm. pose proof (dn_ok _ _ _ Hdn) as Hdok.
  assert (Forall is_u8 name) as Hu8 by apply Hgood.
  destruct (good_entry name c d Hgood Hcu) as (He & _ & _ & _ & Hz & Hu).
  rewrite (run_dir_add_entry Hclock) in Hrun by done. rewrite Hm in Hrun. cbv zeta in Hrun.
  apply (safe_dir_add_entry Hclock); [done|done|done|done|done|done| | |].
  - intros j Hj. exists sb, w, (abs None sb w). split_and!; [by apply consistent_stage|done|done].
  - intros b off Hff. rewrite Hff in Hrun. injection Hrun as <- <- <-. by eapply reaches_filled.
  - intros n Hff Hcount Hleast. cbv zeta. rewrite Hff, Hleast in Hrun.
    rewrite (proj2 (Z.ltb_lt _ _) Hcount) in Hrun. injection Hrun as <- <- <-.
    set (d' := splice 0 (DirEntry_to_bytes (DirEntry_new c name d)) (zeros BLOCK_SIZE)).
    assert (is_block d') as Hblk.
    { split; [unfold d'; consts; rewrite zlen_splice; rewrite ?zlen_zeros by lia; lia|].
      apply Forall_splice; [done|apply Forall_zeros]. }
    destruct (reaches_allocated As sb w n d' Hc Hleast Hroom Hblk Hs HA) as [Hcr Hnew].
    split; [exact Hnew|]. apply (reaches_consistent As _ _ Hc'); [by rewrite Habs'|].
    apply least_free_Some in Hleast as (Hn & _).
    apply size_write; [apply size_write|]; [apply (cr_size Hcr)|done|].
    destruct (consistent_live _ _ _ _ _ Hc Hpn Hl) as (_ & _ & Hno & _).
    change (0 ≤ inode_block sb (i_inode_no dir) < MAX_BLOCKS). rewrite Hno.
    destruct (consistent_number _ _ _ _ Hc Hpn) as (_ & Hblk' & _). lia.
Qed.

Lemma safe_create sb w p name m n :
  consistent None sb w → entries (abs None sb w) p = Some m → m !! name = None →
  good_name name → (base.size m < 150)%nat → room 1 w → is_u64 (img_size (w_img w)) →
  first_unused (abs None sb w) 1000 2000 = Some n →
  let A := abs None sb w in
  let A1 := <[n := ANode 33188 (AFile [])]> A in
  crash_safe (reaches [A; A1; set_entries p (<[name := n]> m) A1]) (SimpleFS.create sb p name) w.
Proof.
  intros Hc Hp Hm Hgood Hsize Hroom Hs Hn A A1. set (As := [A; A1; _]).
  assert (A ∈ As) as HA0 by left. assert (A1 ∈ As) as HA1 by (right; left).
  assert (set_entries p (<[name := n]> m) A1 ∈ As) as HA2 by (do 2 right; left).
  destruct (open_dir _ _ _ _ _ Hc Hp) as (dir & Hpn & Hl & Hdir & Hdn & Hmap & Hread & Hfind).
  pose proof Hm as Hnone. rewrite Hmap in Hnone. apply dir_map_None in Hnone.
  pose proof (first_unused_Some _ _ _ _ Hn) as [Hr Hfree].
  assert (n ∈ inode_numbers) as Hnn by (apply elem_of_inode_numbers; lia).
  destruct (created_state Hclock sb w p n m dir Hc Hpn Hl Hp Hnn (proj1 Hr) Hfree)
    as (Hj & Hnok & Hc1 & Habs1 & Hl1 & _ & Hp1 & Hbits1 & _).
  set (j := new_inode 33188 1 n (clock_at (w_ticks w))) in *.
  set (w1 := put_inode sb j (w_tick w)) in *.
  assert (disk_ok w) as Hok by apply (cs_inv _ _ _ Hc). pose proof (disk_typed w Hok Hs) as Hw.
  assert (is_u64 (img_size (w_img w1))) as Hs1
    by (apply (size_write (w_tick w)); [done|];
        destruct (consistent_number _ _ _ _ Hc Hnn) as (_ & Hb & _);
        change (0 ≤ inode_block sb n < MAX_BLOCKS); lia).
  assert (reaches As (w_img w)) as HC0
    by (apply (reaches_consistent As sb); [exact Hc|exact HA0|exact Hs]).
  assert (reaches As (w_img w1)) as HC1
    by (apply (reaches_consistent As sb); [exact Hc1|rewrite Habs1; exact HA1|exact Hs1]).
  pose proof (dn_ok _ _ _ Hdn) as Hdok.
  unfold SimpleFS.create. rewrite to_str_good by done. cbv zeta.
  eapply safe_bind_silent; [exact Hread|apply ty_read_inode, u32_as|done|done|].
  eapply safe_bind_silent; [apply Hfind|apply ty_dir_find, Hdok|done|done|].
  rewrite Hnone, bool_decide_false by (by intros [? [=]]).
  eapply safe_bind_silent; [apply (run_find_free_inode None)|by apply ty_find_free_inode|done|done|];
    [exact Hc|lia|intros k Hk; split; [apply elem_of_inode_numbers; lia|done]|]. rewrite Hn.
  eapply safe_bind_silent; [by apply run_new_file|apply ty_new_file; by eapply inode_ok_u32|done|done|].
  change (set_mode _ _) with j.
  eapply safe_bind; [apply (run_write_inode sb j (w_tick w) Hok Hnok); apply Hj
    |by apply safe_write_inode|]. fold w1.
  assert (room 1 w1) as Hroom1 by (by eapply room_ext).
  assert (false = dir_number n) as Hfile by (symmetry; apply Z.ltb_ge; lia).
  destruct (run_add_name Hclock None sb w1 p dir name n false m Hc1 Hp1 Hl1 Hm Hgood Hsize Hroom1)
    as (sb2 & i2 & w2 & Hrun2 & _); [by eapply inode_ok_u32|exact Hfile|].
  assert (crash_safe (reaches As) (dir_add_entry sb dir name n false) w1) as Hsafe.
  { apply (safe_add_name As sb w1 p dir name n false m Hc1 Hp1 Hl1 Hm Hgood Hsize Hroom1);
      [by eapply inode_ok_u32|exact Hfile|exact Hs1|rewrite Habs1; exact HA1|rewrite Habs1; exact HA2]. }
  eapply safe_bind; [exact Hrun2|exact Hsafe|]. by eapply safe_ret, safe_done.
Qed.
(** The allocator is run: the images of a crash have the old tree. *)
Lemma safe_allocate As sb w :
  consistent None sb w → is_u64 (img_size (w_img w)) → abs None sb w ∈ As →
  crash_safe (reaches As) (allocate_block sb) w.
Proof.
  intros Hc Hs HA. assert (disk_ok w) as Hok by apply (cs_inv _ _ _ Hc).
  assert (crash_safe (crashed w) (allocate_block sb) w) as Hsafe.
  { eapply safe_typed; [apply ty_allocate_block_meta, (bitmap_good sb w (cs_inv _ _ _ Hc))
      |by apply disk_typed|by eapply kept_start, Hs; apply Hc|]. intros j ev. apply crashed_meta. }
  intros i Hi. exists sb, w, (abs None sb w). split_and!; [by apply consistent_stage|done|by apply Hsafe].
Qed.

(** The states of [mkdir] before the name is added. *)
Lemma reaches_made As sb w p n m dir a t :
  consistent None sb w → p ∈ inode_numbers → live None sb w p = Some dir →
  entries (abs None sb w) p = Some m → n ∈ inode_numbers → n < 1000 → abs None sb w !! n = None →
  least_free w = Some a → 31 ≤ a < 89 → room 2 w → is_u64 (img_size (w_img w)) →
  abs None sb w ∈ As → <[n := ANode 16877 (ADir (new_entries n p))]> (abs None sb w) ∈ As →
  let sb1 := with_free_blocks (sb_free_blocks sb - 1) sb in
  let w1 := record_superblock sb1 (set_bit a w) in
  let w2 := w_write a (SimpleFS.dir_block n p) w1 in
  let w3 := put_inode sb1 (made_dir n a (clock_at t)) w2 in
  reaches As (w_img w1) ∧ reaches As (w_img w2) ∧ reaches As (w_img w3) ∧
  is_u64 (img_size (w_img w2)) ∧ is_u64 (img_size (w_img w3)).
Proof.
  intros Hc Hpn Hl Hp Hnn Hdn Hfree Hleast Har Hroom Hs HA HA1 sb1 w1 w2 w3.
  destruct (made_state Hclock sb w p n m dir a t Hc Hpn Hl Hp Hnn Hdn Hfree Hleast Har Hroom)
    as (_ & Hc3 & Habs3 & _). fold sb1 w1 w2 w3 in Hc3, Habs3.
  destruct (consistent_number _ _ _ _ Hc Hnn) as (Hnok & Hnb & _).
  destruct (consistent_number _ _ _ _ Hc Hpn) as (Hpok & _).
  destruct (reaches_allocated As sb w a (SimpleFS.dir_block n p) Hc Hleast)
    as [Hcr HC2]; [unfold room in *; lia
    |by apply dir_block_wf; eapply inode_ok_u32|exact Hs|exact HA|]. fold sb1 w1 w2 in Hcr, HC2.
  assert (is_u64 (img_size (w_img w2))) as Hs2
    by (apply size_write; [apply (cr_size Hcr)|consts; lia]).
  assert (is_u64 (img_size (w_img w3))) as Hs3
    by (apply size_write; [done|]; change (0 ≤ inode_block sb n < MAX_BLOCKS); lia).
  split_and!; [|exact HC2| |exact Hs2|exact Hs3].
  - exists sb, w, (abs None sb w). split_and!; [by apply consistent_stage|done|done].
  - apply (reaches_consistent As sb1); [exact Hc3|by rewrite Habs3|exact Hs3].
Qed.

(** [mkdir]: the old tree, the new directory under no name, or the new tree. *)
Lemma safe_mkdir sb w p name m n :
  consistent None sb w → entries (abs None sb w) p = Some m → m !! name = None →
  good_name name → (base.size m < 150)%nat → room 2 w → is_u64 (img_size (w_img w)) →
  first_unused (abs None sb w) 500 900 = Some n →
  let A := abs None sb w in
  let A1 := <[n := ANode 16877 (ADir (new_entries n p))]> A in
  crash_safe (reaches [A; A1; set_entries p (<[name := n]> m) A1]) (SimpleFS.mkdir sb p name) w.
Proof.
  intros Hc Hp Hm Hgood Hsize Hroom Hs Hn A A1. set (As := [A; A1; _]).
  assert (A ∈ As) as HA0 by left. assert (A1 ∈ As) as HA1 by (right; left).
  destruct (open_dir _ _ _ _ _ Hc Hp) as (dir & Hpn & Hl & Hdir & Hdn & Hmap & Hread & Hfind).
  pose proof Hm as Hnone. rewrite Hmap in Hnone. apply dir_map_None in Hnone.
  pose proof (first_unused_Some _ _ _ _ Hn) as [Hr Hfree].
  assert (n ∈ inode_numbers) as Hnn by (apply elem_of_inode_numbers; lia).
  destruct (consistent_number _ _ _ _ Hc Hnn) as (Hnok & _).
  destruct (consistent_number _ _ _ _ Hc Hpn) as (Hpok & _ & Hpu & _).
  pose proof (inode_ok_u32 _ _ Hnok) as Hnu.
  assert (disk_ok w) as Hok by apply (cs_inv _ _ _ Hc). pose proof (disk_typed w Hok Hs) as Hw.
  assert (reaches As (w_img w)) as HC0
    by (apply (reaches_consistent As sb); [exact Hc|exact HA0|exact Hs]).
  pose proof (consistent_tick _ _ _ Hc) as Hct. pose proof (cs_inv _ _ _ Hct) as Hit.
  destruct (room_least 2 sb (w_tick w) Hit ltac:(lia) Hroom) as (a & Hleast & Har & _).
  destruct (made_state Hclock sb (w_tick w) p n m dir a (w_ticks w) Hct Hpn Hl Hp Hnn ltac:(lia) Hfree Hleast Har Hroom)
    as (Hok2 & Hc3 & Habs3 & Hl3 & _ & Hp3 & Hroom3 & _).
  destruct (reaches_made As sb (w_tick w) p n m dir a (w_ticks w) Hct Hpn Hl Hp Hnn ltac:(lia) Hfree Hleast Har Hroom
    Hs HA0 HA1) as (HC1 & HC2 & HC3 & Hs2 & Hs3).
  set (sb1 := with_free_blocks (sb_free_blocks sb - 1) sb) in *.
  set (w1 := record_superblock sb1 (set_bit a (w_tick w))) in *.
  set (w2 := w_write a (SimpleFS.dir_block n p) w1) in *.
  set (j := made_dir n a (clock_at (w_ticks w))) in *.
  unfold SimpleFS.mkdir. rewrite to_str_good by done. cbv zeta.
  eapply safe_bind_silent; [exact Hread|apply ty_read_inode, u32_as|done|done|].
  eapply safe_bind_silent; [apply Hfind|apply ty_dir_find, (dn_ok _ _ _ Hdn)|done|done|].
  rewrite Hnone, bool_decide_false by (by intros [? [=]]).
  eapply safe_bind_silent; [apply (run_find_free_inode None)|by apply ty_find_free_inode|done|done|];
    [exact Hc|lia|intros k Hk; split; [apply elem_of_inode_numbers; lia|done]|]. rewrite Hn.
  eapply safe_bind_silent; [by apply run_new_dir|by apply ty_new_dir|done|done|].
  eapply safe_bind; [by rewrite (run_allocate_block_inv sb _ Hit), Hleast|by apply safe_allocate|].
  cbv beta iota. rewrite Hpu. fold sb1 w1.
  eapply safe_bind; [apply run_write_block; [|unfold is_u32; lia]|by apply safe_write|]. fold w2.
  { by apply dir_block_wf; eapply inode_ok_u32. }
  eapply safe_bind_unwrap; [reflexivity|exact HC2|]. cbv zeta.
  change (set_size _ _) with j.
  eapply safe_bind; [apply (run_write_inode sb1 j w2 Hok2 Hnok); reflexivity| |].
  { apply safe_write_inode; [exact Hok2|exact Hs2|exact Hnok| |exact HC2|exact HC3].
    apply made_dir_wf; [done|done|unfold is_u32; consts; lia]. }
  assert (true = dir_number n) as Hnum by (symmetry; apply Z.ltb_lt; lia).
  destruct (run_add_name Hclock None sb1 _ p dir name n true m Hc3 Hp3 Hl3 Hm Hgood Hsize Hroom3 Hnu Hnum)
    as (sb2 & i2 & w4 & Hrun2 & _).
  assert (crash_safe (reaches As) (dir_add_entry sb1 dir name n true) (put_inode sb1 j w2)) as Hsafe.
  { apply (safe_add_name As sb1 _ p dir name n true m Hc3 Hp3 Hl3 Hm Hgood Hsize Hroom3 Hnu Hnum Hs3);
      rewrite Habs3; [exact HA1|by do 2 right; left]. }
  eapply safe_bind; [exact Hrun2|exact Hsafe|]. by eapply safe_ret, safe_done.
Qed.
End create.

(** ** [unlink] *)
Section unlink.
Context `{Clock} `{Build} (Hclock : clock_ok).
Implicit Types (sb : SuperBlock) (w : world) (p c b : u32) (name : bytes) (m : gmap bytes u32).

(** The image with a bit of the map cleared. *)
Lemma crashed_clear sb w b :
  bitmap_inv sb w → is_u64 (img_size (w_img w)) → 31 ≤ b < MAX_BLOCKS →
  crashed w (w_img (clear_bit b w)).
Proof.
  intros Hinv Hs Hb. pose proof (bitmap_block_range b ltac:(lia)) as Hr.
  destruct (disk_ok_block (clear_bit b w) (1 + b / 4096)) as [Hz Hu]; [apply disk_ok_clear_bit, Hinv|].
  unfold clear_bit, update_byte in *. rewrite w_read_write_eq in Hz, Hu.
  apply (crashed_meta w (w_img w) (EvWrite _ _)); [by eapply kept_start|].
  split; [done|]. left. lia.
Qed.

(** The first write of [mark_free]. *)
Lemma mark_free_crash sb b w :
  disk_ok w → 0 ≤ b < MAX_BLOCKS → crash_image (mark_free sb b) w (w_img (clear_bit b w)).
Proof.
  intros Hok Hb. unfold mark_free.
  rewrite locate_spec by lia. cbv zeta beta iota. rewrite bitmap_block_eq by lia.
  pose proof (bitmap_block_range b ltac:(lia)). consts.
  eapply crash_bind_then; [apply run_read_block, disk_ok_has; [done|consts; lia]|].
  eapply crash_bind_then.
  { apply run_unwrap. rewrite index_lookup by (apply Z.mod_pos_bound; lia). by apply bitmap_lookup. }
  eapply crash_bind_then.
  { apply run_unwrap, set_index_Some. rewrite disk_ok_zlen by done. by apply Z.mod_pos_bound. }
  apply crash_bind_first. exists 1%nat. reflexivity.
Qed.

(** The first block of a file that is not empty. *)
Lemma first_block sb w i :
  file_node sb i w → contents i w ≠ [] →
  0 < i_block_count i ∧ run (get_block i 0) w = Done (Some (block_at i w 0)) w ∧
  block_at i w 0 ∈ own_blocks i w.
Proof.
  intros [Hf _ Hcount] Hne.
  assert (0 < i_block_count i) as Hpos.
  { destruct (Z.le_gt_cases (i_block_count i) 0) as [Hle|]; [|done]. exfalso. apply Hne.
    unfold contents, raw, file_blocks. rewrite seqZ_nil by lia. cbn. by rewrite take_nil. }
  split_and!; [done| |].
  - apply (run_file_block sb); [apply Hf|lia].
  - apply elem_of_app. right. apply list_elem_of_fmap. exists 0. split; [done|]. rewrite elem_of_seqZ. lia.
Qed.

Lemma unlink_crash sb w p name m c d :
  consistent None sb w → entries (abs None sb w) p = Some m → m !! name = Some c →
  file_data (abs None sb w) c = Some d → d ≠ [] → is_u64 (img_size (w_img w)) →
  ∃ i b, crash_image (SimpleFS.unlink sb p name) w i ∧ mounts i (abs None sb w) ∧
    b ∈ owned_at None sb w c ∧ bit (World i 0) b = false.
Proof.
  intros Hc Hp Hm Hfile Hd Hs. pose proof (cs_inv _ _ _ Hc) as Hinv.
  destruct (open_dir _ _ _ _ _ Hc Hp) as (dir & Hpn & Hl & Hdir & Hdn & Hmap & Hread & Hfind).
  rewrite Hmap in Hm. apply dir_map_Some in Hm as (e & b' & off & Hget & He).
  destruct (open_file _ _ _ _ _ Hc Hfile) as (i & Hcn & Hli & Hnd & Hfn & -> & _).
  destruct (first_block sb w i Hfn Hd) as (Hcount & Hgb & Hown). set (b := block_at i w 0) in *.
  assert (b ∈ owned_at None sb w c) as Hb by (unfold owned_at, owned; by rewrite Hli, decide_False).
  destruct (owned_range _ _ _ _ _ Hc Hcn Hb) as [Hr Hbit].
  exists (w_img (clear_bit b w)), b. split_and!.
  - unfold SimpleFS.unlink. rewrite to_str_utf8 by (by eapply dir_get_utf8). cbv zeta.
    eapply crash_bind_then; [exact Hread|]. eapply crash_bind_then; [apply Hfind|]. rewrite Hget, He.
    destruct (run_read_live _ _ _ _ _ Hc Hcn Hli) as [Hreadc _].
    eapply crash_bind_then; [exact Hreadc|].
    assert (Z.land (i_mode i) (as_u16 S_IFDIR) =? 0 = true) as ->.
    { change (as_u16 S_IFDIR) with S_IFDIR. apply Z.eqb_eq. unfold is_dir in Hnd.
      by destruct (decide (Z.land (i_mode i) S_IFDIR = 0)). }
    cbn [negb]. apply crash_bind_first. unfold SimpleFS.free_blocks.
    rewrite seqZ_cons by lia. cbn [for_each]. apply crash_bind_first.
    eapply crash_bind_then; [exact Hgb|]. apply mark_free_crash; [apply Hinv|lia].
  - apply (crashed_mounts sb w); [by apply consistent_stage|].
    by apply (crashed_clear sb).
  - exact Hb.
  - change (bit (clear_bit b w) b = false). rewrite bit_clear_bit by (apply Hinv || lia).
    by rewrite bool_decide_true.
Qed.
End unlink.

(** ** Properties *)
Section properties.
Context `{Clock} `{Build}.
Implicit Types (sb : SuperBlock) (w : world) (p n b c : u32) (name : bytes).

(** C7: [create] survives a crash.  Wherever the machine stops while a file is created, the
    next mount accepts the image as it is and finds a whole tree: the old one, the one
    with the new file, or the old one and an empty file under no name. *)
Theorem create_crash_safe sb w p name n :
  clock_ok → mounted sb w → is_u64 (img_size (w_img w)) →
  ready (abs None sb w) (OpCreate p name) → room 1 w →
  child (abs None sb w) p name = None → first_unused (abs None sb w) 1000 2000 = Some n →
  ∀ i, crash_image (SimpleFS.create sb p name) w i →
    ∃ A, mounts i A ∧
      (A = abs None sb w ∨ A = snd (spec (OpCreate p name) (abs None sb w)) ∨
       A = <[n := ANode 33188 (AFile [])]> (abs None sb w)).
Proof.
  intros Hclock [Hc _] Hs Hready Hroom Hch Hn i Hi. pose proof Hready as [([m Hp] & _) _].
  pose proof Hch as Hm. rewrite (child_entries _ _ _ _ Hp) in Hm.
  destruct (ready_new _ p name m _ (or_introl eq_refl) Hready Hp Hm) as [Hgood Hsize].
  pose proof (safe_create Hclock sb w p name m n Hc Hp Hm Hgood Hsize Hroom Hs Hn i Hi) as Hr.
  apply reaches_mounts in Hr as (A & HA & Hmount). exists A. split; [done|].
  unfold spec, spec_create. rewrite Hp. cbn [from_option id]. rewrite Hm, Hn. cbn [promise_of snd]. set_solver.
Qed.

(** C9: [mkdir] survives a crash too: the next mount finds the old tree, the one with the
    new directory, or the old one and the new directory under no name. *)
Theorem mkdir_crash_safe sb w p name n :
  clock_ok → mounted sb w → is_u64 (img_size (w_img w)) →
  ready (abs None sb w) (OpMkdir p name) → room 2 w →
  child (abs None sb w) p name = None → first_unused (abs None sb w) 500 900 = Some n →
  ∀ i, crash_image (SimpleFS.mkdir sb p name) w i →
    ∃ A, mounts i A ∧
      (A = abs None sb w ∨ A = snd (spec (OpMkdir p name) (abs None sb w)) ∨
       A = <[n := ANode 16877 (ADir (new_entries n p))]> (abs None sb w)).
Proof.
  intros Hclock [Hc _] Hs Hready Hroom Hch Hn i Hi. pose proof Hready as [([m Hp] & _) _].
  pose proof Hch as Hm. rewrite (child_entries _ _ _ _ Hp) in Hm.
  destruct (ready_new _ p name m _ (or_intror eq_refl) Hready Hp Hm) as [Hgood Hsize].
  pose proof (safe_mkdir Hclock sb w p name m n Hc Hp Hm Hgood Hsize Hroom Hs Hn i Hi) as Hr.
  apply reaches_mounts in Hr as (A & HA & Hmount). exists A. split; [done|].
  unfold spec, spec_mkdir. rewrite Hp. cbn [from_option id]. rewrite Hm, Hn. cbn [promise_of snd]. set_solver.
Qed.

(** C22: [unlink] does not survive a crash.  When the machine stops after the first write of [unlink] on a
    file that is not empty, the next mount accepts an image on which the file is still
    there under its name, with its contents, and one of its blocks is free in the map:
    the allocator will give it to another file. *)
Theorem unlink_crash_exposes sb w p name c d :
  clock_ok → mounted sb w → is_u64 (img_size (w_img w)) →
  is_Some (entries (abs None sb w) p) → child (abs None sb w) p name = Some c →
  file_data (abs None sb w) c = Some d → d ≠ [] →
  ∃ i b, crash_image (SimpleFS.unlink sb p name) w i ∧ mounts i (abs None sb w) ∧
    b ∈ owned_at None sb w c ∧ bit (World i 0) b = false.
Proof.
  intros Hclock [Hc _] Hs [m Hp] Hch Hfile Hd. rewrite (child_entries _ _ _ _ Hp) in Hch.
  by eapply unlink_crash.
Qed.
End properties.

(** ** Witnesses: a file on a fresh disk *)
#[local] Instance zero_clock : Clock := λ _, 0.
#[local] Instance checked_build : Build := true.
#[local] Existing Instance list_buffer.

(** A session leaves an image whose size fits in 64 bits. *)
Lemma session_size l w r sb w' :
  image_typed (w_img w) → Forall op_type l → run (serve l) w = Done (r, sb) w' →
  is_u64 (img_size (w_img w')).
Proof.
  intros Hw Hl Hrun. destruct (run_typed _ _ _ _ (ty_serve l Hl) Hw) as [_ Hr].
  rewrite Hrun in Hr. apply Hr.
Qed.

Lemma empty_image_typed : image_typed (w_img empty_image).
Proof. apply (bool_decide_unpack _). vm_compute. exact I. Qed.

Lemma create_crash_safe_witness :
  ∃ sb w, run SimpleFS.mount empty_image = Done sb w ∧
    ∀ i, crash_image (SimpleFS.create sb 1 (str "f")) w i →
      ∃ A, mounts i A ∧
        (A = abs None sb w ∨ A = snd (spec (OpCreate 1 (str "f")) (abs None sb w)) ∨
         A = <[1000 := ANode 33188 (AFile [])]> (abs None sb w)).
Proof.
  destruct fresh_mount as (sb & w & Hrun & Hm & Habs & Hroom). exists sb, w. split; [exact Hrun|].
  apply (create_crash_safe sb w 1 (str "f") 1000 zero_clock_ok Hm).
  - apply (session_size [] empty_image [] sb w empty_image_typed); [by constructor|].
    unfold serve. run_step Hrun. reflexivity.
  - rewrite Habs. apply (bool_decide_unpack _). vm_compute. exact I.
  - apply Hroom. lia.
  - rewrite Habs. reflexivity.
  - rewrite Habs. reflexivity.
Defined.

Lemma mkdir_crash_safe_witness :
  ∃ sb w, run SimpleFS.mount empty_image = Done sb w ∧
    ∀ i, crash_image (SimpleFS.mkdir sb 1 (str "d")) w i →
      ∃ A, mounts i A ∧
        (A = abs None sb w ∨ A = snd (spec (OpMkdir 1 (str "d")) (abs None sb w)) ∨
         A = <[500 := ANode 16877 (ADir (new_entries 500 1))]> (abs None sb w)).
Proof.
  destruct fresh_mount as (sb & w & Hrun & Hm & Habs & Hroom). exists sb, w. split; [exact Hrun|].
  apply (mkdir_crash_safe sb w 1 (str "d") 500 zero_clock_ok Hm).
  - apply (session_size [] empty_image [] sb w empty_image_typed); [by constructor|].
    unfold serve. run_step Hrun. reflexivity.
  - rewrite Habs. apply (bool_decide_unpack _). vm_compute. exact I.
  - apply Hroom. lia.
  - rewrite Habs. reflexivity.
  - rewrite Habs. reflexivity.
Defined.

Definition one_file : list op := [OpCreate 1 (str "f"); OpWrite 1000 0 [1; 2; 3]].

Lemma run_one_file :
  ∃ r sb w, run (serve one_file) empty_image = Done (r, sb) w ∧ mounted sb w ∧
    is_u64 (img_size (w_img w)) ∧ abs None sb w = snd (spec_all one_file fresh_tree) ∧ room 1 w.
Proof.
  destruct (run_serve_fresh zero_clock_ok empty_image one_file (map_Forall_empty _) eq_refl
    empty_image_no_stale) as (r & sb & w & Hrun & Hm & _ & Habs & Hroom).
  - apply (bool_decide_unpack _). vm_compute. exact I.
  - apply (bool_decide_unpack _). vm_compute. exact I.
  - exists r, sb, w. split_and!; [done|done| |done|].
    2: { eapply (space_room (peaks ∅ fresh_tree one_file) sb); [apply Hm|done|].
         rewrite Habs. vm_compute. discriminate. }
    apply (session_size one_file empty_image r sb w empty_image_typed); [|done].
    apply (bool_decide_unpack _). vm_compute. exact I.
Qed.

Lemma unlink_crash_exposes_witness :
  ∃ r sb w, run (serve one_file) empty_image = Done (r, sb) w ∧
    ∃ i b, crash_image (SimpleFS.unlink sb 1 (str "f")) w i ∧ mounts i (abs None sb w) ∧
      b ∈ owned_at None sb w 1000 ∧ bit (World i 0) b = false.
Proof.
  destruct run_one_file as (r & sb & w & Hrun & Hm & Hs & Habs & _). exists r, sb, w. split; [exact Hrun|].
  apply (unlink_crash_exposes sb w 1 (str "f") 1000 [1; 2; 3] zero_clock_ok Hm Hs).
  - rewrite Habs. vm_compute. by eexists.
  - rewrite Habs. reflexivity.
  - rewrite Habs. reflexivity.
  - discriminate.
Defined.
