(* ===== verification/Halt.v ===== *)
(** * Halt: crashes inside [setattr], [unlink], [rmdir] and a format

    [setattr] writes one block: the next mount finds the old tree or the new one.  [unlink]
    and [rmdir] free the blocks of a node, write its inode and clear its entry, in an order
    that [Crash] shows to be a defect of the free-space map; what is proved here is that
    the damage ends there: every other file and directory, and every other entry, is as
    it was.  A format writes the superblock first, and the next mount takes a disk
    without a root directory for a file system. *)
From S2P Require Import Prelude Disk Effects Superblock Bitmap Inode Directory Fs File Format.
From S2P Require Import Spec Consistency Room Namespace Mount Nodes Refinement Sessions Typing Crash.

(** ** Freeing the blocks of a node *)
Section free.
Context `{Clock} `{Build}.
Implicit Types (sb : SuperBlock) (w : world) (i : Inode) (c : u32).

Lemma safe_mark_free w0 sb b w :
  crashed w0 (w_img w) → bitmap_inv sb w → 31 ≤ b < MAX_BLOCKS → crash_safe (crashed w0) (mark_free sb b) w.
Proof.
  intros Hcr Hi Hb. eapply safe_typed; [apply ty_mark_free_meta; [exact (bitmap_good sb w Hi)|lia]| |exact Hcr|].
  - apply disk_typed; [apply Hi|apply (cr_size Hcr)].
  - intros j e. apply crashed_meta.
Qed.

Lemma safe_free_blocks sb i w blk :
  freeable sb i w blk → is_u64 (img_size (w_img w)) →
  crash_safe (crashed w) (SimpleFS.free_blocks sb i) w.
Proof.
  intros Hfb Hs. unfold SimpleFS.free_blocks.
  apply (safe_for_each _ (λ pre sb' w', freed (blk <$> pre) sb w sb' w' ∧ crashed w (w_img w'))).
  - split; [by apply freed_nil, Hfb|]. by apply (kept_start _ sb), Hs; apply Hfb.
  - by intros pre sb' w' [_ ?].
  - intros pre k post sb1 w1 Heq [Hf Hcr].
    destruct (freeable_step _ _ _ _ _ _ _ _ _ Hfb Heq Hf) as (Hb & Hget & sb2 & w2 & Hrun & Hf2).
    pose proof (safe_mark_free w sb1 (blk k) w1 Hcr (fr_inv _ _ _ _ _ Hf) Hb) as Hsafe. split.
    + eapply safe_bind_silent; [exact Hget|apply ty_get_block, Hfb|by apply disk_typed, (cr_size Hcr); apply Hf
        |exact Hcr|exact Hsafe].
    + wp_step Hget. eapply wp_intro; [exact Hrun|]. split; [done|]. by eapply safe_done.
Qed.

(** [unlink] frees the blocks of a file and its indirect block. *)
Lemma safe_free_file {A} (C : image → Prop) (f : SuperBlock → prog A) sb w c i :
  consistent None sb w → c ∈ inode_numbers → live None sb w c = Some i → ¬ is_dir i →
  is_u64 (img_size (w_img w)) → (∀ j, crashed w j → C j) →
  (∀ sb' w' l, freed l sb w sb' w' → (∀ b, b ∈ l ↔ b ∈ owned i w) → crashed w (w_img w') →
     crash_safe C (f sb') w') →
  crash_safe C (sb ← SimpleFS.free_blocks sb i;
    sb ← (if negb (i_indirect_block i =? 0) then mark_free sb (i_indirect_block i) else mret sb); f sb) w.
Proof.
  intros Hc Hcn Hl Hfile Hs HC Hf. pose proof (freeable_file sb w c i Hc Hcn Hl Hfile) as Hfb.
  destruct (run_free_blocks sb i w _ Hfb) as (sb1 & w1 & Hrun1 & Hf1).
  pose proof (safe_free_blocks sb i w _ Hfb Hs) as Hsafe1.
  pose proof (safe_done _ _ _ _ _ Hsafe1 Hrun1) as Hcr1.
  eapply safe_bind; [exact Hrun1|by eapply safe_mono|].
  change (block_at i w <$> seqZ 0 (i_block_count i)) with (file_blocks i w) in Hf1.
  pose proof (freed_indirect _ _ _ _ _ _ Hc Hcn Hl Hfile Hf1) as Hind.
  destruct (negb (i_indirect_block i =? 0)).
  - destruct Hind as (Hr & sb2 & w2 & Hrun2 & Hf2 & Hown).
    pose proof (safe_mark_free w sb1 _ w1 Hcr1 (fr_inv _ _ _ _ _ Hf1) Hr) as Hsafe2.
    eapply safe_bind; [exact Hrun2|by eapply safe_mono|]. by eapply Hf, safe_done.
  - eapply safe_bind; [done|by apply safe_ret, HC|]. by eapply Hf.
Qed.

(** [rmdir] frees the blocks of a directory. *)
Lemma safe_free_dir {A} (C : image → Prop) (f : SuperBlock → prog A) sb w c i :
  consistent None sb w → c ∈ inode_numbers → live None sb w c = Some i → is_dir i →
  is_u64 (img_size (w_img w)) → (∀ j, crashed w j → C j) →
  (∀ sb' w' l, freed l sb w sb' w' → (∀ b, b ∈ l ↔ b ∈ owned i w) → crashed w (w_img w') →
     crash_safe C (f sb') w') →
  crash_safe C (sb ← SimpleFS.free_blocks sb i; f sb) w.
Proof.
  intros Hc Hcn Hl Hdir Hs HC Hf. destruct (freeable_dir sb w c i Hc Hcn Hl Hdir) as [Hfb Hseq].
  destruct (run_free_blocks sb i w _ Hfb) as (sb1 & w1 & Hrun1 & Hf1).
  pose proof (safe_free_blocks sb i w _ Hfb Hs) as Hsafe1.
  eapply safe_bind; [exact Hrun1|by eapply safe_mono|]. eapply Hf; [exact Hf1| |by eapply safe_done].
  unfold owned. by rewrite decide_True, Hseq.
Qed.
End free.

(** ** Clearing an entry *)
Section clear.
Context `{Clock} `{Build} (Hclock : clock_ok).
Implicit Types (sb : SuperBlock) (v w : world) (p c : u32) (name : bytes) (m : gmap bytes u32).

Lemma kept_tick P v (i : image) : kept P v i → kept P (w_tick v) i.
Proof. intros [? ? ? ?]. by constructor. Qed.

(** Writing an inode on the image of a crash. *)
Lemma crashed_put sb sb' v w j :
  crashed v (w_img w) → sb_inode_table_start sb' = sb_inode_table_start sb → disk_ok v →
  inode_ok sb (i_inode_no j) → inode_wf j →
  crashed (put_inode sb j v) (w_img (put_inode sb' j w)).
Proof.
  intros Hcr Ht Hok Hno Hj. pose proof (inode_ok_block _ _ Hno) as Hb. pose proof (inode_offset_range (i_inode_no j)).
  assert (zlen (i_direct_blocks j) = 10) as Hd by apply Hj.
  pose proof (zlen_Inode_to_bytes j Hd) as Hl. change INODE_SIZE with 84 in *.
  destruct (disk_ok_block v (inode_block sb (i_inode_no j)) Hok) as [Hz Hu]. consts.
  unfold put_inode. assert (inode_block sb' (i_inode_no j) = inode_block sb (i_inode_no j)) as ->
    by (unfold inode_block; by rewrite Ht).
  set (b := inode_block sb (i_inode_no j)) in *.
  assert (w_read w b = w_read v b) as -> by (apply (cr_read _ _ _ Hcr); unfold behind_map; lia).
  apply kept_write; [done| |consts; lia]. split; [consts; rewrite zlen_splice; lia|].
  apply Forall_splice; [by apply Inode_to_bytes_u8|done].
Qed.

(** [dir_remove_entry] on an image with the blocks of [v]: the entry is there or not. *)
Lemma safe_remove_name As sb sb' v w p dir name c m :
  consistent None sb v → entries (abs None sb v) p = Some m → live None sb v p = Some dir →
  m !! name = Some c → is_u64 (img_size (w_img v)) →
  crashed v (w_img w) → w_ticks w = w_ticks v → sb_inode_table_start sb' = 6 →
  abs None sb v ∈ As → set_entries p (base.delete name m) (abs None sb v) ∈ As →
  ∃ i' w', run (dir_remove_entry sb' dir name) w = Done (Ok (), i') w' ∧ reaches As (w_img w') ∧
    crash_safe (reaches As) (dir_remove_entry sb' dir name) w.
Proof.
  intros Hc Hp Hl Hm Hsv Hcr Hticks Htab HA HA'.
  destruct (open_dir _ _ _ _ _ Hc Hp) as (dir' & Hpn & Hl' & Hdir & Hdn & Hmap & _).
  assert (dir' = dir) as -> by congruence. pose proof (consistent_table _ _ _ Hc) as Ht.
  destruct (run_remove_name Hclock None sb v p dir name c m Hc Hp Hl Hm) as (i' & v2 & Hrun & Hc2 & Habs2 & _).
  rewrite Hmap in Hm. apply dir_map_Some in Hm as (e & b & off & Hget & _).
  pose proof (dn_ok _ _ _ Hdn) as Hdok. rewrite (run_dir_remove_entry Hclock), Hget in Hrun by done.
  injection Hrun as <- <-.
  destruct (consistent_live _ _ _ _ _ Hc Hpn Hl) as (_ & Hwf & Hno & Hdisk).
  destruct (consistent_number _ _ _ _ Hc Hpn) as (Hnok & Hblk & _).
  pose proof (bi_disk _ _ (cs_inv _ _ _ Hc)) as Hokv.
  destruct (dir_get_elem _ _ _ _ Hget) as [(b' & k & Hb & Hk & Heq)%elem_of_dir_slots _].
  injection Heq as -> -> ->.
  assert (b' ∈ owned_at None sb v p) as Hown by (unfold owned_at, owned; by rewrite Hl, decide_True).
  destruct (owned_range _ _ _ _ _ Hc Hpn Hown) as [Hbr _].
  (* the directory on the image *)
  assert (∀ q, q ∈ dir_blocks dir → w_read w q = w_read v q) as Hreads.
  { intros q Hq. apply (cr_read _ _ _ Hcr). unfold behind_map.
    assert (q ∈ owned_at None sb v p) as Hq' by (unfold owned_at, owned; by rewrite Hl, decide_True).
    destruct (owned_range _ _ _ _ _ Hc Hpn Hq'). lia. }
  assert (disk_ok w) as Hokw by apply (cr_disk _ _ _ Hcr).
  destruct (dir_ok_ext sb sb' dir v w Hdok Hokw) as [Hdokw Hslots]; [congruence|done|].
  assert (dir_get dir w name = dir_get dir v name) as Hgetw by (unfold dir_get; by rewrite Hslots).
  rewrite Hget in Hgetw.
  (* the block with the entry cleared *)
  pose proof (Hreads b' Hb) as Hrb.
  set (d := <[Z.to_nat (k * 34 + 5) := 0]> (w_read v b')) in *.
  destruct (disk_ok_block v b' Hokv) as [Hz Hu].
  assert (is_block d) as Hd by (split; [unfold d; by rewrite zlen_insert|by apply Forall_insert]).
  set (v1 := w_write b' d v). set (w1 := w_write b' d w).
  assert (disk_ok v1) as Hok1 by (apply disk_ok_write; [done|apply Hd..]).
  assert (disk_ok w1) as Hok1' by (apply disk_ok_write; [done|apply Hd..]).
  assert (crashed v1 (w_img w1)) as Hcr1 by (by apply kept_write; [|done|lia]).
  assert (touched dir w1 = touched dir v1) as Htouch by (unfold touched; simpl; by rewrite Hticks).
  assert (clear_slot sb dir b' (k * 34) v = put_inode sb (touched dir v1) (w_tick v1)) as Hv2 by done.
  assert (inode_ok sb (i_inode_no (touched dir v1))) as Hnok1 by (unfold touched; simpl; by rewrite Hno).
  pose proof (touched_wf Hclock dir v1 Hwf) as Hwf1.
  (* the states *)
  assert (reaches As (w_img w)) as HC0.
  { exists sb, v, (abs None sb v). split_and!; [by apply consistent_stage|done|done]. }
  assert (reaches As (w_img w1)) as HC1.
  { apply live_Some in Hl as (_ & _ & Hlink). exists sb, (w_tick v1), (set_entries p (base.delete name m) (abs None sb v)).
    split_and!; [|done|by apply kept_tick].
    apply (stage_unput sb _ dir (touched dir v1));
      [exact Hc2|exact Habs2|exact Hok1| | |by split_and!|done|done|done|exact Hlink];
      change (i_inode_no (touched dir v1)) with (i_inode_no dir); rewrite Hno; [done|].
    apply live_Some. split_and!; [done| |done]. rewrite <-Hdisk.
    apply (disk_inode_write_ne sb v). by apply (owned_not_inode None sb v p). }
  assert (reaches As (w_img (put_inode sb' (touched dir v1) (w_tick w1)))) as HC2.
  { exists sb, (clear_slot sb dir b' (k * 34) v), (set_entries p (base.delete name m) (abs None sb v)).
    split_and!; [by rewrite <-Habs2; apply consistent_stage|done|].
    rewrite Hv2. apply (crashed_put sb sb' (w_tick v1) (w_tick w1)); [by apply kept_tick|congruence|exact Hok1|done|done]. }
  assert (run (dir_remove_entry sb' dir name) w = Done (Ok (), touched dir w) (clear_slot sb' dir b' (k * 34) w))
    as Hrunw by (by rewrite (run_dir_remove_entry Hclock), Hgetw).
  assert (clear_slot sb' dir b' (k * 34) w = put_inode sb' (touched dir v1) (w_tick w1)) as Hw2.
  { unfold clear_slot, store_touched. rewrite Hrb. fold d w1. by rewrite Htouch. }
  exists (touched dir w), (clear_slot sb' dir b' (k * 34) w). split; [done|]. split; [by rewrite Hw2|].
  (* the program *)
  pose proof (disk_typed w Hokw (cr_size Hcr)) as Hw. pose proof (disk_typed w1 Hok1' (cr_size Hcr1)) as Hw1.
  unfold dir_remove_entry. consts.
  eapply safe_bind_silent; [apply run_dir_find, Hdokw|by apply ty_dir_find|done|done|]. rewrite Hgetw.
  eapply safe_bind_silent; [apply run_read_block, disk_ok_has; [done|consts; lia]
    |apply ty_read_block; unfold is_u32; lia|done|done|].
  eapply safe_bind_unwrap; [apply set_index_Some; rewrite Hrb; consts; lia|done|]. rewrite Hrb. fold d.
  eapply safe_bind; [apply run_write_block; [apply Hd|unfold is_u32; lia]|by apply safe_write|]. fold w1.
  eapply safe_bind_silent; [by apply run_now|apply ty_current_timestamp|done|done|]. cbv zeta.
  change (set_mtime dir _) with (touched dir w1). rewrite Htouch.
  eapply safe_bind; [apply (run_write_inode sb' (touched dir v1) (w_tick w1))| |by apply safe_ret].
  - exact Hok1'.
  - by destruct Hdokw.
  - by apply inode_wf_direct.
  - apply safe_write_inode; [exact Hok1'|exact (cr_size Hcr1)|by destruct Hdokw|done|exact HC1|exact HC2].
Qed.
End clear.

(** ** [unlink] and [rmdir] *)
Section remove.
Context `{Clock} `{Build} (Hclock : clock_ok).
Implicit Types (sb : SuperBlock) (w : world) (p c : u32) (name : bytes) (m : gmap bytes u32).

(** The start of both: the parent, the entry and the node it leads to are read. *)
Lemma find_node sb w p name m c :
  consistent None sb w → entries (abs None sb w) p = Some m → m !! name = Some c → is_Some (abs None sb w !! c) →
  ∃ dir i e b off, p ∈ inode_numbers ∧ c ∈ inode_numbers ∧
    live None sb w p = Some dir ∧ live None sb w c = Some i ∧ dir_ok sb dir w ∧
    run (read_inode sb (as_u32 p)) w = Done dir w ∧
    run (dir_find dir name) w = Done (Some (e, b, off)) w ∧
    run (read_inode sb (de_inode e)) w = Done i w ∧ is_u32 (de_inode e) ∧
    abs None sb w !! c = Some (node i w).
Proof.
  intros Hc Hp Hm [x Hx].
  destruct (open_dir _ _ _ _ _ Hc Hp) as (dir & Hpn & Hl & Hdir & Hdn & -> & Hread & Hfind).
  apply dir_map_Some in Hm as (e & b & off & Hget & <-).
  destruct (abs_live _ _ _ _ _ Hx) as (Hcn & i & Hli & ->).
  destruct (run_read_live _ _ _ _ _ Hc Hcn Hli) as [Hreadc _].
  destruct (consistent_number _ _ _ _ Hc Hcn) as (Hok & _).
  exists dir, i, e, b, off. split_and!; try done; [apply Hdn|by rewrite Hfind, Hget|by eapply inode_ok_u32].
Qed.

Lemma safe_unlink sb w p name m c d :
  consistent None sb w → entries (abs None sb w) p = Some m → m !! name = Some c →
  file_data (abs None sb w) c = Some d → is_u64 (img_size (w_img w)) →
  let A := abs None sb w in
  crash_safe (reaches [A; base.delete c A; detach A p name c]) (SimpleFS.unlink sb p name) w.
Proof.
  intros Hc Hp Hm Hfile Hs A. set (As := [A; _; _]).
  assert (A ∈ As) as HA0 by left. assert (base.delete c A ∈ As) as HA1 by (right; left).
  assert (detach A p name c ∈ As) as HA2 by (do 2 right; left).
  destruct (open_file _ _ _ _ _ Hc Hfile) as (i & Hcn & Hli & Hnd & _).
  destruct (find_node sb w p name m c Hc Hp Hm) as
    (dir & i' & e & b & off & Hpn & _ & Hl & Hli' & Hdok & Hread & Hfind & Hreadc & Heu & _).
  { unfold file_data in Hfile. by destruct (abs None sb w !! c). }
  assert (i' = i) as -> by congruence.
  assert (p ≠ c) as Hpc.
  { intros ->. unfold file_data in Hfile. apply entries_Some in Hp as (md & Hx). by rewrite Hx in Hfile. }
  pose proof (bi_disk _ _ (cs_inv _ _ _ Hc)) as Hok. pose proof (disk_typed w Hok Hs) as Hw.
  assert (∀ j, crashed w j → reaches As j) as HCw.
  { intros j Hj. exists sb, w, A. split_and!; [by apply consistent_stage|done|done]. }
  assert (reaches As (w_img w)) as HC0 by (by apply HCw, (kept_start _ sb); [apply Hc|]).
  unfold SimpleFS.unlink. rewrite to_str_utf8 by (by eapply (entries_utf8 None sb w p)). cbv zeta.
  eapply safe_bind_silent; [exact Hread|apply ty_read_inode, u32_as|done|done|].
  eapply safe_bind_silent; [exact Hfind|by apply ty_dir_find, Hdok|done|done|].
  eapply safe_bind_silent; [exact Hreadc|by apply ty_read_inode|done|done|].
  assert (Z.land (i_mode i) (as_u16 S_IFDIR) =? 0 = true) as ->.
  { change (as_u16 S_IFDIR) with S_IFDIR. apply Z.eqb_eq. unfold is_dir in Hnd.
    by destruct (decide (Z.land (i_mode i) S_IFDIR = 0)). }
  cbn [negb]. eapply safe_free_file; [exact Hc|exact Hcn|exact Hli|exact Hnd|exact Hs|exact HCw|].
  intros sb1 w1 l Hfr Hown Hcr1.
  destruct (change_freed _ _ _ _ _ _ _ Hc Hcn Hli Hfr Hown) as (Hc1 & Habs1 & Hlive1 & Hi1 & _).
  destruct (run_bury _ _ _ _ _ Hc1 Hcn eq_refl Hi1) as (Hrun2 & Hc2 & Habs2 & Hlive2 & _).
  rewrite Habs1, delete_delete_eq in Habs2. set (w2 := put_inode sb1 (set_nlink i 0) w1) in *.
  destruct (consistent_number _ _ _ _ Hc1 Hcn) as (Hnok1 & Hblk1 & _).
  destruct (disk_inode_wf sb1 w1 c i) as [Hwf Hno]; [apply Hc1|done|done|].
  assert (is_u64 (img_size (w_img w2))) as Hs2.
  { apply (size_write w1); [apply (cr_size Hcr1)|]. change (0 ≤ inode_block sb1 (i_inode_no i) < MAX_BLOCKS).
    rewrite Hno. lia. }
  assert (reaches As (w_img w2)) as HC2 by (by apply (reaches_consistent As sb1); [|rewrite Habs2|]).
  cbv zeta. eapply safe_bind; [exact Hrun2| |].
  { apply safe_write_inode; [apply Hc1|apply (cr_size Hcr1)|simpl; by rewrite Hno|by apply set_nlink_wf|by apply HCw|exact HC2]. }
  assert (entries (abs None sb1 w2) p = Some m) as Hp2
    by (rewrite Habs2; unfold entries; rewrite lookup_delete_ne by done; exact Hp).
  destruct (safe_remove_name Hclock As sb1 sb1 w2 w2 p dir name c m) as (i3 & w3 & Hrun3 & HC3 & Hsafe3); try done.
  - by rewrite Hlive2, Hlive1.
  - by apply (kept_start _ sb1), Hs2; apply Hc2.
  - by eapply consistent_table.
  - by rewrite Habs2.
  - rewrite Habs2. unfold A, detach in HA2. by rewrite Hp in HA2.
  - eapply safe_bind; [exact Hrun3|exact Hsafe3|]. by apply safe_ret.
Qed.

Lemma safe_rmdir sb w p name m c mc :
  consistent None sb w → entries (abs None sb w) p = Some m → m !! name = Some c →
  entries (abs None sb w) c = Some mc → (base.size mc ≤ 2)%nat → p ≠ c → is_u64 (img_size (w_img w)) →
  let A := abs None sb w in
  crash_safe (reaches [A; set_entries p (base.delete name m) A; detach A p name c]) (SimpleFS.rmdir sb p name) w.
Proof.
  intros Hc Hp Hm Hce Hsize Hpc Hs A. set (As := [A; _; _]).
  assert (A ∈ As) as HA0 by left. assert (set_entries p (base.delete name m) A ∈ As) as HA1 by (right; left).
  assert (detach A p name c ∈ As) as HA2 by (do 2 right; left).
  destruct (open_dir _ _ _ _ _ Hc Hce) as (i & Hcn & Hli & Hdi & Hidn & Hmapc & _ & _).
  destruct (find_node sb w p name m c Hc Hp Hm) as
    (dir & i' & e & b & off & Hpn & _ & Hl & Hli' & Hdok & Hread & Hfind & Hreadc & Heu & _);
    [by eapply entries_in|].
  assert (i' = i) as -> by congruence.
  pose proof (bi_disk _ _ (cs_inv _ _ _ Hc)) as Hok. pose proof (disk_typed w Hok Hs) as Hw.
  assert (∀ j, crashed w j → reaches As j) as HCw.
  { intros j Hj. exists sb, w, A. split_and!; [by apply consistent_stage|done|done]. }
  assert (reaches As (w_img w)) as HC0 by (by apply HCw, (kept_start _ sb); [apply Hc|]).
  unfold SimpleFS.rmdir. rewrite to_str_utf8 by (by eapply (entries_utf8 None sb w p)). cbv zeta.
  eapply safe_bind_silent; [exact Hread|apply ty_read_inode, u32_as|done|done|].
  eapply safe_bind_silent; [exact Hfind|by apply ty_dir_find, Hdok|done|done|].
  eapply safe_bind_silent; [exact Hreadc|by apply ty_read_inode|done|done|].
  assert (Z.land (i_mode i) (as_u16 S_IFDIR) =? 0 = false) as -> by (by apply Z.eqb_neq).
  eapply safe_bind_silent; [apply run_dir_lookup, Hidn|apply ty_dir_lookup, (dir_ok_wf sb i w), Hidn|done|done|].
  assert (2 <? zlen (dir_entries i w) = false) as ->.
  { apply Z.ltb_ge. rewrite Hmapc, (size_dir_map sb) in Hsize by done. unfold zlen. lia. }
  eapply safe_free_dir; [exact Hc|exact Hcn|exact Hli|exact Hdi|exact Hs|exact HCw|].
  intros sb1 w1 l Hfr Hown Hcr1.
  destruct (removed_state Hclock sb w p name m c dir i l sb1 w1 Hc Hp Hm Hcn Hl Hli Hpc Hfr Hown)
    as (i2 & w2 & Hrun2 & Hrun3 & Hc3 & _ & Habs3).
  destruct (safe_remove_name Hclock As sb sb1 w w1 p dir name c m) as (i3 & w3 & Hrun2' & HC2 & Hsafe2); try done.
  { apply Hfr. }
  { apply Hfr. }
  rewrite Hrun2 in Hrun2'. injection Hrun2' as <- <-.
  eapply safe_bind; [exact Hrun2|exact Hsafe2|]. cbv beta iota zeta.
  destruct (consistent_live _ _ _ _ _ Hc Hcn Hli) as (_ & Hwf & Hno & _).
  destruct (consistent_number _ _ _ _ Hc3 Hcn) as (Hnok & Hblk & _).
  destruct HC2 as (sb4 & v4 & A4 & Hst4 & HA4 & Hcr4).
  assert (disk_ok w2) as Hok2 by apply (cr_disk _ _ _ Hcr4).
  assert (reaches As (w_img w2)) as HC2 by (by exists sb4, v4, A4).
  eapply safe_bind; [exact Hrun3| |].
  2: { apply safe_ret, (reaches_consistent As sb1); [done|by rewrite Habs3|].
       apply size_write; [apply (cr_size Hcr4)|]. simpl. rewrite Hno. lia. }
  apply safe_write_inode; [done|apply (cr_size Hcr4)|simpl; by rewrite Hno|by apply set_nlink_wf|done|].
  apply (reaches_consistent As sb1); [done|by rewrite Habs3|].
  apply size_write; [apply (cr_size Hcr4)|]. simpl. rewrite Hno. lia.
Qed.
End remove.

(** ** [setattr] *)
Section setattr.
Context `{Clock} `{Build} (Hclock : clock_ok).
Implicit Types (sb : SuperBlock) (w : world) (n : u32).

Lemma safe_setattr sb w n x mode uid gid size :
  consistent None sb w → abs None sb w !! n = Some x → is_u64 (img_size (w_img w)) →
  crash_safe (reaches [abs None sb w; spec_setattr (abs None sb w) n mode])
    (SimpleFS.setattr sb n mode uid gid size) w.
Proof.
  intros Hc Hx Hs. set (As := [_; _]).
  destruct (abs_live _ _ _ _ _ Hx) as (Hn & i & Hl & _).
  destruct (consistent_live _ _ _ _ _ Hc Hn Hl) as (_ & Hwf & Hno & _).
  destruct (run_read_live _ _ _ _ _ Hc Hn Hl) as [_ Hr].
  destruct (consistent_number _ _ _ _ Hc Hn) as (Hnok & Hblk & _).
  destruct (run_setattr Hclock sb w n x mode uid gid size Hc Hx) as (a & w' & Hrun & Hc' & _ & _ & Habs).
  pose proof (bi_disk _ _ (cs_inv _ _ _ Hc)) as Hok. pose proof (disk_typed w Hok Hs) as Hw.
  assert (reaches As (w_img w)) as HC0 by (apply (reaches_consistent As sb); [done|left|done]).
  revert Hrun. unfold SimpleFS.setattr. run_step Hr. cbv zeta. rewrite setattr_mode. run_step run_now by done.
  set (j := set_mtime (set_mode i (chmod_mode (i_mode i) mode)) (clock_at (w_ticks w))).
  assert (inode_wf j) as Hj by (by apply (chmodded_wf Hclock i mode)). assert (i_inode_no j = n) as Hjno by done.
  assert (run (write_inode sb j) (w_tick w) = Done () (put_inode sb j (w_tick w))) as Hwrite
    by (apply run_write_inode; [done|by rewrite Hjno|by apply inode_wf_direct]).
  run_step Hwrite. intros [= _ <-].
  assert (reaches As (w_img (put_inode sb j (w_tick w)))) as HC1.
  { apply (reaches_consistent As sb); [done|right; rewrite Habs; left|].
    apply (size_write (w_tick w)); [done|]. rewrite Hjno. lia. }
  eapply safe_bind_silent; [exact Hr|apply ty_read_inode, u32_as|done|done|]. cbv zeta. rewrite setattr_mode.
  eapply safe_bind_silent; [by apply run_now|apply ty_current_timestamp|done|done|]. cbv zeta.
  fold j.
  eapply safe_bind; [exact Hwrite| |by apply safe_ret].
  apply safe_write_inode; [done|done|by rewrite Hjno|done|exact HC0|exact HC1].
Qed.
End setattr.

(** ** Formatting *)
Section format.
Context `{Clock} `{Build} (Hclock : clock_ok).
Implicit Types (sb : SuperBlock) (w v : world).

Lemma safe_truncate (C : image → Prop) n w :
  C (w_img w) → C (img_truncate n (w_img w)) → crash_safe C (truncate n) w.
Proof. intros HC0 HC1 i [k ->]. destruct k as [|k]; [done|]. simpl. by rewrite take_nil. Qed.

Lemma initial_good : good_sb initial_superblock.
Proof. split_and!; [apply initial_superblock_wf|done|done]. Qed.

Lemma ty_init_bitmap_meta : has_type meta_event (λ _, True) (init_bitmap initial_superblock).
Proof.
  apply ty_init_bitmap_events; [apply initial_superblock_wf|]. intros i d Hi Hd. split; [done|]. left.
  change (as_usize (sb_bitmap_blocks initial_superblock)) with 5 in Hi. apply elem_of_seqZ in Hi.
  rewrite as_u32_id by (unfold is_u32; lia). lia.
Qed.

(** A blank disk: no superblock, and no inode is in use. *)
Definition blank (w : world) : Prop :=
  disk_ok w ∧ abs None initial_superblock w = ∅ ∧ disk_superblock w = None.

Lemma blank_stage w : blank w → stage initial_superblock w ∅.
Proof.
  intros (Hok & Habs & _). constructor; [done|done| |done]. intros n i Hn Hl.
  pose proof (abs_of _ _ _ _ _ Hn Hl) as Hx. by rewrite Habs in Hx.
Qed.

Lemma blank_no_stale w : blank w → no_stale_inodes w.
Proof.
  intros (Hok & Habs & _) n i Hn _ Hi. destruct (decide (i_nlink i = 0)) as [|Hne]; [done|].
  assert (live None initial_superblock w n = Some i) as Hl by (by apply live_Some).
  pose proof (abs_of _ _ _ _ _ Hn Hl) as Hx. by rewrite Habs in Hx.
Qed.

(** What a crash inside a format leaves. *)
Definition formatting (w : world) (i : image) : Prop :=
  i = w_img w ∨ mounts i ∅ ∨ mounts i fresh_tree.

(** The first write makes a disk that a mount accepts. *)
Lemma crashed_format w :
  blank w → is_u64 (img_size (w_img w)) →
  crashed w (w_img (w_write 0 (superblock_block initial_superblock) w)).
Proof.
  intros [Hok _] Hs. pose proof (is_block_superblock _ initial_superblock_wf) as [Hz Hu].
  constructor; [by apply disk_ok_write| | |].
  - by apply size_write.
  - exists initial_superblock. split; [|apply initial_good].
    apply (disk_superblock_write initial_superblock w); [apply initial_superblock_wf|done].
  - intros b Hb. apply w_read_write_ne. unfold behind_map in Hb. lia.
Qed.

(** The free-space map is written. *)
Lemma format_map w :
  blank w → is_u64 (img_size (w_img w)) →
  let w0 := w_write 0 (superblock_block initial_superblock) w in
  ∃ w1, run (init_bitmap initial_superblock) w0 = Done () w1 ∧ bitmap_inv initial_superblock (w_tick w1) ∧
    least_free (w_tick w1) = Some 31 ∧ crash_safe (crashed w) (init_bitmap initial_superblock) w0 ∧
    crashed w (w_img w1).
Proof.
  intros Hblank Hs w0. pose proof (crashed_format w Hblank Hs) as Hcr0. fold w0 in Hcr0.
  destruct (wp_inv _ _ _ (wp_format_map w (proj1 Hblank))) as ([] & w1 & Hrun1 & Hi1 & Hbits1 & _).
  rewrite (run_bind_Done _ _ _ _ _ (run_init_superblock w)) in Hrun1. fold w0 in Hrun1.
  assert (crash_safe (crashed w) (init_bitmap initial_superblock) w0) as Hsafe1.
  { eapply safe_typed; [apply ty_init_bitmap_meta|by apply disk_typed, (cr_size Hcr0); apply (cr_disk _ _ _ Hcr0)
      |exact Hcr0|]. intros j e. apply crashed_meta. }
  exists w1. split_and!; [done|by apply bitmap_inv_tick| |done|by eapply safe_done].
  apply (first_marked_least 31); [consts; lia|done].
Qed.

Lemma root_block : is_block (SimpleFS.dir_block 1 1).
Proof. by apply dir_block_wf. Qed.

Lemma run_root_block w :
  run (write_block 31 (SimpleFS.dir_block 1 1)) w = Done () (w_write 31 (SimpleFS.dir_block 1 1) w).
Proof. by apply run_write_block; [apply root_block|]. Qed.

(** The block of the root directory on a blank disk. *)
Lemma blank_root_block w (i : image) :
  blank w → crashed w i → formatting w (img_write 31 (SimpleFS.dir_block 1 1) i).
Proof.
  intros Hblank Hcr. pose proof root_block as Hblk. pose proof root_block as [Hz Hu]. right; left.
  eapply crashed_mounts; [|apply kept_write; [exact Hcr|exact Hblk|consts; lia]].
  apply (stage_ext_nodes initial_superblock initial_superblock w);
    [by apply blank_stage|by apply disk_ok_write; [apply Hblank|..]|done| |].
  - intros n Hn. apply w_read_write_ne. intros Heq.
    destruct (number_block initial_superblock n eq_refl Hn) as [_ Hb]. unfold inode_area in Hb. lia.
  - intros n i' b Hn Hl. pose proof (abs_of _ _ _ _ _ Hn Hl) as Hx. by rewrite (proj1 (proj2 Hblank)) in Hx.
Qed.

(** The inode of the root directory, and the superblock with its number. *)
Lemma safe_format_end w w3 sb1 root sb' w5 :
  let p := (write_inode sb1 root;; write_superblock (with_root_inode 1 sb1);; mret (with_root_inode 1 sb1)) in
  bitmap_inv sb1 w3 → is_u64 (img_size (w_img w3)) → inode_wf root → i_inode_no root = 1 →
  run p w3 = Done sb' w5 → consistent None sb' w5 → abs None sb' w5 = fresh_tree →
  formatting w (w_img w3) → crash_safe (formatting w) p w3.
Proof.
  intros p Hi Hs Hwf Hno Hrun Hc Habs HC3.
  assert (inode_ok sb1 (i_inode_no root)) as Hok by (rewrite Hno; unfold inode_ok, inode_block; rewrite (bi_table _ _ Hi); done).
  pose proof (run_write_inode sb1 root w3 (bi_disk _ _ Hi) Hok (inode_wf_direct _ Hwf)) as Hrun4.
  pose proof (bitmap_inv_put sb1 sb1 root w3 Hi Hok (inode_wf_direct _ Hwf)) as Hi4.
  set (w4 := put_inode sb1 root w3) in *.
  assert (is_u64 (img_size (w_img w4))) as Hs4.
  { apply size_write; [done|]. apply inode_ok_block in Hok. lia. }
  pose proof (run_write_superblock (with_root_inode 1 sb1) w4 (bitmap_inv_magic _ _ Hi4)) as Hrun5.
  unfold p in Hrun. rewrite (run_bind_Done _ _ _ _ _ Hrun4), (run_bind_Done _ _ _ _ _ Hrun5) in Hrun.
  injection Hrun as <- <-.
  set (w5 := w_write 0 (superblock_block (with_root_inode 1 sb1)) w4) in *.
  assert (formatting w (w_img w4)) as HC4.
  { right; right. rewrite <-Habs. eapply crashed_mounts; [by apply consistent_stage|].
    destruct (kept_start behind_map sb1 w4 Hi4 Hs4) as [? ? ? Hr]. constructor; [done..|].
    intros b Hb. rewrite Hr by done. symmetry. apply w_read_write_ne. unfold behind_map in Hb. lia. }
  assert (formatting w (w_img w5)) as HC5.
  { right; right. rewrite <-Habs. eapply crashed_mounts; [by apply consistent_stage|].
    eapply kept_start; [apply Hc|]. apply size_write; [done|consts; lia]. }
  eapply safe_bind; [exact Hrun4|by apply safe_write_inode; [apply Hi|..]|].
  eapply safe_bind; [exact Hrun5|by apply safe_write|]. by apply safe_ret.
Qed.

Lemma ty_new_root : has_type no_event inode_wf (new_dir 1).
Proof. by apply ty_new_dir. Qed.
Lemma root_wf t : inode_wf (made_dir 1 31 (clock_at t)).
Proof. by apply made_dir_wf. Qed.

Lemma safe_format w :
  blank w → is_u64 (img_size (w_img w)) → crash_safe (formatting w) SimpleFS.format_new_fs w.
Proof.
  intros Hblank Hs. pose proof Hblank as [Hok _]. pose proof (blank_stage w Hblank) as Hst.
  assert (∀ j, crashed w j → formatting w j) as HC0 by (intros j Hj; right; left; by eapply crashed_mounts).
  pose proof (run_init_superblock w) as Hinit.
  pose proof (HC0 _ (crashed_format w Hblank Hs)) as HCinit.
  destruct (wp_inv _ _ _ (wp_format Hclock w Hok)) as (sb' & w5 & Hrun5 & Hf).
  destruct (formatted_mounted _ _ _ Hf (blank_no_stale w Hblank)) as ([Hc5 _] & Habs5 & _).
  destruct (format_map w Hblank Hs) as (w1 & Hrun1 & Hi1 & Hleast & Hsafe1 & Hcr1).
  set (w0 := w_write 0 (superblock_block initial_superblock) w) in *.
  pose proof (run_allocate_block_inv _ _ Hi1) as Hrun2. rewrite Hleast in Hrun2. cbv zeta in Hrun2.
  pose proof (bitmap_inv_set _ _ 31 Hi1 ltac:(consts; lia) ltac:(by apply least_free_Some in Hleast as (_ & ? & _))) as Hi2.
  cbv zeta in Hi2. set (sb1 := with_free_blocks (sb_free_blocks initial_superblock - 1) initial_superblock) in *.
  set (w2 := record_superblock sb1 (set_bit 31 (w_tick w1))) in *.
  assert (crash_safe (crashed w) (allocate_block initial_superblock) (w_tick w1)) as Hsafe2.
  { eapply safe_typed; [apply ty_allocate_block_meta, initial_good|by apply disk_typed, (cr_size Hcr1); apply Hi1
      |exact Hcr1|]. intros j e. apply crashed_meta. }
  pose proof (safe_done _ _ _ _ _ Hsafe2 Hrun2) as Hcr2.
  pose proof (run_root_block w2) as Hrun3.
  unfold SimpleFS.format_new_fs in Hrun5 |- *.
  rewrite (run_bind_Done _ _ _ _ _ Hinit), (run_bind_Done _ _ _ _ _ Hrun1) in Hrun5. cbv zeta in Hrun5.
  rewrite (run_bind_Done _ _ _ _ _ (run_new_dir Hclock 1 w1)), (run_bind_Done _ _ _ _ _ Hrun2) in Hrun5.
  rewrite (run_bind_Done _ _ _ _ _ (run_unwrap (Some 31) 31 w2 eq_refl)), (run_bind_Done _ _ _ _ _ Hrun3) in Hrun5.
  eapply safe_bind; [exact Hinit|exact (safe_write _ _ _ _ (or_introl eq_refl) HCinit)|].
  eapply safe_bind; [exact Hrun1|exact (safe_mono _ _ _ _ Hsafe1 HC0)|]. cbv zeta.
  assert (image_typed (w_img w1)) as Hw1 by exact (disk_typed w1 (bi_disk _ _ Hi1) (cr_size Hcr1)).
  eapply safe_bind_silent; [apply (run_new_dir Hclock)|exact ty_new_root|exact Hw1|exact (HC0 _ Hcr1)|].
  eapply safe_bind; [exact Hrun2|exact (safe_mono _ _ _ _ Hsafe2 HC0)|]. cbv beta iota.
  eapply safe_bind_unwrap; [reflexivity|exact (HC0 _ Hcr2)|].
  pose proof (blank_root_block w (w_img w2) Hblank Hcr2) as HC3.
  eapply safe_bind; [exact Hrun3|exact (safe_write _ _ _ _ (HC0 _ Hcr2) HC3)|].
  assert (set_index 0 31 (i_direct_blocks (new_inode 16877 2 1 (clock_at (w_ticks w1)))) = Some (31 :: replicate 9 0))
    as Hdirect by reflexivity.
  eapply safe_bind_unwrap; [exact Hdirect|exact HC3|].
  rewrite (run_bind_Done _ _ _ _ _ (run_unwrap _ _ _ Hdirect)) in Hrun5.
  eapply safe_format_end; [|apply size_write; [exact (cr_size Hcr2)|consts; lia]| |reflexivity|exact Hrun5|exact Hc5|exact Habs5|exact HC3].
  - apply bitmap_inv_write; [exact Hi2|lia|apply root_block..].
  - exact (root_wf (w_ticks w1)).
Qed.

(** A mount of the image [i] formats it, and serves a fresh disk. *)
Definition formats (i : image) : Prop :=
  ∀ t, ∃ sb w', run SimpleFS.mount (World i t) = Done sb w' ∧ mounted sb w' ∧
    abs None sb w' = fresh_tree ∧ used ∅ sb w'.

Lemma blank_absent w : blank (truncated w) → present_superblock w = None.
Proof.
  intros (_ & _ & Hsb). unfold present_superblock. destruct (w_has w 0); [|done].
  revert Hsb. unfold disk_superblock. by rewrite truncated_read by (consts; lia).
Qed.

Lemma blank_formats w :
  image_typed (w_img w) → blank (truncated w) →
  formats (w_img w) ∧ formats (img_truncate DISK_SIZE (w_img w)).
Proof.
  intros [_ Hw] Hblank. pose proof (blank_no_stale _ Hblank) as Hs. pose proof Hblank as ([_ Hd] & _ & Hsb).
  split; intros t.
  - apply (run_mount_fresh Hclock); [exact Hw|exact (blank_absent w Hblank)|].
    exact (proj1 (truncated_stale w) Hs).
  - apply (run_mount_fresh Hclock); [exact Hd| |exact Hs].
    unfold present_superblock. destruct (w_has _ 0); [exact Hsb|done].
Qed.

(** A mount of a disk without a file system on it. *)
Lemma safe_mount w :
  image_typed (w_img w) → blank (truncated w) →
  crash_safe (λ i, i = w_img w ∨ formatting (truncated w) i) SimpleFS.mount w.
Proof.
  intros Hw Hblank. pose proof (blank_absent w Hblank) as Hnone. set (C := λ i, _).
  assert (crash_safe C (truncate DISK_SIZE;; SimpleFS.format_new_fs) w) as Hformat.
  { eapply safe_bind; [reflexivity|by apply safe_truncate; [left|right; left]|].
    eapply safe_mono; [by apply safe_format|]. intros i Hi. by right. }
  assert (run size w = Done (img_size (w_img w)) w) as Hsize by done.
  unfold SimpleFS.mount.
  eapply safe_bind; [exact Hsize|by apply safe_nil; [|left]|].
  destruct (img_size (w_img w) =? 0); [exact Hformat|].
  eapply safe_bind_silent; [apply run_catch_read_superblock|apply ty_catch, ty_read_superblock|done|by left|].
  by rewrite Hnone.
Qed.

(** The state after the first write of the format. *)
Lemma mount_first_write w :
  image_typed (w_img w) → blank (truncated w) →
  ∃ i, crash_image SimpleFS.mount w i ∧ mounts i ∅.
Proof.
  intros Hw Hblank. pose proof (blank_absent w Hblank) as Hnone.
  exists (w_img (w_write 0 (superblock_block initial_superblock) (truncated w))). split.
  - assert (crash_image (truncate DISK_SIZE;; SimpleFS.format_new_fs) w
      (w_img (w_write 0 (superblock_block initial_superblock) (truncated w)))) as Hformat.
    { eapply crash_bind_then; [reflexivity|]. apply crash_bind_first. exists 1%nat. reflexivity. }
    assert (run size w = Done (img_size (w_img w)) w) as Hsize by done.
    unfold SimpleFS.mount. eapply crash_bind_then; [exact Hsize|].
    destruct (img_size (w_img w) =? 0); [exact Hformat|].
    eapply crash_bind_then; [apply run_catch_read_superblock|]. by rewrite Hnone.
  - eapply crashed_mounts; [by apply blank_stage|by apply crashed_format].
Qed.
End format.

(** ** Properties *)
Section properties.
Context `{Clock} `{Build}.
Implicit Types (sb : SuperBlock) (w : world) (p n c : u32) (name : bytes).

(** C12: [setattr] is atomic: wherever the machine stops, the next mount finds the old tree
    or the one with the new permissions. *)
Theorem setattr_crash_atomic sb w n mode uid gid size :
  clock_ok → mounted sb w → is_u64 (img_size (w_img w)) →
  ready (abs None sb w) (OpSetattr n mode uid gid size) →
  ∀ i, crash_image (SimpleFS.setattr sb n mode uid gid size) w i →
    ∃ A, mounts i A ∧
      (A = abs None sb w ∨ A = snd (spec (OpSetattr n mode uid gid size) (abs None sb w))).
Proof.
  intros Hclock [Hc _] Hs [[x Hx] _] i Hi.
  pose proof (safe_setattr Hclock sb w n x mode uid gid size Hc Hx Hs i Hi) as Hr.
  apply reaches_mounts in Hr as (A & HA & Hmount). exists A. split; [done|]. cbn [spec snd]. set_solver.
Qed.

(** C10: what a crash inside [unlink] can do to the tree.  Wherever the machine stops, the
    next mount accepts the image, and every other file and directory is as it was: it
    finds the old tree, the one without the file, or the one without the file in which
    its name still leads to the number. *)
Theorem unlink_crash_isolated sb w p name c d :
  clock_ok → mounted sb w → is_u64 (img_size (w_img w)) →
  ready (abs None sb w) (OpUnlink p name) →
  child (abs None sb w) p name = Some c → file_data (abs None sb w) c = Some d →
  ∀ i, crash_image (SimpleFS.unlink sb p name) w i →
    ∃ A, mounts i A ∧
      (A = abs None sb w ∨ A = snd (spec (OpUnlink p name) (abs None sb w)) ∨
       A = base.delete c (abs None sb w)).
Proof.
  intros Hclock [Hc _] Hs [[[m Hp] _] _] Hch Hd i Hi.
  pose proof Hch as Hm. rewrite (child_entries _ _ _ _ Hp) in Hm.
  pose proof (safe_unlink Hclock sb w p name m c d Hc Hp Hm Hd Hs i Hi) as Hr.
  apply reaches_mounts in Hr as (A & HA & Hmount). exists A. split; [done|].
  cbn [spec]. unfold spec_unlink. rewrite Hch.
  assert (entries (abs None sb w) c = None) as ->.
  { unfold entries. unfold file_data in Hd. destruct (abs None sb w !! c) as [x|]; [|done].
    simpl in *. by destruct (an_body x). }
  cbn [promise_of snd]. set_solver.
Qed.

(** C11: the same for [rmdir] of an empty directory: the next mount finds the old tree, the
    one without the directory, or the one with the directory under no name. *)
Theorem rmdir_crash_isolated sb w p name c m mc :
  clock_ok → mounted sb w → is_u64 (img_size (w_img w)) →
  ready (abs None sb w) (OpRmdir p name) → entries (abs None sb w) p = Some m →
  m !! name = Some c → entries (abs None sb w) c = Some mc → (base.size mc ≤ 2)%nat →
  ∀ i, crash_image (SimpleFS.rmdir sb p name) w i →
    ∃ A, mounts i A ∧
      (A = abs None sb w ∨ A = snd (spec (OpRmdir p name) (abs None sb w)) ∨
       A = set_entries p (base.delete name m) (abs None sb w)).
Proof.
  intros Hclock [Hc Ht] Hs [[_ Hproper] _] Hp Hm Hce Hsize i Hi.
  assert (child (abs None sb w) p name = Some c) as Hch by (by rewrite (child_entries _ _ _ _ Hp)).
  assert (∀ m', entries (abs None sb w) c = Some m' → (base.size m' ≤ 2)%nat) as Hleaf
    by (rewrite Hce; by intros m' [= <-]).
  destruct (detach_ne _ _ _ _ Ht Hch Hproper Hleaf) as [Hpc _].
  pose proof (safe_rmdir Hclock sb w p name m c mc Hc Hp Hm Hce Hsize Hpc Hs i Hi) as Hr.
  apply reaches_mounts in Hr as (A & HA & Hmount). exists A. split; [done|].
  cbn [spec]. unfold spec_rmdir. rewrite Hch, Hce.
  assert (2 <? Z.of_nat (base.size mc) = false) as -> by (apply Z.ltb_ge; lia).
  cbn [promise_of snd]. set_solver.
Qed.

(** C13: a crash inside the first mount goes unnoticed.  On an image without a file system
    and without inodes, wherever the machine stops inside the mount, the next mount formats
    the image, so that the crash did no harm, or it accepts what it finds: the tree of a
    fresh disk, or the empty one, which has not even a root directory.  The last case does
    occur: the superblock is the first block a format writes, and a mount looks at nothing
    else. *)
Theorem format_crash_unnoticed w :
  clock_ok → image_typed (w_img w) → blank (truncated w) →
  (∀ i, crash_image SimpleFS.mount w i → formats i ∨ mounts i fresh_tree ∨ mounts i ∅) ∧
  ∃ i, crash_image SimpleFS.mount w i ∧ mounts i ∅.
Proof.
  intros Hclock Hw Hblank. split; [|by apply mount_first_write]. intros i Hi.
  destruct (blank_formats Hclock w Hw Hblank) as [Hf1 Hf2].
  destruct (safe_mount Hclock w Hw Hblank i Hi) as [->|[->|[?|?]]]; auto.
Qed.
End properties.

(** ** Witnesses *)
#[local] Instance zero_clock : Clock := λ _, 0.
#[local] Instance checked_build : Build := true.
#[local] Existing Instance list_buffer.

Lemma setattr_crash_atomic_witness :
  ∃ sb w, run SimpleFS.mount empty_image = Done sb w ∧
    ∀ i, crash_image (SimpleFS.setattr sb 1 (Some 448) None None None) w i →
      ∃ A, mounts i A ∧
        (A = abs None sb w ∨ A = snd (spec (OpSetattr 1 (Some 448) None None None) (abs None sb w))).
Proof.
  destruct fresh_mount as (sb & w & Hrun & Hm & Habs & _). exists sb, w. split; [exact Hrun|].
  apply (setattr_crash_atomic sb w 1 (Some 448) None None None zero_clock_ok Hm).
  - apply (session_size [] empty_image [] sb w empty_image_typed); [by constructor|].
    unfold serve. run_step Hrun. reflexivity.
  - rewrite Habs. apply (bool_decide_unpack _). vm_compute. exact I.
Defined.

Lemma unlink_crash_isolated_witness :
  ∃ r sb w, run (serve one_file) empty_image = Done (r, sb) w ∧
    ∀ i, crash_image (SimpleFS.unlink sb 1 (str "f")) w i →
      ∃ A, mounts i A ∧
        (A = abs None sb w ∨ A = snd (spec (OpUnlink 1 (str "f")) (abs None sb w)) ∨
         A = base.delete 1000 (abs None sb w)).
Proof.
  destruct run_one_file as (r & sb & w & Hrun & Hm & Hs & Habs & _). exists r, sb, w. split; [exact Hrun|].
  apply (unlink_crash_isolated sb w 1 (str "f") 1000 [1; 2; 3] zero_clock_ok Hm Hs).
  - rewrite Habs. apply (bool_decide_unpack _). vm_compute. exact I.
  - rewrite Habs. reflexivity.
  - rewrite Habs. reflexivity.
Defined.

(** A disk with an empty directory. *)
Definition one_dir : list op := [OpMkdir 1 (str "d")].

Lemma run_one_dir :
  ∃ r sb w, run (serve one_dir) empty_image = Done (r, sb) w ∧ mounted sb w ∧
    is_u64 (img_size (w_img w)) ∧ abs None sb w = snd (spec_all one_dir fresh_tree).
Proof.
  destruct (run_serve_fresh zero_clock_ok empty_image one_dir (map_Forall_empty _) eq_refl
    empty_image_no_stale) as (r & sb & w & Hrun & Hm & _ & Habs & _).
  - apply (bool_decide_unpack _). vm_compute. exact I.
  - apply (bool_decide_unpack _). vm_compute. exact I.
  - exists r, sb, w. split_and!; [done|done| |done].
    apply (session_size one_dir empty_image r sb w empty_image_typed); [|done].
    apply (bool_decide_unpack _). vm_compute. exact I.
Qed.

Lemma rmdir_crash_isolated_witness :
  ∃ r sb w m, run (serve one_dir) empty_image = Done (r, sb) w ∧
    ∀ i, crash_image (SimpleFS.rmdir sb 1 (str "d")) w i →
      ∃ A, mounts i A ∧
        (A = abs None sb w ∨ A = snd (spec (OpRmdir 1 (str "d")) (abs None sb w)) ∨
         A = set_entries 1 (base.delete (str "d") m) (abs None sb w)).
Proof.
  destruct run_one_dir as (r & sb & w & Hrun & Hm & Hs & Habs).
  exists r, sb, w, (<[str "d" := 500]> (new_entries 1 1)). split; [exact Hrun|].
  apply (rmdir_crash_isolated sb w 1 (str "d") 500 _ (new_entries 500 1) zero_clock_ok Hm Hs).
  - rewrite Habs. apply (bool_decide_unpack _). vm_compute. exact I.
  - rewrite Habs. reflexivity.
  - reflexivity.
  - rewrite Habs. reflexivity.
  - vm_compute. lia.
Defined.

Lemma blank_empty : blank (truncated empty_image).
Proof. split_and!; [apply disk_ok_truncated, map_Forall_empty|vm_compute; reflexivity..]. Qed.

Lemma format_crash_unnoticed_witness :
  (∀ i, crash_image SimpleFS.mount empty_image i → formats i ∨ mounts i fresh_tree ∨ mounts i ∅) ∧
  ∃ i, crash_image SimpleFS.mount empty_image i ∧ mounts i ∅.
Proof. exact (format_crash_unnoticed empty_image zero_clock_ok empty_image_typed blank_empty). Defined.
