(* ===== verification/Tear.v ===== *)
(** * Tear: a crash inside [write]

    [write] marks blocks, fills them, and writes the inode at the end.  When the machine
    stops in between the file itself may be torn, and blocks may be marked that no file
    owns; but every other file and directory is untouched ([write_crash_isolated]).  The
    proof follows the writes: each one is in the map, in the superblock, in a block of the
    file, or in a free block; the last one is the slot of the inode. *)
From S2P Require Import Prelude Disk Effects Superblock Bitmap Inode Directory Fs File Format.
From S2P Require Import Spec Consistency Room Namespace Mount Nodes Refinement Sessions Typing Crash.

(** ** Growth *)
Section grow.
Context `{Clock} `{Build} (P : u32 → Prop) (w0 : world) (HP : ∀ b, P b → 6 ≤ b).
Implicit Types (sb : SuperBlock) (i : Inode) (w : world).

(** The blocks [P] of [w0], which a write must not touch, are there. *)
#[local] Abbreviation C := (kept P w0).

Lemma safe_store b d w :
  C (w_img w) → is_block d → 6 ≤ b < MAX_BLOCKS → ¬ P b → crash_safe C (write_block b d) w.
Proof. intros HC Hd Hb Hno. apply safe_write; [done|]. by apply kept_write_ne. Qed.

Lemma kept_store b d w :
  C (w_img w) → is_block d → 6 ≤ b < MAX_BLOCKS → ¬ P b → C (w_img (w_write b d w)).
Proof. intros HC Hd Hb Hno. by apply kept_write_ne. Qed.

Lemma kept_typed w : disk_ok w → C (w_img w) → image_typed (w_img w).
Proof. intros Hok HC. apply disk_typed; [done|apply (cr_size HC)]. Qed.

Lemma safe_alloc sb w : bitmap_inv sb w → C (w_img w) → crash_safe C (allocate_block sb) w.
Proof.
  intros Hi HC. eapply safe_typed; [apply ty_allocate_block_meta, (bitmap_good sb w Hi)
    |by apply kept_typed; [apply Hi|]|done|].
  intros j e. by apply kept_meta.
Qed.

(** The pointer to a new block of the file. *)
Lemma safe_store_pointer sb i w c a :
  disk_ok w → inode_wf i → 0 ≤ c < 20 → c ≠ 10 → 0 ≤ a < MAX_BLOCKS →
  (10 < c → 31 ≤ i_indirect_block i < MAX_BLOCKS ∧ ¬ P (i_indirect_block i)) → C (w_img w) →
  crash_safe C (if c <? 10 then
      direct_blocks ← unwrap (set_index (as_usize c) a (i_direct_blocks i));
      mret (set_direct_blocks i direct_blocks, sb)
    else
      let indirect_idx := c - 10 in
      indirect_buf ← read_block (i_indirect_block i);
      let byte_offset := as_usize indirect_idx * 2 in
      indirect_buf ← unwrap (copy_from_slice byte_offset (byte_offset + 2)
                               (to_le 2 (as_u16 a)) indirect_buf);
      write_block (i_indirect_block i) indirect_buf;;
      mret (i, sb)) w.
Proof.
  intros Hok Hwf Hc Hne Ha Hind HC. pose proof (inode_wf_direct i Hwf) as Hd.
  pose proof (disk_ok_block w (i_indirect_block i) Hok) as [Hl Hu]. consts.
  destruct (Z.ltb_spec c 10).
  - rewrite as_usize_id by lia. eapply safe_bind_unwrap; [apply set_index_Some; lia|done|]. by apply safe_ret.
  - cbv zeta. destruct Hind as [Hr HnP]; [lia|].
    eapply safe_bind_silent; [apply run_read_block, disk_ok_has; [done|consts; lia]
      |apply ty_read_block; unfold is_u32; lia|by apply kept_typed|done|].
    rewrite as_usize_id by lia.
    eapply safe_bind_unwrap; [apply copy_from_slice_Some; [lia|lia|rewrite zlen_to_le; lia]|done|].
    assert (is_block (splice ((c - 10) * 2) (to_le 2 (as_u16 a)) (w_read w (i_indirect_block i)))) as Hblk.
    { split; [consts; rewrite zlen_splice; rewrite ?zlen_to_le; lia|].
      apply Forall_splice; [apply Forall_to_le|done]. }
    eapply safe_bind; [apply run_write_block; [apply Hblk|unfold is_u32; lia]
      |by apply safe_store; [| |consts; lia|]|].
    apply safe_ret. by apply kept_store; [| |consts; lia|].
Qed.
(** The first indirect block of a file. *)
Lemma safe_indirect sb i w a n :
  bitmap_inv sb w → 0 < n ≤ free_count w → (∀ b, P b → budget b n w) → C (w_img w) →
  0 ≤ a < MAX_BLOCKS →
  let p :=
    '(b, sb) ← allocate_block sb;
    indirect ← unwrap b;
    let inode := set_indirect_block i indirect in
    indirect_buf ← unwrap (copy_from_slice 0 2 (to_le 2 (as_u16 a)) (zeros BLOCK_SIZE));
    write_block indirect indirect_buf;;
    mret (inode, sb) in
  crash_safe C p w ∧
  ∃ x sb' w', run p w = Done (set_indirect_block i x, sb') w'.
Proof.
  intros Hi Hn Hb HC Ha p.
  destruct (run_allocate_budget n sb w Hi Hn) as (x & sb1 & w1 & Hrun & Hx & Hbud).
  assert (¬ P x) as HPx by (intros HPx; by destruct (Hbud x (Hb x HPx))).
  pose proof (al_range _ _ _ _ _ Hx) as Hxr. pose proof (safe_alloc sb w Hi HC) as Hal.
  assert (C (w_img w1)) as HC1 by (by eapply safe_done).
  assert (copy_from_slice 0 2 (to_le 2 (as_u16 a)) (zeros BLOCK_SIZE) = Some (first_pointer a)) as Hcp.
  { rewrite (as_u16_id a) by (unfold is_u16; consts; lia).
    apply copy_from_slice_Some; rewrite ?zlen_to_le; done || lia. }
  assert (is_block (first_pointer a)) as Hblk by (split; [apply zlen_first_pointer|apply first_pointer_u8]).
  assert (run (write_block x (first_pointer a)) w1 = Done () (w_write x (first_pointer a) w1)) as Hw
    by (apply run_write_block; [apply Hblk|unfold is_u32; consts; lia]).
  split.
  - eapply safe_bind; [exact Hrun|exact Hal|]. cbv beta iota.
    eapply safe_bind_unwrap; [done|done|]. cbv zeta. eapply safe_bind_unwrap; [exact Hcp|done|].
    eapply safe_bind; [exact Hw|by apply safe_store; [| |lia|]|].
    apply safe_ret. by apply kept_store; [| |lia|].
  - exists x, sb1, (w_write x (first_pointer a) w1). unfold p. run_step Hrun. cbv beta iota.
    run_step run_unwrap by reflexivity. cbv zeta. run_step run_unwrap by exact Hcp. by run_step Hw.
Qed.

(** The end of a growth step: the new block is cleared. *)
Lemma safe_clear (sb : SuperBlock) i w a :
  ¬ P a → 31 ≤ a < MAX_BLOCKS → C (w_img w) →
  crash_safe C (write_block a (zeros BLOCK_SIZE);;
    block_count ← arith_u16 (i_block_count i + 1);
    mret (Some (set_block_count i block_count), sb)) w.
Proof.
  intros Ha Har HC.
  assert (is_block (zeros BLOCK_SIZE)) as Hz by apply is_block_zeros.
  assert (C (w_img (w_write a (zeros BLOCK_SIZE) w))) as HC' by (by apply kept_store; [| |lia|]).
  eapply safe_bind; [apply run_write_zeros; lia|by apply safe_store; [| |lia|]|].
  apply safe_nil; [|done]. unfold arith_u16, arith_u. by destruct (_ && _); [|destruct overflow_checks].
Qed.

Lemma safe_grow_step sb i w n B :
  file_layout sb i w → marked i w → bitmap_inv sb w → i_block_count i < 20 →
  step_cost (i_block_count i) ≤ n → P B → (∀ b, P b → budget b n w) →
  (∀ b, P b → b ∉ own_blocks i w) → C (w_img w) → crash_safe C (SimpleFS.grow_step sb i) w.
Proof.
  intros Hl Hm Hi Hlt Hn HB Hbud Hown HC.
  destruct (Hbud B HB) as (_ & Hfc & _).
  pose proof (fl_wf _ _ _ Hl) as Hwf. pose proof (block_count_nonneg i Hwf) as Hc0.
  assert (1 ≤ step_cost (i_block_count i)) by (unfold step_cost; destruct (_ =? _); lia).
  destruct (run_allocate_budget n sb w Hi ltac:(lia)) as (a & sb1 & w1 & Hrun & Ha & Hbud1).
  assert (¬ P a) as HPa by (intros HPa; by destruct (Hbud1 a (Hbud a HPa))).
  pose proof (al_range _ _ _ _ _ Ha) as Har. pose proof (safe_alloc sb w Hi HC) as Hal.
  assert (C (w_img w1)) as HC1 by (by eapply safe_done).
  unfold SimpleFS.grow_step. eapply safe_bind; [exact Hrun|exact Hal|]. cbv beta iota zeta.
  rewrite as_u32_id by (unfold is_u32; lia). change (as_u32 DIRECT_BLOCKS) with 10.
  destruct (Z.eqb_spec (i_block_count i) 10) as [Hten|Hten].
  - Z_false (i_block_count i <? 10). unfold step_cost in *. rewrite Hten in *.
    change (if 10 =? 10 then 2 else 1) with 2 in *.
    destruct (Hbud1 B (Hbud B HB)) as (_ & _ & Hfc1 & _).
    destruct (safe_indirect sb1 i w1 a (n - 1) (al_inv _ _ _ _ _ Ha)) as (Hsafe & x & sb2 & w2 & Hrun2);
      [lia|intros b Hb; by apply Hbud1, Hbud|done|lia|].
    eapply safe_bind; [exact Hrun2|exact Hsafe|]. cbv beta iota.
    apply safe_clear; [done|done|]. by eapply safe_done.
  - assert (10 < i_block_count i → 31 ≤ i_indirect_block i < MAX_BLOCKS ∧ ¬ P (i_indirect_block i)) as Hind.
    { intros Hgt. split; [by apply (file_indirect_range _ _ _ Hl)|]. intros HPi. apply (Hown _ HPi).
      apply elem_of_app. left. unfold indirect_blocks. Z_true (10 <? i_block_count i). set_solver. }
    assert (disk_ok w1) as Hok1 by apply (bi_disk _ _ (al_inv _ _ _ _ _ Ha)).
    pose proof (safe_store_pointer sb1 i w1 (i_block_count i) a Hok1 Hwf ltac:(lia) Hten ltac:(lia) Hind HC1) as Hsafe.
    pose proof (run_store_pointer sb1 i w1 (i_block_count i) a Hok1 Hwf ltac:(lia) Hten ltac:(lia)
      ltac:(intros Hgt; destruct (Hind Hgt); lia)) as Hst.
    eapply safe_bind; [exact Hst|exact Hsafe|]. cbv beta iota.
    apply safe_clear; [done|done|]. by eapply safe_done.
Qed.

(** The file, the allocator and enough free blocks for [r] blocks. *)
Definition growing (r : Z) (st : Inode * SuperBlock) w : Prop :=
  let '(i, sb) := st in
  file_layout sb i w ∧ marked i w ∧ bitmap_inv sb w ∧ P (inode_block sb (i_inode_no i)) ∧
  (∀ b, P b → budget b (grow_cost (i_block_count i) r) w) ∧
  (∀ b, P b → b ∉ own_blocks i w) ∧ C (w_img w).

Lemma growing_step r sb i w :
  r ≤ 20 → growing r (i, sb) w → i_block_count i < r →
  crash_safe C (SimpleFS.grow_step sb i) w ∧
  ∃ sb' i' w', run (SimpleFS.grow_step sb i) w = Done (Some i', sb') w' ∧ growing r (i', sb') w'.
Proof.
  intros Hr (Hl & Hm & Hi & HB & Hb & Hown & HC) Hlt.
  pose proof (grow_cost_step _ _ Hlt) as Hcost. pose proof (grow_cost_nonneg (i_block_count i + 1) r).
  destruct (run_grow_step P sb i w (grow_cost (i_block_count i) r))
    as (sb1 & i1 & w1 & Hrun & Hg & Hb1); [done|done|done|lia|lia|done|done|].
  assert (crash_safe C (SimpleFS.grow_step sb i) w) as Hsafe
    by (eapply safe_grow_step; [done|done|done|lia| |exact HB|exact Hb|done|done]; lia).
  split; [done|]. exists sb1, i1, w1. split; [done|].
  assert (i_block_count i1 = i_block_count i + 1) as Hc1 by apply Hg.
  split_and!; [apply Hg|apply Hg|apply Hg| | | |by eapply safe_done].
  - unfold inode_block. rewrite (gr_table _ _ _ _ _ _ _ _ Hg).
    by destruct (gr_meta _ _ _ _ _ _ _ _ Hg) as [-> _].
  - intros b HPb. rewrite Hc1. specialize (Hb1 b HPb).
    by replace (grow_cost (i_block_count i + 1) r)
      with (grow_cost (i_block_count i) r - step_cost (i_block_count i)) by lia.
  - intros b HPb. apply (gr_avoid _ _ _ _ _ _ _ _ Hg); auto.
Qed.

Lemma safe_grow r sb i w :
  r ≤ 20 → growing r (i, sb) w → crash_safe C (SimpleFS.grow sb i r) w.
Proof.
  intros Hr Hg. unfold SimpleFS.grow. apply (safe_loop _ (growing r)); [exact Hg|].
  intros [i1 sb1] w1 Hg1. split; [apply Hg1|].
  destruct (Z.ltb_spec (i_block_count i1) r) as [Hlt|Hge].
  - destruct (growing_step r sb1 i1 w1 Hr Hg1 Hlt) as (Hsafe & sb2 & i2 & w2 & Hrun & Hg2). split.
    + eapply safe_bind; [exact Hrun|exact Hsafe|]. apply safe_ret, Hg2.
    + eapply wp_bind_run; [exact Hrun|]. by apply wp_ret.
  - split; [apply safe_ret, Hg1|]. by apply wp_ret.
Qed.

(** ** The copy of the data *)
Lemma safe_write_loop sb i data off w :
  file_layout sb i w → Forall is_u8 data → 0 ≤ off → off + zlen data ≤ 510 * i_block_count i →
  (∀ b, P b → b ∉ own_blocks i w) → C (w_img w) →
  crash_safe C (SimpleFS.write_loop i data (zlen data) (off / 510) (off mod 510) 0) w.
Proof.
  intros Hf Hu Ho Hfit Hown HC. rewrite write_loop_body.
  apply (safe_loop _ (λ st w', copying sb i data off w st w' ∧ C (w_img w'))).
  { split; [by apply copying_start|done]. }
  intros [[[remaining k] bo] dn] w' [HI HC']. split; [done|].
  assert (crash_safe C (copy_body i data (remaining, k, bo, dn)) w') as Hsafe.
  { unfold copy_body. destruct (Z.leb_spec remaining 0) as [Hz|Hz]; [by apply safe_ret|].
    destruct (run_copy_body sb i data off w _ _ _ _ w' Hf Hu Ho Hfit HI Hz)
      as (src & Es & Hsl & Hsu & Hkr & Hin & _).
    destruct HI as (Hf' & _ & _ & _ & _ & _ & _ & _ & Hbo & _).
    pose proof (file_block_range _ _ _ _ Hf' Hkr) as Hb. pose proof (fl_disk _ _ _ Hf') as Hok.
    pose proof (kept_typed w' Hok HC') as Hw.
    pose proof (disk_ok_block w' (block_at i w' k) Hok) as [Hzb Hub]. consts.
    eapply safe_bind_silent; [by apply (run_file_block sb)|by eapply ty_get_block, Hf'|done|done|].
    eapply safe_bind_unwrap; [done|done|].
    eapply safe_bind_silent; [apply run_read_block, disk_ok_has; [done|consts; lia]
      |apply ty_read_block; unfold is_u32; lia|done|done|]. cbv zeta.
    eapply safe_bind_unwrap; [exact Es|done|].
    eapply safe_bind_unwrap; [apply copy_from_slice_Some; lia|done|].
    assert (is_block (splice bo src (w_read w' (block_at i w' k)))) as Hblk.
    { split; [consts; rewrite zlen_splice; lia|]. by apply Forall_splice. }
    assert (¬ P (block_at i w' k)) as HPb.
    { intros HPb. apply (Hown _ HPb). apply elem_of_app. by right. }
    eapply safe_bind; [apply run_write_block; [apply Hblk|unfold is_u32; lia]
      |by apply safe_store; [| |consts; lia|]|].
    apply safe_ret. by apply kept_store; [| |consts; lia|]. }
  split; [done|].
  pose proof (wp_copy_body sb i data off w _ w' Hf Hu Ho Hfit HI) as Hwp.
  apply wp_inv in Hwp as (r & w2 & Hrun & Hr). eapply wp_intro; [exact Hrun|].
  destruct r as [st|[]]; [|done]. destruct Hr as [HI2 _]. split; [exact HI2|by eapply safe_done].
Qed.
End grow.

(** ** The other nodes *)
Section torn.
Context `{Clock} `{Build} (Hclock : clock_ok).
Implicit Types (sb : SuperBlock) (i j : Inode) (w : world) (n b : u32).

(** The blocks of the other nodes, and with them the blocks of inodes: what a write to the
    file of the inode [i] must not touch. *)
Definition others i w b : Prop := 31 ≤ b < MAX_BLOCKS ∧ bit w b = true ∧ b ∉ own_blocks i w.
Definition protected i w b : Prop := inode_place b ∨ others i w b.

(** An image on which everything but the file [n] is as in [w]. *)
Record torn sb w n i (img : image) : Prop := {
  to_kept : kept (others i w) w img;
  to_inodes : ∀ q, q ∈ inode_numbers → q ≠ n → disk_inode sb (World img 0) q = disk_inode sb w q;
  to_inode : ∃ j, disk_inode sb (World img 0) n = Some j ∧ i_mode j = i_mode i ∧ i_nlink j ≠ 0;
}.

Lemma torn_mounts sb w n i (img : image) :
  consistent None sb w → n ∈ inode_numbers → live None sb w n = Some i → ¬ is_dir i →
  torn sb w n i img →
  ∃ A, mounts img A ∧ (∀ q, q ≠ n → A !! q = abs None sb w !! q) ∧
    ∃ d, A !! n = Some (ANode (i_mode i) (AFile d)).
Proof.
  intros Hc Hn Hl Hfile [Hk Hinodes (j & Hj & Hmode & Hlink)].
  destruct (kept_mounts _ _ _ Hk) as (sb' & Ht' & Hm). pose proof (consistent_table _ _ _ Hc) as Ht.
  exists (abs None sb' (World img 0)). split; [exact Hm|].
  assert (∀ q, disk_inode sb' (World img 0) q = disk_inode sb (World img 0) q) as Htab
    by (intros q; apply disk_inode_table; congruence).
  split.
  - intros q Hqn. rewrite !abs_lookup. case_decide as Hq; [|done]. unfold node_at.
    assert (live None sb' (World img 0) q = live None sb w q) as ->
      by (unfold live; by rewrite Htab, Hinodes).
    destruct (live None sb w q) as [k|] eqn:Hlq; [|done]. simpl. f_equal.
    apply (node_ok_ext sb sb' k w (World img 0)); [by eapply cs_node|apply Hk|congruence|].
    intros b Hb. apply (cr_read _ _ _ Hk).
    assert (b ∈ owned_at None sb w q) as Hbq by (unfold owned_at; by rewrite Hlq).
    destruct (owned_range None sb w q b Hc Hq Hbq) as [Hr Hbit]. split_and!; [lia|lia|done|].
    intros Hin. apply Hqn. apply (cs_disjoint _ _ _ Hc q n b); [done|done|done|].
    unfold owned_at, owned. by rewrite Hl, decide_False.
  - exists (contents j (World img 0)). rewrite abs_lookup, decide_True by done. unfold node_at.
    assert (live None sb' (World img 0) n = Some j) as ->.
    { apply live_Some. apply live_Some in Hl as (? & _). split_and!; [done|by rewrite Htab|done]. }
    simpl. unfold node. rewrite decide_False by (unfold is_dir in *; by rewrite Hmode). by rewrite Hmode.
Qed.

(** Before the inode is written. *)
Lemma kept_torn sb w n i (img : image) :
  consistent None sb w → n ∈ inode_numbers → live None sb w n = Some i →
  kept (protected i w) w img → torn sb w n i img.
Proof.
  intros Hc Hn Hl [Hd Hs Hsb Hr]. pose proof (consistent_table _ _ _ Hc) as Ht.
  apply live_Some in Hl as (_ & Hi & Hlink).
  assert (∀ q, q ∈ inode_numbers → disk_inode sb (World img 0) q = disk_inode sb w q) as Hq.
  { intros q Hq. apply disk_inode_ext, Hr. left. by apply (number_block sb q Ht). }
  constructor; [|auto|exists i; by rewrite Hq].
  constructor; [done..|]. intros b Hb. apply Hr. by right.
Qed.

(** After it is written. *)
Lemma put_torn sb w n i sb' j w' :
  consistent None sb w → n ∈ inode_numbers → live None sb w n = Some i →
  kept (protected i w) w (w_img w') → disk_ok w' →
  sb_inode_table_start sb' = sb_inode_table_start sb →
  inode_wf j → i_inode_no j = n → i_mode j = i_mode i → i_nlink j = i_nlink i →
  torn sb w n i (w_img (put_inode sb' j w')).
Proof.
  intros Hc Hn Hl Hk Hok Ht' Hwf Hno Hmode Hlink. subst n.
  destruct (kept_torn _ _ _ _ _ Hc Hn Hl Hk) as [Hko Hinodes _].
  destruct (consistent_number _ _ _ _ Hc Hn) as (Hnok & Hb & _ & Hbit).
  assert (∀ x, disk_inode sb x (i_inode_no j) = disk_inode sb' x (i_inode_no j)) as Htab
    by (intros x; by apply disk_inode_table).
  assert (inode_block sb' (i_inode_no j) = inode_block sb (i_inode_no j)) as HB
    by (unfold inode_block; by rewrite Ht').
  pose proof (disk_ok_put sb' j w' Hok (inode_wf_direct _ Hwf)) as Hokp.
  constructor.
  - unfold put_inode in *. rewrite HB in *. apply kept_write_ne; [done| |done|].
    + destruct (disk_ok_block _ (inode_block sb (i_inode_no j)) Hokp) as [Hz Hu].
      rewrite w_read_write_eq in Hz, Hu. done.
    + intros (Hr & Hbt & _). destruct Hbit as [?|?]; [lia|congruence].
  - intros q Hq Hne. rewrite <-Hinodes by done.
    rewrite !(disk_inode_table sb' sb) by done.
    apply (disk_inode_put_other sb' j w'); [done|by apply inode_wf_direct|done| |apply Hnok].
    apply (consistent_number _ _ _ _ Hc Hq).
  - exists j. split_and!; [|done|rewrite Hlink; by apply live_Some in Hl as (_ & _ & ?)].
    rewrite Htab. by apply (disk_inode_put_same sb' j w').
Qed.

(** The blocks to protect stay out of reach of the allocator. *)
Lemma protected_budget sb w n i k b :
  consistent None sb w → live None sb w n = Some i → room k w → protected i w b → budget b k w.
Proof.
  intros Hc Hl Hroom Hb. pose proof (cs_inv _ _ _ Hc) as Hi.
  destruct Hb as [Hb|(Hr & Hbit & _)]; [by eapply room_budget, place_high|].
  destruct (room_budget sb w k 6 Hi Hroom ltac:(by left)) as (_ & Hfc & _).
  split_and!; [lia|lia|exact Hfc|by left].
Qed.

Lemma protected_not_owned sb w n i b :
  consistent None sb w → n ∈ inode_numbers → live None sb w n = Some i → ¬ is_dir i →
  protected i w b → b ∉ own_blocks i w.
Proof. intros Hc Hn Hl Hfile [Hb|(_ & _ & ?)]; [by eapply place_not_owned|done]. Qed.

Lemma protected_behind i w b : protected i w b → 6 ≤ b.
Proof. intros [[->|Hb]|[Hr _]]; [lia| |lia]. unfold inode_area in Hb. lia. Qed.

Lemma growing_start sb w n i r :
  consistent None sb w → n ∈ inode_numbers → live None sb w n = Some i → ¬ is_dir i →
  room (grow_cost (i_block_count i) r) w → is_u64 (img_size (w_img w)) →
  growing (protected i w) w r (i, sb) w.
Proof.
  intros Hc Hn Hl Hfile Hroom Hs. destruct (consistent_live _ _ _ _ _ Hc Hn Hl) as (Hok & _ & Hno & _).
  unfold node_ok in Hok. rewrite decide_False in Hok by done. split_and!.
  - apply (fo_layout _ _ _ (fn_ok _ _ _ Hok)).
  - apply Forall_forall. intros b Hb. apply (owned_range None sb w n b Hc Hn).
    unfold owned_at, owned. by rewrite Hl, decide_False.
  - apply Hc.
  - left. rewrite Hno. by apply (number_block sb n (consistent_table _ _ _ Hc)).
  - intros b Hb. by eapply protected_budget.
  - intros b Hb. by eapply protected_not_owned.
  - by eapply kept_start, Hs; apply Hc.
Qed.

(** The end of [write]. *)
Lemma safe_finish sb w n i r sb1 i1 w1 w2 len (x : reply u32) :
  consistent None sb w → n ∈ inode_numbers → live None sb w n = Some i →
  grown (protected i w) r sb i w sb1 i1 w1 → file_layout sb1 i1 w2 →
  kept (protected i w) w (w_img w2) → 0 ≤ len < 4294967296 →
  crash_safe (torn sb w n i)
    (new_size ← arith_usize len;
     let inode := if as_usize (i_size i1) <? new_size then set_size i1 (as_u32 new_size) else i1 in
     now ← current_timestamp;
     let inode := set_mtime inode now in
     let inode := set_atime inode (i_mtime inode) in
     write_inode sb1 inode;;
     mret (x, sb1)) w2.
Proof.
  intros Hc Hn Hl Hg Hl2 HC2 Hlen. destruct (consistent_live _ _ _ _ _ Hc Hn Hl) as (_ & _ & Hno & _).
  assert (disk_ok w2) as Hok2 by apply Hl2. pose proof (kept_typed _ _ w2 Hok2 HC2) as Hw2.
  pose proof (kept_torn sb w n i _ Hc Hn Hl HC2) as HT2.
  eapply safe_bind_silent; [apply run_arith_u; lia|apply ty_arith_usize|exact Hw2|exact HT2|]. cbv zeta.
  eapply safe_bind_silent; [by apply run_now|apply ty_current_timestamp|exact Hw2|exact HT2|]. cbv zeta.
  set (j := set_atime _ _). assert (j = finished i1 len w2) as -> by done.
  destruct (finished_wf Hclock (protected i w) i1 len w2 (fl_wf _ _ _ Hl2) Hlen) as [Hwf _].
  destruct (finished_blocks i1 len w2) as (_ & _ & _ & Hno').
  destruct (gr_meta _ _ _ _ _ _ _ _ Hg) as (Hno1 & Hmode & _ & _ & _ & Hlink & _).
  assert (i_mode (finished i1 len w2) = i_mode i ∧ i_nlink (finished i1 len w2) = i_nlink i) as [Hm' Hlk']
    by (rewrite <-Hmode, <-Hlink; unfold finished; by destruct (_ <? _)).
  assert (inode_ok sb1 (i_inode_no (finished i1 len w2))) as Hnok by (rewrite Hno'; apply Hl2).
  assert (torn sb w n i (w_img (put_inode sb1 (finished i1 len w2) (w_tick w2)))) as HT3.
  { apply put_torn; [done..|apply (gr_table _ _ _ _ _ _ _ _ Hg)|done|congruence|done|done]. }
  eapply safe_bind; [apply (run_write_inode sb1 _ (w_tick w2) Hok2 Hnok); by apply inode_wf_direct| |].
  - apply safe_write_inode; [done|apply Hw2|done|done|done|exact HT3].
  - by apply safe_ret.
Qed.

(** What [write] does after the growth. *)
Lemma safe_fill sb w n i r off data sb1 i1 w1 (x : reply u32) :
  consistent None sb w → n ∈ inode_numbers → live None sb w n = Some i → ¬ is_dir i →
  grown (protected i w) r sb i w sb1 i1 w1 → kept (protected i w) w (w_img w1) →
  Forall is_u8 data → 0 ≤ off → off + zlen data ≤ 10200 → off + zlen data ≤ 510 * i_block_count i1 →
  crash_safe (torn sb w n i)
    (SimpleFS.write_loop i1 data (zlen data) (off / 510) (off mod 510) 0;;
     new_size ← arith_usize (off + zlen data);
     let inode := if as_usize (i_size i1) <? new_size then set_size i1 (as_u32 new_size) else i1 in
     now ← current_timestamp;
     let inode := set_mtime inode now in
     let inode := set_atime inode (i_mtime inode) in
     write_inode sb1 inode;;
     mret (x, sb1)) w1.
Proof.
  intros Hc Hn Hl Hfile Hg HC1 Hu Ho Hmax Hfit. assert (0 ≤ zlen data) by (unfold zlen; lia).
  pose proof (wp_write_loop sb1 i1 data off w1 (gr_layout _ _ _ _ _ _ _ _ Hg) Hu Ho Hfit) as Hwp.
  apply wp_inv in Hwp as ([] & w2 & Hrun & Hl2 & _).
  assert (crash_safe (kept (protected i w) w)
    (SimpleFS.write_loop i1 data (zlen data) (off / 510) (off mod 510) 0) w1) as Hsafe.
  { apply (safe_write_loop _ _ sb1); [apply Hg|done|done|done| |done].
    intros b Hb. apply (gr_avoid _ _ _ _ _ _ _ _ Hg); [done|by eapply protected_not_owned]. }
  eapply safe_bind; [exact Hrun|eapply safe_mono; [exact Hsafe|]; intros img; by apply kept_torn|].
  eapply safe_finish; [done|done|done|exact Hg|done|by eapply safe_done|lia].
Qed.

Lemma safe_write_file sb w n i off data :
  consistent None sb w → n ∈ inode_numbers → live None sb w n = Some i → ¬ is_dir i →
  0 ≤ off → Forall is_u8 data → off + zlen data ≤ 510 * 4294967295 →
  room (grow_cost (i_block_count i) (blocks_for (off + zlen data))) w →
  is_u64 (img_size (w_img w)) →
  crash_safe (torn sb w n i) (SimpleFS.write sb n off data) w.
Proof.
  intros Hc Hn Hl Hfile Ho Hu Hmax Hroom Hs.
  pose proof (growing_start sb w n i _ Hc Hn Hl Hfile Hroom Hs) as Hgr.
  pose proof Hgr as (Hlay & Hm & Hi & HB & Hbud & Hown & HC).
  pose proof (kept_torn sb w n i _ Hc Hn Hl HC) as HT.
  assert (disk_ok w) as Hok by apply Hi. pose proof (disk_typed w Hok Hs) as Hw.
  destruct (run_read_live _ _ _ _ _ Hc Hn Hl) as [Hread _].
  destruct (consistent_number _ _ _ _ Hc Hn) as (_ & _ & Hnu & _).
  assert (0 ≤ zlen data) as Hz0 by (unfold zlen; lia).
  unfold SimpleFS.write. rewrite Hnu.
  eapply safe_bind_silent; [exact Hread|apply ty_read_inode; rewrite <-Hnu; apply u32_as|exact Hw|exact HT|].
  cbv zeta. destruct (Z.eqb_spec (zlen data) 0) as [|Hpos]; [by apply safe_ret|].
  rewrite as_usize_id by lia. consts.
  do 3 (eapply safe_bind_silent; [apply run_arith_u; lia|apply ty_arith_usize|exact Hw|exact HT|]).
  replace (off + zlen data + 510 - 1) with (off + zlen data + 509) by lia.
  fold (blocks_for (off + zlen data)). set (r := blocks_for (off + zlen data)) in *.
  assert (0 ≤ r < 4294967296) as Hr by (unfold r, blocks_for; dlia).
  rewrite (as_u32_id r) by (unfold is_u32; lia). change MAX_FILE_BLOCKS with 20.
  destruct (Z.ltb_spec 20 r) as [|Hr20]; [by apply safe_ret|].
  rewrite as_u16_id by (unfold is_u16; lia).
  assert (off + zlen data ≤ 10200) as Hmax' by (unfold r, blocks_for in Hr20; dlia).
  destruct (run_grow (protected i w) sb i w r ltac:(lia) Hlay Hm Hi HB Hbud) as (sb1 & i1 & w1 & Hrun & Hg).
  assert (crash_safe (kept (protected i w) w) (SimpleFS.grow sb i r) w) as Hsafe
    by (apply safe_grow; [apply protected_behind|done|done]).
  eapply safe_bind; [exact Hrun|eapply safe_mono; [exact Hsafe|]; intros img; by apply kept_torn|].
  cbv beta iota. rewrite (as_u32_id off) by (unfold is_u32; lia). change (as_u32 PAGE_SIZE) with 510.
  eapply safe_fill; [done|done|done|done|exact Hg|by eapply safe_done|done|done|done|].
  rewrite (gr_count _ _ _ _ _ _ _ _ Hg). unfold r, blocks_for. dlia.
Qed.
End torn.

(** ** Properties *)

(** C8: a crash inside a write damages no other file.  Wherever the machine stops while a
    file is written, the next mount accepts the image as it is; every other file and
    every directory is as it was, and the file is still a file with its permissions,
    whose contents may be torn. *)
Theorem write_crash_isolated `{Clock} `{Build} sb w (n : u32) (off : i64) (data : bytes) :
  clock_ok → mounted sb w → is_u64 (img_size (w_img w)) →
  ready (abs None sb w) (OpWrite n off data) → room (cost (abs None sb w) (OpWrite n off data)) w →
  ∀ img, crash_image (SimpleFS.write sb n off data) w img →
    ∃ A mode d d', mounts img A ∧
      abs None sb w !! n = Some (ANode mode (AFile d)) ∧ A !! n = Some (ANode mode (AFile d')) ∧
      ∀ q, q ≠ n → A !! q = abs None sb w !! q.
Proof.
  intros Hclock [Hc _] Hs [([d Hd] & Ho & Hu) Hmax] Hroom img Himg. cbn [within] in Hmax. unfold cost in Hroom.
  rewrite Hd in Hroom. cbn [from_option id] in Hroom.
  destruct (open_file _ _ _ _ _ Hc Hd) as (i & Hn & Hl & Hfile & Hf & -> & _).
  destruct (raw_contents sb i w (fn_ok _ _ _ Hf)) as [Hz _].
  rewrite Hz, <-(fn_count _ _ _ Hf) in Hroom.
  pose proof (safe_write_file Hclock sb w n i off data Hc Hn Hl Hfile Ho Hu Hmax Hroom Hs img Himg) as Ht.
  destruct (torn_mounts sb w n i img Hc Hn Hl Hfile Ht) as (A & Hm & Hother & d' & Hn').
  exists A, (i_mode i), (contents i w), d'. split_and!; [done| |done|done].
  rewrite (abs_of _ _ _ _ _ Hn Hl). unfold node. by rewrite decide_False.
Qed.

(** ** Witness: a file of one block that grows to two *)
#[local] Instance zero_clock : Clock := λ _, 0.
#[local] Instance checked_build : Build := true.
#[local] Existing Instance list_buffer.

Lemma write_crash_isolated_witness :
  ∃ r sb w, run (serve one_file) empty_image = Done (r, sb) w ∧
    ∀ img, crash_image (SimpleFS.write sb 1000 500 (replicate 20 7)) w img →
      ∃ A mode d d', mounts img A ∧
        abs None sb w !! (1000 : u32) = Some (ANode mode (AFile d)) ∧
        A !! (1000 : u32) = Some (ANode mode (AFile d')) ∧
        ∀ q, q ≠ 1000 → A !! q = abs None sb w !! q.
Proof.
  destruct run_one_file as (r & sb & w & Hrun & Hm & Hs & Habs & Hroom). exists r, sb, w.
  split; [exact Hrun|].
  apply (write_crash_isolated sb w 1000 500 (replicate 20 7) zero_clock_ok Hm Hs); rewrite Habs.
  - apply (bool_decide_unpack _). vm_compute. exact I.
  - exact Hroom.
Defined.
